(* ===== verification/_CoqProject ===== *)
-Q . S2P
Prelude.v
Externals.v
Concrete.v
GnosisTypes.v
Errors.v
Schema.v
Database.v
CountersModel.v
Blocks.v
Mints.v
Burns.v
GnosisConfig.v
GnosisRows.v
AuditedMints.v
AuditedBurns.v
SyncBlock.v
LedgerSpec.v
LedgerSync.v
MintVerdicts.v
SafeSync.v
SafeThread.v
AuditInvariant.v
Main.v
Faults.v
Handlers.v
SyncLoop.v
SafeSyncSpec.v
Scenario.v
System.v
Limits.v
Complete.v
CompleteSteps.v
CompleteProps.v
Recovery.v
LedgerProps.v
MatchProps.v
Missed.v
SafeProps.v
ThreadProps.v
Process.v
SafeParse.v
Convert.v
Service.v
Http.v
Server.v
Requests.v
TypesProps.v
ApiProps.v
MintInfo.v
Commands.v
Lives.v
Answers.v
TestUtils.v
ModelTests.v
MatchingTests.v
SyncTests.v
ApiTests.v
ConcreteJson.v
SafeFixture.v
Conformance.v
