(* ===== verification/Prelude.v ===== *)
(** * Reserve auditor: a verification library

    The reserve auditor follows two things at once, the MobileCoin ledger and the
    Gnosis safes that back the tokens minted on it, keeps what it sees in a SQLite
    database, ties every mint to the deposit that pays for it and every burn to the
    withdrawal it permits, and answers questions about the result over gRPC and
    HTTP.  This library models the crate under [src/src] in Rocq, definition by
    definition, and proves what makes it an audit.  This comment is the guide to it.

    ** The program and the files that model it

    Values and effects.  [Prelude] has results ([Res]: Rust's [Result] with the third
    way a call can end, a panic), the monad of stateful fallible calls [M], its
    program logic [wp], [expect] and [unwrap], wrapping 64-bit integers, fixed-size
    byte arrays and generic list lemmas.  [Externals] lists what comes from other
    crates (hex, chrono, url, SQLite where SQL leaves a choice, the MobileCoin
    crates) as classes of parameters, each with the laws its documentation promises;
    [Concrete] instantiates all of them, so the laws can hold together and the
    witnesses can run.

    Data.  [GnosisTypes] ([gnosis/eth_data_types.rs], [gnosis/error.rs],
    [db/models/sql_types.rs]), [Errors] ([error.rs], [mint_tx_nonce.rs]), [Schema]
    ([up.sql], [db/schema.rs], the row structs), [GnosisConfig] ([gnosis/config.rs],
    [utils.rs], [api_data_types.rs]).

    The database.  [Database] ([db/conn.rs], [db/transaction.rs]): the [World] that
    calls read and write, statements that may fail by a pending fault, transactions
    that roll back, the retry loop; and the lemmas that every later file uses, for
    reads ([query]), inserts, unchecked growth ([evolves]) and relations that all
    operations respect ([db_respects]).

    Components, one file each, in the order of the calls: [CountersModel]
    ([db/models/counters.rs], [counters.rs]), [Blocks] ([block_audit_data.rs],
    [block_balance.rs]), [Mints] ([mint_config.rs], [mint_config_tx.rs],
    [mint_tx.rs]), [Burns] ([burn_tx_out.rs]), [GnosisRows] ([gnosis_safe_*.rs]),
    [AuditedMints] and [AuditedBurns] ([audited_mint.rs], [audited_burn.rs]),
    [SyncBlock] ([db/mod.rs]), [SafeSync] ([gnosis/sync.rs], [gnosis/fetcher.rs]),
    [SafeThread] ([GnosisSync::new], [GnosisSync::poll], [gnosis/sync_thread.rs]),
    [Main] and [Commands] ([bin/main.rs], [db/conn.rs]), [Convert] ([convert/*.rs]),
    [Service] ([service.rs]), [Http] ([http_api/service.rs], [routes.rs],
    [api_types.rs]), [Server] ([http_api/mod.rs], [fairings.rs], the calls of
    [service.rs]).  A file holds one
    Module per Rust type, named like it, whose operations keep the names of the
    source, and after them the lemmas its callers need.

    Interaction.  The main thread runs [Main.sync_loop] for ever: every block is one
    exclusive transaction of [SyncBlock.sync_block_with_conn] followed by
    [Main.audit_block_data], which calls [try_match_mint_with_deposit] and
    [try_match_burn_with_withdrawal].  One thread per safe polls the safe's API; every
    transaction it has not seen is one exclusive transaction of
    [SafeSync.process_transaction], which calls [try_match_deposit_with_mint] and
    [try_match_withdrawal_with_burn].  The APIs only read.  [System.system_step] is
    the interleaving of these transactions with restarts, reads and changes outside
    of the database (faults among them).  [Process] is finer: the main thread with
    its phases, the threads of the safes as state machines ([SafeThread.thread_step]),
    and the unwinding that stops and joins them when [sync_loop] fails.  [Lives] is the
    whole use of the program: commands run one after another on one database, a process
    of [scan-ledger] that goes on until it ends or is killed, other commands beside it.
    [Requests] turns every HTTP handler into the program of its statements, with a proof
    that running it is running the handler; a request is then answered beside a running
    auditor, each of its statements at a moment of its own ([served]).

    ** What is proved

    - Abstract specifications: [LedgerSpec] is a model of the audit of a ledger that
      knows no database ([ledger_balances], [ledger_excess], [ledger_entries]), and
      [mirrors blocks d] says that [d] is the record of exactly these blocks.
      [AuditInvariant] has the invariant of the audit and the abstract steps.
      [LedgerSync], [Handlers] and [SafeSyncSpec] prove that the handlers refine
      them, whatever faults strike.
    - The whole system ([System], [CompleteProps], [Recovery], [Process], [Limits],
      [Missed], [LedgerProps.balances_conserved]): what is audited matches, is audited
      once, and the ledger's tables are the record of a prefix of the ledger, under
      any interleaving and any faults; without faults what matches is audited, at
      every moment (a burn that several withdrawals name, with one of them); every
      recorded mint respected the limits of its configuration before its block; the
      books balance; on a valid and readable ledger the faults that strike only delay
      the record by as many launches; the process, whose steps on the database are those
      of the system, can always be shut down; and a match that a fault prevented is
      never made up for.
    - From end to end ([Lives], [Requests], [Answers]): run the commands on a new database
      and ask an HTTP server while the auditor goes on; whatever has failed before, its
      answers are true of the blocks recorded while it answers, never go back, the pairs
      it shows as audited match, and when nothing has failed no mint and deposit it shows
      as unaudited do.  The totals of [/ledger_balance] are read on two connections, so
      the burned total may be of more blocks than the minted one ([ledger_balance_torn]).
    - Blocks ([LedgerProps]): [sync_block] refines the reference model, all or
      nothing; a valid next block is never refused; a wrong index always is; which
      configuration a mint is judged by ([MintVerdicts]); history is not rewritten.
    - Matching ([MatchProps]): every outcome of the four [try_match_*], errors
      included, with its exact effect; the two sides of a pair give the same database.
    - The safes ([SafeProps], [SafeParse], [ThreadProps]): which transactions are
      withdrawals and what is read from them, pagination, atomicity and repetition of
      processing, what a deposit and a withdrawal leave, a poll as the run of its
      thread, stopping, and the transactions that go wrong.
    - The servers ([Server]): a request, whatever it is and whatever faults strike, is a
      read of the process, and without faults its answer is a function of the database,
      while nothing else changes it.
    - The APIs ([ApiProps], [MintInfo], [Commands]): what is served is what the tables, and through
      [mirrors] the reference model, say; the mint information of a block, whose
      decoding and verification rest on an invariant of their own; messages survive
      the conversion.
    - Data types ([TypesProps]): round trips of nonces, hashes, values and addresses,
      the retry loop, the counters.

    [Scenario] has a ledger of four blocks, a safe and its API, on which the witnesses
    evaluate.  [Faults], [SyncLoop], [Complete] and [CompleteSteps] hold lemmas of the
    theorems on the whole system.

    ** The unit tests of the source

    A model can also be wrong where no theorem looks, so the tests its authors wrote for
    the program are run on it.  [TestUtils] has [db/test_utils.rs], equality of rows
    ([PartialEq]) and a monad in which a failed assertion is a panic.  [ModelTests],
    [MatchingTests], [SyncTests] and [ApiTests] translate the test functions of the
    [tests] modules, over parameters for random keys and messages ([TestHelpers]).
    [ConcreteJson] is a JSON parser, the decoders that the serde attributes describe and
    the part of TOML the tests use; [SafeFixture] is the answer of the Gnosis API that is
    kept in [data/test/all-transactions.json].  [Conformance] evaluates every test to
    success, and shows what two of them do not test.

    ** Fuel, bounds and faults

    [Main.sync_loop] takes one unit of fuel per iteration; more units than blocks are
    missing is enough, whatever faults occur ([System.sync_loop_terminates]).  The
    endless loop of [cmd_scan_ledger] is watched for a list of rounds, each with the
    moment at which it first asks the ledger for its length.
    [SafeSync.fetch_pages] takes one unit per page ([SafeParse.fetch_pages_concat]); a
    server that names further pages for ever keeps the code in the loop for ever, and
    theorems that need fetches to end say so.  [Database.transaction_loop] tries five
    times.  A fault list is finite but arbitrary, and [system_environment] may replace
    it at any time.  The theorems on the whole ledger suppose fewer than 2^63 blocks,
    the range of the signed columns.  Integers are [Z] with the wrap-around of release
    builds written out ([wrapping_add_u64], [as_i64], [as_u64], [sum_u64]).

    ** What is not modelled, and why

    - Faults of [COMMIT] and [ROLLBACK] themselves: what the connection is left in is
      decided inside Diesel and SQLite.  Faults of [BEGIN], of every statement and of
      the pool are modelled.  The overflow of a counter's column (SQLite turns the sum
      into a real number after 2^63 increments), and of the row ids, which the source
      reads as [i32]: tables are supposed to have fewer than 2^31 rows.
    - What a panic inside a transaction leaves on its connection.  Diesel does not roll
      back while unwinding and the pool takes the connection back, possibly with the
      exclusive transaction open; the code of both is not part of the repository.  The
      committed database is what [Database.conn_transaction] says; that later calls may
      find this connection or its lock is not modelled.
    - Two processes of [scan-ledger] that go on at the same time ([Lives]).  What the
      calls of the gRPC service and [/mint_info] answer is stated of one moment of the
      database ([ApiProps], [MintInfo]), not of a running auditor.
    - The decoders serde derives for the configuration and for the API's records,
      HTTP, the order in which SQLite scans and [HashMap] iterates: parameters (with
      decoders in [ConcreteJson] that the tests of the source run on).
    - Running the migrations, what the PRAGMAs of [db/conn.rs] do, the parsing of the
      command line, logging, Prometheus export, how grpcio and Rocket match and deliver
      requests and answers, what the admin server answers.  None of them decides anything
      about the audit.  That opening the ledger, the watcher or a server may fail, and
      what the commands do then, is in [Commands].
    - The generated [api] crate (its messages are the records of [Convert]), the web
      frontend, and the tests' start-up of servers on a socket (the calls the gRPC tests
      make over it are made directly). *)

From stdpp Require Export base tactics option list sorting strings gmap pretty.
From Stdlib Require Export ZArith Lia.
From Stdlib Require Export Strings.Byte.

#[global] Set Default Goal Selector "!".
#[global] Open Scope Z_scope.
#[global] Generalizable No Variables.

(** ** Results

    Rust's [Result<A, E>], with the third way a call can end: a panic
    ([unwrap], [expect], indexing out of bounds). *)
Inductive Res (E A : Type) : Type :=
| Ok (a : A)
| Err (e : E)
| Panic (msg : string).
Arguments Ok {E A} a.
Arguments Err {E A} e.
Arguments Panic {E A} msg.

(** [Result::map_err], also what the [?] operator does with [From::from]. *)
Definition map_err {E F A} (f : E -> F) (r : Res E A) : Res F A :=
  match r with
  | Ok a => Ok a
  | Err e => Err (f e)
  | Panic m => Panic m
  end.

(** [Option::ok_or]. *)
Definition ok_or {E A} (e : E) (o : option A) : Res E A :=
  match o with Some a => Ok a | None => Err e end.

(** [Result::ok]. *)
Definition res_ok {E A} (r : Res E A) : option A :=
  match r with Ok a => Some a | _ => None end.

(** [Result::is_ok]. *)
Definition is_ok {E A} (r : Res E A) : bool :=
  match r with Ok _ => true | _ => false end.

Definition res_bind {E A B} (r : Res E A) (k : A -> Res E B) : Res E B :=
  match r with
  | Ok a => k a
  | Err e => Err e
  | Panic m => Panic m
  end.

#[global] Instance Res_ret {E} : MRet (Res E) := fun A a => Ok a.
#[global] Instance Res_bind {E} : MBind (Res E) := fun A B k r => res_bind r k.

(** ** Stateful, fallible computations

    A handler reads and writes a state [S] and ends in a [Res].  The state at
    the end is returned on errors and panics too: what survives an error is a
    question about the code (see [Database.conn_transaction]). *)
Definition M (S E A : Type) : Type := S -> Res E A * S.

#[global] Instance M_ret {S E} : MRet (M S E) := fun A a s => (Ok a, s).
#[global] Instance M_bind {S E} : MBind (M S E) := fun A B k m s =>
  match m s with
  | (Ok a, s') => k a s'
  | (Err e, s') => (Err e, s')
  | (Panic p, s') => (Panic p, s')
  end.

Definition throw {S E A} (e : E) : M S E A := fun s => (Err e, s).
Definition panic {S E A} (msg : string) : M S E A := fun s => (Panic msg, s).
Definition gets {S E A} (f : S -> A) : M S E A := fun s => (Ok (f s), s).

(** A pure result in a stateful computation: [pure_call()?]. *)
Definition lift {S E A} (r : Res E A) : M S E A := fun s => (r, s).

(** The [?] operator across an error conversion [From<E> for F]. *)
Definition with_err {S E F A} (f : E -> F) (m : M S E A) : M S F A :=
  fun s => let '(r, s') := m s in (map_err f r, s').

(** Inspect the outcome of a call without leaving the caller: [match call()]. *)
Definition attempt {S E F A} (m : M S E A) : M S F (Res E A) :=
  fun s => match m s with
           | (Panic p, s') => (Panic p, s')
           | (r, s') => (Ok r, s')
           end.

(** [Result::expect]. *)
Definition expect {S E F A} (msg : string) (m : M S E A) : M S F A := fun s =>
  match m s with
  | (Ok a, s') => (Ok a, s')
  | (Err _, s') => (Panic msg, s')
  | (Panic p, s') => (Panic p, s')
  end.

(** [Option::unwrap] and [Result::unwrap] on pure values. *)
Definition unwrap {E A} (o : option A) : Res E A :=
  match o with
  | Some a => Ok a
  | None => Panic "called `Option::unwrap()` on a `None` value"
  end.

(** [for x in xs { f(x)? }], collecting the results. *)
Fixpoint for_each {S E A B} (f : A -> M S E B) (xs : list A) : M S E (list B) :=
  match xs with
  | [] => mret []
  | x :: xs' => y ← f x; ys ← for_each f xs'; mret (y :: ys)
  end.

(** [for x in xs { acc = f(acc, x)? }]. *)
Fixpoint fold_each {S E A B} (f : B -> A -> M S E B) (acc : B) (xs : list A) : M S E B :=
  match xs with
  | [] => mret acc
  | x :: xs' => acc' ← f acc x; fold_each f acc' xs'
  end.

(** ** Machine integers

    A Rust integer is its mathematical value in [Z]; the width shows in the
    casts and in the arithmetic. *)
Abbreviation two63 := 9223372036854775808.
Abbreviation two64 := 18446744073709551616.
Abbreviation two128 := 340282366920938463463374607431768211456.

Definition is_u64 (z : Z) : Prop := 0 <= z < two64.
Definition is_i64 (z : Z) : Prop := - two63 <= z < two63.
Definition is_u128 (z : Z) : Prop := 0 <= z < two128.

#[global] Instance is_u64_dec z : Decision (is_u64 z).
Proof. unfold is_u64. apply _. Defined.
#[global] Instance is_i64_dec z : Decision (is_i64 z).
Proof. unfold is_i64. apply _. Defined.
#[global] Instance is_u128_dec z : Decision (is_u128 z).
Proof. unfold is_u128. apply _. Defined.

(** [x as u64] and [x as i64] (two's complement reinterpretation). *)
Definition as_u64 (z : Z) : Z := z mod two64.
Definition as_i64 (z : Z) : Z :=
  let m := z mod two64 in if m <? two63 then m else m - two64.

(** [u64::checked_add], and [+] on [u64] with [overflow-checks = false]. *)
Definition checked_add_u64 (a b : Z) : option Z :=
  if a + b <? two64 then Some (a + b) else None.
Definition wrapping_add_u64 (a b : Z) : Z := (a + b) mod two64.

(** [Iterator::sum] over [u64] with [overflow-checks = false]. *)
Definition sum_u64 (l : list Z) : Z := foldr wrapping_add_u64 0 l.

(** ** Fixed-size byte arrays: [[u8; N]] *)
Record array (n : nat) := mk_array {
  array_bytes : list byte;
  array_len : bool_decide (length array_bytes = n);
}.
Arguments mk_array {n} _ _.
Arguments array_bytes {n} _.
Arguments array_len {n} _.

(** [TryFrom<&[u8]> for [u8; N]]. *)
Definition array_try_from (n : nat) (l : list byte) : option (array n) :=
  match decide (length l = n) with
  | left H => Some (mk_array l (bool_decide_pack _ H))
  | right _ => None
  end.

#[global] Instance byte_eq_dec : EqDecision byte := Byte.byte_eq_dec.

(** ** A small program logic

    [wp m Q s]: running [m] from [s] ends in a result and a state that satisfy
    [Q].  [respects R m]: [m] relates every state to its final state by [R],
    whatever its result. *)
Definition wp {S E A} (m : M S E A) (Q : Res E A -> S -> Prop) (s : S) : Prop :=
  Q (m s).1 (m s).2.

Definition respects {S E A} (R : S -> S -> Prop) (m : M S E A) : Prop :=
  forall s, R s (m s).2.

(** Every error [m] ends in, from any state, satisfies [P]. *)
Definition raises {S E A} (P : E -> Prop) (m : M S E A) : Prop :=
  forall s e, (m s).1 = Err e -> P e.

(** Only successful outcomes matter: [ensures Q] turns a postcondition on the
    returned value into one on results. *)
Definition ensures {S E A} (Q : A -> S -> Prop) (r : Res E A) (s : S) : Prop :=
  match r with Ok a => Q a s | _ => True end.

Section program_logic.
Context {S : Type}.
Implicit Types s : S.

Lemma wp_ret {E A} (a : A) (Q : Res E A -> S -> Prop) s : Q (Ok a) s -> wp (mret a) Q s.
Proof. done. Qed.

Lemma wp_throw {E A} (e : E) (Q : Res E A -> S -> Prop) s : Q (Err e) s -> wp (throw e) Q s.
Proof. done. Qed.

Lemma wp_panic {E A} p (Q : Res E A -> S -> Prop) s : Q (Panic p) s -> wp (panic p) Q s.
Proof. done. Qed.

Lemma wp_gets {E A} (f : S -> A) (Q : Res E A -> S -> Prop) s : Q (Ok (f s)) s -> wp (gets f) Q s.
Proof. done. Qed.

Lemma wp_lift {E A} (r : Res E A) (Q : Res E A -> S -> Prop) s : Q r s -> wp (lift r) Q s.
Proof. done. Qed.

Lemma wp_mono {E A} (m : M S E A) (P Q : Res E A -> S -> Prop) s :
  wp m P s -> (forall r s', P r s' -> Q r s') -> wp m Q s.
Proof. unfold wp. eauto. Qed.

Lemma wp_bind {E A B} (m : M S E A) (k : A -> M S E B) (Q : Res E B -> S -> Prop) s :
  wp m (fun r s' => match r with
                    | Ok a => wp (k a) Q s'
                    | Err e => Q (Err e) s'
                    | Panic p => Q (Panic p) s'
                    end) s <-> wp (m ≫= k) Q s.
Proof. unfold wp, mbind, M_bind. by destruct (m s) as [[] ?]. Qed.

Lemma wp_seq {E A B} (m : M S E A) (k : A -> M S E B) (Q : Res E B -> S -> Prop) s :
  wp m (fun r s' => match r with
                    | Ok a => wp (k a) Q s'
                    | Err e => Q (Err e) s'
                    | Panic p => Q (Panic p) s'
                    end) s -> wp (m ≫= k) Q s.
Proof. apply wp_bind. Qed.

Lemma wp_with_err {E F A} (f : E -> F) (m : M S E A) (Q : Res F A -> S -> Prop) s :
  wp m (fun r s' => Q (map_err f r) s') s <-> wp (with_err f m) Q s.
Proof. unfold wp, with_err. by destruct (m s). Qed.

Lemma wp_attempt {E F A} (m : M S E A) (Q : Res F (Res E A) -> S -> Prop) s :
  wp m (fun r s' => match r with
                    | Panic p => Q (Panic p) s'
                    | r => Q (Ok r) s'
                    end) s <-> wp (attempt m) Q s.
Proof. unfold wp, attempt. by destruct (m s) as [[] ?]. Qed.

Lemma wp_expect {E F A} msg (m : M S E A) (Q : Res F A -> S -> Prop) s :
  wp m (fun r s' => match r with
                    | Ok a => Q (Ok a) s'
                    | Err _ => Q (Panic msg) s'
                    | Panic p => Q (Panic p) s'
                    end) s -> wp (expect msg m) Q s.
Proof. unfold wp, expect. by destruct (m s) as [[] ?]. Qed.

Lemma wp_conj {E A} (m : M S E A) (P Q : Res E A -> S -> Prop) s :
  wp m P s -> wp m Q s -> wp m (fun r s' => P r s' /\ Q r s') s.
Proof. unfold wp. auto. Qed.

Section respects.
Context (R : S -> S -> Prop) `{!PreOrder R}.

Lemma respects_ret {E A} (a : A) : respects R (mret a : M S E A).
Proof. intros s. reflexivity. Qed.

Lemma respects_throw {E A} (e : E) : respects R (throw e : M S E A).
Proof. intros s. reflexivity. Qed.

Lemma respects_panic {E A} p : respects R (panic p : M S E A).
Proof. intros s. reflexivity. Qed.

Lemma respects_gets {E A} (f : S -> A) : respects R (gets f : M S E A).
Proof. intros s. reflexivity. Qed.

Lemma respects_lift {E A} (r : Res E A) : respects R (lift r : M S E A).
Proof. intros s. reflexivity. Qed.

Lemma respects_bind {E A B} (m : M S E A) (k : A -> M S E B) :
  respects R m -> (forall a, respects R (k a)) -> respects R (m ≫= k).
Proof.
  intros Hm Hk s. specialize (Hm s). unfold mbind, M_bind.
  destruct (m s) as [[a|e|p] s'] eqn:E1; simpl in *; [|done|done].
  etrans; [exact Hm | apply Hk].
Qed.

Lemma respects_with_err {E F A} (f : E -> F) (m : M S E A) :
  respects R m -> respects R (with_err f m).
Proof. intros Hm s. specialize (Hm s). unfold with_err. by destruct (m s). Qed.

Lemma respects_attempt {E F A} (m : M S E A) :
  respects R m -> respects R (attempt m : M S F (Res E A)).
Proof. intros Hm s. specialize (Hm s). unfold attempt. by destruct (m s) as [[] ?]. Qed.

Lemma respects_for_each {E A B} (f : A -> M S E B) xs :
  (forall x, x ∈ xs -> respects R (f x)) -> respects R (for_each f xs).
Proof.
  induction xs as [|x xs IH]; intros Hf; simpl; [apply respects_ret|].
  apply respects_bind; [apply Hf; set_solver|]. intros y.
  apply respects_bind; [apply IH; set_solver|]. intros ys. apply respects_ret.
Qed.

Lemma respects_fold_each {E A B} (f : B -> A -> M S E B) xs : forall acc,
  (forall acc x, x ∈ xs -> respects R (f acc x)) -> respects R (fold_each f acc xs).
Proof.
  induction xs as [|x xs IH]; intros acc Hf; simpl; [apply respects_ret|].
  apply respects_bind; [apply Hf; set_solver|]. intros y. apply IH. set_solver.
Qed.
End respects.

(** Errors of composed calls are the errors of their parts. *)
Section raises.
Context {E : Type} (P : E -> Prop).

Lemma raises_ret {A} (a : A) : raises P (mret a : M S E A).
Proof. by intros s e [=]. Qed.

Lemma raises_throw {A} (e : E) : P e -> raises P (throw e : M S E A).
Proof. by intros H s e' [= <-]. Qed.

Lemma raises_panic {A} p : raises P (panic p : M S E A).
Proof. by intros s e [=]. Qed.

Lemma raises_gets {A} (f : S -> A) : raises P (gets f : M S E A).
Proof. by intros s e [=]. Qed.

Lemma raises_lift {A} (r : Res E A) : (forall e, r = Err e -> P e) -> raises P (lift r : M S E A).
Proof. intros H s e. apply H. Qed.

Lemma raises_bind {A B} (m : M S E A) (k : A -> M S E B) :
  raises P m -> (forall a, raises P (k a)) -> raises P (m ≫= k).
Proof.
  intros Hm Hk s e. specialize (Hm s). unfold mbind, M_bind.
  destruct (m s) as [[a|e'|p] s']; simpl in *; [apply Hk|intros [= <-]; by apply Hm|done].
Qed.

Lemma raises_with_err {F A} (f : F -> E) (m : M S F A) :
  raises (fun e => P (f e)) m -> raises P (with_err f m).
Proof.
  intros Hm s e. specialize (Hm s). unfold with_err.
  destruct (m s) as [[a|e'|p] s']; simpl in *; naive_solver.
Qed.

Lemma raises_attempt {F A} (m : M S F A) : raises P (attempt m : M S E (Res F A)).
Proof. intros s e. unfold attempt. by destruct (m s) as [[] ?]. Qed.

Lemma raises_for_each {A B} (f : A -> M S E B) xs :
  (forall x, raises P (f x)) -> raises P (for_each f xs).
Proof.
  intros Hf. induction xs as [|x xs IH]; simpl; [apply raises_ret|].
  apply raises_bind; [done|]. intros y. apply raises_bind; [done|]. intros. apply raises_ret.
Qed.

Lemma raises_fold_each {A B} (f : B -> A -> M S E B) xs : forall acc,
  (forall acc x, raises P (f acc x)) -> raises P (fold_each f acc xs).
Proof.
  induction xs as [|x xs IH]; intros acc Hf; simpl; [apply raises_ret|].
  apply raises_bind; [done|]. intros y. by apply IH.
Qed.
End raises.

(** A loop body that keeps an invariant lets the whole loop keep it. *)
Lemma wp_for_each_inv {E A B} (I : S -> Prop) (f : A -> M S E B) xs s :
  (forall x s, x ∈ xs -> I s -> wp (f x) (fun _ s' => I s') s) ->
  I s -> wp (for_each f xs) (fun _ s' => I s') s.
Proof.
  revert s; induction xs as [|x xs IH]; intros s Hf HI; simpl; [done|].
  apply wp_bind. eapply wp_mono; [apply Hf; [set_solver|done]|].
  intros [y|e|p] s' HI'; [|done|done].
  apply wp_bind. eapply wp_mono; [apply IH; [set_solver|done]|].
  by intros [ys|e|p] s'' HI''.
Qed.

(** A fold keeps an invariant that speaks of the elements processed so far. *)
Lemma wp_fold_each {E A B} (I : list A -> B -> S -> Prop) (f : B -> A -> M S E B) xs acc
    (Q : Res E B -> S -> Prop) s :
  I [] acc s ->
  (forall pre x rest acc s, xs = pre ++ x :: rest -> I pre acc s ->
     wp (f acc x) (fun r s' => match r with
                               | Ok acc' => I (pre ++ [x]) acc' s'
                               | Err e => Q (Err e) s'
                               | Panic p => Q (Panic p) s'
                               end) s) ->
  (forall acc s, I xs acc s -> Q (Ok acc) s) ->
  wp (fold_each f acc xs) Q s.
Proof.
  intros H0 Hf HQ.
  assert (forall rest pre acc s, xs = pre ++ rest -> I pre acc s ->
            wp (fold_each f acc rest) Q s) as H; [|by apply (H xs [])].
  clear H0 s acc. induction rest as [|x rest IH]; intros pre acc s Hxs HI; simpl.
  - apply wp_ret, HQ. by rewrite Hxs, app_nil_r.
  - apply wp_bind. eapply wp_mono; [by eapply Hf|]. intros [acc'|e|p] s' Hs'; [|done..].
    apply (IH (pre ++ [x])); [|done]. by rewrite <- app_assoc.
Qed.
End program_logic.

(** ** Machine integer lemmas *)
Section integers.

Lemma as_u64_range z : is_u64 (as_u64 z).
Proof. unfold is_u64, as_u64. pose proof (Z.mod_pos_bound z two64). lia. Qed.

Lemma as_i64_range z : is_i64 (as_i64 z).
Proof.
  unfold is_i64, as_i64. pose proof (Z.mod_pos_bound z two64).
  destruct (Z.ltb_spec (z mod two64) two63); lia.
Qed.

Lemma as_u64_small z : is_u64 z -> as_u64 z = z.
Proof. unfold is_u64, as_u64. intros. apply Z.mod_small. lia. Qed.

Lemma as_i64_small z : is_i64 z -> 0 <= z -> as_i64 z = z.
Proof.
  unfold is_i64, as_i64. intros. rewrite Z.mod_small by lia.
  destruct (Z.ltb_spec z two63); lia.
Qed.

(** Storing a [u64] in a signed column and reading it back loses nothing. *)
Lemma as_u64_as_i64 z : is_u64 z -> as_u64 (as_i64 z) = z.
Proof.
  unfold is_u64, as_u64, as_i64. intros Hz. rewrite (Z.mod_small z) by lia.
  destruct (Z.ltb_spec z two63); [apply Z.mod_small; lia|].
  rewrite <- (Z.mod_add _ 1) by lia. rewrite Z.mod_small; lia.
Qed.

Lemma as_i64_as_u64 z : is_i64 z -> as_i64 (as_u64 z) = z.
Proof.
  unfold is_i64, as_u64, as_i64. intros Hz. rewrite Z.mod_mod by lia.
  destruct (decide (0 <= z)).
  - rewrite Z.mod_small by lia. destruct (Z.ltb_spec z two63); lia.
  - rewrite <- (Z.mod_add z 1) by lia. rewrite Z.mod_small by lia.
    destruct (Z.ltb_spec (z + 1 * two64) two63); lia.
Qed.

Lemma as_i64_inj a b : is_u64 a -> is_u64 b -> as_i64 a = as_i64 b -> a = b.
Proof. intros Ha Hb H. by rewrite <- (as_u64_as_i64 a), H, as_u64_as_i64. Qed.

Lemma checked_add_u64_Some a b c :
  checked_add_u64 a b = Some c <-> c = a + b /\ a + b < two64.
Proof. unfold checked_add_u64. destruct (Z.ltb_spec (a + b) two64); intuition (simplify_eq; lia || done). Qed.

Lemma sum_u64_mod l : sum_u64 l = (foldr Z.add 0 l) mod two64.
Proof.
  induction l as [|x l IH]; simpl; [done|]. unfold wrapping_add_u64.
  rewrite IH. by rewrite Zplus_mod_idemp_r.
Qed.

Lemma sum_u64_permutation l k : l ≡ₚ k -> sum_u64 l = sum_u64 k.
Proof.
  intros H. rewrite !sum_u64_mod. f_equal.
  induction H as [| | |??? _ ? _ ?]; simpl; lia.
Qed.
End integers.

(** ** Generic lemmas on lists and arrays *)
Section lists.

Lemma existsb_exists_elem {A} (f : A -> bool) l :
  existsb f l = true <-> exists x, x ∈ l /\ f x = true.
Proof. rewrite existsb_exists. by setoid_rewrite list_elem_of_In. Qed.

Lemma existsb_false {A} (f : A -> bool) l :
  existsb f l = false <-> forall x, x ∈ l -> f x = false.
Proof.
  rewrite <- not_true_iff_false, existsb_exists_elem. split.
  - intros H x Hx. apply not_true_is_false. eauto.
  - intros H (x & Hx & Hf). by rewrite H in Hf.
Qed.

Lemma NoDup_filter_bool {A} (f : A -> bool) l : NoDup l -> NoDup (List.filter f l).
Proof. rewrite !NoDup_ListNoDup. apply List.NoDup_filter. Qed.

Lemma elem_of_filter_bool {A} (f : A -> bool) l x : x ∈ List.filter f l <-> x ∈ l /\ f x = true.
Proof. rewrite !list_elem_of_In. apply List.filter_In. Qed.

Lemma filter_none {A} (f : A -> bool) l : (forall x, x ∈ l -> f x = false) -> List.filter f l = [].
Proof.
  induction l as [|x l IH]; intros H; [done|]. simpl. rewrite (H x) by (by left).
  apply IH. intros y Hy. apply H. by right.
Qed.

Lemma filter_fmap {A B} (f : A -> B) (p : B -> bool) l :
  f <$> List.filter (fun x => p (f x)) l = List.filter p (f <$> l).
Proof.
  induction l as [|x l IH]; [done|]. simpl. destruct (p (f x)); simpl; [f_equal|]; exact IH.
Qed.

Lemma sublist_filter_bool {A} (f : A -> bool) l : List.filter f l `sublist_of` l.
Proof. induction l as [|x l IH]; simpl; [constructor|]. destruct (f x); by constructor. Qed.

Lemma filter_app' {A} (f : A -> bool) l k :
  List.filter f (l ++ k) = List.filter f l ++ List.filter f k.
Proof. apply List.filter_app. Qed.

Lemma head_elem_of {A} (l : list A) x : head l = Some x -> x ∈ l.
Proof. destruct l; [done|]. intros [= ->]. by left. Qed.

Lemma array_eq {n} (a b : array n) : array_bytes a = array_bytes b -> a = b.
Proof.
  destruct a as [la Ha], b as [lb Hb]; simpl; intros ->. f_equal. apply proof_irrel.
Qed.

Lemma array_length {n} (a : array n) : length (array_bytes a) = n.
Proof. destruct a as [l H]; simpl. by apply bool_decide_unpack in H. Qed.

Lemma array_try_from_Some n l a : array_try_from n l = Some a <-> array_bytes a = l.
Proof.
  unfold array_try_from. destruct (decide (length l = n)) as [Hl|Hl]; split.
  - by intros [= <-].
  - intros <-. f_equal. by apply array_eq.
  - done.
  - intros <-. by rewrite array_length in Hl.
Qed.

Lemma array_try_from_None n l : array_try_from n l = None <-> length l <> n.
Proof. unfold array_try_from. by destruct (decide (length l = n)). Qed.
End lists.

#[global] Instance array_eq_dec n : EqDecision (array n).
Proof.
  intros a b. destruct (decide (array_bytes a = array_bytes b)) as [H|H].
  - left. by apply array_eq.
  - right. naive_solver.
Defined.
