(* ===== verification/Externals.v ===== *)
(** * What the auditor takes from its dependencies

    Every value the auditor obtains from a third-party crate or from the
    MobileCoin submodules is a parameter: a class of operations, and next to it
    a class of the laws that the documentation of that crate promises.  Nothing
    here says how those crates work.

    - [Hex]: the [hex] crate.
    - [Chrono]: dates of the [chrono] crate.
    - [UrlLib]: the [url] crate.
    - [Sqlite]: what SQL leaves open: the order of rows of a query without
      [ORDER BY] (written [scan]) and the texts of constraint violations.
    - [HashOrder]: the iteration order of a [HashMap].
    - [MobileCoin]: [mc_transaction_core], [mc_util_serial], [mc_api],
      [mc_account_keys], [mc_transaction_extra].
    - [SerdeJson]: the [serde_json] crate (in [GnosisTypes], where the type it
      decodes into is defined). *)

From Stdlib Require Import Ascii.
From S2P Require Import Prelude.

(** A call into a dependency: its error, already displayed, or its value. *)
Abbreviation ext A := (string + A)%type.

(** Using such a call inside the auditor, with the [From] conversion of [?]. *)
Definition from_ext {F A} (f : string -> F) (r : ext A) : Res F A :=
  match r with inl e => Err (f e) | inr a => Ok a end.

(** ** hex *)
Class Hex := {
  hex_encode : list byte -> string;
  hex_decode : string -> ext (list byte);   (* Err: displayed FromHexError *)
}.

(** ASCII lower-casing ([str::to_lowercase] on ASCII text). *)
Definition to_lower_ascii (c : ascii) : ascii :=
  let n := Ascii.N_of_ascii c in
  if ((65 <=? n) && (n <=? 90))%N then Ascii.ascii_of_N (n + 32) else c.
Fixpoint to_lowercase (s : string) : string :=
  match s with
  | EmptyString => EmptyString
  | String c s' => String (to_lower_ascii c) (to_lowercase s')
  end.

Class HexLaws `{Hex} : Prop := {
  hex_decode_encode b : hex_decode (hex_encode b) = inr b;
  hex_encode_decode s b : hex_decode s = inr b -> hex_encode b = to_lowercase s;
  hex_encode_length b : String.length (hex_encode b) = (2 * length b)%nat;
}.

(** ** chrono *)
Class Chrono := {
  DateTime : Type;                                (* DateTime<Utc> *)
  NaiveDateTime : Type;
  naive_utc : DateTime -> NaiveDateTime;
  from_naive_utc : NaiveDateTime -> DateTime;     (* from_naive_utc_and_offset(_, Utc) *)
  timestamp_nanos_opt : DateTime -> option Z;
  timestamp_nanos : Z -> DateTime;                (* Utc.timestamp_nanos *)
  timestamp_opt_single : Z -> option DateTime;    (* Utc.timestamp_opt(_, 0).single() *)
}.

Class ChronoLaws `{Chrono} : Prop := {
  naive_from_naive n : naive_utc (from_naive_utc n) = n;
  from_naive_naive d : from_naive_utc (naive_utc d) = d;
  timestamp_nanos_round d n :
    timestamp_nanos_opt d = Some n -> is_i64 n /\ timestamp_nanos n = d;
}.

(** ** url *)
Class UrlLib := {
  Url : Type;
  url_path : Url -> string;
  url_join : Url -> string -> ext Url;     (* Err: displayed ParseError *)
  url_display : Url -> string;
}.

(** ** SQLite, as far as SQL leaves it open *)
Class Sqlite := {
  scan : forall {R : Type}, list R -> list R;
  unique_message : string -> string;
  foreign_key_message : string;
  syntax_error_message : string -> string;   (* near what *)
}.

Class SqliteLaws `{Sqlite} : Prop := {
  scan_permutation {R : Type} (l : list R) : scan l ≡ₚ l;
}.

(** ** Iteration over a [HashMap<TokenId, u64>] *)
Class HashOrder := {
  hash_iter : gmap Z Z -> list (Z * Z);
}.

Class HashOrderLaws `{HashOrder} : Prop := {
  hash_iter_permutation m : hash_iter m ≡ₚ map_to_list m;
}.

(** ** MobileCoin

    The transaction types are abstract; the accessors are the fields and
    methods the auditor uses.  A [TokenId] is the [u64] it wraps. *)
Class MobileCoin := {
  (* mc_crypto_keys, mc_account_keys *)
  RistrettoPublic : Type;
  RistrettoPrivate : Type;
  CompressedRistrettoPublic : Type;
  Ed25519Public : Type;
  PublicAddress : Type;
  public_address_new : RistrettoPublic -> RistrettoPublic -> PublicAddress;
  burn_address_view_private : RistrettoPrivate;
  compressed_as_bytes : CompressedRistrettoPublic -> list byte;
  compressed_try_from : list byte -> ext CompressedRistrettoPublic; (* Err: KeyError *)
  ristretto_public_try_from : CompressedRistrettoPublic -> ext RistrettoPublic;
  (* mc_api::printable *)
  b58_encode : PublicAddress -> ext string;          (* Err: ApiDisplayError *)
  (* mc_transaction_core::mint, mc_crypto_multisig *)
  MultiSig : Type;
  SignerSet : Type;
  signer_set_verify : SignerSet -> list byte -> MultiSig -> ext (list Ed25519Public);
  CoreMintConfig : Type;
  core_mint_config_token_id : CoreMintConfig -> Z;
  core_mint_config_mint_limit : CoreMintConfig -> Z;
  core_mint_config_signer_set : CoreMintConfig -> SignerSet;
  CoreMintConfigTx : Type;
  core_mint_config_tx_token_id : CoreMintConfigTx -> Z;
  core_mint_config_tx_configs : CoreMintConfigTx -> list CoreMintConfig;
  core_mint_config_tx_nonce : CoreMintConfigTx -> list byte;
  core_mint_config_tx_tombstone_block : CoreMintConfigTx -> Z;
  core_mint_config_tx_total_mint_limit : CoreMintConfigTx -> Z;
  CoreMintTx : Type;
  core_mint_tx_token_id : CoreMintTx -> Z;
  core_mint_tx_amount : CoreMintTx -> Z;
  core_mint_tx_view_public_key : CoreMintTx -> RistrettoPublic;
  core_mint_tx_spend_public_key : CoreMintTx -> RistrettoPublic;
  core_mint_tx_nonce : CoreMintTx -> list byte;
  core_mint_tx_tombstone_block : CoreMintTx -> Z;
  core_mint_tx_prefix_hash : CoreMintTx -> list byte;
  core_mint_tx_signature : CoreMintTx -> MultiSig;
  (* mc_transaction_core::tx, mc_transaction_extra *)
  TxOut : Type;
  tx_out_public_key : TxOut -> CompressedRistrettoPublic;
  view_key_match : TxOut -> RistrettoPrivate -> ext (Z * Z); (* (value, token id) *)
  SharedSecret : Type;
  get_tx_out_shared_secret : RistrettoPrivate -> RistrettoPublic -> SharedSecret;
  MemoPayload : Type;
  decrypt_memo : TxOut -> SharedSecret -> MemoPayload;
  (* MemoType::try_from: the data of a burn redemption memo, or another memo *)
  memo_type_try_from : MemoPayload -> ext (option (list byte));
  (* mc_util_serial *)
  encode_mint_config : CoreMintConfig -> list byte;
  decode_mint_config : list byte -> ext CoreMintConfig;
  encode_mint_config_tx : CoreMintConfigTx -> list byte;
  decode_mint_config_tx : list byte -> ext CoreMintConfigTx;
  encode_mint_tx : CoreMintTx -> list byte;
  decode_mint_tx : list byte -> ext CoreMintTx;
  encode_tx_out : TxOut -> list byte;
  decode_tx_out : list byte -> ext TxOut;
  (* Display for TokenId and MintTx *)
  token_id_display : Z -> string;
}.

Class MobileCoinLaws `{MobileCoin} : Prop := {
  mint_config_limit_u64 c : is_u64 (core_mint_config_mint_limit c);
  mint_config_tx_token_u64 t : is_u64 (core_mint_config_tx_token_id t);
  mint_config_tx_limit_u64 t : is_u64 (core_mint_config_tx_total_mint_limit t);
  mint_config_tx_tombstone_u64 t : is_u64 (core_mint_config_tx_tombstone_block t);
  mint_tx_token_u64 t : is_u64 (core_mint_tx_token_id t);
  mint_tx_amount_u64 t : is_u64 (core_mint_tx_amount t);
  mint_tx_tombstone_u64 t : is_u64 (core_mint_tx_tombstone_block t);
  view_key_match_u64 t k v i : view_key_match t k = inr (v, i) -> is_u64 v /\ is_u64 i;
  compressed_bytes_length c : length (compressed_as_bytes c) = 32%nat;
  compressed_round c : compressed_try_from (compressed_as_bytes c) = inr c;
  compressed_round_bytes b c : compressed_try_from b = inr c -> compressed_as_bytes c = b;
  decode_encode_mint_config c : decode_mint_config (encode_mint_config c) = inr c;
  decode_encode_mint_config_tx t : decode_mint_config_tx (encode_mint_config_tx t) = inr t;
  decode_encode_mint_tx t : decode_mint_tx (encode_mint_tx t) = inr t;
  decode_encode_tx_out t : decode_tx_out (encode_tx_out t) = inr t;
}.
