(* ===== verification/Concrete.v ===== *)
(** * Concrete instances of the parameters

    Small executable instances of the classes of [Externals], with proofs of
    their laws.  They show that the laws can hold together and let the witnesses
    evaluate the model on concrete inputs; no theorem depends on them.  The
    MobileCoin types are byte strings whose fields sit at fixed positions, so
    that encoding is the identity. *)

From Stdlib Require Import Ascii.
From S2P Require Import Prelude Externals.

(** ** Hexadecimal text *)
Definition hex_digit (n : N) : ascii :=
  Ascii.ascii_of_N (if (n <? 10)%N then 48 + n else 87 + n)%N.

Definition hex_value (c : ascii) : option N :=
  let n := Ascii.N_of_ascii c in
  if ((48 <=? n) && (n <=? 57))%N then Some (n - 48)%N
  else if ((97 <=? n) && (n <=? 102))%N then Some (n - 87)%N
  else if ((65 <=? n) && (n <=? 70))%N then Some (n - 55)%N
  else None.

Fixpoint hex_encode_bytes (l : list byte) : string :=
  match l with
  | [] => EmptyString
  | b :: l' =>
      String (hex_digit (Byte.to_N b / 16)) (String (hex_digit (Byte.to_N b mod 16)) (hex_encode_bytes l'))
  end.

Definition hex_pair (a b : ascii) : option byte :=
  x ← hex_value a; y ← hex_value b; Byte.of_N (16 * x + y).

Fixpoint hex_decode_text (s : string) : ext (list byte) :=
  match s with
  | EmptyString => inr []
  | String _ EmptyString => inl "Odd number of digits"
  | String a (String b s') =>
      match hex_pair a b with
      | None => inl "Invalid character"
      | Some x => match hex_decode_text s' with inl e => inl e | inr l => inr (x :: l) end
      end
  end.

#[export] Instance concrete_hex : Hex := {
  hex_encode := hex_encode_bytes;
  hex_decode := hex_decode_text;
}.

Definition all_asciis : list ascii := Ascii.ascii_of_nat <$> seq 0 256.

Lemma elem_of_all_asciis c : c ∈ all_asciis.
Proof.
  apply list_elem_of_fmap. exists (Ascii.nat_of_ascii c).
  split; [by rewrite Ascii.ascii_nat_embedding|]. apply elem_of_seq.
  pose proof (Ascii.nat_ascii_bounded c). lia.
Qed.

Lemma hex_pair_encode b :
  hex_pair (hex_digit (Byte.to_N b / 16)) (hex_digit (Byte.to_N b mod 16)) = Some b.
Proof. by destruct b. Qed.

Definition hex_digits : list ascii :=
  List.filter (fun c => match hex_value c with Some _ => true | None => false end) all_asciis.

Definition hex_pair_ok (a b : ascii) : bool :=
  match hex_pair a b with
  | None => true
  | Some x => Ascii.eqb (hex_digit (Byte.to_N x / 16)) (to_lower_ascii a)
              && Ascii.eqb (hex_digit (Byte.to_N x mod 16)) (to_lower_ascii b)
  end.

Lemma hex_pairs_ok : forallb (fun a => forallb (hex_pair_ok a) hex_digits) hex_digits = true.
Proof. vm_compute. reflexivity. Qed.

Lemma hex_pair_lower a b x :
  hex_pair a b = Some x ->
  hex_digit (Byte.to_N x / 16) = to_lower_ascii a /\
  hex_digit (Byte.to_N x mod 16) = to_lower_ascii b.
Proof.
  intros H. assert (forall c y, hex_value c = Some y -> In c hex_digits) as Hin.
  { intros c y Hc. apply List.filter_In. rewrite Hc. split; [|done].
    apply list_elem_of_In, elem_of_all_asciis. }
  pose proof H as H'. unfold hex_pair in H'.
  destruct (hex_value a) as [u|] eqn:Ea; simpl in H'; [|done].
  destruct (hex_value b) as [v|] eqn:Eb; simpl in H'; [|done].
  pose proof hex_pairs_ok as Hok. rewrite forallb_forall in Hok.
  specialize (Hok a (Hin _ _ Ea)). rewrite forallb_forall in Hok.
  specialize (Hok b (Hin _ _ Eb)). unfold hex_pair_ok in Hok. rewrite H in Hok.
  apply andb_true_iff in Hok as [H1%Ascii.eqb_eq H2%Ascii.eqb_eq]. done.
Qed.

#[export] Instance concrete_hex_laws : HexLaws.
Proof.
  split; unfold hex_encode, hex_decode; simpl.
  - induction b as [|b l IH]; [done|]. simpl. by rewrite hex_pair_encode, IH.
  - intros s.
    assert (forall n s b, (String.length s <= n)%nat -> hex_decode_text s = inr b ->
              hex_encode_bytes b = to_lowercase s) as H.
    { clear. intros n. induction n as [|n IH]; intros s b Hl H.
      { destruct s; simpl in *; [by injection H as <-|lia]. }
      destruct s as [|a [|c s]]; simpl in *; [by injection H as <-|done|].
      destruct (hex_pair a c) as [x|] eqn:Hp; [|done].
      destruct (hex_decode_text s) as [|l] eqn:Hd; [done|]. injection H as <-. simpl.
      apply hex_pair_lower in Hp as [-> ->]. do 2 f_equal. apply IH; [lia|done]. }
    intros b. by apply (H (String.length s)).
  - induction b as [|b l IH]; [done|]. simpl in *. lia.
Qed.

(** ** Dates, URLs, SQLite, hash maps *)
#[export] Instance concrete_chrono : Chrono := {
  DateTime := Z;
  NaiveDateTime := Z;
  naive_utc d := d;
  from_naive_utc d := d;
  timestamp_nanos_opt d := if decide (is_i64 d) then Some d else None;
  timestamp_nanos n := n;
  timestamp_opt_single s := Some (s * 1000000000);
}.

#[export] Instance concrete_chrono_laws : ChronoLaws.
Proof. split; [done|done|]. simpl. intros d n. case_decide; naive_solver. Qed.

#[export] Instance concrete_url : UrlLib := {
  Url := string;
  url_path u := u;
  url_join u s := inr (u +:+ s);
  url_display u := u;
}.

#[export] Instance concrete_sqlite : Sqlite := {
  scan _ l := l;
  unique_message t := "UNIQUE constraint failed: " +:+ t;
  foreign_key_message := "FOREIGN KEY constraint failed";
  syntax_error_message text := "near '" +:+ text +:+ "': syntax error";
}.

#[export] Instance concrete_sqlite_laws : SqliteLaws.
Proof. by split. Qed.

#[export] Instance concrete_hash_order : HashOrder := { hash_iter := map_to_list }.

#[export] Instance concrete_hash_order_laws : HashOrderLaws.
Proof. by split. Qed.

(** ** MobileCoin types as byte strings *)

(** Eight bytes, least significant first. *)
Fixpoint le_bytes (l : list byte) : Z :=
  match l with [] => 0 | b :: l' => Z.of_N (Byte.to_N b) + 256 * le_bytes l' end.
Definition u64_at (i : nat) (l : list byte) : Z := as_u64 (le_bytes (take 8 (drop i l))).

(** Exactly [n] bytes, cut or padded with zeros. *)
Definition pad (n : nat) (l : list byte) : list byte := take n (l ++ replicate n x00).

Lemma pad_length n l : length (pad n l) = n.
Proof. unfold pad. rewrite length_take, length_app, length_replicate. lia. Qed.

Definition array_of (n : nat) (l : list byte) : array n :=
  mk_array (pad n l) (bool_decide_pack _ (pad_length n l)).

(** Mint configurations are sixteen bytes: the limit and the signer. *)
Fixpoint chunks16 (fuel : nat) (l : list byte) : list (list byte) :=
  match fuel, l with
  | S fuel', _ :: _ => take 16 l :: chunks16 fuel' (drop 16 l)
  | _, _ => []
  end.

#[export] Instance concrete_mobilecoin : MobileCoin := {
  RistrettoPublic := Z;
  RistrettoPrivate := unit;
  CompressedRistrettoPublic := array 32;
  Ed25519Public := Z;
  PublicAddress := Z * Z;
  public_address_new spend view := (spend, view);
  burn_address_view_private := tt;
  compressed_as_bytes := array_bytes;
  compressed_try_from l :=
    match array_try_from 32 l with Some a => inr a | None => inl "length mismatch" end;
  ristretto_public_try_from a := inr (le_bytes (array_bytes a));
  b58_encode a := inr ("b58:" +:+ pretty (fst a) +:+ ":" +:+ pretty (snd a));
  MultiSig := Z;
  SignerSet := Z;
  signer_set_verify signer _ sig := if signer =? sig then inr [signer] else inl "bad signature";
  (* limit at 0, signer at 8 *)
  CoreMintConfig := list byte;
  core_mint_config_token_id _ := 0;
  core_mint_config_mint_limit := u64_at 0;
  core_mint_config_signer_set := u64_at 8;
  (* token id at 0, limit at 8, tombstone at 16, nonce of 64 bytes at 24, configs *)
  CoreMintConfigTx := list byte;
  core_mint_config_tx_token_id := u64_at 0;
  core_mint_config_tx_total_mint_limit := u64_at 8;
  core_mint_config_tx_tombstone_block := u64_at 16;
  core_mint_config_tx_nonce t := pad 64 (drop 24 t);
  core_mint_config_tx_configs t := chunks16 (length t) (drop 88 t);
  (* token id at 0, amount at 8, tombstone at 16, signature at 24, nonce at 32 *)
  CoreMintTx := list byte;
  core_mint_tx_token_id := u64_at 0;
  core_mint_tx_amount := u64_at 8;
  core_mint_tx_tombstone_block := u64_at 16;
  core_mint_tx_signature := u64_at 24;
  core_mint_tx_nonce t := pad 64 (drop 32 t);
  core_mint_tx_view_public_key := u64_at 96;
  core_mint_tx_spend_public_key := u64_at 104;
  core_mint_tx_prefix_hash t := t;
  (* public key at 0, 1 for a burn at 32, value at 33, token id at 41, memo at 49 *)
  TxOut := list byte;
  tx_out_public_key := array_of 32;
  view_key_match t _ :=
    match drop 32 t with
    | x01 :: _ => inr (u64_at 33 t, u64_at 41 t)
    | _ => inl "view key mismatch"
    end;
  SharedSecret := unit;
  get_tx_out_shared_secret _ _ := tt;
  MemoPayload := list byte;
  decrypt_memo t _ := drop 49 t;
  memo_type_try_from m :=
    match m with [] => inr None | x00 :: m' => inr (Some m') | _ => inl "unknown memo type" end;
  encode_mint_config t := t;
  decode_mint_config := inr;
  encode_mint_config_tx t := t;
  decode_mint_config_tx := inr;
  encode_mint_tx t := t;
  decode_mint_tx := inr;
  encode_tx_out t := t;
  decode_tx_out := inr;
  token_id_display := pretty;
}.

#[export] Instance concrete_mobilecoin_laws : MobileCoinLaws.
Proof.
  split; simpl; try done; try (intros; apply as_u64_range).
  - intros t _ v i. repeat case_match; intros [= <- <-]; split; apply as_u64_range.
  - intros c. apply array_length.
  - intros c. by rewrite (proj2 (array_try_from_Some _ _ c) eq_refl).
  - intros b c. destruct (array_try_from 32 b) as [a|] eqn:E; [|done].
    intros [= <-]. by apply array_try_from_Some.
Qed.
