(* ===== verification/GnosisTypes.v ===== *)
(** * [src/gnosis/error.rs], [src/gnosis/eth_data_types.rs], [src/db/models/sql_types.rs]

    The error type of the Gnosis part, the Ethereum data types and their textual
    forms, which are also the forms stored in SQLite. *)

From Stdlib Require Import Ascii.
From S2P Require Import Prelude Externals.

(** ** [gnosis::Error] *)
Module Gnosis.

Inductive Error : Type :=
| PathExtension
| UnrecognizedExtension (ext : string)
| Json (err : string)
| Toml (err : string)
| Io (err : string)
| InvalidAddress (msg : string)
| InvalidTxHash (msg : string)
| InvalidTxValue (msg : string)
| UrlParse (err : string)
| ApiResultParse (msg : string)
| UnknownToken (msg : string)
| Other (msg : string).

(** [Display], derived from the documentation comments. *)
Definition display (e : Error) : string :=
  match e with
  | PathExtension => "Cannot figure out file extension"
  | UnrecognizedExtension s => "Unrecognized file extension " +:+ s
  | Json s => "JSON: " +:+ s
  | Toml s => "TOML: " +:+ s
  | Io s => "IO: " +:+ s
  | InvalidAddress s => "Invalid address: " +:+ s
  | InvalidTxHash s => "Invalid tx hash: " +:+ s
  | InvalidTxValue s => "Invalid tx value: " +:+ s
  | UrlParse s => "URL parse error: " +:+ s
  | ApiResultParse s => "Api result parse error: " +:+ s
  | UnknownToken s => "Unknown Token: " +:+ s
  | Other s => "Other: " +:+ s
  end.

End Gnosis.

(** ** Strings: [str::starts_with], slicing, [str::parse::<u128>] *)
Fixpoint starts_with (pre s : string) : bool :=
  match pre, s with
  | EmptyString, _ => true
  | String a pre', String b s' => Ascii.eqb a b && starts_with pre' s'
  | String _ _, EmptyString => false
  end.

(** [&s[n..]] (callers have checked that [s] has [n] bytes of ASCII). *)
Fixpoint slice_from (n : nat) (s : string) : string :=
  match n, s with
  | O, _ => s
  | S n', String _ s' => slice_from n' s'
  | S _, EmptyString => EmptyString
  end.

#[global] Arguments slice_from !n !s.

Definition digit_of_ascii (c : ascii) : option Z :=
  let n := Z.of_N (Ascii.N_of_ascii c) in
  if (48 <=? n) && (n <=? 57) then Some (n - 48) else None.

(** Digits accumulated left to right, failing as soon as [u128] overflows. *)
Fixpoint parse_digits (acc : Z) (s : string) : option Z :=
  match s with
  | EmptyString => Some acc
  | String c s' =>
      d ← digit_of_ascii c;
      let acc' := acc * 10 + d in
      if acc' <? two128 then parse_digits acc' s' else None
  end.

(** [core::num]: empty input and a lone sign are errors, one leading [+] is
    allowed, [-] is not a digit of an unsigned type. *)
Definition parse_u128 (s : string) : option Z :=
  match s with
  | EmptyString => None
  | String c EmptyString => digit_of_ascii c
  | String c s' => if Ascii.eqb c "+" then parse_digits 0 s' else parse_digits 0 s
  end.

(** ** [EthTxValue] *)
Module EthTxValue.

Record t := mk { value : Z }.

Definition MAX : Z := two128 - 1.

Definition from_str (src : string) : Res Gnosis.Error t :=
  match parse_u128 src with
  | None => Err (Gnosis.InvalidTxValue ("unable to parse value to EthTxValue: " +:+ src))
  | Some v => Ok (mk v)
  end.

Definition to_string (v : t) : string := pretty (value v).

End EthTxValue.

(** ** [EthAddr]: the text is kept as given, comparisons ignore case *)
Module EthAddr.

Record t := mk { text : string }.

Definition LEN : nat := 20.

Definition display (a : t) : string := text a.

Definition eqb (a b : t) : bool := bool_decide (to_lowercase (text a) = to_lowercase (text b)).

(** [Ord::cmp]: the lower-cased texts, byte by byte. *)
Definition cmp (a b : t) : comparison := String.compare (to_lowercase (text a)) (to_lowercase (text b)).

(** [Hash::hash]: what is fed to the hasher. *)
Definition hash_text (a : t) : string := to_lowercase (text a).

Section from_str.
Context {X_hex : Hex}.

Definition from_str (src : string) : Res Gnosis.Error t :=
  if String.eqb src EmptyString then Err (Gnosis.InvalidAddress "empty address")
  else if negb (starts_with "0x" src) then
    Err (Gnosis.InvalidAddress ("expected address to begin with 0x, instead found " +:+ src))
  else
    bytes ← from_ext (fun _ => Gnosis.InvalidAddress
               ("unable to convert address to bytes for address: " +:+ src))
               (hex_decode (slice_from 2 src));
    if negb (Nat.eqb (length bytes) LEN) then
      Err (Gnosis.InvalidAddress
        ("expected byte conversion of address " +:+ src +:+ " to be equal to "
         +:+ pretty (Z.of_nat LEN) +:+ ", instead found " +:+ pretty (Z.of_nat (length bytes))))
    else Ok (mk src).
End from_str.

End EthAddr.

(** ** [EthTxHash]: 32 bytes, shown as [0x] and 64 hexadecimal digits *)
Module EthTxHash.

Definition LEN : nat := 32.

Definition t : Type := array LEN.

Section with_hex.
Context {X_hex : Hex}.

Definition try_from (src : list byte) : Res Gnosis.Error t :=
  ok_or (Gnosis.InvalidTxHash (hex_encode src)) (array_try_from LEN src).

Definition from_str (src : string) : Res Gnosis.Error t :=
  if negb (starts_with "0x" src) then Err (Gnosis.InvalidTxHash src)
  else
    bytes ← from_ext (fun _ => Gnosis.InvalidTxHash src) (hex_decode (slice_from 2 src));
    try_from bytes.

Definition display (h : t) : string := "0x" +:+ hex_encode (array_bytes h).
End with_hex.

Definition as_ref (h : t) : list byte := array_bytes h.

End EthTxHash.

(** ** The Diesel wrappers: [ToSql] and [FromSql] through text columns *)
Section sql_types.
Context {X_hex : Hex}.

Definition SqlEthTxValue_to_sql (v : EthTxValue.t) : string := EthTxValue.to_string v.
Definition SqlEthTxValue_from_sql (s : string) : Res string EthTxValue.t :=
  map_err Gnosis.display (EthTxValue.from_str s).

Definition SqlEthAddr_to_sql (a : EthAddr.t) : string := EthAddr.display a.
Definition SqlEthAddr_from_sql (s : string) : Res string EthAddr.t :=
  map_err Gnosis.display (EthAddr.from_str s).

Definition SqlEthTxHash_to_sql (h : EthTxHash.t) : string := EthTxHash.display h.
Definition SqlEthTxHash_from_sql (s : string) : Res string EthTxHash.t :=
  map_err Gnosis.display (EthTxHash.from_str s).
End sql_types.

(** ** Decimal text *)
Section parse.

Lemma parse_digits_bound acc s v : acc < two128 -> parse_digits acc s = Some v -> v < two128.
Proof.
  revert acc. induction s as [|c s IH]; intros acc Hacc; simpl; [naive_solver|].
  destruct (digit_of_ascii c) as [d|]; simpl; [|done].
  destruct (Z.ltb_spec (acc * 10 + d) two128); [apply IH; lia | done].
Qed.

Lemma digit_of_ascii_range c d : digit_of_ascii c = Some d -> 0 <= d < 10.
Proof.
  unfold digit_of_ascii. generalize (Z.of_N (Ascii.N_of_ascii c)). intros n.
  destruct (Z.leb_spec 48 n), (Z.leb_spec n 57); simpl; intros [=]; lia.
Qed.

Lemma parse_digits_nonneg acc s v : 0 <= acc -> parse_digits acc s = Some v -> 0 <= v.
Proof.
  revert acc. induction s as [|c s IH]; intros acc Hacc; simpl; [naive_solver|].
  destruct (digit_of_ascii c) as [d|] eqn:Ed; simpl; [|done].
  apply digit_of_ascii_range in Ed. case_match; [apply IH; lia | done].
Qed.

Lemma parse_u128_range s v : parse_u128 s = Some v -> is_u128 v.
Proof.
  unfold parse_u128, is_u128. destruct s as [|c [|c' s]]; [done| |].
  - intros ?%digit_of_ascii_range. lia.
  - intros H. split; repeat case_match;
      first [eapply (parse_digits_nonneg 0) | eapply (parse_digits_bound 0)]; eauto; lia.
Qed.

Lemma digit_of_pretty_N_char n : (n < 10)%N -> digit_of_ascii (pretty_N_char n) = Some (Z.of_N n).
Proof.
  intros Hn. assert (n ∈ [0; 1; 2; 3; 4; 5; 6; 7; 8; 9]%N) as H.
  { rewrite !elem_of_cons. lia. }
  set_unfold in H. destruct_or?; subst; reflexivity.
Qed.

Lemma parse_digits_pretty (x : N) s :
  Z.of_N x < two128 -> parse_digits 0 (pretty_N_go x s) = parse_digits (Z.of_N x) s.
Proof.
  revert s. induction (N.lt_wf_0 x) as [x _ IH]; intros s Hx.
  destruct (decide (0 < x)%N) as [Hpos|]; [|by replace x with 0%N by lia; rewrite pretty_N_go_0].
  rewrite pretty_N_go_step by done.
  assert (x `div` 10 < x)%N by (apply N.div_lt; lia).
  rewrite IH by lia. simpl.
  rewrite digit_of_pretty_N_char by (apply N.mod_lt; lia). simpl.
  replace (Z.of_N (x `div` 10) * 10 + Z.of_N (x `mod` 10)) with (Z.of_N x)
    by (pose proof (N.div_mod' x 10); lia).
  destruct (Z.ltb_spec (Z.of_N x) two128); [done|lia].
Qed.

Lemma pretty_N_go_cons x s : (0 < x)%N -> exists c s',
  pretty_N_go x s = String c s' /\ is_Some (digit_of_ascii c) /\ (s' <> EmptyString \/ s' = s).
Proof.
  revert s. induction (N.lt_wf_0 x) as [x _ IH]; intros s Hx.
  rewrite pretty_N_go_step by done.
  destruct (decide (0 < x `div` 10)%N) as [Hpos|Hz].
  - destruct (IH (x `div` 10)%N) with (s := String (pretty_N_char (x `mod` 10)) s)
      as (c & s' & E & Hc & Hs'); [apply N.div_lt; lia | done |].
    rewrite E. exists c, s'. split_and!; [done..|]. left. destruct Hs' as [?| ->]; done.
  - assert (x `div` 10 = 0)%N as -> by (apply N.le_0_r, N.le_ngt, Hz). rewrite pretty_N_go_0.
    eexists _, _. split_and!; [done| |by right].
    rewrite digit_of_pretty_N_char; [done|]. apply N.mod_lt. lia.
Qed.

Lemma parse_u128_pretty v : is_u128 v -> parse_u128 (pretty v) = Some v.
Proof.
  unfold is_u128. intros Hv. destruct v as [|p|p]; [done| |lia].
  change (pretty (Z.pos p)) with (pretty_N_go (N.pos p) "").
  pose proof (parse_digits_pretty (N.pos p) "" ltac:(lia)) as H. simpl in H.
  destruct (pretty_N_go_cons (N.pos p) "" ltac:(lia)) as (c & s' & E & [d Hd] & _).
  rewrite E in H |- *. unfold parse_u128. destruct s' as [|c' s'].
  - simpl in H. rewrite Hd in H |- *. simpl in H. case_match; naive_solver.
  - destruct (Ascii.eqb_spec c "+") as [->|]; [done|exact H].
Qed.
End parse.

(** [EthTxValue]: what is displayed is read back, and only [u128] values are
    ever read. *)
Lemma EthTxValue_from_to v :
  is_u128 (EthTxValue.value v) -> EthTxValue.from_str (EthTxValue.to_string v) = Ok v.
Proof.
  intros Hv. unfold EthTxValue.from_str, EthTxValue.to_string.
  rewrite parse_u128_pretty by done. by destruct v.
Qed.

Lemma EthTxValue_from_str_range s v : EthTxValue.from_str s = Ok v -> is_u128 (EthTxValue.value v).
Proof.
  unfold EthTxValue.from_str. destruct (parse_u128 s) eqn:E; [|done].
  intros [= <-]. by eapply parse_u128_range.
Qed.

(** ** Addresses and hashes *)
Section addresses.

Lemma EthAddr_eqb_true a b :
  EthAddr.eqb a b = true <-> to_lowercase (EthAddr.text a) = to_lowercase (EthAddr.text b).
Proof. unfold EthAddr.eqb. apply bool_decide_eq_true. Qed.

Lemma EthAddr_eqb_refl a : EthAddr.eqb a a = true.
Proof. by apply EthAddr_eqb_true. Qed.

Lemma EthAddr_eqb_sym a b : EthAddr.eqb a b = EthAddr.eqb b a.
Proof. apply eq_true_iff_eq. rewrite !EthAddr_eqb_true. naive_solver. Qed.

Lemma EthAddr_eqb_trans a b c :
  EthAddr.eqb a b = true -> EthAddr.eqb b c = true -> EthAddr.eqb a c = true.
Proof. rewrite !EthAddr_eqb_true. congruence. Qed.

Lemma starts_with_slice p s : starts_with p s = true -> s = p +:+ slice_from (String.length p) s.
Proof.
  revert s. induction p as [|c p IH]; intros s; simpl; [done|].
  destruct s as [|c' s]; [done|]. rewrite andb_true_iff. intros [->%Ascii.eqb_eq H].
  rewrite (IH s H) at 1. reflexivity.
Qed.

Lemma starts_with_app p s : starts_with p (p +:+ s) = true.
Proof. induction p as [|c p IH]; simpl; [done|]. by rewrite Ascii.eqb_refl. Qed.

Lemma slice_from_app p s : slice_from (String.length p) (p +:+ s) = s.
Proof. by induction p. Qed.

Lemma string_length_lower s : String.length (to_lowercase s) = String.length s.
Proof. induction s; simpl; congruence. Qed.

Context {X_hex : Hex} {L_hex : HexLaws}.

Lemma to_lowercase_app s t : to_lowercase (s +:+ t) = to_lowercase s +:+ to_lowercase t.
Proof. induction s as [|c s IH]; [done|]. simpl. by rewrite IH. Qed.

Lemma EthAddr_cmp_eq a b : EthAddr.cmp a b = Eq <-> EthAddr.eqb a b = true.
Proof.
  rewrite EthAddr_eqb_true. unfold EthAddr.cmp. split; [apply String.compare_eq_iff|]. intros ->.
  pose proof (String.compare_antisym (to_lowercase (EthAddr.text b)) (to_lowercase (EthAddr.text b))) as H.
  by destruct (String.compare _ _).
Qed.

Lemma EthAddr_from_str_spec s a :
  EthAddr.from_str s = Ok a <->
  a = EthAddr.mk s /\ starts_with "0x" s = true /\
  exists b, hex_decode (slice_from 2 s) = inr b /\ length b = 20%nat.
Proof.
  unfold EthAddr.from_str. destruct (String.eqb_spec s EmptyString) as [->|Hne].
  { split; [done|]. by intros (_ & ? & _). }
  destruct (starts_with "0x" s) eqn:Hp; simpl; [|by split; [|intros (_ & ? & _)]].
  unfold mbind, Res_bind, res_bind, from_ext.
  destruct (hex_decode (slice_from 2 s)) as [e|b] eqn:Hd.
  { split; [done|]. by intros (_ & _ & ? & ? & _). }
  destruct (Nat.eqb_spec (length b) EthAddr.LEN) as [Hl|Hl]; simpl.
  - split; [|by intros (-> & _)]. intros [= <-]. eauto 10.
  - split; [done|]. by intros (_ & _ & b' & [= ->] & ?).
Qed.

Lemma EthAddr_from_display s a : EthAddr.from_str s = Ok a -> EthAddr.from_str (EthAddr.display a) = Ok a.
Proof. intros H. by pose proof H as (-> & _)%EthAddr_from_str_spec. Qed.

Lemma EthAddr_from_str_length s a : EthAddr.from_str s = Ok a -> String.length s = 42%nat.
Proof.
  intros (-> & Hp & b & Hb & Hl)%EthAddr_from_str_spec.
  apply starts_with_slice in Hp. simpl in Hp. rewrite Hp.
  change (S (S (String.length (slice_from 2 s))) = 42%nat).
  rewrite <- string_length_lower, <- (hex_encode_decode _ _ Hb), hex_encode_length. lia.
Qed.

Lemma EthTxHash_try_from_spec l h : EthTxHash.try_from l = Ok h <-> array_bytes h = l.
Proof.
  unfold EthTxHash.try_from. rewrite <- array_try_from_Some.
  destruct (array_try_from EthTxHash.LEN l); simpl; naive_solver.
Qed.

(** [from_str] inverts [Display], and [Display] after [from_str] is the input in
    lower case. *)
Lemma EthTxHash_from_display h : EthTxHash.from_str (EthTxHash.display h) = Ok h.
Proof.
  unfold EthTxHash.from_str, EthTxHash.display.
  rewrite starts_with_app, (slice_from_app "0x"), hex_decode_encode. simpl.
  by apply EthTxHash_try_from_spec.
Qed.

Lemma EthTxHash_display_from s h :
  EthTxHash.from_str s = Ok h -> EthTxHash.display h = to_lowercase s.
Proof.
  unfold EthTxHash.from_str, EthTxHash.display.
  destruct (starts_with "0x" s) eqn:Hp; simpl; [|done].
  unfold mbind, Res_bind, res_bind, from_ext.
  destruct (hex_decode (slice_from 2 s)) as [e|b] eqn:Hd; [done|].
  intros Hb%EthTxHash_try_from_spec. rewrite Hb, (hex_encode_decode _ _ Hd).
  apply starts_with_slice in Hp. by rewrite Hp at 2.
Qed.

Lemma EthTxHash_display_inj h h' : EthTxHash.display h = EthTxHash.display h' -> h = h'.
Proof.
  intros H. pose proof (EthTxHash_from_display h) as H1.
  rewrite H, EthTxHash_from_display in H1. congruence.
Qed.
End addresses.

#[global] Instance EthAddr_t_eq_dec : EqDecision EthAddr.t.
Proof. solve_decision. Defined.
#[global] Instance EthTxValue_t_eq_dec : EqDecision EthTxValue.t.
Proof. solve_decision. Defined.
#[global] Instance EthTxHash_t_eq_dec : EqDecision EthTxHash.t := array_eq_dec _.
