(* ===== verification/Errors.v ===== *)
(** * [src/error.rs] and [src/mint_tx_nonce.rs]

    The error type of the auditor with its conversions, which errors are worth a
    retry, and the nonce that ties a MobileCoin mint to an Ethereum deposit. *)

From S2P Require Import Prelude Externals GnosisTypes.

(** ** [diesel::result], as far as the auditor looks into it *)
Module Diesel.

Inductive DatabaseErrorKind := UniqueViolation | ForeignKeyViolation | OtherKind (name : string).

Inductive Error :=
| NotFound
| DatabaseError (kind : DatabaseErrorKind) (message : string)
| OtherError (display : string).

Definition display (e : Error) : string :=
  match e with
  | NotFound => "NotFound"
  | DatabaseError _ m => m
  | OtherError m => m
  end.

(** [OptionalExtension::optional]. *)
Definition optional {A} (r : Res Error A) : Res Error (option A) :=
  match r with
  | Ok a => Ok (Some a)
  | Err NotFound => Ok None
  | Err e => Err e
  | Panic p => Panic p
  end.

End Diesel.

(** ** [crate::Error] *)
Inductive Error : Type :=
| NotFound
| AlreadyExists (msg : string)
| ObjectNotSaved
| DepositAndMintMismatch (msg : string)
| WithdrawalAndBurnMismatch (msg : string)
| EthereumTokenNotAudited (token safe : EthAddr.t) (tx : EthTxHash.t)
| GnosisSafeNotAudited (safe : EthAddr.t)
| Io (err : string)
| LedgerDb (err : string)
| Decode (err : string)
| UnexpectedBlockIndex (got expected : Z)
| DieselErr (err : Diesel.Error)
| DieselMigrations (err : string)
| R2d2Pool (err : string)
| GnosisErr (err : Gnosis.Error)
| ApiDisplay (err : string)
| HexParse (err : string)
| Key (err : string)
| InvalidLength (expected got : Z)
| InvalidNonceIdentifier (id : list byte)
| ViewKeyMatch (err : string)
| MemoDecoding (err : string)
| InvalidMemoType
| Signature (err : string)
| Other (msg : string).

(** [impl From<DieselError> for Error]. *)
Definition from_diesel (err : Diesel.Error) : Error :=
  match err with
  | Diesel.NotFound => NotFound
  | Diesel.DatabaseError Diesel.UniqueViolation info => AlreadyExists info
  | err => DieselErr err
  end.

(** [impl TransactionRetriableError for Error]. *)
Definition should_retry (e : Error) : bool :=
  match e with
  | DieselErr Diesel.NotFound => false
  | DieselErr (Diesel.DatabaseError Diesel.ForeignKeyViolation _) => false
  | R2d2Pool _ => true
  | _ => false
  end.

(** [{:?}] of a byte vector. *)
Definition debug_bytes (l : list byte) : string :=
  "[" +:+ String.concat ", " ((fun b => pretty (Z.of_N (Byte.to_N b))) <$> l) +:+ "]".

(** [Display], derived from the documentation comments. *)
Definition Error_display `{!Hex} (e : Error) : string :=
  match e with
  | NotFound => "Not found"
  | AlreadyExists s => "Already exists: " +:+ s
  | ObjectNotSaved => "Object not saved to database"
  | DepositAndMintMismatch s => "Deposit and mint mismatch: " +:+ s
  | WithdrawalAndBurnMismatch s => "Withdrawal and burn mismatch: " +:+ s
  | EthereumTokenNotAudited t s h =>
      "Ethereum token " +:+ EthAddr.display t +:+ " not audited in safe " +:+ EthAddr.display s
      +:+ " (tx hash: " +:+ EthTxHash.display h +:+ ")"
  | GnosisSafeNotAudited s => "Gnosis safe " +:+ EthAddr.display s +:+ " not audited"
  | Io s => "IO: " +:+ s
  | LedgerDb s => "Ledger DB: " +:+ s
  | Decode s => "Decode: " +:+ s
  | UnexpectedBlockIndex i j =>
      "Unexpected block index " +:+ pretty i +:+ " (was expecting " +:+ pretty j +:+ ")"
  | DieselErr e => "Diesel: " +:+ Diesel.display e
  | DieselMigrations s => "Diesel migrations: " +:+ s
  | R2d2Pool s => "R2d2 pool: " +:+ s
  | GnosisErr e => "Gnosis: " +:+ Gnosis.display e
  | ApiDisplay s => "Api display: " +:+ s
  | HexParse s => "Hex parse: " +:+ s
  | Key s => "Crypto key: " +:+ s
  | InvalidLength n m => "Invalid length: expected " +:+ pretty n +:+ ", got " +:+ pretty m
  | InvalidNonceIdentifier b => "Invalid nonce identifier: " +:+ debug_bytes b
  | ViewKeyMatch s => "View key match: " +:+ s
  | MemoDecoding s => "Memo decoding: " +:+ s
  | InvalidMemoType => "Invalid memo type"
  | Signature s => "Signature error: " +:+ s
  | Other s => "Other: " +:+ s
  end.

(** ** [MintTxNonce] *)
Module MintTxNonce.

Inductive t : Type :=
| EthereumGnosisDeposit (hash : EthTxHash.t).

(** [mc_transaction_core::mint::constants::NONCE_LENGTH]; the unit tests of the
    nonce fix its value ([64 - 34] trailing zero bytes). *)
Definition NONCE_LENGTH : nat := 64.

Definition IDENTIFIER_LEN : nat := 1.

Definition ETHEREUM_GNOSIS_DEPOSIT_IDENTIFIER : list byte := [x01].

(** [bytes[at..at + src.len()].copy_from_slice(src)]. *)
Definition copy_from_slice (bytes : list byte) (at_ : nat) (src : list byte) : list byte :=
  take at_ bytes ++ src ++ drop (at_ + length src) bytes.

Definition to_bytes (self : t) : list byte :=
  let bytes := replicate NONCE_LENGTH x00 in
  match self with
  | EthereumGnosisDeposit eth_tx_hash =>
      let bytes := copy_from_slice bytes 0 ETHEREUM_GNOSIS_DEPOSIT_IDENTIFIER in
      copy_from_slice bytes IDENTIFIER_LEN (EthTxHash.as_ref eth_tx_hash)
  end.

Definition try_from `{!Hex} (bytes : list byte) : Res Error t :=
  if negb (Nat.eqb (length bytes) NONCE_LENGTH) then
    Err (InvalidLength (Z.of_nat NONCE_LENGTH) (Z.of_nat (length bytes)))
  else
    id ← ok_or (InvalidNonceIdentifier (take IDENTIFIER_LEN bytes))
           (array_try_from IDENTIFIER_LEN (take IDENTIFIER_LEN bytes));
    if bool_decide (array_bytes id = ETHEREUM_GNOSIS_DEPOSIT_IDENTIFIER) then
      eth_tx_hash ← map_err GnosisErr
        (EthTxHash.try_from (take EthTxHash.LEN (drop IDENTIFIER_LEN bytes)));
      Ok (EthereumGnosisDeposit eth_tx_hash)
    else Err (InvalidNonceIdentifier (take IDENTIFIER_LEN bytes)).

End MintTxNonce.

Section nonce.

Lemma to_bytes_unfold h :
  MintTxNonce.to_bytes (MintTxNonce.EthereumGnosisDeposit h)
  = x01 :: array_bytes h ++ replicate 31 x00.
Proof.
  unfold MintTxNonce.to_bytes, MintTxNonce.copy_from_slice, EthTxHash.as_ref.
  by rewrite array_length.
Qed.

Lemma to_bytes_length n : length (MintTxNonce.to_bytes n) = MintTxNonce.NONCE_LENGTH.
Proof.
  destruct n as [h]. rewrite to_bytes_unfold.
  by rewrite length_cons, length_app, array_length, length_replicate.
Qed.

Context {X_hex : Hex} {L_hex : HexLaws}.

Lemma nonce_try_from_cons b rest :
  length rest = 63%nat ->
  MintTxNonce.try_from (b :: rest) =
    if bool_decide (b = x01) then
      h ← map_err GnosisErr (EthTxHash.try_from (take 32 rest));
      Ok (MintTxNonce.EthereumGnosisDeposit h)
    else Err (InvalidNonceIdentifier [b]).
Proof.
  intros Hl. unfold MintTxNonce.try_from. rewrite length_cons, Hl. cbn [Nat.eqb negb].
  change (take MintTxNonce.IDENTIFIER_LEN (b :: rest)) with [b].
  destruct (array_try_from MintTxNonce.IDENTIFIER_LEN [b]) as [id|] eqn:Hid; [|done].
  apply array_try_from_Some in Hid. cbn. rewrite Hid.
  unfold MintTxNonce.ETHEREUM_GNOSIS_DEPOSIT_IDENTIFIER. repeat case_bool_decide; naive_solver.
Qed.

Lemma nonce_try_from_to_bytes n : MintTxNonce.try_from (MintTxNonce.to_bytes n) = Ok n.
Proof.
  destruct n as [h]. rewrite to_bytes_unfold, nonce_try_from_cons.
  - rewrite bool_decide_eq_true_2, take_app_length' by (done || by rewrite array_length).
    by rewrite (proj2 (EthTxHash_try_from_spec _ _) eq_refl).
  - by rewrite length_app, array_length, length_replicate.
Qed.

Lemma expected_nonce_hex_inj h h' :
  hex_encode (MintTxNonce.to_bytes (MintTxNonce.EthereumGnosisDeposit h))
  = hex_encode (MintTxNonce.to_bytes (MintTxNonce.EthereumGnosisDeposit h')) -> h = h'.
Proof.
  intros H. assert (forall b b', hex_encode b = hex_encode b' -> b = b') as inj.
  { intros b b' Hb. pose proof (hex_decode_encode b) as H1.
    rewrite Hb, hex_decode_encode in H1. congruence. }
  apply inj in H. rewrite !to_bytes_unfold in H. injection H as H.
  apply app_inj_2 in H as [H _]; [by apply array_eq | done].
Qed.

(** A decoded nonce agrees with its encoding on the 33 meaningful bytes. *)
Lemma nonce_try_from_prefix bytes n :
  MintTxNonce.try_from bytes = Ok n -> take 33 (MintTxNonce.to_bytes n) = take 33 bytes.
Proof.
  intros H. destruct (decide (length bytes = 64%nat)) as [Hl|Hl].
  - destruct bytes as [|b bytes]; [done|]. injection Hl as Hl.
    rewrite nonce_try_from_cons in H by done. case_bool_decide as Hb; [|done]. subst b.
    destruct (EthTxHash.try_from _) as [g| |] eqn:Hg; [|done..]. injection H as <-.
    apply EthTxHash_try_from_spec in Hg. rewrite to_bytes_unfold, Hg.
    rewrite !firstn_cons. f_equal. apply take_app_length'. rewrite length_take. lia.
  - revert H. unfold MintTxNonce.try_from.
    by rewrite (proj2 (Nat.eqb_neq (length bytes) MintTxNonce.NONCE_LENGTH) Hl).
Qed.
End nonce.
