(* ===== verification/Schema.v ===== *)
(** * [migrations/.../up.sql], [src/db/schema.rs] and the row structs of [src/db/models]

    One record per Diesel model, with the struct's fields, and the database as
    the collection of its twelve tables.  A table is the list of its rows, each
    under its SQLite rowid (the [INTEGER PRIMARY KEY]); a row holds the struct
    that loading it produces, so its [id] field is that rowid.  The UNIQUE and
    FOREIGN KEY clauses of [up.sql] are the fields [row_conflict] and [row_fk_ok]
    of the [Table] class. *)

From S2P Require Import Prelude Externals GnosisTypes Errors.

Section rows.
Context {X_chrono : Chrono}.

Record BlockAuditData := mkBlockAuditData { audit_block_index : Z }.

Record BlockBalance := mkBlockBalance {
  bal_block_index : Z;
  bal_token_id : Z;
  bal_balance : Z;
}.

Record MintConfigTx := mkMintConfigTx {
  mct_id : option Z;
  mct_block_index : Z;
  mct_block_timestamp : option NaiveDateTime;
  mct_token_id : Z;
  mct_nonce_hex : string;
  mct_total_mint_limit : Z;
  mct_tombstone_block : Z;
  mct_protobuf : list byte;
}.

Record MintConfig := mkMintConfig {
  mc_id : option Z;
  mc_mint_config_tx_id : Z;
  mc_mint_limit : Z;
  mc_protobuf : list byte;
}.

Record MintTx := mkMintTx {
  mt_id : option Z;
  mt_block_index : Z;
  mt_block_timestamp : option NaiveDateTime;
  mt_token_id : Z;
  mt_amount : Z;
  mt_nonce_hex : string;
  mt_recipient_b58_addr : string;
  mt_tombstone_block : Z;
  mt_protobuf : list byte;
  mt_mint_config_id : option Z;
}.

Record BurnTxOut := mkBurnTxOut {
  bto_id : option Z;
  bto_block_index : Z;
  bto_block_timestamp : option NaiveDateTime;
  bto_token_id : Z;
  bto_amount : Z;
  bto_public_key_hex : string;
  bto_protobuf : list byte;
}.

Record GnosisSafeTx := mkGnosisSafeTx {
  gst_eth_tx_hash : string;
  gst_raw_tx_json : string;
}.

Record GnosisSafeDeposit := mkGnosisSafeDeposit {
  gsd_id : option Z;
  gsd_eth_tx_hash : EthTxHash.t;
  gsd_execution_date : NaiveDateTime;
  gsd_eth_tx_value : EthTxValue.t;
  gsd_eth_block_number : Z;
  gsd_safe_addr : EthAddr.t;
  gsd_token_addr : EthAddr.t;
  gsd_from_addr : EthAddr.t;
  gsd_amount : Z;
  gsd_expected_mc_mint_tx_nonce_hex : string;
}.

Record GnosisSafeWithdrawal := mkGnosisSafeWithdrawal {
  gsw_id : option Z;
  gsw_eth_tx_hash : EthTxHash.t;
  gsw_execution_date : NaiveDateTime;
  gsw_eth_tx_value : EthTxValue.t;
  gsw_eth_block_number : Z;
  gsw_safe_addr : EthAddr.t;
  gsw_token_addr : EthAddr.t;
  gsw_to_addr : EthAddr.t;
  gsw_amount : Z;
  gsw_mc_tx_out_public_key_hex : string;
}.

Record AuditedMint := mkAuditedMint {
  am_id : option Z;
  am_mint_tx_id : Z;
  am_gnosis_safe_deposit_id : Z;
}.

Record AuditedBurn := mkAuditedBurn {
  ab_id : option Z;
  ab_burn_tx_out_id : Z;
  ab_gnosis_safe_withdrawal_id : Z;
}.

Record Counters := mkCounters {
  c_id : Z;
  c_num_blocks_synced : Z;
  c_num_burns_exceeding_balance : Z;
  c_num_mint_txs_without_matching_mint_config : Z;
  c_num_mismatching_mints_and_deposits : Z;
  c_num_mismatching_burns_and_withdrawals : Z;
  c_num_unknown_ethereum_token_deposits : Z;
  c_num_unknown_ethereum_token_withdrawals : Z;
  c_num_mints_to_unknown_safe : Z;
  c_num_burns_from_unknown_safe : Z;
  c_num_invalid_ethereum_transactions : Z;
  c_num_invalid_multi_sig_transactions : Z;
  c_num_unexpected_errors_matching_deposits_to_mints : Z;
  c_num_unexpected_errors_matching_mints_to_deposits : Z;
  c_num_unexpected_errors_matching_withdrawals_to_burns : Z;
  c_num_unexpected_errors_matching_burns_to_withdrawals : Z;
}.

(** ** The database *)
Record Db := mkDb {
  block_audit_data : list (Z * BlockAuditData);
  block_balance : list (Z * BlockBalance);
  mint_config_txs : list (Z * MintConfigTx);
  mint_configs : list (Z * MintConfig);
  mint_txs : list (Z * MintTx);
  burn_tx_outs : list (Z * BurnTxOut);
  gnosis_safe_txs : list (Z * GnosisSafeTx);
  gnosis_safe_deposits : list (Z * GnosisSafeDeposit);
  gnosis_safe_withdrawals : list (Z * GnosisSafeWithdrawal);
  audited_mints : list (Z * AuditedMint);
  audited_burns : list (Z * AuditedBurn);
  counters : list (Z * Counters);
}.

(** Right after the migrations. *)
Definition empty_db : Db := mkDb [] [] [] [] [] [] [] [] [] [] [] [].

(** What SQLite knows about a table. *)
Class Table (R : Type) := {
  table_name : string;
  table_get : Db -> list (Z * R);
  table_set : list (Z * R) -> Db -> Db;
  row_explicit_id : R -> option Z;        (* id given with the INSERT *)
  row_with_id : Z -> R -> R;              (* the row as stored *)
  row_conflict : R -> R -> bool;          (* UNIQUE clauses, the rowid apart *)
  row_fk_ok : Db -> R -> bool;            (* FOREIGN KEY clauses *)
}.

Definition has_id {R} (t : list (Z * R)) (i : Z) : bool := bool_decide (i ∈ t.*1).

#[export] Instance BlockAuditData_table : Table BlockAuditData := {
  table_name := "block_audit_data";
  table_get := block_audit_data;
  table_set t d := mkDb t (block_balance d) (mint_config_txs d) (mint_configs d) (mint_txs d)
    (burn_tx_outs d) (gnosis_safe_txs d) (gnosis_safe_deposits d) (gnosis_safe_withdrawals d)
    (audited_mints d) (audited_burns d) (counters d);
  row_explicit_id _ := None;
  row_with_id _ r := r;
  row_conflict r s := audit_block_index r =? audit_block_index s;
  row_fk_ok _ _ := true;
}.

#[export] Instance BlockBalance_table : Table BlockBalance := {
  table_name := "block_balance";
  table_get := block_balance;
  table_set t d := mkDb (block_audit_data d) t (mint_config_txs d) (mint_configs d) (mint_txs d)
    (burn_tx_outs d) (gnosis_safe_txs d) (gnosis_safe_deposits d) (gnosis_safe_withdrawals d)
    (audited_mints d) (audited_burns d) (counters d);
  row_explicit_id _ := None;
  row_with_id _ r := r;
  row_conflict r s :=
    (bal_block_index r =? bal_block_index s) && (bal_token_id r =? bal_token_id s);
  row_fk_ok d r :=
    existsb (fun x => audit_block_index x.2 =? bal_block_index r) (block_audit_data d);
}.

#[export] Instance MintConfigTx_table : Table MintConfigTx := {
  table_name := "mint_config_txs";
  table_get := mint_config_txs;
  table_set t d := mkDb (block_audit_data d) (block_balance d) t (mint_configs d) (mint_txs d)
    (burn_tx_outs d) (gnosis_safe_txs d) (gnosis_safe_deposits d) (gnosis_safe_withdrawals d)
    (audited_mints d) (audited_burns d) (counters d);
  row_explicit_id := mct_id;
  row_with_id i r := mkMintConfigTx (Some i) (mct_block_index r) (mct_block_timestamp r)
    (mct_token_id r) (mct_nonce_hex r) (mct_total_mint_limit r) (mct_tombstone_block r)
    (mct_protobuf r);
  row_conflict r s :=
    String.eqb (mct_nonce_hex r) (mct_nonce_hex s)
    || ((mct_block_index r =? mct_block_index s) && (mct_token_id r =? mct_token_id s));
  row_fk_ok _ _ := true;
}.

#[export] Instance MintConfig_table : Table MintConfig := {
  table_name := "mint_configs";
  table_get := mint_configs;
  table_set t d := mkDb (block_audit_data d) (block_balance d) (mint_config_txs d) t (mint_txs d)
    (burn_tx_outs d) (gnosis_safe_txs d) (gnosis_safe_deposits d) (gnosis_safe_withdrawals d)
    (audited_mints d) (audited_burns d) (counters d);
  row_explicit_id := mc_id;
  row_with_id i r :=
    mkMintConfig (Some i) (mc_mint_config_tx_id r) (mc_mint_limit r) (mc_protobuf r);
  row_conflict _ _ := false;
  row_fk_ok d r := has_id (mint_config_txs d) (mc_mint_config_tx_id r);
}.

#[export] Instance MintTx_table : Table MintTx := {
  table_name := "mint_txs";
  table_get := mint_txs;
  table_set t d := mkDb (block_audit_data d) (block_balance d) (mint_config_txs d)
    (mint_configs d) t (burn_tx_outs d) (gnosis_safe_txs d) (gnosis_safe_deposits d)
    (gnosis_safe_withdrawals d) (audited_mints d) (audited_burns d) (counters d);
  row_explicit_id := mt_id;
  row_with_id i r := mkMintTx (Some i) (mt_block_index r) (mt_block_timestamp r) (mt_token_id r)
    (mt_amount r) (mt_nonce_hex r) (mt_recipient_b58_addr r) (mt_tombstone_block r)
    (mt_protobuf r) (mt_mint_config_id r);
  row_conflict r s := String.eqb (mt_nonce_hex r) (mt_nonce_hex s);
  row_fk_ok d r :=
    match mt_mint_config_id r with None => true | Some i => has_id (mint_configs d) i end;
}.

#[export] Instance BurnTxOut_table : Table BurnTxOut := {
  table_name := "burn_tx_outs";
  table_get := burn_tx_outs;
  table_set t d := mkDb (block_audit_data d) (block_balance d) (mint_config_txs d)
    (mint_configs d) (mint_txs d) t (gnosis_safe_txs d) (gnosis_safe_deposits d)
    (gnosis_safe_withdrawals d) (audited_mints d) (audited_burns d) (counters d);
  row_explicit_id := bto_id;
  row_with_id i r := mkBurnTxOut (Some i) (bto_block_index r) (bto_block_timestamp r)
    (bto_token_id r) (bto_amount r) (bto_public_key_hex r) (bto_protobuf r);
  row_conflict r s := String.eqb (bto_public_key_hex r) (bto_public_key_hex s);
  row_fk_ok _ _ := true;
}.

#[export] Instance GnosisSafeTx_table : Table GnosisSafeTx := {
  table_name := "gnosis_safe_txs";
  table_get := gnosis_safe_txs;
  table_set t d := mkDb (block_audit_data d) (block_balance d) (mint_config_txs d)
    (mint_configs d) (mint_txs d) (burn_tx_outs d) t (gnosis_safe_deposits d)
    (gnosis_safe_withdrawals d) (audited_mints d) (audited_burns d) (counters d);
  row_explicit_id _ := None;
  row_with_id _ r := r;
  row_conflict r s := String.eqb (gst_eth_tx_hash r) (gst_eth_tx_hash s);
  row_fk_ok _ _ := true;
}.

Section with_hex.
Context {X_hex : Hex}.

(** Two hash columns are compared as the texts they hold. *)
Definition hash_column_eqb (h : EthTxHash.t) (s : string) : bool :=
  String.eqb (SqlEthTxHash_to_sql h) s.

#[export] Instance GnosisSafeDeposit_table : Table GnosisSafeDeposit := {
  table_name := "gnosis_safe_deposits";
  table_get := gnosis_safe_deposits;
  table_set t d := mkDb (block_audit_data d) (block_balance d) (mint_config_txs d)
    (mint_configs d) (mint_txs d) (burn_tx_outs d) (gnosis_safe_txs d) t
    (gnosis_safe_withdrawals d) (audited_mints d) (audited_burns d) (counters d);
  row_explicit_id := gsd_id;
  row_with_id i r := mkGnosisSafeDeposit (Some i) (gsd_eth_tx_hash r) (gsd_execution_date r)
    (gsd_eth_tx_value r) (gsd_eth_block_number r) (gsd_safe_addr r) (gsd_token_addr r)
    (gsd_from_addr r) (gsd_amount r) (gsd_expected_mc_mint_tx_nonce_hex r);
  row_conflict r s :=
    hash_column_eqb (gsd_eth_tx_hash r) (SqlEthTxHash_to_sql (gsd_eth_tx_hash s));
  row_fk_ok d r :=
    existsb (fun x => hash_column_eqb (gsd_eth_tx_hash r) (gst_eth_tx_hash x.2))
      (gnosis_safe_txs d);
}.

#[export] Instance GnosisSafeWithdrawal_table : Table GnosisSafeWithdrawal := {
  table_name := "gnosis_safe_withdrawals";
  table_get := gnosis_safe_withdrawals;
  table_set t d := mkDb (block_audit_data d) (block_balance d) (mint_config_txs d)
    (mint_configs d) (mint_txs d) (burn_tx_outs d) (gnosis_safe_txs d)
    (gnosis_safe_deposits d) t (audited_mints d) (audited_burns d) (counters d);
  row_explicit_id := gsw_id;
  row_with_id i r := mkGnosisSafeWithdrawal (Some i) (gsw_eth_tx_hash r) (gsw_execution_date r)
    (gsw_eth_tx_value r) (gsw_eth_block_number r) (gsw_safe_addr r) (gsw_token_addr r)
    (gsw_to_addr r) (gsw_amount r) (gsw_mc_tx_out_public_key_hex r);
  row_conflict r s :=
    hash_column_eqb (gsw_eth_tx_hash r) (SqlEthTxHash_to_sql (gsw_eth_tx_hash s));
  row_fk_ok d r :=
    existsb (fun x => hash_column_eqb (gsw_eth_tx_hash r) (gst_eth_tx_hash x.2))
      (gnosis_safe_txs d);
}.
End with_hex.

#[export] Instance AuditedMint_table : Table AuditedMint := {
  table_name := "audited_mints";
  table_get := audited_mints;
  table_set t d := mkDb (block_audit_data d) (block_balance d) (mint_config_txs d)
    (mint_configs d) (mint_txs d) (burn_tx_outs d) (gnosis_safe_txs d)
    (gnosis_safe_deposits d) (gnosis_safe_withdrawals d) t (audited_burns d) (counters d);
  row_explicit_id := am_id;
  row_with_id i r := mkAuditedMint (Some i) (am_mint_tx_id r) (am_gnosis_safe_deposit_id r);
  row_conflict _ _ := false;
  row_fk_ok d r :=
    has_id (mint_txs d) (am_mint_tx_id r)
    && has_id (gnosis_safe_deposits d) (am_gnosis_safe_deposit_id r);
}.

#[export] Instance AuditedBurn_table : Table AuditedBurn := {
  table_name := "audited_burns";
  table_get := audited_burns;
  table_set t d := mkDb (block_audit_data d) (block_balance d) (mint_config_txs d)
    (mint_configs d) (mint_txs d) (burn_tx_outs d) (gnosis_safe_txs d)
    (gnosis_safe_deposits d) (gnosis_safe_withdrawals d) (audited_mints d) t (counters d);
  row_explicit_id := ab_id;
  row_with_id i r := mkAuditedBurn (Some i) (ab_burn_tx_out_id r) (ab_gnosis_safe_withdrawal_id r);
  row_conflict _ _ := false;
  row_fk_ok d r :=
    has_id (burn_tx_outs d) (ab_burn_tx_out_id r)
    && has_id (gnosis_safe_withdrawals d) (ab_gnosis_safe_withdrawal_id r);
}.

#[export] Instance Counters_table : Table Counters := {
  table_name := "counters";
  table_get := counters;
  table_set t d := mkDb (block_audit_data d) (block_balance d) (mint_config_txs d)
    (mint_configs d) (mint_txs d) (burn_tx_outs d) (gnosis_safe_txs d)
    (gnosis_safe_deposits d) (gnosis_safe_withdrawals d) (audited_mints d) (audited_burns d) t;
  row_explicit_id r := Some (c_id r);
  row_with_id i r := mkCounters i (c_num_blocks_synced r) (c_num_burns_exceeding_balance r)
    (c_num_mint_txs_without_matching_mint_config r) (c_num_mismatching_mints_and_deposits r)
    (c_num_mismatching_burns_and_withdrawals r) (c_num_unknown_ethereum_token_deposits r)
    (c_num_unknown_ethereum_token_withdrawals r) (c_num_mints_to_unknown_safe r)
    (c_num_burns_from_unknown_safe r) (c_num_invalid_ethereum_transactions r)
    (c_num_invalid_multi_sig_transactions r)
    (c_num_unexpected_errors_matching_deposits_to_mints r)
    (c_num_unexpected_errors_matching_mints_to_deposits r)
    (c_num_unexpected_errors_matching_withdrawals_to_burns r)
    (c_num_unexpected_errors_matching_burns_to_withdrawals r);
  row_conflict _ _ := false;
  row_fk_ok _ _ := true;
}.

(** The laws every instance obeys: what was written is read, the identifier is
    the rowid, constraints do not look at the rowid. *)
Class TableLaws (R : Type) `{!Table R} : Prop := {
  table_get_set t d : table_get (table_set t d) = t;
  table_set_set t t' d : table_set t (table_set t' d) = table_set t d;
  table_set_get d : table_set (table_get d) d = d;
  row_with_id_with_id i j (r : R) : row_with_id i (row_with_id j r) = row_with_id i r;
  row_conflict_with_id_l i (r s : R) : row_conflict (row_with_id i r) s = row_conflict r s;
  row_conflict_with_id_r i (r s : R) : row_conflict r (row_with_id i s) = row_conflict r s;
  row_conflict_sym (r s : R) : row_conflict r s = row_conflict s r;
  row_fk_ok_with_id i d (r : R) : row_fk_ok d (row_with_id i r) = row_fk_ok d r;
}.
End rows.

Ltac solve_table_laws :=
  split;
  [ done | done | by intros [] | by intros ? ? [] | done | done
  | intros; unfold row_conflict; simpl; unfold hash_column_eqb;
    repeat first [ done | apply Z.eqb_sym | apply String.eqb_sym
                 | apply (f_equal2 andb) | apply (f_equal2 orb) ]
  | done ].

Section laws.
Context {X_chrono : Chrono} {X_hex : Hex}.

#[export] Instance BlockAuditData_laws : TableLaws BlockAuditData.
Proof. solve_table_laws. Qed.
#[export] Instance BlockBalance_laws : TableLaws BlockBalance.
Proof. solve_table_laws. Qed.
#[export] Instance MintConfigTx_laws : TableLaws MintConfigTx.
Proof. solve_table_laws. Qed.
#[export] Instance MintConfig_laws : TableLaws MintConfig.
Proof. solve_table_laws. Qed.
#[export] Instance MintTx_laws : TableLaws MintTx.
Proof. solve_table_laws. Qed.
#[export] Instance BurnTxOut_laws : TableLaws BurnTxOut.
Proof. solve_table_laws. Qed.
#[export] Instance GnosisSafeTx_laws : TableLaws GnosisSafeTx.
Proof. solve_table_laws. Qed.
#[export] Instance GnosisSafeDeposit_laws : TableLaws GnosisSafeDeposit.
Proof. solve_table_laws. Qed.
#[export] Instance GnosisSafeWithdrawal_laws : TableLaws GnosisSafeWithdrawal.
Proof. solve_table_laws. Qed.
#[export] Instance AuditedMint_laws : TableLaws AuditedMint.
Proof. solve_table_laws. Qed.
#[export] Instance AuditedBurn_laws : TableLaws AuditedBurn.
Proof. solve_table_laws. Qed.
#[export] Instance Counters_laws : TableLaws Counters.
Proof. solve_table_laws. Qed.
End laws.
