(* ===== verification/Database.v ===== *)
(** * [src/db/transaction.rs], [src/db/conn.rs] and the SQL statements the models issue

    The [World] is what a call of the auditor reads and writes: the database, the
    connection's [last_insert_rowid], the Prometheus gauges, the time slept in
    retries, and the faults SQLite is going to raise.  Every statement first
    consults the next entry of [w_faults]: [Some f] makes it fail with the error of
    [f] and change nothing, [None] (or an exhausted list) lets it run.  A fault is
    an error of the database itself (a lock timeout, a full disk, a row that does
    not deserialize): SQLite reports a missing row or a constraint violation only
    when there is one, and those are results of the statements below.  Theorems that
    quantify over the world therefore quantify over all points of failure;
    [healthy w] says that no fault is pending. *)

From S2P Require Import Prelude Externals GnosisTypes Errors Schema.

Inductive Fault :=
| DatabaseFault (kind message : string)
| OtherFault (display : string).

Definition fault_error (f : Fault) : Diesel.Error :=
  match f with
  | DatabaseFault kind message => Diesel.DatabaseError (Diesel.OtherKind kind) message
  | OtherFault display => Diesel.OtherError display
  end.

Section world.
Context {X_chrono : Chrono} {X_hex : Hex} {X_sqlite : Sqlite}.

Record World := mkWorld {
  w_db : Db;
  w_rowid : Z;
  w_gauges : gmap string Z;
  w_failed_fetches : Z;
  w_slept_ms : Z;
  w_faults : list (option Fault);
}.

Definition set_db (d : Db) (w : World) : World :=
  mkWorld d (w_rowid w) (w_gauges w) (w_failed_fetches w) (w_slept_ms w) (w_faults w).
Definition set_rowid (i : Z) (w : World) : World :=
  mkWorld (w_db w) i (w_gauges w) (w_failed_fetches w) (w_slept_ms w) (w_faults w).
Definition set_gauge (name : string) (v : Z) (w : World) : World :=
  mkWorld (w_db w) (w_rowid w) (<[name := v]> (w_gauges w)) (w_failed_fetches w)
    (w_slept_ms w) (w_faults w).
Definition inc_failed_fetches (w : World) : World :=
  mkWorld (w_db w) (w_rowid w) (w_gauges w) (w_failed_fetches w + 1) (w_slept_ms w) (w_faults w).
Definition add_sleep (ms : Z) (w : World) : World :=
  mkWorld (w_db w) (w_rowid w) (w_gauges w) (w_failed_fetches w) (w_slept_ms w + ms) (w_faults w).
Definition set_faults (fs : list (option Fault)) (w : World) : World :=
  mkWorld (w_db w) (w_rowid w) (w_gauges w) (w_failed_fetches w) (w_slept_ms w) fs.

Definition healthy (w : World) : Prop := w_faults w = [].

(** Calls that end in Diesel's error type, and in the auditor's. *)
Abbreviation Stmt A := (M World Diesel.Error A).
Abbreviation App A := (M World Error A).

(** [diesel_call?] in a function that returns [Result<_, Error>]. *)
Definition exec {A} (s : Stmt A) : App A := with_err from_diesel s.

(** [Result::optional]. *)
Definition optional {A} (s : Stmt A) : Stmt (option A) :=
  fun w => let '(r, w') := s w in (Diesel.optional r, w').

(** ** Statements *)
Definition statement {A} (body : Stmt A) : Stmt A := fun w =>
  match w_faults w with
  | [] => body w
  | None :: fs => body (set_faults fs w)
  | Some f :: fs => (Err (fault_error f), set_faults fs w)
  end.

(** A rowid SQLite picks for a new row: one more than the largest.  Ids are unbounded
    here; the source reads them as [i32], enough for tables of fewer than 2^31 rows. *)
Definition next_rowid {R} (t : list (Z * R)) : Z := foldr Z.max 0 t.*1 + 1.

Definition unique_violation (table : string) : Diesel.Error :=
  Diesel.DatabaseError Diesel.UniqueViolation (unique_message table).
Definition foreign_key_violation : Diesel.Error :=
  Diesel.DatabaseError Diesel.ForeignKeyViolation foreign_key_message.

Section table.
Context {R : Type} {T : Table R}.

(** The loaded structs of a table. *)
Definition rows (d : Db) : list R := (table_get d).*2.

(** [diesel::insert_into(table).values(r).execute(conn)]. *)
Definition insert_into (r : R) : Stmt unit := statement (fun w =>
  let d := w_db w in
  let t := table_get d in
  let i := default (next_rowid t) (row_explicit_id r) in
  let r' := row_with_id i r in
  if has_id t i || existsb (fun x => row_conflict r' x.2) t then
    (Err (unique_violation table_name), w)
  else if row_fk_ok d r' then
    (Ok tt, set_rowid i (set_db (table_set (t ++ [(i, r')]) d) w))
  else (Err foreign_key_violation, w)).

(** [diesel::replace_into(table).values(r).execute(conn)]: the rows [r]
    conflicts with are deleted first. *)
Definition replace_into (r : R) : Stmt unit := statement (fun w =>
  let d := w_db w in
  let t := List.filter (fun x => negb (row_conflict r x.2)) (table_get d) in
  let i := default (next_rowid t) (row_explicit_id r) in
  let r' := row_with_id i r in
  if row_fk_ok d r' then
    (Ok tt, set_rowid i (set_db (table_set (t ++ [(i, r')]) d) w))
  else (Err foreign_key_violation, w)).

(** [diesel::update(table).set(..).execute(conn)] on every row; the number of
    rows is returned. *)
Definition update_all (f : R -> R) : Stmt Z := statement (fun w =>
  let d := w_db w in
  let t := table_get d in
  (Ok (Z.of_nat (length t)), set_db (table_set ((fun x => (x.1, f x.2)) <$> t) d) w)).
End table.

(** A query is a function of the database; without [ORDER BY] the order of its
    rows is SQLite's choice. *)
Definition load {A} (q : Db -> list A) : Stmt (list A) :=
  statement (gets (fun w => scan (q (w_db w)))).

(** [ORDER BY key] (ascending). *)
Definition key_le {A} (key : A -> Z) (x y : A) : Prop := key x <= key y.
#[export] Instance key_le_dec {A} (key : A -> Z) : RelDecision (key_le key).
Proof. intros x y. unfold key_le. apply _. Defined.
Definition order_by {A} (key : A -> Z) (l : list A) : list A := merge_sort (key_le key) l.

Definition load_ordered {A} (key : A -> Z) (q : Db -> list A) : Stmt (list A) :=
  statement (gets (fun w => order_by key (scan (q (w_db w))))).

(** [.first(conn)], [.get_result(conn)]: the first row, or [NotFound]. *)
Definition first {A} (l : list A) : Res Diesel.Error A := ok_or Diesel.NotFound (head l).

Definition load_first {A} (q : Db -> list A) : Stmt A :=
  l ← load q; lift (first l).

Definition load_ordered_first {A} (key : A -> Z) (q : Db -> list A) : Stmt A :=
  l ← load_ordered key q; lift (first l).

(** [diesel::select(last_insert_rowid).get_result::<i32>(conn)]. *)
Definition last_insert_rowid : Stmt Z := statement (gets w_rowid).

(** The statement pair of every model's [insert]. *)
Definition insert_get_id {R} `{!Table R} (r : R) : Stmt Z :=
  _ ← insert_into r; last_insert_rowid.

(** [ReserveAuditorDb::get_conn]: the pool may fail to hand out a connection. *)
Definition get_conn : App unit :=
  with_err (fun e => R2d2Pool (Diesel.display e)) (statement (mret tt)).

(** ** Transactions *)

(** Diesel's [Connection::transaction]: [BEGIN] (or [SAVEPOINT] when nested), the
    body, then [COMMIT]; on an error the database goes back to what it was, and
    nothing else does.  A panic leaves the transaction uncommitted, so that what is
    committed, the database of the model, is what it was before.  In what state the
    unwinding leaves the connection it used (Diesel does not roll back while unwinding)
    is not modelled: later calls get a connection that is not in a transaction. *)
Definition conn_transaction {A} (f : App A) : App A := fun w =>
  match exec (statement (mret tt)) w with
  | (Ok _, w1) =>
      match f w1 with
      | (Ok a, w2) => (Ok a, w2)
      | (r, w2) => (r, set_db (w_db w1) w2)
      end
  | (Err e, w1) => (Err e, w1)
  | (Panic p, w1) => (Panic p, w1)
  end.

(** [SqliteConnection::exclusive_transaction]: [BEGIN EXCLUSIVE]. *)
Definition exclusive_transaction {A} (f : App A) : App A := conn_transaction f.

Definition BASE_DELAY : Z := 10.
Definition NUM_RETRIES : nat := 5.

(** [for i in i..NUM_RETRIES { .. }] of [transaction]; [remaining] is
    [NUM_RETRIES - i]. *)
Fixpoint transaction_loop {A} (remaining : nat) (i : Z) (f : App A) : App A := fun w =>
  match remaining with
  | O => (Panic "Should never reach this point.", w)
  | S remaining' =>
      match conn_transaction f w with
      | (Ok r, w') => (Ok r, w')
      | (Panic p, w') => (Panic p, w')
      | (Err e, w') =>
          if negb (should_retry e) || (i =? Z.of_nat NUM_RETRIES - 1) then (Err e, w')
          else transaction_loop remaining' (i + 1) f (add_sleep (BASE_DELAY * 2 ^ i) w')
      end
  end.

Definition transaction {A} (f : App A) : App A := transaction_loop NUM_RETRIES 0 f.

End world.

Abbreviation Stmt A := (M World Diesel.Error A).
Abbreviation App A := (M World Error A).

(** ** Integrity: what the clauses of [up.sql] guarantee at any time *)
Section integrity.
Context {X_chrono : Chrono} {X_hex : Hex}.

Record table_ok {R} `{Table R} (t : list (Z * R)) : Prop := {
  ok_ids : NoDup t.*1;
  ok_row_id : forall x, x ∈ t -> row_with_id x.1 x.2 = x.2;
  ok_unique : forall x y, x ∈ t -> y ∈ t -> row_conflict x.2 y.2 = true -> x = y;
}.

Definition fk_ok {R} `{Table R} (d : Db) (t : list (Z * R)) : Prop :=
  forall x, x ∈ t -> row_fk_ok d x.2 = true.

Record integrity (d : Db) : Prop := {
  ok_block_audit_data : table_ok (block_audit_data d);
  ok_block_balance : table_ok (block_balance d);
  ok_mint_config_txs : table_ok (mint_config_txs d);
  ok_mint_configs : table_ok (mint_configs d);
  ok_mint_txs : table_ok (mint_txs d);
  ok_burn_tx_outs : table_ok (burn_tx_outs d);
  ok_gnosis_safe_txs : table_ok (gnosis_safe_txs d);
  ok_gnosis_safe_deposits : table_ok (gnosis_safe_deposits d);
  ok_gnosis_safe_withdrawals : table_ok (gnosis_safe_withdrawals d);
  ok_audited_mints : table_ok (audited_mints d);
  ok_audited_burns : table_ok (audited_burns d);
  fk_block_balance : fk_ok d (block_balance d);
  fk_mint_configs : fk_ok d (mint_configs d);
  fk_mint_txs : fk_ok d (mint_txs d);
  fk_gnosis_safe_deposits : fk_ok d (gnosis_safe_deposits d);
  fk_gnosis_safe_withdrawals : fk_ok d (gnosis_safe_withdrawals d);
  fk_audited_mints : fk_ok d (audited_mints d);
  fk_audited_burns : fk_ok d (audited_burns d);
}.

(** Rows of these tables are never deleted or changed. *)
Record grows (d d' : Db) : Prop := {
  grows_indices : forall x, x ∈ block_audit_data d ->
    exists y, y ∈ block_audit_data d' /\ audit_block_index y.2 = audit_block_index x.2;
  grows_mint_config_txs : mint_config_txs d `prefix_of` mint_config_txs d';
  grows_mint_configs : mint_configs d `prefix_of` mint_configs d';
  grows_mint_txs : mint_txs d `prefix_of` mint_txs d';
  grows_burn_tx_outs : burn_tx_outs d `prefix_of` burn_tx_outs d';
  grows_gnosis_safe_txs : gnosis_safe_txs d `prefix_of` gnosis_safe_txs d';
  grows_gnosis_safe_deposits : gnosis_safe_deposits d `prefix_of` gnosis_safe_deposits d';
  grows_gnosis_safe_withdrawals :
    gnosis_safe_withdrawals d `prefix_of` gnosis_safe_withdrawals d';
  grows_audited_mints : audited_mints d `prefix_of` audited_mints d';
  grows_audited_burns : audited_burns d `prefix_of` audited_burns d';
}.
End integrity.

(** A relation between databases, seen as a relation between worlds. *)
Definition on_db `{Chrono} (R : Db -> Db -> Prop) (w w' : World) : Prop := R (w_db w) (w_db w').

#[export] Instance on_db_preorder `{Chrono} R : PreOrder R -> PreOrder (on_db R).
Proof.
  intros [Hr Ht]. split; [intros w; apply Hr|].
  intros w1 w2 w3 H1 H2. exact (Ht _ _ _ H1 H2).
Qed.

Create HintDb respects.

(** ** Ordered queries *)
Section ordering.
Context {A : Type} (key : A -> Z).

#[local] Instance key_le_total : Total (key_le key).
Proof. intros x y. unfold key_le. lia. Qed.
#[local] Instance key_le_trans : Transitive (key_le key).
Proof. intros x y z. unfold key_le. lia. Qed.

Lemma order_by_permutation l : order_by key l ≡ₚ l.
Proof. apply merge_sort_Permutation. Qed.

Lemma order_by_sorted l : StronglySorted (key_le key) (order_by key l).
Proof. apply (StronglySorted_merge_sort _). Qed.

Lemma order_by_head l x :
  head (order_by key l) = Some x -> x ∈ l /\ forall y, y ∈ l -> key x <= key y.
Proof.
  pose proof (order_by_permutation l) as Hp. pose proof (order_by_sorted l) as Hs.
  destruct (order_by key l) as [|z k]; [done|]. intros [= ->].
  setoid_rewrite <- Hp. split; [by left|]. intros y [->|Hy]%elem_of_cons; [lia|].
  apply StronglySorted_inv in Hs as [_ Hs]. rewrite Forall_forall in Hs. by apply Hs.
Qed.

Lemma order_by_head_None l : head (order_by key l) = None -> l = [].
Proof.
  pose proof (order_by_permutation l) as Hp.
  destruct (order_by key l); [|done]. intros _. by apply Permutation_nil.
Qed.
End ordering.

Section first.
Context {X_sqlite : Sqlite} {L_sqlite : SqliteLaws}.

Lemma elem_of_scan {A} (l : list A) x : x ∈ scan l <-> x ∈ l.
Proof. by rewrite (scan_permutation l). Qed.

Lemma scan_head {A} (l : list A) x : head (scan l) = Some x -> x ∈ l.
Proof. intros H%head_elem_of. by apply elem_of_scan. Qed.

Lemma scan_head_None {A} (l : list A) : head (scan l) = None <-> l = [].
Proof.
  pose proof (scan_permutation l) as Hp. split; intros H.
  - destruct (scan l); [|done]. by apply Permutation_nil.
  - subst. symmetry in Hp. apply Permutation_nil in Hp. by rewrite Hp.
Qed.

(** A query all of whose rows are the same row has that row as its first. *)
Lemma scan_head_unique {A} (l : list A) x :
  x ∈ l -> (forall y, y ∈ l -> y = x) -> head (scan l) = Some x.
Proof.
  intros Hx Hu. destruct (head (scan l)) as [y|] eqn:E.
  - f_equal. apply Hu. by apply scan_head.
  - apply scan_head_None in E. subst. set_solver.
Qed.

Lemma scan_nil {A} : scan ([] : list A) = [].
Proof. apply Permutation_nil. symmetry. apply scan_permutation. Qed.

Lemma scan_singleton {A} (x : A) : scan [x] = [x].
Proof. apply Permutation_length_1_inv. symmetry. apply scan_permutation. Qed.
End first.

Lemma rows_elem_of `{Chrono} {R} {T : Table R} d r :
  r ∈ rows d <-> exists i, (i, r) ∈ table_get (R := R) d.
Proof.
  unfold rows. rewrite list_elem_of_fmap. split.
  - intros ([i r'] & -> & ?). by exists i.
  - intros [i Hi]. by exists (i, r).
Qed.

(** ** Reasoning about statements

    [leads w d w']: getting from [w] to [w'] has made the database [d], and no
    fault has appeared.  In the rules below a call may fail in two ways only: a
    pending fault strikes, so the world was not [healthy], or the statement itself
    reports that it cannot be done.  One specification then says both what a
    failing call leaves behind and that a call in a healthy world succeeds. *)
Definition leads `{Chrono} (w : World) (d : Db) (w' : World) : Prop :=
  w_db w' = d /\ (healthy w -> healthy w').

Section statements.
Context {X_chrono : Chrono} {X_sqlite : Sqlite}.
Implicit Types w : World.

Lemma leads_refl w : leads w (w_db w) w.
Proof. by split. Qed.

Lemma leads_trans w1 w2 w3 d d' : leads w1 d w2 -> leads w2 d' w3 -> leads w1 d' w3.
Proof. unfold leads. naive_solver. Qed.

Lemma leads_db w d w' : leads w d w' -> w_db w' = d.
Proof. by intros []. Qed.

(** A state reached without touching the database stands for the first one. *)
Lemma leads_back w1 w2 w3 d : leads w1 (w_db w1) w2 -> leads w2 d w3 -> leads w1 d w3.
Proof. apply leads_trans. Qed.

Lemma leads_sick w d w' : leads w d w' -> ~ healthy w' -> ~ healthy w.
Proof. unfold leads. naive_solver. Qed.

Lemma leads_set_db w d w' d' : leads w d w' -> leads w d' (set_db d' w').
Proof. intros [_ H]. by split. Qed.

Lemma wp_statement {A} (body : Stmt A) Q w :
  (forall f w', ~ healthy w -> leads w (w_db w) w' -> Q (Err (fault_error f)) w') ->
  (forall w', leads w (w_db w) w' -> wp body Q w') ->
  wp (statement body) Q w.
Proof.
  unfold wp, statement, leads, healthy. intros He Hb.
  destruct (w_faults w) as [|[f|] fs] eqn:E; simpl; [by apply Hb|by apply (He f)|by apply Hb].
Qed.

Lemma statement_healthy {A} (body : Stmt A) w : healthy w -> statement body w = body w.
Proof. unfold healthy, statement. by intros ->. Qed.

Lemma wp_exec {A} (s : Stmt A) Q w :
  wp s (fun r w' => Q (map_err from_diesel r) w') w -> wp (exec s) Q w.
Proof. apply wp_with_err. Qed.

Lemma wp_optional {A} (s : Stmt A) Q w :
  wp s (fun r w' => Q (Diesel.optional r) w') w -> wp (optional s) Q w.
Proof. unfold wp, optional. by destruct (s w). Qed.

Lemma wp_get_conn Q w :
  (forall f w', ~ healthy w -> leads w (w_db w) w' ->
     Q (Err (R2d2Pool (Diesel.display (fault_error f)))) w') ->
  (forall w', leads w (w_db w) w' -> Q (Ok tt) w') ->
  wp get_conn Q w.
Proof. intros He Ho. apply wp_with_err, wp_statement; [done|]. intros w' Hw'. by apply Ho. Qed.

Lemma wp_conn_transaction {A} (f : App A) Q w :
  (forall f w', ~ healthy w -> leads w (w_db w) w' ->
     Q (Err (from_diesel (fault_error f))) w') ->
  (forall w1, leads w (w_db w) w1 ->
     wp f (fun r w' => match r with
                       | Ok a => Q (Ok a) w'
                       | r => Q r (set_db (w_db w) w')
                       end) w1) ->
  wp (conn_transaction f) Q w.
Proof.
  intros He Hf.
  assert (wp (exec (statement (mret ()))) (fun r w1 =>
    match r with
    | Ok _ => leads w (w_db w) w1
    | Err e => Q (Err e) w1
    | Panic _ => False
    end) w) as Hb.
  { by apply wp_exec, wp_statement. }
  unfold wp, conn_transaction in *.
  destruct (exec _ w) as [[[]|e|p] w1]; simpl in *; [|done..].
  specialize (Hf w1 Hb). destruct Hb as [Hd _].
  destruct (f w1) as [[a|e|p] w2]; simpl in *; by rewrite ?Hd.
Qed.

Lemma conn_transaction_healthy {A} (f : App A) w :
  healthy w ->
  conn_transaction f w =
    match f w with (Ok a, w') => (Ok a, w') | (r, w') => (r, set_db (w_db w) w') end.
Proof. intros H. unfold conn_transaction, exec, with_err. by rewrite statement_healthy. Qed.

Lemma load_healthy {A} (q : Db -> list A) w : healthy w -> load q w = (Ok (scan (q (w_db w))), w).
Proof. intros H. unfold load. by rewrite statement_healthy. Qed.

Lemma wp_load {A} (q : Db -> list A) Q w :
  (forall f w', ~ healthy w -> leads w (w_db w) w' -> Q (Err (fault_error f)) w') ->
  (forall w', leads w (w_db w) w' -> Q (Ok (scan (q (w_db w)))) w') ->
  wp (load q) Q w.
Proof.
  intros He Ho. apply wp_statement; [done|]. intros w' Hw'. unfold wp; simpl.
  rewrite (leads_db _ _ _ Hw'). auto.
Qed.

Lemma wp_load_ordered {A} key (q : Db -> list A) Q w :
  (forall f w', ~ healthy w -> leads w (w_db w) w' -> Q (Err (fault_error f)) w') ->
  (forall w', leads w (w_db w) w' -> Q (Ok (order_by key (scan (q (w_db w))))) w') ->
  wp (load_ordered key q) Q w.
Proof.
  intros He Ho. apply wp_statement; [done|]. intros w' Hw'. unfold wp; simpl.
  rewrite (leads_db _ _ _ Hw'). auto.
Qed.

Lemma wp_load_first {A} (q : Db -> list A) Q w :
  (forall f w', ~ healthy w -> leads w (w_db w) w' -> Q (Err (fault_error f)) w') ->
  (forall w', leads w (w_db w) w' -> Q (first (scan (q (w_db w)))) w') ->
  wp (load_first q) Q w.
Proof.
  intros He Ho. apply wp_bind, wp_load; [done|]. intros w' Hw'. apply wp_lift. auto.
Qed.

Lemma wp_load_ordered_first {A} key (q : Db -> list A) Q w :
  (forall f w', ~ healthy w -> leads w (w_db w) w' -> Q (Err (fault_error f)) w') ->
  (forall w', leads w (w_db w) w' -> Q (first (order_by key (scan (q (w_db w))))) w') ->
  wp (load_ordered_first key q) Q w.
Proof.
  intros He Ho. apply wp_bind, wp_load_ordered; [done|]. intros w' Hw'. apply wp_lift. auto.
Qed.

(** [.first(..).optional()?]: the first row, if any. *)
Lemma wp_load_first_optional {A} (q : Db -> list A) Q w :
  (forall f w', ~ healthy w -> leads w (w_db w) w' -> Q (Err (from_diesel (fault_error f))) w') ->
  (forall w', leads w (w_db w) w' -> Q (Ok (head (scan (q (w_db w))))) w') ->
  wp (exec (optional (load_first q))) Q w.
Proof.
  intros He Ho. apply wp_exec, wp_optional, wp_load_first.
  - intros f w' Hh Hw'. specialize (He f w' Hh Hw'). by destruct f.
  - intros w' Hw'. specialize (Ho w' Hw'). unfold first. by destruct (head _).
Qed.

Lemma wp_load_ordered_first_optional {A} key (q : Db -> list A) Q w :
  (forall f w', ~ healthy w -> leads w (w_db w) w' -> Q (Err (from_diesel (fault_error f))) w') ->
  (forall w', leads w (w_db w) w' -> Q (Ok (head (order_by key (scan (q (w_db w)))))) w') ->
  wp (exec (optional (load_ordered_first key q))) Q w.
Proof.
  intros He Ho. apply wp_exec, wp_optional, wp_load_ordered_first.
  - intros f w' Hh Hw'. specialize (He f w' Hh Hw'). by destruct f.
  - intros w' Hw'. specialize (Ho w' Hw'). unfold first. by destruct (head _).
Qed.

Lemma should_retry_from_diesel e : should_retry (from_diesel e) = false.
Proof. by destruct e as [|[]|]. Qed.
End statements.

(** ** Queries: calls that only read *)
Section queries.
Context {X_chrono : Chrono} {X_sqlite : Sqlite}.

(** [m] reads the database [d] and ends in a result that [P] relates to [d],
    unless a fault strikes. *)
Definition query {A} (m : App A) (P : Db -> Res Error A -> Prop) : Prop :=
  forall w, wp m (fun r w' => leads w (w_db w) w' /\
    (P (w_db w) r \/ exists f, ~ healthy w /\ r = Err (from_diesel (fault_error f)))) w.

Lemma wp_query {A} (m : App A) P Q w :
  query m P ->
  (forall f w', ~ healthy w -> leads w (w_db w) w' ->
     Q (Err (from_diesel (fault_error f))) w') ->
  (forall r w', leads w (w_db w) w' -> P (w_db w) r -> Q r w') ->
  wp m Q w.
Proof.
  intros Hm He Ho. eapply wp_mono; [apply Hm|]. simpl.
  intros r w' [Hl [Hp|(f & Hh & ->)]]; auto.
Qed.

Lemma query_mono {A} (m : App A) (P P' : Db -> Res Error A -> Prop) :
  query m P -> (forall d r, P d r -> P' d r) -> query m P'.
Proof. intros Hm HP w. eapply wp_mono; [apply Hm|]. simpl. intros r w' [Hl [Hr|Hr]]; auto. Qed.

Lemma query_lift {A} (r : Res Error A) : query (lift r) (fun _ r' => r' = r).
Proof. intros w. apply wp_lift. split; [apply leads_refl|by left]. Qed.

Lemma query_ret {A} (a : A) : query (mret a) (fun _ r => r = Ok a).
Proof. intros w. apply wp_ret. split; [apply leads_refl|by left]. Qed.

Lemma query_throw {A} (e : Error) : query (throw e : App A) (fun _ r => r = Err e).
Proof. intros w. apply wp_throw. split; [apply leads_refl|by left]. Qed.

Lemma query_bind {A B} (m : App A) (k : A -> App B) P Pk :
  query m P -> (forall a, query (k a) (Pk a)) ->
  query (m ≫= k) (fun d r => exists ra, P d ra /\
    match ra with Ok a => Pk a d r | Err e => r = Err e | Panic p => r = Panic p end).
Proof.
  intros Hm Hk w. apply wp_bind. apply (wp_query _ _ _ _ Hm).
  - intros f w' Hh Hl. split; [done|]. right. eauto.
  - intros [a|e|p] w' Hl HP; [|split; [done|left]; by eexists..].
    eapply wp_mono; [apply Hk|]. simpl. intros r w'' [Hl' Hr].
    rewrite (leads_db _ _ _ Hl) in *. split; [by eapply leads_trans|].
    destruct Hr as [Hr|(f & Hh & ->)]; [left; by exists (Ok a)|right].
    exists f. split; [by eapply leads_sick|done].
Qed.

Lemma query_load {A} (q : Db -> list A) :
  query (exec (load q)) (fun d r => r = Ok (scan (q d))).
Proof. intros w. apply wp_exec, wp_load; [by eauto 10|]. intros w' Hl. split; [done|by left]. Qed.

Lemma query_load_ordered {A} key (q : Db -> list A) :
  query (exec (load_ordered key q)) (fun d r => r = Ok (order_by key (scan (q d)))).
Proof.
  intros w. apply wp_exec, wp_load_ordered; [by eauto 10|]. intros w' Hl. split; [done|by left].
Qed.

Lemma query_load_first {A} (q : Db -> list A) :
  query (exec (load_first q)) (fun d r => r = ok_or NotFound (head (scan (q d)))).
Proof.
  intros w. apply wp_exec, wp_load_first; [by eauto 10|]. intros w' Hl. split; [done|left].
  unfold first. by destruct (head _).
Qed.

Lemma query_load_first_optional {A} (q : Db -> list A) :
  query (exec (optional (load_first q))) (fun d r => r = Ok (head (scan (q d)))).
Proof.
  intros w. apply wp_load_first_optional; [by eauto 10|]. intros w' Hl. split; [done|by left].
Qed.

Lemma query_load_ordered_first_optional {A} key (q : Db -> list A) :
  query (exec (optional (load_ordered_first key q)))
    (fun d r => r = Ok (head (order_by key (scan (q d))))).
Proof.
  intros w. apply wp_load_ordered_first_optional; [by eauto 10|]. intros w' Hl.
  split; [done|by left].
Qed.

Lemma query_healthy {A} (m : App A) P w :
  query m P -> healthy w ->
  P (w_db w) (m w).1 /\ w_db (m w).2 = w_db w /\ healthy (m w).2.
Proof.
  intros Hm Hh. destruct (Hm w) as [[Hd Hl] [HP|(f & Hn & _)]]; [|done]. auto.
Qed.

Lemma query_db {A} (m : App A) P w : query m P -> w_db (m w).2 = w_db w.
Proof. intros Hm. apply (Hm w). Qed.
End queries.

(** ** Retries

    No error that a transaction body of the auditor produces is worth a retry:
    Diesel's errors are converted to [AlreadyExists], [NotFound] or to a
    [DieselErr] that [should_retry] rejects.  [solve_raises] walks through a body
    to show it; the database [raises] holds the facts about named calls. *)
Definition no_retry (e : Error) : Prop := should_retry e = false.
Abbreviation never_retries m := (raises no_retry m).

Create HintDb raises.

Section retries.
Context {X_chrono : Chrono} {X_sqlite : Sqlite}.

Lemma raises_exec {A} (s : Stmt A) : never_retries (exec s).
Proof. apply raises_with_err. intros w e _. apply should_retry_from_diesel. Qed.

Lemma raises_conn_transaction {A} (f : App A) : never_retries f -> never_retries (conn_transaction f).
Proof.
  intros Hf w e. unfold conn_transaction.
  pose proof (raises_exec (statement (mret ())) w) as Hb.
  destruct (exec _ w) as [[[]|e'|p] w1]; simpl in *; [|intros [= <-]; by apply Hb|done].
  specialize (Hf w1). destruct (f w1) as [[a|e'|p] w2]; simpl in *; [done|by apply Hf|done].
Qed.

Lemma transaction_never_retries {A} (f : App A) w :
  never_retries f -> transaction f w = conn_transaction f w.
Proof.
  intros Hf%raises_conn_transaction. specialize (Hf w).
  unfold transaction, NUM_RETRIES. simpl.
  destruct (conn_transaction f w) as [[a|e|p] w1]; simpl in *; [done| |done].
  by rewrite (Hf e eq_refl).
Qed.

Lemma raises_transaction {A} (f : App A) : never_retries f -> never_retries (transaction f).
Proof.
  intros Hf w e. rewrite transaction_never_retries by done. by apply raises_conn_transaction.
Qed.

Lemma wp_transaction {A} (f : App A) Q w :
  never_retries f ->
  (forall f w', ~ healthy w -> leads w (w_db w) w' ->
     Q (Err (from_diesel (fault_error f))) w') ->
  (forall w1, leads w (w_db w) w1 ->
     wp f (fun r w' => match r with
                       | Ok a => Q (Ok a) w'
                       | r => Q r (set_db (w_db w) w')
                       end) w1) ->
  wp (transaction f) Q w.
Proof.
  intros Hn He Hf. unfold wp. rewrite transaction_never_retries by done.
  by apply wp_conn_transaction.
Qed.
End retries.

(** Lifted results whose error is built by a constructor of [Error]. *)
Lemma raises_from_ext `{Chrono} {A} (f : string -> Error) (r : ext A) :
  (forall s, no_retry (f s)) -> never_retries (lift (from_ext f r) : App A).
Proof. intros Hf. apply raises_lift. destruct r; simpl; by intros e [= <-]. Qed.

Lemma raises_ok_or `{Chrono} {A} e (o : option A) : no_retry e -> never_retries (lift (ok_or e o) : App A).
Proof. intros He. apply raises_lift. destruct o; simpl; by intros e' [= <-]. Qed.

Ltac raises_step :=
  match goal with
  | |- raises _ (lift (from_ext _ _)) => apply raises_from_ext; done
  | |- raises _ (lift (ok_or _ _)) => apply raises_ok_or; done
  | |- raises _ (mret _) => apply raises_ret
  | |- raises _ (throw _) => apply raises_throw; first [done | apply should_retry_from_diesel]
  | |- raises _ (panic _) => apply raises_panic
  | |- raises _ (gets _) => apply raises_gets
  | |- raises _ (_ ≫= _) => apply raises_bind; [|intros ?]
  | |- raises _ (attempt _) => apply raises_attempt
  | |- raises _ (exec _) => apply raises_exec
  | |- raises _ (for_each _ _) => apply raises_for_each; intros ?
  | |- raises _ (fold_each _ _ _) => apply raises_fold_each; intros ? ?
  | |- raises _ (transaction _) => apply raises_transaction
  | |- raises _ (exclusive_transaction _) => apply raises_conn_transaction
  | |- raises _ (conn_transaction _) => apply raises_conn_transaction
  | |- raises _ (if ?b then _ else _) => destruct b
  | |- raises _ (match ?x with _ => _ end) => destruct x
  | |- raises _ (let '_ := ?x in _) => destruct x
  | |- _ => solve [eauto with raises]
  end.
Ltac solve_raises := repeat raises_step.

(** ** Inserting rows *)
Section inserting.
Context {X_chrono : Chrono} {X_sqlite : Sqlite}.
Context {R : Type} {T : Table R} {TL : TableLaws R}.
Implicit Types (w : World) (d : Db) (r : R).

(** [r] can be stored in [d] under the rowid [i]. *)
Record insertable d i r : Prop := {
  ins_rowid : i = default (next_rowid (table_get d)) (row_explicit_id r);
  ins_fresh : i ∉ (table_get d).*1;
  ins_unique : forall x, x ∈ table_get d -> row_conflict r x.2 = false;
  ins_fk : row_fk_ok d r = true;
}.

(** The database after storing [r] under [i]. *)
Definition db_insert i r d : Db := table_set (table_get d ++ [(i, row_with_id i r)]) d.

Lemma next_rowid_fresh (t : list (Z * R)) : next_rowid t ∉ t.*1.
Proof.
  unfold next_rowid. assert (forall i, i ∈ t.*1 -> i <= foldr Z.max 0 t.*1) as H.
  { induction t.*1 as [|j l IH]; intros i; [set_solver|]. simpl.
    intros [->|Hi]%elem_of_cons; [lia|]. specialize (IH i Hi). lia. }
  intros Hi%H. lia.
Qed.

Lemma next_rowid_pos (t : list (Z * R)) : 0 < next_rowid t.
Proof. unfold next_rowid. induction t.*1; simpl; lia. Qed.

Lemma insert_conflict_false d i r :
  (has_id (table_get d) i || existsb (fun x => row_conflict (row_with_id i r) x.2) (table_get d))
    = false <->
  (i ∉ (table_get d).*1) /\ (forall x, x ∈ table_get d -> row_conflict r x.2 = false).
Proof.
  rewrite orb_false_iff. unfold has_id. rewrite bool_decide_eq_false, existsb_false.
  by setoid_rewrite row_conflict_with_id_l.
Qed.

Lemma wp_insert_into r Q w :
  (forall e w', ~ healthy w \/ (forall i, ~ insertable (w_db w) i r) -> e <> Diesel.NotFound ->
     leads w (w_db w) w' -> Q (Err e) w') ->
  (forall i w', insertable (w_db w) i r -> leads w (db_insert i r (w_db w)) w' ->
     w_rowid w' = i -> Q (Ok tt) w') ->
  wp (insert_into r) Q w.
Proof.
  intros He Ho. apply wp_statement; [intros [] w' Hh Hw'; by apply He; [left|..]|].
  intros w1 Hl. pose proof Hl as [Hw1 Hf1]. unfold wp; simpl. rewrite Hw1.
  set (i := default _ _). destruct (_ || _) eqn:Ec; simpl.
  { apply He; [|done..]. right. intros j [Hj Hf Hu _].
    replace j with i in * by done. by rewrite (proj2 (insert_conflict_false _ _ _)) in Ec. }
  apply insert_conflict_false in Ec as [Hf Hu].
  destruct (row_fk_ok _ _) eqn:Ek; simpl.
  - rewrite row_fk_ok_with_id in Ek. by apply (Ho i).
  - apply He; [|done..]. right. intros j [Hj _ _ Hk].
    replace j with i in * by done. by rewrite row_fk_ok_with_id, Hk in Ek.
Qed.

(** A fault is never taken for a conflict. *)
Lemma wp_insert_conflict r w :
  wp (insert_into r) (fun res _ => forall info,
    res = Err (Diesel.DatabaseError Diesel.UniqueViolation info) ->
    forall i, ~ insertable (w_db w) i r) w.
Proof.
  apply wp_statement; [by intros [] w'|]. intros w1 [Hw1 _]. unfold wp; simpl. rewrite Hw1.
  destruct (_ || _) eqn:Ec; simpl.
  - intros _ _ j [Hj Hf Hu _]. rewrite <- Hj in Ec.
    by rewrite (proj2 (insert_conflict_false _ _ _)) in Ec.
  - by destruct (row_fk_ok _ _).
Qed.

Lemma wp_insert_get_id r Q w :
  (forall e w', ~ healthy w \/ (forall i, ~ insertable (w_db w) i r) -> e <> Diesel.NotFound ->
     Q (Err e) w') ->
  (forall i w', insertable (w_db w) i r -> leads w (db_insert i r (w_db w)) w' -> Q (Ok i) w') ->
  wp (insert_get_id r) Q w.
Proof.
  intros He Ho. apply wp_bind, wp_insert_into; [auto|]. intros i w' Hi Hw' Hr.
  unfold wp, last_insert_rowid, statement. unfold leads, healthy in *.
  destruct (w_faults w') as [|[f|] fs] eqn:E; simpl; rewrite ?Hr.
  - apply Ho; [done|]. by rewrite E.
  - apply He; [|by destruct f]. left. intros Hh. by apply Hw' in Hh.
  - apply Ho; [done|]. split; [apply Hw'|]. intros Hh. by apply Hw' in Hh.
Qed.

(** Whatever the outcome, the row is stored or the database is unchanged. *)
Lemma insert_get_id_db r w :
  wp (insert_get_id r) (fun _ w' => w_db w' = w_db w \/
    exists i, insertable (w_db w) i r /\ w_db w' = db_insert i r (w_db w)) w.
Proof.
  apply wp_bind, wp_insert_into.
  - intros e w' _ _ Hw'. left. by apply leads_db in Hw'.
  - intros i w' Hi Hw' _. right. exists i. split; [done|]. apply leads_db in Hw'.
    unfold last_insert_rowid, statement. by destruct (w_faults w') as [|[] ?].
Qed.

(** A row that repeats a unique column of a stored one is refused, and the
    caller sees [AlreadyExists]. *)
Lemma insert_into_conflict r x w :
  healthy w -> x ∈ table_get (w_db w) -> row_conflict r x.2 = true ->
  insert_into r w = (Err (unique_violation table_name), w).
Proof.
  intros Hh Hx Hc. unfold insert_into. rewrite statement_healthy by done. cbv beta zeta.
  destruct (_ || _) eqn:E; [done|]. apply insert_conflict_false in E as [_ Hu].
  by rewrite Hu in Hc.
Qed.

Lemma db_insert_get i r d :
  table_get (db_insert i r d) = table_get d ++ [(i, row_with_id i r)].
Proof. apply table_get_set. Qed.

Lemma table_ok_insert d i r :
  insertable d i r -> table_ok (table_get d) -> table_ok (table_get d ++ [(i, row_with_id i r)]).
Proof.
  intros [_ Hf Hu _] [Hn Hw Hq]. split.
  - rewrite fmap_app. apply NoDup_app. split_and!; [done| |by apply NoDup_singleton].
    intros j Hj ->%list_elem_of_singleton. done.
  - intros x [Hx| ->%list_elem_of_singleton]%elem_of_app; [by apply Hw|]. apply row_with_id_with_id.
  - intros x y [Hx| ->%list_elem_of_singleton]%elem_of_app
             [Hy| ->%list_elem_of_singleton]%elem_of_app Hc; simpl in *; [by apply Hq| | |done].
    + rewrite row_conflict_sym, row_conflict_with_id_l, Hu in Hc by done. done.
    + rewrite row_conflict_with_id_l, Hu in Hc by done. done.
Qed.
End inserting.

(** What a relation must know about the three kinds of writes. *)
Class InsertRel `{Chrono} (Rel : Db -> Db -> Prop) (R : Type) `{!Table R} : Prop :=
  insert_rel d i (r : R) : insertable d i r -> Rel d (db_insert i r d).
Class UpdateRel `{Chrono} (Rel : Db -> Db -> Prop) (R : Type) `{!Table R} (f : R -> R) : Prop :=
  update_rel d : Rel d (table_set ((fun x => (x.1, f x.2)) <$> table_get d) d).
Class ReplaceRel `{Chrono} (Rel : Db -> Db -> Prop) (R : Type) `{!Table R} : Prop :=
  replace_rel d i (r : R) :
    let t := List.filter (fun x => negb (row_conflict r x.2)) (table_get d) in
    i = default (next_rowid t) (row_explicit_id r) -> row_fk_ok d (row_with_id i r) = true ->
    Rel d (table_set (t ++ [(i, row_with_id i r)]) d).

(** ** Rows that carry their rowid *)
Section stored_ids.
Context {X_chrono : Chrono}.

Class IdTable (R : Type) {T : Table R} : Prop :=
  row_explicit_id_with_id i (r : R) : row_explicit_id (row_with_id i r) = Some i.

Context {R : Type} {T : Table R} {I : IdTable R}.

Lemma stored_id (d : Db) i (r : R) :
  table_ok (table_get d) -> (i, r) ∈ table_get d -> row_explicit_id r = Some i.
Proof.
  intros [_ Hr _] H. specialize (Hr _ H). simpl in Hr. rewrite <- Hr. apply row_explicit_id_with_id.
Qed.

Lemma stored_unique d (r s : R) :
  table_ok (table_get d) -> r ∈ rows d -> s ∈ rows d ->
  row_explicit_id r = row_explicit_id s -> r = s.
Proof.
  intros Hok [i Hi]%rows_elem_of [j Hj]%rows_elem_of E.
  pose proof (stored_id _ _ _ Hok Hi) as Ei. pose proof (stored_id _ _ _ Hok Hj) as Ej.
  assert (i = j) as -> by congruence. destruct Hok as [Hn _ _].
  apply list_elem_of_lookup in Hi as [a Ha], Hj as [b Hb].
  assert (a = b) as ->; [|congruence].
  apply (NoDup_lookup _ _ _ j Hn); rewrite list_lookup_fmap; [by rewrite Ha|by rewrite Hb].
Qed.

Lemma stored_has_id d (r : R) :
  table_ok (table_get d) -> r ∈ rows d ->
  exists i, row_explicit_id r = Some i /\ has_id (table_get d) i = true.
Proof.
  intros Hok Hr. pose proof Hr as [i Hi]%rows_elem_of. exists i.
  split; [by eapply stored_id|]. apply bool_decide_eq_true, list_elem_of_fmap. by exists (i, r).
Qed.

Lemma has_id_stored d i :
  table_ok (table_get (R := R) d) -> has_id (table_get (R := R) d) i = true ->
  exists r : R, r ∈ rows d /\ row_explicit_id r = Some i.
Proof.
  intros Hok Hi%bool_decide_eq_true. apply list_elem_of_fmap in Hi as ([j r] & -> & Hr).
  exists r. split; [apply rows_elem_of; eauto|by eapply stored_id].
Qed.

Lemma rows_NoDup d : table_ok (table_get (R := R) d) -> NoDup (rows (R := R) d).
Proof.
  intros Hok. unfold rows. pose proof Hok as [Hn _ _]. apply NoDup_fmap_2_strong.
  - intros [i r] [j s] Hi Hj E. simpl in E. subst s.
    pose proof (stored_id _ _ _ Hok Hi). pose proof (stored_id _ _ _ Hok Hj). congruence.
  - by eapply NoDup_fmap_1.
Qed.

Lemma rows_db_insert {TL : TableLaws R} d i (r : R) :
  rows (db_insert i r d) = rows d ++ [row_with_id i r].
Proof. unfold rows, db_insert. by rewrite table_get_set, fmap_app. Qed.
End stored_ids.

(** A filter that holds of at most one element finds it. *)
Lemma filter_find {A} (f : A -> bool) l :
  NoDup l -> (forall x y, x ∈ l -> y ∈ l -> f x = true -> f y = true -> x = y) ->
  List.filter f l = match List.find f l with Some x => [x] | None => [] end.
Proof.
  induction l as [|x l IH]; intros Hn Hu; [done|]. apply NoDup_cons in Hn as [Hx Hn]. simpl.
  destruct (f x) eqn:Ex.
  - f_equal. destruct (List.filter f l) as [|y k] eqn:E; [done|].
    assert (y ∈ List.filter f l) as Hy by (rewrite E; by left).
    apply elem_of_filter_bool in Hy as [Hy Ey]. destruct Hx.
    rewrite (Hu x y); [done|by left|by right|done|done].
  - apply IH; [done|]. intros. apply Hu; try done; by right.
Qed.

Lemma find_Some_elem {A} (f : A -> bool) l x : List.find f l = Some x -> x ∈ l /\ f x = true.
Proof. intros [Hx Hf]%find_some. by rewrite list_elem_of_In. Qed.

Lemma find_elem {A} (f : A -> bool) l x : x ∈ l -> f x = true -> exists y, List.find f l = Some y.
Proof.
  intros Hx Hf. destruct (List.find f l) as [y|] eqn:E; [by exists y|].
  rewrite list_elem_of_In in Hx. by rewrite (find_none _ _ E _ Hx) in Hf.
Qed.

(** ** Storing several rows *)
Section insert_all.
Context {X_chrono : Chrono} {X_sqlite : Sqlite}.
Context {R : Type} {T : Table R} {TL : TableLaws R}.
Implicit Types (d : Db) (r : R).

Inductive inserts : Db -> list R -> list Z -> Db -> Prop :=
| inserts_nil d : inserts d [] [] d
| inserts_cons d i r rs ids d' :
    insertable d i r -> inserts (db_insert i r d) rs ids d' -> inserts d (r :: rs) (i :: ids) d'.

Lemma inserts_db d rs ids d' :
  inserts d rs ids d' ->
  length ids = length rs /\
  d' = table_set (table_get d ++ zip_with (fun i r => (i, row_with_id i r)) ids rs) d.
Proof.
  induction 1 as [d|d i r rs ids d' Hi _ [Hl IH]]; simpl.
  - split; [done|]. by rewrite app_nil_r, table_set_get.
  - split; [by rewrite Hl|]. rewrite IH. unfold db_insert.
    by rewrite table_get_set, table_set_set, <- app_assoc.
Qed.

Lemma inserts_get d rs ids d' :
  inserts d rs ids d' ->
  table_get d' = table_get d ++ zip_with (fun i r => (i, row_with_id i r)) ids rs.
Proof. intros [_ ->]%inserts_db. by rewrite table_get_set. Qed.

Lemma inserts_snoc d rs ids d' i r :
  inserts d rs ids d' -> insertable d' i r ->
  inserts d (rs ++ [r]) (ids ++ [i]) (db_insert i r d').
Proof. induction 1; simpl; intros; repeat (constructor; auto). Qed.

Lemma inserts_rel Rel `{!PreOrder Rel} `{!InsertRel Rel R} d rs ids d' :
  inserts d rs ids d' -> Rel d d'.
Proof. induction 1; [reflexivity|]. etrans; [by apply insert_rel|done]. Qed.

(** The rows can be stored one after the other. *)
Definition all_insertable d rs : Prop := exists ids d', inserts d rs ids d'.

(** Any call that stores one row, in a loop. *)
Lemma wp_for_each_insert {A B} (f : A -> App B) (row : A -> R) xs Q w :
  (forall x w Q, x ∈ xs ->
     (forall e w', ~ healthy w \/ (forall i, ~ insertable (w_db w) i (row x)) -> Q (Err e) w') ->
     (forall i b w', insertable (w_db w) i (row x) ->
        leads w (db_insert i (row x) (w_db w)) w' -> Q (Ok b) w') ->
     wp (f x) Q w) ->
  (forall e w', ~ healthy w \/ ~ all_insertable (w_db w) (row <$> xs) -> Q (Err e) w') ->
  (forall ids d' bs w', inserts (w_db w) (row <$> xs) ids d' -> leads w d' w' -> Q (Ok bs) w') ->
  wp (for_each f xs) Q w.
Proof.
  revert w Q. induction xs as [|x xs IH]; intros w Q Hf He Ho; simpl.
  { apply wp_ret. by apply (Ho [] (w_db w) [] w); [constructor|apply leads_refl]. }
  apply wp_bind, Hf; [set_solver| |].
  - intros e w' [Hh|Hi]; apply He; [by left|right].
    intros (ids & d' & Hd'). inversion Hd'; subst. by eapply Hi.
  - intros i b w1 Hi Hl. pose proof (leads_db _ _ _ Hl) as Hd.
    apply wp_bind, IH; [by intros; apply Hf; [set_solver|..]|..].
    + intros e w' [Hh|Ha]; apply He; [left; by eapply leads_sick|right].
      intros (ids & d' & Hd'). inversion Hd' as [|? i' ? ? ? ? Hi' Hr]; subst.
      apply Ha. rewrite Hd. replace i with i'; [by eexists _, _|].
      destruct Hi, Hi'. congruence.
    + intros ids d' bs w' Hr Hl'. apply wp_ret. rewrite Hd in Hr.
      apply (Ho (i :: ids) d' _ w'); [by constructor|by eapply leads_trans].
Qed.

(** Rows without identifiers of their own that disagree on the unique columns,
    with the table and among each other, can be stored. *)
Lemma all_insertable_intro d rs :
  (forall r, r ∈ rs -> row_explicit_id r = None) ->
  (forall r x, r ∈ rs -> x ∈ table_get d -> row_conflict r x.2 = false) ->
  (forall i j r s, rs !! i = Some r -> rs !! j = Some s -> i <> j -> row_conflict r s = false) ->
  (forall d' r, r ∈ rs -> (exists t, d' = table_set t d) -> row_fk_ok d' r = true) ->
  all_insertable d rs.
Proof.
  revert d. induction rs as [|r rs IH]; intros d He Hx Hp Hk; [by exists [], d; constructor|].
  set (i := next_rowid (table_get d)).
  assert (insertable d i r) as Hi.
  { split; [|by apply next_rowid_fresh|by intros; apply Hx; [left|]|].
    - by rewrite He by (by left).
    - apply Hk; [by left|]. exists (table_get d). by rewrite table_set_get. }
  destruct (IH (db_insert i r d)) as (ids & d' & Hd').
  - intros. apply He. by right.
  - intros s x Hs. unfold db_insert. rewrite table_get_set.
    intros [Hxd| ->%list_elem_of_singleton]%elem_of_app; [by apply Hx; [right|]|]. simpl.
    rewrite row_conflict_with_id_r. apply list_elem_of_lookup in Hs as [j Hj].
    by apply (Hp (S j) 0%nat).
  - intros a b ra rb Ha Hb Hab. apply (Hp (S a) (S b)); [done..|congruence].
  - intros d' s Hs [t ->]. apply Hk; [by right|]. exists t. unfold db_insert. apply table_set_set.
  - exists (i :: ids), d'. by constructor.
Qed.
End insert_all.

Section integrity_lemmas.
Context {X_chrono : Chrono} {X_sqlite : Sqlite} {X_hex : Hex}.

#[export] Instance grows_preorder : PreOrder grows.
Proof.
  split.
  - intros d. split; eauto.
  - intros d1 d2 d3 [] []. split; [|by etrans..].
    intros x (y & Hy & <-)%grows_indices0. eauto.
Qed.

Lemma has_id_mono {R} (t t' : list (Z * R)) i :
  t `prefix_of` t' -> has_id t i = true -> has_id t' i = true.
Proof.
  unfold has_id. rewrite !bool_decide_eq_true. intros [k ->] H. rewrite fmap_app. set_solver.
Qed.

Lemma existsb_mono {A} (f : A -> bool) (l l' : list A) :
  l `prefix_of` l' -> existsb f l = true -> existsb f l' = true.
Proof. intros [k ->] H. by rewrite existsb_app, H. Qed.

(** Rows that satisfied their foreign keys keep doing so while tables grow. *)
Class FkMono (R : Type) `{!Table R} : Prop :=
  fk_mono d d' (r : R) : grows d d' -> row_fk_ok d r = true -> row_fk_ok d' r = true.

Ltac solve_fk_mono :=
  let Hg := fresh in
  intros d d' r Hg; simpl; try case_match; rewrite ?andb_true_iff;
  intuition (try done; first [ eapply has_id_mono; [|eassumption] | eapply existsb_mono; [|eassumption] ];
             apply Hg).

#[export] Instance BlockBalance_fk_mono : FkMono BlockBalance.
Proof.
  intros d d' r Hg H. simpl in *. apply existsb_exists_elem in H as (x & Hx & Hr).
  destruct (grows_indices _ _ Hg _ Hx) as (y & Hy & Heq).
  apply existsb_exists_elem. exists y. by rewrite Heq.
Qed.
#[export] Instance MintConfig_fk_mono : FkMono MintConfig.
Proof. solve_fk_mono. Qed.
#[export] Instance MintTx_fk_mono : FkMono MintTx.
Proof. solve_fk_mono. Qed.
#[export] Instance GnosisSafeDeposit_fk_mono : FkMono GnosisSafeDeposit.
Proof. solve_fk_mono. Qed.
#[export] Instance GnosisSafeWithdrawal_fk_mono : FkMono GnosisSafeWithdrawal.
Proof. solve_fk_mono. Qed.
#[export] Instance AuditedMint_fk_mono : FkMono AuditedMint.
Proof. solve_fk_mono. Qed.
#[export] Instance AuditedBurn_fk_mono : FkMono AuditedBurn.
Proof. solve_fk_mono. Qed.

Lemma fk_ok_mono {R} `{!Table R} `{!FkMono R} d d' (t : list (Z * R)) :
  grows d d' -> fk_ok d t -> fk_ok d' t.
Proof. intros Hg Ht x Hx. eapply fk_mono; [done|]. by apply Ht. Qed.

Lemma fk_ok_app {R} `{!Table R} `{!TableLaws R} `{!FkMono R} d d' (t : list (Z * R)) i r :
  grows d d' -> fk_ok d t -> row_fk_ok d r = true -> fk_ok d' (t ++ [(i, row_with_id i r)]).
Proof.
  intros Hg Ht Hr. apply (fk_ok_mono d); [done|].
  intros x [Hx| ->%list_elem_of_singleton]%elem_of_app; [by apply Ht|]. simpl.
  by rewrite row_fk_ok_with_id.
Qed.

(** Storing an insertable row grows the database and keeps its integrity. *)
Class InsertOk (R : Type) `{!Table R} : Prop := {
  insert_grows d i (r : R) : grows d (db_insert i r d);
  insert_integrity d i (r : R) : insertable d i r -> integrity d -> integrity (db_insert i r d);
}.

Ltac solve_insert_grows :=
  intros d i r; split; simpl;
  first [ done | by eauto | by apply prefix_app_r
        | by intros x Hx; exists x; split; [set_solver|] ].

Ltac solve_insert_ok :=
  split;
  [ solve_insert_grows
  | intros d i r Hi Hd;
    assert (grows d (db_insert i r d)) as Hg by (clear; revert d i r; solve_insert_grows);
    destruct Hd; unfold db_insert in *; simpl in *;
    split; simpl;
    first [ done
          | by refine (table_ok_insert d i r Hi _)
          | by eapply fk_ok_mono
          | by refine (fk_ok_app d _ (table_get d) i r Hg _ (ins_fk _ _ _ Hi)) ] ].

#[export] Instance MintConfigTx_id : IdTable MintConfigTx.
Proof. done. Qed.
#[export] Instance MintConfig_id : IdTable MintConfig.
Proof. done. Qed.
#[export] Instance MintTx_id : IdTable MintTx.
Proof. done. Qed.
#[export] Instance BurnTxOut_id : IdTable BurnTxOut.
Proof. done. Qed.
#[export] Instance GnosisSafeDeposit_id : IdTable GnosisSafeDeposit.
Proof. done. Qed.
#[export] Instance GnosisSafeWithdrawal_id : IdTable GnosisSafeWithdrawal.
Proof. done. Qed.
#[export] Instance AuditedMint_id : IdTable AuditedMint.
Proof. done. Qed.
#[export] Instance AuditedBurn_id : IdTable AuditedBurn.
Proof. done. Qed.

#[export] Instance BlockAuditData_insert_ok : InsertOk BlockAuditData.
Proof. solve_insert_ok. Qed.
#[export] Instance BlockBalance_insert_ok : InsertOk BlockBalance.
Proof. solve_insert_ok. Qed.
#[export] Instance MintConfigTx_insert_ok : InsertOk MintConfigTx.
Proof. solve_insert_ok. Qed.
#[export] Instance MintConfig_insert_ok : InsertOk MintConfig.
Proof. solve_insert_ok. Qed.
#[export] Instance MintTx_insert_ok : InsertOk MintTx.
Proof. solve_insert_ok. Qed.
#[export] Instance BurnTxOut_insert_ok : InsertOk BurnTxOut.
Proof. solve_insert_ok. Qed.
#[export] Instance GnosisSafeTx_insert_ok : InsertOk GnosisSafeTx.
Proof. solve_insert_ok. Qed.
#[export] Instance GnosisSafeDeposit_insert_ok : InsertOk GnosisSafeDeposit.
Proof. solve_insert_ok. Qed.
#[export] Instance GnosisSafeWithdrawal_insert_ok : InsertOk GnosisSafeWithdrawal.
Proof. solve_insert_ok. Qed.
#[export] Instance AuditedMint_insert_ok : InsertOk AuditedMint.
Proof. solve_insert_ok. Qed.
#[export] Instance AuditedBurn_insert_ok : InsertOk AuditedBurn.
Proof. solve_insert_ok. Qed.
#[export] Instance Counters_insert_ok : InsertOk Counters.
Proof. solve_insert_ok. Qed.

Lemma integrity_empty : integrity empty_db.
Proof. split; first [by split; [apply NoDup_nil_2|set_solver..] | by intros x Hx; set_solver]. Qed.
End integrity_lemmas.

(** ** Relations every call respects

    [db_respects Rel m]: from whatever world, with whatever faults, [m] takes the
    database to a [Rel]-related one.  The tactic [solve_respects] walks through a
    body; the database [respects] holds the facts about named calls. *)
Abbreviation db_respects Rel m := (respects (on_db Rel) m).

(** The tables only grow and integrity is kept. *)
Definition evolves `{Chrono} `{Hex} (d d' : Db) : Prop :=
  grows d d' /\ (integrity d -> integrity d').

(** A part of the database is left alone. *)
Definition same `{Chrono} {A} (part : Db -> A) (d d' : Db) : Prop := part d' = part d.

#[export] Instance evolves_preorder `{Chrono} `{Hex} : PreOrder evolves.
Proof.
  split; [by split|]. intros d1 d2 d3 [G1 I1] [G2 I2]. split; [by etrans|auto].
Qed.

#[export] Instance same_preorder `{Chrono} {A} (part : Db -> A) : PreOrder (same part).
Proof. split; [done|]. unfold same. intros d1 d2 d3. congruence. Qed.

Section respects_db.
Context {X_chrono : Chrono} {X_sqlite : Sqlite} {X_hex : Hex}.
Context (Rel : Db -> Db -> Prop) `{!PreOrder Rel}.

#[local] Lemma respects_same_db {E A} (m : M World E A) :
  (forall w, w_db (m w).2 = w_db w) -> db_respects Rel m.
Proof. intros H w. unfold on_db. rewrite H. reflexivity. Qed.

Lemma respects_statement {A} (body : Stmt A) : db_respects Rel body -> db_respects Rel (statement body).
Proof.
  intros Hb w. unfold statement. destruct (w_faults w) as [|[] fs]; [apply Hb|unfold on_db; simpl; reflexivity|].
  apply (Hb (set_faults fs w)).
Qed.

Lemma respects_exec {A} (s : Stmt A) : db_respects Rel s -> db_respects Rel (exec s).
Proof. apply respects_with_err. Qed.

Lemma respects_optional {A} (s : Stmt A) : db_respects Rel s -> db_respects Rel (optional s).
Proof. intros Hs w. specialize (Hs w). unfold optional. by destruct (s w). Qed.

Lemma respects_load {A} (q : Db -> list A) : db_respects Rel (load q).
Proof. apply respects_statement, respects_same_db. done. Qed.

Lemma respects_load_ordered {A} key (q : Db -> list A) : db_respects Rel (load_ordered key q).
Proof. apply respects_statement, respects_same_db. done. Qed.

Lemma respects_load_first {A} (q : Db -> list A) : db_respects Rel (load_first q).
Proof. apply respects_bind; [apply _|apply respects_load|]. intros l. apply respects_lift, _. Qed.

Lemma respects_load_ordered_first {A} key (q : Db -> list A) :
  db_respects Rel (load_ordered_first key q).
Proof. apply respects_bind; [apply _|apply respects_load_ordered|]. intros l. apply respects_lift, _. Qed.

Lemma respects_last_insert_rowid : db_respects Rel last_insert_rowid.
Proof. apply respects_statement, respects_same_db. done. Qed.

Lemma respects_get_conn : db_respects Rel get_conn.
Proof. apply respects_with_err, respects_statement, respects_same_db. done. Qed.

Lemma respects_conn_transaction {A} (f : App A) :
  db_respects Rel f -> db_respects Rel (conn_transaction f).
Proof.
  intros Hf w. change (wp (conn_transaction f) (fun _ w' => on_db Rel w w') w).
  apply wp_conn_transaction; unfold on_db.
  - intros e w' _ Hw'%leads_db. rewrite Hw'. reflexivity.
  - intros w1 Hw1%leads_db. specialize (Hf w1). unfold wp, on_db in *. rewrite Hw1 in Hf.
    destruct (f w1) as [[] ?]; simpl in *; [done|reflexivity..].
Qed.

Lemma respects_transaction_loop {A} n i (f : App A) :
  db_respects Rel f -> db_respects Rel (transaction_loop n i f).
Proof.
  intros Hf%respects_conn_transaction. revert i. induction n as [|n IH]; intros i w; simpl.
  { unfold on_db. simpl. reflexivity. }
  specialize (Hf w). destruct (conn_transaction f w) as [[a|e|p] w1]; simpl in *; [done| |done].
  destruct (_ || _); simpl; [done|].
  etrans; [exact Hf|]. apply (IH (i + 1) (add_sleep (BASE_DELAY * 2 ^ i) w1)).
Qed.

Lemma respects_transaction {A} (f : App A) :
  db_respects Rel f -> db_respects Rel (transaction f).
Proof. apply respects_transaction_loop. Qed.

Lemma respects_insert_into {R} `{!Table R} `{!TableLaws R} `{!InsertRel Rel R} (r : R) :
  db_respects Rel (insert_into r).
Proof.
  intros w. change (wp (insert_into r) (fun _ w' => on_db Rel w w') w).
  apply wp_insert_into; unfold on_db.
  - intros e w' _ _ Hw'%leads_db. rewrite Hw'. reflexivity.
  - intros i w' Hi Hw'%leads_db _. rewrite Hw'. by apply insert_rel.
Qed.

Lemma respects_insert_get_id {R} `{!Table R} `{!TableLaws R} `{!InsertRel Rel R} (r : R) :
  db_respects Rel (insert_get_id r).
Proof.
  apply respects_bind; [apply _|apply respects_insert_into|]. intros _.
  apply respects_last_insert_rowid.
Qed.

Lemma respects_update_all {R} `{!Table R} f `{!UpdateRel Rel R f} : db_respects Rel (update_all f).
Proof. apply respects_statement. intros w. apply update_rel. Qed.

Lemma respects_replace_into {R} `{!Table R} `{!ReplaceRel Rel R} (r : R) :
  db_respects Rel (replace_into r).
Proof.
  apply respects_statement. intros w. unfold on_db; simpl.
  destruct (row_fk_ok _ _) eqn:E; simpl; [|reflexivity]. by apply replace_rel.
Qed.
End respects_db.

#[export] Instance evolves_insert `{Chrono} `{Hex} R `{!Table R} `{!InsertOk R} : InsertRel evolves R.
Proof. intros d i r Hi. split; [apply insert_grows|by apply insert_integrity]. Qed.

Ltac respects_step :=
  match goal with
  | |- respects _ (mret _) => apply respects_ret, _
  | |- respects _ (throw _) => apply respects_throw, _
  | |- respects _ (panic _) => apply respects_panic, _
  | |- respects _ (gets _) => apply respects_gets, _
  | |- respects _ (lift _) => apply respects_lift, _
  | |- respects _ (_ ≫= _) => apply respects_bind; [apply _| |intros ?]
  | |- respects _ (with_err _ _) => apply respects_with_err
  | |- respects _ (attempt _) => apply respects_attempt
  | |- respects _ (exec _) => apply respects_exec
  | |- respects _ (optional _) => apply respects_optional
  | |- respects _ (for_each _ _) => apply respects_for_each; [apply _|intros ? _]
  | |- respects _ (fold_each _ _ _) => apply respects_fold_each; [apply _|intros ? ? _]
  | |- respects _ (transaction _) => apply respects_transaction; [apply _|]
  | |- respects _ (exclusive_transaction _) => apply respects_conn_transaction; [apply _|]
  | |- respects _ (conn_transaction _) => apply respects_conn_transaction; [apply _|]
  | |- respects _ (load _) => apply respects_load, _
  | |- respects _ (load_first _) => apply respects_load_first, _
  | |- respects _ (load_ordered _ _) => apply respects_load_ordered, _
  | |- respects _ (load_ordered_first _ _) => apply respects_load_ordered_first, _
  | |- respects _ last_insert_rowid => apply respects_last_insert_rowid, _
  | |- respects _ get_conn => apply respects_get_conn, _
  | |- respects _ (insert_into _) => apply respects_insert_into; apply _
  | |- respects _ (insert_get_id _) => apply respects_insert_get_id; apply _
  | |- respects _ (update_all _) => apply respects_update_all; apply _
  | |- respects _ (replace_into _) => apply respects_replace_into; apply _
  | |- respects _ (if ?b then _ else _) => destruct b
  | |- respects _ (match ?x with _ => _ end) => destruct x
  | |- respects _ (let '_ := ?x in _) => destruct x
  | |- _ => solve [eauto with respects]
  end.
Ltac solve_respects := repeat respects_step.
