(* ===== verification/CountersModel.v ===== *)
(** * [src/db/models/counters.rs] and [src/counters.rs]

    The single row of general-purpose counters, its atomic increments, and the
    Prometheus gauges that mirror it. *)

From S2P Require Import Prelude Externals GnosisTypes Errors Schema Database.

(** The counters [impl_get_and_inc!] generates a getter and an increment for. *)
Inductive CounterVar :=
| num_blocks_synced
| num_burns_exceeding_balance
| num_mint_txs_without_matching_mint_config
| num_mismatching_mints_and_deposits
| num_mismatching_burns_and_withdrawals
| num_unknown_ethereum_token_deposits
| num_unknown_ethereum_token_withdrawals
| num_mints_to_unknown_safe
| num_burns_from_unknown_safe
| num_invalid_ethereum_transactions
| num_invalid_multi_sig_transactions
| num_unexpected_errors_matching_deposits_to_mints
| num_unexpected_errors_matching_mints_to_deposits
| num_unexpected_errors_matching_withdrawals_to_burns
| num_unexpected_errors_matching_burns_to_withdrawals.

#[export] Instance CounterVar_eq_dec : EqDecision CounterVar.
Proof. solve_decision. Defined.

(** The column of each counter. *)
Definition counter_column (v : CounterVar) (c : Counters) : Z :=
  match v with
  | num_blocks_synced => c_num_blocks_synced c
  | num_burns_exceeding_balance => c_num_burns_exceeding_balance c
  | num_mint_txs_without_matching_mint_config => c_num_mint_txs_without_matching_mint_config c
  | num_mismatching_mints_and_deposits => c_num_mismatching_mints_and_deposits c
  | num_mismatching_burns_and_withdrawals => c_num_mismatching_burns_and_withdrawals c
  | num_unknown_ethereum_token_deposits => c_num_unknown_ethereum_token_deposits c
  | num_unknown_ethereum_token_withdrawals => c_num_unknown_ethereum_token_withdrawals c
  | num_mints_to_unknown_safe => c_num_mints_to_unknown_safe c
  | num_burns_from_unknown_safe => c_num_burns_from_unknown_safe c
  | num_invalid_ethereum_transactions => c_num_invalid_ethereum_transactions c
  | num_invalid_multi_sig_transactions => c_num_invalid_multi_sig_transactions c
  | num_unexpected_errors_matching_deposits_to_mints =>
      c_num_unexpected_errors_matching_deposits_to_mints c
  | num_unexpected_errors_matching_mints_to_deposits =>
      c_num_unexpected_errors_matching_mints_to_deposits c
  | num_unexpected_errors_matching_withdrawals_to_burns =>
      c_num_unexpected_errors_matching_withdrawals_to_burns c
  | num_unexpected_errors_matching_burns_to_withdrawals =>
      c_num_unexpected_errors_matching_burns_to_withdrawals c
  end.

(** The generated getters: [self.$var_name as u64]. *)
Definition counter_get (v : CounterVar) (c : Counters) : Z := as_u64 (counter_column v c).

(** [.set(counters::$var_name.eq(counters::$var_name + 1))]. *)
Definition counter_bump (v : CounterVar) (c : Counters) : Counters :=
  let add w x := if decide (v = w) then x + 1 else x in
  mkCounters (c_id c)
    (add num_blocks_synced (c_num_blocks_synced c))
    (add num_burns_exceeding_balance (c_num_burns_exceeding_balance c))
    (add num_mint_txs_without_matching_mint_config (c_num_mint_txs_without_matching_mint_config c))
    (add num_mismatching_mints_and_deposits (c_num_mismatching_mints_and_deposits c))
    (add num_mismatching_burns_and_withdrawals (c_num_mismatching_burns_and_withdrawals c))
    (add num_unknown_ethereum_token_deposits (c_num_unknown_ethereum_token_deposits c))
    (add num_unknown_ethereum_token_withdrawals (c_num_unknown_ethereum_token_withdrawals c))
    (add num_mints_to_unknown_safe (c_num_mints_to_unknown_safe c))
    (add num_burns_from_unknown_safe (c_num_burns_from_unknown_safe c))
    (add num_invalid_ethereum_transactions (c_num_invalid_ethereum_transactions c))
    (add num_invalid_multi_sig_transactions (c_num_invalid_multi_sig_transactions c))
    (add num_unexpected_errors_matching_deposits_to_mints
       (c_num_unexpected_errors_matching_deposits_to_mints c))
    (add num_unexpected_errors_matching_mints_to_deposits
       (c_num_unexpected_errors_matching_mints_to_deposits c))
    (add num_unexpected_errors_matching_withdrawals_to_burns
       (c_num_unexpected_errors_matching_withdrawals_to_burns c))
    (add num_unexpected_errors_matching_burns_to_withdrawals
       (c_num_unexpected_errors_matching_burns_to_withdrawals c)).

(** [Counters::default()]. *)
Definition Counters_default : Counters := mkCounters 0 0 0 0 0 0 0 0 0 0 0 0 0 0 0 0.

(** The registered names of the gauges ([src/counters.rs]); one of them is not
    the name of its counter. *)
Definition gauge_name (v : CounterVar) : string :=
  match v with
  | num_blocks_synced => "num_blocks_synced"
  | num_burns_exceeding_balance => "num_burns_exceeding_balance"
  | num_mint_txs_without_matching_mint_config => "num_mint_txs_without_matching_mint_config"
  | num_mismatching_mints_and_deposits => "num_mismatching_mints_and_deposits"
  | num_mismatching_burns_and_withdrawals => "num_mismatching_burns_and_withdrawals"
  | num_unknown_ethereum_token_deposits => "num_unknown_ethereum_token_deposits"
  | num_unknown_ethereum_token_withdrawals => "num_unknown_ethereum_token_withdrawals"
  | num_mints_to_unknown_safe => "num_mints_to_unknown_safe"
  | num_burns_from_unknown_safe => "num_burns_from_unknown_safe"
  | num_invalid_ethereum_transactions => "num_invalid_ethereum_transfers"
  | num_invalid_multi_sig_transactions => "num_invalid_multi_sig_transactions"
  | num_unexpected_errors_matching_deposits_to_mints =>
      "num_unexpected_errors_matching_deposits_to_mints"
  | num_unexpected_errors_matching_mints_to_deposits =>
      "num_unexpected_errors_matching_mints_to_deposits"
  | num_unexpected_errors_matching_withdrawals_to_burns =>
      "num_unexpected_errors_matching_withdrawals_to_burns"
  | num_unexpected_errors_matching_burns_to_withdrawals =>
      "num_unexpected_errors_matching_burns_to_withdrawals"
  end.

(** The order in which [update_prometheus] sets them. *)
Definition all_counters : list CounterVar :=
  [ num_blocks_synced; num_burns_exceeding_balance; num_mint_txs_without_matching_mint_config;
    num_mismatching_mints_and_deposits; num_mismatching_burns_and_withdrawals;
    num_unknown_ethereum_token_deposits; num_unknown_ethereum_token_withdrawals;
    num_mints_to_unknown_safe; num_burns_from_unknown_safe; num_invalid_ethereum_transactions;
    num_invalid_multi_sig_transactions; num_unexpected_errors_matching_deposits_to_mints;
    num_unexpected_errors_matching_mints_to_deposits;
    num_unexpected_errors_matching_withdrawals_to_burns;
    num_unexpected_errors_matching_burns_to_withdrawals ].

Module Counters.
Section operations.
Context {X_chrono : Chrono} {X_sqlite : Sqlite}.

(** [Counters::get]. *)
Definition get : App Counters :=
  r ← attempt (load_first rows);
  match r with
  | Ok obj => mret obj
  | Err Diesel.NotFound => mret Counters_default
  | Err e => throw (from_diesel e)
  | Panic p => panic p
  end.

(** [Counters::update_prometheus]. *)
Definition update_prometheus (self : Counters) : App unit := fun w =>
  (Ok tt, foldl (fun w v => set_gauge (gauge_name v) (counter_column v self) w) w all_counters).

(** [Counters::inc_$var_name]. *)
Definition inc (v : CounterVar) : App unit :=
  n ← exec (update_all (counter_bump v));
  _ ← (if n =? 0 then throw NotFound
       else if n =? 1 then mret tt
       else throw (Other ("$var_name: unexpected number of rows (" +:+ pretty n +:+ ")")));
  c ← get;
  update_prometheus c.

(** [Counters::ensure_exists]. *)
Definition ensure_exists : App unit :=
  transaction (
    r ← attempt (load_first (rows (R := Counters)));
    match r with
    | Ok _ => mret tt
    | Err Diesel.NotFound => exec (insert_into Counters_default)
    | Err e => throw (from_diesel e)
    | Panic p => panic p
    end).
End operations.
End Counters.

(** ** The counters table never has more than its one row *)
Section counters.
Context {X_chrono : Chrono} {X_sqlite : Sqlite} {L_sqlite : SqliteLaws}.
Implicit Types w : World.

(** The state after [ensure_exists]: one row, under the hard-coded id 0. *)
Definition counters_row (d : Db) (c : Counters) : Prop := counters d = [(0, c)] /\ c_id c = 0.
Definition counters_ok (d : Db) : Prop := exists c, counters_row d c.

(** The database with one counter increased. *)
Definition bump_db (v : CounterVar) (d : Db) : Db :=
  table_set ((fun x => (x.1, counter_bump v x.2)) <$> counters d) d.

Lemma counter_column_bump v v' c :
  counter_column v' (counter_bump v c) = counter_column v' c + (if decide (v = v') then 1 else 0).
Proof. destruct v, v'; simpl; lia. Qed.

Lemma counters_row_bump v d c : counters_row d c -> counters_row (bump_db v d) (counter_bump v c).
Proof. intros [Hd Hc]. split; [|done]. simpl. by rewrite Hd. Qed.

Lemma rows_counters d c : counters_row d c -> rows d = [c].
Proof. intros [H _]. unfold rows. simpl. by rewrite H. Qed.

(** The gauges after publishing a row. *)
Definition publish (c : Counters) w : World :=
  foldl (fun w v => set_gauge (gauge_name v) (counter_column v c) w) w all_counters.

Lemma publish_db c w : w_db (publish c w) = w_db w.
Proof. done. Qed.

Lemma publish_healthy c w : healthy w -> healthy (publish c w).
Proof. done. Qed.

Lemma gauge_name_inj v v' : gauge_name v = gauge_name v' -> v = v'.
Proof. by destruct v, v'. Qed.

(** After an update every gauge shows its own counter. *)
Lemma publish_gauges c w v : w_gauges (publish c w) !! gauge_name v = Some (counter_column v c).
Proof. unfold publish, all_counters. simpl. destruct v; simpl; by simplify_map_eq. Qed.

Lemma query_get :
  query Counters.get (fun d r =>
    exists c, r = Ok c /\ forall c', counters_row d c' -> c = c').
Proof.
  intros w. apply wp_bind, wp_attempt, wp_load_first; simpl.
  - intros [] w' Hh Hw'; (split; [done|]); right; by eauto.
  - intros w' Hw'. unfold first. destruct (scan (rows (w_db w))) as [|c l] eqn:Hs; simpl;
      (split; [done|]); left; (eexists; split; [done|]); intros c' Hc';
      rewrite (rows_counters _ _ Hc'), scan_singleton in Hs; [done|by injection Hs].
Qed.

Lemma wp_update_all {R} `{!Table R} (f : R -> R) Q w :
  (forall g w', ~ healthy w -> leads w (w_db w) w' -> Q (Err (fault_error g)) w') ->
  (forall w', leads w (table_set ((fun x => (x.1, f x.2)) <$> table_get (w_db w)) (w_db w)) w' ->
     Q (Ok (Z.of_nat (length (table_get (w_db w))))) w') ->
  wp (update_all f) Q w.
Proof.
  intros He Ho. apply wp_statement; [done|]. intros w' Hw'. unfold wp; simpl.
  rewrite (leads_db _ _ _ Hw'). apply Ho. by eapply leads_set_db.
Qed.

(** An increment either updates the row or leaves it alone; only failing after
    the [UPDATE] does it do the former and report an error. *)
Lemma wp_inc v Q w :
  (forall e w', ~ healthy w \/ ~ counters_ok (w_db w) ->
     w_db w' = w_db w \/ w_db w' = bump_db v (w_db w) -> Q (Err e) w') ->
  (forall w', leads w (bump_db v (w_db w)) w' -> Q (Ok tt) w') ->
  wp (Counters.inc v) Q w.
Proof.
  intros He Ho. apply wp_bind, wp_exec, wp_update_all.
  { intros f w' Hh Hw'. apply He; [by left|left; by apply leads_db in Hw']. }
  intros w1 Hw1. simpl map_err.
  assert (forall n, n = Z.of_nat (length (counters (w_db w))) -> n <> 1 -> ~ counters_ok (w_db w)) as Hn.
  { intros n -> Hn [c [Hc _]]. by rewrite Hc in Hn. }
  set (n := Z.of_nat _). specialize (Hn n eq_refl).
  apply wp_bind. destruct (Z.eqb_spec n 0) as [E|_].
  { apply wp_throw, He; [|right; by apply leads_db in Hw1]. right. apply Hn. by rewrite E. }
  destruct (Z.eqb_spec n 1) as [E|E].
  2: { apply wp_throw, He; [|right; by apply leads_db in Hw1]. right. by apply Hn. }
  apply wp_ret, wp_bind, (wp_query _ _ _ _ query_get).
  - intros f w' Hh Hw'. apply He; [left; by eapply leads_sick|].
    right. rewrite (leads_db _ _ _ Hw'). by apply leads_db in Hw1.
  - intros r w' Hw' (c & -> & _). apply Ho.
    rewrite (leads_db _ _ _ Hw1) in Hw'. by eapply (leads_trans _ _ w') in Hw'.
Qed.

(** A call whose errors are counted by their class once it is over: the error
    itself is still what the caller sees, unless counting fails too. *)
Lemma wp_count_errors {A} (inner : App A) (count : Res Error A -> App unit)
    (class : Error -> CounterVar) (P : Error -> Prop) Q w :
  (forall a, count (Ok a) = mret tt) ->
  (forall e, count (Err e) = Counters.inc (class e)) ->
  counters_ok (w_db w) ->
  wp inner (fun r w' =>
    match r with
    | Ok a => Q (Ok a) w'
    | Err e => w_db w' = w_db w /\ (~ healthy w \/ (P e /\ leads w (w_db w) w'))
    | Panic _ => False
    end) w ->
  (forall e w', ~ healthy w ->
     w_db w' = w_db w \/ (exists e, w_db w' = bump_db (class e) (w_db w)) -> Q (Err e) w') ->
  (forall e w', P e -> leads w (bump_db (class e) (w_db w)) w' -> Q (Err e) w') ->
  wp (result ← attempt inner; _ ← count result; lift result) Q w.
Proof.
  intros Hok Herr Hc Hi He Ho. apply wp_bind, wp_attempt. eapply wp_mono; [exact Hi|].
  intros [a|e|p] w1; simpl; [|intros [Hd Hw1]|done].
  - intros HQ. apply wp_bind. rewrite Hok. by apply wp_ret, wp_lift.
  - apply wp_bind. rewrite Herr. apply wp_inc; rewrite Hd.
    + intros e' w' [Hh|Hn]; [|done]. intros Hw'. apply He.
      * destruct Hw1 as [?|[_ Hl]]; [done|by eapply leads_sick].
      * destruct Hw'; eauto.
    + intros w' Hl. apply wp_lift. destruct Hw1 as [Hn|[HP Hl1]].
      * apply He; [done|]. right. exists e. by apply leads_db in Hl.
      * apply Ho; [done|]. by eapply leads_trans.
Qed.

Lemma inc_healthy v c w :
  healthy w -> counters_row (w_db w) c ->
  Counters.inc v w =
    (Ok tt, publish (counter_bump v c) (set_db (bump_db v (w_db w)) w)).
Proof.
  intros Hh Hc. pose proof (counters_row_bump v _ _ Hc) as Hb.
  assert (update_all (counter_bump v) w = (Ok 1, set_db (bump_db v (w_db w)) w)) as Hu.
  { unfold update_all. rewrite statement_healthy by done. destruct Hc as [Hd _].
    unfold bump_db. simpl. by rewrite Hd. }
  assert (Counters.get (set_db (bump_db v (w_db w)) w)
          = (Ok (counter_bump v c), set_db (bump_db v (w_db w)) w)) as Hg.
  { unfold Counters.get, attempt, load_first, mbind, M_bind. rewrite load_healthy by done.
    change (w_db (set_db (bump_db v (w_db w)) w)) with (bump_db v (w_db w)).
    by rewrite (rows_counters _ _ Hb), scan_singleton. }
  unfold Counters.inc, mbind, M_bind, exec, with_err. rewrite Hu. simpl. by rewrite Hg.
Qed.

Lemma raises_get : never_retries Counters.get.
Proof. unfold Counters.get. solve_raises. Qed.

Lemma raises_update_prometheus c : never_retries (Counters.update_prometheus c).
Proof. by intros w e [=]. Qed.

Lemma raises_inc v : never_retries (Counters.inc v).
Proof. unfold Counters.inc. solve_raises; [apply raises_get|apply raises_update_prometheus]. Qed.

Lemma raises_ensure_exists : never_retries Counters.ensure_exists.
Proof. unfold Counters.ensure_exists. solve_raises. Qed.

(** [ensure_exists] creates the row if there is none, and changes nothing else. *)
Lemma wp_ensure_exists Q w :
  counters_ok (w_db w) \/ counters (w_db w) = [] ->
  (forall e w', ~ healthy w -> w_db w' = w_db w -> Q (Err e) w') ->
  (forall d w', leads w d w' -> (counters_ok (w_db w) -> d = w_db w) -> counters_ok d ->
     (counters (w_db w) = [] -> d = table_set [(0, Counters_default)] (w_db w)) -> Q (Ok tt) w') ->
  wp Counters.ensure_exists Q w.
Proof.
  intros Hc He Ho. apply wp_transaction; [solve_raises|by intros f w' ? ?%leads_db; apply He|].
  intros w1 Hw1. pose proof (leads_db _ _ _ Hw1) as Hd1. apply wp_bind, wp_attempt, wp_load_first.
  { intros [] w' Hh Hw'; apply wp_throw, He; try done; by eapply leads_sick. }
  intros w2 Hw2. pose proof (leads_trans _ _ _ _ _ Hw1 Hw2) as Hl. rewrite Hd1 in *.
  destruct Hc as [[c Hc]|Hc].
  - rewrite (rows_counters _ _ Hc), scan_singleton. simpl. apply wp_ret.
    apply (Ho (w_db w) w2); [done..|by exists c|]. intros E. destruct Hc as [Hc _]. congruence.
  - assert (rows (R := Counters) (w_db w) = []) as -> by (unfold rows; simpl; by rewrite Hc).
    rewrite scan_nil. simpl. apply wp_exec, wp_insert_into.
    + intros e w' [Hh|Hi] _ Hw'; apply He; try done; [by eapply leads_sick|].
      exfalso. apply (Hi 0). rewrite (leads_db _ _ _ Hl).
      split; simpl; rewrite ?Hc; [done|set_solver..|done].
    + intros i w' [Hi _ _ _] Hw' _. simpl in Hi. subst i. rewrite (leads_db _ _ _ Hl) in Hw'.
      apply (Ho (db_insert 0 Counters_default (w_db w)) w').
      * by eapply leads_trans.
      * intros [c [Hc' _]]. by rewrite Hc in Hc'.
      * exists Counters_default. unfold counters_row, db_insert. simpl. by rewrite Hc.
      * intros _. unfold db_insert. simpl. by rewrite Hc.
Qed.

(** Counters are not part of what the constraints relate. *)
Lemma evolves_set_counters {X_hex : Hex} t d : evolves d (table_set (R := Counters) t d).
Proof. destruct d. split; [by split; eauto|]. by intros []. Qed.

#[export] Instance evolves_bump {X_hex : Hex} v : UpdateRel evolves Counters (counter_bump v).
Proof. intros d. apply evolves_set_counters. Qed.

(** Gauges and reads change no table. *)
Lemma respects_get Rel `{!PreOrder Rel} : db_respects Rel Counters.get.
Proof. unfold Counters.get. solve_respects. Qed.

Lemma respects_inc Rel `{!PreOrder Rel} v `{!UpdateRel Rel Counters (counter_bump v)} :
  db_respects Rel (Counters.inc v).
Proof.
  unfold Counters.inc. solve_respects; [by apply respects_get|].
  intros w. unfold on_db. simpl. reflexivity.
Qed.

Lemma respects_ensure_exists Rel `{!PreOrder Rel} `{!InsertRel Rel Counters} :
  db_respects Rel Counters.ensure_exists.
Proof. unfold Counters.ensure_exists. solve_respects. Qed.

Lemma counters_ok_bump v d : counters_ok d -> counters_ok (bump_db v d).
Proof. intros [c Hc]. eexists. by apply counters_row_bump. Qed.
End counters.

#[export] Hint Resolve respects_get respects_inc respects_ensure_exists : respects.
#[export] Hint Resolve raises_get raises_inc raises_ensure_exists : raises.
