(* ===== verification/Blocks.v ===== *)
(** * [src/db/models/block_audit_data.rs] and [src/db/models/block_balance.rs]

    Which blocks have been synced, and the balance of every token after each of
    them.  Both tables store [u64] values in signed columns. *)

From S2P Require Import Prelude Externals Concrete GnosisTypes Errors Schema Database.

(** [collect()] into a [HashMap]: a later entry replaces an earlier one. *)
Definition collect_map (l : list (Z * Z)) : gmap Z Z :=
  foldl (fun m p => <[p.1 := p.2]> m) ∅ l.

Module BlockAuditData.

(** [BlockAuditData::new], [BlockAuditData::block_index]. *)
Definition new (block_index : Z) : BlockAuditData := mkBlockAuditData (as_i64 block_index).
Definition block_index (self : BlockAuditData) : Z := as_u64 (audit_block_index self).

Section operations.
Context {X_chrono : Chrono} {X_sqlite : Sqlite}.

(** [BlockAuditData::get]. *)
Definition get (block_index : Z) : App BlockAuditData :=
  exec (load_first (fun d =>
    List.filter (fun r => audit_block_index r =? as_i64 block_index) (rows d))).

(** [BlockAuditData::set]. *)
Definition set (self : BlockAuditData) : App unit := exec (replace_into self).

(** SQL's [MAX]: [NULL] on no rows. *)
Definition sql_max (l : list Z) : option Z :=
  match l with [] => None | x :: l' => Some (foldr Z.max x l') end.

(** [BlockAuditData::last_synced_block_index]. *)
Definition last_synced_block_index : App (option Z) :=
  m ← exec (load_first (fun d => [sql_max (audit_block_index <$> rows d)]));
  mret (as_u64 <$> m).

(** [BlockAuditData::last_block_audit_data]. *)
Definition last_block_audit_data : App (option BlockAuditData) :=
  i ← last_synced_block_index;
  match i with
  | None => mret None
  | Some block_index => r ← get block_index; mret (Some r)
  end.
End operations.
End BlockAuditData.

Module BlockBalance.

(** [BlockBalance::new] and the getters. *)
Definition new (block_index token_id balance : Z) : BlockBalance :=
  mkBlockBalance (as_i64 block_index) (as_i64 token_id) (as_i64 balance).
Definition block_index (self : BlockBalance) : Z := as_u64 (bal_block_index self).
Definition token_id (self : BlockBalance) : Z := as_u64 (bal_token_id self).
Definition balance (self : BlockBalance) : Z := as_u64 (bal_balance self).

Section operations.
Context {X_chrono : Chrono} {X_sqlite : Sqlite}.

(** [BlockBalance::get_balances_for_block]. *)
Definition get_balances_for_block (block_index : Z) : App (gmap Z Z) :=
  l ← exec (load (fun d =>
    (fun r => (bal_token_id r, bal_balance r)) <$>
      List.filter (fun r => bal_block_index r =? as_i64 block_index) (rows d)));
  mret (collect_map ((fun p => (as_u64 p.1, as_u64 p.2)) <$> l)).

Context {X_hash : HashOrder}.

(** [BlockBalance::set_balances_for_block]. *)
Definition set_balances_for_block (block_index : Z) (balances : gmap Z Z) : App unit :=
  transaction (
    _ ← for_each (fun p => exec (insert_into (new block_index p.1 p.2))) (hash_iter balances);
    mret tt).
End operations.
End BlockBalance.

(** ** What the tables say *)
Section blocks.
Context {X_chrono : Chrono} {X_sqlite : Sqlite} {L_sqlite : SqliteLaws}.
Implicit Types (w : World) (d : Db).

(** The stored indices. *)
Definition synced_indices d : list Z := audit_block_index <$> rows d.

(** The balances stored for a block. *)
Definition balance_entries d (idx : Z) : list (Z * Z) :=
  (fun r => (as_u64 (bal_token_id r), as_u64 (bal_balance r))) <$>
    List.filter (fun r => bal_block_index r =? as_i64 idx) (rows d).
Definition balances_at d (idx : Z) : gmap Z Z := collect_map (balance_entries d idx).

(** A table of balances whose entries are [u64] values. *)
Definition u64_map (m : gmap Z Z) : Prop := map_Forall (fun k v => is_u64 k /\ is_u64 v) m.

Lemma collect_map_snoc l p : collect_map (l ++ [p]) = <[p.1 := p.2]> (collect_map l).
Proof. unfold collect_map. by rewrite foldl_app. Qed.

Lemma collect_map_list_to_map l : NoDup l.*1 -> collect_map l = list_to_map l.
Proof.
  unfold collect_map. assert (forall m, NoDup l.*1 ->
    foldl (fun m p => <[p.1 := p.2]> m) m l = (list_to_map l : gmap Z Z) ∪ m) as H.
  { induction l as [|[k v] l IH]; intros m Hn; simpl; [by rewrite map_empty_union|].
    apply NoDup_cons in Hn as [Hk Hn]. rewrite IH by done.
    rewrite <- insert_union_l. symmetry. apply insert_union_r.
    apply not_elem_of_list_to_map. done. }
  intros Hn. rewrite H by done. by rewrite map_union_empty.
Qed.

Lemma collect_map_permutation l k : NoDup l.*1 -> l ≡ₚ k -> collect_map l = collect_map k.
Proof.
  intros Hn Hp. rewrite !collect_map_list_to_map; [by apply list_to_map_proper| |done].
  by rewrite <- Hp.
Qed.

Lemma collect_map_to_list (m : gmap Z Z) : collect_map (map_to_list m) = m.
Proof.
  rewrite collect_map_list_to_map by apply NoDup_fst_map_to_list. apply list_to_map_to_list.
Qed.

(** The integers of a row fit their columns. *)
Definition typed_balance (r : BlockBalance) : Prop :=
  is_i64 (bal_block_index r) /\ is_i64 (bal_token_id r) /\ is_i64 (bal_balance r).
Definition typed_balances d : Prop := forall r, r ∈ rows (R := BlockBalance) d -> typed_balance r.

Lemma typed_new idx k v : typed_balance (BlockBalance.new idx k v).
Proof. repeat split; apply as_i64_range. Qed.

(** *** Reading *)
Lemma query_get_balances idx :
  query (BlockBalance.get_balances_for_block idx) (fun d r =>
    exists l, l ≡ₚ balance_entries d idx /\ r = Ok (collect_map l)).
Proof.
  eapply query_mono; [apply query_bind; [apply query_load|intros l; apply query_ret]|].
  simpl. intros d r (ra & -> & ->). eexists. split; [|done].
  unfold balance_entries. rewrite scan_permutation, <- list_fmap_compose. done.
Qed.

Lemma balance_entries_keys d idx :
  table_ok (block_balance d) -> typed_balances d -> NoDup (balance_entries d idx).*1.
Proof.
  intros [Hn _ Hu] Ht. unfold balance_entries. rewrite <- list_fmap_compose.
  apply NoDup_fmap_2_strong.
  - intros r s [Hr Er%Z.eqb_eq]%elem_of_filter_bool [Hs Es%Z.eqb_eq]%elem_of_filter_bool. simpl.
    intros E. pose proof (Ht _ Hr) as (_ & Tr & _). pose proof (Ht _ Hs) as (_ & Ts & _).
    apply (f_equal as_i64) in E. rewrite !as_i64_as_u64 in E by done.
    apply rows_elem_of in Hr as [i Hr], Hs as [j Hs].
    specialize (Hu _ _ Hr Hs). simpl in Hu. rewrite Er, Es, E, !Z.eqb_refl in Hu.
    by injection (Hu eq_refl).
  - apply NoDup_filter_bool. unfold rows. apply NoDup_fmap_2_strong; [|by eapply NoDup_fmap_1].
    intros x y Hx Hy E. apply Hu; [done..|]. rewrite E. simpl. by rewrite !Z.eqb_refl.
Qed.

(** In a well-formed database the balances read for a block do not depend on
    the order in which SQLite returns the rows. *)
Lemma query_balances_at idx :
  query (BlockBalance.get_balances_for_block idx) (fun d r =>
    table_ok (block_balance d) -> typed_balances d -> r = Ok (balances_at d idx)).
Proof.
  eapply query_mono; [apply query_get_balances|]. simpl. intros d r (l & Hl & ->) Hd Ht.
  f_equal. symmetry. apply collect_map_permutation; [by apply balance_entries_keys|done].
Qed.

(** *** Writing *)
Context {X_hash : HashOrder} {L_hash : HashOrderLaws}.

Definition balance_rows (idx : Z) (m : gmap Z Z) : list BlockBalance :=
  (fun p => BlockBalance.new idx p.1 p.2) <$> hash_iter m.

(** The block has been recorded and has no balances yet. *)
Definition awaits_balances d (idx : Z) : Prop :=
  as_i64 idx ∈ audit_block_index <$> rows d /\
  forall r, r ∈ rows (R := BlockBalance) d -> bal_block_index r <> as_i64 idx.

Lemma balance_rows_insertable d idx m :
  awaits_balances d idx -> u64_map m -> all_insertable d (balance_rows idx m).
Proof.
  intros [Hidx Hfree] Hm. apply all_insertable_intro.
  - done.
  - intros r [i x] (p & -> & Hp)%list_elem_of_fmap Hx. simpl. apply andb_false_iff. left.
    apply Z.eqb_neq. intros E. apply (Hfree x); [|done]. apply rows_elem_of. by exists i.
  - intros i j r s Hi Hj Hij. unfold balance_rows in *. rewrite list_lookup_fmap in Hi, Hj.
    destruct (hash_iter m !! i) as [p|] eqn:Ei; [|done].
    destruct (hash_iter m !! j) as [q|] eqn:Ej; [|done]. simplify_eq/=.
    apply andb_false_iff. right. apply Z.eqb_neq. intros E. apply Hij.
    pose proof (hash_iter_permutation m) as Hp.
    assert (NoDup (hash_iter m).*1) as Hn by (rewrite Hp; apply NoDup_fst_map_to_list).
    eapply (NoDup_lookup _ _ _ p.1 Hn); rewrite list_lookup_fmap; [by rewrite Ei|].
    rewrite Ej. simpl. f_equal. symmetry.
    assert (forall k, k ∈ hash_iter m -> is_u64 k.1) as Hk.
    { intros [k v]. rewrite Hp. intros Hkv%elem_of_map_to_list. by apply Hm in Hkv as [? _]. }
    apply as_i64_inj; [apply Hk; by eapply list_elem_of_lookup_2..|done].
  - intros d' r (p & -> & Hp)%list_elem_of_fmap (t & ->). simpl.
    apply existsb_exists_elem. apply list_elem_of_fmap in Hidx as (a & Ha & Har).
    apply rows_elem_of in Har as [i Hi]. exists (i, a). split; [done|]. simpl. by apply Z.eqb_eq.
Qed.

Lemma raises_set_balances idx m : never_retries (BlockBalance.set_balances_for_block idx m).
Proof. unfold BlockBalance.set_balances_for_block. solve_raises. Qed.

Lemma wp_set_balances idx m Q w :
  (forall e w', ~ healthy w \/ ~ all_insertable (w_db w) (balance_rows idx m) ->
     w_db w' = w_db w -> Q (Err e) w') ->
  (forall ids d' w', inserts (w_db w) (balance_rows idx m) ids d' -> leads w d' w' ->
     Q (Ok tt) w') ->
  wp (BlockBalance.set_balances_for_block idx m) Q w.
Proof.
  intros He Ho. apply wp_transaction; [solve_raises| |].
  { intros f w' Hh Hw'. apply He; [by left|by eapply leads_db]. }
  intros w1 Hw1. pose proof (leads_db _ _ _ Hw1) as Hd. apply wp_bind.
  apply (wp_for_each_insert _ (fun p => BlockBalance.new idx p.1 p.2)); rewrite ?Hd.
  - intros p w2 Q' _ He' Ho'. apply wp_exec, wp_insert_into.
    + intros e w' Hi _ _. by apply He'.
    + intros i w' Hi Hw' _. by eapply Ho'.
  - intros e w' Hi. apply He; [|done]. destruct Hi; [left|by right]. by eapply leads_sick.
  - intros ids d' bs w' Hi Hl. apply wp_ret. eapply Ho; [done|]. by eapply leads_trans.
Qed.

Lemma inserts_balance_entries d idx m ids d' i :
  inserts d (balance_rows idx m) ids d' ->
  balance_entries d' i = balance_entries d i ++
    (if as_i64 idx =? as_i64 i then (fun p => (as_u64 (as_i64 p.1), as_u64 (as_i64 p.2))) <$> hash_iter m
     else []).
Proof.
  intros Hi. pose proof (inserts_get _ _ _ _ Hi) as Hg.
  destruct (inserts_db _ _ _ _ Hi) as [Hl _]. unfold balance_entries, rows.
  rewrite Hg, fmap_app, filter_app', fmap_app. f_equal.
  assert ((zip_with (fun i r => (i, row_with_id i r)) ids (balance_rows idx m)).*2
          = balance_rows idx m) as ->.
  { clear -Hl. revert ids Hl. induction (balance_rows idx m) as [|r l IH]; intros [|j ids] Hl;
      simpl in *; try done. f_equal. apply IH. lia. }
  unfold balance_rows. clear. induction (hash_iter m) as [|p l IH]; simpl; [by case_match|].
  destruct (as_i64 idx =? as_i64 i); simpl in *; [|done]. by f_equal.
Qed.

(** Storing balances makes exactly those balances readable for the block, and
    leaves those of other blocks alone. *)
Lemma inserts_balances d idx m ids d' i :
  inserts d (balance_rows idx m) ids d' -> u64_map m -> awaits_balances d idx ->
  balances_at d' i = if as_i64 idx =? as_i64 i then m else balances_at d i.
Proof.
  intros Hi Hm [_ Hfree]. unfold balances_at. rewrite (inserts_balance_entries _ _ _ _ _ _ Hi).
  destruct (Z.eqb_spec (as_i64 idx) (as_i64 i)) as [E|]; [|by rewrite app_nil_r].
  assert (balance_entries d i = []) as ->.
  { unfold balance_entries. destruct (List.filter _ _) as [|r l] eqn:El; [done|].
    assert (r ∈ r :: l) as Hr by left. rewrite <- El in Hr.
    apply elem_of_filter_bool in Hr as [Hr Er%Z.eqb_eq]. exfalso. apply (Hfree r Hr). congruence. }
  simpl. assert ((fun p : Z * Z => (as_u64 (as_i64 p.1), as_u64 (as_i64 p.2))) <$> hash_iter m
                 = hash_iter m) as ->.
  { rewrite <- (list_fmap_id (hash_iter m)) at 2. apply list_fmap_ext. intros j [k v] Hj.
    apply list_elem_of_lookup_2 in Hj. rewrite hash_iter_permutation in Hj.
    apply elem_of_map_to_list in Hj. apply Hm in Hj as [Hk Hv]. simpl.
    by rewrite !as_u64_as_i64. }
  rewrite <- (collect_map_to_list m) at 2. apply collect_map_permutation.
  - rewrite hash_iter_permutation. apply NoDup_fst_map_to_list.
  - apply hash_iter_permutation.
Qed.

Lemma inserts_typed_balances d idx m ids d' :
  inserts d (balance_rows idx m) ids d' -> typed_balances d -> typed_balances d'.
Proof.
  intros Hi Ht r Hr. destruct (inserts_db _ _ _ _ Hi) as [Hl _].
  apply inserts_get in Hi. unfold rows in Hr. rewrite Hi, fmap_app in Hr.
  apply elem_of_app in Hr as [Hr|Hr]; [by apply Ht|].
  apply list_elem_of_fmap in Hr as ([j r'] & -> & Hr).
  apply elem_of_lookup_zip_with in Hr as (k & i & s & [= -> ->] & _ & Hs).
  apply list_elem_of_lookup_2, list_elem_of_fmap in Hs as (p & -> & _). apply typed_new.
Qed.

(** *** Recording a block *)

(** The database after [BlockAuditData::set]. *)
Definition record_block (idx : Z) d : Db :=
  let t := List.filter (fun x => negb (as_i64 idx =? audit_block_index x.2)) (block_audit_data d) in
  table_set (t ++ [(next_rowid t, BlockAuditData.new idx)]) d.

Lemma wp_record_block idx Q w :
  (forall e w', ~ healthy w -> leads w (w_db w) w' -> Q (Err e) w') ->
  (forall w', leads w (record_block idx (w_db w)) w' -> Q (Ok tt) w') ->
  wp (BlockAuditData.set (BlockAuditData.new idx)) Q w.
Proof.
  intros He Ho. apply wp_exec, wp_statement; [intros f w'; apply He|].
  intros w1 Hw1. unfold wp; simpl. rewrite (leads_db _ _ _ Hw1). apply Ho.
  split; [done|]. apply Hw1.
Qed.

Lemma record_block_index d idx i :
  i ∈ audit_block_index <$> rows (record_block idx d) <->
  i = as_i64 idx \/ i ∈ audit_block_index <$> rows (R := BlockAuditData) d.
Proof.
  unfold rows, record_block. rewrite table_get_set, !fmap_app, elem_of_app. simpl.
  rewrite list_elem_of_singleton, <- !list_fmap_compose, !list_elem_of_fmap. split.
  - intros [(x & -> & [Hx _]%elem_of_filter_bool)| ->]; [right; eauto|by left].
  - intros [->|(x & -> & Hx)]; [by right|]. simpl.
    destruct (Z.eqb_spec (as_i64 idx) (audit_block_index x.2)) as [->|Hne]; [by right|left].
    exists x. split; [done|]. apply elem_of_filter_bool. split; [done|].
    by rewrite (proj2 (Z.eqb_neq _ _) Hne).
Qed.

(** Recording the next block extends the indices by one. *)
Lemma record_block_fresh d idx :
  as_i64 idx ∉ synced_indices d ->
  synced_indices (record_block idx d) = synced_indices d ++ [as_i64 idx].
Proof.
  intros Hf. unfold synced_indices, rows, record_block in *. rewrite table_get_set.
  assert (List.filter (fun x => negb (as_i64 idx =? audit_block_index x.2)) (block_audit_data d)
          = block_audit_data d) as ->.
  { change (table_get d) with (block_audit_data d) in Hf.
    induction (block_audit_data d) as [|x t IH]; simpl; [done|].
    rewrite !fmap_cons, elem_of_cons in Hf.
    destruct (Z.eqb_spec (as_i64 idx) (audit_block_index x.2)); simpl; [tauto|].
    by rewrite IH by tauto. }
  by rewrite !fmap_app.
Qed.

#[export] Instance evolves_record_block {X_hex : Hex} : ReplaceRel evolves BlockAuditData.
Proof.
  intros d i r t Hi _. simpl in *.
  assert (forall x, x ∈ t -> x ∈ block_audit_data d /\ row_conflict r x.2 = false) as Ht.
  { intros x [Hx Hc]%elem_of_filter_bool. split; [done|]. by apply negb_true_iff. }
  set (d' := mkDb _ _ _ _ _ _ _ _ _ _ _ _). assert (grows d d') as Hg.
  { split; simpl; try done. intros x Hx.
    destruct (audit_block_index r =? audit_block_index x.2) eqn:E.
    - exists (i, r). split; [set_solver|]. by apply Z.eqb_eq in E.
    - exists x. split; [|done]. apply elem_of_app. left. apply elem_of_filter_bool.
      split; [done|]. by rewrite E. }
  split; [done|]. intros Hd. destruct Hd as [[Hn Hr Hu] ?????????? ?????? ?].
  split; simpl; try done.
  - split.
    + rewrite fmap_app. apply NoDup_app. split_and!; [|subst i; simpl|by apply NoDup_singleton].
      * eapply sublist_NoDup; [exact Hn|]. apply fmap_sublist, sublist_filter_bool.
      * intros j Hj ->%list_elem_of_singleton. by apply next_rowid_fresh in Hj.
    + done.
    + intros x y [Hx| ->%list_elem_of_singleton]%elem_of_app
        [Hy| ->%list_elem_of_singleton]%elem_of_app; [| | |done].
      * apply Ht in Hx as [Hx _], Hy as [Hy _]. by apply Hu.
      * apply Ht in Hx as [_ Hx]. rewrite row_conflict_sym. simpl in *. by rewrite Hx.
      * apply Ht in Hy as [_ Hy]. simpl in *. by rewrite Hy.
  - by eapply fk_ok_mono.
Qed.

Lemma respects_record_block Rel `{!PreOrder Rel} `{!ReplaceRel Rel BlockAuditData} a :
  db_respects Rel (BlockAuditData.set a).
Proof. unfold BlockAuditData.set. solve_respects. Qed.

Lemma respects_set_balances Rel `{!PreOrder Rel} `{!InsertRel Rel BlockBalance} idx m :
  db_respects Rel (BlockBalance.set_balances_for_block idx m).
Proof. unfold BlockBalance.set_balances_for_block. solve_respects. Qed.

Lemma respects_get_balances Rel `{!PreOrder Rel} idx :
  db_respects Rel (BlockBalance.get_balances_for_block idx).
Proof. unfold BlockBalance.get_balances_for_block. solve_respects. Qed.

Lemma raises_record_block a : never_retries (BlockAuditData.set a).
Proof. unfold BlockAuditData.set. solve_raises. Qed.

Lemma raises_get_balances idx : never_retries (BlockBalance.get_balances_for_block idx).
Proof. unfold BlockBalance.get_balances_for_block. solve_raises. Qed.
End blocks.

#[export] Hint Resolve respects_record_block respects_set_balances respects_get_balances : respects.
#[export] Hint Resolve raises_record_block raises_get_balances : raises.
#[export] Hint Resolve raises_set_balances : raises.
