(* ===== verification/Mints.v ===== *)
(** * [src/db/models/mint_config.rs], [mint_config_tx.rs] and [mint_tx.rs]

    Mint configurations, the transactions that establish them, and the mint
    transactions themselves. *)

From S2P Require Import Prelude Externals Concrete GnosisTypes Errors Schema Database.

(** An identifier column that may still be unset, compared with a value. *)
Definition id_is (o : option Z) (i : Z) : bool := bool_decide (o = Some i).

Section from_conversions.
Context {X_chrono : Chrono}.
(** [block_timestamp.map(|ts| ts.naive_utc())] and back. *)
Definition to_naive (ts : option DateTime) : option NaiveDateTime := naive_utc <$> ts.
Definition of_naive (ts : option NaiveDateTime) : option DateTime := from_naive_utc <$> ts.
End from_conversions.

(** ** Joins of the mint tables *)
Section joins.
Context {X_chrono : Chrono}.

(** [mint_txs INNER JOIN (mint_configs INNER JOIN mint_config_txs)], on
    [mint_txs.mint_config_id = mint_configs.id] and
    [mint_configs.mint_config_tx_id = mint_config_txs.id]. *)
Definition joined_mints (d : Db) : list (MintTx * MintConfig * MintConfigTx) :=
  m ← rows (R := MintTx) d;
  c ← List.filter (fun c => match mt_mint_config_id m with
                            | Some i => id_is (mc_id c) i
                            | None => false
                            end) (rows (R := MintConfig) d);
  t ← List.filter (fun t => id_is (mct_id t) (mc_mint_config_tx_id c)) (rows (R := MintConfigTx) d);
  [(m, c, t)].
End joins.

Module MintConfig.

(** Getters. *)
Section getters.
Definition id (self : MintConfig) : option Z := mc_id self.
Definition mint_config_tx_id (self : MintConfig) : Z := mc_mint_config_tx_id self.
Definition mint_limit (self : MintConfig) : Z := as_u64 (mc_mint_limit self).
End getters.

Section operations.
Context {X_chrono : Chrono} {X_sqlite : Sqlite} {X_mc : MobileCoin}.

(** [MintConfig::decode]. *)
Definition decode (self : MintConfig) : Res Error CoreMintConfig :=
  from_ext Decode (decode_mint_config (mc_protobuf self)).

(** [MintConfig::from_core_mint_config]. *)
Definition from_core_mint_config (mint_config_tx_id : Z) (config : CoreMintConfig) : MintConfig :=
  mkMintConfig None mint_config_tx_id (as_i64 (core_mint_config_mint_limit config))
    (encode_mint_config config).

(** [MintConfig::insert]; the updated [self] is returned. *)
Definition insert (self : MintConfig) : App MintConfig :=
  i ← exec (insert_get_id self);
  mret (mkMintConfig (Some i) (mc_mint_config_tx_id self) (mc_mint_limit self) (mc_protobuf self)).

(** [MintConfig::insert_from_core_mint_config]. *)
Definition insert_from_core_mint_config (mint_config_tx_id : Z) (config : CoreMintConfig)
  : App MintConfig := insert (from_core_mint_config mint_config_tx_id config).

(** [MintConfig::get_by_mint_config_tx_id]. *)
Definition get_by_mint_config_tx_id (mint_config_tx_id : Z) : App (list MintConfig) :=
  exec (load (fun d => List.filter (fun c => mc_mint_config_tx_id c =? mint_config_tx_id) (rows d))).

(** [MintConfig::get_by_id]. *)
Definition get_by_id (i : Z) : App (option MintConfig) :=
  exec (optional (load_first (fun d => List.filter (fun c => id_is (mc_id c) i) (rows d)))).

(** [MintConfig::get_total_minted_before_block]. *)
Definition get_total_minted_before_block (self : MintConfig) (block_index : Z) : App Z :=
  mint_amounts ← exec (load (fun d =>
    (fun x => mt_amount x.1.1) <$>
      List.filter (fun x => (mct_block_index x.2 <? mt_block_index x.1.1)
                            && id_is (mc_id x.1.2) (default 0 (mc_id self))
                            && (mt_block_index x.1.1 <? as_i64 block_index)) (joined_mints d)));
  mret (sum_u64 (as_u64 <$> mint_amounts)).
End operations.
End MintConfig.

Module MintConfigTx.

Section getters.
Context {X_chrono : Chrono}.
Definition id (self : MintConfigTx) : option Z := mct_id self.
Definition block_index (self : MintConfigTx) : Z := as_u64 (mct_block_index self).
Definition block_timestamp (self : MintConfigTx) : option DateTime :=
  of_naive (mct_block_timestamp self).
Definition token_id (self : MintConfigTx) : Z := as_u64 (mct_token_id self).
Definition nonce_hex (self : MintConfigTx) : string := mct_nonce_hex self.
Definition total_mint_limit (self : MintConfigTx) : Z := as_u64 (mct_total_mint_limit self).
Definition tombstone_block (self : MintConfigTx) : Z := as_u64 (mct_tombstone_block self).
End getters.

Section operations.
Context {X_chrono : Chrono} {X_sqlite : Sqlite} {X_mc : MobileCoin} {X_hex : Hex}.

(** [MintConfigTx::decode]. *)
Definition decode (self : MintConfigTx) : Res Error CoreMintConfigTx :=
  from_ext Decode (decode_mint_config_tx (mct_protobuf self)).

(** [MintConfigTx::from_core_mint_config_tx]. *)
Definition from_core_mint_config_tx (block_index : Z) (block_timestamp : option DateTime)
    (tx : CoreMintConfigTx) : MintConfigTx :=
  mkMintConfigTx None (as_i64 block_index) (to_naive block_timestamp)
    (as_i64 (core_mint_config_tx_token_id tx))
    (hex_encode (core_mint_config_tx_nonce tx))
    (as_i64 (core_mint_config_tx_total_mint_limit tx))
    (as_i64 (core_mint_config_tx_tombstone_block tx))
    (encode_mint_config_tx tx).

(** [MintConfigTx::insert]: the transaction row and one row per configuration,
    all or nothing. *)
Definition insert (self : MintConfigTx) : App MintConfigTx :=
  core_mint_config_tx ← lift (decode self);
  mint_config_tx_id ← transaction (
    mint_config_tx_id ← exec (insert_get_id self);
    _ ← for_each (MintConfig.insert_from_core_mint_config mint_config_tx_id)
          (core_mint_config_tx_configs core_mint_config_tx);
    mret mint_config_tx_id);
  mret (mkMintConfigTx (Some mint_config_tx_id) (mct_block_index self) (mct_block_timestamp self)
    (mct_token_id self) (mct_nonce_hex self) (mct_total_mint_limit self)
    (mct_tombstone_block self) (mct_protobuf self)).

(** [MintConfigTx::insert_from_core_mint_config_tx]. *)
Definition insert_from_core_mint_config_tx (block_index : Z) (block_timestamp : option DateTime)
    (config_tx : CoreMintConfigTx) : App MintConfigTx :=
  insert (from_core_mint_config_tx block_index block_timestamp config_tx).

(** [MintConfigTx::most_recent_for_token]. *)
Definition most_recent_for_token (block_index token_id : Z) : App (option MintConfigTx) :=
  exec (optional (load_ordered_first (fun t => - mct_block_index t) (fun d =>
    List.filter (fun t => (mct_token_id t =? as_i64 token_id)
                          && (mct_block_index t <? as_i64 block_index)) (rows d)))).

(** [MintConfigTx::get_by_id]. *)
Definition get_by_id (i : Z) : App (option MintConfigTx) :=
  exec (optional (load_first (fun d => List.filter (fun t => id_is (mct_id t) i) (rows d)))).

(** [MintConfigTx::get_total_minted_before_block]. *)
Definition get_total_minted_before_block (self : MintConfigTx) (block_index : Z) : App Z :=
  mint_amounts ← exec (load (fun d =>
    (fun x => mt_amount x.1.1) <$>
      List.filter (fun x => (mct_block_index x.2 <? mt_block_index x.1.1)
                            && id_is (mct_id x.2) (default 0 (mct_id self))
                            && (mt_block_index x.1.1 <? as_i64 block_index)) (joined_mints d)));
  mret (sum_u64 (as_u64 <$> mint_amounts)).

(** [MintConfigTx::get_by_block_index]. *)
Definition get_by_block_index (block_index : Z) : App (list MintConfigTx) :=
  exec (load_ordered (fun t => default 0 (mct_id t)) (fun d =>
    List.filter (fun t => mct_block_index t =? as_i64 block_index) (rows d))).
End operations.
End MintConfigTx.

Module MintTx.

Section getters.
Context {X_chrono : Chrono}.
Definition id (self : MintTx) : option Z := mt_id self.
Definition block_index (self : MintTx) : Z := as_u64 (mt_block_index self).
Definition block_timestamp (self : MintTx) : option DateTime := of_naive (mt_block_timestamp self).
Definition token_id (self : MintTx) : Z := as_u64 (mt_token_id self).
Definition amount (self : MintTx) : Z := as_u64 (mt_amount self).
Definition nonce_hex (self : MintTx) : string := mt_nonce_hex self.
Definition recipient_b58_addr (self : MintTx) : string := mt_recipient_b58_addr self.
Definition tombstone_block (self : MintTx) : Z := as_u64 (mt_tombstone_block self).
Definition mint_config_id (self : MintTx) : option Z := mt_mint_config_id self.
End getters.

Section operations.
Context {X_chrono : Chrono} {X_sqlite : Sqlite} {X_mc : MobileCoin} {X_hex : Hex}.

(** [MintTx::decode]. *)
Definition decode (self : MintTx) : Res Error CoreMintTx :=
  from_ext Decode (decode_mint_tx (mt_protobuf self)).

(** [MintTx::from_core_mint_tx]. *)
Definition from_core_mint_tx (block_index : Z) (block_timestamp : option DateTime)
    (mint_config_id : option Z) (tx : CoreMintTx) : Res Error MintTx :=
  let recipient := public_address_new (core_mint_tx_spend_public_key tx)
                     (core_mint_tx_view_public_key tx) in
  recipient_b58_addr ← from_ext ApiDisplay (b58_encode recipient);
  Ok (mkMintTx None (as_i64 block_index) (to_naive block_timestamp)
    (as_i64 (core_mint_tx_token_id tx)) (as_i64 (core_mint_tx_amount tx))
    (hex_encode (core_mint_tx_nonce tx)) recipient_b58_addr
    (as_i64 (core_mint_tx_tombstone_block tx)) (encode_mint_tx tx) mint_config_id).

(** [MintTx::insert]; the updated [self] is returned. *)
Definition insert (self : MintTx) : App MintTx :=
  match mt_id self with
  | Some id => throw (AlreadyExists ("MintTx already has an id (" +:+ pretty id +:+ ")"))
  | None =>
      i ← exec (insert_get_id self);
      mret (mkMintTx (Some i) (mt_block_index self) (mt_block_timestamp self) (mt_token_id self)
        (mt_amount self) (mt_nonce_hex self) (mt_recipient_b58_addr self)
        (mt_tombstone_block self) (mt_protobuf self) (mt_mint_config_id self))
  end.

(** [MintTx::insert_from_core_mint_tx]. *)
Definition insert_from_core_mint_tx (block_index : Z) (block_timestamp : option DateTime)
    (mint_config_id : option Z) (tx : CoreMintTx) : App MintTx :=
  mint_tx ← lift (from_core_mint_tx block_index block_timestamp mint_config_id tx);
  insert mint_tx.

(** The [NOT EXISTS] subquery on [audited_mints]. *)
Definition unaudited (d : Db) (m : MintTx) : bool :=
  negb (existsb (fun a => id_is (mt_id m) (am_mint_tx_id a)) (rows (R := AuditedMint) d)).

(** [MintTx::find_unaudited_mint_txs]. *)
Definition find_unaudited_mint_txs : App (list MintTx) :=
  exec (load (fun d => List.filter (unaudited d) (rows d))).

(** [MintTx::find_unaudited_mint_tx_by_nonce]. *)
Definition find_unaudited_mint_tx_by_nonce (nonce_hex : string) : App (option MintTx) :=
  exec (optional (load_first (fun d =>
    List.filter (fun m => String.eqb (mt_nonce_hex m) nonce_hex && unaudited d m) (rows d)))).

(** [MintTx::get_mint_amounts]. *)
Definition get_mint_amounts (token_id : Z) : App (list (Z * Z)) :=
  l ← exec (load (fun d =>
    (fun m => (mt_token_id m, mt_amount m)) <$>
      List.filter (fun m => mt_token_id m =? as_i64 token_id) (rows d)));
  mret ((fun p => (as_u64 p.1, as_u64 p.2)) <$> l).

(** [MintTx::get_mint_txs_by_block_index]. *)
Definition get_mint_txs_by_block_index (block_index : Z) : App (list MintTx) :=
  exec (load_ordered (fun m => default 0 (mt_id m)) (fun d =>
    List.filter (fun m => mt_block_index m =? as_i64 block_index) (rows d))).

(** [MintTx::get_signers]. *)
Definition get_signers (self : MintTx) : App (list Ed25519Public) :=
  core_mint_tx ← lift (decode self);
  i ← lift (ok_or ObjectNotSaved (mt_mint_config_id self));
  o ← MintConfig.get_by_id i;
  sql_mint_config ← lift (ok_or NotFound o);
  mint_config ← lift (MintConfig.decode sql_mint_config);
  lift (from_ext Signature (signer_set_verify (core_mint_config_signer_set mint_config)
    (core_mint_tx_prefix_hash core_mint_tx) (core_mint_tx_signature core_mint_tx))).
End operations.
End MintTx.

(** ** What the mint tables say *)
Section mint_specs.
Context {X_chrono : Chrono} {X_sqlite : Sqlite} {L_sqlite : SqliteLaws}.
Context {X_mc : MobileCoin} {X_hex : Hex}.
Implicit Types (w : World) (d : Db).

(** The configuration a stored mint names, and the transaction it came with. *)
Definition config_of d (m : MintTx) : option MintConfig :=
  match mt_mint_config_id m with
  | Some i => List.find (fun c => id_is (mc_id c) i) (rows d)
  | None => None
  end.
Definition config_tx_of d (c : MintConfig) : option MintConfigTx :=
  List.find (fun t => id_is (mct_id t) (mc_mint_config_tx_id c)) (rows d).

(** Mints before block [idx] made after their configuration appeared, under a
    configuration and configuration transaction that satisfy [q]. *)
Definition counted d (q : MintConfig -> MintConfigTx -> bool) (idx : Z) (m : MintTx) : bool :=
  match config_of d m with
  | None => false
  | Some c =>
      match config_tx_of d c with
      | None => false
      | Some t => (mct_block_index t <? mt_block_index m) && q c t
                  && (mt_block_index m <? as_i64 idx)
      end
  end.
Definition total_minted d q idx : Z :=
  sum_u64 ((fun m => as_u64 (mt_amount m)) <$> List.filter (counted d q idx) (rows d)).

Definition minted_by_config_tx d (t : MintConfigTx) idx : Z :=
  total_minted d (fun _ t' => id_is (mct_id t') (default 0 (mct_id t))) idx.
Definition minted_by_config d (c : MintConfig) idx : Z :=
  total_minted d (fun c' _ => id_is (mc_id c') (default 0 (mc_id c))) idx.

Lemma id_is_true o i : id_is o i = true <-> o = Some i.
Proof. unfold id_is. apply bool_decide_eq_true. Qed.

Lemma bind_cons_list {A B} (f : A -> list B) x l : (x :: l) ≫= f = f x ++ (l ≫= f).
Proof. done. Qed.

(** The join finds at most one configuration and one transaction per mint, so
    that no amount is counted twice. *)
Lemma joined_amounts d q idx :
  table_ok (mint_configs d) -> table_ok (mint_config_txs d) ->
  (fun x => mt_amount x.1.1) <$>
    List.filter (fun x => (mct_block_index x.2 <? mt_block_index x.1.1) && q x.1.2 x.2
                          && (mt_block_index x.1.1 <? as_i64 idx)) (joined_mints d)
  = mt_amount <$> List.filter (counted d q idx) (rows d).
Proof.
  intros Hc Ht. unfold joined_mints.
  induction (rows (R := MintTx) d) as [|m l IH]; [reflexivity|].
  rewrite bind_cons_list, filter_app', fmap_app, IH. simpl. clear IH.
  unfold counted at 2. unfold config_of.
  destruct (mt_mint_config_id m) as [i|].
  - rewrite (filter_find (fun c => id_is (mc_id c) i)).
    2: by apply (rows_NoDup d).
    2: { intros x y Hx Hy Ex%id_is_true Ey%id_is_true.
         apply (stored_unique d); [done..|]. simpl. congruence. }
    destruct (List.find _ _) as [c|]; simpl; [|done]. rewrite app_nil_r.
    unfold config_tx_of. rewrite (filter_find (fun t => id_is (mct_id t) _)).
    2: by apply (rows_NoDup d).
    2: { intros x y Hx Hy Ex%id_is_true Ey%id_is_true.
         apply (stored_unique d); [done..|]. simpl. congruence. }
    destruct (List.find _ _) as [t|]; simpl; [|done]. by destruct (_ && _).
  - assert (List.filter (fun _ : MintConfig => false) (rows d) = []) as ->; [|done].
    by induction (rows d).
Qed.

Lemma query_total_minted (q : MintConfig -> MintConfigTx -> bool) idx :
  query (mint_amounts ← exec (load (fun d =>
      (fun x => mt_amount x.1.1) <$>
        List.filter (fun x => (mct_block_index x.2 <? mt_block_index x.1.1) && q x.1.2 x.2
                              && (mt_block_index x.1.1 <? as_i64 idx)) (joined_mints d)));
    mret (sum_u64 (as_u64 <$> mint_amounts)))
    (fun d r => integrity d -> r = Ok (total_minted d q idx)).
Proof.
  eapply query_mono; [apply query_bind; [apply query_load|intros l; apply query_ret]|].
  simpl. intros d r (ra & -> & ->) Hd. f_equal. unfold total_minted.
  rewrite joined_amounts by apply Hd. apply sum_u64_permutation.
  by rewrite scan_permutation, <- list_fmap_compose.
Qed.

Lemma query_total_by_config_tx t idx :
  query (MintConfigTx.get_total_minted_before_block t idx)
    (fun d r => integrity d -> r = Ok (minted_by_config_tx d t idx)).
Proof. apply (query_total_minted (fun _ t' => id_is (mct_id t') (default 0 (mct_id t)))). Qed.

Lemma query_total_by_config c idx :
  query (MintConfig.get_total_minted_before_block c idx)
    (fun d r => integrity d -> r = Ok (minted_by_config d c idx)).
Proof. apply (query_total_minted (fun c' _ => id_is (mc_id c') (default 0 (mc_id c)))). Qed.

(** The most recent configuration transaction of a token before a block. *)
Definition most_recent d (idx token : Z) (o : option MintConfigTx) : Prop :=
  let candidate t := t ∈ rows d /\ mct_token_id t = as_i64 token /\
                     mct_block_index t < as_i64 idx in
  match o with
  | None => forall t, ~ candidate t
  | Some t => candidate t /\ forall t', candidate t' -> mct_block_index t' <= mct_block_index t
  end.

Lemma query_most_recent idx token :
  query (MintConfigTx.most_recent_for_token idx token)
    (fun d r => exists o, r = Ok o /\ most_recent d idx token o).
Proof.
  eapply query_mono; [apply query_load_ordered_first_optional|]. simpl.
  intros d r ->. eexists. split; [done|]. unfold most_recent.
  set (cands := List.filter _ (rows d)).
  assert (forall t, t ∈ cands <-> t ∈ rows d /\ mct_token_id t = as_i64 token /\
                     mct_block_index t < as_i64 idx) as Hc.
  { intros t. unfold cands. rewrite elem_of_filter_bool, andb_true_iff, Z.eqb_eq, Z.ltb_lt. done. }
  destruct (head _) as [t|] eqn:E.
  - apply order_by_head in E as [Ht Hmax]. rewrite elem_of_scan in Ht.
    split; [by apply Hc|]. intros t' Ht'%Hc%elem_of_scan. specialize (Hmax _ Ht'). lia.
  - intros t Ht%Hc. apply order_by_head_None in E. apply elem_of_scan in Ht. rewrite E in Ht.
    by apply elem_of_nil in Ht.
Qed.

(** UNIQUE (block_index, token_id) makes it unique. *)
Lemma most_recent_unique d idx token o o' :
  table_ok (mint_config_txs d) -> most_recent d idx token o -> most_recent d idx token o' -> o = o'.
Proof.
  intros Hok Ho Ho'. destruct o as [t|], o' as [t'|]; simpl in *; [|naive_solver..].
  destruct Ho as [(Ht & Et & Bt) Hm], Ho' as [(Ht' & Et' & Bt') Hm']. f_equal.
  assert (mct_block_index t = mct_block_index t') as Eb.
  { specialize (Hm t'). specialize (Hm' t). intuition lia. }
  apply rows_elem_of in Ht as [i Hi], Ht' as [j Hj].
  assert ((i, t) = (j, t')) as [= _ ->]; [|done].
  eapply ok_unique; [done..|]. simpl. by rewrite Eb, Et, Et', !Z.eqb_refl, orb_true_r.
Qed.

Lemma query_configs_of_tx i :
  query (MintConfig.get_by_mint_config_tx_id i) (fun d r =>
    exists l, r = Ok l /\ l ≡ₚ List.filter (fun c => mc_mint_config_tx_id c =? i) (rows d)).
Proof.
  eapply query_mono; [apply query_load|]. simpl. intros d r ->. eexists. split; [done|].
  apply scan_permutation.
Qed.

(** *** Inserting *)
Lemma wp_insert_config self Q w :
  (forall e w', ~ healthy w \/ (forall i, ~ insertable (w_db w) i self) -> Q (Err e) w') ->
  (forall i w', insertable (w_db w) i self -> leads w (db_insert i self (w_db w)) w' ->
     Q (Ok (row_with_id i self)) w') ->
  wp (MintConfig.insert self) Q w.
Proof.
  intros He Ho. apply wp_bind, wp_exec, wp_insert_get_id; [intros; by apply He|].
  intros i w' Hi Hl. by apply wp_ret, Ho.
Qed.

Lemma wp_insert_mint self Q w :
  mt_id self = None ->
  (forall e w', ~ healthy w \/ (forall i, ~ insertable (w_db w) i self) -> Q (Err e) w') ->
  (forall i w', insertable (w_db w) i self -> leads w (db_insert i self (w_db w)) w' ->
     Q (Ok (row_with_id i self)) w') ->
  wp (MintTx.insert self) Q w.
Proof.
  intros Hid He Ho. unfold MintTx.insert. rewrite Hid.
  apply wp_bind, wp_exec, wp_insert_get_id; [intros; by apply He|].
  intros i w' Hi Hl. by apply wp_ret, Ho.
Qed.

Lemma raises_insert_config c : never_retries (MintConfig.insert c).
Proof. unfold MintConfig.insert. solve_raises. Qed.

Lemma raises_insert_mint m : never_retries (MintTx.insert m).
Proof. unfold MintTx.insert. solve_raises. Qed.

Lemma raises_insert_config_tx t : never_retries (MintConfigTx.insert t).
Proof.
  unfold MintConfigTx.insert, MintConfigTx.decode. solve_raises. apply raises_insert_config.
Qed.

Lemma from_core_mint_tx_ok idx ts o tx row :
  MintTx.from_core_mint_tx idx ts o tx = Ok row ->
  exists addr, row = mkMintTx None (as_i64 idx) (to_naive ts)
    (as_i64 (core_mint_tx_token_id tx)) (as_i64 (core_mint_tx_amount tx))
    (hex_encode (core_mint_tx_nonce tx)) addr
    (as_i64 (core_mint_tx_tombstone_block tx)) (encode_mint_tx tx) o.
Proof.
  unfold MintTx.from_core_mint_tx, mbind, Res_bind, res_bind, from_ext.
  destruct (b58_encode _) as [|addr]; [done|]. intros [= <-]. eauto.
Qed.

Lemma from_core_mint_tx_panic idx ts o tx p : MintTx.from_core_mint_tx idx ts o tx <> Panic p.
Proof.
  unfold MintTx.from_core_mint_tx, mbind, Res_bind, res_bind, from_ext. by destruct (b58_encode _).
Qed.

Lemma from_core_mint_tx_err idx ts o tx e :
  MintTx.from_core_mint_tx idx ts o tx = Err e -> exists s, e = ApiDisplay s.
Proof.
  unfold MintTx.from_core_mint_tx, mbind, Res_bind, res_bind, from_ext.
  destruct (b58_encode _) as [s|a]; [|done]. intros [= <-]. eauto.
Qed.

Lemma raises_insert_from_core idx ts o tx :
  never_retries (MintTx.insert_from_core_mint_tx idx ts o tx).
Proof.
  unfold MintTx.insert_from_core_mint_tx. apply raises_bind; [|intros; apply raises_insert_mint].
  apply raises_lift. by intros e (s & ->)%from_core_mint_tx_err.
Qed.

Definition config_rows (tx_id : Z) (cs : list CoreMintConfig) : list MintConfig :=
  MintConfig.from_core_mint_config tx_id <$> cs.

(** The database after storing a configuration transaction with its
    configurations. *)
Definition stores_config_tx d (t : MintConfigTx) (cs : list CoreMintConfig) i d' : Prop :=
  insertable d i t /\ exists ids, inserts (db_insert i t d) (config_rows i cs) ids d'.

Lemma config_rows_insertable d i cs (t : MintConfigTx) :
  insertable d i t -> all_insertable (db_insert i t d) (config_rows i cs).
Proof.
  intros Hi. apply all_insertable_intro; try done.
  - by intros r (c & -> & _)%list_elem_of_fmap.
  - intros d' r (c & -> & _)%list_elem_of_fmap (t' & ->). simpl.
    apply bool_decide_eq_true. unfold db_insert. simpl.
    rewrite fmap_app, elem_of_app. right. by left.
Qed.

Lemma wp_insert_config_tx self core Q w :
  decode_mint_config_tx (mct_protobuf self) = inr core ->
  (forall e w', ~ healthy w \/ (forall i, ~ insertable (w_db w) i self) ->
     w_db w' = w_db w -> Q (Err e) w') ->
  (forall i d' w', stores_config_tx (w_db w) self (core_mint_config_tx_configs core) i d' ->
     leads w d' w' -> Q (Ok (row_with_id i self)) w') ->
  wp (MintConfigTx.insert self) Q w.
Proof.
  intros Hdec He Ho. unfold MintConfigTx.insert, MintConfigTx.decode. rewrite Hdec.
  apply wp_bind, wp_lift. simpl.
  apply wp_bind, wp_transaction; [solve_raises; apply raises_insert_config| |].
  { intros f w' Hh Hl. apply He; [by left|by apply leads_db in Hl]. }
  intros w1 Hw1. pose proof (leads_db _ _ _ Hw1) as Hd.
  apply wp_bind, wp_exec, wp_insert_get_id; rewrite ?Hd.
  { intros e w' Hi _. apply He; [|done]. destruct Hi; [left; by eapply leads_sick|by right]. }
  intros i w2 Hi Hw2.
  apply wp_bind, (wp_for_each_insert _ (MintConfig.from_core_mint_config i)).
  - intros c w3 Q' _ He' Ho'. apply wp_insert_config; [done|]. intros j w' Hj Hl. by eapply Ho'.
  - intros e w' [Hh|Ha]; (apply He; [|done]).
    + left. eapply leads_sick; [|done]. by eapply leads_trans.
    + destruct Ha. rewrite (leads_db _ _ _ Hw2). by apply config_rows_insertable.
  - intros ids d' bs w' Hs Hl. apply wp_ret, wp_ret. rewrite (leads_db _ _ _ Hw2) in Hs.
    eapply Ho; [split; eauto|]. eapply leads_trans; [done|]. by eapply leads_trans.
Qed.
End mint_specs.

(** ** The calls respect what inserts respect *)
Section mint_respects.
Context {X_chrono : Chrono} {X_sqlite : Sqlite} {X_mc : MobileCoin} {X_hex : Hex}.
Context (Rel : Db -> Db -> Prop) `{!PreOrder Rel}.

Lemma respects_insert_config `{!InsertRel Rel MintConfig} c : db_respects Rel (MintConfig.insert c).
Proof. unfold MintConfig.insert. solve_respects. Qed.

Lemma respects_insert_config_tx `{!InsertRel Rel MintConfig} `{!InsertRel Rel MintConfigTx} t :
  db_respects Rel (MintConfigTx.insert t).
Proof. unfold MintConfigTx.insert. solve_respects. by apply respects_insert_config. Qed.

Lemma respects_insert_mint `{!InsertRel Rel MintTx} m : db_respects Rel (MintTx.insert m).
Proof. unfold MintTx.insert. solve_respects. Qed.
End mint_respects.

#[export] Hint Resolve respects_insert_config respects_insert_config_tx respects_insert_mint : respects.
#[export] Hint Resolve raises_insert_config raises_insert_config_tx raises_insert_mint
  raises_insert_from_core : raises.

(** A call that is a query respects everything reflexive. *)
Lemma respects_query `{Chrono} `{Sqlite} Rel `{!PreOrder Rel} {A} (m : App A) P :
  query m P -> db_respects Rel m.
Proof. intros Hm w. unfold on_db. rewrite (query_db _ _ w Hm). reflexivity. Qed.
