(* ===== verification/Burns.v ===== *)
(** * [src/db/models/burn_tx_out.rs]

    The outputs sent to the burn address. *)

From S2P Require Import Prelude Externals Concrete GnosisTypes Errors Schema Database Mints.

Module BurnTxOut.

Section getters.
Context {X_chrono : Chrono}.
Definition id (self : BurnTxOut) : option Z := bto_id self.
Definition block_index (self : BurnTxOut) : Z := as_u64 (bto_block_index self).
Definition block_timestamp (self : BurnTxOut) : option DateTime :=
  of_naive (bto_block_timestamp self).
Definition token_id (self : BurnTxOut) : Z := as_u64 (bto_token_id self).
Definition amount (self : BurnTxOut) : Z := as_u64 (bto_amount self).
Definition public_key_hex (self : BurnTxOut) : string := bto_public_key_hex self.
End getters.

Section operations.
Context {X_chrono : Chrono} {X_sqlite : Sqlite} {X_mc : MobileCoin} {X_hex : Hex}.

(** [BurnTxOut::decode]. *)
Definition decode (self : BurnTxOut) : Res Error TxOut :=
  from_ext Decode (decode_tx_out (bto_protobuf self)).

(** [BurnTxOut::from_core_tx_out]: fails unless the output is sent to the burn
    address. *)
Definition from_core_tx_out (block_index : Z) (block_timestamp : option DateTime) (tx_out : TxOut)
  : Res Error BurnTxOut :=
  amount ← from_ext ViewKeyMatch (view_key_match tx_out burn_address_view_private);
  Ok (mkBurnTxOut None (as_i64 block_index) (to_naive block_timestamp)
    (as_i64 (snd amount)) (as_i64 (fst amount))
    (hex_encode (compressed_as_bytes (tx_out_public_key tx_out)))
    (encode_tx_out tx_out)).

(** [BurnTxOut::insert]; the updated [self] is returned. *)
Definition insert (self : BurnTxOut) : App BurnTxOut :=
  match bto_id self with
  | Some id => throw (AlreadyExists ("BurnTxOut already has an id (" +:+ pretty id +:+ ")"))
  | None =>
      i ← exec (insert_get_id self);
      mret (mkBurnTxOut (Some i) (bto_block_index self) (bto_block_timestamp self)
        (bto_token_id self) (bto_amount self) (bto_public_key_hex self) (bto_protobuf self))
  end.

(** [BurnTxOut::insert_from_core_tx_out]. *)
Definition insert_from_core_tx_out (block_index : Z) (block_timestamp : option DateTime)
    (tx_out : TxOut) : App BurnTxOut :=
  burn_tx_out ← lift (from_core_tx_out block_index block_timestamp tx_out);
  insert burn_tx_out.

(** [BurnTxOut::burn_redemption_memo]: the data of the memo. *)
Definition burn_redemption_memo (self : BurnTxOut) : Res Error (list byte) :=
  tx_out ← decode self;
  decompressed_tx_pub ← from_ext Key (ristretto_public_try_from (tx_out_public_key tx_out));
  let shared_secret := get_tx_out_shared_secret burn_address_view_private decompressed_tx_pub in
  let memo_payload := decrypt_memo tx_out shared_secret in
  memo_type ← from_ext MemoDecoding (memo_type_try_from memo_payload);
  match memo_type with
  | Some burn_redemption => Ok burn_redemption
  | None => Err InvalidMemoType
  end.

(** The [NOT EXISTS] subquery on [audited_burns]. *)
Definition unaudited (d : Db) (b : BurnTxOut) : bool :=
  negb (existsb (fun a => id_is (bto_id b) (ab_burn_tx_out_id a)) (rows (R := AuditedBurn) d)).

(** [BurnTxOut::find_unaudited_burn_tx_outs]. *)
Definition find_unaudited_burn_tx_outs : App (list BurnTxOut) :=
  exec (load (fun d => List.filter (unaudited d) (rows d))).

(** [BurnTxOut::find_unaudited_burn_tx_out_by_public_key]. *)
Definition find_unaudited_burn_tx_out_by_public_key (public_key_hex : string)
  : App (option BurnTxOut) :=
  exec (optional (load_first (fun d =>
    List.filter (fun b => String.eqb (bto_public_key_hex b) public_key_hex && unaudited d b)
      (rows d)))).

(** [BurnTxOut::get_burn_amounts]. *)
Definition get_burn_amounts (token_id : Z) : App (list (Z * Z)) :=
  l ← exec (load (fun d =>
    (fun b => (bto_token_id b, bto_amount b)) <$>
      List.filter (fun b => bto_token_id b =? as_i64 token_id) (rows d)));
  mret ((fun p => (as_u64 p.1, as_u64 p.2)) <$> l).

(** [BurnTxOut::get_burn_txs_by_block]. *)
Definition get_burn_txs_by_block (block_index : Z) : App (list BurnTxOut) :=
  exec (load_ordered (fun b => default 0 (bto_id b)) (fun d =>
    List.filter (fun b => bto_block_index b =? as_i64 block_index) (rows d))).
End operations.
End BurnTxOut.

Section burn_specs.
Context {X_chrono : Chrono} {X_sqlite : Sqlite} {L_sqlite : SqliteLaws}.
Context {X_mc : MobileCoin} {X_hex : Hex}.
Implicit Types (w : World).

Lemma wp_insert_burn self Q w :
  bto_id self = None ->
  (forall e w', ~ healthy w \/ (forall i, ~ insertable (w_db w) i self) -> Q (Err e) w') ->
  (forall i w', insertable (w_db w) i self -> leads w (db_insert i self (w_db w)) w' ->
     Q (Ok (row_with_id i self)) w') ->
  wp (BurnTxOut.insert self) Q w.
Proof.
  intros Hid He Ho. unfold BurnTxOut.insert. rewrite Hid.
  apply wp_bind, wp_exec, wp_insert_get_id; [intros; by apply He|].
  intros i w' Hi Hl. by apply wp_ret, Ho.
Qed.

Lemma raises_insert_burn b : never_retries (BurnTxOut.insert b).
Proof. unfold BurnTxOut.insert. solve_raises. Qed.

Lemma respects_insert_burn Rel `{!PreOrder Rel} `{!InsertRel Rel BurnTxOut} b :
  db_respects Rel (BurnTxOut.insert b).
Proof. unfold BurnTxOut.insert. solve_respects. Qed.

(** The burns among the outputs of a block, in order. *)
Lemma from_core_tx_out_ok idx ts o b :
  BurnTxOut.from_core_tx_out idx ts o = Ok b <->
  exists v t, view_key_match o burn_address_view_private = inr (v, t) /\
    b = mkBurnTxOut None (as_i64 idx) (to_naive ts) (as_i64 t) (as_i64 v)
          (hex_encode (compressed_as_bytes (tx_out_public_key o))) (encode_tx_out o).
Proof.
  unfold BurnTxOut.from_core_tx_out, mbind, Res_bind, res_bind, from_ext.
  destruct (view_key_match _ _) as [s|[v t]]; split; try done.
  - by intros (? & ? & ? & _).
  - intros [= <-]. eauto.
  - by intros (? & ? & [= <- <-] & ->).
Qed.
End burn_specs.

#[export] Hint Resolve respects_insert_burn : respects.
#[export] Hint Resolve raises_insert_burn : raises.
