(* ===== verification/GnosisConfig.v ===== *)
(** * [src/gnosis/config.rs], [utils.rs] and [api_data_types.rs]

    Which safes and tokens are audited, the conversion of Ethereum token amounts
    to MobileCoin precision, and the transactions the Gnosis API returns. *)

From S2P Require Import Prelude Externals GnosisTypes.

(** ** Configuration *)
Section config.
Context {X_url : UrlLib}.

Record AuditedToken := mkAuditedToken {
  tok_token_id : Z;
  tok_token_type : string;
  tok_eth_token_contract_addrs : list EthAddr.t;
  tok_name : string;
  tok_symbol : string;
  tok_decimals : Z;
  tok_logo_uri : string;
  tok_aux_burn_contract_addr : EthAddr.t;
  tok_aux_burn_function_sig : array 4;
}.

Record AuditedSafeConfig := mkAuditedSafeConfig {
  sc_safe_addr : EthAddr.t;
  sc_api_url : Url;
  sc_tokens : list AuditedToken;
  sc_token_decimals_max : Z;
}.

Record GnosisSafeConfig := mkGnosisSafeConfig { gc_safes : list AuditedSafeConfig }.

(** [AuditedSafeConfig::get_token_by_eth_contract_addr]. *)
Definition get_token_by_eth_contract_addr (self : AuditedSafeConfig) (eth_contract_addr : EthAddr.t)
  : option AuditedToken :=
  List.find (fun token => existsb (EthAddr.eqb eth_contract_addr) (tok_eth_token_contract_addrs token))
    (sc_tokens self).

(** [GnosisSafeConfig::get_audited_safe_config_by_safe_addr]. *)
Definition get_audited_safe_config_by_safe_addr (self : GnosisSafeConfig) (safe_addr : EthAddr.t)
  : option AuditedSafeConfig :=
  List.find (fun safe => EthAddr.eqb (sc_safe_addr safe) safe_addr) (gc_safes self).

(** The file system and the parsers derived by serde. *)
Class ConfigFiles := {
  fs_read_to_string : string -> ext string;
  path_extension : string -> option string;
  toml_from_str : string -> ext GnosisSafeConfig;
  json_config_from_str : string -> ext GnosisSafeConfig;
}.

(** [GnosisSafeConfig::load_from_path]. *)
Definition load_from_path `{ConfigFiles} (path : string) : Res Gnosis.Error GnosisSafeConfig :=
  data ← from_ext Gnosis.Io (fs_read_to_string path);
  match path_extension path with
  | None => Err Gnosis.PathExtension
  | Some ext =>
      if String.eqb ext "toml" then from_ext Gnosis.Toml (toml_from_str data)
      else if String.eqb ext "json" then from_ext Gnosis.Json (json_config_from_str data)
      else Err (Gnosis.UnrecognizedExtension ext)
  end.
End config.

(** ** [truncate_value]

    [10_u128.pow(k)] wraps modulo 2^128 in release builds. *)
Definition wrapping_pow10_u128 (k : Z) : Z := (10 ^ k) mod two128.

Definition truncate_value {E} (raw_token_value : EthTxValue.t) (token_decimals max_decimals : Z)
  : Res E Z :=
  let token_value := EthTxValue.value raw_token_value in
  token_value ←
    (if max_decimals <? token_decimals then
       let orders_reduced_by := token_decimals - max_decimals in
       let denominator := wrapping_pow10_u128 orders_reduced_by in
       if denominator =? 0 then Panic "attempt to divide by zero"
       else Ok (token_value / denominator)
     else Ok token_value);
  if token_value <? two64 then Ok token_value
  else Panic "Failed to truncate EthTxValue token value to u64".

(** ** API data *)
Section api_data_types.
Context {X_chrono : Chrono}.

(** [DataDecoded], [DataDecodedParameter] and [ValueDecoded]. *)
Inductive DataDecoded :=
| mkDataDecoded (method : string) (parameters : list DataDecodedParameter)
with DataDecodedParameter :=
| mkDataDecodedParameter (name value : string) (value_decoded : option (list ValueDecoded))
with ValueDecoded :=
| mkValueDecoded (operation : Z) (to : EthAddr.t) (value data : string)
    (data_decoded : option DataDecoded).

Definition dd_method (x : DataDecoded) : string := let '(mkDataDecoded m _) := x in m.
Definition dd_parameters (x : DataDecoded) : list DataDecodedParameter :=
  let '(mkDataDecoded _ p) := x in p.
Definition ddp_name (x : DataDecodedParameter) : string :=
  let '(mkDataDecodedParameter n _ _) := x in n.
Definition ddp_value (x : DataDecodedParameter) : string :=
  let '(mkDataDecodedParameter _ v _) := x in v.
Definition ddp_value_decoded (x : DataDecodedParameter) : option (list ValueDecoded) :=
  let '(mkDataDecodedParameter _ _ v) := x in v.
Definition vd_to (x : ValueDecoded) : EthAddr.t := let '(mkValueDecoded _ t _ _ _) := x in t.
Definition vd_data_decoded (x : ValueDecoded) : option DataDecoded :=
  let '(mkValueDecoded _ _ _ _ d) := x in d.
Definition vd_data (x : ValueDecoded) : string := let '(mkValueDecoded _ _ _ d _) := x in d.

Record TokenInfo := mkTokenInfo { ti_decimals : option Z; ti_address : string }.

Record EthereumTransfer := mkEthereumTransfer {
  et_from : EthAddr.t;
  et_to : EthAddr.t;
  et_token_addr : option EthAddr.t;
  et_tx_hash : EthTxHash.t;
  et_tx_type : string;
  et_token_info : option TokenInfo;
  et_value : option EthTxValue.t;
}.

Record MultiSigTransaction := mkMultiSigTransaction {
  ms_safe : EthAddr.t;
  ms_to : EthAddr.t;
  ms_value : EthTxValue.t;
  ms_data : option string;
  ms_eth_block_number : Z;
  ms_tx_hash : EthTxHash.t;
  ms_data_decoded : option DataDecoded;
  ms_transfer_data : list EthereumTransfer;
  ms_execution_date : DateTime;
}.

Record EthereumTransaction := mkEthereumTransaction {
  etx_tx_hash : EthTxHash.t;
  etx_eth_block_number : Z;
  etx_transfers : list EthereumTransfer;
  etx_execution_date : DateTime;
}.

(** [serde_json]: values, and the decoders derived for the types above. *)
Class SerdeJson := {
  Value : Type;
  json_from_str : string -> ext Value;
  json_to_string : Value -> string;
  json_get : Value -> string -> option Value;
  json_as_str : Value -> option string;
  json_without : Value -> string -> Value;   (* a map less one member *)
  json_multi_sig : Value -> ext MultiSigTransaction;
  json_ethereum : Value -> ext EthereumTransaction;
}.

Context {X_json : SerdeJson}.

(** [Transaction], an enum tagged by the member [txType]. *)
Inductive Transaction :=
| MultiSig (tx : MultiSigTransaction)
| Ethereum (tx : EthereumTransaction)
| Module (value : Value).

Definition raw_transaction : Type := Value.

(** [RawGnosisTransaction::from_json], [to_json_string]. *)
Definition from_json (src : string) : Res Gnosis.Error raw_transaction :=
  from_ext Gnosis.Json (json_from_str src).
Definition to_json_string (self : raw_transaction) : string := json_to_string self.

(** [RawGnosisTransaction::decode]: the variant is chosen by [txType]. *)
Definition decode (self : raw_transaction) : Res Gnosis.Error Transaction :=
  match json_get self "txType" ≫= json_as_str with
  | None => Err (Gnosis.Json "missing field `txType`")
  | Some tag =>
      let content := json_without self "txType" in
      if String.eqb tag "MULTISIG_TRANSACTION" then
        tx ← from_ext Gnosis.Json (json_multi_sig content); Ok (MultiSig tx)
      else if String.eqb tag "ETHEREUM_TRANSACTION" then
        tx ← from_ext Gnosis.Json (json_ethereum content); Ok (Ethereum tx)
      else if String.eqb tag "MODULE_TRANSACTION" then Ok (Module content)
      else Err (Gnosis.Json ("unknown variant `" +:+ tag +:+ "`"))
  end.

Context {X_hex : Hex}.

(** [RawGnosisTransaction::tx_hash]. *)
Definition tx_hash (self : raw_transaction) : Res Gnosis.Error EthTxHash.t :=
  let field := match json_get self "transactionHash" with
               | Some v => Some v
               | None => json_get self "txHash"
               end in
  hash_str ← ok_or (Gnosis.Other "GnosisSafeTransaction: missing transactionHash")
               (field ≫= json_as_str);
  map_err (fun err => Gnosis.Other ("Failed parsing tx hash '" +:+ hash_str +:+ "': "
                                    +:+ Gnosis.display err)) (EthTxHash.from_str hash_str).
End api_data_types.

(** ** Truncation *)
Section truncation.

Lemma wrapping_pow10_small k : 0 <= k <= 38 -> wrapping_pow10_u128 k = 10 ^ k.
Proof.
  intros Hk. unfold wrapping_pow10_u128. apply Z.mod_small. split; [apply Z.pow_nonneg; lia|].
  eapply Z.le_lt_trans; [apply (Z.pow_le_mono_r 10 k 38); lia|]. by vm_compute.
Qed.

Lemma wrapping_pow10_large k : 128 <= k -> wrapping_pow10_u128 k = 0.
Proof.
  intros Hk. unfold wrapping_pow10_u128. replace k with (128 + (k - 128)) by lia.
  rewrite Z.pow_add_r by lia. replace (10 ^ 128) with ((5 ^ 128) * two128) by by vm_compute.
  rewrite <- Z.mul_assoc, (Z.mul_comm two128), Z.mul_assoc. apply Z.mod_mul. lia.
Qed.
End truncation.
