(* ===== verification/GnosisRows.v ===== *)
(** * [src/db/models/gnosis_safe_tx.rs], [gnosis_safe_deposit.rs], [gnosis_safe_withdrawal.rs]

    The transactions of the audited safes: the raw JSON, and what was recognized
    in it as a deposit or a withdrawal. *)

From S2P Require Import Prelude Externals Concrete GnosisTypes Errors Schema Database Mints.
From S2P Require Import GnosisConfig.

Module GnosisSafeTx.
Section operations.
Context {X_chrono : Chrono} {X_sqlite : Sqlite} {X_hex : Hex} {X_json : SerdeJson}.

(** [GnosisSafeTx::insert]. *)
Definition insert (raw_tx : raw_transaction) : App unit :=
  eth_tx_hash ← lift (map_err GnosisErr (tx_hash raw_tx));
  exec (insert_into (mkGnosisSafeTx (EthTxHash.display eth_tx_hash) (to_json_string raw_tx))).

(** [GnosisSafeTx::decode]. *)
Definition decode (self : GnosisSafeTx) : Res Error raw_transaction :=
  map_err GnosisErr (from_json (gst_raw_tx_json self)).
End operations.
End GnosisSafeTx.

Module GnosisSafeDeposit.
Section operations.
Context {X_chrono : Chrono} {X_sqlite : Sqlite} {X_hex : Hex}.

(** [GnosisSafeDeposit::new]: the nonce a matching mint must carry is computed
    from the transaction hash. *)
Definition new (id : option Z) (eth_tx_hash : EthTxHash.t) (execution_date : DateTime)
    (eth_tx_value : EthTxValue.t) (eth_block_number : Z)
    (safe_addr token_addr from_addr : EthAddr.t) (amount : Z) : GnosisSafeDeposit :=
  let expected_mc_mint_tx_nonce := MintTxNonce.EthereumGnosisDeposit eth_tx_hash in
  mkGnosisSafeDeposit id eth_tx_hash (naive_utc execution_date) eth_tx_value
    (as_i64 eth_block_number) safe_addr token_addr from_addr (as_i64 amount)
    (hex_encode (MintTxNonce.to_bytes expected_mc_mint_tx_nonce)).

(** Getters. *)
Definition id (self : GnosisSafeDeposit) : option Z := gsd_id self.
Definition eth_tx_hash (self : GnosisSafeDeposit) : EthTxHash.t := gsd_eth_tx_hash self.
Definition execution_date (self : GnosisSafeDeposit) : DateTime :=
  from_naive_utc (gsd_execution_date self).
Definition eth_tx_value (self : GnosisSafeDeposit) : EthTxValue.t := gsd_eth_tx_value self.
Definition eth_block_number (self : GnosisSafeDeposit) : Z := as_u64 (gsd_eth_block_number self).
Definition safe_addr (self : GnosisSafeDeposit) : EthAddr.t := gsd_safe_addr self.
Definition token_addr (self : GnosisSafeDeposit) : EthAddr.t := gsd_token_addr self.
Definition from_addr (self : GnosisSafeDeposit) : EthAddr.t := gsd_from_addr self.
Definition amount (self : GnosisSafeDeposit) : Z := as_u64 (gsd_amount self).
Definition expected_mc_mint_tx_nonce_hex (self : GnosisSafeDeposit) : string :=
  gsd_expected_mc_mint_tx_nonce_hex self.

(** [GnosisSafeDeposit::insert]; the updated [self] is returned. *)
Definition insert (self : GnosisSafeDeposit) : App GnosisSafeDeposit :=
  match gsd_id self with
  | Some id =>
      throw (AlreadyExists ("GnosisSafeDeposit already has an id (" +:+ pretty id +:+ ")"))
  | None =>
      i ← exec (insert_get_id self);
      mret (mkGnosisSafeDeposit (Some i) (gsd_eth_tx_hash self) (gsd_execution_date self)
        (gsd_eth_tx_value self) (gsd_eth_block_number self) (gsd_safe_addr self)
        (gsd_token_addr self) (gsd_from_addr self) (gsd_amount self)
        (gsd_expected_mc_mint_tx_nonce_hex self))
  end.

(** The [NOT EXISTS] subquery on [audited_mints]. *)
Definition unaudited (d : Db) (x : GnosisSafeDeposit) : bool :=
  negb (existsb (fun a => id_is (gsd_id x) (am_gnosis_safe_deposit_id a))
          (rows (R := AuditedMint) d)).

(** [GnosisSafeDeposit::find_unaudited_deposits]. *)
Definition find_unaudited_deposits : App (list GnosisSafeDeposit) :=
  exec (load (fun d => List.filter (unaudited d) (rows d))).

(** [GnosisSafeDeposit::find_unaudited_deposit_by_nonce]. *)
Definition find_unaudited_deposit_by_nonce (nonce_hex : string) : App (option GnosisSafeDeposit) :=
  exec (optional (load_first (fun d =>
    List.filter (fun x => String.eqb (gsd_expected_mc_mint_tx_nonce_hex x) nonce_hex
                          && unaudited d x) (rows d)))).
End operations.
End GnosisSafeDeposit.

Module GnosisSafeWithdrawal.
Section operations.
Context {X_chrono : Chrono} {X_sqlite : Sqlite} {X_hex : Hex} {X_mc : MobileCoin}.

(** [GnosisSafeWithdrawal::new]. *)
Definition new (id : option Z) (eth_tx_hash : EthTxHash.t) (execution_date : DateTime)
    (eth_tx_value : EthTxValue.t) (eth_block_number : Z)
    (safe_addr token_addr to_addr : EthAddr.t) (amount : Z) (mc_tx_out_public_key_hex : string)
  : GnosisSafeWithdrawal :=
  mkGnosisSafeWithdrawal id eth_tx_hash (naive_utc execution_date) eth_tx_value
    (as_i64 eth_block_number) safe_addr token_addr to_addr (as_i64 amount)
    mc_tx_out_public_key_hex.

(** Getters. *)
Definition id (self : GnosisSafeWithdrawal) : option Z := gsw_id self.
Definition eth_tx_hash (self : GnosisSafeWithdrawal) : EthTxHash.t := gsw_eth_tx_hash self.
Definition execution_date (self : GnosisSafeWithdrawal) : DateTime :=
  from_naive_utc (gsw_execution_date self).
Definition eth_tx_value (self : GnosisSafeWithdrawal) : EthTxValue.t := gsw_eth_tx_value self.
Definition eth_block_number (self : GnosisSafeWithdrawal) : Z := as_u64 (gsw_eth_block_number self).
Definition safe_addr (self : GnosisSafeWithdrawal) : EthAddr.t := gsw_safe_addr self.
Definition token_addr (self : GnosisSafeWithdrawal) : EthAddr.t := gsw_token_addr self.
Definition to_addr (self : GnosisSafeWithdrawal) : EthAddr.t := gsw_to_addr self.
Definition amount (self : GnosisSafeWithdrawal) : Z := as_u64 (gsw_amount self).
Definition mc_tx_out_public_key_hex (self : GnosisSafeWithdrawal) : string :=
  gsw_mc_tx_out_public_key_hex self.

(** [GnosisSafeWithdrawal::mc_tx_out_public_key]. *)
Definition mc_tx_out_public_key (self : GnosisSafeWithdrawal) : Res Error CompressedRistrettoPublic :=
  key_bytes ← from_ext HexParse (hex_decode (gsw_mc_tx_out_public_key_hex self));
  from_ext Key (compressed_try_from key_bytes).

(** [GnosisSafeWithdrawal::insert]; the updated [self] is returned. *)
Definition insert (self : GnosisSafeWithdrawal) : App GnosisSafeWithdrawal :=
  match gsw_id self with
  | Some id =>
      throw (AlreadyExists ("GnosisSafeWithdrawal already has an id (" +:+ pretty id +:+ ")"))
  | None =>
      i ← exec (insert_get_id self);
      mret (mkGnosisSafeWithdrawal (Some i) (gsw_eth_tx_hash self) (gsw_execution_date self)
        (gsw_eth_tx_value self) (gsw_eth_block_number self) (gsw_safe_addr self)
        (gsw_token_addr self) (gsw_to_addr self) (gsw_amount self)
        (gsw_mc_tx_out_public_key_hex self))
  end.

(** The [NOT EXISTS] subquery on [audited_burns]. *)
Definition unaudited (d : Db) (x : GnosisSafeWithdrawal) : bool :=
  negb (existsb (fun a => id_is (gsw_id x) (ab_gnosis_safe_withdrawal_id a))
          (rows (R := AuditedBurn) d)).

(** [GnosisSafeWithdrawal::find_unaudited_withdrawals]. *)
Definition find_unaudited_withdrawals : App (list GnosisSafeWithdrawal) :=
  exec (load (fun d => List.filter (unaudited d) (rows d))).

(** [GnosisSafeWithdrawal::find_unaudited_withdrawal_by_public_key]. *)
Definition find_unaudited_withdrawal_by_public_key (public_key_hex : string)
  : App (option GnosisSafeWithdrawal) :=
  exec (optional (load_first (fun d =>
    List.filter (fun x => String.eqb (gsw_mc_tx_out_public_key_hex x) public_key_hex
                          && unaudited d x) (rows d)))).
End operations.
End GnosisSafeWithdrawal.

Section gnosis_row_specs.
Context {X_chrono : Chrono} {X_sqlite : Sqlite} {L_sqlite : SqliteLaws}.
Context {X_hex : Hex} {X_json : SerdeJson}.
Implicit Types (w : World).

Lemma wp_insert_deposit self Q w :
  gsd_id self = None ->
  (forall e w', ~ healthy w \/ (forall i, ~ insertable (w_db w) i self) -> Q (Err e) w') ->
  (forall i w', insertable (w_db w) i self -> leads w (db_insert i self (w_db w)) w' ->
     Q (Ok (row_with_id i self)) w') ->
  wp (GnosisSafeDeposit.insert self) Q w.
Proof.
  intros Hid He Ho. unfold GnosisSafeDeposit.insert. rewrite Hid.
  apply wp_bind, wp_exec, wp_insert_get_id; [intros; by apply He|].
  intros i w' Hi Hl. by apply wp_ret, Ho.
Qed.

Lemma wp_insert_withdrawal self Q w :
  gsw_id self = None ->
  (forall e w', ~ healthy w \/ (forall i, ~ insertable (w_db w) i self) -> Q (Err e) w') ->
  (forall i w', insertable (w_db w) i self -> leads w (db_insert i self (w_db w)) w' ->
     Q (Ok (row_with_id i self)) w') ->
  wp (GnosisSafeWithdrawal.insert self) Q w.
Proof.
  intros Hid He Ho. unfold GnosisSafeWithdrawal.insert. rewrite Hid.
  apply wp_bind, wp_exec, wp_insert_get_id; [intros; by apply He|].
  intros i w' Hi Hl. by apply wp_ret, Ho.
Qed.

Lemma raises_insert_deposit x : never_retries (GnosisSafeDeposit.insert x).
Proof. unfold GnosisSafeDeposit.insert. solve_raises. Qed.

Lemma raises_insert_withdrawal x : never_retries (GnosisSafeWithdrawal.insert x).
Proof. unfold GnosisSafeWithdrawal.insert. solve_raises. Qed.

Lemma raises_insert_safe_tx x : never_retries (GnosisSafeTx.insert x).
Proof.
  unfold GnosisSafeTx.insert. solve_raises. apply raises_lift.
  destruct (tx_hash x); by intros ? [= <-].
Qed.

Context (Rel : Db -> Db -> Prop) `{!PreOrder Rel}.

Lemma respects_insert_deposit `{!InsertRel Rel GnosisSafeDeposit} x :
  db_respects Rel (GnosisSafeDeposit.insert x).
Proof. unfold GnosisSafeDeposit.insert. solve_respects. Qed.

Lemma respects_insert_withdrawal `{!InsertRel Rel GnosisSafeWithdrawal} x :
  db_respects Rel (GnosisSafeWithdrawal.insert x).
Proof. unfold GnosisSafeWithdrawal.insert. solve_respects. Qed.

Lemma respects_insert_safe_tx `{!InsertRel Rel GnosisSafeTx} x :
  db_respects Rel (GnosisSafeTx.insert x).
Proof. unfold GnosisSafeTx.insert. solve_respects. Qed.
End gnosis_row_specs.

#[export] Hint Resolve respects_insert_deposit respects_insert_withdrawal respects_insert_safe_tx
  : respects.
#[export] Hint Resolve raises_insert_deposit raises_insert_withdrawal raises_insert_safe_tx : raises.
