(* ===== verification/AuditedMints.v ===== *)
(** * [src/db/models/audited_mint.rs]

    The records that tie a mint on the MobileCoin blockchain to the deposit into
    a Gnosis safe that pays for it. *)

From S2P Require Import Prelude Externals Concrete GnosisTypes Errors Schema Database.
From S2P Require Import CountersModel Mints GnosisConfig GnosisRows.

Section audited_mint_join.
Context {X_chrono : Chrono} {X_hex : Hex}.

(** [audited_mints INNER JOIN mint_txs INNER JOIN gnosis_safe_deposits]. *)
Definition joined_audited_mints (d : Db) : list (AuditedMint * MintTx * GnosisSafeDeposit) :=
  a ← rows (R := AuditedMint) d;
  m ← List.filter (fun m => id_is (mt_id m) (am_mint_tx_id a)) (rows (R := MintTx) d);
  x ← List.filter (fun x => id_is (gsd_id x) (am_gnosis_safe_deposit_id a))
        (rows (R := GnosisSafeDeposit) d);
  [(a, m, x)].
End audited_mint_join.

Module AuditedMint.
Section operations.
Context {X_chrono : Chrono} {X_sqlite : Sqlite} {X_hex : Hex} {X_mc : MobileCoin} {X_url : UrlLib}.

(** [OFFSET] and [LIMIT] of SQLite: a negative offset is none, a negative limit
    is no limit. *)
Definition sql_offset {A} (offset : option Z) (l : list A) : list A :=
  match offset with Some o => drop (Z.to_nat (as_i64 o)) l | None => l end.
Definition sql_limit {A} (limit : option Z) (l : list A) : list A :=
  match limit with
  | Some n => if as_i64 n <? 0 then l else take (Z.to_nat (as_i64 n)) l
  | None => l
  end.

(** [into_boxed()], [order_by] and then [offset] and [limit] if they are given.  Diesel
    writes exactly the clauses it was given, and in SQLite's grammar [OFFSET] stands only
    after [LIMIT]: an offset alone does not parse. *)
Definition load_page {A} (key : A -> Z) (q : Db -> list A) (offset limit : option Z) : Stmt (list A) :=
  match offset, limit with
  | Some _, None =>
      statement (throw (Diesel.DatabaseError (Diesel.OtherKind "Unknown") (syntax_error_message "OFFSET")))
  | _, _ => l ← load_ordered key q; mret (sql_limit limit (sql_offset offset l))
  end.

(** [AuditedMint::verify_mint_tx_matches_deposit]. *)
Definition verify_mint_tx_matches_deposit (mint_tx : MintTx) (deposit : GnosisSafeDeposit)
    (config : AuditedSafeConfig) : Res Error unit :=
  if negb (EthAddr.eqb (GnosisSafeDeposit.safe_addr deposit) (sc_safe_addr config)) then
    Err (Other ("Gnosis safe deposit addr " +:+ EthAddr.display (GnosisSafeDeposit.safe_addr deposit)
      +:+ " does not match audited safe addr " +:+ EthAddr.display (sc_safe_addr config)))
  else
    audited_token ← ok_or
      (EthereumTokenNotAudited (GnosisSafeDeposit.token_addr deposit)
         (GnosisSafeDeposit.safe_addr deposit) (GnosisSafeDeposit.eth_tx_hash deposit))
      (get_token_by_eth_contract_addr config (GnosisSafeDeposit.token_addr deposit));
    let token_mismatch := DepositAndMintMismatch
      ("MintTx token_id=" +:+ token_id_display (MintTx.token_id mint_tx)
       +:+ " does not match audited token_id=" +:+ token_id_display (tok_token_id audited_token)
       +:+ " (nonce=" +:+ GnosisSafeDeposit.expected_mc_mint_tx_nonce_hex deposit +:+ ")") in
    if negb (tok_token_id audited_token =? MintTx.token_id mint_tx) then Err token_mismatch
    else if negb (String.eqb (MintTx.nonce_hex mint_tx)
                    (GnosisSafeDeposit.expected_mc_mint_tx_nonce_hex deposit)) then
      Err (DepositAndMintMismatch ("MintTx nonce " +:+ MintTx.nonce_hex mint_tx
        +:+ " does not match expected nonce "
        +:+ GnosisSafeDeposit.expected_mc_mint_tx_nonce_hex deposit))
    else if negb (MintTx.amount mint_tx =? GnosisSafeDeposit.amount deposit) then
      Err (DepositAndMintMismatch ("MintTx amount=" +:+ pretty (MintTx.amount mint_tx)
        +:+ " does not match GnosisSafeDeposit amount="
        +:+ pretty (GnosisSafeDeposit.amount deposit)
        +:+ " (nonce=" +:+ GnosisSafeDeposit.expected_mc_mint_tx_nonce_hex deposit +:+ ")"))
    else
      (* the token is looked up and checked a second time *)
      audited_token ← ok_or
        (EthereumTokenNotAudited (GnosisSafeDeposit.token_addr deposit)
           (GnosisSafeDeposit.safe_addr deposit) (GnosisSafeDeposit.eth_tx_hash deposit))
        (get_token_by_eth_contract_addr config (GnosisSafeDeposit.token_addr deposit));
      if negb (tok_token_id audited_token =? MintTx.token_id mint_tx) then Err token_mismatch
      else Ok tt.

(** [AuditedMint::associate_deposit_with_mint]. *)
Definition associate_deposit_with_mint (gnosis_safe_deposit_id mint_tx_id : Z) : App unit :=
  exec (insert_into (mkAuditedMint None mint_tx_id gnosis_safe_deposit_id)).

(** The query for an existing match, by a column of [audited_mints]. *)
Definition existing_match (column : AuditedMint -> Z) (id : Z) : App (option (string * string)) :=
  exec (optional (load_first (fun d =>
    (fun x => (mt_nonce_hex x.1.2, SqlEthTxHash_to_sql (gsd_eth_tx_hash x.2))) <$>
      List.filter (fun x => column x.1.1 =? id) (joined_audited_mints d)))).

(** The transaction of [AuditedMint::try_match_deposit_with_mint]. *)
Definition match_deposit_body (deposit : GnosisSafeDeposit) (config : AuditedSafeConfig)
    (deposit_id : Z) : App MintTx :=
  existing ← existing_match am_gnosis_safe_deposit_id deposit_id;
  match existing with
  | Some (nonce_hex, eth_tx_hash) =>
      _ ← Counters.inc num_unexpected_errors_matching_deposits_to_mints;
      throw (AlreadyExists ("GnosisSafeDeposit eth_tx_hash=" +:+ eth_tx_hash
               +:+ " already matched with mint_tx nonce=" +:+ nonce_hex))
  | None =>
      found ← MintTx.find_unaudited_mint_tx_by_nonce
                (GnosisSafeDeposit.expected_mc_mint_tx_nonce_hex deposit);
      mint_tx ← lift (ok_or NotFound found);
      _ ← lift (verify_mint_tx_matches_deposit mint_tx deposit config);
      match MintTx.id mint_tx with
      | None => panic "got a MintTx without id but database auto-populates that field"
      | Some mint_tx_id =>
          _ ← associate_deposit_with_mint deposit_id mint_tx_id;
          mret mint_tx
      end
  end.

(** The closure whose result is counted. *)
Definition match_deposit_result (deposit : GnosisSafeDeposit) (config : AuditedSafeConfig)
  : App MintTx :=
  deposit_id ← lift (ok_or ObjectNotSaved (GnosisSafeDeposit.id deposit));
  if negb (EthAddr.eqb (GnosisSafeDeposit.safe_addr deposit) (sc_safe_addr config)) then
    throw (Other ("Gnosis safe deposit addr "
      +:+ EthAddr.display (GnosisSafeDeposit.safe_addr deposit)
      +:+ " does not match audited safe addr " +:+ EthAddr.display (sc_safe_addr config)))
  else transaction (match_deposit_body deposit config deposit_id).

(** [AuditedMint::try_match_deposit_with_mint]. *)
Definition try_match_deposit_with_mint (deposit : GnosisSafeDeposit) (config : AuditedSafeConfig)
  : App MintTx :=
  result ← attempt (match_deposit_result deposit config);
  _ ← match result with
      | Ok _ => mret tt
      | Err (DepositAndMintMismatch _) => Counters.inc num_mismatching_mints_and_deposits
      | Err (EthereumTokenNotAudited _ _ _) => Counters.inc num_unknown_ethereum_token_deposits
      | Err _ => Counters.inc num_unexpected_errors_matching_deposits_to_mints
      | Panic _ => mret tt
      end;
  lift result.

(** The transaction of [AuditedMint::try_match_mint_with_deposit]. *)
Definition match_mint_body (mint_tx : MintTx) (config : GnosisSafeConfig) (mint_tx_id : Z)
  : App GnosisSafeDeposit :=
  existing ← existing_match am_mint_tx_id mint_tx_id;
  match existing with
  | Some (nonce_hex, eth_tx_hash) =>
      throw (AlreadyExists ("MintTx nonce=" +:+ nonce_hex
               +:+ " already matched with GnosisSafeDeposit eth_tx_hash=" +:+ eth_tx_hash))
  | None =>
      found ← GnosisSafeDeposit.find_unaudited_deposit_by_nonce (MintTx.nonce_hex mint_tx);
      deposit ← lift (ok_or NotFound found);
      audited_safe_config ← lift (ok_or (GnosisSafeNotAudited (GnosisSafeDeposit.safe_addr deposit))
        (get_audited_safe_config_by_safe_addr config (GnosisSafeDeposit.safe_addr deposit)));
      _ ← lift (verify_mint_tx_matches_deposit mint_tx deposit audited_safe_config);
      match GnosisSafeDeposit.id deposit with
      | None => panic "got a GnosisSafeDeposit without id but database auto-populates that field"
      | Some deposit_id =>
          _ ← associate_deposit_with_mint deposit_id mint_tx_id;
          mret deposit
      end
  end.

Definition match_mint_result (mint_tx : MintTx) (config : GnosisSafeConfig) : App GnosisSafeDeposit :=
  mint_tx_id ← lift (ok_or ObjectNotSaved (MintTx.id mint_tx));
  transaction (match_mint_body mint_tx config mint_tx_id).

(** [AuditedMint::try_match_mint_with_deposit]. *)
Definition try_match_mint_with_deposit (mint_tx : MintTx) (config : GnosisSafeConfig)
  : App GnosisSafeDeposit :=
  result ← attempt (match_mint_result mint_tx config);
  _ ← match result with
      | Ok _ => mret tt
      | Err (GnosisSafeNotAudited _) => Counters.inc num_mints_to_unknown_safe
      | Err (DepositAndMintMismatch _) => Counters.inc num_mismatching_mints_and_deposits
      | Err (EthereumTokenNotAudited _ _ _) => Counters.inc num_unknown_ethereum_token_deposits
      | Err _ => Counters.inc num_unexpected_errors_matching_mints_to_deposits
      | Panic _ => mret tt
      end;
  lift result.

(** [AuditedMint::list_with_mint_and_deposit]. *)
Definition list_with_mint_and_deposit (offset limit : option Z)
  : App (list (AuditedMint * MintTx * GnosisSafeDeposit)) :=
  exec (load_page (fun x => default 0 (am_id x.1.1)) joined_audited_mints offset limit).
End operations.
End AuditedMint.

(** ** The specification of matching *)
Section mint_matching.
Context {X_chrono : Chrono} {X_sqlite : Sqlite} {L_sqlite : SqliteLaws}.
Context {X_hex : Hex} {X_mc : MobileCoin} {X_url : UrlLib}.
Implicit Types (w : World) (d : Db).

(** What [verify_mint_tx_matches_deposit] accepts. *)
Definition mint_matches (config : AuditedSafeConfig) (m : MintTx) (x : GnosisSafeDeposit) : Prop :=
  EthAddr.eqb (gsd_safe_addr x) (sc_safe_addr config) = true /\
  (exists token, get_token_by_eth_contract_addr config (gsd_token_addr x) = Some token /\
     tok_token_id token = MintTx.token_id m) /\
  mt_nonce_hex m = gsd_expected_mc_mint_tx_nonce_hex x /\
  MintTx.amount m = GnosisSafeDeposit.amount x.

Lemma verify_mint_ok m x config :
  AuditedMint.verify_mint_tx_matches_deposit m x config = Ok tt <-> mint_matches config m x.
Proof.
  unfold AuditedMint.verify_mint_tx_matches_deposit, mint_matches, GnosisSafeDeposit.safe_addr,
    GnosisSafeDeposit.token_addr, GnosisSafeDeposit.expected_mc_mint_tx_nonce_hex, MintTx.nonce_hex.
  destruct (EthAddr.eqb _ _); simpl; [|naive_solver].
  destruct (get_token_by_eth_contract_addr _ _) as [tok|]; simpl; [|naive_solver].
  destruct (Z.eqb_spec (tok_token_id tok) (MintTx.token_id m)) as [Et|]; simpl; [|naive_solver].
  destruct (String.eqb_spec (mt_nonce_hex m) (gsd_expected_mc_mint_tx_nonce_hex x)); simpl;
    [|naive_solver].
  destruct (Z.eqb_spec (MintTx.amount m) (GnosisSafeDeposit.amount x)); simpl; naive_solver.
Qed.

Lemma verify_mint_cases m x config :
  AuditedMint.verify_mint_tx_matches_deposit m x config = Ok tt \/
  (exists e, AuditedMint.verify_mint_tx_matches_deposit m x config = Err e /\ no_retry e).
Proof.
  unfold AuditedMint.verify_mint_tx_matches_deposit.
  destruct (EthAddr.eqb _ _); simpl; [|by right; eexists].
  destruct (get_token_by_eth_contract_addr _ _) as [tok|]; simpl; [|by right; eexists].
  destruct (_ =? _); simpl; [|by right; eexists].
  destruct (String.eqb _ _); simpl; [|by right; eexists].
  destruct (_ =? _); simpl; [by left|by right; eexists].
Qed.

Lemma raises_verify_mint m x config :
  never_retries (lift (AuditedMint.verify_mint_tx_matches_deposit m x config) : App unit).
Proof.
  apply raises_lift. destruct (verify_mint_cases m x config) as [->|(e & -> & He)]; [done|].
  by intros e' [= <-].
Qed.

(** Each mint and each deposit is audited at most once. *)
Definition mints_one_to_one d : Prop :=
  NoDup (am_mint_tx_id <$> rows d) /\ NoDup (am_gnosis_safe_deposit_id <$> rows d).

Definition deposit_audited d (id : Z) : bool :=
  existsb (fun a => am_gnosis_safe_deposit_id a =? id) (rows d).
Definition mint_audited d (id : Z) : bool :=
  existsb (fun a => am_mint_tx_id a =? id) (rows d).

Lemma joined_audited_elem d column i :
  integrity d ->
  existsb (fun a => column a =? i) (rows d) = true <->
  exists y, y ∈ List.filter (fun x => column x.1.1 =? i) (joined_audited_mints d).
Proof.
  intros Hd. rewrite existsb_exists_elem. split.
  - intros (a & Ha & Ea). pose proof Ha as [j Hj]%rows_elem_of.
    pose proof (fk_audited_mints _ Hd _ Hj) as Hk. simpl in Hk.
    apply andb_true_iff in Hk as [Hm Hx].
    destruct (has_id_stored (R := MintTx) d _ (ok_mint_txs _ Hd) Hm) as (m & Hm' & Em).
    destruct (has_id_stored d _ (ok_gnosis_safe_deposits _ Hd) Hx) as (x & Hx' & Ex).
    exists (a, m, x). apply elem_of_filter_bool. split; [|done].
    unfold joined_audited_mints. apply list_elem_of_bind. exists a. split; [|done].
    apply list_elem_of_bind. exists m. split; [|by apply elem_of_filter_bool; rewrite id_is_true].
    apply list_elem_of_bind. exists x. split; [by left|].
    by apply elem_of_filter_bool; rewrite id_is_true.
  - intros ([[a m] x] & [Hj Ha]%elem_of_filter_bool). exists a. split; [|done].
    unfold joined_audited_mints in Hj. apply list_elem_of_bind in Hj as (a' & Hj & Ha').
    apply list_elem_of_bind in Hj as (m' & Hj & _). apply list_elem_of_bind in Hj as (x' & Hj & _).
    apply list_elem_of_singleton in Hj. by simplify_eq.
Qed.

Lemma query_existing_match column i :
  query (AuditedMint.existing_match column i) (fun d r => exists o, r = Ok o /\
    (integrity d -> is_Some o <-> existsb (fun a => column a =? i) (rows d) = true)).
Proof.
  eapply query_mono; [apply query_load_first_optional|]. simpl. intros d r ->.
  eexists. split; [done|]. intros Hd. rewrite joined_audited_elem by done.
  set (q := List.filter _ _). destruct (head _) as [y|] eqn:E.
  - split; [|eauto]. intros _. apply scan_head, list_elem_of_fmap in E as (z & _ & Hz). eauto.
  - split; [by intros []|]. intros [z Hz]. apply scan_head_None, fmap_nil_inv in E.
    rewrite E in Hz. by apply elem_of_nil in Hz.
Qed.

(** *** Deposits looking for their mint *)
Definition deposit_counter (e : Error) : CounterVar :=
  match e with
  | DepositAndMintMismatch _ => num_mismatching_mints_and_deposits
  | EthereumTokenNotAudited _ _ _ => num_unknown_ethereum_token_deposits
  | _ => num_unexpected_errors_matching_deposits_to_mints
  end.

(** The unaudited mint that carries the nonce of a deposit. *)
Definition mint_for d (x : GnosisSafeDeposit) : option MintTx :=
  List.find (fun m => String.eqb (mt_nonce_hex m) (gsd_expected_mc_mint_tx_nonce_hex x)
                      && MintTx.unaudited d m) (rows d).

(** The outcome of [try_match_deposit_with_mint], as a table of conditions on
    the database. *)
Definition deposit_outcome d config (x : GnosisSafeDeposit) (r : Res Error MintTx) : Prop :=
  match gsd_id x with
  | None => r = Err ObjectNotSaved
  | Some id =>
      if negb (EthAddr.eqb (gsd_safe_addr x) (sc_safe_addr config)) then
        exists msg, r = Err (Other msg)
      else if deposit_audited d id then exists msg, r = Err (AlreadyExists msg)
      else match mint_for d x with
           | None => r = Err NotFound
           | Some m =>
               match AuditedMint.verify_mint_tx_matches_deposit m x config with
               | Ok _ => r = Ok m
               | Err e => r = Err e
               | Panic _ => False
               end
           end
  end.

(** The database with the pair recorded. *)
Definition record_audited_mint d (mint_id deposit_id : Z) : Db :=
  db_insert (next_rowid (audited_mints d)) (mkAuditedMint None mint_id deposit_id) d.

Lemma query_mint_by_nonce nonce :
  query (MintTx.find_unaudited_mint_tx_by_nonce nonce) (fun d r => table_ok (mint_txs d) ->
    r = Ok (List.find (fun m => String.eqb (mt_nonce_hex m) nonce && MintTx.unaudited d m) (rows d))).
Proof.
  eapply query_mono; [apply query_load_first_optional|]. simpl. intros d r -> Hd. f_equal.
  rewrite filter_find.
  - destruct (List.find _ _); [by rewrite scan_singleton|by rewrite scan_nil].
  - by apply (rows_NoDup d).
  - intros m m' Hm Hm' [E%String.eqb_eq _]%andb_true_iff [E'%String.eqb_eq _]%andb_true_iff.
    apply rows_elem_of in Hm as [i Hi], Hm' as [j Hj].
    assert ((i, m) = (j, m')) as [= _ ->]; [|done].
    eapply (ok_unique _ Hd); [done..|]. simpl. rewrite E, E'. apply String.eqb_refl.
Qed.

Lemma audited_mint_insertable d m x mid did :
  integrity d -> m ∈ rows d -> x ∈ rows d -> mt_id m = Some mid -> gsd_id x = Some did ->
  insertable d (next_rowid (audited_mints d)) (mkAuditedMint None mid did).
Proof.
  intros Hd Hm Hx Em Ex. split; [done|apply next_rowid_fresh|done|]. simpl.
  destruct (stored_has_id _ _ (ok_mint_txs _ Hd) Hm) as (i & Ei & Hi).
  destruct (stored_has_id _ _ (ok_gnosis_safe_deposits _ Hd) Hx) as (j & Ej & Hj).
  simpl in *. apply andb_true_iff. split; congruence.
Qed.

Lemma wp_associate_mint mid did m x Q w :
  integrity (w_db w) -> m ∈ rows (w_db w) -> x ∈ rows (w_db w) ->
  mt_id m = Some mid -> gsd_id x = Some did ->
  (forall e w', ~ healthy w -> Q (Err e) w') ->
  (forall w', leads w (record_audited_mint (w_db w) mid did) w' -> Q (Ok tt) w') ->
  wp (AuditedMint.associate_deposit_with_mint did mid) Q w.
Proof.
  intros Hd Hm Hx Em Ex He Ho.
  pose proof (audited_mint_insertable _ _ _ _ _ Hd Hm Hx Em Ex) as Hi.
  apply wp_exec, wp_insert_into.
  - intros e w' [Hh|Hn] _ _; [by apply He|]. by destruct (Hn _ Hi).
  - intros i w' [-> _ _ _] Hl _. by apply Ho.
Qed.

Lemma wp_match_deposit_body x config did Q w :
  integrity (w_db w) -> counters_ok (w_db w) -> x ∈ rows (w_db w) -> gsd_id x = Some did ->
  EthAddr.eqb (gsd_safe_addr x) (sc_safe_addr config) = true ->
  (forall e w', ~ healthy w \/
     (deposit_outcome (w_db w) config x (Err e) /\ (healthy w -> healthy w')) -> Q (Err e) w') ->
  (forall m mid w', deposit_outcome (w_db w) config x (Ok m) -> m ∈ rows (w_db w) ->
     mt_id m = Some mid -> leads w (record_audited_mint (w_db w) mid did) w' -> Q (Ok m) w') ->
  wp (AuditedMint.match_deposit_body x config did) Q w.
Proof.
  intros Hd Hc Hx Ex Ea He Ho. unfold deposit_outcome in He, Ho. rewrite Ex, Ea in He, Ho. simpl in He, Ho.
  apply wp_bind, (wp_query _ _ _ _ (query_existing_match _ _)); [intros; apply He; by left|].
  intros r w1 Hw1 (o & -> & Hex). specialize (Hex Hd).
  unfold deposit_audited in He, Ho. pose proof (leads_db _ _ _ Hw1) as Hd1.
  destruct o as [[n h]|].
  - rewrite (proj1 Hex (ex_intro _ _ eq_refl)) in He. apply wp_bind, wp_inc; rewrite Hd1.
    + intros e w' [Hh|Hn] _; [|done]. apply He. left. by eapply leads_sick.
    + intros w' Hl. apply wp_throw, He. right. split; [eauto|]. intros Hh. by apply Hl, Hw1.
  - destruct (existsb _ _) eqn:Eb; [by destruct (proj2 Hex eq_refl)|].
    apply wp_bind, (wp_query _ _ _ _ (query_mint_by_nonce _)).
    { intros f w' Hh _. apply He. left. by eapply leads_sick. }
    intros r w2 Hw2 ->; [|rewrite Hd1; apply Hd]. rewrite Hd1 in *.
    pose proof (leads_trans _ _ _ _ _ Hw1 Hw2) as Hw. apply wp_bind, wp_lift.
    unfold GnosisSafeDeposit.expected_mc_mint_tx_nonce_hex. fold (mint_for (w_db w) x).
    destruct (mint_for (w_db w) x) as [m|] eqn:Em; simpl.
    2: { apply He. right. split; [done|apply Hw]. }
    apply find_Some_elem in Em as [Hm _]. apply wp_bind, wp_lift.
    destruct (verify_mint_cases m x config) as [Ev|(e & Ev & _)]; rewrite Ev in *.
    2: { apply He. right. split; [done|apply Hw]. }
    pose proof (stored_has_id _ _ (ok_mint_txs _ Hd) Hm) as (mid & Emid & _). simpl in Emid.
    unfold MintTx.id. rewrite Emid. pose proof (leads_db _ _ _ Hw) as Hdw.
    apply wp_bind, (wp_associate_mint mid did m x); rewrite ?Hdw; try done.
    + intros e w' Hh. apply He. left. by eapply leads_sick.
    + intros w' Hl. apply wp_ret. eapply Ho; [done..|]. by eapply leads_trans.
Qed.

Lemma raises_match_deposit_body x config did :
  never_retries (AuditedMint.match_deposit_body x config did).
Proof.
  unfold AuditedMint.match_deposit_body, AuditedMint.existing_match,
    MintTx.find_unaudited_mint_tx_by_nonce, AuditedMint.associate_deposit_with_mint.
  solve_raises; apply raises_verify_mint.
Qed.

(** [try_match_deposit_with_mint] on a stored deposit: success records exactly
    the pair, and any other outcome leaves at most one counter changed. *)
Lemma wp_try_match_deposit x config Q w :
  integrity (w_db w) -> counters_ok (w_db w) -> x ∈ rows (w_db w) ->
  (forall e w', ~ healthy w ->
     w_db w' = w_db w \/ (exists e, w_db w' = bump_db (deposit_counter e) (w_db w)) -> Q (Err e) w') ->
  (forall e w', deposit_outcome (w_db w) config x (Err e) ->
     leads w (bump_db (deposit_counter e) (w_db w)) w' -> Q (Err e) w') ->
  (forall m mid did w', deposit_outcome (w_db w) config x (Ok m) -> m ∈ rows (w_db w) ->
     mt_id m = Some mid -> gsd_id x = Some did ->
     leads w (record_audited_mint (w_db w) mid did) w' -> Q (Ok m) w') ->
  wp (AuditedMint.try_match_deposit_with_mint x config) Q w.
Proof.
  intros Hd Hc Hx Hf He Ho. unfold AuditedMint.try_match_deposit_with_mint.
  apply (wp_count_errors _ _ deposit_counter (fun e => deposit_outcome (w_db w) config x (Err e)));
    [done|by intros []|done| |done|done].
  unfold AuditedMint.match_deposit_result.
  pose proof (stored_has_id _ _ (ok_gnosis_safe_deposits _ Hd) Hx) as (did & Ex & _). simpl in Ex.
  apply wp_bind, wp_lift. unfold GnosisSafeDeposit.id. rewrite Ex. simpl.
  unfold GnosisSafeDeposit.safe_addr.
  destruct (EthAddr.eqb _ _) eqn:Ea; simpl.
  - apply wp_transaction; [apply raises_match_deposit_body| |].
    { intros f w' Hh Hl. split; [by apply leads_db in Hl|by left]. }
    intros w1 Hw1. pose proof (leads_db _ _ _ Hw1) as Hd1.
    apply wp_match_deposit_body; rewrite ?Hd1; try done.
    + intros e w' Hor. split; [done|].
      destruct Hor as [Hh|[HP Hh]]; [left; by eapply leads_sick|right].
      split; [done|]. split; [done|]. intros H. by apply Hh, Hw1.
    + intros m mid w' Hout Hm Emid Hl. eapply Ho; [done..|]. by eapply leads_trans.
  - apply wp_throw. split; [done|]. right. split; [|by split].
    unfold deposit_outcome. rewrite Ex, Ea. simpl. eauto.
Qed.

(** *** Mints looking for their deposit *)
Definition mint_counter (e : Error) : CounterVar :=
  match e with
  | GnosisSafeNotAudited _ => num_mints_to_unknown_safe
  | DepositAndMintMismatch _ => num_mismatching_mints_and_deposits
  | EthereumTokenNotAudited _ _ _ => num_unknown_ethereum_token_deposits
  | _ => num_unexpected_errors_matching_mints_to_deposits
  end.

(** The nonce a deposit waits for is the one computed from its hash
    ([GnosisSafeDeposit::new] is the only constructor). *)
Definition nonces_derived d : Prop :=
  forall x, x ∈ rows d -> gsd_expected_mc_mint_tx_nonce_hex x =
    hex_encode (MintTxNonce.to_bytes (MintTxNonce.EthereumGnosisDeposit (gsd_eth_tx_hash x))).

(** The unaudited deposit that waits for the nonce of a mint. *)
Definition deposit_for d (m : MintTx) : option GnosisSafeDeposit :=
  List.find (fun x => String.eqb (gsd_expected_mc_mint_tx_nonce_hex x) (mt_nonce_hex m)
                      && GnosisSafeDeposit.unaudited d x) (rows d).

Definition mint_outcome d config (m : MintTx) (r : Res Error GnosisSafeDeposit) : Prop :=
  match mt_id m with
  | None => r = Err ObjectNotSaved
  | Some id =>
      if mint_audited d id then exists msg, r = Err (AlreadyExists msg)
      else match deposit_for d m with
           | None => r = Err NotFound
           | Some x =>
               match get_audited_safe_config_by_safe_addr config (gsd_safe_addr x) with
               | None => r = Err (GnosisSafeNotAudited (gsd_safe_addr x))
               | Some sc =>
                   match AuditedMint.verify_mint_tx_matches_deposit m x sc with
                   | Ok _ => r = Ok x
                   | Err e => r = Err e
                   | Panic _ => False
                   end
               end
           end
  end.

Context {L_hex : HexLaws}.

(** So no two stored deposits wait for the same nonce. *)
Lemma deposit_nonce_unique d x y :
  table_ok (gnosis_safe_deposits d) -> nonces_derived d -> x ∈ rows d -> y ∈ rows d ->
  gsd_expected_mc_mint_tx_nonce_hex x = gsd_expected_mc_mint_tx_nonce_hex y -> x = y.
Proof.
  intros Hd Hn Hx Hy E. rewrite !Hn in E by done. apply expected_nonce_hex_inj in E.
  apply rows_elem_of in Hx as [i Hi], Hy as [j Hj].
  assert ((i, x) = (j, y)) as [= _ ->]; [|done].
  eapply (ok_unique _ Hd); [done..|]. simpl. rewrite E. apply String.eqb_refl.
Qed.

Lemma query_deposit_by_nonce nonce :
  query (GnosisSafeDeposit.find_unaudited_deposit_by_nonce nonce) (fun d r =>
    table_ok (gnosis_safe_deposits d) -> nonces_derived d ->
    r = Ok (List.find (fun x => String.eqb (gsd_expected_mc_mint_tx_nonce_hex x) nonce
                                && GnosisSafeDeposit.unaudited d x) (rows d))).
Proof.
  eapply query_mono; [apply query_load_first_optional|]. simpl. intros d r -> Hd Hn. f_equal.
  rewrite filter_find.
  - destruct (List.find _ _); [by rewrite scan_singleton|by rewrite scan_nil].
  - by apply (rows_NoDup d).
  - intros x y Hx Hy [E%String.eqb_eq _]%andb_true_iff [E'%String.eqb_eq _]%andb_true_iff.
    apply (deposit_nonce_unique d); [done..|congruence].
Qed.

Lemma wp_match_mint_body m config mid Q w :
  integrity (w_db w) -> nonces_derived (w_db w) -> m ∈ rows (w_db w) -> mt_id m = Some mid ->
  (forall e w', ~ healthy w \/
     (mint_outcome (w_db w) config m (Err e) /\ (healthy w -> healthy w')) -> Q (Err e) w') ->
  (forall x did w', mint_outcome (w_db w) config m (Ok x) -> x ∈ rows (w_db w) ->
     gsd_id x = Some did -> leads w (record_audited_mint (w_db w) mid did) w' -> Q (Ok x) w') ->
  wp (AuditedMint.match_mint_body m config mid) Q w.
Proof.
  intros Hd Hn Hm Em He Ho. unfold mint_outcome in He, Ho. rewrite Em in He, Ho.
  apply wp_bind, (wp_query _ _ _ _ (query_existing_match _ _)); [intros; apply He; by left|].
  intros r w1 Hw1 (o & -> & Hex). specialize (Hex Hd).
  unfold mint_audited in He, Ho. pose proof (leads_db _ _ _ Hw1) as Hd1.
  destruct o as [[n h]|].
  - rewrite (proj1 Hex (ex_intro _ _ eq_refl)) in He.
    apply wp_throw, He. right. split; [by eauto|apply Hw1].
  - destruct (existsb _ _) eqn:Eb; [by destruct (proj2 Hex eq_refl)|].
    apply wp_bind, (wp_query _ _ _ _ (query_deposit_by_nonce _)).
    { intros f w' Hh _. apply He. left. by eapply leads_sick. }
    intros r w2 Hw2 Hr. rewrite Hd1 in *. rewrite Hr by (done || apply Hd). clear Hr.
    pose proof (leads_trans _ _ _ _ _ Hw1 Hw2) as Hw. apply wp_bind, wp_lift.
    unfold MintTx.nonce_hex. fold (deposit_for (w_db w) m).
    destruct (deposit_for (w_db w) m) as [x|] eqn:Ex; simpl.
    2: { apply He. right. split; [done|apply Hw]. }
    apply find_Some_elem in Ex as [Hx _]. apply wp_bind, wp_lift.
    unfold GnosisSafeDeposit.safe_addr in *.
    destruct (get_audited_safe_config_by_safe_addr _ _) as [sc|]; simpl.
    2: { apply He. right. split; [done|apply Hw]. }
    apply wp_bind, wp_lift.
    destruct (verify_mint_cases m x sc) as [Ev|(e & Ev & _)]; rewrite Ev in *.
    2: { apply He. right. split; [done|apply Hw]. }
    pose proof (stored_has_id _ _ (ok_gnosis_safe_deposits _ Hd) Hx) as (did & Edid & _).
    simpl in Edid. unfold GnosisSafeDeposit.id. rewrite Edid.
    pose proof (leads_db _ _ _ Hw) as Hdw.
    apply wp_bind, (wp_associate_mint mid did m x); rewrite ?Hdw; try done.
    + intros e w' Hh. apply He. left. by eapply leads_sick.
    + intros w' Hl. apply wp_ret. eapply Ho; [done..|]. by eapply leads_trans.
Qed.

Lemma raises_match_mint_body m config mid :
  never_retries (AuditedMint.match_mint_body m config mid).
Proof.
  unfold AuditedMint.match_mint_body, AuditedMint.existing_match,
    GnosisSafeDeposit.find_unaudited_deposit_by_nonce, AuditedMint.associate_deposit_with_mint.
  solve_raises; apply raises_verify_mint.
Qed.

Lemma wp_try_match_mint m config Q w :
  integrity (w_db w) -> nonces_derived (w_db w) -> counters_ok (w_db w) -> m ∈ rows (w_db w) ->
  (forall e w', ~ healthy w ->
     w_db w' = w_db w \/ (exists e, w_db w' = bump_db (mint_counter e) (w_db w)) -> Q (Err e) w') ->
  (forall e w', mint_outcome (w_db w) config m (Err e) ->
     leads w (bump_db (mint_counter e) (w_db w)) w' -> Q (Err e) w') ->
  (forall x mid did w', mint_outcome (w_db w) config m (Ok x) -> x ∈ rows (w_db w) ->
     mt_id m = Some mid -> gsd_id x = Some did ->
     leads w (record_audited_mint (w_db w) mid did) w' -> Q (Ok x) w') ->
  wp (AuditedMint.try_match_mint_with_deposit m config) Q w.
Proof.
  intros Hd Hn Hc Hm Hf He Ho. unfold AuditedMint.try_match_mint_with_deposit.
  apply (wp_count_errors _ _ mint_counter (fun e => mint_outcome (w_db w) config m (Err e)));
    [done|by intros []|done| |done|done].
  unfold AuditedMint.match_mint_result.
  pose proof (stored_has_id _ _ (ok_mint_txs _ Hd) Hm) as (mid & Em & _). simpl in Em.
  apply wp_bind, wp_lift. unfold MintTx.id. rewrite Em. simpl.
  apply wp_transaction; [apply raises_match_mint_body| |].
  { intros f w' Hh Hl. split; [by apply leads_db in Hl|by left]. }
  intros w1 Hw1. pose proof (leads_db _ _ _ Hw1) as Hd1.
  apply wp_match_mint_body; rewrite ?Hd1; try done.
  - intros e w' Hor. split; [done|].
    destruct Hor as [Hh|[HP Hh]]; [left; by eapply leads_sick|right].
    split; [done|]. split; [done|]. intros H. by apply Hh, Hw1.
  - intros x did w' Hout Hx Edid Hl. eapply Ho; [done..|]. by eapply leads_trans.
Qed.

(** *** What matching preserves *)
Definition mint_audits_sound (config : GnosisSafeConfig) d : Prop :=
  forall a, a ∈ rows (R := AuditedMint) d -> exists m x sc,
    m ∈ rows d /\ x ∈ rows d /\ sc ∈ gc_safes config /\
    mt_id m = Some (am_mint_tx_id a) /\ gsd_id x = Some (am_gnosis_safe_deposit_id a) /\
    mint_matches sc m x.

Lemma existsb_eqb_false {A} (f : A -> Z) l i :
  existsb (fun a => f a =? i) l = false <-> i ∉ f <$> l.
Proof.
  rewrite existsb_false, list_elem_of_fmap. split.
  - intros H (a & -> & Ha). specialize (H a Ha). by rewrite Z.eqb_refl in H.
  - intros H a Ha. apply Z.eqb_neq. intros <-. eauto.
Qed.

Lemma unaudited_mint_spec d m mid :
  mt_id m = Some mid -> MintTx.unaudited d m = negb (mint_audited d mid).
Proof.
  intros E. unfold MintTx.unaudited, mint_audited. f_equal. rewrite E.
  induction (rows d) as [|a l IH]; [done|]. simpl. rewrite IH. f_equal.
  apply eq_true_iff_eq. rewrite id_is_true, Z.eqb_eq. naive_solver.
Qed.

Lemma unaudited_deposit_spec d x did :
  gsd_id x = Some did -> GnosisSafeDeposit.unaudited d x = negb (deposit_audited d did).
Proof.
  intros E. unfold GnosisSafeDeposit.unaudited, deposit_audited. f_equal. rewrite E.
  induction (rows d) as [|a l IH]; [done|]. simpl. rewrite IH. f_equal.
  apply eq_true_iff_eq. rewrite id_is_true, Z.eqb_eq. naive_solver.
Qed.

Lemma rows_record_audited_mint d mid did :
  rows (record_audited_mint d mid did)
  = rows d ++ [mkAuditedMint (Some (next_rowid (audited_mints d))) mid did].
Proof. unfold record_audited_mint. by rewrite rows_db_insert. Qed.

Lemma record_audited_mint_one_to_one d mid did :
  mints_one_to_one d -> mint_audited d mid = false -> deposit_audited d did = false ->
  mints_one_to_one (record_audited_mint d mid did).
Proof.
  intros [Hm Hx] Em%existsb_eqb_false Ex%existsb_eqb_false. unfold mints_one_to_one.
  rewrite rows_record_audited_mint, !fmap_app. simpl.
  split; (apply NoDup_app; split_and!; [done| |by apply NoDup_singleton]);
    by intros i Hi ->%list_elem_of_singleton.
Qed.

(** The mint and the deposit of a successful match, from either side. *)
Definition matched_pair d (sc : AuditedSafeConfig) m x mid did : Prop :=
  m ∈ rows d /\ x ∈ rows d /\ mt_id m = Some mid /\ gsd_id x = Some did /\
  mint_audited d mid = false /\ deposit_audited d did = false /\ mint_matches sc m x.

Lemma deposit_outcome_ok d config x m mid did :
  deposit_outcome d config x (Ok m) -> x ∈ rows d -> m ∈ rows d ->
  mt_id m = Some mid -> gsd_id x = Some did -> matched_pair d config m x mid did.
Proof.
  unfold deposit_outcome. intros Hout Hx Hm Em Ex. rewrite Ex in Hout.
  destruct (negb _); [naive_solver|]. destruct (deposit_audited d did) eqn:Ed; [naive_solver|].
  destruct (mint_for d x) as [m'|] eqn:Ef; [|done].
  destruct (AuditedMint.verify_mint_tx_matches_deposit m' x config) as [[]| |] eqn:Ev; [|done..].
  injection Hout as <-. apply find_Some_elem in Ef as [_ [_ Hu]%andb_true_iff].
  rewrite (unaudited_mint_spec _ _ _ Em) in Hu. apply negb_true_iff in Hu.
  split_and!; try done. by apply verify_mint_ok.
Qed.

Lemma mint_outcome_ok d config m x mid did :
  mint_outcome d config m (Ok x) -> x ∈ rows d -> m ∈ rows d ->
  mt_id m = Some mid -> gsd_id x = Some did ->
  exists sc, get_audited_safe_config_by_safe_addr config (gsd_safe_addr x) = Some sc /\
    matched_pair d sc m x mid did.
Proof.
  unfold mint_outcome. intros Hout Hx Hm Em Ex. rewrite Em in Hout.
  destruct (mint_audited d mid) eqn:Ed; [naive_solver|].
  destruct (deposit_for d m) as [x'|] eqn:Ef; [|done].
  destruct (get_audited_safe_config_by_safe_addr config (gsd_safe_addr x')) as [sc|] eqn:Es; [|done].
  destruct (AuditedMint.verify_mint_tx_matches_deposit m x' sc) as [[]| |] eqn:Ev; [|done..].
  injection Hout as <-. apply find_Some_elem in Ef as [_ [_ Hu]%andb_true_iff].
  rewrite (unaudited_deposit_spec _ _ _ Ex) in Hu. apply negb_true_iff in Hu.
  exists sc. split; [done|]. split_and!; try done. by apply verify_mint_ok.
Qed.

(** A stored, unaudited pair that satisfies the checks is found from either
    side. *)
Lemma matched_pair_outcomes d config sc m x mid did :
  integrity d -> nonces_derived d -> matched_pair d sc m x mid did ->
  deposit_outcome d sc x (Ok m) /\
  (get_audited_safe_config_by_safe_addr config (gsd_safe_addr x) = Some sc ->
   mint_outcome d config m (Ok x)).
Proof.
  intros Hd Hn (Hm & Hx & Em & Ex & Am & Ax & Hmatch).
  pose proof (proj2 (verify_mint_ok _ _ _) Hmatch) as Ev.
  destruct Hmatch as (Ea & _ & Enonce & _). split.
  - unfold deposit_outcome. rewrite Ex, Ea, Ax. simpl.
    assert (mint_for d x = Some m) as ->; [|by rewrite Ev].
    unfold mint_for. pose proof (filter_find (fun m => String.eqb (mt_nonce_hex m)
      (gsd_expected_mc_mint_tx_nonce_hex x) && MintTx.unaudited d m) (rows d)) as Hf.
    assert (m ∈ List.filter (fun m => String.eqb (mt_nonce_hex m)
      (gsd_expected_mc_mint_tx_nonce_hex x) && MintTx.unaudited d m) (rows d)) as Hin.
    { apply elem_of_filter_bool. split; [done|].
      by rewrite Enonce, String.eqb_refl, (unaudited_mint_spec _ _ _ Em), Am. }
    rewrite Hf in Hin.
    + destruct (List.find _ _); [by apply list_elem_of_singleton in Hin as ->|set_solver].
    + apply rows_NoDup, Hd.
    + intros y z Hy Hz [E%String.eqb_eq _]%andb_true_iff [E'%String.eqb_eq _]%andb_true_iff.
      apply rows_elem_of in Hy as [i Hi], Hz as [j Hj].
      assert ((i, y) = (j, z)) as [= _ ->]; [|done].
      eapply (ok_unique _ (ok_mint_txs _ Hd)); [done..|]. simpl. rewrite E, E'. apply String.eqb_refl.
  - intros Hsc. unfold mint_outcome. rewrite Em, Am.
    assert (deposit_for d m = Some x) as ->; [|by rewrite Hsc, Ev].
    unfold deposit_for. pose proof (filter_find (fun x => String.eqb
      (gsd_expected_mc_mint_tx_nonce_hex x) (mt_nonce_hex m)
      && GnosisSafeDeposit.unaudited d x) (rows d)) as Hf.
    assert (x ∈ List.filter (fun x => String.eqb
      (gsd_expected_mc_mint_tx_nonce_hex x) (mt_nonce_hex m)
      && GnosisSafeDeposit.unaudited d x) (rows d)) as Hin.
    { apply elem_of_filter_bool. split; [done|].
      by rewrite Enonce, String.eqb_refl, (unaudited_deposit_spec _ _ _ Ex), Ax. }
    rewrite Hf in Hin.
    + destruct (List.find _ _); [by apply list_elem_of_singleton in Hin as ->|set_solver].
    + apply rows_NoDup, Hd.
    + intros y z Hy Hz [E%String.eqb_eq _]%andb_true_iff [E'%String.eqb_eq _]%andb_true_iff.
      apply (deposit_nonce_unique d); [apply Hd|done..|congruence].
Qed.
End mint_matching.
