(* ===== verification/AuditedBurns.v ===== *)
(** * [src/db/models/audited_burn.rs]

    The records that tie a burn on the MobileCoin blockchain to the withdrawal
    from a Gnosis safe that it permits.  Unlike deposits and mints, several
    withdrawals may name the same burn. *)

From S2P Require Import Prelude Externals Concrete GnosisTypes Errors Schema Database.
From S2P Require Import CountersModel Mints Burns GnosisConfig GnosisRows AuditedMints.

Section audited_burn_join.
Context {X_chrono : Chrono} {X_hex : Hex}.

(** [audited_burns INNER JOIN burn_tx_outs INNER JOIN gnosis_safe_withdrawals]. *)
Definition joined_audited_burns (d : Db) : list (AuditedBurn * BurnTxOut * GnosisSafeWithdrawal) :=
  a ← rows (R := AuditedBurn) d;
  b ← List.filter (fun b => id_is (bto_id b) (ab_burn_tx_out_id a)) (rows (R := BurnTxOut) d);
  x ← List.filter (fun x => id_is (gsw_id x) (ab_gnosis_safe_withdrawal_id a))
        (rows (R := GnosisSafeWithdrawal) d);
  [(a, b, x)].
End audited_burn_join.

Module AuditedBurn.
Section operations.
Context {X_chrono : Chrono} {X_sqlite : Sqlite} {X_hex : Hex} {X_mc : MobileCoin} {X_url : UrlLib}.

(** [AuditedBurn::verify_burn_tx_out_matches_withdrawal]. *)
Definition verify_burn_tx_out_matches_withdrawal (burn_tx_out : BurnTxOut)
    (withdrawal : GnosisSafeWithdrawal) (config : AuditedSafeConfig) : Res Error unit :=
  if negb (EthAddr.eqb (GnosisSafeWithdrawal.safe_addr withdrawal) (sc_safe_addr config)) then
    Err (Other ("Gnosis safe withdrawal addr "
      +:+ EthAddr.display (GnosisSafeWithdrawal.safe_addr withdrawal)
      +:+ " does not match audited safe addr " +:+ EthAddr.display (sc_safe_addr config)))
  else
    audited_token ← ok_or
      (EthereumTokenNotAudited (GnosisSafeWithdrawal.token_addr withdrawal)
         (GnosisSafeWithdrawal.safe_addr withdrawal) (GnosisSafeWithdrawal.eth_tx_hash withdrawal))
      (get_token_by_eth_contract_addr config (GnosisSafeWithdrawal.token_addr withdrawal));
    if negb (tok_token_id audited_token =? BurnTxOut.token_id burn_tx_out) then
      Err (WithdrawalAndBurnMismatch
        ("BurnTxOut token_id=" +:+ token_id_display (BurnTxOut.token_id burn_tx_out)
         +:+ " does not match audited token_id=" +:+ token_id_display (tok_token_id audited_token)
         +:+ " (pubkey=" +:+ GnosisSafeWithdrawal.mc_tx_out_public_key_hex withdrawal +:+ ")"))
    else if negb (String.eqb (BurnTxOut.public_key_hex burn_tx_out)
                    (GnosisSafeWithdrawal.mc_tx_out_public_key_hex withdrawal)) then
      Err (WithdrawalAndBurnMismatch ("BurnTxOut pubkey " +:+ BurnTxOut.public_key_hex burn_tx_out
        +:+ " does not match expected pubkey "
        +:+ GnosisSafeWithdrawal.mc_tx_out_public_key_hex withdrawal))
    else if negb (BurnTxOut.amount burn_tx_out =? GnosisSafeWithdrawal.amount withdrawal) then
      Err (WithdrawalAndBurnMismatch
        ("BurnTxOut amount=" +:+ pretty (BurnTxOut.amount burn_tx_out)
         +:+ " does not match GnosisSafewithdrawal amount="
         +:+ pretty (GnosisSafeWithdrawal.amount withdrawal)
         +:+ " (pubkey=" +:+ GnosisSafeWithdrawal.mc_tx_out_public_key_hex withdrawal +:+ ")"))
    else Ok tt.

(** [AuditedBurn::associate_withdrawal_with_burn]. *)
Definition associate_withdrawal_with_burn (gnosis_safe_withdrawal_id burn_tx_out_id : Z) : App unit :=
  exec (insert_into (mkAuditedBurn None burn_tx_out_id gnosis_safe_withdrawal_id)).

(** The query for an existing match, by a column of [audited_burns]. *)
Definition existing_match (column : AuditedBurn -> Z) (id : Z) : App (option (string * string)) :=
  exec (optional (load_first (fun d =>
    (fun x => (bto_public_key_hex x.1.2, SqlEthTxHash_to_sql (gsw_eth_tx_hash x.2))) <$>
      List.filter (fun x => column x.1.1 =? id) (joined_audited_burns d)))).

(** The transaction of [AuditedBurn::try_match_withdrawal_with_burn]. *)
Definition match_withdrawal_body (withdrawal : GnosisSafeWithdrawal) (config : AuditedSafeConfig)
    (withdrawal_id : Z) : App BurnTxOut :=
  existing ← existing_match ab_gnosis_safe_withdrawal_id withdrawal_id;
  match existing with
  | Some (public_key_hex, eth_tx_hash) =>
      throw (AlreadyExists ("GnosisSafeWithdrawal eth_tx_hash=" +:+ eth_tx_hash
               +:+ " already matched with BurnTxOut pub_key=" +:+ public_key_hex))
  | None =>
      found ← BurnTxOut.find_unaudited_burn_tx_out_by_public_key
                (GnosisSafeWithdrawal.mc_tx_out_public_key_hex withdrawal);
      burn_tx_out ← lift (ok_or NotFound found);
      _ ← lift (verify_burn_tx_out_matches_withdrawal burn_tx_out withdrawal config);
      match BurnTxOut.id burn_tx_out with
      | None => panic "got a BurnTxOut without id but database auto-populates that field"
      | Some burn_tx_out_id =>
          _ ← associate_withdrawal_with_burn withdrawal_id burn_tx_out_id;
          mret burn_tx_out
      end
  end.

Definition match_withdrawal_result (withdrawal : GnosisSafeWithdrawal) (config : AuditedSafeConfig)
  : App BurnTxOut :=
  withdrawal_id ← lift (ok_or ObjectNotSaved (GnosisSafeWithdrawal.id withdrawal));
  if negb (EthAddr.eqb (GnosisSafeWithdrawal.safe_addr withdrawal) (sc_safe_addr config)) then
    throw (Other ("Gnosis safe withdrawal addr "
      +:+ EthAddr.display (GnosisSafeWithdrawal.safe_addr withdrawal)
      +:+ " does not match audited safe addr " +:+ EthAddr.display (sc_safe_addr config)))
  else transaction (match_withdrawal_body withdrawal config withdrawal_id).

(** [AuditedBurn::try_match_withdrawal_with_burn]. *)
Definition try_match_withdrawal_with_burn (withdrawal : GnosisSafeWithdrawal)
    (config : AuditedSafeConfig) : App BurnTxOut :=
  result ← attempt (match_withdrawal_result withdrawal config);
  _ ← match result with
      | Ok _ => mret tt
      | Err (WithdrawalAndBurnMismatch _) => Counters.inc num_mismatching_burns_and_withdrawals
      | Err (EthereumTokenNotAudited _ _ _) => Counters.inc num_unknown_ethereum_token_withdrawals
      | Err _ => Counters.inc num_unexpected_errors_matching_withdrawals_to_burns
      | Panic _ => mret tt
      end;
  lift result.

(** The transaction of [AuditedBurn::try_match_burn_with_withdrawal]. *)
Definition match_burn_body (burn_tx_out : BurnTxOut) (config : GnosisSafeConfig)
    (burn_tx_out_id : Z) : App GnosisSafeWithdrawal :=
  existing ← existing_match ab_burn_tx_out_id burn_tx_out_id;
  match existing with
  | Some (public_key_hex, eth_tx_hash) =>
      throw (AlreadyExists ("BurnTxOut pub_key=" +:+ public_key_hex
               +:+ " already matched with GnosisSafeDeposit eth_tx_hash=" +:+ eth_tx_hash))
  | None =>
      found ← GnosisSafeWithdrawal.find_unaudited_withdrawal_by_public_key
                (BurnTxOut.public_key_hex burn_tx_out);
      withdrawal ← lift (ok_or NotFound found);
      audited_safe_config ← lift (ok_or
        (GnosisSafeNotAudited (GnosisSafeWithdrawal.safe_addr withdrawal))
        (get_audited_safe_config_by_safe_addr config (GnosisSafeWithdrawal.safe_addr withdrawal)));
      _ ← lift (verify_burn_tx_out_matches_withdrawal burn_tx_out withdrawal audited_safe_config);
      match GnosisSafeWithdrawal.id withdrawal with
      | None => panic "got a GnosisSafeWithdrawal without id but database auto-populates that field"
      | Some withdrawal_id =>
          _ ← associate_withdrawal_with_burn withdrawal_id burn_tx_out_id;
          mret withdrawal
      end
  end.

Definition match_burn_result (burn_tx_out : BurnTxOut) (config : GnosisSafeConfig)
  : App GnosisSafeWithdrawal :=
  burn_tx_out_id ← lift (ok_or ObjectNotSaved (BurnTxOut.id burn_tx_out));
  transaction (match_burn_body burn_tx_out config burn_tx_out_id).

(** [AuditedBurn::try_match_burn_with_withdrawal]. *)
Definition try_match_burn_with_withdrawal (burn_tx_out : BurnTxOut) (config : GnosisSafeConfig)
  : App GnosisSafeWithdrawal :=
  result ← attempt (match_burn_result burn_tx_out config);
  _ ← match result with
      | Ok _ => mret tt
      | Err (GnosisSafeNotAudited _) => Counters.inc num_burns_from_unknown_safe
      | Err (WithdrawalAndBurnMismatch _) => Counters.inc num_mismatching_burns_and_withdrawals
      | Err (EthereumTokenNotAudited _ _ _) => Counters.inc num_unknown_ethereum_token_withdrawals
      | Err _ => Counters.inc num_unexpected_errors_matching_burns_to_withdrawals
      | Panic _ => mret tt
      end;
  lift result.

(** [AuditedBurn::list_with_burn_and_withdrawal]. *)
Definition list_with_burn_and_withdrawal (offset limit : option Z)
  : App (list (AuditedBurn * BurnTxOut * GnosisSafeWithdrawal)) :=
  exec (AuditedMint.load_page (fun x => default 0 (ab_id x.1.1)) joined_audited_burns offset limit).
End operations.
End AuditedBurn.

(** ** The specification of matching *)
Section burn_matching.
Context {X_chrono : Chrono} {X_sqlite : Sqlite} {L_sqlite : SqliteLaws}.
Context {X_hex : Hex} {X_mc : MobileCoin} {X_url : UrlLib}.
Implicit Types (w : World) (d : Db).

(** What [verify_burn_tx_out_matches_withdrawal] accepts. *)
Definition burn_matches (config : AuditedSafeConfig) (b : BurnTxOut) (x : GnosisSafeWithdrawal) : Prop :=
  EthAddr.eqb (gsw_safe_addr x) (sc_safe_addr config) = true /\
  (exists token, get_token_by_eth_contract_addr config (gsw_token_addr x) = Some token /\
     tok_token_id token = BurnTxOut.token_id b) /\
  bto_public_key_hex b = gsw_mc_tx_out_public_key_hex x /\
  BurnTxOut.amount b = GnosisSafeWithdrawal.amount x.

Lemma verify_burn_ok b x config :
  AuditedBurn.verify_burn_tx_out_matches_withdrawal b x config = Ok tt <-> burn_matches config b x.
Proof.
  unfold AuditedBurn.verify_burn_tx_out_matches_withdrawal, burn_matches,
    GnosisSafeWithdrawal.safe_addr, GnosisSafeWithdrawal.token_addr,
    GnosisSafeWithdrawal.mc_tx_out_public_key_hex, BurnTxOut.public_key_hex.
  destruct (EthAddr.eqb _ _); simpl; [|naive_solver].
  destruct (get_token_by_eth_contract_addr _ _) as [tok|]; simpl; [|naive_solver].
  destruct (Z.eqb_spec (tok_token_id tok) (BurnTxOut.token_id b)) as [Et|]; simpl; [|naive_solver].
  destruct (String.eqb_spec (bto_public_key_hex b) (gsw_mc_tx_out_public_key_hex x)); simpl;
    [|naive_solver].
  destruct (Z.eqb_spec (BurnTxOut.amount b) (GnosisSafeWithdrawal.amount x)); simpl; naive_solver.
Qed.

Lemma verify_burn_cases b x config :
  AuditedBurn.verify_burn_tx_out_matches_withdrawal b x config = Ok tt \/
  (exists e, AuditedBurn.verify_burn_tx_out_matches_withdrawal b x config = Err e /\ no_retry e).
Proof.
  unfold AuditedBurn.verify_burn_tx_out_matches_withdrawal.
  destruct (EthAddr.eqb _ _); simpl; [|by right; eexists].
  destruct (get_token_by_eth_contract_addr _ _) as [tok|]; simpl; [|by right; eexists].
  destruct (_ =? _); simpl; [|by right; eexists].
  destruct (String.eqb _ _); simpl; [|by right; eexists].
  destruct (_ =? _); simpl; [by left|by right; eexists].
Qed.

Lemma raises_verify_burn b x config :
  never_retries (lift (AuditedBurn.verify_burn_tx_out_matches_withdrawal b x config) : App unit).
Proof.
  apply raises_lift. destruct (verify_burn_cases b x config) as [->|(e & -> & He)]; [done|].
  by intros e' [= <-].
Qed.

(** Each burn and each withdrawal is audited at most once. *)
Definition burns_one_to_one d : Prop :=
  NoDup (ab_burn_tx_out_id <$> rows d) /\ NoDup (ab_gnosis_safe_withdrawal_id <$> rows d).

Definition withdrawal_audited d (id : Z) : bool :=
  existsb (fun a => ab_gnosis_safe_withdrawal_id a =? id) (rows d).
Definition burn_audited d (id : Z) : bool :=
  existsb (fun a => ab_burn_tx_out_id a =? id) (rows d).

Lemma joined_burns_elem d column i :
  integrity d ->
  existsb (fun a => column a =? i) (rows d) = true <->
  exists y, y ∈ List.filter (fun x => column x.1.1 =? i) (joined_audited_burns d).
Proof.
  intros Hd. rewrite existsb_exists_elem. split.
  - intros (a & Ha & Ea). pose proof Ha as [j Hj]%rows_elem_of.
    pose proof (fk_audited_burns _ Hd _ Hj) as Hk. simpl in Hk.
    apply andb_true_iff in Hk as [Hb Hx].
    destruct (has_id_stored (R := BurnTxOut) d _ (ok_burn_tx_outs _ Hd) Hb) as (b & Hb' & Eb).
    destruct (has_id_stored d _ (ok_gnosis_safe_withdrawals _ Hd) Hx) as (x & Hx' & Ex).
    exists (a, b, x). apply elem_of_filter_bool. split; [|done].
    unfold joined_audited_burns. apply list_elem_of_bind. exists a. split; [|done].
    apply list_elem_of_bind. exists b. split; [|by apply elem_of_filter_bool; rewrite id_is_true].
    apply list_elem_of_bind. exists x. split; [by left|].
    by apply elem_of_filter_bool; rewrite id_is_true.
  - intros ([[a b] x] & [Hj Ha]%elem_of_filter_bool). exists a. split; [|done].
    unfold joined_audited_burns in Hj. apply list_elem_of_bind in Hj as (a' & Hj & Ha').
    apply list_elem_of_bind in Hj as (m' & Hj & _). apply list_elem_of_bind in Hj as (x' & Hj & _).
    apply list_elem_of_singleton in Hj. by simplify_eq.
Qed.

Lemma query_existing_burn_match column i :
  query (AuditedBurn.existing_match column i) (fun d r => exists o, r = Ok o /\
    (integrity d -> is_Some o <-> existsb (fun a => column a =? i) (rows d) = true)).
Proof.
  eapply query_mono; [apply query_load_first_optional|]. simpl. intros d r ->.
  eexists. split; [done|]. intros Hd. rewrite joined_burns_elem by done.
  set (q := List.filter _ _). destruct (head _) as [y|] eqn:E.
  - split; [|eauto]. intros _. apply scan_head, list_elem_of_fmap in E as (z & _ & Hz). eauto.
  - split; [by intros []|]. intros [z Hz]. apply scan_head_None, fmap_nil_inv in E.
    rewrite E in Hz. by apply elem_of_nil in Hz.
Qed.

(** *** Withdrawals looking for their burn *)
Definition withdrawal_counter (e : Error) : CounterVar :=
  match e with
  | WithdrawalAndBurnMismatch _ => num_mismatching_burns_and_withdrawals
  | EthereumTokenNotAudited _ _ _ => num_unknown_ethereum_token_withdrawals
  | _ => num_unexpected_errors_matching_withdrawals_to_burns
  end.

(** The unaudited burn whose public key a withdrawal names. *)
Definition burn_for d (x : GnosisSafeWithdrawal) : option BurnTxOut :=
  List.find (fun b => String.eqb (bto_public_key_hex b) (gsw_mc_tx_out_public_key_hex x)
                      && BurnTxOut.unaudited d b) (rows d).

Definition withdrawal_outcome d config (x : GnosisSafeWithdrawal) (r : Res Error BurnTxOut) : Prop :=
  match gsw_id x with
  | None => r = Err ObjectNotSaved
  | Some id =>
      if negb (EthAddr.eqb (gsw_safe_addr x) (sc_safe_addr config)) then
        exists msg, r = Err (Other msg)
      else if withdrawal_audited d id then exists msg, r = Err (AlreadyExists msg)
      else match burn_for d x with
           | None => r = Err NotFound
           | Some b =>
               match AuditedBurn.verify_burn_tx_out_matches_withdrawal b x config with
               | Ok _ => r = Ok b
               | Err e => r = Err e
               | Panic _ => False
               end
           end
  end.

(** The database with the pair recorded. *)
Definition record_audited_burn d (burn_id withdrawal_id : Z) : Db :=
  db_insert (next_rowid (audited_burns d)) (mkAuditedBurn None burn_id withdrawal_id) d.

Lemma query_burn_by_key key :
  query (BurnTxOut.find_unaudited_burn_tx_out_by_public_key key) (fun d r =>
    table_ok (burn_tx_outs d) ->
    r = Ok (List.find (fun b => String.eqb (bto_public_key_hex b) key && BurnTxOut.unaudited d b)
              (rows d))).
Proof.
  eapply query_mono; [apply query_load_first_optional|]. simpl. intros d r -> Hd. f_equal.
  rewrite filter_find.
  - destruct (List.find _ _); [by rewrite scan_singleton|by rewrite scan_nil].
  - by apply (rows_NoDup d).
  - intros m m' Hm Hm' [E%String.eqb_eq _]%andb_true_iff [E'%String.eqb_eq _]%andb_true_iff.
    apply rows_elem_of in Hm as [i Hi], Hm' as [j Hj].
    assert ((i, m) = (j, m')) as [= _ ->]; [|done].
    eapply (ok_unique _ Hd); [done..|]. simpl. rewrite E, E'. apply String.eqb_refl.
Qed.

Lemma audited_burn_insertable d b x bid wid :
  integrity d -> b ∈ rows d -> x ∈ rows d -> bto_id b = Some bid -> gsw_id x = Some wid ->
  insertable d (next_rowid (audited_burns d)) (mkAuditedBurn None bid wid).
Proof.
  intros Hd Hb Hx Eb Ex. split; [done|apply next_rowid_fresh|done|]. simpl.
  destruct (stored_has_id _ _ (ok_burn_tx_outs _ Hd) Hb) as (i & Ei & Hi).
  destruct (stored_has_id _ _ (ok_gnosis_safe_withdrawals _ Hd) Hx) as (j & Ej & Hj).
  simpl in *. apply andb_true_iff. split; congruence.
Qed.

Lemma wp_associate_burn bid wid b x Q w :
  integrity (w_db w) -> b ∈ rows (w_db w) -> x ∈ rows (w_db w) ->
  bto_id b = Some bid -> gsw_id x = Some wid ->
  (forall e w', ~ healthy w -> Q (Err e) w') ->
  (forall w', leads w (record_audited_burn (w_db w) bid wid) w' -> Q (Ok tt) w') ->
  wp (AuditedBurn.associate_withdrawal_with_burn wid bid) Q w.
Proof.
  intros Hd Hb Hx Eb Ex He Ho.
  pose proof (audited_burn_insertable _ _ _ _ _ Hd Hb Hx Eb Ex) as Hi.
  apply wp_exec, wp_insert_into.
  - intros e w' [Hh|Hn] _ _; [by apply He|]. by destruct (Hn _ Hi).
  - intros i w' [-> _ _ _] Hl _. by apply Ho.
Qed.

Lemma wp_match_withdrawal_body x config wid Q w :
  integrity (w_db w) -> x ∈ rows (w_db w) -> gsw_id x = Some wid ->
  EthAddr.eqb (gsw_safe_addr x) (sc_safe_addr config) = true ->
  (forall e w', ~ healthy w \/
     (withdrawal_outcome (w_db w) config x (Err e) /\ (healthy w -> healthy w')) -> Q (Err e) w') ->
  (forall b bid w', withdrawal_outcome (w_db w) config x (Ok b) -> b ∈ rows (w_db w) ->
     bto_id b = Some bid -> leads w (record_audited_burn (w_db w) bid wid) w' -> Q (Ok b) w') ->
  wp (AuditedBurn.match_withdrawal_body x config wid) Q w.
Proof.
  intros Hd Hx Ex Ea He Ho. unfold withdrawal_outcome in He, Ho. rewrite Ex, Ea in He, Ho.
  simpl in He, Ho.
  apply wp_bind, (wp_query _ _ _ _ (query_existing_burn_match _ _)); [intros; apply He; by left|].
  intros r w1 Hw1 (o & -> & Hex). specialize (Hex Hd).
  unfold withdrawal_audited in He, Ho. pose proof (leads_db _ _ _ Hw1) as Hd1.
  destruct o as [[n h]|].
  - rewrite (proj1 Hex (ex_intro _ _ eq_refl)) in He.
    apply wp_throw, He. right. split; [by eauto|apply Hw1].
  - destruct (existsb _ _) eqn:Eb; [by destruct (proj2 Hex eq_refl)|].
    apply wp_bind, (wp_query _ _ _ _ (query_burn_by_key _)).
    { intros f w' Hh _. apply He. left. by eapply leads_sick. }
    intros r w2 Hw2 ->; [|rewrite Hd1; apply Hd]. rewrite Hd1 in *.
    pose proof (leads_trans _ _ _ _ _ Hw1 Hw2) as Hw. apply wp_bind, wp_lift.
    unfold GnosisSafeWithdrawal.mc_tx_out_public_key_hex. fold (burn_for (w_db w) x).
    destruct (burn_for (w_db w) x) as [b|] eqn:Em; simpl.
    2: { apply He. right. split; [done|apply Hw]. }
    apply find_Some_elem in Em as [Hb _]. apply wp_bind, wp_lift.
    destruct (verify_burn_cases b x config) as [Ev|(e & Ev & _)]; rewrite Ev in *.
    2: { apply He. right. split; [done|apply Hw]. }
    pose proof (stored_has_id _ _ (ok_burn_tx_outs _ Hd) Hb) as (bid & Ebid & _). simpl in Ebid.
    unfold BurnTxOut.id. rewrite Ebid. pose proof (leads_db _ _ _ Hw) as Hdw.
    apply wp_bind, (wp_associate_burn bid wid b x); rewrite ?Hdw; try done.
    + intros e w' Hh. apply He. left. by eapply leads_sick.
    + intros w' Hl. apply wp_ret. eapply Ho; [done..|]. by eapply leads_trans.
Qed.

Lemma raises_match_withdrawal_body x config wid :
  never_retries (AuditedBurn.match_withdrawal_body x config wid).
Proof.
  unfold AuditedBurn.match_withdrawal_body, AuditedBurn.existing_match,
    BurnTxOut.find_unaudited_burn_tx_out_by_public_key, AuditedBurn.associate_withdrawal_with_burn.
  solve_raises; apply raises_verify_burn.
Qed.

(** [try_match_withdrawal_with_burn] on a stored withdrawal. *)
Lemma wp_try_match_withdrawal x config Q w :
  integrity (w_db w) -> counters_ok (w_db w) -> x ∈ rows (w_db w) ->
  (forall e w', ~ healthy w ->
     w_db w' = w_db w \/ (exists e, w_db w' = bump_db (withdrawal_counter e) (w_db w)) -> Q (Err e) w') ->
  (forall e w', withdrawal_outcome (w_db w) config x (Err e) ->
     leads w (bump_db (withdrawal_counter e) (w_db w)) w' -> Q (Err e) w') ->
  (forall b bid wid w', withdrawal_outcome (w_db w) config x (Ok b) -> b ∈ rows (w_db w) ->
     bto_id b = Some bid -> gsw_id x = Some wid ->
     leads w (record_audited_burn (w_db w) bid wid) w' -> Q (Ok b) w') ->
  wp (AuditedBurn.try_match_withdrawal_with_burn x config) Q w.
Proof.
  intros Hd Hc Hx Hf He Ho. unfold AuditedBurn.try_match_withdrawal_with_burn.
  apply (wp_count_errors _ _ withdrawal_counter
    (fun e => withdrawal_outcome (w_db w) config x (Err e)));
    [done|by intros []|done| |done|done].
  unfold AuditedBurn.match_withdrawal_result.
  pose proof (stored_has_id _ _ (ok_gnosis_safe_withdrawals _ Hd) Hx) as (wid & Ex & _).
  simpl in Ex. apply wp_bind, wp_lift. unfold GnosisSafeWithdrawal.id. rewrite Ex. simpl.
  unfold GnosisSafeWithdrawal.safe_addr.
  destruct (EthAddr.eqb _ _) eqn:Ea; simpl.
  - apply wp_transaction; [apply raises_match_withdrawal_body| |].
    { intros f w' Hh Hl. split; [by apply leads_db in Hl|by left]. }
    intros w1 Hw1. pose proof (leads_db _ _ _ Hw1) as Hd1.
    apply wp_match_withdrawal_body; rewrite ?Hd1; try done.
    + intros e w' Hor. split; [done|].
      destruct Hor as [Hh|[HP Hh]]; [left; by eapply leads_sick|right].
      split; [done|]. split; [done|]. intros H. by apply Hh, Hw1.
    + intros m mid w' Hout Hm Emid Hl. eapply Ho; [done..|]. by eapply leads_trans.
  - apply wp_throw. split; [done|]. right. split; [|by split].
    unfold withdrawal_outcome. rewrite Ex, Ea. simpl. eauto.
Qed.

(** *** Burns looking for their withdrawal *)
Definition burn_counter (e : Error) : CounterVar :=
  match e with
  | GnosisSafeNotAudited _ => num_burns_from_unknown_safe
  | WithdrawalAndBurnMismatch _ => num_mismatching_burns_and_withdrawals
  | EthereumTokenNotAudited _ _ _ => num_unknown_ethereum_token_withdrawals
  | _ => num_unexpected_errors_matching_burns_to_withdrawals
  end.

(** An unaudited withdrawal that names the burn; there may be several. *)
Definition candidate_withdrawal d (b : BurnTxOut) (x : GnosisSafeWithdrawal) : Prop :=
  x ∈ rows d /\ gsw_mc_tx_out_public_key_hex x = bto_public_key_hex b /\
  GnosisSafeWithdrawal.unaudited d x = true.

(** SQLite picks one of the candidates, and the outcome is that candidate's. *)
Definition burn_outcome d config (b : BurnTxOut) (r : Res Error GnosisSafeWithdrawal) : Prop :=
  match bto_id b with
  | None => r = Err ObjectNotSaved
  | Some id =>
      if burn_audited d id then exists msg, r = Err (AlreadyExists msg)
      else
        (r = Err NotFound /\ forall x, ~ candidate_withdrawal d b x) \/
        exists x, candidate_withdrawal d b x /\
          match get_audited_safe_config_by_safe_addr config (gsw_safe_addr x) with
          | None => r = Err (GnosisSafeNotAudited (gsw_safe_addr x))
          | Some sc =>
              match AuditedBurn.verify_burn_tx_out_matches_withdrawal b x sc with
              | Ok _ => r = Ok x
              | Err e => r = Err e
              | Panic _ => False
              end
          end
  end.

Lemma query_withdrawal_by_key b :
  query (GnosisSafeWithdrawal.find_unaudited_withdrawal_by_public_key (bto_public_key_hex b))
    (fun d r => exists o, r = Ok o /\
       match o with
       | Some x => candidate_withdrawal d b x
       | None => forall x, ~ candidate_withdrawal d b x
       end).
Proof.
  eapply query_mono; [apply query_load_first_optional|]. simpl. intros d r ->.
  eexists. split; [done|]. set (q := List.filter _ _).
  assert (forall x, x ∈ q <-> candidate_withdrawal d b x) as Hq.
  { intros x. unfold q, candidate_withdrawal.
    rewrite elem_of_filter_bool, andb_true_iff, String.eqb_eq. done. }
  destruct (head _) as [x|] eqn:E; [by apply scan_head in E; apply Hq|].
  apply scan_head_None in E. intros x Hx%Hq. rewrite E in Hx. by apply elem_of_nil in Hx.
Qed.

Lemma wp_match_burn_body b config bid Q w :
  integrity (w_db w) -> b ∈ rows (w_db w) -> bto_id b = Some bid ->
  (forall e w', ~ healthy w \/
     (burn_outcome (w_db w) config b (Err e) /\ (healthy w -> healthy w')) -> Q (Err e) w') ->
  (forall x wid w', burn_outcome (w_db w) config b (Ok x) -> x ∈ rows (w_db w) ->
     gsw_id x = Some wid -> leads w (record_audited_burn (w_db w) bid wid) w' -> Q (Ok x) w') ->
  wp (AuditedBurn.match_burn_body b config bid) Q w.
Proof.
  intros Hd Hb Eb He Ho. unfold burn_outcome in He, Ho. rewrite Eb in He, Ho.
  apply wp_bind, (wp_query _ _ _ _ (query_existing_burn_match _ _)); [intros; apply He; by left|].
  intros r w1 Hw1 (o & -> & Hex). specialize (Hex Hd).
  unfold burn_audited in He, Ho. pose proof (leads_db _ _ _ Hw1) as Hd1.
  destruct o as [[n h]|].
  - rewrite (proj1 Hex (ex_intro _ _ eq_refl)) in He.
    apply wp_throw, He. right. split; [by eauto|apply Hw1].
  - destruct (existsb _ _) eqn:Ebb; [by destruct (proj2 Hex eq_refl)|].
    apply wp_bind, (wp_query _ _ _ _ (query_withdrawal_by_key b)).
    { intros f w' Hh _. apply He. left. by eapply leads_sick. }
    intros r w2 Hw2 (o & -> & Hc). rewrite Hd1 in *.
    pose proof (leads_trans _ _ _ _ _ Hw1 Hw2) as Hw. apply wp_bind, wp_lift.
    destruct o as [x|]; simpl.
    2: { apply He. right. split; [by left|apply Hw]. }
    pose proof Hc as [Hx _].
    apply wp_bind, wp_lift. unfold GnosisSafeWithdrawal.safe_addr in *.
    destruct (get_audited_safe_config_by_safe_addr _ _) as [sc|] eqn:Esc; simpl.
    2: { apply He. right. split; [right; exists x; by rewrite Esc|apply Hw]. }
    apply wp_bind, wp_lift.
    destruct (verify_burn_cases b x sc) as [Ev|(e & Ev & _)]; rewrite Ev.
    2: { apply He. right. split; [right; exists x; by rewrite Esc, Ev|apply Hw]. }
    pose proof (stored_has_id _ _ (ok_gnosis_safe_withdrawals _ Hd) Hx) as (wid & Ewid & _).
    simpl in Ewid. unfold GnosisSafeWithdrawal.id. rewrite Ewid.
    pose proof (leads_db _ _ _ Hw) as Hdw.
    apply wp_bind, (wp_associate_burn bid wid b x); rewrite ?Hdw; try done.
    + intros e w' Hh. apply He. left. by eapply leads_sick.
    + intros w' Hl. apply wp_ret. eapply Ho; [right; exists x; by rewrite Esc, Ev|done..|].
      by eapply leads_trans.
Qed.

Lemma raises_match_burn_body b config bid :
  never_retries (AuditedBurn.match_burn_body b config bid).
Proof.
  unfold AuditedBurn.match_burn_body, AuditedBurn.existing_match,
    GnosisSafeWithdrawal.find_unaudited_withdrawal_by_public_key,
    AuditedBurn.associate_withdrawal_with_burn.
  solve_raises; apply raises_verify_burn.
Qed.

Lemma wp_try_match_burn b config Q w :
  integrity (w_db w) -> counters_ok (w_db w) -> b ∈ rows (w_db w) ->
  (forall e w', ~ healthy w ->
     w_db w' = w_db w \/ (exists e, w_db w' = bump_db (burn_counter e) (w_db w)) -> Q (Err e) w') ->
  (forall e w', burn_outcome (w_db w) config b (Err e) ->
     leads w (bump_db (burn_counter e) (w_db w)) w' -> Q (Err e) w') ->
  (forall x bid wid w', burn_outcome (w_db w) config b (Ok x) -> x ∈ rows (w_db w) ->
     bto_id b = Some bid -> gsw_id x = Some wid ->
     leads w (record_audited_burn (w_db w) bid wid) w' -> Q (Ok x) w') ->
  wp (AuditedBurn.try_match_burn_with_withdrawal b config) Q w.
Proof.
  intros Hd Hc Hb Hf He Ho. unfold AuditedBurn.try_match_burn_with_withdrawal.
  apply (wp_count_errors _ _ burn_counter (fun e => burn_outcome (w_db w) config b (Err e)));
    [done|by intros []|done| |done|done].
  unfold AuditedBurn.match_burn_result.
  pose proof (stored_has_id _ _ (ok_burn_tx_outs _ Hd) Hb) as (bid & Eb & _). simpl in Eb.
  apply wp_bind, wp_lift. unfold BurnTxOut.id. rewrite Eb. simpl.
  apply wp_transaction; [apply raises_match_burn_body| |].
  { intros f w' Hh Hl. split; [by apply leads_db in Hl|by left]. }
  intros w1 Hw1. pose proof (leads_db _ _ _ Hw1) as Hd1.
  apply wp_match_burn_body; rewrite ?Hd1; try done.
  - intros e w' Hor. split; [done|].
    destruct Hor as [Hh|[HP Hh]]; [left; by eapply leads_sick|right].
    split; [done|]. split; [done|]. intros H. by apply Hh, Hw1.
  - intros x wid w' Hout Hx Ewid Hl. eapply Ho; [done..|]. by eapply leads_trans.
Qed.

(** *** What matching preserves *)
Definition burn_audits_sound (config : GnosisSafeConfig) d : Prop :=
  forall a, a ∈ rows (R := AuditedBurn) d -> exists b x sc,
    b ∈ rows d /\ x ∈ rows d /\ sc ∈ gc_safes config /\
    bto_id b = Some (ab_burn_tx_out_id a) /\ gsw_id x = Some (ab_gnosis_safe_withdrawal_id a) /\
    burn_matches sc b x.

Lemma unaudited_burn_spec d b bid :
  bto_id b = Some bid -> BurnTxOut.unaudited d b = negb (burn_audited d bid).
Proof.
  intros E. unfold BurnTxOut.unaudited, burn_audited. f_equal. rewrite E.
  induction (rows d) as [|a l IH]; [done|]. simpl. rewrite IH. f_equal.
  apply eq_true_iff_eq. rewrite id_is_true, Z.eqb_eq. naive_solver.
Qed.

Lemma unaudited_withdrawal_spec d x wid :
  gsw_id x = Some wid -> GnosisSafeWithdrawal.unaudited d x = negb (withdrawal_audited d wid).
Proof.
  intros E. unfold GnosisSafeWithdrawal.unaudited, withdrawal_audited. f_equal. rewrite E.
  induction (rows d) as [|a l IH]; [done|]. simpl. rewrite IH. f_equal.
  apply eq_true_iff_eq. rewrite id_is_true, Z.eqb_eq. naive_solver.
Qed.

Lemma rows_record_audited_burn d bid wid :
  rows (record_audited_burn d bid wid)
  = rows d ++ [mkAuditedBurn (Some (next_rowid (audited_burns d))) bid wid].
Proof. unfold record_audited_burn. by rewrite rows_db_insert. Qed.

Lemma record_audited_burn_one_to_one d bid wid :
  burns_one_to_one d -> burn_audited d bid = false -> withdrawal_audited d wid = false ->
  burns_one_to_one (record_audited_burn d bid wid).
Proof.
  intros [Hb Hx] Eb%existsb_eqb_false Ex%existsb_eqb_false. unfold burns_one_to_one.
  rewrite rows_record_audited_burn, !fmap_app. simpl.
  split; (apply NoDup_app; split_and!; [done| |by apply NoDup_singleton]);
    by intros i Hi ->%list_elem_of_singleton.
Qed.

(** The burn and the withdrawal of a successful match, from either side. *)
Definition burned_pair d (sc : AuditedSafeConfig) b x bid wid : Prop :=
  b ∈ rows d /\ x ∈ rows d /\ bto_id b = Some bid /\ gsw_id x = Some wid /\
  burn_audited d bid = false /\ withdrawal_audited d wid = false /\ burn_matches sc b x.

Lemma withdrawal_outcome_ok d config x b bid wid :
  withdrawal_outcome d config x (Ok b) -> x ∈ rows d -> b ∈ rows d ->
  bto_id b = Some bid -> gsw_id x = Some wid -> burned_pair d config b x bid wid.
Proof.
  unfold withdrawal_outcome. intros Hout Hx Hb Eb Ex. rewrite Ex in Hout.
  destruct (negb _); [naive_solver|]. destruct (withdrawal_audited d wid) eqn:Ed; [naive_solver|].
  destruct (burn_for d x) as [b'|] eqn:Ef; [|done].
  destruct (AuditedBurn.verify_burn_tx_out_matches_withdrawal b' x config) as [[]| |] eqn:Ev; [|done..].
  injection Hout as <-. apply find_Some_elem in Ef as [_ [_ Hu]%andb_true_iff].
  rewrite (unaudited_burn_spec _ _ _ Eb) in Hu. apply negb_true_iff in Hu.
  split_and!; try done. by apply verify_burn_ok.
Qed.

Lemma burn_outcome_ok d config b x bid wid :
  burn_outcome d config b (Ok x) -> x ∈ rows d -> b ∈ rows d ->
  bto_id b = Some bid -> gsw_id x = Some wid ->
  exists sc, get_audited_safe_config_by_safe_addr config (gsw_safe_addr x) = Some sc /\
    burned_pair d sc b x bid wid.
Proof.
  unfold burn_outcome. intros Hout Hx Hb Eb Ex. rewrite Eb in Hout.
  destruct (burn_audited d bid) eqn:Ed; [naive_solver|].
  destruct Hout as [[[=] _]|(x' & (_ & _ & Hu) & Hout)].
  destruct (get_audited_safe_config_by_safe_addr config (gsw_safe_addr x')) as [sc|] eqn:Es; [|done].
  destruct (AuditedBurn.verify_burn_tx_out_matches_withdrawal b x' sc) as [[]| |] eqn:Ev; [|done..].
  injection Hout as <-.
  rewrite (unaudited_withdrawal_spec _ _ _ Ex) in Hu. apply negb_true_iff in Hu.
  exists sc. split; [done|]. split_and!; try done. by apply verify_burn_ok.
Qed.

(** A stored, unaudited pair that satisfies the checks is found from the
    withdrawal's side; from the burn's side when no other withdrawal names the
    burn. *)
Lemma burned_pair_outcomes d config sc b x bid wid :
  integrity d -> burned_pair d sc b x bid wid ->
  withdrawal_outcome d sc x (Ok b) /\
  (get_audited_safe_config_by_safe_addr config (gsw_safe_addr x) = Some sc ->
   burn_outcome d config b (Ok x) /\
   ((forall y, candidate_withdrawal d b y -> y = x) ->
    forall r, burn_outcome d config b r -> r = Ok x)).
Proof.
  intros Hd (Hb & Hx & Eb & Ex & Ab & Ax & Hmatch).
  pose proof (proj2 (verify_burn_ok _ _ _) Hmatch) as Ev.
  destruct Hmatch as (Ea & _ & Ekey & _).
  assert (candidate_withdrawal d b x) as Hcand.
  { split_and!; [done..|]. by rewrite (unaudited_withdrawal_spec _ _ _ Ex), Ax. }
  split.
  - unfold withdrawal_outcome. rewrite Ex, Ea, Ax. simpl.
    assert (burn_for d x = Some b) as ->; [|by rewrite Ev].
    unfold burn_for. pose proof (filter_find (fun b => String.eqb (bto_public_key_hex b)
      (gsw_mc_tx_out_public_key_hex x) && BurnTxOut.unaudited d b) (rows d)) as Hf.
    assert (b ∈ List.filter (fun b => String.eqb (bto_public_key_hex b)
      (gsw_mc_tx_out_public_key_hex x) && BurnTxOut.unaudited d b) (rows d)) as Hin.
    { apply elem_of_filter_bool. split; [done|].
      by rewrite Ekey, String.eqb_refl, (unaudited_burn_spec _ _ _ Eb), Ab. }
    rewrite Hf in Hin.
    + destruct (List.find _ _); [by apply list_elem_of_singleton in Hin as ->|set_solver].
    + apply rows_NoDup, Hd.
    + intros y z Hy Hz [E%String.eqb_eq _]%andb_true_iff [E'%String.eqb_eq _]%andb_true_iff.
      apply rows_elem_of in Hy as [i Hi], Hz as [j Hj].
      assert ((i, y) = (j, z)) as [= _ ->]; [|done].
      eapply (ok_unique _ (ok_burn_tx_outs _ Hd)); [done..|]. simpl. rewrite E, E'.
      apply String.eqb_refl.
  - intros Hsc. unfold burn_outcome. rewrite Eb, Ab. split.
    + right. exists x. split; [done|]. by rewrite Hsc, Ev.
    + intros Hu r [[_ Hn]|(y & Hy & Hr)]; [by destruct (Hn x)|].
      apply Hu in Hy as ->. by rewrite Hsc, Ev in Hr.
Qed.
End burn_matching.
