(* ===== verification/SyncBlock.v ===== *)
(** * [src/db/mod.rs]: synchronizing one block

    [ReserveAuditorDb::sync_block] turns the contents of a block into rows, keeps
    the balance of every token, and flags mints that no configuration allows and
    burns that exceed the balance. *)

From S2P Require Import Prelude Externals Concrete GnosisTypes Errors Schema Database.
From S2P Require Import CountersModel Blocks Mints Burns.

Section block_data.
Context {X_mc : MobileCoin} {X_chrono : Chrono}.

(** The parts of [mc_blockchain_types::BlockContents] the auditor reads. *)
Record BlockContents := mkBlockContents {
  bc_mint_config_txs : list CoreMintConfigTx;   (* of validated_mint_config_txs *)
  bc_mint_txs : list CoreMintTx;
  bc_outputs : list TxOut;
}.

Record SyncBlockData := mkSyncBlockData {
  sbd_block_audit : BlockAuditData;
  sbd_balance_map : gmap Z Z;
  sbd_mint_txs : list MintTx;
  sbd_burn_tx_outs : list BurnTxOut;
}.
End block_data.

Module ReserveAuditorDb.
Section operations.
Context {X_chrono : Chrono} {X_sqlite : Sqlite} {X_hex : Hex} {X_mc : MobileCoin} {X_hash : HashOrder}.

(** The loop of [lookup_mint_config] over the configurations. *)
Fixpoint find_mint_config (block_index : Z) (mint_tx : CoreMintTx)
    (sql_mint_configs : list MintConfig) : App (option MintConfig) :=
  match sql_mint_configs with
  | [] => mret None
  | sql_mint_config :: rest =>
      mint_config ← lift (MintConfig.decode sql_mint_config);
      match signer_set_verify (core_mint_config_signer_set mint_config)
              (core_mint_tx_prefix_hash mint_tx) (core_mint_tx_signature mint_tx) with
      | inl _ => find_mint_config block_index mint_tx rest
      | inr _ =>
          total_minted ← MintConfig.get_total_minted_before_block sql_mint_config block_index;
          match checked_add_u64 total_minted (core_mint_tx_amount mint_tx) with
          | Some new_total_minted =>
              if new_total_minted <=? MintConfig.mint_limit sql_mint_config then
                mret (Some sql_mint_config)
              else find_mint_config block_index mint_tx rest
          | None => find_mint_config block_index mint_tx rest
          end
      end
  end.

(** [ReserveAuditorDb::lookup_mint_config]. *)
Definition lookup_mint_config (block_index : Z) (mint_tx : CoreMintTx) : App (option MintConfig) :=
  recent ← MintConfigTx.most_recent_for_token block_index (core_mint_tx_token_id mint_tx);
  match recent with
  | None => mret None
  | Some sql_mint_config_tx =>
      total_minted ← MintConfigTx.get_total_minted_before_block sql_mint_config_tx block_index;
      match checked_add_u64 total_minted (core_mint_tx_amount mint_tx) with
      | None => mret None
      | Some new_total_minted =>
          if MintConfigTx.total_mint_limit sql_mint_config_tx <? new_total_minted then mret None
          else
            sql_mint_configs ← MintConfig.get_by_mint_config_tx_id
                                 (default 0 (MintConfigTx.id sql_mint_config_tx));
            find_mint_config block_index mint_tx sql_mint_configs
      end
  end.

(** Balance accounting of one mint and of one burn. *)
Definition credit (balance_map : gmap Z Z) (token amount : Z) : gmap Z Z :=
  <[token := wrapping_add_u64 (default 0 (balance_map !! token)) amount]> balance_map.
Definition debit (balance_map : gmap Z Z) (token amount : Z) : gmap Z Z :=
  let burn_balance := default 0 (balance_map !! token) in
  <[token := if burn_balance <? amount then 0 else burn_balance - amount]> balance_map.

(** One iteration of the mint loop. *)
Definition process_mint (block_index : Z) (block_timestamp : option DateTime)
    (acc : gmap Z Z * list MintTx) (mint_tx : CoreMintTx) : App (gmap Z Z * list MintTx) :=
  let '(balance_map, mint_txs) := acc in
  let balance_map :=
    credit balance_map (core_mint_tx_token_id mint_tx) (core_mint_tx_amount mint_tx) in
  mint_config ← lookup_mint_config block_index mint_tx;
  _ ← match mint_config with
      | None => Counters.inc num_mint_txs_without_matching_mint_config
      | Some _ => mret tt
      end;
  sql_mint_tx ← MintTx.insert_from_core_mint_tx block_index block_timestamp
                  (mint_config ≫= MintConfig.id) mint_tx;
  mret (balance_map, mint_txs ++ [sql_mint_tx]).

(** One iteration of the burn loop. *)
Definition process_burn (acc : gmap Z Z * list BurnTxOut) (burn_tx_out : BurnTxOut)
  : App (gmap Z Z * list BurnTxOut) :=
  let '(balance_map, burns) := acc in
  let amount := BurnTxOut.amount burn_tx_out in
  let token_id := BurnTxOut.token_id burn_tx_out in
  _ ← (if default 0 (balance_map !! token_id) <? amount then
         Counters.inc num_burns_exceeding_balance
       else mret tt);
  burn_tx_out ← BurnTxOut.insert burn_tx_out;
  mret (debit balance_map token_id amount, burns ++ [burn_tx_out]).

(** The burns among the outputs, in order. *)
Definition collect_burns (block_index : Z) (block_timestamp : option DateTime) (outputs : list TxOut)
  : list BurnTxOut :=
  omap (fun tx_out => res_ok (BurnTxOut.from_core_tx_out block_index block_timestamp tx_out)) outputs.

(** The transaction of [sync_block_with_conn]. *)
Definition sync_block_body (block_index : Z) (contents : BlockContents)
    (block_timestamp : option DateTime) : App SyncBlockData :=
  counters ← Counters.get;
  let next_block_index := counter_get num_blocks_synced counters in
  if negb (block_index =? next_block_index) then
    throw (UnexpectedBlockIndex block_index next_block_index)
  else
    _ ← for_each (MintConfigTx.insert_from_core_mint_config_tx block_index block_timestamp)
          (bc_mint_config_txs contents);
    balance_map ← (if block_index =? 0 then mret ∅
                   else BlockBalance.get_balances_for_block (block_index - 1));
    minted ← fold_each (process_mint block_index block_timestamp) (balance_map, [])
               (bc_mint_txs contents);
    let '(balance_map, mint_txs) := minted in
    let burn_tx_outs := collect_burns block_index block_timestamp (bc_outputs contents) in
    burned ← fold_each process_burn (balance_map, []) burn_tx_outs;
    let '(balance_map, burn_tx_outs) := burned in
    _ ← Counters.inc num_blocks_synced;
    let block_audit := BlockAuditData.new block_index in
    _ ← BlockAuditData.set block_audit;
    _ ← BlockBalance.set_balances_for_block block_index balance_map;
    mret (mkSyncBlockData block_audit balance_map mint_txs burn_tx_outs).

(** [ReserveAuditorDb::sync_block_with_conn]. *)
Definition sync_block_with_conn (block_index : Z) (contents : BlockContents)
    (block_timestamp : option DateTime) : App SyncBlockData :=
  transaction (sync_block_body block_index contents block_timestamp).

(** [ReserveAuditorDb::sync_block]. *)
Definition sync_block (block_index : Z) (contents : BlockContents)
    (block_timestamp : option DateTime) : App SyncBlockData :=
  _ ← get_conn; sync_block_with_conn block_index contents block_timestamp.

(** [ReserveAuditorDb::new_from_path], after the pool has been built and the
    migrations have run: [migrations] is what they leave. *)
Definition new_from_path (migrations : App unit) : App unit :=
  _ ← get_conn; _ ← migrations; Counters.ensure_exists.
End operations.
End ReserveAuditorDb.

(** ** Looking up the configuration of a mint *)
Section lookup.
Context {X_chrono : Chrono} {X_sqlite : Sqlite} {L_sqlite : SqliteLaws}.
Context {X_hex : Hex} {X_mc : MobileCoin}.
Implicit Types (w : World) (d : Db).

(** The configuration signed the mint, and the mint fits under its limit given
    what it minted before the block. *)
Definition config_allows d (idx : Z) (tx : CoreMintTx) (c : MintConfig) : Prop :=
  exists core signers,
    decode_mint_config (mc_protobuf c) = inr core /\
    signer_set_verify (core_mint_config_signer_set core) (core_mint_tx_prefix_hash tx)
      (core_mint_tx_signature tx) = inr signers /\
    minted_by_config d c idx + core_mint_tx_amount tx < two64 /\
    minted_by_config d c idx + core_mint_tx_amount tx <= MintConfig.mint_limit c.

(** The mint fits under the limit shared by all configurations of [t]. *)
Definition config_tx_allows d (idx : Z) (tx : CoreMintTx) (t : MintConfigTx) : Prop :=
  minted_by_config_tx d t idx + core_mint_tx_amount tx < two64 /\
  minted_by_config_tx d t idx + core_mint_tx_amount tx <= MintConfigTx.total_mint_limit t.

(** [c] belongs to the most recent configuration transaction of the token and
    both limits leave room. *)
Definition active_config d (idx : Z) (tx : CoreMintTx) (c : MintConfig) : Prop :=
  exists t, most_recent d idx (core_mint_tx_token_id tx) (Some t) /\
    config_tx_allows d idx tx t /\
    c ∈ rows d /\ mct_id t = Some (mc_mint_config_tx_id c) /\ config_allows d idx tx c.

(** What [lookup_mint_config] finds. *)
Definition lookup_spec d idx tx (o : option MintConfig) : Prop :=
  match o with
  | Some c => active_config d idx tx c
  | None => forall c, ~ active_config d idx tx c
  end.

(** Every stored configuration can be decoded. *)
Definition configs_decode d : Prop :=
  forall c, c ∈ rows (R := MintConfig) d -> exists core, decode_mint_config (mc_protobuf c) = inr core.

Lemma checked_add_None a b : checked_add_u64 a b = None <-> two64 <= a + b.
Proof. unfold checked_add_u64. destruct (Z.ltb_spec (a + b) two64); split; try done; lia. Qed.

Lemma wp_find_config idx tx cs Q w :
  integrity (w_db w) ->
  (forall c, c ∈ cs -> exists core, decode_mint_config (mc_protobuf c) = inr core) ->
  (forall f w', ~ healthy w -> leads w (w_db w) w' -> Q (Err (from_diesel (fault_error f))) w') ->
  (forall o w', leads w (w_db w) w' ->
     match o with
     | Some c => c ∈ cs /\ config_allows (w_db w) idx tx c
     | None => forall c, c ∈ cs -> ~ config_allows (w_db w) idx tx c
     end -> Q (Ok o) w') ->
  wp (ReserveAuditorDb.find_mint_config idx tx cs) Q w.
Proof.
  revert Q w. induction cs as [|c cs IH]; simpl; intros Q w Hd Hdec He Ho.
  { apply wp_ret, Ho; [apply leads_refl|]. intros c Hc. by apply elem_of_nil in Hc. }
  assert (forall w', leads w (w_db w) w' -> ~ config_allows (w_db w) idx tx c ->
    wp (ReserveAuditorDb.find_mint_config idx tx cs) Q w') as Hskip.
  { intros w' Hl Hn. pose proof (leads_db _ _ _ Hl) as Hdb. apply IH; rewrite ?Hdb; [done|..].
    - intros c' Hc'. apply Hdec. by right.
    - intros f w'' Hh Hl'. apply He; [by eapply leads_sick|by eapply leads_trans].
    - intros o w'' Hl' Hc. apply Ho; [by eapply leads_trans|]. destruct o as [c'|].
      + split; [right|]; apply Hc.
      + intros c' [->|Hc']%elem_of_cons; [done|by apply Hc]. }
  destruct (Hdec c) as [core Ec]; [by left|].
  apply wp_bind, wp_lift. unfold MintConfig.decode. rewrite Ec. simpl.
  destruct (signer_set_verify _ _ _) as [e|signers] eqn:Ev.
  { apply Hskip; [apply leads_refl|]. intros (core' & signers & Ec' & Ev' & _). congruence. }
  apply wp_bind, (wp_query _ _ _ _ (query_total_by_config c idx)); [done|].
  intros r w' Hl ->; [|done]. destruct (checked_add_u64 _ _) as [n|] eqn:Ea.
  - apply checked_add_u64_Some in Ea as [-> Hb]. destruct (Z.leb_spec (minted_by_config (w_db w) c idx
      + core_mint_tx_amount tx) (MintConfig.mint_limit c)).
    + apply wp_ret, Ho; [done|]. split; [by left|]. exists core, signers. split_and!; done.
    + apply Hskip; [done|]. intros (? & ? & _ & _ & _ & ?). lia.
  - apply checked_add_None in Ea. apply Hskip; [done|]. intros (? & ? & _ & _ & ? & _). lia.
Qed.

Lemma wp_lookup_mint_config idx tx Q w :
  integrity (w_db w) -> configs_decode (w_db w) ->
  (forall f w', ~ healthy w -> leads w (w_db w) w' -> Q (Err (from_diesel (fault_error f))) w') ->
  (forall o w', leads w (w_db w) w' -> lookup_spec (w_db w) idx tx o -> Q (Ok o) w') ->
  wp (ReserveAuditorDb.lookup_mint_config idx tx) Q w.
Proof.
  intros Hd Hdec He Ho.
  apply wp_bind, (wp_query _ _ _ _ (query_most_recent _ _)); [done|].
  intros r w1 Hl1 (ot & -> & Hrec). destruct ot as [t|].
  2: { apply wp_ret, Ho; [done|]. intros c (t & [Ht _] & _). by apply (Hrec t). }
  assert (forall t', most_recent (w_db w) idx (core_mint_tx_token_id tx) (Some t') -> t' = t) as Hun.
  { intros t' Ht'. assert (Some t' = Some t) as [=]; [|done].
    eapply most_recent_unique; [apply Hd|done..]. }
  assert (forall o w', leads w (w_db w) w' -> ~ config_tx_allows (w_db w) idx tx t ->
            o = None -> Q (Ok o) w') as Hno.
  { intros o w' Hl Hn ->. apply Ho; [done|]. intros c (t' & Ht' & Ha & _).
    by apply Hun in Ht' as ->. }
  pose proof (leads_db _ _ _ Hl1) as Hd1.
  apply wp_bind, (wp_query _ _ _ _ (query_total_by_config_tx t idx)).
  { intros f w' Hh Hl. apply He; [by eapply leads_sick|]. rewrite Hd1 in Hl. by eapply leads_trans. }
  rewrite Hd1. intros r2 w2 Hl2 ->; [|done].
  pose proof (leads_trans _ _ _ _ _ Hl1 Hl2) as Hl. pose proof (leads_db _ _ _ Hl) as Hd2.
  destruct (checked_add_u64 _ _) as [n|] eqn:Ea.
  2: { apply checked_add_None in Ea. apply wp_ret, Hno; [done| |done]. intros [? _]. lia. }
  apply checked_add_u64_Some in Ea as [-> Hb].
  destruct (Z.ltb_spec (MintConfigTx.total_mint_limit t)
    (minted_by_config_tx (w_db w) t idx + core_mint_tx_amount tx)).
  { apply wp_ret, Hno; [done| |done]. intros [_ ?]. lia. }
  apply wp_bind, (wp_query _ _ _ _ (query_configs_of_tx _)); rewrite ?Hd2.
  { intros f w' Hh Hl'. apply He; [by eapply leads_sick|by eapply leads_trans]. }
  intros r3 w3 Hl3 (cs & -> & Hcs). pose proof (leads_trans _ _ _ _ _ Hl Hl3) as Hl'.
  destruct Hrec as [(Ht & Etok & Hbt) Hmax].
  pose proof (stored_has_id _ _ (ok_mint_config_txs _ Hd) Ht) as (tid & Etid & _). simpl in Etid.
  assert (forall c, c ∈ cs <-> c ∈ rows (w_db w) /\ mct_id t = Some (mc_mint_config_tx_id c)) as Hin.
  { intros c. rewrite Hcs, elem_of_filter_bool, Z.eqb_eq. unfold MintConfigTx.id. rewrite Etid. simpl.
    split; intros [? E]; (split; [done|]); congruence. }
  pose proof (leads_db _ _ _ Hl') as Hd3.
  apply wp_find_config; rewrite ?Hd3; [done|by intros c [Hc _]%Hin; apply Hdec|..].
  { intros f w' Hh Hlf. apply He; [by eapply leads_sick|by eapply leads_trans]. }
  intros o w' Hlo Hspec. apply Ho; [by eapply leads_trans|].
  destruct o as [c|]; simpl.
  - destruct Hspec as [[Hc Etx]%Hin Ha]. exists t. by split_and!.
  - intros c (t' & Ht' & _ & Hc & Etx & Ha). apply Hun in Ht' as ->.
    apply (Hspec c); [by apply Hin|done].
Qed.

Lemma raises_find_config idx tx cs : never_retries (ReserveAuditorDb.find_mint_config idx tx cs).
Proof.
  induction cs as [|c cs IH]; simpl; [apply raises_ret|].
  apply raises_bind; [by apply raises_from_ext|]. intros core.
  destruct (signer_set_verify _ _ _); [done|].
  unfold MintConfig.get_total_minted_before_block. solve_raises; apply IH.
Qed.

Lemma raises_lookup idx tx : never_retries (ReserveAuditorDb.lookup_mint_config idx tx).
Proof.
  unfold ReserveAuditorDb.lookup_mint_config, MintConfigTx.most_recent_for_token,
    MintConfigTx.get_total_minted_before_block, MintConfig.get_by_mint_config_tx_id.
  solve_raises. apply raises_find_config.
Qed.
End lookup.

(** ** The steps of a synchronization *)
Section steps.
Context {X_chrono : Chrono} {X_sqlite : Sqlite} {L_sqlite : SqliteLaws}.
Context {X_hex : Hex} {X_mc : MobileCoin}.
Implicit Types (w : World) (d : Db).

(** The value of a counter in the single row. *)
Definition counter_value (v : CounterVar) d : Z :=
  match counters d with (_, c) :: _ => counter_column v c | [] => 0 end.

Lemma counter_value_bump v v' d :
  counters_ok d ->
  counter_value v' (bump_db v d) = counter_value v' d + (if decide (v = v') then 1 else 0).
Proof. intros [c [Hc _]]. unfold counter_value, bump_db. simpl. rewrite Hc. apply counter_column_bump. Qed.

Definition mint_nonce_hex (tx : CoreMintTx) : string := hex_encode (core_mint_tx_nonce tx).

(** A mint: looked up, counted when nothing allows it, stored either way. *)
Inductive mint_step (idx : Z) (ts : option DateTime) d (tx : CoreMintTx) : MintTx -> Db -> Prop :=
| mint_step_intro o row i d1 :
    lookup_spec d idx tx o ->
    d1 = match o with
         | Some _ => d
         | None => bump_db num_mint_txs_without_matching_mint_config d
         end ->
    MintTx.from_core_mint_tx idx ts (o ≫= MintConfig.id) tx = Ok row ->
    insertable d1 i row ->
    mint_step idx ts d tx (row_with_id i row) (db_insert i row d1).

Inductive mint_steps (idx : Z) (ts : option DateTime) : Db -> list CoreMintTx -> list MintTx -> Db -> Prop :=
| mint_steps_nil d : mint_steps idx ts d [] [] d
| mint_steps_snoc d txs ms d1 tx m d2 :
    mint_steps idx ts d txs ms d1 -> mint_step idx ts d1 tx m d2 ->
    mint_steps idx ts d (txs ++ [tx]) (ms ++ [m]) d2.

(** A burn: the excess counted, stored. *)
Inductive burn_step (bal : gmap Z Z) d (b : BurnTxOut) : BurnTxOut -> Db -> Prop :=
| burn_step_intro i d1 :
    d1 = (if default 0 (bal !! BurnTxOut.token_id b) <? BurnTxOut.amount b
          then bump_db num_burns_exceeding_balance d else d) ->
    insertable d1 i b ->
    burn_step bal d b (row_with_id i b) (db_insert i b d1).

Definition debit_burn (bal : gmap Z Z) (b : BurnTxOut) : gmap Z Z :=
  ReserveAuditorDb.debit bal (BurnTxOut.token_id b) (BurnTxOut.amount b).
Definition credit_mint (bal : gmap Z Z) (tx : CoreMintTx) : gmap Z Z :=
  ReserveAuditorDb.credit bal (core_mint_tx_token_id tx) (core_mint_tx_amount tx).

Inductive burn_steps (bal : gmap Z Z) : Db -> list BurnTxOut -> list BurnTxOut -> Db -> Prop :=
| burn_steps_nil d : burn_steps bal d [] [] d
| burn_steps_snoc d bs bs' d1 b b' d2 :
    burn_steps bal d bs bs' d1 -> burn_step (foldl debit_burn bal bs) d1 b b' d2 ->
    burn_steps bal d (bs ++ [b]) (bs' ++ [b']) d2.

(** The configuration transactions of a block. *)
Inductive config_steps (idx : Z) (ts : option DateTime) : Db -> list CoreMintConfigTx -> Db -> Prop :=
| config_steps_nil d : config_steps idx ts d [] d
| config_steps_cons d t txs i d1 d2 :
    stores_config_tx d (MintConfigTx.from_core_mint_config_tx idx ts t)
      (core_mint_config_tx_configs t) i d1 ->
    config_steps idx ts d1 txs d2 -> config_steps idx ts d (t :: txs) d2.

(** *** Frames: what each step leaves alone *)
Lemma mint_step_frame idx ts d tx m d' :
  mint_step idx ts d tx m d' ->
  rows (R := MintTx) d' = rows d ++ [m] /\
  d' = table_set (mint_txs d') (table_set (counters d') d) /\
  mt_nonce_hex m = mint_nonce_hex tx /\ mt_block_index m = as_i64 idx /\
  mt_token_id m = as_i64 (core_mint_tx_token_id tx) /\ mt_amount m = as_i64 (core_mint_tx_amount tx).
Proof.
  intros [o row i d1 _ -> Hrow _]. rewrite rows_db_insert.
  apply from_core_mint_tx_ok in Hrow as [addr ->].
  split_and!; [|by destruct o, d|done..]. by destruct o.
Qed.

Lemma burn_step_frame bal d b b' d' :
  burn_step bal d b b' d' ->
  rows (R := BurnTxOut) d' = rows d ++ [b'] /\
  d' = table_set (burn_tx_outs d') (table_set (counters d') d) /\
  bto_public_key_hex b' = bto_public_key_hex b /\ bto_token_id b' = bto_token_id b /\
  bto_amount b' = bto_amount b /\ bto_block_index b' = bto_block_index b.
Proof.
  intros [i d1 -> _]. rewrite rows_db_insert.
  split_and!; [|by destruct (_ <? _), d|done..]. by destruct (_ <? _).
Qed.

Lemma mint_steps_frame idx ts d txs ms d' :
  mint_steps idx ts d txs ms d' ->
  rows (R := MintTx) d' = rows d ++ ms /\
  d' = table_set (mint_txs d') (table_set (counters d') d) /\
  mt_nonce_hex <$> ms = mint_nonce_hex <$> txs.
Proof.
  induction 1 as [d|d txs ms d1 tx m d2 _ (Hr & Hf & Hn) Hs].
  { rewrite app_nil_r. by destruct d. }
  apply mint_step_frame in Hs as (Hr2 & Hf2 & Hn2 & _). split_and!.
  - by rewrite Hr2, Hr, app_assoc.
  - rewrite Hf2. rewrite Hf. by destruct d.
  - rewrite !fmap_app, Hn. simpl. by rewrite Hn2.
Qed.

Lemma burn_steps_frame bal d bs bs' d' :
  burn_steps bal d bs bs' d' ->
  rows (R := BurnTxOut) d' = rows d ++ bs' /\
  d' = table_set (burn_tx_outs d') (table_set (counters d') d) /\
  bto_public_key_hex <$> bs' = bto_public_key_hex <$> bs.
Proof.
  induction 1 as [d|d bs bs' d1 b b' d2 _ (Hr & Hf & Hn) Hs].
  { rewrite app_nil_r. by destruct d. }
  apply burn_step_frame in Hs as (Hr2 & Hf2 & Hn2 & _). split_and!.
  - by rewrite Hr2, Hr, app_assoc.
  - rewrite Hf2. rewrite Hf. by destruct d.
  - rewrite !fmap_app, Hn. simpl. by rewrite Hn2.
Qed.

(** *** What the steps preserve *)
Lemma bump_evolves v d : evolves d (bump_db v d).
Proof. apply evolves_bump. Qed.

Lemma insert_evolves {R} `{!Table R} `{!TableLaws R} `{!InsertOk R} d i (r : R) :
  insertable d i r -> evolves d (db_insert i r d).
Proof. intros Hi. by apply evolves_insert. Qed.

Lemma mint_step_evolves idx ts d tx m d' : mint_step idx ts d tx m d' -> evolves d d'.
Proof.
  intros [o row i d1 _ -> _ Hi]. etrans; [|by apply insert_evolves].
  destruct o; [reflexivity|apply bump_evolves].
Qed.

Lemma mint_steps_evolves idx ts d txs ms d' : mint_steps idx ts d txs ms d' -> evolves d d'.
Proof. induction 1; [reflexivity|]. etrans; [done|by eapply mint_step_evolves]. Qed.

Lemma burn_step_evolves bal d b b' d' : burn_step bal d b b' d' -> evolves d d'.
Proof.
  intros [i d1 -> Hi]. etrans; [|by apply insert_evolves].
  destruct (_ <? _); [apply bump_evolves|reflexivity].
Qed.

Lemma burn_steps_evolves bal d bs bs' d' : burn_steps bal d bs bs' d' -> evolves d d'.
Proof. induction 1; [reflexivity|]. etrans; [done|by eapply burn_step_evolves]. Qed.

Lemma stores_config_tx_evolves d t cs i d' : stores_config_tx d t cs i d' -> evolves d d'.
Proof.
  intros [Hi (ids & Hs)]. etrans; [|exact (inserts_rel evolves _ _ _ _ Hs)]. by apply insert_evolves.
Qed.

Lemma config_steps_evolves idx ts d txs d' : config_steps idx ts d txs d' -> evolves d d'.
Proof. induction 1; [reflexivity|]. etrans; [by eapply stores_config_tx_evolves|done]. Qed.

Lemma stores_config_tx_frame d t cs i d' :
  stores_config_tx d t cs i d' ->
  rows (R := MintConfigTx) d' = rows d ++ [row_with_id i t] /\
  d' = table_set (mint_config_txs d') (table_set (mint_configs d') d) /\
  exists ids, rows (R := MintConfig) d' = rows d ++ zip_with row_with_id ids (config_rows i cs) /\
    length ids = length cs.
Proof.
  intros [_ (ids & Hs)]. pose proof (inserts_db _ _ _ _ Hs) as [Hl Hd].
  pose proof (inserts_get _ _ _ _ Hs) as Hg. unfold config_rows in Hl. rewrite length_fmap in Hl.
  split_and!.
  - assert (rows (R := MintConfigTx) d' = rows (db_insert i t d)) as ->;
      [rewrite Hd; by destruct d|by rewrite rows_db_insert].
  - rewrite Hd. by destruct d.
  - exists ids. split; [|done]. unfold rows. rewrite Hg, fmap_app.
    change (table_get (R := MintConfig) (db_insert i t d)) with (mint_configs d). f_equal.
    clear Hs Hd Hg Hl. generalize (config_rows i cs). intros rs. revert rs.
    induction ids as [|j ids IH]; intros [|r rs]; simpl; try done. by rewrite <- IH.
Qed.

Context {L_mc : MobileCoinLaws}.

Lemma stores_config_tx_decode d t cs i d' :
  stores_config_tx d t cs i d' -> configs_decode d -> configs_decode d'.
Proof.
  intros (_ & _ & ids & Hr & _)%stores_config_tx_frame Hdec c Hc. rewrite Hr in Hc.
  apply elem_of_app in Hc as [Hc|Hc]; [by apply Hdec|].
  apply elem_of_lookup_zip_with in Hc as (k & j & r & -> & _ & Hr').
  apply list_elem_of_lookup_2, list_elem_of_fmap in Hr' as (core & -> & _). simpl.
  exists core. apply decode_encode_mint_config.
Qed.

(** The parts of the database later steps rely on. *)
Definition sync_ready d : Prop := integrity d /\ configs_decode d /\ counters_ok d.

Lemma config_steps_frame idx ts d txs d' :
  config_steps idx ts d txs d' ->
  d' = table_set (mint_config_txs d') (table_set (mint_configs d') d) /\
  (sync_ready d -> sync_ready d').
Proof.
  induction 1 as [d|d t txs i d1 d2 Hs _ [IHf IHr]]; [by destruct d|]. split.
  - apply stores_config_tx_frame in Hs as (_ & Hf & _). rewrite IHf, Hf. by destruct d.
  - intros (Hi & Hdec & Hc). apply IHr. split_and!.
    + by eapply stores_config_tx_evolves.
    + by eapply stores_config_tx_decode.
    + apply stores_config_tx_frame in Hs as (_ & Hf & _). unfold counters_ok, counters_row.
      rewrite Hf. by destruct d.
Qed.

Lemma mint_step_ready idx ts d tx m d' : mint_step idx ts d tx m d' -> sync_ready d -> sync_ready d'.
Proof.
  intros Hs (Hi & Hdec & Hc). split_and!; [by eapply mint_step_evolves| |].
  - apply mint_step_frame in Hs as (_ & Hf & _). unfold configs_decode. rewrite Hf. by destruct d.
  - destruct Hs as [o row i d1 _ -> _ _]. destruct o; [done|]. exact (counters_ok_bump _ _ Hc).
Qed.

Lemma burn_step_ready bal d b b' d' : burn_step bal d b b' d' -> sync_ready d -> sync_ready d'.
Proof.
  intros Hs (Hi & Hdec & Hc). split_and!; [by eapply burn_step_evolves| |].
  - apply burn_step_frame in Hs as (_ & Hf & _). unfold configs_decode. rewrite Hf. by destruct d.
  - destruct Hs as [i d1 -> _]. destruct (_ <? _); [|done]. exact (counters_ok_bump _ _ Hc).
Qed.

Lemma mint_steps_ready idx ts d txs ms d' :
  mint_steps idx ts d txs ms d' -> sync_ready d -> sync_ready d'.
Proof. induction 1; [done|]. intros. eapply mint_step_ready; eauto. Qed.

Lemma burn_steps_ready bal d bs bs' d' :
  burn_steps bal d bs bs' d' -> sync_ready d -> sync_ready d'.
Proof. induction 1; [done|]. intros. eapply burn_step_ready; eauto. Qed.

(** *** When the steps are possible *)
Definition mint_storable d (tx : CoreMintTx) : Prop :=
  (exists addr, b58_encode (public_address_new (core_mint_tx_spend_public_key tx)
                  (core_mint_tx_view_public_key tx)) = inr addr) /\
  mint_nonce_hex tx ∉ mt_nonce_hex <$> rows d.

(** The nonces are new and distinct, the recipients can be displayed. *)
Definition mints_storable d (txs : list CoreMintTx) : Prop :=
  Forall (mint_storable d) txs /\ NoDup (mint_nonce_hex <$> txs).

(** The public keys are new and distinct. *)
Definition burns_storable d (bs : list BurnTxOut) : Prop :=
  Forall (fun b => bto_id b = None) bs /\
  Forall (fun b => bto_public_key_hex b ∉ bto_public_key_hex <$> rows d) bs /\
  NoDup (bto_public_key_hex <$> bs).

(** The nonces and the (block, token) pairs are new and distinct. *)
Definition config_txs_storable d (idx : Z) (txs : list CoreMintConfigTx) : Prop :=
  (forall t r, t ∈ txs -> r ∈ rows (R := MintConfigTx) d ->
     mct_nonce_hex r <> hex_encode (core_mint_config_tx_nonce t) /\
     ~ (mct_block_index r = as_i64 idx /\ mct_token_id r = as_i64 (core_mint_config_tx_token_id t))) /\
  NoDup (hex_encode ∘ core_mint_config_tx_nonce <$> txs) /\
  NoDup (as_i64 ∘ core_mint_config_tx_token_id <$> txs).

Lemma mint_row_insertable d idx ts o tx row :
  sync_ready d -> lookup_spec d idx tx o -> mint_storable d tx ->
  MintTx.from_core_mint_tx idx ts (o ≫= MintConfig.id) tx = Ok row ->
  exists i, insertable d i row.
Proof.
  intros (Hd & _) Ho [_ Hn] Hrow.
  apply from_core_mint_tx_ok in Hrow as [addr ->].
  exists (next_rowid (mint_txs d)). split; [done|apply next_rowid_fresh|..].
  - intros [j r] Hr. simpl. apply String.eqb_neq. intros E. apply Hn.
    apply list_elem_of_fmap. exists r. split; [done|]. apply rows_elem_of. eauto.
  - simpl. destruct o as [c|]; [|done]. destruct Ho as (t & _ & _ & Hc & _). simpl.
    pose proof (stored_has_id _ _ (ok_mint_configs _ Hd) Hc) as (i & Ei & Hi). simpl in Ei.
    unfold MintConfig.id. by rewrite Ei.
Qed.

Lemma burn_row_insertable d b :
  bto_id b = None -> bto_public_key_hex b ∉ bto_public_key_hex <$> rows d ->
  exists i, insertable d i b.
Proof.
  intros Hid Hn. exists (next_rowid (burn_tx_outs d)). split; [simpl; by rewrite Hid|apply next_rowid_fresh| |done].
  intros [j r] Hr. simpl. apply String.eqb_neq. intros E. apply Hn.
  apply list_elem_of_fmap. exists r. split; [done|]. apply rows_elem_of. eauto.
Qed.

(** *** The handlers perform the steps *)
Lemma wp_process_mint idx ts bal ms tx Q w :
  sync_ready (w_db w) ->
  (forall e w', ~ healthy w \/ ~ mint_storable (w_db w) tx -> Q (Err e) w') ->
  (forall m d' w', mint_step idx ts (w_db w) tx m d' -> leads w d' w' ->
     Q (Ok (credit_mint bal tx, ms ++ [m])) w') ->
  wp (ReserveAuditorDb.process_mint idx ts (bal, ms) tx) Q w.
Proof.
  intros Hr He Ho. pose proof Hr as (Hd & Hdec & Hc). unfold ReserveAuditorDb.process_mint.
  apply wp_bind, wp_lookup_mint_config; [done..|intros; apply He; by left|].
  intros o w1 Hl1 Hspec. pose proof (leads_db _ _ _ Hl1) as Hd1. set (d1 := match o with
    | Some _ => w_db w | None => bump_db num_mint_txs_without_matching_mint_config (w_db w) end).
  apply wp_bind.
  assert (wp (match o with
              | Some _ => mret tt
              | None => Counters.inc num_mint_txs_without_matching_mint_config
              end) (fun r w' => match r with
                                | Ok _ => leads w d1 w'
                                | Err _ => ~ healthy w
                                | Panic _ => False
                                end) w1) as Hinc.
  { destruct o as [c|]; [by apply wp_ret|]. apply wp_inc; rewrite Hd1.
    - intros e w' [Hh|Hn] _; [by eapply leads_sick|done].
    - intros w' Hl. by eapply leads_trans. }
  eapply wp_mono; [exact Hinc|]. clear Hinc. intros [[]|e|p] w2 Hl2; [|apply He; by left|done].
  pose proof (leads_db _ _ _ Hl2) as Hd2.
  assert (sync_ready d1 /\ (mint_storable (w_db w) tx -> mint_storable d1 tx) /\
          lookup_spec (w_db w) idx tx o) as (Hr1 & Hst & _).
  { split_and!; [|by destruct o|done]. unfold d1. destruct o; [done|]. split_and!.
    - by apply bump_evolves.
    - done.
    - by apply counters_ok_bump. }
  apply wp_seq. unfold MintTx.insert_from_core_mint_tx. apply wp_seq, wp_lift.
  destruct (MintTx.from_core_mint_tx idx ts (o ≫= MintConfig.id) tx) as [row|e|p] eqn:Erow.
  - assert (mt_id row = None) as Hid.
    { by apply from_core_mint_tx_ok in Erow as [addr ->]. }
    apply wp_insert_mint; [done|..]; rewrite Hd2.
    + intros e w' [Hh|Hn]; apply He; [left; by eapply leads_sick|right].
      intros Hs. destruct (mint_row_insertable (w_db w) idx ts o tx row) as [i Hi]; [done..|].
      apply (Hn i). destruct Hi as [H1 H2 H3 H4]. by destruct o.
    + intros i w' Hi Hl. apply wp_ret. apply (Ho _ (db_insert i row d1)).
      * by eapply mint_step_intro.
      * by eapply leads_trans.
  - apply He. right. intros [[addr Ha] _].
    unfold MintTx.from_core_mint_tx, mbind, Res_bind, res_bind, from_ext in Erow. by rewrite Ha in Erow.
  - by destruct (from_core_mint_tx_panic _ _ _ _ _ Erow).
Qed.

Lemma wp_process_mints idx ts bal txs Q w :
  sync_ready (w_db w) ->
  (forall e w', ~ healthy w \/ ~ mints_storable (w_db w) txs -> Q (Err e) w') ->
  (forall ms d' w', mint_steps idx ts (w_db w) txs ms d' -> leads w d' w' ->
     Q (Ok (foldl credit_mint bal txs, ms)) w') ->
  wp (fold_each (ReserveAuditorDb.process_mint idx ts) (bal, []) txs) Q w.
Proof.
  intros Hr He Ho.
  apply (wp_fold_each (fun pre acc w' => exists ms d', mint_steps idx ts (w_db w) pre ms d' /\
    leads w d' w' /\ acc = (foldl credit_mint bal pre, ms))).
  - exists [], (w_db w). split_and!; [constructor|apply leads_refl|done].
  - intros pre tx rest acc w' Htxs (ms & d' & Hs & Hl & ->). pose proof (leads_db _ _ _ Hl) as Hd'.
    pose proof (mint_steps_frame _ _ _ _ _ _ Hs) as (Hrows & _ & Hnon).
    apply wp_process_mint; rewrite Hd'; [by eapply mint_steps_ready|..].
    + intros e w'' [Hh|Hn]; apply He; [left; by eapply leads_sick|right].
      intros [Hall Hdup]. apply Hn. rewrite Htxs in Hall, Hdup.
      apply Forall_app in Hall as [_ Hall]. apply Forall_cons in Hall as [[Ha Hf] _].
      split; [done|]. rewrite Hrows, fmap_app, Hnon. apply not_elem_of_app. split; [done|].
      rewrite fmap_app, fmap_cons in Hdup. apply NoDup_app in Hdup as (_ & Hdisj & _).
      intros Hin. apply (Hdisj _ Hin). by left.
    + intros m d'' w'' Hstep Hl'. exists (ms ++ [m]), d''. split_and!.
      * by eapply mint_steps_snoc.
      * by eapply leads_trans.
      * by rewrite foldl_app.
  - intros acc w' (ms & d' & Hs & Hl & ->). by eapply Ho.
Qed.

Lemma wp_process_burn bal bs b Q w :
  sync_ready (w_db w) -> bto_id b = None ->
  (forall e w', ~ healthy w \/ bto_public_key_hex b ∈ bto_public_key_hex <$> rows (w_db w) ->
     Q (Err e) w') ->
  (forall b' d' w', burn_step bal (w_db w) b b' d' -> leads w d' w' ->
     Q (Ok (debit_burn bal b, bs ++ [b'])) w') ->
  wp (ReserveAuditorDb.process_burn (bal, bs) b) Q w.
Proof.
  intros (Hd & Hdec & Hc) Hid He Ho. unfold ReserveAuditorDb.process_burn.
  set (d1 := if default 0 (bal !! BurnTxOut.token_id b) <? BurnTxOut.amount b
             then bump_db num_burns_exceeding_balance (w_db w) else w_db w).
  apply wp_bind.
  assert (wp (if default 0 (bal !! BurnTxOut.token_id b) <? BurnTxOut.amount b
              then Counters.inc num_burns_exceeding_balance else mret tt)
    (fun r w' => match r with
                 | Ok _ => leads w d1 w'
                 | Err _ => ~ healthy w
                 | Panic _ => False
                 end) w) as Hinc.
  { unfold d1. destruct (_ <? _); [|by apply wp_ret, leads_refl].
    apply wp_inc; [by intros e w' [Hh|Hn] _|done]. }
  eapply wp_mono; [exact Hinc|]. clear Hinc. intros [[]|e|p] w1 Hl1; [|apply He; by left|done].
  pose proof (leads_db _ _ _ Hl1) as Hd1.
  apply wp_bind, wp_insert_burn; [done|..]; rewrite Hd1.
  - intros e w' [Hh|Hn]; apply He; [left; by eapply leads_sick|right].
    destruct (decide (bto_public_key_hex b ∈ bto_public_key_hex <$> rows (w_db w))) as [|Hnot]; [done|].
    destruct (burn_row_insertable (w_db w) b Hid Hnot) as [i Hi]. destruct (Hn i).
    unfold d1. destruct Hi. by destruct (_ <? _).
  - intros i w' Hi Hl. apply wp_ret. apply (Ho _ (db_insert i b d1)).
    + by apply burn_step_intro.
    + by eapply leads_trans.
Qed.

Lemma wp_process_burns bal bs Q w :
  sync_ready (w_db w) -> Forall (fun b => bto_id b = None) bs ->
  (forall e w', ~ healthy w \/ ~ burns_storable (w_db w) bs -> Q (Err e) w') ->
  (forall bs' d' w', burn_steps bal (w_db w) bs bs' d' -> leads w d' w' ->
     Q (Ok (foldl debit_burn bal bs, bs')) w') ->
  wp (fold_each ReserveAuditorDb.process_burn (bal, []) bs) Q w.
Proof.
  intros Hr Hids He Ho.
  apply (wp_fold_each (fun pre acc w' => exists bs' d', burn_steps bal (w_db w) pre bs' d' /\
    leads w d' w' /\ acc = (foldl debit_burn bal pre, bs'))).
  - exists [], (w_db w). split_and!; [constructor|apply leads_refl|done].
  - intros pre b rest acc w' Hbs (bs' & d' & Hs & Hl & ->). pose proof (leads_db _ _ _ Hl) as Hd'.
    pose proof (burn_steps_frame _ _ _ _ _ Hs) as (Hrows & _ & Hkey).
    apply wp_process_burn; rewrite ?Hd'.
    + by eapply burn_steps_ready.
    + rewrite Hbs in Hids. apply Forall_app in Hids as [_ Hids]. by apply Forall_cons in Hids as [? _].
    + intros e w'' [Hh|Hin]; apply He; [left; by eapply leads_sick|right].
      intros (_ & Hall & Hdup). rewrite Hbs in Hall, Hdup.
      apply Forall_app in Hall as [_ Hall]. apply Forall_cons in Hall as [Hf _].
      rewrite Hrows, fmap_app, Hkey in Hin. apply elem_of_app in Hin as [Hin|Hin]; [done|].
      rewrite fmap_app, fmap_cons in Hdup. apply NoDup_app in Hdup as (_ & Hdisj & _).
      apply (Hdisj _ Hin). by left.
    + intros b' d'' w'' Hstep Hl'. exists (bs' ++ [b']), d''. split_and!.
      * by eapply burn_steps_snoc.
      * by eapply leads_trans.
      * by rewrite foldl_app.
  - intros acc w' (bs' & d' & Hs & Hl & ->). by eapply Ho.
Qed.

Lemma config_row_insertable d idx ts t :
  (forall r, r ∈ rows (R := MintConfigTx) d ->
     mct_nonce_hex r <> hex_encode (core_mint_config_tx_nonce t) /\
     ~ (mct_block_index r = as_i64 idx /\ mct_token_id r = as_i64 (core_mint_config_tx_token_id t))) ->
  exists i, insertable d i (MintConfigTx.from_core_mint_config_tx idx ts t).
Proof.
  intros Hr. exists (next_rowid (mint_config_txs d)). split; [done|apply next_rowid_fresh| |done].
  intros [j r] Hj. simpl. destruct (Hr r) as [Hn Hbt]; [apply rows_elem_of; eauto|].
  apply orb_false_iff. split; [by apply String.eqb_neq|]. apply andb_false_iff.
  destruct (Z.eqb_spec (as_i64 idx) (mct_block_index r)) as [E|]; [right|by left].
  apply Z.eqb_neq. intros E'. by destruct Hbt.
Qed.

Lemma wp_insert_config_txs idx ts txs Q w :
  (forall e w', ~ healthy w \/ ~ config_txs_storable (w_db w) idx txs -> Q (Err e) w') ->
  (forall d' l w', config_steps idx ts (w_db w) txs d' -> leads w d' w' -> Q (Ok l) w') ->
  wp (for_each (MintConfigTx.insert_from_core_mint_config_tx idx ts) txs) Q w.
Proof.
  revert Q w. induction txs as [|t txs IH]; intros Q w He Ho; simpl.
  { apply wp_ret. eapply Ho; [constructor|apply leads_refl]. }
  apply wp_seq. eapply wp_insert_config_tx; [apply decode_encode_mint_config_tx| |].
  - intros e w' [Hh|Hn] _; apply He; [by left|right]. intros (Hr & _ & _).
    destruct (config_row_insertable (w_db w) idx ts t) as [i Hi]; [intros; apply Hr; [by left|done]|].
    by apply (Hn i).
  - intros i d1 w1 Hs Hl. pose proof (leads_db _ _ _ Hl) as Hd1.
    pose proof (stores_config_tx_frame _ _ _ _ _ Hs) as (Hrows & _ & _).
    apply wp_seq, IH; rewrite Hd1.
    + intros e w' [Hh|Hn]; apply He; [left; by eapply leads_sick|right].
      intros (Hr & Hnon & Htok). apply Hn. simpl in Hnon, Htok.
      apply NoDup_cons in Hnon as [Hnon1 Hnon]. apply NoDup_cons in Htok as [Htok1 Htok].
      split_and!; [|done..]. intros t' r Ht'. rewrite Hrows.
      intros [Hin| ->%list_elem_of_singleton]%elem_of_app; [by apply Hr; [right|]|]. simpl. split.
      * intros E. apply Hnon1, list_elem_of_fmap. by exists t'.
      * intros [_ E]. apply Htok1, list_elem_of_fmap. by exists t'.
    + intros d' l w' Hss Hl'. apply wp_ret. eapply Ho.
      * by eapply config_steps_cons.
      * by eapply leads_trans.
Qed.

Lemma collect_burns_elem idx ts outs b :
  b ∈ ReserveAuditorDb.collect_burns idx ts outs <->
  exists o, o ∈ outs /\ BurnTxOut.from_core_tx_out idx ts o = Ok b.
Proof.
  unfold ReserveAuditorDb.collect_burns. rewrite list_elem_of_omap. unfold res_ok.
  split; intros (o & Ho & E); exists o; (split; [done|]); [by destruct (BurnTxOut.from_core_tx_out _ _ _); simplify_eq/=|].
  by rewrite E.
Qed.

Lemma collect_burns_ids idx ts outs :
  Forall (fun b => bto_id b = None) (ReserveAuditorDb.collect_burns idx ts outs).
Proof.
  apply Forall_forall. intros b (o & _ & (v & t & _ & ->)%from_core_tx_out_ok)%collect_burns_elem. done.
Qed.

Context {X_hash : HashOrder} {L_hash : HashOrderLaws}.

(** The balances of the previous block. *)
Definition previous_balances d (idx : Z) : gmap Z Z :=
  if idx =? 0 then ∅ else balances_at d (idx - 1).

(** A whole synchronization: from [d] to [d'], returning [data]. *)
Inductive synced (idx : Z) (contents : BlockContents) (ts : option DateTime) d : SyncBlockData -> Db -> Prop :=
| synced_intro d1 d2 d3 d5 d' ms bs ids :
    idx = as_u64 (counter_value num_blocks_synced d) ->
    config_steps idx ts d (bc_mint_config_txs contents) d1 ->
    mint_steps idx ts d1 (bc_mint_txs contents) ms d2 ->
    let bal := foldl credit_mint (previous_balances d idx) (bc_mint_txs contents) in
    let burns := ReserveAuditorDb.collect_burns idx ts (bc_outputs contents) in
    burn_steps bal d2 burns bs d3 ->
    let bal' := foldl debit_burn bal burns in
    d5 = record_block idx (bump_db num_blocks_synced d3) ->
    inserts d5 (balance_rows idx bal') ids d' ->
    synced idx contents ts d (mkSyncBlockData (BlockAuditData.new idx) bal' ms bs) d'.

(** What must hold for a block to be stored. *)
Record block_storable d (idx : Z) (contents : BlockContents) (ts : option DateTime) : Prop := {
  st_index : idx = as_u64 (counter_value num_blocks_synced d);
  st_configs : config_txs_storable d idx (bc_mint_config_txs contents);
  st_mints : mints_storable d (bc_mint_txs contents);
  st_burns : burns_storable d (ReserveAuditorDb.collect_burns idx ts (bc_outputs contents));
  st_balances : forall r, r ∈ rows (R := BlockBalance) d -> bal_block_index r <> as_i64 idx;
}.

(** *** Balances stay [u64] values *)
Lemma credit_u64 bal tx : u64_map bal -> u64_map (credit_mint bal tx).
Proof.
  intros Hb. apply map_Forall_insert_2; [|done]. split; [apply mint_tx_token_u64|].
  unfold wrapping_add_u64, is_u64. pose proof (Z.mod_pos_bound (default 0 (bal !! core_mint_tx_token_id tx)
    + core_mint_tx_amount tx) two64). lia.
Qed.

Lemma credits_u64 txs bal : u64_map bal -> u64_map (foldl credit_mint bal txs).
Proof. revert bal. induction txs as [|tx txs IH]; intros bal Hb; simpl; [done|]. by apply IH, credit_u64. Qed.

Lemma debit_u64 bal b : u64_map bal -> u64_map (debit_burn bal b).
Proof.
  intros Hb. apply map_Forall_insert_2; [|done]. split; [apply as_u64_range|].
  assert (is_u64 (default 0 (bal !! BurnTxOut.token_id b))) as Hv.
  { destruct (bal !! _) as [v|] eqn:E; [|by compute]. by apply Hb in E as [_ ?]. }
  pose proof (as_u64_range (bto_amount b)) as Ha. fold (BurnTxOut.amount b) in Ha.
  unfold is_u64 in *. destruct (Z.ltb_spec (default 0 (bal !! BurnTxOut.token_id b)) (BurnTxOut.amount b));
    lia.
Qed.

Lemma debits_u64 bs bal : u64_map bal -> u64_map (foldl debit_burn bal bs).
Proof. revert bal. induction bs as [|b bs IH]; intros bal Hb; simpl; [done|]. by apply IH, debit_u64. Qed.

Lemma collect_map_u64 l : (forall p, p ∈ l -> is_u64 p.1 /\ is_u64 p.2) -> u64_map (collect_map l).
Proof.
  induction l as [|p l IH] using rev_ind; intros Hl; [by apply map_Forall_empty|].
  rewrite collect_map_snoc. apply map_Forall_insert_2; [apply Hl; set_solver|].
  apply IH. intros q Hq. apply Hl. set_solver.
Qed.

Lemma previous_balances_u64 d idx : u64_map (previous_balances d idx).
Proof.
  unfold previous_balances. destruct (_ =? _); [by apply map_Forall_empty|].
  apply collect_map_u64. intros p (r & -> & _)%list_elem_of_fmap. split; apply as_u64_range.
Qed.

(** *** The body of the transaction *)
Lemma get_counter d c : counters_row d c -> counter_get num_blocks_synced c = as_u64 (counter_value num_blocks_synced d).
Proof. intros [Hc _]. unfold counter_value. by rewrite Hc. Qed.

Lemma wp_previous_balances idx Q w :
  integrity (w_db w) -> typed_balances (w_db w) ->
  (forall e w', ~ healthy w -> Q (Err e) w') ->
  (forall w', leads w (w_db w) w' -> Q (Ok (previous_balances (w_db w) idx)) w') ->
  wp (if idx =? 0 then mret ∅ else BlockBalance.get_balances_for_block (idx - 1) : App (gmap Z Z)) Q w.
Proof.
  intros Hd Ht He Ho. unfold previous_balances in Ho. destruct (idx =? 0).
  - apply wp_ret, Ho, leads_refl.
  - apply (wp_query _ _ _ _ (query_balances_at _)); [intros; by apply He|].
    intros r w' Hl ->; [by apply Ho|apply Hd|done].
Qed.

(** The last three statements. *)
Lemma wp_finish {A} (a : A) idx bal Q w :
  counters_ok (w_db w) -> u64_map bal ->
  (forall e w', ~ healthy w \/
     ~ (forall r, r ∈ rows (R := BlockBalance) (w_db w) -> bal_block_index r <> as_i64 idx) ->
     Q (Err e) w') ->
  (forall ids d' w',
     inserts (record_block idx (bump_db num_blocks_synced (w_db w))) (balance_rows idx bal) ids d' ->
     leads w d' w' -> Q (Ok a) w') ->
  wp (_ ← Counters.inc num_blocks_synced; _ ← BlockAuditData.set (BlockAuditData.new idx);
      _ ← BlockBalance.set_balances_for_block idx bal; mret a) Q w.
Proof.
  intros Hc Hu He Ho. apply wp_seq, wp_inc; [intros e w' [Hh|Hn] _; [apply He; by left|done]|].
  intros w1 Hl1. pose proof (leads_db _ _ _ Hl1) as Hd1.
  apply wp_seq, wp_record_block; [intros e w' Hh _; apply He; left; by eapply leads_sick|].
  rewrite Hd1. intros w2 Hl2. pose proof (leads_trans _ _ _ _ _ Hl1 Hl2) as Hl.
  pose proof (leads_db _ _ _ Hl) as Hd2.
  apply wp_seq, wp_set_balances; rewrite Hd2.
  - intros e w' [Hh|Hn] _; apply He; [left; by eapply leads_sick|right]. intros Hfree. apply Hn.
    apply balance_rows_insertable; [|done]. split.
    + apply record_block_index. by left.
    + intros r Hr. apply Hfree. done.
  - intros ids d' w' Hi Hl'. apply wp_ret. eapply Ho; [done|by eapply leads_trans].
Qed.

(** The burns and what follows. *)
Lemma wp_sync_burns idx bal burns ms Q w :
  sync_ready (w_db w) -> u64_map bal -> Forall (fun b => bto_id b = None) burns ->
  (forall e w', ~ healthy w \/ ~ burns_storable (w_db w) burns \/
     ~ (forall r, r ∈ rows (R := BlockBalance) (w_db w) -> bal_block_index r <> as_i64 idx) ->
     Q (Err e) w') ->
  (forall bs ids d d' w', burn_steps bal (w_db w) burns bs d ->
     inserts (record_block idx (bump_db num_blocks_synced d))
       (balance_rows idx (foldl debit_burn bal burns)) ids d' ->
     leads w d' w' ->
     Q (Ok (mkSyncBlockData (BlockAuditData.new idx) (foldl debit_burn bal burns) ms bs)) w') ->
  wp (burned ← fold_each ReserveAuditorDb.process_burn (bal, []) burns;
      let '(balance_map, burn_tx_outs) := burned in
      _ ← Counters.inc num_blocks_synced;
      _ ← BlockAuditData.set (BlockAuditData.new idx);
      _ ← BlockBalance.set_balances_for_block idx balance_map;
      mret (mkSyncBlockData (BlockAuditData.new idx) balance_map ms burn_tx_outs)) Q w.
Proof.
  intros Hr Hu Hids He Ho. apply wp_seq, wp_process_burns; [done..| |].
  { intros e w' [Hh|Hn]; apply He; tauto. }
  intros bs d w1 Hs Hl. pose proof (leads_db _ _ _ Hl) as Hd.
  pose proof (burn_steps_ready _ _ _ _ _ Hs Hr) as (_ & _ & Hc).
  pose proof (burn_steps_frame _ _ _ _ _ Hs) as (_ & Hf & _).
  apply wp_finish; rewrite ?Hd; [done|by apply debits_u64|..].
  - intros e w' [Hh|Hn]; apply He; [left; by eapply leads_sick|right; right].
    intros Hfree. apply Hn. rewrite Hf. by destruct (w_db w).
  - intros ids d' w' Hi Hl'. eapply Ho; [done..|]. by eapply leads_trans.
Qed.

Lemma wp_sync_body idx contents ts Q w :
  sync_ready (w_db w) -> typed_balances (w_db w) ->
  (forall e w', ~ healthy w \/ ~ block_storable (w_db w) idx contents ts -> Q (Err e) w') ->
  (forall data d' w', synced idx contents ts (w_db w) data d' -> leads w d' w' -> Q (Ok data) w') ->
  wp (ReserveAuditorDb.sync_block_body idx contents ts) Q w.
Proof.
  intros Hr Ht He Ho. pose proof Hr as (Hd & _ & [c Hc]). unfold ReserveAuditorDb.sync_block_body.
  apply wp_seq, (wp_query _ _ _ _ query_get); [intros; apply He; by left|].
  intros r w1 Hl1 (c' & -> & Hcc). rewrite (Hcc c Hc), (get_counter _ _ Hc).
  destruct (Z.eqb_spec idx (as_u64 (counter_value num_blocks_synced (w_db w)))) as [Ei|Ei]; simpl.
  2: { apply wp_throw, He. right. by intros []. }
  pose proof (leads_db _ _ _ Hl1) as Hd1.
  apply wp_seq, wp_insert_config_txs; rewrite Hd1.
  { intros e w' [Hh|Hn]; apply He; [left; by eapply leads_sick|right]. by intros []. }
  intros d2 l w2 Hs2 Hl2. pose proof (leads_trans _ _ _ _ _ Hl1 Hl2) as Hl. clear Hl2.
  pose proof (leads_db _ _ _ Hl) as Hd2. pose proof (config_steps_frame _ _ _ _ _ Hs2) as [Hf2 Hr2].
  specialize (Hr2 Hr). assert (block_balance d2 = block_balance (w_db w)) as Hb2 by by rewrite Hf2.
  apply wp_seq, wp_previous_balances; rewrite ?Hd2.
  { apply Hr2. } { unfold typed_balances, rows. simpl. by rewrite Hb2. }
  { intros e w' Hh. apply He. left. by eapply leads_sick. }
  intros w3 Hl3. pose proof (leads_trans _ _ _ _ _ Hl Hl3) as Hl'. clear Hl3.
  pose proof (leads_db _ _ _ Hl') as Hd3.
  assert (previous_balances d2 idx = previous_balances (w_db w) idx) as ->.
  { unfold previous_balances, balances_at, balance_entries, rows. simpl. by rewrite Hb2. }
  apply wp_seq, wp_process_mints; rewrite Hd3; [done|..].
  { intros e w' [Hh|Hn]; apply He; [left; by eapply leads_sick|right]. intros [_ _ Hm _ _]. apply Hn.
    unfold mints_storable, mint_storable. rewrite Hf2. by destruct (w_db w). }
  intros ms d4 w4 Hs4 Hl4. pose proof (leads_trans _ _ _ _ _ Hl' Hl4) as Hl5. clear Hl4.
  pose proof (leads_db _ _ _ Hl5) as Hd4. pose proof (mint_steps_ready _ _ _ _ _ _ Hs4 Hr2) as Hr4.
  pose proof (mint_steps_frame _ _ _ _ _ _ Hs4) as (_ & Hf4 & _).
  apply wp_sync_burns; rewrite ?Hd4; [done|apply credits_u64, previous_balances_u64|
    apply collect_burns_ids|..].
  - intros e w' [Hh|[Hn|Hn]]; apply He; [left; by eapply leads_sick|right..]; intros [_ _ _ Hb Hbal];
      apply Hn; unfold burns_storable; rewrite Hf4, Hf2; by destruct (w_db w).
  - intros bs ids d5 d' w' Hs5 Hi Hl6. eapply Ho; [by eapply synced_intro|]. by eapply leads_trans.
Qed.

Lemma raises_process_mint idx ts acc tx : never_retries (ReserveAuditorDb.process_mint idx ts acc tx).
Proof.
  unfold ReserveAuditorDb.process_mint. destruct acc.
  apply raises_bind; [apply raises_lookup|]. intros o. solve_raises.
Qed.

Lemma raises_process_burn acc b : never_retries (ReserveAuditorDb.process_burn acc b).
Proof. unfold ReserveAuditorDb.process_burn. solve_raises. Qed.

Lemma raises_sync_body idx contents ts :
  never_retries (ReserveAuditorDb.sync_block_body idx contents ts).
Proof.
  unfold ReserveAuditorDb.sync_block_body, MintConfigTx.insert_from_core_mint_config_tx.
  solve_raises; [apply raises_process_mint|apply raises_process_burn].
Qed.

(** Synchronizing a block: all of it or nothing. *)
Lemma wp_sync_block_with_conn idx contents ts Q w :
  sync_ready (w_db w) -> typed_balances (w_db w) ->
  (forall e w', ~ healthy w \/ ~ block_storable (w_db w) idx contents ts ->
     w_db w' = w_db w -> Q (Err e) w') ->
  (forall data d' w', synced idx contents ts (w_db w) data d' -> leads w d' w' -> Q (Ok data) w') ->
  wp (ReserveAuditorDb.sync_block_with_conn idx contents ts) Q w.
Proof.
  intros Hr Ht He Ho. apply wp_transaction; [apply raises_sync_body| |].
  { intros f w' Hh Hl. apply He; [by left|by apply leads_db in Hl]. }
  intros w1 Hl1. pose proof (leads_db _ _ _ Hl1) as Hd1.
  apply wp_sync_body; rewrite ?Hd1; [done..| |].
  - intros e w' [Hh|Hn]; (apply He; [|done]); [left; by eapply leads_sick|by right].
  - intros data d' w' Hs Hl. eapply Ho; [done|]. by eapply leads_trans.
Qed.

Lemma wp_sync_block idx contents ts Q w :
  sync_ready (w_db w) -> typed_balances (w_db w) ->
  (forall e w', ~ healthy w \/ ~ block_storable (w_db w) idx contents ts ->
     w_db w' = w_db w -> Q (Err e) w') ->
  (forall data d' w', synced idx contents ts (w_db w) data d' -> leads w d' w' -> Q (Ok data) w') ->
  wp (ReserveAuditorDb.sync_block idx contents ts) Q w.
Proof.
  intros Hr Ht He Ho. apply wp_seq, wp_get_conn.
  { intros f w' Hh Hl. apply He; [by left|by apply leads_db in Hl]. }
  intros w1 Hl1. pose proof (leads_db _ _ _ Hl1) as Hd1.
  apply wp_sync_block_with_conn; rewrite ?Hd1; [done..| |].
  - intros e w' [Hh|Hn] Hw'; (apply He; [|done]); [left; by eapply leads_sick|by right].
  - intros data d' w' Hs Hl. eapply Ho; [done|]. by eapply leads_trans.
Qed.
End steps.
