(* ===== verification/LedgerSpec.v ===== *)
(** * What the database should say about the ledger

    A reference model of the audit of a ledger, independent of the database: the
    balance of every token after a list of blocks, the burns that exceed it, the
    mints, burns and configurations the blocks hold.  [mirrors blocks d] says that
    the database [d] is the record of exactly these blocks. *)

From S2P Require Import Prelude Externals Concrete GnosisTypes Errors Schema Database.
From S2P Require Import CountersModel Blocks Mints Burns SyncBlock.

(** ** The reference model *)
Section reference.
Context {X_mc : MobileCoin} {X_hex : Hex}.

(** Amounts minted and burned by a block: (token, amount), in order. *)
Definition mint_amounts (c : BlockContents) : list (Z * Z) :=
  (fun tx => (core_mint_tx_token_id tx, core_mint_tx_amount tx)) <$> bc_mint_txs c.
Definition burn_amount (o : TxOut) : option (Z * Z) :=
  match view_key_match o burn_address_view_private with
  | inr (amount, token) => Some (token, amount)
  | inl _ => None
  end.
Definition burn_amounts (c : BlockContents) : list (Z * Z) := omap burn_amount (bc_outputs c).

Definition balance_of (bal : gmap Z Z) (token : Z) : Z := default 0 (bal !! token).
Definition mint_into (bal : gmap Z Z) (p : Z * Z) : gmap Z Z :=
  <[p.1 := (balance_of bal p.1 + p.2) mod two64]> bal.
Definition burn_from (bal : gmap Z Z) (p : Z * Z) : gmap Z Z :=
  <[p.1 := Z.max 0 (balance_of bal p.1 - p.2)]> bal.

Definition block_balances (bal : gmap Z Z) (c : BlockContents) : gmap Z Z :=
  foldl burn_from (foldl mint_into bal (mint_amounts c)) (burn_amounts c).
Definition ledger_balances (blocks : list BlockContents) : gmap Z Z :=
  foldl block_balances ∅ blocks.

(** Burns of more than there was. *)
Fixpoint excess (bal : gmap Z Z) (burns : list (Z * Z)) : Z :=
  match burns with
  | [] => 0
  | p :: burns' =>
      (if balance_of bal p.1 <? p.2 then 1 else 0) + excess (burn_from bal p) burns'
  end.
Fixpoint ledger_excess (bal : gmap Z Z) (blocks : list BlockContents) : Z :=
  match blocks with
  | [] => 0
  | c :: blocks' =>
      excess (foldl mint_into bal (mint_amounts c)) (burn_amounts c)
      + ledger_excess (block_balances bal c) blocks'
  end.

(** Totals of one token. *)
Definition total (token : Z) (l : list (Z * Z)) : Z :=
  foldr (fun p s => (if p.1 =? token then p.2 else 0) + s) 0 l.
Definition ledger_total_minted (token : Z) (blocks : list BlockContents) : Z :=
  total token (blocks ≫= mint_amounts).
Definition ledger_total_burned (token : Z) (blocks : list BlockContents) : Z :=
  total token (blocks ≫= burn_amounts).

(** What a block contributes to each table: block index, token, amount or limit,
    nonce or key. *)
Definition entry : Type := Z * Z * Z * string.

Definition block_mints (i : nat) (c : BlockContents) : list entry :=
  (fun tx => (as_i64 (Z.of_nat i), as_i64 (core_mint_tx_token_id tx),
              as_i64 (core_mint_tx_amount tx), hex_encode (core_mint_tx_nonce tx)))
    <$> bc_mint_txs c.
Definition block_burns (i : nat) (c : BlockContents) : list entry :=
  omap (fun o => p ← burn_amount o;
          Some (as_i64 (Z.of_nat i), as_i64 p.1, as_i64 p.2,
                hex_encode (compressed_as_bytes (tx_out_public_key o)))) (bc_outputs c).
Definition block_configs (i : nat) (c : BlockContents) : list entry :=
  (fun tx => (as_i64 (Z.of_nat i), as_i64 (core_mint_config_tx_token_id tx),
              as_i64 (core_mint_config_tx_total_mint_limit tx),
              hex_encode (core_mint_config_tx_nonce tx)))
    <$> bc_mint_config_txs c.

Definition ledger_entries (f : nat -> BlockContents -> list entry) (blocks : list BlockContents)
  : list entry := mjoin (imap f blocks).

(** A ledger the consensus could have produced: nonces and public keys are never
    reused, a block configures a token once, recipients are real addresses. *)
Record valid_ledger (blocks : list BlockContents) : Prop := {
  vl_length : Z.of_nat (length blocks) < two63;
  vl_mint_nonces : NoDup (snd <$> ledger_entries block_mints blocks);
  vl_burn_keys : NoDup (snd <$> ledger_entries block_burns blocks);
  vl_config_nonces : NoDup (snd <$> ledger_entries block_configs blocks);
  vl_config_tokens c : c ∈ blocks ->
    NoDup (core_mint_config_tx_token_id <$> bc_mint_config_txs c);
  vl_recipients c tx : c ∈ blocks -> tx ∈ bc_mint_txs c ->
    exists addr, b58_encode (public_address_new (core_mint_tx_spend_public_key tx)
                   (core_mint_tx_view_public_key tx)) = inr addr;
}.
End reference.

(** ** The record of a ledger *)
Section mirrors.
Context {X_chrono : Chrono} {X_mc : MobileCoin} {X_hex : Hex}.

Definition mint_entry (m : MintTx) : entry :=
  (mt_block_index m, mt_token_id m, mt_amount m, mt_nonce_hex m).
Definition burn_entry (b : BurnTxOut) : entry :=
  (bto_block_index b, bto_token_id b, bto_amount b, bto_public_key_hex b).
Definition config_entry (t : MintConfigTx) : entry :=
  (mct_block_index t, mct_token_id t, mct_total_mint_limit t, mct_nonce_hex t).

(** Stored mints that no configuration allowed. *)
Definition flagged (m : MintTx) : bool := bool_decide (mt_mint_config_id m = None).

Record mirrors (blocks : list BlockContents) (d : Db) : Prop := {
  mir_count : counter_value num_blocks_synced d = Z.of_nat (length blocks);
  mir_indices : synced_indices d = seqZ 0 (Z.of_nat (length blocks));
  mir_balances i : (i < length blocks)%nat ->
    balances_at d (Z.of_nat i) = ledger_balances (take (S i) blocks);
  mir_balance_rows r : r ∈ rows (R := BlockBalance) d ->
    exists i, (i < length blocks)%nat /\ bal_block_index r = as_i64 (Z.of_nat i);
  mir_mints : mint_entry <$> rows d = ledger_entries block_mints blocks;
  mir_burns : burn_entry <$> rows d = ledger_entries block_burns blocks;
  mir_configs : config_entry <$> rows d = ledger_entries block_configs blocks;
  mir_excess : counter_value num_burns_exceeding_balance d = ledger_excess ∅ blocks;
  mir_flagged : counter_value num_mint_txs_without_matching_mint_config d
    = Z.of_nat (length (List.filter flagged (rows d)));
}.
End mirrors.

(** ** The reference model adds up *)
Section reference_lemmas.
Context {X_mc : MobileCoin} {X_hex : Hex}.

Lemma balance_of_insert bal t t' v :
  balance_of (<[t := v]> bal) t' = if t =? t' then v else balance_of bal t'.
Proof.
  unfold balance_of. destruct (Z.eqb_spec t t') as [->|].
  - by rewrite lookup_insert_eq.
  - by rewrite lookup_insert_ne.
Qed.

Lemma ledger_balances_snoc blocks c :
  ledger_balances (blocks ++ [c]) = block_balances (ledger_balances blocks) c.
Proof. unfold ledger_balances. by rewrite foldl_app. Qed.

Lemma ledger_excess_snoc bal blocks c :
  ledger_excess bal (blocks ++ [c]) = ledger_excess bal blocks
    + excess (foldl mint_into (foldl block_balances bal blocks) (mint_amounts c)) (burn_amounts c).
Proof. revert bal. induction blocks as [|b blocks IH]; intros bal; simpl; [lia|]. rewrite IH. lia. Qed.

Lemma excess_snoc bal burns p :
  excess bal (burns ++ [p]) = excess bal burns
    + (if balance_of (foldl burn_from bal burns) p.1 <? p.2 then 1 else 0).
Proof. revert bal. induction burns as [|b burns IH]; intros bal; simpl; [lia|]. rewrite IH. lia. Qed.

Lemma excess_nonneg bal burns : 0 <= excess bal burns.
Proof.
  revert bal. induction burns as [|b burns IH]; intros bal; simpl; [lia|].
  specialize (IH (burn_from bal b)). destruct (_ <? _); lia.
Qed.

Lemma ledger_excess_nonneg bal blocks : 0 <= ledger_excess bal blocks.
Proof.
  revert bal. induction blocks as [|b blocks IH]; intros bal; simpl; [lia|].
  specialize (IH (block_balances bal b)).
  pose proof (excess_nonneg (foldl mint_into bal (mint_amounts b)) (burn_amounts b)). lia.
Qed.

Lemma ledger_entries_snoc f blocks c :
  ledger_entries f (blocks ++ [c]) = ledger_entries f blocks ++ f (length blocks) c.
Proof.
  unfold ledger_entries. rewrite imap_app, join_app. simpl.
  by rewrite app_nil_r, Nat.add_0_r.
Qed.

Lemma ledger_entries_prefix f blocks blocks' :
  blocks `prefix_of` blocks' -> ledger_entries f blocks `prefix_of` ledger_entries f blocks'.
Proof.
  intros [k ->]. induction k as [|c k IH] using rev_ind; [by rewrite app_nil_r|].
  rewrite app_assoc, ledger_entries_snoc. etrans; [exact IH|]. by eexists.
Qed.

Lemma ledger_entries_elem f blocks e :
  e ∈ ledger_entries f blocks -> exists i c, blocks !! i = Some c /\ e ∈ f i c.
Proof.
  unfold ledger_entries. intros (l & He & Hl)%list_elem_of_join.
  apply list_elem_of_lookup in Hl as [i Hi]. rewrite list_lookup_imap in Hi.
  destruct (blocks !! i) as [c|] eqn:Ec; [|done]. injection Hi as <-. eauto.
Qed.

Lemma total_app t l k : total t (l ++ k) = total t l + total t k.
Proof. induction l as [|p l IH]; simpl; [done|]. rewrite IH. lia. Qed.

Lemma total_nonneg t l : Forall (fun p => 0 <= p.2) l -> 0 <= total t l.
Proof. induction 1 as [|p l Hp _ IH]; simpl; [lia|]. destruct (_ =? _); lia. Qed.

Context {L_mc : MobileCoinLaws}.

Lemma mint_amounts_u64 c : Forall (fun p => is_u64 p.1 /\ is_u64 p.2) (mint_amounts c).
Proof. apply Forall_fmap, Forall_true. intros tx. split; [apply mint_tx_token_u64|apply mint_tx_amount_u64]. Qed.

Lemma burn_amounts_u64 c : Forall (fun p => is_u64 p.1 /\ is_u64 p.2) (burn_amounts c).
Proof.
  apply Forall_forall. intros p (o & _ & Ho)%list_elem_of_omap. unfold burn_amount in Ho.
  destruct (view_key_match _ _) as [|[v t]] eqn:E; [done|]. injection Ho as <-.
  apply view_key_match_u64 in E. naive_solver.
Qed.

(** The totals of a prefix. *)
Lemma total_take token n blocks :
  ledger_total_minted token (take n blocks) <= ledger_total_minted token blocks.
Proof.
  unfold ledger_total_minted. rewrite <- (take_drop n blocks) at 2. rewrite bind_app, total_app.
  assert (0 <= total token (drop n blocks ≫= mint_amounts)); [|lia].
  apply total_nonneg, Forall_bind, Forall_true. intros c.
  eapply Forall_impl; [apply mint_amounts_u64|]. unfold is_u64. simpl. lia.
Qed.

(** Without wrap-around, crediting adds. *)
Lemma mint_into_balance bal l t :
  Forall (fun p => is_u64 p.1 /\ is_u64 p.2) l -> 0 <= balance_of bal t ->
  balance_of bal t + total t l < two64 ->
  balance_of (foldl mint_into bal l) t = balance_of bal t + total t l.
Proof.
  intros Hl. revert bal. induction Hl as [|p l [_ Hp] Hl IH]; intros bal Hb Ht; simpl in *; [lia|].
  assert (0 <= total t l) as Hnn by (apply total_nonneg; eapply Forall_impl; [done|]; unfold is_u64; simpl; lia).
  unfold is_u64 in Hp.
  assert (balance_of (mint_into bal p) t = balance_of bal t + (if p.1 =? t then p.2 else 0)) as E.
  { unfold mint_into. rewrite balance_of_insert. destruct (Z.eqb_spec p.1 t) as [E|]; [|lia].
    rewrite E. apply Z.mod_small. lia. }
  rewrite IH, E; [lia| |]; rewrite E; destruct (p.1 =? t); lia.
Qed.

(** Without excess, debiting subtracts. *)
Lemma burn_from_balance bal l t :
  excess bal l = 0 -> balance_of (foldl burn_from bal l) t = balance_of bal t - total t l.
Proof.
  revert bal. induction l as [|p l IH]; intros bal He; simpl in *; [lia|].
  pose proof (excess_nonneg (burn_from bal p) l).
  destruct (Z.ltb_spec (balance_of bal p.1) p.2) as [|Hle]; [lia|].
  rewrite IH by lia. unfold burn_from at 1. rewrite balance_of_insert.
  destruct (Z.eqb_spec p.1 t) as [E|]; [rewrite <- E|]; lia.
Qed.

Lemma ledger_balance_total bal blocks t :
  ledger_excess bal blocks = 0 -> 0 <= balance_of bal t ->
  balance_of bal t + total t (blocks ≫= mint_amounts) < two64 ->
  (forall t', 0 <= balance_of bal t') ->
  balance_of (foldl block_balances bal blocks) t
  = balance_of bal t + total t (blocks ≫= mint_amounts) - total t (blocks ≫= burn_amounts).
Proof.
  revert bal. induction blocks as [|c blocks IH]; intros bal He Hb Ht Hnn; simpl in *; [lia|].
  rewrite !total_app in *.
  change (list_bind _ _ mint_amounts blocks) with (blocks ≫= mint_amounts) in *.
  change (list_bind _ _ burn_amounts blocks) with (blocks ≫= burn_amounts) in *.
  pose proof (excess_nonneg (foldl mint_into bal (mint_amounts c)) (burn_amounts c)).
  pose proof (ledger_excess_nonneg (block_balances bal c) blocks).
  assert (0 <= total t (blocks ≫= mint_amounts)).
  { apply total_nonneg, Forall_bind, Forall_true. intros c'. eapply Forall_impl; [apply mint_amounts_u64|].
    unfold is_u64. simpl. lia. }
  assert (0 <= total t (burn_amounts c)).
  { apply total_nonneg. eapply Forall_impl; [apply burn_amounts_u64|]. unfold is_u64. simpl. lia. }
  assert (0 <= total t (mint_amounts c)).
  { apply total_nonneg. eapply Forall_impl; [apply mint_amounts_u64|]. unfold is_u64. simpl. lia. }
  assert (balance_of (block_balances bal c) t
    = balance_of bal t + total t (mint_amounts c) - total t (burn_amounts c)) as E.
  { unfold block_balances. rewrite burn_from_balance by lia.
    rewrite mint_into_balance; [lia|apply mint_amounts_u64|lia|lia]. }
  assert (forall t', 0 <= balance_of (block_balances bal c) t') as Hnn'.
  { intros t'. unfold block_balances. generalize (burn_amounts c). intros l.
    assert (forall l bal, (forall t, 0 <= balance_of bal t) ->
              0 <= balance_of (foldl burn_from bal l) t') as Hburn.
    { clear. induction l as [|p l IH]; intros bal Hb; simpl; [apply Hb|]. apply IH. intros t.
      unfold burn_from. rewrite balance_of_insert. destruct (_ =? _); [lia|apply Hb]. }
    apply Hburn. clear -Hnn. revert bal Hnn. induction (mint_amounts c) as [|p k IH]; intros bal Hb;
      simpl; [done|]. apply IH. intros t. unfold mint_into. rewrite balance_of_insert.
    destruct (_ =? _); [|apply Hb]. apply Z.mod_pos_bound. lia. }
  rewrite IH, E; [lia|lia|apply Hnn'|rewrite E; lia|done].
Qed.
End reference_lemmas.
