(* ===== verification/LedgerSync.v ===== *)
(** * Synchronizing refines the reference model

    Every successful [sync_block] takes the record of a list of blocks to the
    record of that list with one block more, and a valid ledger can always be
    extended. *)

From S2P Require Import Prelude Externals Concrete GnosisTypes Errors Schema Database.
From S2P Require Import CountersModel Blocks Mints Burns SyncBlock LedgerSpec.

Section refinement.
Context {X_chrono : Chrono} {X_sqlite : Sqlite} {L_sqlite : SqliteLaws}.
Context {X_hex : Hex} {X_mc : MobileCoin} {L_mc : MobileCoinLaws}.
Context {X_hash : HashOrder} {L_hash : HashOrderLaws}.
Implicit Types (w : World) (d : Db).

(** ** Amounts *)
Definition burn_pair (b : BurnTxOut) : Z * Z := (BurnTxOut.token_id b, BurnTxOut.amount b).

Lemma debit_burn_pair bal b : debit_burn bal b = burn_from bal (burn_pair b).
Proof.
  unfold debit_burn, ReserveAuditorDb.debit, burn_from, balance_of, burn_pair. simpl. f_equal.
  destruct (Z.ltb_spec (default 0 (bal !! BurnTxOut.token_id b)) (BurnTxOut.amount b)); lia.
Qed.

Lemma debit_burns bal bs : foldl debit_burn bal bs = foldl burn_from bal (burn_pair <$> bs).
Proof.
  revert bal. induction bs as [|b bs IH]; intros bal; simpl; [done|]. by rewrite IH, debit_burn_pair.
Qed.

Lemma credit_mints bal c :
  foldl credit_mint bal (bc_mint_txs c) = foldl mint_into bal (mint_amounts c).
Proof.
  unfold mint_amounts. revert bal. induction (bc_mint_txs c) as [|tx txs IH]; intros bal; simpl; [done|].
  by rewrite IH.
Qed.

Lemma from_core_burn idx ts o b :
  BurnTxOut.from_core_tx_out idx ts o = Ok b ->
  exists p, burn_amount o = Some p /\ burn_pair b = p /\
    burn_entry b = (as_i64 idx, as_i64 p.1, as_i64 p.2,
                    hex_encode (compressed_as_bytes (tx_out_public_key o))).
Proof.
  intros (v & t & E & ->)%from_core_tx_out_ok. exists (t, v). unfold burn_amount. rewrite E.
  apply view_key_match_u64 in E as [Hv Ht]. split; [done|]. split; [|done].
  unfold burn_pair, BurnTxOut.token_id, BurnTxOut.amount. simpl. by rewrite !as_u64_as_i64.
Qed.

Lemma from_core_not_burn idx ts o e :
  BurnTxOut.from_core_tx_out idx ts o = Err e -> burn_amount o = None.
Proof.
  unfold BurnTxOut.from_core_tx_out, burn_amount, from_ext, mbind, Res_bind, res_bind.
  by destruct (view_key_match _ _).
Qed.

Lemma collect_burns_cons idx ts o outs :
  ReserveAuditorDb.collect_burns idx ts (o :: outs) =
    match BurnTxOut.from_core_tx_out idx ts o with
    | Ok b => b :: ReserveAuditorDb.collect_burns idx ts outs
    | _ => ReserveAuditorDb.collect_burns idx ts outs
    end.
Proof. unfold ReserveAuditorDb.collect_burns. simpl. by destruct (BurnTxOut.from_core_tx_out _ _ _). Qed.

Lemma from_core_no_panic idx ts o p : BurnTxOut.from_core_tx_out idx ts o <> Panic p.
Proof.
  unfold BurnTxOut.from_core_tx_out, from_ext, mbind, Res_bind, res_bind.
  by destruct (view_key_match _ _).
Qed.

Lemma collect_burn_pairs idx ts c :
  burn_pair <$> ReserveAuditorDb.collect_burns idx ts (bc_outputs c) = burn_amounts c.
Proof.
  unfold burn_amounts. induction (bc_outputs c) as [|o outs IH]; [done|].
  rewrite collect_burns_cons. simpl.
  destruct (BurnTxOut.from_core_tx_out idx ts o) as [b|e|p] eqn:E.
  - apply from_core_burn in E as (p & -> & <- & _). simpl. f_equal. exact IH.
  - rewrite (from_core_not_burn _ _ _ _ E). exact IH.
  - by apply from_core_no_panic in E.
Qed.

Lemma collect_burn_entries i ts c :
  burn_entry <$> ReserveAuditorDb.collect_burns (Z.of_nat i) ts (bc_outputs c) = block_burns i c.
Proof.
  unfold block_burns. induction (bc_outputs c) as [|o outs IH]; [done|].
  rewrite collect_burns_cons. simpl.
  destruct (BurnTxOut.from_core_tx_out (Z.of_nat i) ts o) as [b|e|p] eqn:E.
  - apply from_core_burn in E as (p & -> & _ & Eb). simpl. rewrite Eb. f_equal. exact IH.
  - rewrite (from_core_not_burn _ _ _ _ E). exact IH.
  - by apply from_core_no_panic in E.
Qed.

(** ** What the steps write *)
Lemma mint_steps_entries i ts d txs ms d' :
  mint_steps (Z.of_nat i) ts d txs ms d' ->
  mint_entry <$> ms = (fun tx => (as_i64 (Z.of_nat i), as_i64 (core_mint_tx_token_id tx),
              as_i64 (core_mint_tx_amount tx), hex_encode (core_mint_tx_nonce tx))) <$> txs.
Proof.
  induction 1 as [d|d txs ms d1 tx m d2 _ IH Hs]; [done|]. rewrite !fmap_app, IH. f_equal. simpl.
  apply mint_step_frame in Hs as (_ & _ & En & Eb & Et & Ea).
  unfold mint_entry. by rewrite En, Eb, Et, Ea.
Qed.

Lemma mint_steps_protobufs idx ts d txs ms d' :
  mint_steps idx ts d txs ms d' -> mt_protobuf <$> ms = encode_mint_tx <$> txs.
Proof.
  induction 1 as [d|d txs ms d1 tx m d2 _ IH Hs]; [done|]. rewrite !fmap_app, IH. f_equal. simpl.
  destruct Hs as [o row i d3 _ _ Hrow _].
  by apply from_core_mint_tx_ok in Hrow as [addr ->].
Qed.

Lemma counter_value_insert_mint v i (m : MintTx) d :
  counter_value v (db_insert i m d) = counter_value v d.
Proof. done. Qed.

Lemma counter_value_insert_burn v i (b : BurnTxOut) d :
  counter_value v (db_insert i b d) = counter_value v d.
Proof. done. Qed.

Lemma mint_step_flagged idx ts d tx m d' :
  mint_step idx ts d tx m d' -> sync_ready d ->
  exists o, lookup_spec d idx tx o /\ mt_mint_config_id m = (o ≫= MintConfig.id) /\
    flagged m = bool_decide (o = None) /\
    forall v, counter_value v d' = counter_value v d +
      (if decide (v = num_mint_txs_without_matching_mint_config)
       then Z.of_nat (length (List.filter flagged [m])) else 0).
Proof.
  intros [o row i d1 Hl -> Hrow _] (Hd & _ & Hc). exists o. split; [done|].
  assert (mt_mint_config_id row = o ≫= MintConfig.id) as Em.
  { by apply from_core_mint_tx_ok in Hrow as [addr ->]. }
  split; [done|].
  assert (flagged (row_with_id i row) = bool_decide (o = None)) as Ef.
  { unfold flagged. simpl. rewrite Em. destruct o as [c|]; simpl; [|done].
    destruct Hl as (t & _ & _ & Hcr & _).
    pose proof (stored_has_id _ _ (ok_mint_configs _ Hd) Hcr) as (j & Ej & _). simpl in Ej.
    unfold MintConfig.id. by rewrite Ej. }
  split; [done|]. intros v.
  assert (length (List.filter flagged [row_with_id i row])
    = if bool_decide (o = None) then 1 else 0)%nat as ->.
  { unfold List.filter. rewrite Ef. by destruct (bool_decide _). }
  rewrite counter_value_insert_mint. destruct o as [c|].
  - rewrite bool_decide_eq_false_2 by done. destruct (decide _); lia.
  - rewrite bool_decide_eq_true_2, counter_value_bump by done. by repeat case_decide; simplify_eq.
Qed.

Lemma mint_steps_flagged idx ts d txs ms d' v :
  mint_steps idx ts d txs ms d' -> sync_ready d ->
  counter_value v d' = counter_value v d +
    (if decide (v = num_mint_txs_without_matching_mint_config)
     then Z.of_nat (length (List.filter flagged ms)) else 0).
Proof.
  intros Hs Hr. induction Hs as [d|d txs ms d1 tx m d2 Hs IH Hs2]; [destruct (decide _); simpl; lia|].
  pose proof (mint_steps_ready _ _ _ _ _ _ Hs Hr) as Hr1.
  apply mint_step_flagged in Hs2 as (_ & _ & _ & _ & E); [|done].
  rewrite E, IH by done. destruct (decide _); [|lia]. rewrite filter_app', length_app. lia.
Qed.

Lemma burn_steps_entries bal d bs bs' d' :
  burn_steps bal d bs bs' d' -> burn_entry <$> bs' = burn_entry <$> bs.
Proof.
  induction 1 as [d|d bs bs' d1 b b' d2 _ IH Hs]; [done|]. rewrite !fmap_app, IH. f_equal. simpl.
  apply burn_step_frame in Hs as (_ & _ & Ek & Et & Ea & Eb).
  unfold burn_entry. by rewrite Ek, Et, Ea, Eb.
Qed.

Lemma burn_step_counter bal d b b' d' v :
  burn_step bal d b b' d' -> counters_ok d ->
  counter_value v d' = counter_value v d +
    (if decide (v = num_burns_exceeding_balance)
     then (if balance_of bal (burn_pair b).1 <? (burn_pair b).2 then 1 else 0) else 0).
Proof.
  intros [i d1 -> _] Hc. rewrite counter_value_insert_burn.
  unfold balance_of, burn_pair. simpl fst. simpl snd. destruct (_ <? _).
  - rewrite counter_value_bump by done. by repeat case_decide; simplify_eq.
  - destruct (decide _); lia.
Qed.

Lemma burn_steps_counter bal d bs bs' d' v :
  burn_steps bal d bs bs' d' -> sync_ready d ->
  counter_value v d' = counter_value v d +
    (if decide (v = num_burns_exceeding_balance) then excess bal (burn_pair <$> bs) else 0).
Proof.
  intros Hs Hr. induction Hs as [d|d bs bs' d1 b b' d2 Hs IH Hs2]; [destruct (decide _); simpl; lia|].
  pose proof (burn_steps_ready _ _ _ _ _ Hs Hr) as (_ & _ & Hc1).
  rewrite (burn_step_counter _ _ _ _ _ v Hs2 Hc1), IH by done.
  rewrite fmap_app. simpl fmap. rewrite excess_snoc, <- debit_burns. destruct (decide _); lia.
Qed.

Lemma config_steps_entries i ts d txs d' :
  config_steps (Z.of_nat i) ts d txs d' ->
  config_entry <$> rows d' = (config_entry <$> rows d) ++
    ((fun tx => (as_i64 (Z.of_nat i), as_i64 (core_mint_config_tx_token_id tx),
              as_i64 (core_mint_config_tx_total_mint_limit tx),
              hex_encode (core_mint_config_tx_nonce tx))) <$> txs).
Proof.
  induction 1 as [d|d t txs j d1 d2 Hs _ IH]; [by rewrite app_nil_r|].
  apply stores_config_tx_frame in Hs as (Hr & _ & _). rewrite IH, Hr, fmap_app, <- app_assoc. done.
Qed.

(** ** One block more *)
Lemma synced_frame idx c ts d data d' :
  synced idx c ts d data d' ->
  rows (R := MintTx) d' = rows d ++ sbd_mint_txs data /\
  rows (R := BurnTxOut) d' = rows d ++ sbd_burn_tx_outs data /\
  rows (R := GnosisSafeTx) d' = rows d /\ rows (R := GnosisSafeDeposit) d' = rows d /\
  rows (R := GnosisSafeWithdrawal) d' = rows d /\ rows (R := AuditedMint) d' = rows d /\
  rows (R := AuditedBurn) d' = rows d.
Proof.
  intros [d1 d2 d3 d5 d'' ms bs ids _ Hs1 Hs2 bal burns Hs3 bal' -> [_ ->]%inserts_db]. simpl.
  pose proof (config_steps_frame _ _ _ _ _ Hs1) as [F1 _].
  pose proof (mint_steps_frame _ _ _ _ _ _ Hs2) as (R2 & F2 & _).
  pose proof (burn_steps_frame _ _ _ _ _ Hs3) as (R3 & F3 & _).
  assert (mint_txs d1 = mint_txs d /\ burn_tx_outs d2 = burn_tx_outs d /\
    mint_txs d3 = mint_txs d2 /\ gnosis_safe_txs d3 = gnosis_safe_txs d /\
    gnosis_safe_deposits d3 = gnosis_safe_deposits d /\
    gnosis_safe_withdrawals d3 = gnosis_safe_withdrawals d /\
    audited_mints d3 = audited_mints d /\ audited_burns d3 = audited_burns d)
    as (E1 & E2 & E3 & E4 & E5 & E6 & E7 & E8).
  { split_and!; [by rewrite F1|by rewrite F2, F1|by rewrite F3|by rewrite F3, F2, F1..]. }
  unfold rows in *. simpl in *. rewrite E3, R2, E1, R3, E2, E4, E5, E6, E7, E8. done.
Qed.

Lemma synced_sync_ready idx c ts d data d' :
  synced idx c ts d data d' -> sync_ready d -> typed_balances d ->
  evolves d d' /\ sync_ready d' /\ typed_balances d'.
Proof.
  intros [d1 d2 d3 d5 d'' ms bs ids _ Hs1 Hs2 bal burns Hs3 bal' E5 Hi] Hr Ht.
  pose proof (config_steps_frame _ _ _ _ _ Hs1) as [F1 R1].
  pose proof (mint_steps_frame _ _ _ _ _ _ Hs2) as (_ & F2 & _).
  pose proof (burn_steps_frame _ _ _ _ _ Hs3) as (_ & F3 & _).
  pose proof (burn_steps_ready _ _ _ _ _ Hs3 (mint_steps_ready _ _ _ _ _ _ Hs2 (R1 Hr))) as (D3 & C3 & K3).
  assert (evolves d3 d'') as E3.
  { etrans; [apply (bump_evolves num_blocks_synced)|].
    etrans; [|exact (inserts_rel (R := BlockBalance) evolves _ _ _ _ Hi)]. subst d5.
    exact (evolves_record_block _ _ (BlockAuditData.new idx) eq_refl eq_refl). }
  assert (evolves d d3) as E0.
  { etrans; [by eapply config_steps_evolves|]. etrans; [by eapply mint_steps_evolves|].
    by eapply burn_steps_evolves. }
  split; [by etrans|]. split.
  - split; [by apply E3|]. apply inserts_db in Hi as [_ ->]. subst d5. split; [by intros x Hx; apply C3|].
    by apply (counters_ok_bump num_blocks_synced).
  - eapply inserts_typed_balances; [done|]. subst d5. unfold typed_balances, rows. simpl.
    rewrite F3, F2, F1. by destruct d.
Qed.

Lemma as_u64_counter blocks d :
  mirrors blocks d -> Z.of_nat (length blocks) < two63 ->
  as_u64 (counter_value num_blocks_synced d) = Z.of_nat (length blocks).
Proof. intros Hm Hl. rewrite (mir_count _ _ Hm). apply as_u64_small. unfold is_u64. lia. Qed.

(** A block index below the length of a ledger as SQLite stores it. *)
Lemma as_i64_index i : Z.of_nat i < two63 -> as_i64 (Z.of_nat i) = Z.of_nat i.
Proof. intros. apply as_i64_small; unfold is_i64; lia. Qed.

(** No block of the same index has been recorded. *)
Lemma mirrors_fresh blocks d :
  mirrors blocks d -> Z.of_nat (length blocks) < two63 ->
  (as_i64 (Z.of_nat (length blocks)) ∉ (audit_block_index <$> rows (R := BlockAuditData) d)) /\
  forall r, r ∈ rows (R := BlockBalance) d -> bal_block_index r <> as_i64 (Z.of_nat (length blocks)).
Proof.
  intros Hm Hl. split.
  - intros Hin. change (as_i64 (Z.of_nat (length blocks)) ∈ synced_indices d) in Hin.
    rewrite (mir_indices _ _ Hm), as_i64_index in Hin by lia. apply elem_of_seqZ in Hin. lia.
  - intros r Hr E. apply (mir_balance_rows _ _ Hm) in Hr as (i & Hi & E').
    rewrite E' in E. rewrite !as_i64_index in E by lia. lia.
Qed.

Lemma previous_balances_mirrors blocks d :
  mirrors blocks d -> Z.of_nat (length blocks) < two63 ->
  previous_balances d (Z.of_nat (length blocks)) = ledger_balances blocks.
Proof.
  intros Hm Hl. unfold previous_balances. destruct (Z.eqb_spec (Z.of_nat (length blocks)) 0) as [E|E].
  - destruct blocks; [done|simpl in E; lia].
  - replace (Z.of_nat (length blocks) - 1) with (Z.of_nat (length blocks - 1)) by lia.
    rewrite (mir_balances _ _ Hm) by lia. f_equal. rewrite firstn_all2; [done|lia].
Qed.

(** The balances and the bookkeeping of the last statements. *)
Lemma synced_tail blocks c d3 bal ids d' :
  let n := Z.of_nat (length blocks) in
  n < two63 -> u64_map bal ->
  as_i64 n ∉ audit_block_index <$> rows (R := BlockAuditData) d3 ->
  (forall r, r ∈ rows (R := BlockBalance) d3 -> bal_block_index r <> as_i64 n) ->
  synced_indices d3 = seqZ 0 n ->
  (forall r, r ∈ rows (R := BlockBalance) d3 ->
     exists i, (i < length blocks)%nat /\ bal_block_index r = as_i64 (Z.of_nat i)) ->
  (forall i, (i < length blocks)%nat ->
     balances_at d3 (Z.of_nat i) = ledger_balances (take (S i) blocks)) ->
  bal = ledger_balances (blocks ++ [c]) ->
  inserts (record_block n (bump_db num_blocks_synced d3)) (balance_rows n bal) ids d' ->
  synced_indices d' = seqZ 0 (n + 1) /\
  (forall i, (i < S (length blocks))%nat ->
     balances_at d' (Z.of_nat i) = ledger_balances (take (S i) (blocks ++ [c]))) /\
  (forall r, r ∈ rows (R := BlockBalance) d' ->
     exists i, (i < S (length blocks))%nat /\ bal_block_index r = as_i64 (Z.of_nat i)).
Proof.
  intros n Hn Hu Hf Hfb Hi Hr Hb -> Hins. split_and!.
  - assert (synced_indices d' = synced_indices (record_block n (bump_db num_blocks_synced d3))) as ->.
    { apply inserts_db in Hins as [_ ->]. done. }
    rewrite record_block_fresh by exact Hf.
    change (synced_indices (bump_db num_blocks_synced d3)) with (synced_indices d3).
    unfold n in *. rewrite Hi, seqZ_app, as_i64_index by lia. done.
  - intros i Hi'. rewrite (inserts_balances _ _ _ _ _ _ Hins Hu).
    2: { split; [apply record_block_index; by left|exact Hfb]. }
    unfold n. rewrite !as_i64_index by lia.
    destruct (Z.eqb_spec (Z.of_nat (length blocks)) (Z.of_nat i)) as [E|E].
    + f_equal. rewrite firstn_all2; [done|]. rewrite length_app. simpl. lia.
    + change (balances_at (record_block _ (bump_db _ d3))) with (balances_at d3).
      rewrite Hb by lia. f_equal. rewrite take_app_le by lia. done.
  - intros r Hin. unfold rows in Hin. rewrite (inserts_get _ _ _ _ Hins), fmap_app in Hin.
    apply elem_of_app in Hin as [Hin|Hin].
    + destruct (Hr r Hin) as (i & Hi' & E). exists i. split; [lia|done].
    + apply list_elem_of_fmap in Hin as ([j r'] & -> & Hin). simpl.
      apply elem_of_lookup_zip_with in Hin as (k & a & r0 & E & _ & Hk). injection E as -> ->.
      apply list_elem_of_lookup_2 in Hk. apply list_elem_of_fmap in Hk as (p & -> & _).
      exists (length blocks). split; [lia|done].
Qed.

(** What a block adds to the counters. *)
Lemma synced_counters idx c ts d data d' v :
  synced idx c ts d data d' -> sync_ready d ->
  counter_value v d' = counter_value v d
    + (if decide (v = num_mint_txs_without_matching_mint_config)
       then Z.of_nat (length (List.filter flagged (sbd_mint_txs data))) else 0)
    + (if decide (v = num_burns_exceeding_balance)
       then excess (foldl credit_mint (previous_balances d idx) (bc_mint_txs c))
              (burn_pair <$> ReserveAuditorDb.collect_burns idx ts (bc_outputs c)) else 0)
    + (if decide (num_blocks_synced = v) then 1 else 0).
Proof.
  intros [d1 d2 d3 d5 d'' ms bs ids E Hs1 Hs2 bal burns Hs3 bal' E5 Hi] Hr.
  pose proof (config_steps_frame _ _ _ _ _ Hs1) as [F1 R1].
  pose proof (mint_steps_ready _ _ _ _ _ _ Hs2 (R1 Hr)) as Hr2.
  pose proof (burn_steps_ready _ _ _ _ _ Hs3 Hr2) as (_ & _ & K3).
  assert (counter_value v d'' = counter_value v d3 + (if decide (num_blocks_synced = v) then 1 else 0)) as ->.
  { rewrite <- counter_value_bump by done. apply inserts_db in Hi as [_ ->]. subst d5. done. }
  rewrite (burn_steps_counter _ _ _ _ _ _ Hs3 Hr2), (mint_steps_flagged _ _ _ _ _ _ _ Hs2 (R1 Hr)).
  assert (counter_value v d1 = counter_value v d) as -> by (unfold counter_value; by rewrite F1).
  reflexivity.
Qed.

Lemma synced_mirrors idx c ts blocks d data d' :
  synced idx c ts d data d' -> mirrors blocks d -> sync_ready d ->
  Z.of_nat (length blocks) < two63 ->
  idx = Z.of_nat (length blocks) /\ mirrors (blocks ++ [c]) d' /\
  sbd_balance_map data = ledger_balances (blocks ++ [c]).
Proof.
  intros Hsync Hm Hr Hl. pose proof (synced_frame _ _ _ _ _ _ Hsync) as (Rm & Rb & _).
  pose proof (fun v => synced_counters _ _ _ _ _ _ v Hsync Hr) as Cv.
  destruct Hsync as [d1 d2 d3 d5 d'' ms bs ids E Hs1 Hs2 bal burns Hs3 bal' E5 Hi].
  rewrite (as_u64_counter _ _ Hm Hl) in E. subst idx. simpl in Rm, Rb, Cv.
  fold bal burns in Cv.
  pose proof (config_steps_frame _ _ _ _ _ Hs1) as [F1 _].
  pose proof (mint_steps_frame _ _ _ _ _ _ Hs2) as (_ & F2 & _).
  pose proof (burn_steps_frame _ _ _ _ _ Hs3) as (_ & F3 & _).
  assert (bal = foldl mint_into (ledger_balances blocks) (mint_amounts c)) as Ebal.
  { unfold bal. by rewrite previous_balances_mirrors, credit_mints. }
  assert (burn_pair <$> burns = burn_amounts c) as Eburns by apply collect_burn_pairs.
  assert (bal' = ledger_balances (blocks ++ [c])) as Ebal'.
  { unfold bal'. rewrite debit_burns, Ebal, Eburns. by rewrite ledger_balances_snoc. }
  assert (u64_map bal') as Hu by (apply debits_u64, credits_u64, previous_balances_u64).
  pose proof (mirrors_fresh _ _ Hm Hl) as [Hf1 Hf2].
  assert (block_audit_data d3 = block_audit_data d /\ block_balance d3 = block_balance d /\
    mint_config_txs d3 = mint_config_txs d1) as (G1 & G2 & G3).
  { split_and!; [by rewrite F3, F2, F1..|by rewrite F3, F2]. }
  split; [done|]. split; [|done].
  destruct (synced_tail blocks c d3 bal' ids d'') as (T1 & T2 & T3); [done|done|..].
  { unfold rows. simpl. by rewrite G1. } { unfold rows. simpl. by rewrite G2. }
  { unfold synced_indices, rows. simpl. rewrite G1. apply Hm. }
  { unfold rows. simpl. rewrite G2. apply Hm. }
  { unfold balances_at, balance_entries, rows. simpl. rewrite G2. apply Hm. }
  { done. } { by rewrite <- E5. }
  split; rewrite ?length_app; simpl.
  - rewrite Cv, (mir_count _ _ Hm). simpl. lia.
  - rewrite T1. f_equal. lia.
  - intros i Hi'. apply T2. lia.
  - intros r Hr'. destruct (T3 r Hr') as (i & Hi' & ?). exists i. split; [lia|done].
  - rewrite Rm, fmap_app, (mir_mints _ _ Hm), ledger_entries_snoc. f_equal.
    by eapply mint_steps_entries.
  - rewrite Rb, fmap_app, (mir_burns _ _ Hm), ledger_entries_snoc. f_equal.
    rewrite (burn_steps_entries _ _ _ _ _ Hs3). apply collect_burn_entries.
  - assert (rows (R := MintConfigTx) d'' = rows d1) as ->.
    { apply inserts_db in Hi as [_ ->]. subst d5. unfold rows. simpl. by rewrite G3. }
    rewrite (config_steps_entries _ _ _ _ _ Hs1), (mir_configs _ _ Hm), ledger_entries_snoc. done.
  - rewrite Cv, (mir_excess _ _ Hm), ledger_excess_snoc, Ebal, Eburns. simpl.
    unfold ledger_balances. lia.
  - rewrite Cv, (mir_flagged _ _ Hm), Rm, filter_app', length_app. simpl. lia.
Qed.

(** ** A valid ledger can be stored *)

(** The entries of one block are new and distinct. *)
Lemma entries_fresh f blocks i c :
  NoDup (snd <$> ledger_entries f blocks) -> blocks !! i = Some c ->
  NoDup (snd <$> f i c) /\
  forall e, e ∈ f i c -> e.2 ∉ (snd <$> ledger_entries f (take i blocks)).
Proof.
  intros Hnd Hi. assert (take (S i) blocks = take i blocks ++ [c]) as E by by apply take_S_r.
  assert (NoDup (snd <$> ledger_entries f (take (S i) blocks))) as Hnd'.
  { eapply sublist_NoDup; [exact Hnd|]. apply fmap_sublist.
    destruct (ledger_entries_prefix f (take (S i) blocks) blocks) as [k ->].
    - exists (drop (S i) blocks). by rewrite take_drop.
    - by apply sublist_inserts_r. }
  rewrite E, ledger_entries_snoc, length_take_le, fmap_app, NoDup_app in Hnd'.
  2: { apply lookup_lt_Some in Hi. lia. }
  destruct Hnd' as (_ & Hdis & Hnd2). split; [done|]. intros e He Hin. apply (Hdis e.2); [done|].
  apply list_elem_of_fmap. eauto.
Qed.

Lemma mirrored_column {R} (g : R -> string) (h : R -> entry) (l : list R) entries :
  h <$> l = entries -> (forall r, (h r).2 = g r) -> g <$> l = snd <$> entries.
Proof.
  intros <- Hg. rewrite <- list_fmap_compose. apply list_fmap_ext. intros ? r _. simpl. by rewrite Hg.
Qed.

Lemma valid_storable blocks i c d ts :
  valid_ledger blocks -> blocks !! i = Some c -> mirrors (take i blocks) d ->
  block_storable d (Z.of_nat i) c ts.
Proof.
  intros Hv Hi Hm. pose proof (lookup_lt_Some _ _ _ Hi) as Hlt.
  assert (length (take i blocks) = i) as El by (rewrite length_take; lia).
  pose proof (vl_length _ Hv) as Hl.
  assert (Z.of_nat (length (take i blocks)) < two63) as Hl' by lia.
  pose proof (mirrors_fresh _ _ Hm Hl') as [_ Hfresh]. rewrite El in Hfresh.
  destruct (entries_fresh _ _ _ _ (vl_mint_nonces _ Hv) Hi) as [Hm1 Hm2].
  destruct (entries_fresh _ _ _ _ (vl_burn_keys _ Hv) Hi) as [Hb1 Hb2].
  destruct (entries_fresh _ _ _ _ (vl_config_nonces _ Hv) Hi) as [Hc1 Hc2].
  apply list_elem_of_lookup_2 in Hi as Hin. split.
  - by rewrite (as_u64_counter _ _ Hm Hl'), El.
  - unfold block_configs in Hc1. split_and!.
    + intros t r Ht Hr. split.
      * intros E. refine (Hc2 _ (list_elem_of_fmap_2 _ _ _ Ht) _). cbn [snd]. rewrite <- E.
        rewrite <- (mirrored_column mct_nonce_hex config_entry (rows d) _ (mir_configs _ _ Hm)) by done.
        by apply list_elem_of_fmap_2.
      * intros [E _]. apply (list_elem_of_fmap_2 config_entry) in Hr. rewrite (mir_configs _ _ Hm) in Hr.
        apply ledger_entries_elem in Hr as (j & c' & Hj & Hr). apply lookup_lt_Some in Hj as Hj'.
        unfold block_configs in Hr. apply list_elem_of_fmap in Hr as (t' & Et & _).
        unfold config_entry in Et. injection Et as Et _ _ _. rewrite Et in E.
        rewrite !as_i64_index in E by lia. lia.
    + rewrite <- list_fmap_compose in Hc1. exact Hc1.
    + rewrite list_fmap_compose. apply NoDup_fmap_2_strong; [|by eapply vl_config_tokens].
      intros x y (t & -> & _)%list_elem_of_fmap (t' & -> & _)%list_elem_of_fmap.
      apply as_i64_inj; apply mint_config_tx_token_u64.
  - unfold block_mints in Hm1. split.
    + apply Forall_forall. intros tx Htx. split; [by eapply vl_recipients|]. intros Hn.
      refine (Hm2 _ (list_elem_of_fmap_2 _ _ _ Htx) _). cbn [snd].
      by rewrite <- (mirrored_column mt_nonce_hex mint_entry (rows d) _ (mir_mints _ _ Hm)).
    + rewrite <- list_fmap_compose in Hm1. exact Hm1.
  - rewrite <- (collect_burn_entries i ts c) in Hb1, Hb2. split_and!.
    + apply collect_burns_ids.
    + apply Forall_forall. intros b Hb Hn. apply (Hb2 _ (list_elem_of_fmap_2 _ _ _ Hb)). cbn [snd].
      by rewrite <- (mirrored_column bto_public_key_hex burn_entry (rows d) _ (mir_burns _ _ Hm)).
    + rewrite <- list_fmap_compose in Hb1. exact Hb1.
  - exact Hfresh.
Qed.
End refinement.
