(* ===== verification/MintVerdicts.v ===== *)
(** * Which configuration a mint is judged by

    The configuration of a mint is looked up while its block is being written, but
    what is found depends on the blocks before it alone. *)

From S2P Require Import Prelude Externals Concrete GnosisTypes Errors Schema Database.
From S2P Require Import CountersModel Blocks Mints Burns SyncBlock LedgerSpec LedgerSync.

Section stability.
Context {X_chrono : Chrono} {X_sqlite : Sqlite} {L_sqlite : SqliteLaws}.
Context {X_hex : Hex} {X_mc : MobileCoin} {L_mc : MobileCoinLaws}.
Implicit Types (w : World) (d : Db).

(** [d'] adds to [d] only rows of block [idx]. *)
Record within_block (idx : Z) d d' : Prop := {
  wb_config_txs : exists ts, rows (R := MintConfigTx) d' = rows d ++ ts /\
    Forall (fun t => mct_block_index t = as_i64 idx) ts;
  wb_configs : exists cs, rows (R := MintConfig) d' = rows d ++ cs /\
    Forall (fun c => mc_mint_config_tx_id c ∉ (mint_config_txs d).*1) cs;
  wb_mints : exists ms, rows (R := MintTx) d' = rows d ++ ms /\
    Forall (fun m => mt_block_index m = as_i64 idx) ms;
  wb_ids : forall i, i ∈ (mint_config_txs d).*1 -> i ∈ (mint_config_txs d').*1;
}.

Lemma within_block_refl idx d : within_block idx d d.
Proof. split; [exists []..|done]; by rewrite app_nil_r. Qed.

Lemma within_block_trans idx d1 d2 d3 :
  within_block idx d1 d2 -> within_block idx d2 d3 -> within_block idx d1 d3.
Proof.
  intros [(t1 & Et1 & T1) (c1 & Ec1 & C1) (m1 & Em1 & M1) I1]
         [(t2 & Et2 & T2) (c2 & Ec2 & C2) (m2 & Em2 & M2) I2]. split.
  - exists (t1 ++ t2). rewrite Et2, Et1, app_assoc. split; [done|]. by apply Forall_app.
  - exists (c1 ++ c2). rewrite Ec2, Ec1, app_assoc. split; [done|]. apply Forall_app. split; [done|].
    eapply Forall_impl; [done|]. intros c Hc Hin. by apply Hc, I1.
  - exists (m1 ++ m2). rewrite Em2, Em1, app_assoc. split; [done|]. by apply Forall_app.
  - auto.
Qed.

Lemma stores_within_block idx ts d t cs i d' :
  stores_config_tx d (MintConfigTx.from_core_mint_config_tx idx ts t) cs i d' ->
  within_block idx d d'.
Proof.
  intros Hs. pose proof (stores_config_tx_frame _ _ _ _ _ Hs) as (Hr & Hf & ids & Hc & Hl).
  destruct Hs as [[_ Hfresh _ _] (ids' & Hi)]. split.
  - eexists. split; [exact Hr|]. by apply Forall_singleton.
  - eexists. split; [exact Hc|]. apply Forall_forall. intros c Hin.
    apply elem_of_lookup_zip_with in Hin as (k & j & c0 & -> & _ & Hk).
    apply list_elem_of_lookup_2 in Hk. unfold config_rows in Hk.
    apply list_elem_of_fmap in Hk as (core & -> & _). exact Hfresh.
  - exists []. rewrite app_nil_r. split; [|done]. rewrite Hf. by destruct d.
  - intros j Hj. apply inserts_db in Hi as [_ ->]. simpl. rewrite fmap_app. set_solver.
Qed.

Lemma config_steps_within idx ts d txs d' : config_steps idx ts d txs d' -> within_block idx d d'.
Proof.
  induction 1 as [d|d t txs i d1 d2 Hs _ IH]; [apply within_block_refl|].
  eapply within_block_trans; [by eapply stores_within_block|done].
Qed.

Lemma mint_steps_within idx ts d txs ms d' : mint_steps idx ts d txs ms d' -> within_block idx d d'.
Proof.
  induction 1 as [d|d txs ms d1 tx m d2 _ IH Hs]; [apply within_block_refl|].
  eapply within_block_trans; [done|].
  apply mint_step_frame in Hs as (Hr & Hf & _ & Eb & _). split.
  - exists []. rewrite app_nil_r. split; [|done]. rewrite Hf. by destruct d1.
  - exists []. rewrite app_nil_r. split; [|done]. rewrite Hf. by destruct d1.
  - eexists. split; [exact Hr|]. by apply Forall_singleton.
  - rewrite Hf. by destruct d1.
Qed.

Lemma find_app_stored {A} (f : A -> bool) l k x :
  x ∈ l -> f x = true -> List.find f (l ++ k) = List.find f l.
Proof.
  induction l as [|y l IH]; [by intros ?%elem_of_nil|]. simpl. intros Hx Hf.
  destruct (f y) eqn:E; [done|]. apply IH; [|done]. apply elem_of_cons in Hx as [->|]; [congruence|done].
Qed.

Lemma config_of_within idx d d' m :
  within_block idx d d' -> integrity d -> m ∈ rows d -> config_of d' m = config_of d m.
Proof.
  intros [_ (cs & Ec & _) _ _] Hd Hm. unfold config_of.
  destruct (mt_mint_config_id m) as [i|] eqn:Ei; [|done].
  apply rows_elem_of in Hm as [j Hj]. pose proof (fk_mint_txs _ Hd _ Hj) as Hk. simpl in Hk.
  rewrite Ei in Hk. destruct (has_id_stored (R := MintConfig) d _ (ok_mint_configs _ Hd) Hk) as (c & Hc & Ic).
  rewrite Ec. eapply find_app_stored; [exact Hc|]. by apply id_is_true.
Qed.

Lemma config_tx_of_within idx d d' c :
  within_block idx d d' -> integrity d -> c ∈ rows d -> config_tx_of d' c = config_tx_of d c.
Proof.
  intros [(ts & Et & _) _ _ _] Hd Hc. unfold config_tx_of.
  apply rows_elem_of in Hc as [j Hj]. pose proof (fk_mint_configs _ Hd _ Hj) as Hk. simpl in Hk.
  destruct (has_id_stored (R := MintConfigTx) d _ (ok_mint_config_txs _ Hd) Hk) as (t & Ht & It).
  rewrite Et. eapply find_app_stored; [exact Ht|]. by apply id_is_true.
Qed.

Lemma filter_ext_elem {A} (f g : A -> bool) l :
  (forall x, x ∈ l -> f x = g x) -> List.filter f l = List.filter g l.
Proof.
  induction l as [|x l IH]; intros H; [done|]. simpl. rewrite H by by left.
  rewrite IH; [done|]. intros y Hy. apply H. by right.
Qed.

Lemma total_minted_within idx k d d' q :
  within_block idx d d' -> integrity d -> as_i64 k <= as_i64 idx ->
  total_minted d' q k = total_minted d q k.
Proof.
  intros Hw Hd Hle. destruct (wb_mints _ _ _ Hw) as (ms & Em & Hms). unfold total_minted.
  rewrite Em, filter_app'.
  assert (List.filter (counted d' q k) ms = []) as ->.
  { clear Em. induction Hms as [|m ms Hm _ IH]; [done|]. simpl.
    assert (counted d' q k m = false) as ->; [|exact IH].
    unfold counted. destruct (config_of d' m) as [c|]; [|done].
    destruct (config_tx_of d' c); [|done]. rewrite Hm.
    assert ((as_i64 idx <? as_i64 k) = false) as -> by by apply Z.ltb_ge. by rewrite andb_false_r. }
  rewrite app_nil_r. do 2 f_equal. apply filter_ext_elem. intros m Hm. unfold counted.
  rewrite (config_of_within idx d d' m) by done. destruct (config_of d m) as [c|] eqn:Ec; [|done].
  rewrite (config_tx_of_within idx d d' c); [done..|].
  unfold config_of in Ec. destruct (mt_mint_config_id m); [|done]. by apply find_Some_elem in Ec as [].
Qed.

Lemma most_recent_within idx k d d' token t :
  within_block idx d d' -> as_i64 k <= as_i64 idx ->
  most_recent d' k token (Some t) <-> most_recent d k token (Some t).
Proof.
  intros [(ts & Et & Hts) _ _ _] Hle.
  assert (forall t, t ∈ rows d' /\ mct_token_id t = as_i64 token /\ mct_block_index t < as_i64 k <->
    t ∈ rows d /\ mct_token_id t = as_i64 token /\ mct_block_index t < as_i64 k) as H.
  { intros t'. rewrite Et, elem_of_app. split; [|tauto]. intros ([Hin|Hin] & ? & Hlt); [done|].
    rewrite Forall_forall in Hts. rewrite (Hts _ Hin) in Hlt. lia. }
  unfold most_recent. rewrite H. by setoid_rewrite H.
Qed.

Lemma active_config_within idx d d' tx c :
  within_block idx d d' -> integrity d -> active_config d' idx tx c <-> active_config d idx tx c.
Proof.
  intros Hw Hd. unfold active_config. destruct (wb_configs _ _ _ Hw) as (cs & Ec & Hcs).
  assert (forall t, config_tx_allows d' idx tx t <-> config_tx_allows d idx tx t) as Htot.
  { intros t. unfold config_tx_allows, minted_by_config_tx. by rewrite !(total_minted_within idx idx d d'). }
  assert (config_allows d' idx tx c <-> config_allows d idx tx c) as Hcon.
  { unfold config_allows, minted_by_config. by rewrite (total_minted_within idx idx d d'). }
  pose proof (fun t => most_recent_within idx idx d d' (core_mint_tx_token_id tx) t Hw (Z.le_refl _)) as Hmr.
  split.
  - intros (t & Ht%Hmr & Ha%Htot & Hc & Et & Hca%Hcon).
    exists t. split; [done|]. split; [done|]. split; [|done].
    rewrite Ec in Hc. apply elem_of_app in Hc as [Hc|Hc]; [done|]. exfalso.
    rewrite Forall_forall in Hcs. apply (Hcs _ Hc). destruct Ht as [(Ht & _ & _) _].
    destruct (stored_has_id _ _ (ok_mint_config_txs _ Hd) Ht) as (i & Ei & Hi). simpl in Ei.
    assert (i = mc_mint_config_tx_id c) as -> by congruence. by apply bool_decide_eq_true in Hi.
  - intros (t & Ht & Ha & Hc & Et & Hca%Hcon). exists t.
    split; [by apply Hmr|]. split; [by apply Htot|]. split; [|done].
    rewrite Ec. apply elem_of_app. by left.
Qed.

Lemma lookup_spec_within idx d d' tx o :
  within_block idx d d' -> integrity d -> lookup_spec d' idx tx o -> lookup_spec d idx tx o.
Proof.
  intros Hw Hd. destruct o as [c|]; simpl.
  - apply (active_config_within idx d d' tx c Hw Hd).
  - intros Hn c Hc. apply (Hn c). by apply (active_config_within idx d d' tx c Hw Hd).
Qed.

(** The verdict on every mint of a block. *)
Lemma mint_steps_verdicts idx ts d0 d txs ms d' :
  within_block idx d0 d -> integrity d0 -> sync_ready d -> mint_steps idx ts d txs ms d' ->
  Forall2 (fun tx m => exists o, lookup_spec d0 idx tx o /\
             mt_mint_config_id m = (o ≫= MintConfig.id) /\ flagged m = bool_decide (o = None)) txs ms.
Proof.
  intros Hw Hd Hr Hs. revert Hw Hr. induction Hs as [d|d txs ms d1 tx m d2 Hs IH Hs2]; intros Hw Hr;
    [constructor|].
  apply Forall2_app; [by apply IH|]. constructor; [|constructor].
  pose proof (mint_steps_ready _ _ _ _ _ _ Hs Hr) as Hr1.
  destruct (mint_step_flagged _ _ _ _ _ _ Hs2 Hr1) as (o & Hl & Eo & Ef & _).
  exists o. split; [|done]. eapply lookup_spec_within; [|done|exact Hl].
  eapply within_block_trans; [done|by eapply mint_steps_within].
Qed.
End stability.
