(* ===== verification/SafeSync.v ===== *)
(** * [src/gnosis/sync.rs] and [fetcher.rs]

    Fetching the transactions of a safe, recognizing deposits and withdrawals in
    them, storing and matching them. *)

From Stdlib Require Import Ascii.
From S2P Require Import Prelude Externals Concrete GnosisTypes Errors Schema Database.
From S2P Require Import CountersModel Mints Burns GnosisConfig GnosisRows AuditedMints.
From S2P Require Import AuditedBurns.

Module GnosisSync.
Section operations.
Context {X_chrono : Chrono} {X_sqlite : Sqlite} {X_hex : Hex} {X_mc : MobileCoin} {X_url : UrlLib}
  {X_json : SerdeJson}.

(** [GnosisSync] as far as it has state: the configuration of its safe. *)
Abbreviation t := AuditedSafeConfig (only parsing).

(** The closure of [process_eth_transaction]: a transfer to the safe as a
    deposit. *)
Definition parse_deposit (self : t) (tx : EthereumTransaction) (transfer : EthereumTransfer)
  : Res Gnosis.Error GnosisSafeDeposit :=
  token_addr ← ok_or (Gnosis.ApiResultParse "Transfer token address cannot be empty")
    (et_token_addr transfer);
  token_config ← ok_or (Gnosis.UnknownToken "Unknown token transfer")
    (get_token_by_eth_contract_addr self token_addr);
  value ← unwrap (et_value transfer);
  truncated_transaction_value ←
    truncate_value value (tok_decimals token_config) (sc_token_decimals_max self);
  Ok (GnosisSafeDeposit.new None (et_tx_hash transfer) (etx_execution_date tx) value
    (etx_eth_block_number tx) (et_to transfer) token_addr (et_from transfer)
    truncated_transaction_value).

(** One iteration of the loop of [GnosisSync::process_eth_transaction]. *)
Definition process_transfer (self : t) (tx : EthereumTransaction) (transfer : EthereumTransfer)
  : App unit :=
  if EthAddr.eqb (et_to transfer) (sc_safe_addr self) then
    result ← attempt (lift (parse_deposit self tx transfer));
    _ ← match result with
        | Ok _ => mret tt
        | _ => Counters.inc num_invalid_ethereum_transactions
        end;
    deposit ← lift (map_err GnosisErr result);
    deposit ← GnosisSafeDeposit.insert deposit;
    (* whatever comes of matching is only logged *)
    _ ← attempt (AuditedMint.try_match_deposit_with_mint deposit self);
    mret tt
  else mret tt.

(** [GnosisSync::process_eth_transaction]. *)
Definition process_eth_transaction (self : t) (tx : EthereumTransaction) : App unit :=
  _ ← for_each (process_transfer self tx) (etx_transfers tx); mret tt.

(** [GnosisSync::parse_withdrawal_with_pub_key_multi_sig_tx].  The check that
    there is exactly one transfer builds an error and drops it, as in the
    source. *)
Definition parse_withdrawal_with_pub_key_multi_sig_tx (self : t) (multi_sig_tx : MultiSigTransaction)
  : Res Gnosis.Error GnosisSafeWithdrawal :=
  data ← ok_or (Gnosis.ApiResultParse "data_decoded is empty") (ms_data_decoded multi_sig_tx);
  if negb (String.eqb (dd_method data) "multiSend") then
    Err (Gnosis.ApiResultParse ("multi-sig tx method mismatch: got " +:+ dd_method data
      +:+ ", expected multiSend"))
  else match dd_parameters data with
  | [parameter] =>
    value_decoded ← ok_or (Gnosis.ApiResultParse "decoded data parameter is missing value_decoded")
      (ddp_value_decoded parameter);
    match value_decoded with
    | [transfer_data; aux_contract_value] =>
      audited_token ← ok_or
        (Gnosis.ApiResultParse ("Encountered multiSend transaction to an unknown token: "
          +:+ EthAddr.display (vd_to transfer_data)))
        (get_token_by_eth_contract_addr self (vd_to transfer_data));
      transfer_data_decoded ← ok_or
        (Gnosis.ApiResultParse "multiSend transfer first value has no decoded data")
        (vd_data_decoded transfer_data);
      if negb (String.eqb (dd_method transfer_data_decoded) "transfer") then
        Err (Gnosis.ApiResultParse ("Invalid first value method: got "
          +:+ dd_method transfer_data_decoded +:+ ", expected transfer"))
      else match dd_parameters transfer_data_decoded with
      | [_; amount_parameter] =>
        match ms_transfer_data multi_sig_tx with
        | [] => Panic "index out of bounds: the len is 0 but the index is 0"
        | token_transfer :: _ =>
          eth_tx_value ← unwrap (et_value token_transfer);
          let to_addr := et_to token_transfer in
          if negb (EthAddr.eqb (vd_to aux_contract_value) (tok_aux_burn_contract_addr audited_token))
          then Err (Gnosis.ApiResultParse ("aux contract destination mismatch: got "
                 +:+ EthAddr.display (vd_to aux_contract_value) +:+ ", expected "
                 +:+ EthAddr.display (tok_aux_burn_contract_addr audited_token)))
          else if negb (starts_with "0x" (vd_data aux_contract_value)) then
            Err (Gnosis.ApiResultParse ("aux contract data doesn't start with 0x: got "
              +:+ vd_data aux_contract_value))
          else
            aux_data_bytes ← from_ext (fun err => Gnosis.ApiResultParse ("aux contract data "
                +:+ vd_data aux_contract_value +:+ " cannot be hex-decoded: " +:+ err))
              (hex_decode (slice_from 2 (vd_data aux_contract_value)));
            let sig := array_bytes (tok_aux_burn_function_sig audited_token) in
            if negb (bool_decide (take (length sig) aux_data_bytes = sig)) then
              Err (Gnosis.ApiResultParse ("aux contract data " +:+ vd_data aux_contract_value
                +:+ " does not start with the expected function signature (" +:+ hex_encode sig
                +:+ ")"))
            else
              let min_length := (length sig + 32)%nat in
              if Nat.ltb (length aux_data_bytes) min_length then
                Err (Gnosis.ApiResultParse ("aux contract data " +:+ vd_data aux_contract_value
                  +:+ " does not contain enough bytes. got "
                  +:+ pretty (Z.of_nat (String.length (vd_data aux_contract_value)))
                  +:+ ", expected at least " +:+ pretty (Z.of_nat min_length)))
              else
                let tx_out_pub_key := drop (length aux_data_bytes - 32) aux_data_bytes in
                token_config ← ok_or
                  (Gnosis.InvalidAddress ("No matching token in config for address: "
                    +:+ EthAddr.display (vd_to transfer_data)))
                  (get_token_by_eth_contract_addr self (vd_to transfer_data));
                amount ← unwrap (parse_u128 (ddp_value amount_parameter));
                truncated_transaction_value ← truncate_value (EthTxValue.mk amount)
                  (tok_decimals token_config) (sc_token_decimals_max self);
                Ok (GnosisSafeWithdrawal.new None (ms_tx_hash multi_sig_tx)
                  (ms_execution_date multi_sig_tx) eth_tx_value (ms_eth_block_number multi_sig_tx)
                  (ms_safe multi_sig_tx) (vd_to transfer_data) to_addr
                  truncated_transaction_value (hex_encode tx_out_pub_key))
        end
      | _ => Err (Gnosis.ApiResultParse
          ("Invalid number of values in multiSend transfer data parameters: got "
           +:+ pretty (Z.of_nat (length value_decoded)) +:+ ", expected 2"))
      end
    | _ => Err (Gnosis.ApiResultParse ("Invalid number of values in multiSend transfer: got "
             +:+ pretty (Z.of_nat (length value_decoded)) +:+ ", expected 2"))
    end
  | ps => Err (Gnosis.ApiResultParse ("invalid number of parameters: got "
            +:+ pretty (Z.of_nat (length ps)) +:+ ", expected 1"))
  end.

(** [GnosisSync::process_multi_sig_transaction]. *)
Definition process_multi_sig_transaction (self : t) (multi_sig_tx : MultiSigTransaction) : App unit :=
  if negb (EthAddr.eqb (ms_safe multi_sig_tx) (sc_safe_addr self)) then mret tt
  else
    parsed ← attempt (lift (parse_withdrawal_with_pub_key_multi_sig_tx self multi_sig_tx));
    match parsed with
    | Ok withdrawal =>
        withdrawal ← GnosisSafeWithdrawal.insert withdrawal;
        _ ← attempt (AuditedBurn.try_match_withdrawal_with_burn withdrawal self);
        mret tt
    | _ => Counters.inc num_invalid_multi_sig_transactions
    end.

(** The transaction of [GnosisSync::process_transactions]. *)
Definition process_transaction_body (self : t) (tx : raw_transaction) : App unit :=
  inserted ← attempt (GnosisSafeTx.insert tx);
  match inserted with
  | Err (AlreadyExists _) => mret tt
  | Err err => throw err
  | Panic p => panic p
  | Ok _ =>
      decoded ← lift (map_err GnosisErr (decode tx));
      match decoded with
      | Ethereum eth_tx =>
          r ← attempt (process_eth_transaction self eth_tx);
          match r with
          | Ok _ => mret tt
          | Err (GnosisErr (Gnosis.UnknownToken _)) => mret tt
          | Err err => throw err
          | Panic p => panic p
          end
      | MultiSig multi_sig_tx => process_multi_sig_transaction self multi_sig_tx
      | Module _ => mret tt
      end
  end.

(** One iteration of the loop of [GnosisSync::process_transactions]. *)
Definition process_transaction (self : t) (tx : raw_transaction) : App unit :=
  _ ← expect "failed getting connection" get_conn;
  expect "failed processing transaction" (exclusive_transaction (process_transaction_body self tx)).

(** [GnosisSync::process_transactions]. *)
Definition process_transactions (self : t) (transactions : list raw_transaction) : App unit :=
  _ ← for_each (process_transaction self) transactions; mret tt.
End operations.
End GnosisSync.

(** ** Fetching *)
Section fetching.
Context {X_chrono : Chrono} {X_sqlite : Sqlite} {X_hex : Hex} {X_mc : MobileCoin} {X_url : UrlLib}
  {X_json : SerdeJson}.

Record AllTransactionsResponse := mkAllTransactionsResponse {
  atr_count : Z;
  atr_next : option Url;
  atr_previous : option Url;
  atr_results : list Value;
}.

(** [reqwest]: whether a client can be built; the answer to the [n]-th request the server
    gets, its status and its body; and the decoder derived for [AllTransactionsResponse]. *)
Class HttpClient := {
  http_client_build : ext unit;
  http_send : nat -> Url -> ext (Z * string);
  json_all_transactions : string -> ext AllTransactionsResponse;
}.
End fetching.

Module GnosisSafeFetcher.
Section operations.
Context {X_chrono : Chrono} {X_hex : Hex} {X_url : UrlLib} {X_json : SerdeJson} {X_http : HttpClient}.

(** [str::ends_with] for one character. *)
Fixpoint ends_with_slash (s : string) : bool :=
  match s with
  | EmptyString => false
  | String c EmptyString => Ascii.eqb c "/"%char
  | String _ s' => ends_with_slash s'
  end.

(** [GnosisSafeFetcher::new]: the base URL it keeps. *)
Definition new (base_url : Url) : Res Gnosis.Error Url :=
  base_url ← (if negb (ends_with_slash (url_path base_url)) then
      from_ext Gnosis.UrlParse (url_join base_url (url_path base_url +:+ "/"))
    else Ok base_url);
  _ ← from_ext (fun e => Gnosis.Other ("Failed to create reqwest client: " +:+ e)) http_client_build;
  Ok base_url.

(** [GnosisSafeFetcher::get_all_transaction_data_from_url]. *)
Definition get_all_transaction_data_from_url (n : nat) (url : Url)
  : Res Gnosis.Error AllTransactionsResponse :=
  response ← from_ext (fun err => Gnosis.Other ("Failed to fetch '" +:+ url_display url +:+ "': "
               +:+ err)) (http_send n url);
  if negb (fst response =? 200) then
    Err (Gnosis.Other ("Failed to fetch '" +:+ url_display url
      +:+ "': Expected status 200, got " +:+ pretty (fst response)))
  else from_ext (fun err => Gnosis.ApiResultParse ("Failed parsing JSON from '"
         +:+ url_display url +:+ "': " +:+ err)) (json_all_transactions (snd response)).

(** The loop over the pages, [fuel] of them at most: [None] when the server has
    not stopped naming further pages by then. *)
Fixpoint fetch_pages (fuel n : nat) (url : Url) : option (Res Gnosis.Error (list raw_transaction)) :=
  match fuel with
  | O => None
  | S fuel' =>
      match get_all_transaction_data_from_url n url with
      | Err e => Some (Err e)
      | Panic p => Some (Panic p)
      | Ok response =>
          match atr_next response with
          | None => Some (Ok (atr_results response))
          | Some next_url =>
              match fetch_pages fuel' (S n) next_url with
              | Some (Ok rest) => Some (Ok (atr_results response ++ rest))
              | r => r
              end
          end
      end
  end.

(** [GnosisSafeFetcher::get_all_transaction_data], its first request the [n]-th. *)
Definition get_all_transaction_data (fuel n : nat) (base_url : Url) (safe_addr : EthAddr.t)
  : option (Res Gnosis.Error (list raw_transaction)) :=
  match url_join base_url ("api/v1/safes/" +:+ EthAddr.display safe_addr
          +:+ "/all-transactions/?executed=true&queued=false&trusted=true") with
  | inl e => Some (Err (Gnosis.UrlParse e))
  | inr url => fetch_pages fuel n url
  end.
End operations.
End GnosisSafeFetcher.
