(* ===== verification/SafeThread.v ===== *)
(** * [GnosisSync::new], [GnosisSync::poll] and [src/gnosis/sync_thread.rs]

    A safe is polled by a thread of its own.  The thread is a state machine whose
    steps are as small as what other threads can see: the reading of
    [stop_requested], a fetch, the exclusive transaction of one API transaction, a
    wait.  [poll] is the method as it is written; [ThreadProps.poll_follows] ties it to
    the steps. *)

From S2P Require Import Prelude Externals GnosisTypes Errors Schema Database.
From S2P Require Import CountersModel Blocks Mints Burns GnosisConfig GnosisRows AuditedMints.
From S2P Require Import AuditedBurns SafeSync.

Module Polling.
Section operations.
Context {X_chrono : Chrono} {X_sqlite : Sqlite} {X_hex : Hex} {X_mc : MobileCoin} {X_url : UrlLib}
  {X_json : SerdeJson} {X_http : HttpClient}.

(** [GnosisSync]; the fetcher is the base URL it keeps. *)
Record GnosisSync := mkGnosisSync { fetcher : Url; audited_safe : AuditedSafeConfig }.

(** [GnosisSync::new]. *)
Definition new (audited_safe : AuditedSafeConfig) : Res Gnosis.Error GnosisSync :=
  fetcher ← GnosisSafeFetcher.new (sc_api_url audited_safe);
  Ok (mkGnosisSync fetcher audited_safe).

(** What [GnosisSync::poll] fetches, its first request the [n]-th; [None] when the
    server has not stopped naming further pages after [fuel] of them. *)
Definition fetch (fuel n : nat) (self : GnosisSync) : option (Res Gnosis.Error (list raw_transaction)) :=
  GnosisSafeFetcher.get_all_transaction_data fuel n (fetcher self) (sc_safe_addr (audited_safe self)).

(** [GnosisSync::poll]. *)
Definition poll (fuel n : nat) (self : GnosisSync) (w : World) : option (Res Error unit * World) :=
  match fetch fuel n self with
  | None => None
  | Some (Ok transactions) => Some (GnosisSync.process_transactions (audited_safe self) transactions w)
  | Some (Err _) => Some (Ok tt, inc_failed_fetches w)
  | Some (Panic p) => Some (Panic p, w)
  end.
End operations.
End Polling.

Module GnosisSyncThread.
Section operations.
Context {X_chrono : Chrono} {X_sqlite : Sqlite} {X_hex : Hex} {X_mc : MobileCoin} {X_url : UrlLib}
  {X_json : SerdeJson} {X_http : HttpClient}.

(** Where [thread_entry_point] is. *)
Inductive Phase :=
| Starting (audited_safe : AuditedSafeConfig)
| Checking (sync : Polling.GnosisSync)
| Fetching (sync : Polling.GnosisSync)
| Processing (sync : Polling.GnosisSync) (transactions : list raw_transaction)
| Sleeping (sync : Polling.GnosisSync)
| Finished
| Panicked (msg : string).

(** [GnosisSyncThread] and the thread it has started; [join_handle] tells whether the
    handle has not been taken yet. *)
Record t := mkThread { stop_requested : bool; join_handle : bool; phase : Phase }.

Definition set_phase (p : Phase) (self : t) : t :=
  mkThread (stop_requested self) (join_handle self) p.

(** [GnosisSyncThread::start]. *)
Definition start (audited_safe : AuditedSafeConfig) : t := mkThread false true (Starting audited_safe).

(** [GnosisSyncThread::stop], which [drop] calls too: first the request, then the
    wait, which is over when the thread has ended ([None]: it blocks). *)
Definition request_stop (self : t) : t := mkThread true (join_handle self) (phase self).
Definition join {E} (self : t) : option (Res E unit * t) :=
  if negb (join_handle self) then Some (Ok tt, self)
  else
    let taken := mkThread (stop_requested self) false (phase self) in
    match phase self with
    | Finished => Some (Ok tt, taken)
    | Panicked _ => Some (Panic "failed joining gnosis sync thread", taken)
    | _ => None
    end.

(** One step of [thread_entry_point]; [None] when the thread has ended, or still
    waits for further pages.  ([process_transaction] never ends in [Err].) *)
Definition thread_step (fuel n : nat) (poll_interval_ms : Z) (self : t) (w : World)
  : option (t * World) :=
  match phase self with
  | Starting safe =>
      match Polling.new safe with
      | Ok sync => Some (set_phase (Checking sync) self, w)
      | Err _ => Some (set_phase (Panicked "Failed creating sync object") self, w)
      | Panic p => Some (set_phase (Panicked p) self, w)
      end
  | Checking sync =>
      if stop_requested self then Some (set_phase Finished self, w)
      else Some (set_phase (Fetching sync) self, w)
  | Fetching sync =>
      match Polling.fetch fuel n sync with
      | None => None
      | Some (Ok transactions) => Some (set_phase (Processing sync transactions) self, w)
      | Some (Err _) => Some (set_phase (Sleeping sync) self, inc_failed_fetches w)
      | Some (Panic p) => Some (set_phase (Panicked p) self, w)
      end
  | Processing sync [] => Some (set_phase (Sleeping sync) self, w)
  | Processing sync (tx :: txs) =>
      match GnosisSync.process_transaction (Polling.audited_safe sync) tx w with
      | (Ok _, w') => Some (set_phase (Processing sync txs) self, w')
      | (Err _, w') => Some (set_phase (Panicked "failed processing transaction") self, w')
      | (Panic p, w') => Some (set_phase (Panicked p) self, w')
      end
  | Sleeping sync => Some (set_phase (Checking sync) self, add_sleep poll_interval_ms w)
  | Finished => None
  | Panicked _ => None
  end.

Definition ended (self : t) : Prop :=
  match phase self with Finished => True | Panicked _ => True | _ => False end.
End operations.
End GnosisSyncThread.
