(* ===== verification/AuditInvariant.v ===== *)
(** * The invariant of the audit

    What holds of the database at any time, whatever the interleaving of the
    synchronization loop with the threads that follow the safes, and the abstract
    steps through which all of them change it. *)

From S2P Require Import Prelude Externals Concrete GnosisTypes Errors Schema Database.
From S2P Require Import CountersModel Blocks Mints Burns GnosisConfig GnosisRows AuditedMints.
From S2P Require Import AuditedBurns SyncBlock LedgerSpec LedgerSync.

Section invariant.
Context {X_chrono : Chrono} {X_sqlite : Sqlite} {L_sqlite : SqliteLaws}.
Context {X_hex : Hex} {L_hex : HexLaws} {X_mc : MobileCoin} {L_mc : MobileCoinLaws} {X_url : UrlLib}.
Context {X_hash : HashOrder} {L_hash : HashOrderLaws}.
Implicit Types (w : World) (d : Db) (config : GnosisSafeConfig).

Record audit_inv config d : Prop := {
  ai_ready : sync_ready d;
  ai_balances : typed_balances d;
  ai_nonces : nonces_derived d;
  ai_mints_once : mints_one_to_one d;
  ai_burns_once : burns_one_to_one d;
  ai_mints : mint_audits_sound config d;
  ai_burns : burn_audits_sound config d;
}.

(** The counters that only the synchronization of blocks moves. *)
Definition ledger_counters : list CounterVar :=
  [num_blocks_synced; num_burns_exceeding_balance; num_mint_txs_without_matching_mint_config].

(** ** Abstract steps *)

(** One attempt at matching: nothing, an error counted, or a pair recorded. *)
Inductive audit_step config d : Db -> Prop :=
| audit_nothing : audit_step config d d
| audit_count v : v ∉ ledger_counters -> audit_step config d (bump_db v d)
| audit_mint sc m x mid did :
    sc ∈ gc_safes config -> matched_pair d sc m x mid did ->
    audit_step config d (record_audited_mint d mid did)
| audit_burn sc b x bid wid :
    sc ∈ gc_safes config -> burned_pair d sc b x bid wid ->
    audit_step config d (record_audited_burn d bid wid).

(** One write of a thread that follows a safe. *)
Inductive gnosis_step config d : Db -> Prop :=
| gnosis_audit d' : audit_step config d d' -> gnosis_step config d d'
| gnosis_tx i (r : GnosisSafeTx) : insertable d i r -> gnosis_step config d (db_insert i r d)
| gnosis_deposit i (r : GnosisSafeDeposit) :
    insertable d i r ->
    gsd_expected_mc_mint_tx_nonce_hex r =
      hex_encode (MintTxNonce.to_bytes (MintTxNonce.EthereumGnosisDeposit (gsd_eth_tx_hash r))) ->
    gnosis_step config d (db_insert i r d)
| gnosis_withdrawal i (r : GnosisSafeWithdrawal) :
    insertable d i r -> gnosis_step config d (db_insert i r d).

(** One write of the whole auditor. *)
Inductive auditor_step config d : Db -> Prop :=
| auditor_sync idx c ts data d' : synced idx c ts d data d' -> auditor_step config d d'
| auditor_gnosis d' : gnosis_step config d d' -> auditor_step config d d'.

(** The part of the database that records the ledger. *)
Record same_ledger d d' : Prop := {
  sl_audit_data : block_audit_data d' = block_audit_data d;
  sl_balance : block_balance d' = block_balance d;
  sl_config_txs : mint_config_txs d' = mint_config_txs d;
  sl_configs : mint_configs d' = mint_configs d;
  sl_mints : mint_txs d' = mint_txs d;
  sl_burns : burn_tx_outs d' = burn_tx_outs d;
  sl_counters v : v ∈ ledger_counters -> counter_value v d' = counter_value v d;
}.

#[export] Instance same_ledger_preorder : PreOrder same_ledger.
Proof.
  split; [by split|]. intros d1 d2 d3 [] []. split; try congruence.
  intros v Hv. transitivity (counter_value v d2); auto.
Qed.

Lemma mirrors_same_ledger blocks d d' : same_ledger d d' -> mirrors blocks d -> mirrors blocks d'.
Proof.
  intros [E1 E2 E3 _ E4 E5 Ec] [].
  assert (rows (R := MintTx) d' = rows d) as Rm by (unfold rows; simpl; by rewrite E4).
  split.
  - rewrite Ec; [done|by left].
  - unfold synced_indices, rows. simpl. by rewrite E1.
  - unfold balances_at, balance_entries, rows. simpl. by rewrite E2.
  - unfold rows. simpl. by rewrite E2.
  - by rewrite Rm.
  - unfold rows. simpl. by rewrite E5.
  - unfold rows. simpl. by rewrite E3.
  - rewrite Ec; [done|by right; left].
  - rewrite Ec; [by rewrite Rm|by right; right; left].
Qed.

Lemma audit_step_same_ledger config d d' :
  audit_step config d d' -> counters_ok d -> same_ledger d d'.
Proof.
  intros [|v Hv| |] Hc; try by split.
  split; try done. intros v' Hv'. rewrite counter_value_bump by done.
  destruct (decide (v = v')) as [->|]; [done|lia].
Qed.

Lemma gnosis_step_same_ledger config d d' :
  gnosis_step config d d' -> counters_ok d -> same_ledger d d'.
Proof. intros [d1 Hs| | |] Hc; [by eapply audit_step_same_ledger|by split..]. Qed.

(** ** The steps keep the invariant *)
Lemma rows_prefix {R} {T : Table R} d d' (r : R) :
  table_get (R := R) d `prefix_of` table_get d' -> r ∈ rows d -> r ∈ rows d'.
Proof. intros [k E] Hr. unfold rows. rewrite E, fmap_app. apply elem_of_app. by left. Qed.

Lemma mints_sound_mono config d d' :
  grows d d' -> audited_mints d' = audited_mints d -> mint_audits_sound config d ->
  mint_audits_sound config d'.
Proof.
  intros Hg E Hs a Ha. unfold rows in Ha. simpl in Ha. rewrite E in Ha.
  destruct (Hs a Ha) as (m & x & sc & Hm & Hx & Hrest). exists m, x, sc.
  split; [by apply (rows_prefix d), Hm; apply Hg|].
  split; [by apply (rows_prefix d), Hx; apply Hg|done].
Qed.

Lemma burns_sound_mono config d d' :
  grows d d' -> audited_burns d' = audited_burns d -> burn_audits_sound config d ->
  burn_audits_sound config d'.
Proof.
  intros Hg E Hs a Ha. unfold rows in Ha. simpl in Ha. rewrite E in Ha.
  destruct (Hs a Ha) as (b & x & sc & Hb & Hx & Hrest). exists b, x, sc.
  split; [by apply (rows_prefix d), Hb; apply Hg|].
  split; [by apply (rows_prefix d), Hx; apply Hg|done].
Qed.

(** Steps that do not touch the audit records. *)
Lemma audit_inv_evolves config d d' :
  evolves d d' -> sync_ready d' -> typed_balances d' -> nonces_derived d' ->
  audited_mints d' = audited_mints d -> audited_burns d' = audited_burns d ->
  audit_inv config d -> audit_inv config d'.
Proof.
  intros [Hg _] Hr Ht Hn Em Eb []. split; [done|done|done|..].
  - unfold mints_one_to_one, rows. simpl. by rewrite Em.
  - unfold burns_one_to_one, rows. simpl. by rewrite Eb.
  - by eapply mints_sound_mono.
  - by eapply burns_sound_mono.
Qed.

Lemma audit_inv_bump config v d : audit_inv config d -> audit_inv config (bump_db v d).
Proof.
  intros Hi. pose proof (bump_evolves v d) as He.
  apply (audit_inv_evolves config d); [done| |apply Hi..|done|done|done].
  destruct (ai_ready _ _ Hi) as (Hd & Hc & Hk).
  split; [by apply He|]. split; [exact Hc|by apply counters_ok_bump].
Qed.

Lemma audit_inv_record_mint config d sc m x mid did :
  sc ∈ gc_safes config -> matched_pair d sc m x mid did -> audit_inv config d ->
  audit_inv config (record_audited_mint d mid did).
Proof.
  intros Hsc Hp Hi. pose proof Hp as (Hm & Hx & Em & Ex & Am & Ax & Hmatch).
  pose proof (ai_ready _ _ Hi) as (Hd & Hc & Hk).
  pose proof (audited_mint_insertable _ _ _ _ _ Hd Hm Hx Em Ex) as Hins.
  pose proof (insert_evolves _ _ _ Hins) as [Hg He].
  destruct Hi. split; [split; [by apply He|done]|done|done| |done| |].
  - by apply record_audited_mint_one_to_one.
  - intros a. rewrite rows_record_audited_mint.
    intros [Ha| ->%list_elem_of_singleton]%elem_of_app; [by apply ai_mints0|].
    by exists m, x, sc.
  - exact ai_burns0.
Qed.

Lemma audit_inv_record_burn config d sc b x bid wid :
  sc ∈ gc_safes config -> burned_pair d sc b x bid wid -> audit_inv config d ->
  audit_inv config (record_audited_burn d bid wid).
Proof.
  intros Hsc Hp Hi. pose proof Hp as (Hb & Hx & Eb & Ex & Ab & Ax & Hmatch).
  pose proof (ai_ready _ _ Hi) as (Hd & Hc & Hk).
  pose proof (audited_burn_insertable _ _ _ _ _ Hd Hb Hx Eb Ex) as Hins.
  pose proof (insert_evolves _ _ _ Hins) as [Hg He].
  destruct Hi. split; [split; [by apply He|done]|done|done|done| | |].
  - by apply record_audited_burn_one_to_one.
  - exact ai_mints0.
  - intros a. rewrite rows_record_audited_burn.
    intros [Ha| ->%list_elem_of_singleton]%elem_of_app; [by apply ai_burns0|].
    by exists b, x, sc.
Qed.

Lemma audit_step_inv config d d' : audit_step config d d' -> audit_inv config d -> audit_inv config d'.
Proof.
  intros [|v _|sc m x mid did Hsc Hp|sc b x bid wid Hsc Hp] Hi; [done|by apply audit_inv_bump|..].
  - by eapply audit_inv_record_mint.
  - by eapply audit_inv_record_burn.
Qed.

Lemma gnosis_step_inv config d d' :
  gnosis_step config d d' -> audit_inv config d -> audit_inv config d'.
Proof.
  intros [d1 Hs|i r Hr|i r Hr Hn|i r Hr] Hi; [by eapply audit_step_inv|..];
    pose proof (insert_evolves _ _ _ Hr) as He; pose proof (ai_ready _ _ Hi) as (Hd & Hc & Hk);
    (apply (audit_inv_evolves config d);
      [done|split; [by apply He|done]|apply Hi| |done|done|done]); try apply Hi.
  intros x. rewrite rows_db_insert.
  intros [Hx| ->%list_elem_of_singleton]%elem_of_app; [by apply (ai_nonces _ _ Hi)|exact Hn].
Qed.

Lemma synced_inv config idx c ts d data d' :
  synced idx c ts d data d' -> audit_inv config d -> audit_inv config d'.
Proof.
  intros Hs Hi.
  destruct (synced_sync_ready _ _ _ _ _ _ Hs (ai_ready _ _ Hi) (ai_balances _ _ Hi)) as (He & Hr & Ht).
  pose proof (synced_frame _ _ _ _ _ _ Hs) as (_ & _ & _ & Ed & _ & Em & Eb).
  destruct He as [Hg Hint]. destruct Hi. split; [done|done|..].
  - intros x. rewrite Ed. apply ai_nonces0.
  - unfold mints_one_to_one. by rewrite Em.
  - unfold burns_one_to_one. by rewrite Eb.
  - intros a. rewrite Em. intros Ha. destruct (ai_mints0 a Ha) as (m & x & sc & Hm & Hx & Hrest).
    exists m, x, sc. split; [by apply (rows_prefix d), Hm; apply Hg|].
    split; [by apply (rows_prefix d), Hx; apply Hg|done].
  - intros a. rewrite Eb. intros Ha. destruct (ai_burns0 a Ha) as (b & x & sc & Hb & Hx & Hrest).
    exists b, x, sc. split; [by apply (rows_prefix d), Hb; apply Hg|].
    split; [by apply (rows_prefix d), Hx; apply Hg|done].
Qed.

Lemma auditor_step_inv config d d' :
  auditor_step config d d' -> audit_inv config d -> audit_inv config d'.
Proof. intros [idx c ts data d1 Hs|d1 Hs]; [by eapply synced_inv|by apply gnosis_step_inv]. Qed.

(** The database right after the first start. *)
Definition initial_db : Db := table_set [(0, Counters_default)] empty_db.

Lemma initial_inv config : audit_inv config initial_db.
Proof.
  split.
  - split; [|split; [intros c Hc; by apply elem_of_nil in Hc|by eexists]].
    split; first [by split; [apply NoDup_nil_2|set_solver..] | by intros x Hx; set_solver].
  - intros r Hr. by apply elem_of_nil in Hr.
  - intros r Hr. by apply elem_of_nil in Hr.
  - by split; apply NoDup_nil_2.
  - by split; apply NoDup_nil_2.
  - intros r Hr. by apply elem_of_nil in Hr.
  - intros r Hr. by apply elem_of_nil in Hr.
Qed.

Lemma initial_mirrors : mirrors [] initial_db.
Proof. split; try done; simpl; try lia. intros r Hr. by apply elem_of_nil in Hr. Qed.
End invariant.
