(* ===== verification/Main.v ===== *)
(** * [src/bin/main.rs]: the synchronization loop and [scan-ledger]

    [sync_loop] brings the database up to the ledger, one exclusive transaction
    per block, and lets every new mint and burn look for its counterpart. *)

From S2P Require Import Prelude Externals Concrete GnosisTypes Errors Schema Database.
From S2P Require Import CountersModel Blocks Mints Burns GnosisConfig GnosisRows AuditedMints.
From S2P Require Import AuditedBurns SyncBlock.

(** [mc_ledger_db::LedgerDB]: what it answers to the [n]-th question for its
    length, and the blocks it holds (index and contents).
    [mc_watcher::WatcherDB]: the timestamp of a block, in seconds. *)
Class LedgerDB `{MobileCoin} := {
  ledger_num_blocks : nat -> ext Z;
  ledger_get_block_data : Z -> ext (Z * BlockContents);
}.
Definition WatcherDB : Type := Z -> Z.

Module Main.
Section operations.
Context {X_chrono : Chrono} {X_sqlite : Sqlite} {X_hex : Hex} {X_mc : MobileCoin} {X_url : UrlLib}
  {X_hash : HashOrder}.

(** [audit_block_data]: whatever comes of matching is only logged. *)
Definition audit_block_data (sync_block_data : SyncBlockData) (config : GnosisSafeConfig) : App unit :=
  _ ← for_each (fun mint_tx => attempt (AuditedMint.try_match_mint_with_deposit mint_tx config))
        (sbd_mint_txs sync_block_data);
  _ ← for_each (fun burn => attempt (AuditedBurn.try_match_burn_with_withdrawal burn config))
        (sbd_burn_tx_outs sync_block_data);
  mret tt.

(** The timestamp of a block, when there is a watcher. *)
Definition block_timestamp (watcher_db : option WatcherDB) (block_index : Z) : option DateTime :=
  db ← watcher_db; timestamp_opt_single (as_i64 (db block_index)).

(** The exclusive transaction that syncs and audits one block. *)
Definition sync_and_audit (gnosis_safe_config : option GnosisSafeConfig) (block_index : Z)
    (contents : BlockContents) (block_timestamp : option DateTime) : App unit :=
  exclusive_transaction (
    sync_block_data ← ReserveAuditorDb.sync_block_with_conn block_index contents block_timestamp;
    match gnosis_safe_config with
    | Some config => audit_block_data sync_block_data config
    | None => mret tt
    end).

Context {X_ledger : LedgerDB}.

(** One iteration of [sync_loop], the [n]-th; [false] when it breaks out. *)
Definition sync_iteration (gnosis_safe_config : option GnosisSafeConfig)
    (watcher_db : option WatcherDB) (n : nat) : App bool :=
  _ ← get_conn;
  num_blocks_in_ledger ← lift (from_ext LedgerDb (ledger_num_blocks n));
  last_synced_block_index ← BlockAuditData.last_synced_block_index;
  let num_blocks_synced := match last_synced_block_index with
                           | Some block_index => wrapping_add_u64 block_index 1
                           | None => 0
                           end in
  match num_blocks_synced ?= num_blocks_in_ledger with
  | Eq => mret false
  | Gt => mret false
  | Lt =>
      block_data ← lift (from_ext LedgerDb (ledger_get_block_data num_blocks_synced));
      let '(index, contents) := block_data in
      _ ← sync_and_audit gnosis_safe_config index contents (block_timestamp watcher_db index);
      mret true
  end.

(** [sync_loop]: [None] when [fuel] iterations were not enough. *)
Fixpoint sync_loop (fuel n : nat) (gnosis_safe_config : option GnosisSafeConfig)
    (watcher_db : option WatcherDB) (w : World) : option (Res Error unit * World) :=
  match fuel with
  | O => None
  | S fuel' =>
      match sync_iteration gnosis_safe_config watcher_db n w with
      | (Ok true, w') => sync_loop fuel' (S n) gnosis_safe_config watcher_db w'
      | (Ok false, w') => Some (Ok tt, w')
      | (Err e, w') => Some (Err e, w')
      | (Panic p, w') => Some (Panic p, w')
      end
  end.

(** The endless loop of [cmd_scan_ledger], watched for as many rounds as [rounds] has
    elements; a round starts when the ledger has been asked for its length so many
    times.  An error of [sync_loop] ends the process. *)
Fixpoint scan_rounds (fuel : nat) (gnosis_safe_config : option GnosisSafeConfig)
    (watcher_db : option WatcherDB) (poll_interval_ms : Z) (rounds : list nat) (w : World)
  : option (Res Error unit * World) :=
  match rounds with
  | [] => Some (Ok tt, w)
  | n :: rounds' =>
      match sync_loop fuel n gnosis_safe_config watcher_db w with
      | None => None
      | Some (Ok _, w') =>
          scan_rounds fuel gnosis_safe_config watcher_db poll_interval_ms rounds'
            (add_sleep poll_interval_ms w')
      | Some (Err _, w') => Some (Panic "sync_loop failed", w')
      | Some (Panic p, w') => Some (Panic p, w')
      end
  end.

(** [cmd_scan_ledger]: opening the database, then the loop.  The servers it starts
    only read; the threads that follow the safes are [SafeSync.GnosisSyncThread]. *)
Definition cmd_scan_ledger (fuel : nat) (migrations : App unit)
    (gnosis_safe_config : option GnosisSafeConfig) (watcher_db : option WatcherDB)
    (poll_interval_ms : Z) (rounds : list nat) (w : World) : option (Res Error unit * World) :=
  match expect "Could not open reserve auditor DB" (ReserveAuditorDb.new_from_path migrations) w with
  | (Ok _, w') => scan_rounds fuel gnosis_safe_config watcher_db poll_interval_ms rounds w'
  | (Err e, w') => Some (Err e, w')
  | (Panic p, w') => Some (Panic p, w')
  end.

(** [parse_gnosis_safe_config]. *)
Definition parse_gnosis_safe_config `{X_files : ConfigFiles} (path : string)
  : Res Error GnosisSafeConfig := map_err GnosisErr (load_from_path path).
End operations.
End Main.
