(* ===== verification/Faults.v ===== *)
(** * Faults are spent, never created

    Every operation of the auditor takes its faults from the head of the list in the
    [World] and adds none, and if it took no fault but let statements pass, it did what
    it does when no fault is pending.  So a finite number of faults is used up, however
    often the process fails and is started again, and does no harm but by striking. *)

From S2P Require Import Prelude Externals Concrete GnosisTypes Errors Schema Database.
From S2P Require Import CountersModel Blocks Mints Burns GnosisConfig GnosisRows AuditedMints.
From S2P Require Import AuditedBurns SyncBlock SafeSync Main.

Section spends.
Context {X_chrono : Chrono} {X_sqlite : Sqlite}.
Implicit Types (w : World).

(** The faults that are left are the last ones. *)
Definition consumes w w' : Prop := w_faults w' `suffix_of` w_faults w.

#[export] Instance consumes_preorder : PreOrder consumes.
Proof. split; [intros w; unfold consumes; reflexivity|]. intros w1 w2 w3. unfold consumes. intros H1 H2. by etrans. Qed.

Lemma consumes_healthy w w' : consumes w w' -> healthy w -> healthy w'.
Proof. unfold healthy. intros [k Hk] E. rewrite E in Hk. by destruct k, (w_faults w'). Qed.

(** The world without the pending faults. *)
Definition calm w : World := set_faults [] w.

(** Statements that pass. *)
Definition all_pass (l : list (option Fault)) : Prop := Forall (eq None) l.

Definition spends {E A} (m : M World E A) : Prop := forall w, exists l,
  w_faults w = l ++ w_faults (m w).2 /\ (all_pass l -> m (calm w) = ((m w).1, calm (m w).2)).

Lemma spends_consumes {E A} (m : M World E A) : spends m -> respects consumes m.
Proof. intros H w. destruct (H w) as (l & E1 & _). by exists l. Qed.

(** A call that consumes, in the form of the program logic. *)
Lemma wp_consumes {E A} (m : M World E A) w :
  spends m -> wp m (fun _ w' => consumes w w') w.
Proof. intros H. apply (spends_consumes m H w). Qed.

(** ** Composition *)
Lemma spends_pure {E A} (m : M World E A) :
  (forall w, w_faults (m w).2 = w_faults w) ->
  (forall w, m (calm w) = ((m w).1, calm (m w).2)) -> spends m.
Proof. intros H1 H2 w. exists []. split; [by rewrite H1|auto]. Qed.

Lemma spends_lift {E A} (r : Res E A) : spends (lift r).
Proof. by apply spends_pure. Qed.
Lemma spends_ret {E A} (a : A) : spends (mret a : M World E A).
Proof. by apply spends_pure. Qed.
Lemma spends_throw {E A} (e : E) : spends (throw e : M World E A).
Proof. by apply spends_pure. Qed.
Lemma spends_panic {E A} p : spends (panic p : M World E A).
Proof. by apply spends_pure. Qed.

Lemma spends_bind {E A B} (m : M World E A) (k : A -> M World E B) :
  spends m -> (forall a, spends (k a)) -> spends (m ≫= k).
Proof.
  intros Hm Hk w. destruct (Hm w) as (l & El & Hl). unfold mbind, M_bind in *.
  destruct (m w) as [[a|e|p] w1]; simpl in *.
  - destruct (Hk a w1) as (l' & El' & Hl'). exists (l ++ l').
    split; [by rewrite <- app_assoc, <- El'|]. intros [H1 H2]%Forall_app. by rewrite (Hl H1), (Hl' H2).
  - exists l. split; [done|]. intros H. by rewrite (Hl H).
  - exists l. split; [done|]. intros H. by rewrite (Hl H).
Qed.

Lemma spends_with_err {E F A} (f : E -> F) (m : M World E A) : spends m -> spends (with_err f m).
Proof.
  intros Hm w. destruct (Hm w) as (l & El & Hl). exists l. unfold with_err.
  destruct (m w). simpl in *. split; [done|]. intros H. by rewrite (Hl H).
Qed.

Lemma spends_attempt {E F A} (m : M World E A) : spends m -> spends (attempt m : M World F (Res E A)).
Proof.
  intros Hm w. destruct (Hm w) as (l & El & Hl). exists l. unfold attempt.
  destruct (m w) as [[] ?]; simpl in *; (split; [done|]); intros H; by rewrite (Hl H).
Qed.

Lemma spends_expect {E F A} msg (m : M World E A) : spends m -> spends (expect msg m : M World F A).
Proof.
  intros Hm w. destruct (Hm w) as (l & El & Hl). exists l. unfold expect.
  destruct (m w) as [[] ?]; simpl in *; (split; [done|]); intros H; by rewrite (Hl H).
Qed.

Lemma spends_optional {A} (s : Stmt A) : spends s -> spends (optional s).
Proof.
  intros Hs w. destruct (Hs w) as (l & El & Hl). exists l. unfold optional.
  destruct (s w). simpl in *. split; [done|]. intros H. by rewrite (Hl H).
Qed.

Lemma spends_for_each {E A B} (f : A -> M World E B) xs :
  (forall x, spends (f x)) -> spends (for_each f xs).
Proof.
  intros Hf. induction xs as [|x xs IH]; simpl; [apply spends_ret|].
  apply spends_bind; [done|]. intros y. apply spends_bind; [done|]. intros ys. apply spends_ret.
Qed.

Lemma spends_fold_each {E A B} (f : B -> A -> M World E B) xs acc :
  (forall acc x, spends (f acc x)) -> spends (fold_each f acc xs).
Proof.
  intros Hf. revert acc. induction xs as [|x xs IH]; intros acc; simpl; [apply spends_ret|].
  apply spends_bind; [done|]. intros y. apply IH.
Qed.

(** ** Statements *)
Lemma spends_statement {A} (body : Stmt A) : spends body -> spends (statement body).
Proof.
  intros Hb w. unfold statement. change (w_faults (calm w)) with (@nil (option Fault)). cbv iota.
  destruct (w_faults w) as [|[f|] fs] eqn:E.
  - destruct (Hb w) as (l & El & Hl). exists l. by rewrite E in El.
  - exists [Some f]. split; [done|]. intros H. by inversion H.
  - destruct (Hb (set_faults fs w)) as (l & El & Hl). exists (None :: l).
    split; [by simpl in *; rewrite El at 1|]. intros [_ H]%Forall_cons. exact (Hl H).
Qed.

Lemma spends_load {A} (q : Db -> list A) : spends (load q).
Proof. by apply spends_statement, spends_pure. Qed.

Lemma spends_load_ordered {A} key (q : Db -> list A) : spends (load_ordered key q).
Proof. by apply spends_statement, spends_pure. Qed.

Lemma spends_last_insert_rowid : spends last_insert_rowid.
Proof. by apply spends_statement, spends_pure. Qed.

Lemma spends_get_conn : spends get_conn.
Proof. by apply spends_with_err, spends_statement, spends_pure. Qed.

Lemma spends_insert_into {R} {T : Table R} (r : R) : spends (insert_into r).
Proof.
  apply spends_statement, spends_pure; intros w; cbv zeta; simpl w_db;
    repeat case_match; simplify_eq; done.
Qed.

Lemma spends_replace_into {R} {T : Table R} (r : R) : spends (replace_into r).
Proof.
  apply spends_statement, spends_pure; intros w; cbv zeta; simpl w_db;
    repeat case_match; simplify_eq; done.
Qed.

Lemma spends_update_all {R} {T : Table R} (f : R -> R) : spends (update_all f).
Proof. by apply spends_statement, spends_pure. Qed.

(** ** Transactions *)
Lemma spends_restore {A} d (f : App A) : spends f ->
  spends (fun w => match f w with (Ok a, w') => (Ok a, w') | (r, w') => (r, set_db d w') end).
Proof.
  intros Hf w. destruct (Hf w) as (l & El & Hl). exists l.
  destruct (f w) as [[] w1]; simpl in *; (split; [done|]); intros H; by rewrite (Hl H).
Qed.

Lemma spends_conn_transaction {A} (f : App A) : spends f -> spends (conn_transaction f).
Proof.
  intros Hf w. unfold conn_transaction.
  assert (spends (exec (statement (mret tt)))) as Hb by by apply spends_with_err, spends_statement, spends_pure.
  revert Hb. generalize (exec (statement (mret tt))) as begin. intros begin Hb.
  destruct (Hb w) as (l & El & Hl). destruct (begin w) as [[u|e|p] w1]; simpl in *.
  - destruct (spends_restore (w_db w1) f Hf w1) as (l' & El' & Hl'). exists (l ++ l').
    split; [by rewrite <- app_assoc, <- El'|]. intros [H1 H2]%Forall_app. rewrite (Hl H1). exact (Hl' H2).
  - exists l. split; [done|]. intros H. by rewrite (Hl H).
  - exists l. split; [done|]. intros H. by rewrite (Hl H).
Qed.

Lemma spends_transaction_loop {A} n i (f : App A) : spends f -> spends (transaction_loop n i f).
Proof.
  intros Hf%spends_conn_transaction. revert i. induction n as [|n IH]; intros i w; simpl.
  { by exists []. }
  destruct (Hf w) as (l & El & Hl). destruct (conn_transaction f w) as [[a|e|p] w1]; simpl in *.
  - exists l. split; [done|]. intros H. by rewrite (Hl H).
  - destruct (_ || _) eqn:Er; simpl.
    + exists l. split; [done|]. intros H. by rewrite (Hl H), Er.
    + destruct (IH (i + 1) (add_sleep (BASE_DELAY * 2 ^ i) w1)) as (l' & El' & Hl').
      exists (l ++ l'). split; [by rewrite <- app_assoc, <- El'|].
      intros [H1 H2]%Forall_app. rewrite (Hl H1), Er. exact (Hl' H2).
  - exists l. split; [done|]. intros H. by rewrite (Hl H).
Qed.

Lemma spends_transaction {A} (f : App A) : spends f -> spends (transaction f).
Proof. apply spends_transaction_loop. Qed.
End spends.

Create HintDb spends.
Ltac spends_step :=
  match goal with
  | |- spends (mret _) => apply spends_ret
  | |- spends (throw _) => apply spends_throw
  | |- spends (panic _) => apply spends_panic
  | |- spends (lift _) => apply spends_lift
  | |- spends (_ ≫= _) => apply spends_bind; [|intros ?]
  | |- spends (exec _) => apply spends_with_err
  | |- spends (with_err _ _) => apply spends_with_err
  | |- spends (attempt _) => apply spends_attempt
  | |- spends (expect _ _) => apply spends_expect
  | |- spends (optional _) => apply spends_optional
  | |- spends (for_each _ _) => apply spends_for_each; intros ?
  | |- spends (fold_each _ _ _) => apply spends_fold_each; intros ? ?
  | |- spends (transaction _) => apply spends_transaction
  | |- spends (exclusive_transaction _) => apply spends_conn_transaction
  | |- spends (conn_transaction _) => apply spends_conn_transaction
  | |- spends (load _) => apply spends_load
  | |- spends (load_ordered _ _) => apply spends_load_ordered
  | |- spends (insert_into _) => apply spends_insert_into
  | |- spends (replace_into _) => apply spends_replace_into
  | |- spends (update_all _) => apply spends_update_all
  | |- spends (load_first _) => unfold load_first
  | |- spends (load_ordered_first _ _) => unfold load_ordered_first
  | |- spends (insert_get_id _) => unfold insert_get_id
  | |- spends last_insert_rowid => apply spends_last_insert_rowid
  | |- spends get_conn => apply spends_get_conn
  | |- spends (if ?b then _ else _) => destruct b
  | |- spends (match ?x with _ => _ end) => destruct x
  | |- spends (let '_ := ?x in _) => destruct x
  | |- _ => solve [eauto with spends]
  end.
Ltac solve_spends := repeat spends_step.

(** ** The operations of the models *)
Section models.
Context {X_chrono : Chrono} {X_sqlite : Sqlite} {X_hex : Hex} {X_mc : MobileCoin}.

Lemma spends_counters_get : spends Counters.get.
Proof. unfold Counters.get. solve_spends. Qed.

Lemma spends_publish c : spends (Counters.update_prometheus c).
Proof.
  apply spends_pure; intros w; unfold Counters.update_prometheus; cbn [fst snd].
  - revert w. induction all_counters as [|v vs IH]; intros w; [done|]. cbn [foldl]. by rewrite IH.
  - reflexivity.
Qed.
#[local] Hint Resolve spends_counters_get spends_publish : spends.

Lemma spends_inc v : spends (Counters.inc v).
Proof. unfold Counters.inc. solve_spends. Qed.

Lemma spends_ensure_exists : spends Counters.ensure_exists.
Proof. unfold Counters.ensure_exists. solve_spends. Qed.
End models.
#[export] Hint Resolve spends_counters_get spends_publish spends_inc spends_ensure_exists
  : spends.

Section operations.
Context {X_chrono : Chrono} {X_sqlite : Sqlite} {X_hex : Hex} {X_mc : MobileCoin} {X_hash : HashOrder}.

Lemma spends_set_balances idx m : spends (BlockBalance.set_balances_for_block idx m).
Proof. unfold BlockBalance.set_balances_for_block. solve_spends. Qed.

Lemma spends_get_balances idx : spends (BlockBalance.get_balances_for_block idx).
Proof. unfold BlockBalance.get_balances_for_block. solve_spends. Qed.

Lemma spends_last_synced : spends BlockAuditData.last_synced_block_index.
Proof. unfold BlockAuditData.last_synced_block_index. solve_spends. Qed.

Lemma spends_record_block b : spends (BlockAuditData.set b).
Proof. unfold BlockAuditData.set. solve_spends. Qed.

Lemma spends_insert_config_tx idx ts tx :
  spends (MintConfigTx.insert_from_core_mint_config_tx idx ts tx).
Proof.
  unfold MintConfigTx.insert_from_core_mint_config_tx, MintConfigTx.insert,
    MintConfig.insert_from_core_mint_config, MintConfig.insert. solve_spends.
Qed.

Lemma spends_insert_mint idx ts i tx : spends (MintTx.insert_from_core_mint_tx idx ts i tx).
Proof. unfold MintTx.insert_from_core_mint_tx, MintTx.insert. solve_spends. Qed.

Lemma spends_insert_burn b : spends (BurnTxOut.insert b).
Proof. unfold BurnTxOut.insert. solve_spends. Qed.

Lemma spends_find_config idx tx cs : spends (ReserveAuditorDb.find_mint_config idx tx cs).
Proof.
  induction cs as [|c cs IH]; simpl; [solve_spends|].
  unfold MintConfig.get_total_minted_before_block. solve_spends; apply IH.
Qed.
#[local] Hint Resolve spends_find_config : spends.

Lemma spends_lookup idx tx : spends (ReserveAuditorDb.lookup_mint_config idx tx).
Proof.
  unfold ReserveAuditorDb.lookup_mint_config, MintConfigTx.most_recent_for_token,
    MintConfigTx.get_total_minted_before_block, MintConfig.get_by_mint_config_tx_id. solve_spends.
Qed.
#[local] Hint Resolve spends_set_balances spends_get_balances spends_last_synced
  spends_record_block spends_insert_config_tx spends_insert_mint spends_insert_burn
  spends_lookup : spends.

Lemma spends_sync_block idx c ts : spends (ReserveAuditorDb.sync_block_with_conn idx c ts).
Proof.
  unfold ReserveAuditorDb.sync_block_with_conn, ReserveAuditorDb.sync_block_body,
    ReserveAuditorDb.process_mint, ReserveAuditorDb.process_burn. solve_spends.
Qed.

Lemma spends_restart : spends (ReserveAuditorDb.new_from_path (mret tt)).
Proof. unfold ReserveAuditorDb.new_from_path. solve_spends. Qed.
End operations.
#[export] Hint Resolve spends_last_synced spends_sync_block spends_restart : spends.

(** ** Matching and following *)
Section handlers.
Context {X_chrono : Chrono} {X_sqlite : Sqlite} {X_hex : Hex} {X_mc : MobileCoin} {X_url : UrlLib}.
Context {X_hash : HashOrder} {X_json : SerdeJson} {X_ledger : LedgerDB}.

Lemma spends_match_deposit x sc : spends (AuditedMint.try_match_deposit_with_mint x sc).
Proof.
  unfold AuditedMint.try_match_deposit_with_mint, AuditedMint.match_deposit_result,
    AuditedMint.match_deposit_body, AuditedMint.existing_match,
    MintTx.find_unaudited_mint_tx_by_nonce, AuditedMint.associate_deposit_with_mint.
  solve_spends.
Qed.

Lemma spends_match_mint m config : spends (AuditedMint.try_match_mint_with_deposit m config).
Proof.
  unfold AuditedMint.try_match_mint_with_deposit, AuditedMint.match_mint_result,
    AuditedMint.match_mint_body, AuditedMint.existing_match,
    GnosisSafeDeposit.find_unaudited_deposit_by_nonce, AuditedMint.associate_deposit_with_mint.
  solve_spends.
Qed.

Lemma spends_match_withdrawal x sc :
  spends (AuditedBurn.try_match_withdrawal_with_burn x sc).
Proof.
  unfold AuditedBurn.try_match_withdrawal_with_burn, AuditedBurn.match_withdrawal_result,
    AuditedBurn.match_withdrawal_body, AuditedBurn.existing_match,
    BurnTxOut.find_unaudited_burn_tx_out_by_public_key, AuditedBurn.associate_withdrawal_with_burn.
  solve_spends.
Qed.

Lemma spends_match_burn b config : spends (AuditedBurn.try_match_burn_with_withdrawal b config).
Proof.
  unfold AuditedBurn.try_match_burn_with_withdrawal, AuditedBurn.match_burn_result,
    AuditedBurn.match_burn_body, AuditedBurn.existing_match,
    GnosisSafeWithdrawal.find_unaudited_withdrawal_by_public_key,
    AuditedBurn.associate_withdrawal_with_burn.
  solve_spends.
Qed.
#[local] Hint Resolve spends_match_deposit spends_match_mint spends_match_withdrawal
  spends_match_burn : spends.

Lemma spends_sync_and_audit oconfig idx c ts :
  spends (Main.sync_and_audit oconfig idx c ts).
Proof. unfold Main.sync_and_audit, Main.audit_block_data. solve_spends. Qed.
#[local] Hint Resolve spends_sync_and_audit : spends.

Lemma spends_sync_iteration oconfig watcher n :
  spends (Main.sync_iteration oconfig watcher n).
Proof. unfold Main.sync_iteration. solve_spends. Qed.

Lemma spends_insert_deposit x : spends (GnosisSafeDeposit.insert x).
Proof. unfold GnosisSafeDeposit.insert. solve_spends. Qed.

Lemma spends_insert_withdrawal x : spends (GnosisSafeWithdrawal.insert x).
Proof. unfold GnosisSafeWithdrawal.insert. solve_spends. Qed.

Lemma spends_insert_safe_tx x : spends (GnosisSafeTx.insert x).
Proof. unfold GnosisSafeTx.insert. solve_spends. Qed.
#[local] Hint Resolve spends_insert_deposit spends_insert_withdrawal spends_insert_safe_tx
  : spends.

Lemma spends_process_transaction sc tx : spends (GnosisSync.process_transaction sc tx).
Proof.
  unfold GnosisSync.process_transaction, GnosisSync.process_transaction_body,
    GnosisSync.process_eth_transaction, GnosisSync.process_transfer,
    GnosisSync.process_multi_sig_transaction.
  solve_spends.
Qed.
End handlers.
#[export] Hint Resolve spends_sync_iteration spends_process_transaction : spends.
