(* ===== verification/Handlers.v ===== *)
(** * The handlers refine the abstract steps

    The matching handlers, the synchronization of a block with its audit, and the
    processing of a safe's transaction change the database only through the steps
    of [AuditInvariant], whatever faults strike. *)

From S2P Require Import Prelude Externals Concrete GnosisTypes Errors Schema Database.
From S2P Require Import CountersModel Blocks Mints Burns GnosisConfig GnosisRows AuditedMints.
From S2P Require Import AuditedBurns SyncBlock LedgerSpec LedgerSync SafeSync AuditInvariant Main.

Section handlers.
Context {X_chrono : Chrono} {X_sqlite : Sqlite} {L_sqlite : SqliteLaws}.
Context {X_hex : Hex} {L_hex : HexLaws} {X_mc : MobileCoin} {L_mc : MobileCoinLaws} {X_url : UrlLib}.
Context {X_hash : HashOrder} {L_hash : HashOrderLaws}.
Implicit Types (w : World) (d : Db) (config : GnosisSafeConfig).

(** ** Matching *)
Lemma deposit_counter_not_ledger e : deposit_counter e ∉ ledger_counters.
Proof. unfold ledger_counters. destruct e; simpl; set_solver. Qed.
Lemma mint_counter_not_ledger e : mint_counter e ∉ ledger_counters.
Proof. unfold ledger_counters. destruct e; simpl; set_solver. Qed.
Lemma withdrawal_counter_not_ledger e : withdrawal_counter e ∉ ledger_counters.
Proof. unfold ledger_counters. destruct e; simpl; set_solver. Qed.
Lemma burn_counter_not_ledger e : burn_counter e ∉ ledger_counters.
Proof. unfold ledger_counters. destruct e; simpl; set_solver. Qed.

(** What a matching handler does to the world. *)
Definition audits config {A} w (r : Res Error A) w' : Prop :=
  audit_step config (w_db w) (w_db w') /\ (healthy w -> healthy w') /\ forall p, r <> Panic p.

Lemma audits_count config {A} w (e : Error) w' v :
  v ∉ ledger_counters -> leads w (bump_db v (w_db w)) w' -> audits config w (Err e : Res Error A) w'.
Proof. intros Hv [Hd Hh]. split; [|done]. rewrite Hd. by apply audit_count. Qed.

Lemma audits_fault config {A} w (e : Error) w' (class : Error -> CounterVar) :
  (forall e, class e ∉ ledger_counters) -> ~ healthy w ->
  w_db w' = w_db w \/ (exists e, w_db w' = bump_db (class e) (w_db w)) ->
  audits config w (Err e : Res Error A) w'.
Proof.
  intros Hc Hh Hd. split; [|done]. destruct Hd as [-> |[e' ->]]; [constructor|by apply audit_count].
Qed.

Lemma match_deposit_audits config sc x w :
  sc ∈ gc_safes config -> audit_inv config (w_db w) -> x ∈ rows (w_db w) ->
  wp (AuditedMint.try_match_deposit_with_mint x sc) (audits config w) w.
Proof.
  intros Hsc Hi Hx. pose proof (ai_ready _ _ Hi) as (Hd & _ & Hk).
  apply wp_try_match_deposit; [done..| | |].
  - intros e w' Hh Hdb. by eapply audits_fault; [apply deposit_counter_not_ledger|..].
  - intros e w' _ Hl. by eapply audits_count; [apply deposit_counter_not_ledger|].
  - intros m mid did w' Ho Hm Em Ex [Edb Hh]. split; [rewrite Edb|done].
    eapply audit_mint; [done|]. by apply deposit_outcome_ok.
Qed.

Lemma match_mint_audits config m w :
  audit_inv config (w_db w) -> m ∈ rows (w_db w) ->
  wp (AuditedMint.try_match_mint_with_deposit m config) (audits config w) w.
Proof.
  intros Hi Hm. pose proof (ai_ready _ _ Hi) as (Hd & _ & Hk).
  apply wp_try_match_mint; [done|apply Hi|done..| | |].
  - intros e w' Hh Hdb. by eapply audits_fault; [apply mint_counter_not_ledger|..].
  - intros e w' _ Hl. by eapply audits_count; [apply mint_counter_not_ledger|].
  - intros x mid did w' Ho Hx Em Ex [Edb Hh]. split; [rewrite Edb|done].
    destruct (mint_outcome_ok _ _ _ _ _ _ Ho Hx Hm Em Ex) as (sc & Hsc & Hp).
    eapply audit_mint; [|done]. by apply find_Some_elem in Hsc as [].
Qed.

Lemma match_withdrawal_audits config sc x w :
  sc ∈ gc_safes config -> audit_inv config (w_db w) -> x ∈ rows (w_db w) ->
  wp (AuditedBurn.try_match_withdrawal_with_burn x sc) (audits config w) w.
Proof.
  intros Hsc Hi Hx. pose proof (ai_ready _ _ Hi) as (Hd & _ & Hk).
  apply wp_try_match_withdrawal; [done..| | |].
  - intros e w' Hh Hdb. by eapply audits_fault; [apply withdrawal_counter_not_ledger|..].
  - intros e w' _ Hl. by eapply audits_count; [apply withdrawal_counter_not_ledger|].
  - intros b bid wid w' Ho Hb Eb Ex [Edb Hh]. split; [rewrite Edb|done].
    eapply audit_burn; [done|]. by apply withdrawal_outcome_ok.
Qed.

Lemma match_burn_audits config b w :
  audit_inv config (w_db w) -> b ∈ rows (w_db w) ->
  wp (AuditedBurn.try_match_burn_with_withdrawal b config) (audits config w) w.
Proof.
  intros Hi Hb. pose proof (ai_ready _ _ Hi) as (Hd & _ & Hk).
  apply wp_try_match_burn; [done..| | |].
  - intros e w' Hh Hdb. by eapply audits_fault; [apply burn_counter_not_ledger|..].
  - intros e w' _ Hl. by eapply audits_count; [apply burn_counter_not_ledger|].
  - intros x bid wid w' Ho Hx Eb Ex [Edb Hh]. split; [rewrite Edb|done].
    destruct (burn_outcome_ok _ _ _ _ _ _ Ho Hx Hb Eb Ex) as (sc & Hsc & Hp).
    eapply audit_burn; [|done]. by apply find_Some_elem in Hsc as [].
Qed.

(** ** Sequences of steps *)
Lemma gnosis_steps_inv config d d' :
  rtc (gnosis_step config) d d' -> audit_inv config d -> audit_inv config d' /\ same_ledger d d'.
Proof.
  induction 1 as [d|d1 d2 d3 Hs _ IH]; intros Hi; [by split|].
  destruct IH as [H1 H2]; [by eapply gnosis_step_inv|]. split; [done|].
  etrans; [|exact H2]. eapply gnosis_step_same_ledger; [done|]. apply (ai_ready _ _ Hi).
Qed.

Lemma auditor_steps_inv config d d' :
  rtc (auditor_step config) d d' -> audit_inv config d -> audit_inv config d'.
Proof. induction 1 as [d|d1 d2 d3 Hs _ IH]; intros Hi; [done|]. by apply IH; eapply auditor_step_inv. Qed.

Lemma gnosis_auditor_steps config d d' :
  rtc (gnosis_step config) d d' -> rtc (auditor_step config) d d'.
Proof. apply rtc_subrel. intros ? ? Hs. by apply auditor_gnosis. Qed.

(** Both loops of [audit_block_data] have this shape. *)
Lemma audit_all config {A B} (f : A -> App B) (stored : Db -> A -> Prop) xs d0 Q w :
  (forall d d' x, same_ledger d d' -> stored d x -> stored d' x) ->
  (forall x w, x ∈ xs -> audit_inv config (w_db w) -> stored (w_db w) x ->
     wp (f x) (audits config w) w) ->
  audit_inv config d0 -> (forall x, x ∈ xs -> stored d0 x) ->
  rtc (gnosis_step config) d0 (w_db w) ->
  (forall l w', rtc (gnosis_step config) d0 (w_db w') -> (healthy w -> healthy w') -> Q (Ok l) w') ->
  wp (for_each (fun x => attempt (f x)) xs : App (list (Res Error B))) Q w.
Proof.
  intros Hmono Hf Hi0. revert Q w. induction xs as [|x xs IH]; intros Q w Hst Hs HQ; simpl.
  { by apply wp_ret, HQ. }
  destruct (gnosis_steps_inv _ _ _ Hs Hi0) as [Hi Hsl].
  apply wp_seq, wp_attempt. eapply wp_mono; [apply Hf; [by left|done|by eapply Hmono; [exact Hsl|apply Hst; left]]|].
  intros r w1 (Ha & Hh & Hp).
  assert (rtc (gnosis_step config) d0 (w_db w1)) as Hs1.
  { eapply rtc_r; [done|by apply gnosis_audit]. }
  assert (wp (for_each (fun x => attempt (f x)) xs : App (list (Res Error B)))
    (fun r w' => match r with
                 | Ok l => rtc (gnosis_step config) d0 (w_db w') /\ (healthy w1 -> healthy w')
                 | _ => False end) w1) as Hrest.
  { apply IH; [by intros; apply Hf; [right|..]|by intros; apply Hst; right|done|]. by intros. }
  destruct r as [b|e|p]; [| |by destruct (Hp p)];
    (apply wp_seq; eapply wp_mono; [exact Hrest|]; intros [l|e'|p'] w' Hw'; [|done..];
     apply wp_ret, HQ; [apply Hw'|]; intros Hhw; apply Hw', Hh, Hhw).
Qed.

Lemma wp_audit_block_data config data Q w :
  audit_inv config (w_db w) ->
  (forall m, m ∈ sbd_mint_txs data -> m ∈ rows (w_db w)) ->
  (forall b, b ∈ sbd_burn_tx_outs data -> b ∈ rows (w_db w)) ->
  (forall w', rtc (gnosis_step config) (w_db w) (w_db w') -> (healthy w -> healthy w') ->
     Q (Ok tt) w') ->
  wp (Main.audit_block_data data config) Q w.
Proof.
  intros Hi Hm Hb HQ. unfold Main.audit_block_data.
  apply wp_seq, (audit_all config _ (fun d m => m ∈ rows d) _ (w_db w)); [|by intros; apply match_mint_audits|done|done|done|].
  { intros d d' m Hs Hin. unfold rows in *. simpl in *. by rewrite (sl_mints _ _ Hs). }
  intros l w1 Hs1 Hh1.
  apply wp_seq, (audit_all config _ (fun d b => b ∈ rows d) _ (w_db w)); [|by intros; apply match_burn_audits|done|done|done|].
  { intros d d' m Hs Hin. unfold rows in *. simpl in *. by rewrite (sl_burns _ _ Hs). }
  intros l' w2 Hs2 Hh2. apply wp_ret, HQ; [done|auto].
Qed.

(** ** One block *)
Lemma wp_sync_and_audit config oconfig idx c ts Q w :
  oconfig = None \/ oconfig = Some config -> audit_inv config (w_db w) ->
  (forall e w', ~ healthy w \/ ~ block_storable (w_db w) idx c ts -> w_db w' = w_db w -> Q (Err e) w') ->
  (forall data d1 w', synced idx c ts (w_db w) data d1 ->
     rtc (gnosis_step config) d1 (w_db w') -> (healthy w -> healthy w') -> Q (Ok tt) w') ->
  wp (Main.sync_and_audit oconfig idx c ts) Q w.
Proof.
  intros Hoc Hi He Ho. apply wp_conn_transaction.
  { intros f w' Hh Hl. apply He; [by left|by apply leads_db in Hl]. }
  intros w1 Hl1. pose proof (leads_db _ _ _ Hl1) as Hd1.
  apply wp_seq, wp_sync_block_with_conn; rewrite ?Hd1; [apply Hi..| |].
  - intros e w' [Hh|Hn] _; (apply He; [|done]); [left; by eapply leads_sick|by right].
  - intros data d1 w2 Hs Hl2. pose proof (leads_trans _ _ _ _ _ Hl1 Hl2) as Hl.
    pose proof (leads_db _ _ _ Hl) as Hd2. pose proof (synced_inv _ _ _ _ _ _ _ Hs Hi) as Hi2.
    pose proof (synced_frame _ _ _ _ _ _ Hs) as (Rm & Rb & _).
    destruct Hoc as [-> | ->].
    + apply wp_ret. eapply Ho; [done|by rewrite Hd2|apply Hl].
    + apply wp_audit_block_data; rewrite ?Hd2; [done|..].
      * intros m Hm. rewrite Rm. apply elem_of_app. by right.
      * intros b Hb. rewrite Rb. apply elem_of_app. by right.
      * intros w' Hs' Hh. eapply Ho; [done..|]. intros Hw. by apply Hh, Hl.
Qed.
End handlers.
