(* ===== verification/SyncLoop.v ===== *)
(** * The synchronization loop reaches the end of the ledger

    [sync_loop] of [src/bin/main.rs] from the record of any prefix of the ledger. *)

From S2P Require Import Prelude Externals Concrete GnosisTypes Errors Schema Database.
From S2P Require Import CountersModel Blocks Mints Burns GnosisConfig GnosisRows AuditedMints.
From S2P Require Import AuditedBurns SyncBlock LedgerSpec LedgerSync SafeSync AuditInvariant Main.
From S2P Require Import Handlers.

Section loop.
Context {X_chrono : Chrono} {X_sqlite : Sqlite} {L_sqlite : SqliteLaws}.
Context {X_hex : Hex} {L_hex : HexLaws} {X_mc : MobileCoin} {L_mc : MobileCoinLaws} {X_url : UrlLib}.
Context {X_hash : HashOrder} {L_hash : HashOrderLaws} {X_ledger : LedgerDB}.
Implicit Types (w : World) (d : Db) (config : GnosisSafeConfig) (blocks : list BlockContents).

(** The ledger holds [blocks]: what it serves under an index is the block of that
    index, with that index. *)
Definition serves blocks : Prop :=
  forall i j c, ledger_get_block_data i = inr (j, c) ->
    j = i /\ 0 <= i /\ blocks !! Z.to_nat i = Some c.

(** It has finished growing and every block can be read. *)
Definition serves_all blocks : Prop :=
  serves blocks /\
  (forall n, ledger_num_blocks n = inr (Z.of_nat (length blocks))) /\
  (forall i c, blocks !! i = Some c -> ledger_get_block_data (Z.of_nat i) = inr (Z.of_nat i, c)).

(** The ledger cannot be read when block [k] is looked for, the [n]-th time. *)
Definition ledger_fails (k n : nat) (s : string) : Prop :=
  ledger_num_blocks n = inl s \/
  exists len, ledger_num_blocks n = inr len /\ Z.of_nat k < len /\
    ledger_get_block_data (Z.of_nat k) = inl s.

Lemma sql_max_seq n :
  BlockAuditData.sql_max (seqZ 0 (Z.of_nat n)) =
    match n with O => None | S m => Some (Z.of_nat m) end.
Proof.
  destruct n as [|m]; [done|].
  assert (forall k, foldr Z.max 0 (seqZ 0 (Z.of_nat (S k))) = Z.of_nat k) as H.
  { intros k. induction k as [|k IH]; [done|].
    replace (Z.of_nat (S (S k))) with (Z.of_nat (S k) + 1) by lia.
    rewrite seqZ_app, foldr_app by lia. change (seqZ (0 + Z.of_nat (S k)) 1) with [0 + Z.of_nat (S k)].
    simpl foldr. rewrite Z.max_l by lia.
    assert (forall l z, Forall (fun x => x < z) l -> 0 <= z -> foldr Z.max z l = z) as Hf.
    { clear. induction 1; intros; simpl; [done|]. rewrite IHForall by done. lia. }
    rewrite Hf; [lia| |lia]. apply Forall_forall. intros x Hx%elem_of_seqZ. lia. }
  specialize (H m). rewrite seqZ_cons in * by lia. simpl in *. f_equal.
  assert (forall l, Forall (fun x => 0 <= x) l -> foldr Z.max 0 l = foldr Z.max 0 l /\ 0 <= foldr Z.max 0 l) as Hp.
  { clear. induction 1; simpl; lia. }
  destruct (Hp (seqZ (Z.succ 0) (Z.pred (Z.of_nat (S m))))) as [_ Hn].
  { apply Forall_forall. intros x Hx%elem_of_seqZ. lia. }
  rewrite Z.max_r in H by done. exact H.
Qed.

Lemma query_last_synced :
  query BlockAuditData.last_synced_block_index (fun d r => forall blocks,
    mirrors blocks d -> Z.of_nat (length blocks) < two63 ->
    r = Ok (match length blocks with O => None | S m => Some (Z.of_nat m) end)).
Proof.
  eapply query_mono; [apply query_bind; [apply query_load_first|]|].
  - intros m. apply query_ret.
  - simpl. intros d r (ra & -> & Hr) blocks Hm Hl. rewrite scan_singleton in Hr. simpl in Hr. subst r.
    change (audit_block_index <$> rows d) with (synced_indices d).
    rewrite (mir_indices _ _ Hm), sql_max_seq. destruct (length blocks); [done|].
    simpl. do 2 f_equal. apply as_u64_small. unfold is_u64. lia.
Qed.

(** One iteration: stops at the end of the ledger, or syncs the next block. *)
Lemma wp_sync_iteration config oconfig watcher blocks k n Q w :
  oconfig = None \/ oconfig = Some config -> serves blocks ->
  Z.of_nat (length blocks) < two63 -> (k <= length blocks)%nat ->
  audit_inv config (w_db w) -> mirrors (take k blocks) (w_db w) ->
  (forall e w', w_db w' = w_db w ->
     (~ healthy w \/ (exists s, e = LedgerDb s /\ ledger_fails k n s) \/
      exists c ts, blocks !! k = Some c /\ ~ block_storable (w_db w) (Z.of_nat k) c ts) ->
     Q (Err e) w') ->
  (forall len w', leads w (w_db w) w' -> ledger_num_blocks n = inr len -> len <= Z.of_nat k ->
     Q (Ok false) w') ->
  (forall c ts data d1 w', blocks !! k = Some c -> synced (Z.of_nat k) c ts (w_db w) data d1 ->
     rtc (gnosis_step config) d1 (w_db w') -> (healthy w -> healthy w') -> Q (Ok true) w') ->
  wp (Main.sync_iteration oconfig watcher n) Q w.
Proof.
  intros Hoc Hserve Hl Hk Hi Hm He Hf Ht.
  assert (length (take k blocks) = k) as Elen by (rewrite length_take; lia).
  apply wp_seq, wp_get_conn; [intros; apply He; [by eapply leads_db|by left]|].
  intros w1 Hl1. pose proof (leads_db _ _ _ Hl1) as Hd1.
  apply wp_seq, wp_lift. destruct (ledger_num_blocks n) as [s|len] eqn:Elen'; simpl.
  { apply He; [done|]. right. left. exists s. split; [done|by left]. }
  apply wp_seq, (wp_query _ _ _ _ query_last_synced).
  { intros f w' Hh Hl'. apply He; [by apply leads_db in Hl'; congruence|left; by eapply leads_sick]. }
  rewrite Hd1. intros r w2 Hl2 Hr. rewrite (Hr _ Hm) by (rewrite Elen; lia). rewrite Elen. clear Hr r.
  pose proof (leads_trans _ _ _ _ _ Hl1 Hl2) as Hl'. pose proof (leads_db _ _ _ Hl') as Hd2.
  assert (match match k with O => None | S m => Some (Z.of_nat m) end with
          | Some block_index => wrapping_add_u64 block_index 1 | None => 0 end = Z.of_nat k) as ->.
  { destruct k as [|m]; [done|]. unfold wrapping_add_u64. rewrite Z.mod_small; lia. }
  destruct (Z.compare_spec (Z.of_nat k) len) as [E|E|E].
  { apply wp_ret, (Hf len); [done|done|lia]. } 2: { apply wp_ret, (Hf len); [done|done|lia]. }
  apply wp_seq, wp_lift. destruct (ledger_get_block_data (Z.of_nat k)) as [s|[j c]] eqn:Edata; simpl.
  { apply He; [done|]. right. left. exists s. split; [done|]. right. eauto. }
  destruct (Hserve _ _ _ Edata) as (-> & _ & Hc). rewrite Nat2Z.id in Hc.
  apply wp_seq, (wp_sync_and_audit config); rewrite ?Hd2; [done|done|..].
  - intros e w' Hor Hdb. apply He; [done|]. destruct Hor as [Hh|Hn]; [left; by eapply leads_sick|eauto 8].
  - intros data d1 w' Hs Hs' Hh. apply wp_ret. eapply Ht; [done..|]. intros Hw. by apply Hh, Hl'.
Qed.

(** What holds whenever the loop hands over: the record of a prefix. *)
Definition at_block config blocks (k : nat) w : Prop :=
  (k <= length blocks)%nat /\ audit_inv config (w_db w) /\ mirrors (take k blocks) (w_db w).

Lemma at_block_next config blocks k c ts w data d1 w' :
  Z.of_nat (length blocks) < two63 -> at_block config blocks k w -> blocks !! k = Some c ->
  synced (Z.of_nat k) c ts (w_db w) data d1 -> rtc (gnosis_step config) d1 (w_db w') ->
  at_block config blocks (S k) w'.
Proof.
  intros Hl (Hk & Hi & Hm) Hc Hs Hg. apply lookup_lt_Some in Hc as Hlt.
  destruct (synced_mirrors _ _ _ _ _ _ _ Hs Hm (ai_ready _ _ Hi)) as (_ & Hm1 & _).
  { rewrite length_take. lia. }
  pose proof (synced_inv _ _ _ _ _ _ _ Hs Hi) as Hi1.
  destruct (gnosis_steps_inv _ _ _ Hg Hi1) as [Hi2 Hsl].
  split; [lia|]. split; [done|]. rewrite (take_S_r _ _ _ Hc). by eapply mirrors_same_ledger.
Qed.


(** One iteration from the record of [k] blocks, whatever happens. *)
Definition iterated config blocks k n (r : Res Error bool) w' : Prop :=
  match r with
  | Ok true => at_block config blocks (S k) w'
  | Ok false => at_block config blocks k w' /\
                exists len, ledger_num_blocks n = inr len /\ len <= Z.of_nat k
  | _ => at_block config blocks k w'
  end.

Lemma sync_iteration_at config oconfig watcher blocks k n w :
  oconfig = None \/ oconfig = Some config -> serves blocks ->
  Z.of_nat (length blocks) < two63 -> at_block config blocks k w ->
  wp (Main.sync_iteration oconfig watcher n) (iterated config blocks k n) w.
Proof.
  intros Hoc Hserve Hl Hat. pose proof Hat as (Hk & Hi & Hm).
  assert (forall w', w_db w' = w_db w -> at_block config blocks k w') as Hsame.
  { intros w' E. unfold at_block. by rewrite E. }
  apply (wp_sync_iteration config oconfig watcher blocks k); [done..| | |].
  - intros e w' E _. by apply Hsame.
  - intros len w' Hl' Hlen Hle. split; [|eauto]. apply Hsame, (leads_db _ _ _ Hl').
  - intros c ts data d1 w' Hc Hs Hg _. by eapply at_block_next.
Qed.

(** The loop, from the record of [k] blocks. *)
Lemma sync_loop_ends config oconfig watcher blocks fuel k n w :
  oconfig = None \/ oconfig = Some config -> serves blocks ->
  Z.of_nat (length blocks) < two63 -> at_block config blocks k w ->
  (length blocks - k < fuel)%nat ->
  exists r w' k', Main.sync_loop fuel n oconfig watcher w = Some (r, w') /\
    (k <= k')%nat /\ at_block config blocks k' w' /\
    (r = Ok tt -> exists m len, ledger_num_blocks m = inr len /\ len <= Z.of_nat k').
Proof.
  intros Hoc Hserve Hl. revert k n w. induction fuel as [|fuel IH]; intros k n w Hat Hfuel; [lia|].
  pose proof (sync_iteration_at config oconfig watcher blocks k n w Hoc Hserve Hl Hat) as Hwp.
  unfold wp in Hwp. simpl.
  destruct (Main.sync_iteration oconfig watcher n w) as [[[|]|e|p] w'] eqn:E; simpl in Hwp.
  - destruct (IH (S k) (S n) w') as (r & w2 & k' & ? & ? & ? & ?); [done|destruct Hwp; lia|].
    exists r, w2, k'. split; [done|]. split; [lia|]. done.
  - destruct Hwp as (Hat' & len & Hlen & Hle). exists (Ok tt), w', k.
    split; [done|]. split; [lia|]. split; [done|]. eauto.
  - exists (Err e), w', k. by split; [|split; [lia|]].
  - exists (Panic p), w', k. by split; [|split; [lia|]].
Qed.

(** Without faults, on a valid ledger: every iteration advances. *)
Lemma sync_iteration_healthy config oconfig watcher blocks k n w :
  oconfig = None \/ oconfig = Some config -> serves_all blocks -> valid_ledger blocks ->
  at_block config blocks k w -> healthy w ->
  wp (Main.sync_iteration oconfig watcher n) (fun r w' =>
    r = Ok (Nat.ltb k (length blocks)) /\ healthy w' /\
    at_block config blocks (if Nat.ltb k (length blocks) then S k else k) w') w.
Proof.
  intros Hoc (Hserve & Hnum & Hdata) Hv Hat Hh. pose proof Hat as (Hk & Hi & Hm).
  pose proof (vl_length _ Hv) as Hl.
  apply (wp_sync_iteration config oconfig watcher blocks k); [done..| | |].
  - intros e w' _ [Hs|[(s & _ & [Hf|(len & Hlen & Hlt & Hf)])|(c & ts & Hc & Hn)]]; exfalso.
    + done.
    + by rewrite Hnum in Hf.
    + rewrite Hnum in Hlen. injection Hlen as <-.
      destruct (lookup_lt_is_Some_2 blocks k) as [c Hc]; [lia|]. by rewrite (Hdata _ _ Hc) in Hf.
    + by apply Hn, valid_storable with blocks.
  - intros len w' [Hd Hh'] Hlen Hle. rewrite Hnum in Hlen. injection Hlen as <-.
    destruct (Nat.ltb_spec k (length blocks)); [lia|].
    split; [done|]. split; [by apply Hh'|]. unfold at_block. by rewrite Hd.
  - intros c ts data d1 w' Hc Hs Hg Hh'. apply lookup_lt_Some in Hc as Hlt.
    destruct (Nat.ltb_spec k (length blocks)); [|lia].
    split; [done|]. split; [by apply Hh'|by eapply at_block_next].
Qed.

(** Without faults the loop reaches the end of a valid ledger. *)
Lemma sync_loop_healthy config oconfig watcher blocks fuel k n w :
  oconfig = None \/ oconfig = Some config -> serves_all blocks -> valid_ledger blocks ->
  at_block config blocks k w -> healthy w -> (length blocks - k < fuel)%nat ->
  exists w', Main.sync_loop fuel n oconfig watcher w = Some (Ok tt, w') /\
    healthy w' /\ audit_inv config (w_db w') /\ mirrors blocks (w_db w').
Proof.
  intros Hoc Hall Hv. revert k n w. induction fuel as [|fuel IH]; intros k n w Hat Hh Hfuel; [lia|].
  pose proof (sync_iteration_healthy config oconfig watcher blocks k n w Hoc Hall Hv Hat Hh) as Hwp.
  unfold wp in Hwp. simpl. destruct (Main.sync_iteration oconfig watcher n w) as [r w1].
  simpl in Hwp. destruct Hwp as (-> & Hh1 & Hat1).
  destruct (Nat.ltb_spec k (length blocks)) as [Hlt|Hge].
  - by apply (IH (S k)); [| |lia].
  - destruct Hat1 as (Hk & Hi & Hm). exists w1. rewrite firstn_all2 in Hm by lia. done.
Qed.
End loop.
