(* ===== verification/SafeSyncSpec.v ===== *)
(** * Following a safe refines the abstract steps

    Whatever a safe's API returns, [GnosisSync::process_transactions] writes to the
    database through the steps of [AuditInvariant] only, one atomic transaction per
    API transaction. *)

From S2P Require Import Prelude Externals Concrete GnosisTypes Errors Schema Database.
From S2P Require Import CountersModel Blocks Mints Burns GnosisConfig GnosisRows AuditedMints.
From S2P Require Import AuditedBurns SyncBlock LedgerSpec LedgerSync SafeSync AuditInvariant Main.
From S2P Require Import Handlers.

Section following.
Context {X_chrono : Chrono} {X_sqlite : Sqlite} {L_sqlite : SqliteLaws}.
Context {X_hex : Hex} {L_hex : HexLaws} {X_mc : MobileCoin} {L_mc : MobileCoinLaws} {X_url : UrlLib}.
Context {X_hash : HashOrder} {L_hash : HashOrderLaws} {X_json : SerdeJson}.
Implicit Types (w : World) (d : Db) (config : GnosisSafeConfig).

(** From a database in order, only abstract steps. *)
Definition follows config d d' : Prop := audit_inv config d -> rtc (gnosis_step config) d d'.

#[export] Instance follows_preorder config : PreOrder (follows config).
Proof.
  split; [intros d _; apply rtc_refl|]. intros d1 d2 d3 H1 H2 Hi.
  etrans; [by apply H1|]. apply H2. by eapply gnosis_steps_inv, Hi; apply H1.
Qed.

#[export] Instance follows_safe_tx config : InsertRel (follows config) GnosisSafeTx.
Proof. intros d i r Hi _. by apply rtc_once, gnosis_tx. Qed.

#[export] Instance follows_withdrawal config : InsertRel (follows config) GnosisSafeWithdrawal.
Proof. intros d i r Hi _. by apply rtc_once, gnosis_withdrawal. Qed.

#[export] Instance follows_invalid_ethereum config :
  UpdateRel (follows config) Counters (counter_bump num_invalid_ethereum_transactions).
Proof.
  intros d _. apply rtc_once, gnosis_audit, (audit_count _ _ num_invalid_ethereum_transactions).
  unfold ledger_counters. set_solver.
Qed.

#[export] Instance follows_invalid_multi_sig config :
  UpdateRel (follows config) Counters (counter_bump num_invalid_multi_sig_transactions).
Proof.
  intros d _. apply rtc_once, gnosis_audit, (audit_count _ _ num_invalid_multi_sig_transactions).
  unfold ledger_counters. set_solver.
Qed.

(** The same in the form of the program logic. *)
Lemma follows_wp config {E A} (m : M World E A) :
  (forall w, audit_inv config (w_db w) ->
     wp m (fun _ w' => rtc (gnosis_step config) (w_db w) (w_db w')) w) <->
  db_respects (follows config) m.
Proof. split; [intros H w Hi; by apply H|intros H w Hi; by apply H]. Qed.

Lemma parse_deposit_ok sc tx transfer x :
  GnosisSync.parse_deposit sc tx transfer = Ok x ->
  gsd_id x = None /\ gsd_expected_mc_mint_tx_nonce_hex x =
    hex_encode (MintTxNonce.to_bytes (MintTxNonce.EthereumGnosisDeposit (gsd_eth_tx_hash x))).
Proof.
  unfold GnosisSync.parse_deposit, ok_or, mbind, Res_bind, res_bind, unwrap.
  destruct (et_token_addr transfer) as [a|]; [|done].
  destruct (get_token_by_eth_contract_addr sc a) as [tok|]; [|done].
  destruct (et_value transfer) as [v|]; [|done].
  destruct (truncate_value v _ _); [|done..]. by intros [= <-].
Qed.

Lemma parse_withdrawal_ok sc tx x :
  GnosisSync.parse_withdrawal_with_pub_key_multi_sig_tx sc tx = Ok x -> gsw_id x = None.
Proof.
  unfold GnosisSync.parse_withdrawal_with_pub_key_multi_sig_tx, ok_or, mbind, Res_bind, res_bind,
    unwrap, from_ext.
  intros H. repeat (case_match; try done). by injection H as <-.
Qed.

(** What the statements of [insert] leave, whatever faults strike. *)
Lemma wp_insert_deposit_db x w :
  gsd_id x = None ->
  wp (GnosisSafeDeposit.insert x) (fun r w' =>
    match r with
    | Ok y => exists i, y = row_with_id i x /\ insertable (w_db w) i x /\
                w_db w' = db_insert i x (w_db w)
    | _ => w_db w' = w_db w \/ exists i, insertable (w_db w) i x /\ w_db w' = db_insert i x (w_db w)
    end) w.
Proof.
  intros Hid. unfold GnosisSafeDeposit.insert. rewrite Hid. apply wp_seq, wp_exec.
  eapply wp_mono; [eapply (wp_conj _ _ (fun r w' => match r with
    | Ok i => insertable (w_db w) i x /\ w_db w' = db_insert i x (w_db w)
    | _ => True end)); [apply insert_get_id_db|]|].
  - apply wp_insert_get_id; [done|]. intros i w' Hins Hl. by split; [|apply leads_db in Hl].
  - intros [i|e|p] w' [Hdb Hok]; [apply wp_ret; destruct Hok; eauto|done..].
Qed.

Lemma wp_insert_withdrawal_db x w :
  gsw_id x = None ->
  wp (GnosisSafeWithdrawal.insert x) (fun r w' =>
    match r with
    | Ok y => exists i, y = row_with_id i x /\ insertable (w_db w) i x /\
                w_db w' = db_insert i x (w_db w)
    | _ => w_db w' = w_db w \/ exists i, insertable (w_db w) i x /\ w_db w' = db_insert i x (w_db w)
    end) w.
Proof.
  intros Hid. unfold GnosisSafeWithdrawal.insert. rewrite Hid. apply wp_seq, wp_exec.
  eapply wp_mono; [eapply (wp_conj _ _ (fun r w' => match r with
    | Ok i => insertable (w_db w) i x /\ w_db w' = db_insert i x (w_db w)
    | _ => True end)); [apply insert_get_id_db|]|].
  - apply wp_insert_get_id; [done|]. intros i w' Hins Hl. by split; [|apply leads_db in Hl].
  - intros [i|e|p] w' [Hdb Hok]; [apply wp_ret; destruct Hok; eauto|done..].
Qed.

(** Storing a deposit and looking for its mint. *)
Lemma deposit_follows config sc x :
  sc ∈ gc_safes config -> gsd_id x = None ->
  gsd_expected_mc_mint_tx_nonce_hex x =
    hex_encode (MintTxNonce.to_bytes (MintTxNonce.EthereumGnosisDeposit (gsd_eth_tx_hash x))) ->
  db_respects (follows config)
    (x ← GnosisSafeDeposit.insert x;
     _ ← attempt (AuditedMint.try_match_deposit_with_mint x sc); mret tt : App unit).
Proof.
  intros Hsc Hid Hn. apply follows_wp. intros w Hi.
  apply wp_seq. eapply wp_mono; [by apply wp_insert_deposit_db|]. intros [y|e|p] w1 Hy.
  2-3: destruct Hy as [-> |(i & Hins & ->)]; [apply rtc_refl|by apply rtc_once, gnosis_deposit].
  destruct Hy as (i & -> & Hins & Hdb).
  assert (gnosis_step config (w_db w) (w_db w1)) as Hstep.
  { rewrite Hdb. by apply gnosis_deposit. }
  pose proof (gnosis_step_inv _ _ _ Hstep Hi) as Hi1.
  apply wp_seq, wp_attempt. eapply wp_mono; [apply (match_deposit_audits config); [done..|]|].
  { rewrite Hdb, rows_db_insert. apply elem_of_app. right. by left. }
  intros r w2 (Ha & _ & Hp).
  assert (rtc (gnosis_step config) (w_db w) (w_db w2)) as Hsteps.
  { eapply rtc_l; [done|]. by apply rtc_once, gnosis_audit. }
  destruct r as [m|e|p]; [by apply wp_ret..|by destruct (Hp p)].
Qed.

(** Storing a withdrawal and looking for its burn. *)
Lemma withdrawal_follows config sc x :
  sc ∈ gc_safes config -> gsw_id x = None ->
  db_respects (follows config)
    (x ← GnosisSafeWithdrawal.insert x;
     _ ← attempt (AuditedBurn.try_match_withdrawal_with_burn x sc); mret tt : App unit).
Proof.
  intros Hsc Hid. apply follows_wp. intros w Hi.
  apply wp_seq. eapply wp_mono; [by apply wp_insert_withdrawal_db|]. intros [y|e|p] w1 Hy.
  2-3: destruct Hy as [-> |(i & Hins & ->)]; [apply rtc_refl|by apply rtc_once, gnosis_withdrawal].
  destruct Hy as (i & -> & Hins & Hdb).
  assert (gnosis_step config (w_db w) (w_db w1)) as Hstep.
  { rewrite Hdb. by apply gnosis_withdrawal. }
  pose proof (gnosis_step_inv _ _ _ Hstep Hi) as Hi1.
  apply wp_seq, wp_attempt. eapply wp_mono; [apply (match_withdrawal_audits config); [done..|]|].
  { rewrite Hdb, rows_db_insert. apply elem_of_app. right. by left. }
  intros r w2 (Ha & _ & Hp).
  assert (rtc (gnosis_step config) (w_db w) (w_db w2)) as Hsteps.
  { eapply rtc_l; [done|]. by apply rtc_once, gnosis_audit. }
  destruct r as [m|e|p]; [by apply wp_ret..|by destruct (Hp p)].
Qed.

Lemma transfer_follows config sc tx transfer :
  sc ∈ gc_safes config -> db_respects (follows config) (GnosisSync.process_transfer sc tx transfer).
Proof.
  intros Hsc. unfold GnosisSync.process_transfer. destruct (EthAddr.eqb _ _); [|solve_respects].
  destruct (GnosisSync.parse_deposit sc tx transfer) as [x|e|p] eqn:E.
  - apply parse_deposit_ok in E as [Hid Hn]. exact (deposit_follows _ _ _ Hsc Hid Hn).
  - unfold attempt, lift, mbind, M_bind. simpl.
    pose proof (respects_inc (follows config) num_invalid_ethereum_transactions) as Hinc.
    intros w. specialize (Hinc w). destruct (Counters.inc _ w) as [[]]; exact Hinc.
  - unfold attempt, lift, mbind, M_bind. simpl. intros w. simpl. reflexivity.
Qed.

Lemma multi_sig_follows config sc tx :
  sc ∈ gc_safes config ->
  db_respects (follows config) (GnosisSync.process_multi_sig_transaction sc tx).
Proof.
  intros Hsc. unfold GnosisSync.process_multi_sig_transaction.
  destruct (negb _); [solve_respects|].
  destruct (GnosisSync.parse_withdrawal_with_pub_key_multi_sig_tx sc tx) as [x|e|p] eqn:E.
  - apply parse_withdrawal_ok in E. exact (withdrawal_follows _ _ _ Hsc E).
  - exact (respects_inc (follows config) num_invalid_multi_sig_transactions).
  - unfold attempt, lift, mbind, M_bind. intros w. simpl. reflexivity.
Qed.

Lemma respects_expect Rel `{!PreOrder Rel} {E F A} msg (m : M World E A) :
  db_respects Rel m -> db_respects Rel (expect msg m : M World F A).
Proof. intros Hm w. specialize (Hm w). unfold expect. by destruct (m w) as [[] ?]. Qed.

(** A transaction of a safe respects what its transfers and its withdrawals do. *)
Lemma transaction_respects Rel `{!PreOrder Rel} `{!InsertRel Rel GnosisSafeTx} sc tx :
  (forall t transfer, db_respects Rel (GnosisSync.process_transfer sc t transfer)) ->
  (forall t, db_respects Rel (GnosisSync.process_multi_sig_transaction sc t)) ->
  db_respects Rel (GnosisSync.process_transaction sc tx).
Proof.
  intros Ht Hm. unfold GnosisSync.process_transaction.
  apply respects_bind; [apply _|by apply respects_expect, respects_get_conn; apply _|]. intros _.
  apply respects_expect; [apply _|]. apply respects_conn_transaction; [apply _|].
  unfold GnosisSync.process_transaction_body.
  apply respects_bind; [apply _|apply respects_attempt, respects_insert_safe_tx; apply _|].
  intros [[]|[]|p]; try solve [solve_respects].
  apply respects_bind; [apply _|apply respects_lift, _|]. intros [tx'|tx'|v].
  - apply Hm.
  - apply respects_bind; [apply _| |intros r; solve_respects].
    apply respects_attempt. unfold GnosisSync.process_eth_transaction.
    apply respects_bind; [apply _| |intros; solve_respects].
    apply respects_for_each; [apply _|]. intros t _. apply Ht.
  - solve_respects.
Qed.

Lemma transaction_follows config sc tx :
  sc ∈ gc_safes config -> db_respects (follows config) (GnosisSync.process_transaction sc tx).
Proof.
  intros Hsc.
  apply transaction_respects; [apply _..|by intros; apply transfer_follows|by intros; apply multi_sig_follows].
Qed.

Lemma transactions_follow config sc txs :
  sc ∈ gc_safes config -> db_respects (follows config) (GnosisSync.process_transactions sc txs).
Proof.
  intros Hsc. unfold GnosisSync.process_transactions.
  apply respects_bind; [apply _| |intros; solve_respects].
  apply respects_for_each; [apply _|]. intros t _. by apply transaction_follows.
Qed.

(** What a fault before the transaction does, and what the transaction keeps. *)
Lemma wp_process_transaction sc tx Q w :
  (forall msg w', ~ healthy w -> w_db w' = w_db w -> Q (Panic msg) w') ->
  (forall w1, leads w (w_db w) w1 ->
     wp (GnosisSync.process_transaction_body sc tx) (fun r w' =>
       match r with
       | Ok a => Q (Ok a) w'
       | Err _ => Q (Panic "failed processing transaction") (set_db (w_db w) w')
       | Panic p => Q (Panic p) (set_db (w_db w) w')
       end) w1) ->
  wp (GnosisSync.process_transaction sc tx) Q w.
Proof.
  intros Hf Hb. apply wp_seq, wp_expect, wp_get_conn.
  { intros f w' Hh Hl. apply Hf; [done|by apply leads_db in Hl]. }
  intros w1 Hl1. pose proof (leads_db _ _ _ Hl1) as Hd1.
  apply wp_expect, wp_conn_transaction.
  { intros f w' Hh Hl. apply Hf; [by eapply leads_sick|]. by rewrite (leads_db _ _ _ Hl). }
  intros w2 Hl2. rewrite Hd1 in Hl2. eapply wp_mono; [apply Hb; by eapply leads_trans|].
  rewrite Hd1. by intros [] w'.
Qed.
End following.
