(* ===== verification/Scenario.v ===== *)
(** * A small ledger and a small safe

    Concrete inputs on which the witnesses of the theorems evaluate the model: four
    blocks with a mint configuration, an allowed mint, a burn, a mint over the limit
    and a burn over the balance; and a safe with one token, deposits and
    withdrawals. *)

From S2P Require Import Prelude Externals Concrete GnosisTypes Errors Schema Database.
From S2P Require Import CountersModel Blocks Mints Burns GnosisConfig GnosisRows AuditedMints.
From S2P Require Import AuditedBurns SyncBlock LedgerSpec LedgerSync SafeSync AuditInvariant Main.
From S2P Require Import Handlers SyncLoop.

(** ** The ledger *)
Definition u64_bytes (z : Z) : list byte :=
  (fun i => match Byte.of_N (Z.to_N (Z.shiftr z (8 * Z.of_nat i) mod 256)) with
            | Some b => b | None => x00 end) <$> seq 0 8.

Definition test_config_tx : CoreMintConfigTx :=
  u64_bytes 1 ++ u64_bytes 100 ++ u64_bytes 50 ++ replicate 64 x0a
  ++ u64_bytes 60 ++ u64_bytes 7.

(** A mint of [amount] of token 1, signed by 7. *)
Definition test_mint (amount : Z) (nonce : list byte) : CoreMintTx :=
  u64_bytes 1 ++ u64_bytes amount ++ u64_bytes 50 ++ u64_bytes 7 ++ pad 64 nonce
  ++ u64_bytes 3 ++ u64_bytes 4.

Definition test_burn (amount : Z) (key : byte) : TxOut :=
  replicate 32 key ++ [x01] ++ u64_bytes amount ++ u64_bytes 1.

Definition deposit_hash : EthTxHash.t := array_of 32 (replicate 32 x0b).
Definition deposit_nonce : list byte :=
  MintTxNonce.to_bytes (MintTxNonce.EthereumGnosisDeposit deposit_hash).

Definition block_0 : BlockContents := mkBlockContents [] [] [replicate 40 x00].
Definition block_1 : BlockContents := mkBlockContents [test_config_tx] [] [].
Definition block_2 : BlockContents :=
  mkBlockContents [] [test_mint 50 deposit_nonce] [test_burn 20 x02].
Definition block_3 : BlockContents :=
  mkBlockContents [] [test_mint 200 [x05]] [test_burn 500 x03].
Definition test_ledger : list BlockContents := [block_0; block_1; block_2; block_3].

#[export] Instance test_ledger_db : LedgerDB := {
  ledger_num_blocks _ := inr 4;
  ledger_get_block_data i :=
    if i <? 0 then inl "NotFound"
    else match test_ledger !! Z.to_nat i with
         | Some c => inr (i, c)
         | None => inl "NotFound"
         end;
}.

(** ** The safe *)
Definition test_safe_addr : EthAddr.t := EthAddr.mk "0xaa000000000000000000000000000000000000aa".
Definition test_token_addr : EthAddr.t := EthAddr.mk "0xbb000000000000000000000000000000000000bb".
Definition test_burn_contract : EthAddr.t := EthAddr.mk "0xcc000000000000000000000000000000000000cc".
Definition test_sender : EthAddr.t := EthAddr.mk "0xdd000000000000000000000000000000000000dd".

Definition test_token : AuditedToken :=
  mkAuditedToken 1 "erc20" [test_token_addr] "Test USD" "tUSD" 18 "" test_burn_contract
    (array_of 4 [xc7; x6f; x06; x35]).
Definition test_safe : AuditedSafeConfig :=
  mkAuditedSafeConfig test_safe_addr ("http://safe/" : Url) [test_token] 6.
Definition test_config : GnosisSafeConfig := mkGnosisSafeConfig [test_safe].

(** ** Worlds *)
Definition world_of (d : Db) : World := mkWorld d 0 ∅ 0 0 [].
Definition initial_world : World := world_of initial_db.

(** The synchronized ledger, nothing audited. *)
Definition synced_world : World :=
  match Main.sync_loop 5 0 None None initial_world with
  | Some (_, w) => w
  | None => initial_world
  end.

Definition test_deposit : GnosisSafeDeposit :=
  GnosisSafeDeposit.new None deposit_hash (1000 : DateTime) (EthTxValue.mk 50000000000000) 17
    test_safe_addr test_token_addr test_sender 50.
Definition test_withdrawal : GnosisSafeWithdrawal :=
  GnosisSafeWithdrawal.new None (array_of 32 (replicate 32 x0c)) (2000 : DateTime)
    (EthTxValue.mk 20000000000000) 18 test_safe_addr test_token_addr test_sender 20
    (hex_encode (replicate 32 x02)).

(** ** The API's transactions *)
Inductive test_value :=
| test_text (s : string)
| test_multi_sig (hash : string) (tx : MultiSigTransaction)
| test_ethereum (hash : string) (tx : EthereumTransaction)
| test_module (hash : string).

#[export] Instance test_json : SerdeJson := {
  Value := test_value;
  json_from_str s := inr (test_text s);
  json_to_string v := match v with test_text s => s | _ => "{}" end;
  json_get v k :=
    match v with
    | test_text _ => None
    | test_multi_sig hash _ =>
        if String.eqb k "txType" then Some (test_text "MULTISIG_TRANSACTION")
        else if String.eqb k "transactionHash" then Some (test_text hash) else None
    | test_ethereum hash _ =>
        if String.eqb k "txType" then Some (test_text "ETHEREUM_TRANSACTION")
        else if String.eqb k "txHash" then Some (test_text hash) else None
    | test_module hash =>
        if String.eqb k "txType" then Some (test_text "MODULE_TRANSACTION")
        else if String.eqb k "transactionHash" then Some (test_text hash) else None
    end;
  json_as_str v := match v with test_text s => Some s | _ => None end;
  json_without v _ := v;
  json_multi_sig v := match v with test_multi_sig _ tx => inr tx | _ => inl "not a multi-sig transaction" end;
  json_ethereum v := match v with test_ethereum _ tx => inr tx | _ => inl "not an ethereum transaction" end;
}.

(** A transfer of 50 tokens to the safe, the deposit of block 2's mint. *)
Definition test_transfer (token : EthAddr.t) : EthereumTransfer :=
  mkEthereumTransfer test_sender test_safe_addr (Some token) deposit_hash "ERC20_TRANSFER" None
    (Some (EthTxValue.mk 50000000000000)).
Definition deposit_tx : raw_transaction :=
  test_ethereum (EthTxHash.display deposit_hash)
    (mkEthereumTransaction deposit_hash 17 [test_transfer test_token_addr] (1000 : DateTime)).

(** The withdrawal that pays block 2's burn. *)
Definition withdrawal_data : DataDecoded :=
  mkDataDecoded "multiSend" [mkDataDecodedParameter "transactions" "" (Some [
    mkValueDecoded 0 test_token_addr "0" "" (Some (mkDataDecoded "transfer"
      [mkDataDecodedParameter "to" "" None; mkDataDecodedParameter "value" "20000000000000" None]));
    mkValueDecoded 0 test_burn_contract "0"
      ("0xc76f0635" +:+ hex_encode (replicate 32 x02)) None])].
Definition withdrawal_multi_sig (transfers : list EthereumTransfer) : MultiSigTransaction :=
  mkMultiSigTransaction test_safe_addr test_burn_contract (EthTxValue.mk 0) None 18
    (array_of 32 (replicate 32 x0c)) (Some withdrawal_data) transfers (2000 : DateTime).
Definition withdrawal_transfer : EthereumTransfer :=
  mkEthereumTransfer test_safe_addr test_sender (Some test_token_addr)
    (array_of 32 (replicate 32 x0c)) "ERC20_TRANSFER" None (Some (EthTxValue.mk 20000000000000)).
Definition withdrawal_tx : raw_transaction :=
  test_multi_sig (EthTxHash.display (array_of 32 (replicate 32 x0c)))
    (withdrawal_multi_sig [withdrawal_transfer]).

(** The safe's API: the deposit on the first page, the withdrawal on the second. *)
#[export] Instance test_http : HttpClient := {
  http_client_build := inr tt;
  http_send n url := inr (200, url);
  json_all_transactions body :=
    if String.eqb body "http://safe/?page=2" then
      inr (mkAllTransactionsResponse 2 None (Some ("http://safe/" : Url)) [withdrawal_tx])
    else inr (mkAllTransactionsResponse 2 (Some ("http://safe/?page=2" : Url)) None [deposit_tx]);
}.

(** ** A run of the system *)
Definition sync_once (n : nat) (w : World) : World :=
  (Main.sync_iteration (Some test_config) None n w).2.
Definition follow_once (tx : raw_transaction) (w : World) : World :=
  (GnosisSync.process_transaction test_safe tx w).2.

(** The database after the first [n] blocks. *)
Fixpoint world_after (n : nat) : World :=
  match n with O => initial_world | S m => sync_once m (world_after m) end.

(** The deposit arrives before its mint, the withdrawal after its burn. *)
Definition final_world : World :=
  follow_once withdrawal_tx (sync_once 3 (sync_once 2 (follow_once deposit_tx
    (sync_once 1 (sync_once 0 initial_world))))).

(** The deposit, then the withdrawal, stored but not yet looked at. *)
Definition deposit_row : GnosisSafeDeposit := row_with_id 1 test_deposit.
Definition deposit_db : Db :=
  db_insert 1 test_deposit
    (db_insert 1 (mkGnosisSafeTx (EthTxHash.display deposit_hash) "{}") (w_db (world_after 3))).
Definition withdrawal_row : GnosisSafeWithdrawal := row_with_id 1 test_withdrawal.
Definition withdrawal_db : Db :=
  db_insert 1 test_withdrawal
    (db_insert 1 (mkGnosisSafeTx (EthTxHash.display (gsw_eth_tx_hash test_withdrawal)) "{}")
      (w_db (world_after 3))).

(** The mint and the burn of block 2. *)
Definition mint_row : MintTx :=
  default (mkMintTx None 0 None 0 0 "" "" 0 [] None) (head (rows (w_db (world_after 3)))).
Definition burn_row : BurnTxOut :=
  default (mkBurnTxOut None 0 None 0 0 "" []) (head (rows (w_db (world_after 3)))).

Section facts.

Lemma test_valid_ledger : valid_ledger test_ledger.
Proof.
  split.
  - done.
  - apply (bool_decide_unpack _). vm_compute. exact I.
  - apply (bool_decide_unpack _). vm_compute. exact I.
  - apply (bool_decide_unpack _). vm_compute. exact I.
  - intros c Hc. repeat (apply elem_of_cons in Hc as [->|Hc]; [apply (bool_decide_unpack _); vm_compute; exact I|]).
    by apply elem_of_nil in Hc.
  - intros c tx _ _. by eexists.
Qed.

Lemma test_serves : serves_all test_ledger.
Proof.
  split; [|split; [done|]].
  - intros i j c. unfold ledger_get_block_data, test_ledger_db.
    destruct (Z.ltb_spec i 0); [done|]. destruct (test_ledger !! Z.to_nat i) eqn:E; [|done].
    intros [= <- <-]. done.
  - intros i c Hc. unfold ledger_get_block_data, test_ledger_db.
    destruct (Z.ltb_spec (Z.of_nat i) 0); [lia|]. by rewrite Nat2Z.id, Hc.
Qed.

Lemma initial_at_block : at_block test_config test_ledger 0 initial_world.
Proof. split; [lia|]. split; [apply initial_inv|apply initial_mirrors]. Qed.

Lemma world_after_at n :
  (n <= 4)%nat -> at_block test_config test_ledger n (world_after n) /\ healthy (world_after n).
Proof.
  induction n as [|n IH]; intros Hn; [split; [apply initial_at_block|done]|].
  destruct IH as [Hat Hh]; [lia|].
  pose proof (sync_iteration_healthy test_config (Some test_config) None test_ledger n n
    (world_after n) (or_intror eq_refl) test_serves test_valid_ledger Hat Hh) as (_ & Hh' & Hat').
  destruct (Nat.ltb_spec n (length test_ledger)) as [|Hge]; [done|simpl in Hge; lia].
Qed.

Lemma world_after_mirrors n : (n <= 4)%nat -> mirrors (take n test_ledger) (w_db (world_after n)).
Proof. intros Hn. by destruct (world_after_at n Hn) as [(_ & _ & Hm) _]. Qed.

Lemma world_after_inv n : (n <= 4)%nat -> audit_inv test_config (w_db (world_after n)).
Proof. intros Hn. by destruct (world_after_at n Hn) as [(_ & Hi & _) _]. Qed.

Lemma world_after_ready n : (n <= 4)%nat -> sync_ready (w_db (world_after n)).
Proof. intros Hn. apply (ai_ready _ _ (world_after_inv n Hn)). Qed.

Lemma world_after_typed n : (n <= 4)%nat -> typed_balances (w_db (world_after n)).
Proof. intros Hn. apply (ai_balances _ _ (world_after_inv n Hn)). Qed.

Lemma world_after_healthy n : (n <= 4)%nat -> healthy (world_after n).
Proof. intros Hn. apply (world_after_at n Hn). Qed.

Lemma insertable_first {R} {T : Table R} (d : Db) (r : R) :
  length (table_get (R := R) d) = 0%nat -> row_explicit_id r = None -> row_fk_ok d r = true ->
  insertable d 1 r.
Proof.
  intros E%nil_length_inv Hr Hk. split; [by rewrite E, Hr|rewrite E; by apply not_elem_of_nil| |done].
  intros x Hx. rewrite E in Hx. by apply elem_of_nil in Hx.
Qed.

Lemma deposit_inv_of d :
  audit_inv test_config d -> length (gnosis_safe_txs d) = 0%nat ->
  length (gnosis_safe_deposits d) = 0%nat ->
  audit_inv test_config (db_insert 1 test_deposit
    (db_insert 1 (mkGnosisSafeTx (EthTxHash.display deposit_hash) "{}") d)).
Proof.
  intros Hd Ht Hg.
  assert (audit_inv test_config
    (db_insert 1 (mkGnosisSafeTx (EthTxHash.display deposit_hash) "{}") d)) as Hd'.
  { eapply gnosis_step_inv; [apply gnosis_tx|exact Hd]. by apply insertable_first. }
  eapply gnosis_step_inv; [apply gnosis_deposit|exact Hd']; [|reflexivity].
  apply insertable_first; [exact Hg|reflexivity|]. destruct d. simpl in Ht.
  apply nil_length_inv in Ht as ->. reflexivity.
Qed.

Lemma withdrawal_inv_of d :
  audit_inv test_config d -> length (gnosis_safe_txs d) = 0%nat ->
  length (gnosis_safe_withdrawals d) = 0%nat ->
  audit_inv test_config (db_insert 1 test_withdrawal
    (db_insert 1 (mkGnosisSafeTx (EthTxHash.display (gsw_eth_tx_hash test_withdrawal)) "{}") d)).
Proof.
  intros Hd Ht Hg.
  assert (audit_inv test_config
    (db_insert 1 (mkGnosisSafeTx (EthTxHash.display (gsw_eth_tx_hash test_withdrawal)) "{}") d)) as Hd'.
  { eapply gnosis_step_inv; [apply gnosis_tx|exact Hd]. by apply insertable_first. }
  eapply gnosis_step_inv; [apply gnosis_withdrawal|exact Hd'].
  apply insertable_first; [exact Hg|reflexivity|]. destruct d. simpl in Ht.
  apply nil_length_inv in Ht as ->. reflexivity.
Qed.

Lemma no_safe_rows :
  length (gnosis_safe_txs (w_db (world_after 3))) = 0%nat /\
  length (gnosis_safe_deposits (w_db (world_after 3))) = 0%nat /\
  length (gnosis_safe_withdrawals (w_db (world_after 3))) = 0%nat.
Proof. split_and!; vm_compute; reflexivity. Qed.

Lemma deposit_db_inv : audit_inv test_config deposit_db.
Proof.
  destruct no_safe_rows as (Ht & Hg & _).
  apply deposit_inv_of; [apply world_after_inv; lia|done|done].
Qed.

Lemma withdrawal_db_inv : audit_inv test_config withdrawal_db.
Proof.
  destruct no_safe_rows as (Ht & _ & Hg).
  apply withdrawal_inv_of; [apply world_after_inv; lia|done|done].
Qed.

Lemma head_stored {A} (x : A) (l : list A) : length l = 1%nat -> default x (head l) ∈ l.
Proof. destruct l; [done|by left]. Qed.

Lemma deposit_row_stored : deposit_row ∈ rows deposit_db.
Proof. unfold deposit_db. rewrite rows_db_insert. apply elem_of_app. right. by left. Qed.

Lemma withdrawal_row_stored : withdrawal_row ∈ rows withdrawal_db.
Proof. unfold withdrawal_db. rewrite rows_db_insert. apply elem_of_app. right. by left. Qed.

Lemma mints_below d i (x : GnosisSafeDeposit) j (t : GnosisSafeTx) :
  rows (R := MintTx) (db_insert i x (db_insert j t d)) = rows d.
Proof. done. Qed.

Lemma burns_below d i (x : GnosisSafeWithdrawal) j (t : GnosisSafeTx) :
  rows (R := BurnTxOut) (db_insert i x (db_insert j t d)) = rows d.
Proof. done. Qed.

Lemma mint_row_stored : mint_row ∈ rows (R := MintTx) deposit_db.
Proof. unfold deposit_db. rewrite mints_below. apply head_stored. vm_compute. reflexivity. Qed.

Lemma burn_row_stored : burn_row ∈ rows (R := BurnTxOut) withdrawal_db.
Proof. unfold withdrawal_db. rewrite burns_below. apply head_stored. vm_compute. reflexivity. Qed.

End facts.
