(* ===== verification/System.v ===== *)
(** * The whole auditor: any interleaving, any fault

    The synchronization loop and the threads that follow the safes share the
    database.  Each of their exclusive transactions is one step, and steps
    interleave freely, with restarts, reads by the APIs, and whatever happens outside
    of the database: faults of SQLite that appear at any time, failed fetches, waiting. *)

From S2P Require Import Prelude Externals Concrete GnosisTypes Errors Schema Database.
From S2P Require Import CountersModel Blocks Mints Burns GnosisConfig GnosisRows AuditedMints.
From S2P Require Import AuditedBurns SyncBlock LedgerSpec LedgerSync MintVerdicts SafeSync.
From S2P Require Import AuditInvariant Main Handlers SyncLoop SafeSyncSpec Scenario.

Section system.
Context {X_chrono : Chrono} {X_sqlite : Sqlite} {L_sqlite : SqliteLaws}.
Context {X_hex : Hex} {L_hex : HexLaws} {X_mc : MobileCoin} {L_mc : MobileCoinLaws} {X_url : UrlLib}.
Context {X_hash : HashOrder} {L_hash : HashOrderLaws} {X_json : SerdeJson} {X_ledger : LedgerDB}.
Implicit Types (w : World) (d : Db) (config : GnosisSafeConfig) (blocks : list BlockContents).

(** The steps of the running system, from a configuration of safes. *)
Inductive system_step config w : World -> Prop :=
| system_sync oconfig watcher n :
    oconfig = None \/ oconfig = Some config ->
    system_step config w (Main.sync_iteration oconfig watcher n w).2
| system_follow sc tx :
    sc ∈ gc_safes config -> system_step config w (GnosisSync.process_transaction sc tx w).2
| system_restart : system_step config w (ReserveAuditorDb.new_from_path (mret tt) w).2
| system_read {A} (m : App A) P : query m P -> system_step config w (m w).2
| system_environment w' : w_db w' = w_db w -> system_step config w w'.

Lemma restart_db w :
  counters_ok (w_db w) -> w_db (ReserveAuditorDb.new_from_path (mret tt) w).2 = w_db w.
Proof.
  intros Hc. change (wp (ReserveAuditorDb.new_from_path (mret tt)) (fun _ w' => w_db w' = w_db w) w).
  apply wp_seq, wp_get_conn; [by intros f w' _ Hl; apply leads_db in Hl|].
  intros w1 Hl1. pose proof (leads_db _ _ _ Hl1) as Hd1. apply wp_seq, wp_ret, wp_ensure_exists.
  - left. by rewrite Hd1.
  - intros e w' _ E. by rewrite E, Hd1.
  - intros d w' Hl He _ _. rewrite (leads_db _ _ _ Hl), He, Hd1; [done|by rewrite Hd1].
Qed.

Lemma system_step_at_block config blocks k w w' :
  serves blocks -> Z.of_nat (length blocks) < two63 -> at_block config blocks k w ->
  system_step config w w' -> exists k', (k <= k')%nat /\ at_block config blocks k' w'.
Proof.
  intros Hserve Hl Hat. pose proof Hat as (Hk & Hi & Hm).
  assert (forall w', w_db w' = w_db w -> exists k', (k <= k')%nat /\ at_block config blocks k' w') as Hsame.
  { intros w1 E. exists k. split; [done|]. unfold at_block. by rewrite E. }
  intros [oconfig watcher n Hoc|sc tx Hsc| |A m P Hq|w1 E].
  - pose proof (sync_iteration_at config oconfig watcher blocks k n w Hoc Hserve Hl Hat) as H.
    unfold wp, iterated in H. destruct (Main.sync_iteration _ _ _ _) as [[[|]|e|p] w1]; simpl in *.
    + exists (S k). split; [lia|done].
    + exists k. split; [done|apply H].
    + by exists k.
    + by exists k.
  - exists k. split; [done|].
    pose proof (transaction_follows config sc tx Hsc w Hi) as Hs.
    destruct (gnosis_steps_inv _ _ _ Hs Hi) as [Hi' Hsl].
    split; [done|]. split; [done|]. by eapply mirrors_same_ledger.
  - apply Hsame, restart_db. apply (ai_ready _ _ Hi).
  - apply Hsame. by eapply query_db.
  - by apply Hsame.
Qed.

Lemma system_steps_at_block config blocks k w w' :
  serves blocks -> Z.of_nat (length blocks) < two63 -> at_block config blocks k w ->
  rtc (system_step config) w w' -> exists k', (k <= k')%nat /\ at_block config blocks k' w'.
Proof.
  intros Hserve Hl Hat Hs. revert k Hat. induction Hs as [w|w1 w2 w3 Hs _ IH]; intros k Hat.
  { by exists k. }
  destruct (system_step_at_block _ _ _ _ _ Hserve Hl Hat Hs) as (k1 & Hk1 & Hat1).
  destruct (IH k1 Hat1) as (k2 & Hk2 & Hat2). exists k2. split; [lia|done].
Qed.

(** What the steps on the ledger's tables and on the safes' keep, the system keeps. *)
Lemma system_step_invariant config blocks (I : Db -> Prop) k w w' :
  serves blocks -> Z.of_nat (length blocks) < two63 ->
  (forall c ts d data d', audit_inv config d -> mirrors (take k blocks) d -> (k < length blocks)%nat ->
     synced (Z.of_nat k) c ts d data d' -> I d -> I d') ->
  (forall d d', audit_inv config d -> gnosis_step config d d' -> I d -> I d') ->
  at_block config blocks k w -> I (w_db w) -> system_step config w w' -> I (w_db w').
Proof.
  intros Hserve Hl Hsync Hstep (Hk & Hi & Hm) HI.
  assert (forall d d', rtc (gnosis_step config) d d' -> audit_inv config d -> I d -> I d') as Hsteps.
  { induction 1 as [d|d1 d2 d3 Hs _ IH]; intros Hd Hd'; [done|].
    apply IH; [by eapply gnosis_step_inv|by eapply Hstep]. }
  intros [oconfig watcher n Hoc|sc tx Hsc| |A m P Hq|w1 E].
  - apply (wp_sync_iteration config oconfig watcher blocks k n (fun _ w' => I (w_db w')) w); [done..| | |].
    + by intros e w1 -> _.
    + intros len w1 Hl' _ _. by rewrite (leads_db _ _ _ Hl').
    + intros c ts data d1 w1 Hc Hs Hg _. eapply Hsteps; [done|by eapply synced_inv|].
      eapply Hsync; [done..| |done|done]. by eapply lookup_lt_Some.
  - eapply Hsteps; [exact (transaction_follows config sc tx Hsc w Hi)|done|done].
  - rewrite restart_db; [done|]. apply (ai_ready _ _ Hi).
  - by rewrite (query_db _ _ _ Hq).
  - by rewrite E.
Qed.

Lemma system_invariant config blocks (I : Db -> Prop) w w' :
  serves blocks -> Z.of_nat (length blocks) < two63 ->
  (forall k c ts d data d', audit_inv config d -> mirrors (take k blocks) d -> (k < length blocks)%nat ->
     synced (Z.of_nat k) c ts d data d' -> I d -> I d') ->
  (forall d d', audit_inv config d -> gnosis_step config d d' -> I d -> I d') ->
  w_db w = initial_db -> I initial_db -> rtc (system_step config) w w' ->
  I (w_db w') /\ exists k, at_block config blocks k w'.
Proof.
  intros Hserve Hl Hsync Hstep Hw HI Hs.
  assert (at_block config blocks 0 w) as Hat.
  { split; [lia|]. rewrite Hw. split; [apply initial_inv|apply initial_mirrors]. }
  rewrite <- Hw in HI. clear Hw. revert HI Hat. generalize 0%nat.
  induction Hs as [w|w1 w2 w3 Hst _ IH]; intros k HI Hat; [by eauto|].
  destruct (system_step_at_block _ _ _ _ _ Hserve Hl Hat Hst) as (k' & _ & Hat').
  eapply IH, Hat'. by eapply (system_step_invariant config blocks I k w1 w2); eauto.
Qed.

(** C1: Safety of the whole auditor.  Start from a fresh database and let the
    synchronization loop, the threads of any configured safes, restarts and API
    reads interleave in any order, with SQLite failing at any points: at every
    moment the tables satisfy their constraints, no mint, deposit, burn or
    withdrawal is audited twice, every audited pair really matches (safe, token,
    nonce or key, and amount), and the ledger part of the database is exactly the
    record of the first [k] blocks of the ledger, for some [k]. *)
Theorem system_safety config blocks w w' :
  serves blocks -> Z.of_nat (length blocks) < two63 -> w_db w = initial_db ->
  rtc (system_step config) w w' ->
  let d := w_db w' in
  integrity d /\ mints_one_to_one d /\ burns_one_to_one d /\
  mint_audits_sound config d /\ burn_audits_sound config d /\
  exists k, (k <= length blocks)%nat /\ mirrors (take k blocks) d.
Proof.
  intros Hserve Hl Hw Hs d.
  assert (at_block config blocks 0 w) as Hat.
  { split; [lia|]. rewrite Hw. split; [apply initial_inv|apply initial_mirrors]. }
  destruct (system_steps_at_block _ _ _ _ _ Hserve Hl Hat Hs) as (k & _ & Hk & Hi & Hm).
  destruct Hi as [(Hd & _) _ _ ? ? ? ?]. split_and!; try done. by exists k.
Qed.

(** ** The loop *)

(** C21: The synchronization loop always ends: from the record of [k] blocks and
    whatever faults SQLite raises or the ledger answers, no more than one
    iteration per missing block and one more are needed, the loop does not panic
    half-way through a block, and the database it leaves is the record of a prefix
    at least as long; when it reports success that prefix reaches the length the
    ledger last reported. *)
Theorem sync_loop_terminates config oconfig watcher blocks fuel k n w :
  oconfig = None \/ oconfig = Some config -> serves blocks ->
  Z.of_nat (length blocks) < two63 -> at_block config blocks k w ->
  (length blocks - k < fuel)%nat ->
  exists r w' k', Main.sync_loop fuel n oconfig watcher w = Some (r, w') /\
    (k <= k')%nat /\ at_block config blocks k' w' /\
    (r = Ok tt -> exists m len, ledger_num_blocks m = inr len /\ len <= Z.of_nat k').
Proof. apply sync_loop_ends. Qed.

(** C9: On a healthy database and a valid, readable ledger the synchronization
    loop succeeds and the database becomes the record of the whole ledger: every
    mint, burn and configuration once and in order, all balances, all flags. *)
Theorem sync_loop_completes config oconfig watcher blocks fuel k n w :
  oconfig = None \/ oconfig = Some config -> serves_all blocks -> valid_ledger blocks ->
  at_block config blocks k w -> healthy w -> (length blocks - k < fuel)%nat ->
  exists w', Main.sync_loop fuel n oconfig watcher w = Some (Ok tt, w') /\
    healthy w' /\ audit_inv config (w_db w') /\ mirrors blocks (w_db w').
Proof. apply sync_loop_healthy. Qed.
End system.

Lemma world_after_reachable n : rtc (system_step test_config) initial_world (world_after n).
Proof.
  induction n as [|n IH]; [apply rtc_refl|]. eapply rtc_r; [exact IH|].
  apply (system_sync _ _ (Some test_config)). by right.
Qed.

Lemma final_world_reachable : rtc (system_step test_config) initial_world final_world.
Proof.
  assert (forall n w, system_step test_config w (sync_once n w)) as Hsync.
  { intros n w. apply (system_sync _ _ (Some test_config)). by right. }
  assert (forall tx w, system_step test_config w (follow_once tx w)) as Hfollow.
  { intros tx w. apply system_follow. by left. }
  unfold final_world.
  eapply rtc_l; [apply (Hsync 0%nat)|]. eapply rtc_l; [apply (Hsync 1%nat)|].
  eapply rtc_l; [apply (Hfollow deposit_tx)|]. eapply rtc_l; [apply (Hsync 2%nat)|].
  eapply rtc_l; [apply (Hsync 3%nat)|]. eapply rtc_l; [apply (Hfollow withdrawal_tx)|].
  apply rtc_refl.
Qed.

(** One mint and one burn have been audited by then. *)
Lemma system_safety_witness :
  length (rows (R := AuditedMint) (w_db final_world)) = 1%nat /\
  length (rows (R := AuditedBurn) (w_db final_world)) = 1%nat /\
  mints_one_to_one (w_db final_world) /\ burns_one_to_one (w_db final_world) /\
  mint_audits_sound test_config (w_db final_world).
Proof.
  split; [vm_compute; reflexivity|]. split; [vm_compute; reflexivity|].
  pose proof (system_safety test_config test_ledger initial_world final_world) as H.
  destruct H as (_ & H1 & H2 & H3 & _); [apply test_serves|reflexivity|reflexivity|
    apply final_world_reachable|]. split; [exact H1|]. split; [exact H2|exact H3].
Defined.

Lemma sync_loop_terminates_witness : exists r w' k',
  Main.sync_loop 5 0 (Some test_config) None
    (set_faults [None; None; Some (OtherFault "disk I/O error")] initial_world) = Some (r, w') /\
  (0 <= k')%nat /\ at_block test_config test_ledger k' w'.
Proof.
  destruct (sync_loop_terminates test_config (Some test_config) None test_ledger 5 0 0
    (set_faults [None; None; Some (OtherFault "disk I/O error")] initial_world))
    as (r & w' & k' & H1 & H2 & H3 & _);
    [right; reflexivity|apply test_serves|reflexivity|apply initial_at_block|simpl; lia|].
  exists r, w', k'. split; [exact H1|]. split; [exact H2|exact H3].
Defined.

Lemma sync_loop_completes_witness : exists w',
  Main.sync_loop 5 0 (Some test_config) None initial_world = Some (Ok tt, w') /\
  healthy w' /\ audit_inv test_config (w_db w') /\ mirrors test_ledger (w_db w').
Proof.
  apply (sync_loop_completes test_config (Some test_config) None test_ledger 5 0 0 initial_world);
    [right; reflexivity|apply test_serves|apply test_valid_ledger|apply initial_at_block|
     reflexivity|simpl; lia].
Defined.
