(* ===== verification/Limits.v ===== *)
(** * Minting limits

    A mint names a configuration only if the configuration's own limit and the limit
    its configurations share had room for it when its block was reached.  The room
    is measured at the end of the previous block: the mints of one block are judged
    independently of each other, so it takes at most one mint of a configuration
    transaction per block for the limits to hold outright. *)

From S2P Require Import Prelude Externals Concrete GnosisTypes Errors Schema Database.
From S2P Require Import CountersModel Blocks Mints Burns GnosisConfig GnosisRows AuditedMints.
From S2P Require Import AuditedBurns SyncBlock LedgerSpec LedgerSync MintVerdicts SafeSync.
From S2P Require Import AuditInvariant Main Handlers SyncLoop SafeSyncSpec Scenario System.

Section limits.
Context {X_chrono : Chrono} {X_sqlite : Sqlite} {L_sqlite : SqliteLaws}.
Context {X_hex : Hex} {L_hex : HexLaws} {X_mc : MobileCoin} {L_mc : MobileCoinLaws} {X_url : UrlLib}.
Context {X_hash : HashOrder} {L_hash : HashOrderLaws} {X_json : SerdeJson} {X_ledger : LedgerDB}.
Implicit Types (d : Db) (bc : BlockContents) (m : MintTx) (c : MintConfig) (t : MintConfigTx)
  (ts : option DateTime).

(** The stored mint [m] names [c], which came with [t]. *)
Definition configured d m c t : Prop :=
  m ∈ rows d /\ config_of d m = Some c /\ config_tx_of d c = Some t.

Definition mint_block m : Z := as_u64 (mt_block_index m).

(** The limits had room for [m] before its block, and [t] was the most recent
    configuration of the token. *)
Record permitted d m c t : Prop := {
  perm_recent : most_recent d (mint_block m) (as_u64 (mt_token_id m)) (Some t);
  perm_config : minted_by_config d c (mint_block m) + as_u64 (mt_amount m) <= MintConfig.mint_limit c;
  perm_shared : minted_by_config_tx d t (mint_block m) + as_u64 (mt_amount m)
    <= MintConfigTx.total_mint_limit t;
}.

Definition limits_kept d : Prop := forall m c t, configured d m c t -> permitted d m c t.

Lemma foldr_add_acc l a : foldr Z.add a l = foldr Z.add 0 l + a.
Proof. induction l as [|x l IH]; simpl; lia. Qed.

(** ** A block keeps the limits *)
Lemma synced_within idx bc ts d data d' : synced idx bc ts d data d' -> within_block idx d d'.
Proof.
  intros [d1 d2 d3 d5 d'' ms bs ids _ Hs1 Hs2 bal burns Hs3 bal' -> [_ ->]%inserts_db].
  eapply within_block_trans; [by eapply config_steps_within|].
  eapply within_block_trans; [by eapply mint_steps_within|].
  pose proof (burn_steps_frame _ _ _ _ _ Hs3) as (_ & F3 & _). split.
  - exists []. rewrite app_nil_r. split; [|done]. unfold rows. simpl. rewrite F3. by destruct d2.
  - exists []. rewrite app_nil_r. split; [|done]. unfold rows. simpl. rewrite F3. by destruct d2.
  - exists []. rewrite app_nil_r. split; [|done]. unfold rows. simpl. rewrite F3. by destruct d2.
  - simpl. rewrite F3. by destruct d2.
Qed.

Lemma synced_verdicts idx bc ts d data d' :
  synced idx bc ts d data d' -> sync_ready d ->
  Forall2 (fun tx m => exists o, lookup_spec d idx tx o /\ mt_mint_config_id m = (o ≫= MintConfig.id))
    (bc_mint_txs bc) (sbd_mint_txs data).
Proof.
  intros [d1 d2 d3 d5 d'' ms bs ids _ Hs1 Hs2 bal burns Hs3 bal' _ _] Hr. simpl.
  eapply Forall2_impl; [eapply mint_steps_verdicts; [by eapply config_steps_within|apply Hr|by eapply config_steps_frame|done]|].
  intros tx m (o & ? & ? & _). eauto.
Qed.

Lemma mirrored_block blocks d m :
  mirrors blocks d -> Z.of_nat (length blocks) < two63 -> m ∈ rows d ->
  0 <= mt_block_index m < Z.of_nat (length blocks).
Proof.
  intros Hm Hl Hin. assert (mint_entry m ∈ ledger_entries block_mints blocks) as Hx.
  { rewrite <- (mir_mints _ _ Hm). by apply list_elem_of_fmap_2. }
  apply list_elem_of_join in Hx as (l & Hx & Hin').
  apply elem_of_lookup_imap in Hin' as (i & b & -> & Hb). apply lookup_lt_Some in Hb.
  apply list_elem_of_fmap in Hx as (tx & E & _). injection E as -> _ _ _.
  rewrite as_i64_index by lia. lia.
Qed.

Lemma old_permitted idx d d' m c t :
  within_block idx d d' -> integrity d -> as_i64 (mint_block m) <= as_i64 idx -> m ∈ rows d ->
  (configured d m c t -> permitted d m c t) -> configured d' m c t -> permitted d' m c t.
Proof.
  intros Hw Hd Hle Hm Hp (_ & Ec & Et).
  rewrite (config_of_within idx d d') in Ec by done.
  assert (c ∈ rows d) as Hc.
  { unfold config_of in Ec. destruct (mt_mint_config_id m); [|done]. by apply find_Some_elem in Ec as []. }
  rewrite (config_tx_of_within idx d d') in Et by done.
  destruct Hp as [H1 H2 H3]; [done|]. split.
  - by apply (most_recent_within idx (mint_block m) d d').
  - unfold minted_by_config. by rewrite (total_minted_within idx (mint_block m) d d').
  - unfold minted_by_config_tx. by rewrite (total_minted_within idx (mint_block m) d d').
Qed.

(** The configuration a new mint names is an active one. *)
Lemma named_active idx d d' tx m c :
  within_block idx d d' -> integrity d' ->
  (exists o, lookup_spec d idx tx o /\ mt_mint_config_id m = (o ≫= MintConfig.id)) ->
  config_of d' m = Some c -> active_config d idx tx c.
Proof.
  intros Hw Hd' (o & Hl & Eo) Ec. unfold config_of in Ec.
  destruct (mt_mint_config_id m) as [i|] eqn:Ei; [|done].
  destruct o as [c0|]; [|done]. simpl in Eo. apply find_Some_elem in Ec as [Hc Ic%id_is_true].
  destruct (wb_configs _ _ _ Hw) as (cs & Rc & _). pose proof Hl as (_ & _ & _ & Hc0 & _).
  assert (c = c0) as ->; [|done].
  apply (stored_unique d'); [apply Hd'|done|rewrite Rc; apply elem_of_app; by left|].
  simpl. unfold MintConfig.id in Eo. congruence.
Qed.

(** What a block stores for its mints. *)
Lemma synced_new k bc ts d data d' m :
  synced (Z.of_nat k) bc ts d data d' -> sync_ready d -> m ∈ sbd_mint_txs data ->
  exists tx, (exists o, lookup_spec d (Z.of_nat k) tx o /\ mt_mint_config_id m = (o ≫= MintConfig.id)) /\
    mint_entry m = (as_i64 (Z.of_nat k), as_i64 (core_mint_tx_token_id tx),
      as_i64 (core_mint_tx_amount tx), hex_encode (core_mint_tx_nonce tx)) /\
    mt_protobuf m = encode_mint_tx tx.
Proof.
  intros Hs Hr [j Hj]%list_elem_of_lookup. pose proof (synced_verdicts _ _ _ _ _ _ Hs Hr) as Hv.
  destruct (Forall2_lookup_r _ _ _ _ _ Hv Hj) as (tx & Hj' & Hver). exists tx. split; [done|].
  destruct Hs as [d1 d2 d3 d5 d'' ms bs ids _ Hs1 Hs2 bal burns Hs3 bal' _ _]. simpl in *. split.
  - pose proof (mint_steps_entries _ _ _ _ _ _ Hs2) as E.
    apply (f_equal (fun l => l !! j)) in E. rewrite !list_lookup_fmap, Hj, Hj' in E. by apply Some_inj in E.
  - pose proof (mint_steps_protobufs _ _ _ _ _ _ Hs2) as E.
    apply (f_equal (fun l => l !! j)) in E. rewrite !list_lookup_fmap, Hj, Hj' in E. by apply Some_inj in E.
Qed.

Lemma new_permitted idx d d' tx m c t :
  is_u64 idx -> within_block idx d d' -> integrity d -> integrity d' ->
  (exists o, lookup_spec d idx tx o /\ mt_mint_config_id m = (o ≫= MintConfig.id)) ->
  mt_block_index m = as_i64 idx -> mt_token_id m = as_i64 (core_mint_tx_token_id tx) ->
  mt_amount m = as_i64 (core_mint_tx_amount tx) ->
  configured d' m c t -> permitted d' m c t.
Proof.
  intros Hidx Hw Hd Hd' Hver Eb Etok Ea (_ & Ec & Et).
  destruct (named_active _ _ _ _ _ _ Hw Hd' Hver Ec)
    as (t0 & Ht0 & [_ Hs] & Hc0 & Et0 & (_ & _ & _ & _ & _ & Hlim)).
  destruct (wb_config_txs _ _ _ Hw) as (tl & Rt & _).
  unfold config_tx_of in Et. apply find_Some_elem in Et as [Ht It%id_is_true].
  assert (t = t0) as ->.
  { apply (stored_unique d'); [apply Hd'|done|rewrite Rt; apply elem_of_app; left; apply Ht0|].
    simpl. congruence. }
  assert (mint_block m = idx) as Em by (unfold mint_block; rewrite Eb; by apply as_u64_as_i64).
  assert (as_u64 (mt_amount m) = core_mint_tx_amount tx) as Eam
    by (rewrite Ea; apply as_u64_as_i64, mint_tx_amount_u64).
  split; rewrite Em, ?Eam.
  - rewrite Etok, as_u64_as_i64 by apply mint_tx_token_u64. by apply (most_recent_within idx idx d d').
  - unfold minted_by_config. by rewrite (total_minted_within idx idx d d').
  - unfold minted_by_config_tx. by rewrite (total_minted_within idx idx d d').
Qed.

Lemma synced_limits config blocks k bc ts d data d' :
  Z.of_nat (length blocks) < two63 -> audit_inv config d -> mirrors (take k blocks) d ->
  (k < length blocks)%nat -> synced (Z.of_nat k) bc ts d data d' -> limits_kept d -> limits_kept d'.
Proof.
  intros Hl Hi Hm Hk Hs Hlim m c t Hc. pose proof (synced_within _ _ _ _ _ _ Hs) as Hw.
  pose proof (synced_inv _ _ _ _ _ _ _ Hs Hi) as Hi'.
  pose proof (ai_ready _ _ Hi) as (Hd & _). pose proof (ai_ready _ _ Hi') as (Hd' & _).
  assert (length (take k blocks) = k) as El by (rewrite length_take; lia).
  pose proof Hc as (Hm' & _). pose proof (synced_frame _ _ _ _ _ _ Hs) as (Rm & _).
  rewrite Rm in Hm'. apply elem_of_app in Hm' as [Hold|Hnew].
  - eapply old_permitted; [done|done| |done|by apply Hlim|done].
    destruct (mirrored_block _ _ m Hm) as [H1 H2]; [lia|done|].
    unfold mint_block. rewrite as_i64_as_u64, as_i64_index by (unfold is_i64; lia). lia.
  - destruct (synced_new _ _ _ _ _ _ _ Hs (ai_ready _ _ Hi) Hnew) as (tx & Hver & E & _).
    injection E as Eb Et Ea _. eapply new_permitted; [|done..]. unfold is_u64. lia.
Qed.

(** ** Nothing else touches the mints *)
Lemma total_minted_same d d' q idx :
  mint_txs d' = mint_txs d -> mint_configs d' = mint_configs d -> mint_config_txs d' = mint_config_txs d ->
  total_minted d' q idx = total_minted d q idx.
Proof.
  intros E1 E2 E3. unfold total_minted, counted, config_of, config_tx_of, rows. simpl. by rewrite E1, E2, E3.
Qed.

Lemma same_ledger_limits d d' : same_ledger d d' -> limits_kept d -> limits_kept d'.
Proof.
  intros [_ _ E3 E2 E1 _ _] Hlim m c t Hc. pose proof (fun q idx => total_minted_same d d' q idx E1 E2 E3) as Et.
  destruct (Hlim m c t) as [H1 H2 H3].
  { revert Hc. unfold configured, config_of, config_tx_of, rows. simpl. by rewrite E1, E2, E3. }
  split; unfold minted_by_config, minted_by_config_tx in *; rewrite ?Et; [|done..].
  revert H1. unfold most_recent, rows. simpl. by rewrite E3.
Qed.

(** ** The totals *)
Lemma counted_inv d q k m :
  counted d q k m = true -> exists c t, config_of d m = Some c /\ config_tx_of d c = Some t /\
    q c t = true /\ mt_block_index m < as_i64 k.
Proof.
  unfold counted. destruct (config_of d m) as [c|] eqn:Ec; [|done].
  destruct (config_tx_of d c) as [t|] eqn:Et; [|done].
  intros [[_ Hq]%andb_prop Hk%Z.ltb_lt]%andb_prop. by exists c, t.
Qed.

(** The mints of block [k] that are added when [k + 1] is reached. *)
Definition counted_at d q (k : nat) m : bool :=
  counted d q (Z.of_nat (S k)) m && (mt_block_index m =? Z.of_nat k).

Lemma counted_split d q k (l : list MintTx) :
  Z.of_nat (S k) < two63 ->
  List.filter (counted d q (Z.of_nat (S k))) l ≡ₚ
  List.filter (counted d q (Z.of_nat k)) l ++ List.filter (counted_at d q k) l.
Proof.
  intros Hk. induction l as [|m l IH]; simpl; [done|].
  assert (counted d q (Z.of_nat (S k)) m
    = counted d q (Z.of_nat k) m || counted_at d q k m /\
    counted d q (Z.of_nat k) m && counted_at d q k m = false) as [E1 E2].
  { unfold counted_at, counted. destruct (config_of d m) as [c|]; [|done].
    destruct (config_tx_of d c) as [t|]; [|done]. rewrite !as_i64_index by lia.
    destruct (mct_block_index t <? mt_block_index m), (q c t); simpl; try done.
    destruct (Z.ltb_spec (mt_block_index m) (Z.of_nat (S k))),
      (Z.ltb_spec (mt_block_index m) (Z.of_nat k)), (Z.eqb_spec (mt_block_index m) (Z.of_nat k));
      simpl; split; done || lia. }
  rewrite E1. destruct (counted d q (Z.of_nat k) m), (counted_at d q k m); simpl in *; try done.
  - by rewrite IH.
  - rewrite IH. apply Permutation_middle.
Qed.

Lemma filter_at_most_one {A} (f : A -> bool) l :
  NoDup l -> (forall x y, x ∈ l -> y ∈ l -> f x = true -> f y = true -> x = y) ->
  List.filter f l = [] \/ exists x, x ∈ l /\ f x = true /\ List.filter f l = [x].
Proof.
  intros Hn Hone. assert (forall x, x ∈ List.filter f l -> x ∈ l /\ f x = true) as Hin.
  { intros x. rewrite list_elem_of_In, filter_In, <- list_elem_of_In. done. }
  assert (NoDup (List.filter f l)) as Hnf.
  { apply NoDup_ListNoDup, List.NoDup_filter. by apply NoDup_ListNoDup. }
  destruct (List.filter f l) as [|x [|y l']]; [by left| |].
  - right. exists x. destruct (Hin x) as [Hx Hf]; [by left|]. done.
  - destruct (Hin x) as [Hx Hfx]; [by left|]. destruct (Hin y) as [Hy Hfy]; [right; by left|].
    apply NoDup_cons_1_1 in Hnf. rewrite (Hone x y) in Hnf by done. destruct Hnf. by left.
Qed.

Lemma total_within_limit d q limit :
  integrity d -> 0 <= limit < two64 -> (forall m, m ∈ rows d -> 0 <= mt_block_index m) ->
  (forall m k, m ∈ rows d -> counted d q k m = true ->
     total_minted d q (mint_block m) + as_u64 (mt_amount m) <= limit) ->
  (forall m m' k, m ∈ rows d -> m' ∈ rows d -> counted d q k m = true -> counted d q k m' = true ->
     mt_block_index m = mt_block_index m' -> m = m') ->
  forall k : nat, Z.of_nat k < two63 -> total_minted d q (Z.of_nat k) <= limit.
Proof.
  intros Hd Hlim Hnn Hroom Hone. induction k as [|k IH]; intros Hk.
  { unfold total_minted. destruct (List.filter _ _) as [|m l] eqn:E; [simpl; lia|]. exfalso.
    assert (m ∈ List.filter (counted d q (Z.of_nat 0)) (rows d)) as Hm by (rewrite E; by left).
    apply list_elem_of_In, filter_In in Hm as [Hm Hc]. apply list_elem_of_In in Hm.
    apply counted_inv in Hc as (c & t & _ & _ & _ & Hb). rewrite as_i64_index in Hb by lia.
    specialize (Hnn m Hm). lia. }
  unfold total_minted. rewrite (sum_u64_permutation _ _ (fmap_Permutation _ _ _ (counted_split d q k _ Hk))).
  assert (forall m, counted_at d q k m = true ->
    counted d q (Z.of_nat (S k)) m = true /\ mt_block_index m = Z.of_nat k) as Hat.
  { intros m [H1 H2%Z.eqb_eq]%andb_prop. done. }
  destruct (filter_at_most_one (counted_at d q k) (rows d)) as [->|(m & Hm & Hc & ->)].
  - apply rows_NoDup, Hd.
  - intros m m' Hm Hm' [H1 E1]%Hat [H2 E2]%Hat. apply (Hone m m' (Z.of_nat (S k))); [done..|congruence].
  - rewrite app_nil_r. apply IH. lia.
  - apply Hat in Hc as [Hc Eb]. specialize (Hroom m _ Hm Hc).
    assert (mint_block m = Z.of_nat k) as Emb.
    { unfold mint_block. rewrite Eb. apply as_u64_small. unfold is_u64. lia. }
    rewrite Emb in Hroom. unfold total_minted in Hroom.
    rewrite fmap_app, sum_u64_mod, foldr_app. simpl. rewrite sum_u64_mod in Hroom.
    rewrite foldr_add_acc, <- Zplus_mod_idemp_l. etrans; [apply Z.mod_le|]; [|lia|].
    + pose proof (Z.mod_pos_bound (foldr Z.add 0 ((fun m => as_u64 (mt_amount m)) <$>
        List.filter (counted d q (Z.of_nat k)) (rows d))) two64).
      pose proof (as_u64_range (mt_amount m)) as Hu. unfold is_u64 in Hu. lia.
    + lia.
Qed.

Lemma initial_limits : limits_kept initial_db.
Proof. intros m c t (Hm & _). by apply elem_of_nil in Hm. Qed.

Lemma reachable_limits config blocks w w' :
  serves blocks -> Z.of_nat (length blocks) < two63 -> w_db w = initial_db ->
  rtc (system_step config) w w' ->
  limits_kept (w_db w') /\ exists k, at_block config blocks k w'.
Proof.
  intros Hserve Hl Hw Hs. eapply system_invariant; [done|done|..|done|apply initial_limits|done].
  - intros k bc ts d data d' Hi Hm Hk Hsy. by eapply synced_limits.
  - intros d d' Hi Hst. eapply same_ledger_limits, gnosis_step_same_ledger; [done|apply (ai_ready _ _ Hi)].
Qed.

(** What the shared limit and a configuration's own limit come to when no two mints of
    one block use them. *)
Lemma shared_total d t :
  integrity d -> limits_kept d -> (forall m, m ∈ rows d -> 0 <= mt_block_index m) -> t ∈ rows d ->
  (forall m m' c c', configured d m c t -> configured d m' c' t ->
     mt_block_index m = mt_block_index m' -> m = m') ->
  forall k : nat, Z.of_nat k < two63 ->
    minted_by_config_tx d t (Z.of_nat k) <= MintConfigTx.total_mint_limit t.
Proof.
  intros Hd Hlim Hnn Ht Hone. destruct (stored_has_id _ _ (ok_mint_config_txs _ Hd) Ht) as (i & Ei & _).
  simpl in Ei.
  assert (forall m k, m ∈ rows d ->
    counted d (fun _ t' => id_is (mct_id t') (default 0 (mct_id t))) k m = true ->
    exists c, configured d m c t) as Hc.
  { intros m k Hm (c & t' & Ec & Et & Hq%id_is_true & _)%counted_inv. exists c. split; [done|].
    split; [done|]. rewrite Et. f_equal. unfold config_tx_of in Et. apply find_Some_elem in Et as [Ht' _].
    apply (stored_unique d); [apply Hd|done|done|]. simpl. rewrite Hq, Ei. done. }
  apply total_within_limit; [done|apply as_u64_range|done|..].
  - intros m k Hm [c Hmc]%Hc; [|done]. apply (perm_shared _ _ _ _ (Hlim m c t Hmc)).
  - intros m m' k Hm Hm' [c Hmc]%Hc [c' Hmc']%Hc; [|done..]. by eapply Hone.
Qed.

Lemma config_total d c :
  integrity d -> limits_kept d -> (forall m, m ∈ rows d -> 0 <= mt_block_index m) -> c ∈ rows d ->
  (forall m m' t, configured d m c t -> configured d m' c t ->
     mt_block_index m = mt_block_index m' -> m = m') ->
  forall k : nat, Z.of_nat k < two63 -> minted_by_config d c (Z.of_nat k) <= MintConfig.mint_limit c.
Proof.
  intros Hd Hlim Hnn Ht Hone. destruct (stored_has_id _ _ (ok_mint_configs _ Hd) Ht) as (i & Ei & _).
  simpl in Ei.
  assert (forall m k, m ∈ rows d ->
    counted d (fun c' _ => id_is (mc_id c') (default 0 (mc_id c))) k m = true ->
    exists t, configured d m c t) as Hc.
  { intros m k Hm (c' & t & Ec & Et & Hq%id_is_true & _)%counted_inv.
    assert (c' = c) as ->; [|by exists t]. unfold config_of in Ec. destruct (mt_mint_config_id m); [|done].
    apply find_Some_elem in Ec as [Hc' _].
    apply (stored_unique d); [apply Hd|done|done|]. simpl. rewrite Hq, Ei. done. }
  apply total_within_limit; [done|apply as_u64_range|done|..].
  - intros m k Hm [t Hmc]%Hc; [|done]. apply (perm_config _ _ _ _ (Hlim m c t Hmc)).
  - intros m m' k Hm Hm' [t Hmc]%Hc [t' Hmc']%Hc Eb; [|done..].
    eapply Hone; [exact Hmc| |done]. destruct Hmc as (_ & _ & Et), Hmc' as (? & ? & Et').
    split; [done|]. split; [done|]. congruence.
Qed.

(** C8: Minting limits, at every moment of every run of the whole auditor: a stored
    mint that names a configuration was, before its block, within the
    configuration's own limit and within the limit its configurations share, and
    they were the most recent ones of the token; and where no two mints of one block
    name the same configuration (configurations of the same transaction), all its
    mints together stay within its limit (the shared limit). *)
Theorem mint_limits_respected config blocks w w' :
  serves blocks -> Z.of_nat (length blocks) < two63 -> w_db w = initial_db ->
  rtc (system_step config) w w' ->
  let d := w_db w' in
  (forall m c t, configured d m c t -> permitted d m c t) /\
  (forall c, c ∈ rows d ->
     (forall m m' t, configured d m c t -> configured d m' c t ->
        mt_block_index m = mt_block_index m' -> m = m') ->
     forall k : nat, Z.of_nat k < two63 -> minted_by_config d c (Z.of_nat k) <= MintConfig.mint_limit c) /\
  (forall t, t ∈ rows d ->
     (forall m m' c c', configured d m c t -> configured d m' c' t ->
        mt_block_index m = mt_block_index m' -> m = m') ->
     forall k : nat, Z.of_nat k < two63 ->
       minted_by_config_tx d t (Z.of_nat k) <= MintConfigTx.total_mint_limit t).
Proof.
  intros Hserve Hl Hw Hs d.
  destruct (reachable_limits config blocks w w' Hserve Hl Hw Hs) as (Hlim & k & Hk & Hi & Hm).
  pose proof (ai_ready _ _ Hi) as (Hd & _).
  assert (forall m, m ∈ rows d -> 0 <= mt_block_index m) as Hnn.
  { intros m Hin. destruct (mirrored_block _ _ m Hm) as [H _]; [rewrite length_take; lia|done..]. }
  split; [exact Hlim|]. split; [intros c Hc Hone; by apply config_total|].
  intros t Ht Hone. by apply shared_total.
Qed.
End limits.

(** The mint of block 2. *)
Lemma mint_limits_respected_witness : exists m c t,
  configured (w_db (world_after 3)) m c t /\ permitted (w_db (world_after 3)) m c t.
Proof.
  destruct (mint_limits_respected test_config test_ledger initial_world (world_after 3)) as [H _];
    [apply test_serves|reflexivity|reflexivity|apply world_after_reachable|].
  assert (match rows (R := MintTx) (w_db (world_after 3)) with
          | m :: _ => match config_of (w_db (world_after 3)) m with
                      | Some c => match config_tx_of (w_db (world_after 3)) c with
                                  | Some _ => true | None => false end
                      | None => false end
          | [] => false end = true) as Hr by (vm_compute; reflexivity).
  revert H Hr. generalize (w_db (world_after 3)) as d. intros d H Hr.
  destruct (rows d) as [|m l] eqn:Em; [discriminate Hr|].
  destruct (config_of d m) as [c|] eqn:Ec; [|discriminate Hr].
  destruct (config_tx_of d c) as [t|] eqn:Et; [|discriminate Hr].
  assert (configured d m c t) as Hc.
  { split; [rewrite Em; left|]. split; [exact Ec|exact Et]. }
  exists m, c, t. split; [exact Hc|exact (H m c t Hc)].
Defined.

(** One mint per block is needed: two mints of 40 in block 2 under a limit of 60 are
    both let through, as each is judged by the blocks before. *)
Definition joint_block : BlockContents := mkBlockContents [] [test_mint 40 [x05]; test_mint 40 [x06]] [].

Lemma joint_mints_unflagged :
  let d := w_db (ReserveAuditorDb.sync_block 2 joint_block None (world_after 2)).2 in
  counter_value num_blocks_synced d = 3 /\
  counter_value num_mint_txs_without_matching_mint_config d = 0 /\
  (fun c => MintConfig.mint_limit c <? minted_by_config d c 3) <$> rows d = [true].
Proof. vm_compute. split; [reflexivity|]. split; reflexivity. Qed.
