(* ===== verification/Complete.v ===== *)
(** * Completeness of the audit

    The invariant of [AuditInvariant] says that what is audited matches; this file
    says that what matches is audited.  A mint and a deposit (a burn and a
    withdrawal) of a safe of the configuration that match and are both stored are
    tied together by the operation that stores the second of them. *)

From S2P Require Import Prelude Externals Concrete GnosisTypes Errors Schema Database.
From S2P Require Import CountersModel Blocks Mints Burns GnosisConfig GnosisRows AuditedMints.
From S2P Require Import AuditedBurns SyncBlock LedgerSpec LedgerSync SafeSync AuditInvariant Main.
From S2P Require Import Faults Handlers SafeSyncSpec.

Section pending.
Context {X_chrono : Chrono} {X_sqlite : Sqlite} {L_sqlite : SqliteLaws}.
Context {X_hex : Hex} {L_hex : HexLaws} {X_mc : MobileCoin} {L_mc : MobileCoinLaws} {X_url : UrlLib}.
Context {X_hash : HashOrder} {L_hash : HashOrderLaws}.
Implicit Types (w : World) (d : Db) (config : GnosisSafeConfig).

(** A stored pair that matches but that no audit row names. *)
Definition pending_mint config d m x : Prop := exists sc mid did,
  get_audited_safe_config_by_safe_addr config (gsd_safe_addr x) = Some sc /\
  matched_pair d sc m x mid did.
Definition pending_burn config d b x : Prop := exists sc bid wid,
  get_audited_safe_config_by_safe_addr config (gsw_safe_addr x) = Some sc /\
  burned_pair d sc b x bid wid.

(** Nothing waits for the mint; nothing waits for the burn, unless another unaudited
    withdrawal names the burn too (SQLite may have shown the burn that one). *)
Definition mint_settled config d m : Prop := forall x, ~ pending_mint config d m x.
Definition burn_settled config d b : Prop := forall x, pending_burn config d b x ->
  exists y, y <> x /\ candidate_withdrawal d b y.

Record settled config d : Prop := {
  settled_mints m : mint_settled config d m;
  settled_burns b : burn_settled config d b;
}.

(** ** Pairs do not become pending by themselves *)
Lemma mint_audited_mono d d' id :
  (forall a, a ∈ rows (R := AuditedMint) d -> a ∈ rows (R := AuditedMint) d') ->
  mint_audited d' id = false -> mint_audited d id = false.
Proof.
  unfold mint_audited. rewrite !existsb_eqb_false. intros Hsub Hn (a & -> & Ha)%list_elem_of_fmap.
  apply Hn, list_elem_of_fmap. eauto.
Qed.

Lemma deposit_audited_mono d d' id :
  (forall a, a ∈ rows (R := AuditedMint) d -> a ∈ rows (R := AuditedMint) d') ->
  deposit_audited d' id = false -> deposit_audited d id = false.
Proof.
  unfold deposit_audited. rewrite !existsb_eqb_false. intros Hsub Hn (a & -> & Ha)%list_elem_of_fmap.
  apply Hn, list_elem_of_fmap. eauto.
Qed.

Lemma burn_audited_mono d d' id :
  (forall a, a ∈ rows (R := AuditedBurn) d -> a ∈ rows (R := AuditedBurn) d') ->
  burn_audited d' id = false -> burn_audited d id = false.
Proof.
  unfold burn_audited. rewrite !existsb_eqb_false. intros Hsub Hn (a & -> & Ha)%list_elem_of_fmap.
  apply Hn, list_elem_of_fmap. eauto.
Qed.

Lemma withdrawal_audited_mono d d' id :
  (forall a, a ∈ rows (R := AuditedBurn) d -> a ∈ rows (R := AuditedBurn) d') ->
  withdrawal_audited d' id = false -> withdrawal_audited d id = false.
Proof.
  unfold withdrawal_audited. rewrite !existsb_eqb_false. intros Hsub Hn (a & -> & Ha)%list_elem_of_fmap.
  apply Hn, list_elem_of_fmap. eauto.
Qed.

Lemma pending_mint_back config d d' m x :
  m ∈ rows d -> x ∈ rows d ->
  (forall a, a ∈ rows (R := AuditedMint) d -> a ∈ rows (R := AuditedMint) d') ->
  pending_mint config d' m x -> pending_mint config d m x.
Proof.
  intros Hm Hx Hsub (sc & mid & did & Hsc & _ & _ & Em & Ex & Am & Ax & Hmatch).
  exists sc, mid, did. split; [done|]. split_and!; try done.
  - by eapply mint_audited_mono.
  - by eapply deposit_audited_mono.
Qed.

Lemma pending_burn_back config d d' b x :
  b ∈ rows d -> x ∈ rows d ->
  (forall a, a ∈ rows (R := AuditedBurn) d -> a ∈ rows (R := AuditedBurn) d') ->
  pending_burn config d' b x -> pending_burn config d b x.
Proof.
  intros Hb Hx Hsub (sc & bid & wid & Hsc & _ & _ & Eb & Ex & Ab & Ax & Hmatch).
  exists sc, bid, wid. split; [done|]. split_and!; try done.
  - by eapply burn_audited_mono.
  - by eapply withdrawal_audited_mono.
Qed.

(** Keys are unique. *)
Lemma burn_key_unique d b b' :
  integrity d -> b ∈ rows d -> b' ∈ rows d -> bto_public_key_hex b = bto_public_key_hex b' -> b = b'.
Proof.
  intros Hd [i Hi]%rows_elem_of [j Hj]%rows_elem_of E.
  assert ((i, b) = (j, b')) as [= _ ->]; [|done].
  eapply (ok_unique _ (ok_burn_tx_outs _ Hd)); [done..|]. simpl. rewrite E. apply String.eqb_refl.
Qed.

(** ** One attempt at matching unsettles nothing *)
Record audit_frame d d' : Prop := {
  af_mints : rows (R := MintTx) d' = rows d;
  af_deposits : rows (R := GnosisSafeDeposit) d' = rows d;
  af_burns : rows (R := BurnTxOut) d' = rows d;
  af_withdrawals : rows (R := GnosisSafeWithdrawal) d' = rows d;
  af_audited_mints a : a ∈ rows (R := AuditedMint) d -> a ∈ rows (R := AuditedMint) d';
  af_audited_burns a : a ∈ rows (R := AuditedBurn) d -> a ∈ rows (R := AuditedBurn) d';
}.

Lemma audit_step_frame config d d' : audit_step config d d' -> audit_frame d d'.
Proof.
  intros [|v _|sc m x mid did _ _|sc b x bid wid _ _]; split; try done.
  - intros a Ha. rewrite rows_record_audited_mint. apply elem_of_app. by left.
  - intros a Ha. rewrite rows_record_audited_burn. apply elem_of_app. by left.
Qed.

Lemma pending_mint_stored config d m x : pending_mint config d m x -> m ∈ rows d /\ x ∈ rows d.
Proof. by intros (sc & mid & did & _ & Hm & Hx & _). Qed.
Lemma pending_burn_stored config d b x : pending_burn config d b x -> b ∈ rows d /\ x ∈ rows d.
Proof. by intros (sc & bid & wid & _ & Hb & Hx & _). Qed.

Lemma pending_mint_audit config d d' m x :
  audit_step config d d' -> pending_mint config d' m x -> pending_mint config d m x.
Proof.
  intros Hf%audit_step_frame Hp. apply pending_mint_stored in Hp as Hst.
  rewrite (af_mints _ _ Hf), (af_deposits _ _ Hf) in Hst.
  eapply pending_mint_back, Hp; [apply Hst..|apply Hf].
Qed.

Lemma pending_burn_audit config d d' b x :
  audit_step config d d' -> pending_burn config d' b x -> pending_burn config d b x.
Proof.
  intros Hf%audit_step_frame Hp. apply pending_burn_stored in Hp as Hst.
  rewrite (af_burns _ _ Hf), (af_withdrawals _ _ Hf) in Hst.
  eapply pending_burn_back, Hp; [apply Hst..|apply Hf].
Qed.

Lemma mint_settled_audit config d d' m :
  audit_step config d d' -> mint_settled config d m -> mint_settled config d' m.
Proof. intros Hs Hm x Hp. eapply Hm, pending_mint_audit, Hp. exact Hs. Qed.

(** Only the audit of the burn itself takes a candidate away. *)
Lemma candidate_audit config d d' b y :
  integrity d -> audit_step config d d' -> b ∈ rows d -> candidate_withdrawal d b y ->
  candidate_withdrawal d' b y \/ (forall bid, bto_id b = Some bid -> burn_audited d' bid = true).
Proof.
  intros Hd [|v _|sc m x mid did _ _|sc b' y' bid wid _ Hp] Hb Hc; try by left.
  destruct Hp as (Hb' & Hy' & Eb & Ey & _ & _ & _ & _ & Ekey & _). destruct Hc as (Hy & Ek & Hu).
  pose proof (stored_has_id _ _ (ok_gnosis_safe_withdrawals _ Hd) Hy) as (i & Ei & _). simpl in Ei.
  destruct (decide (i = wid)) as [->|Hne].
  - right. assert (y = y') as -> by (eapply (stored_unique d), eq_trans, eq_sym, Ey; [apply Hd|done..]).
    assert (b = b') as -> by (eapply burn_key_unique; [done..|congruence]).
    intros bid' Ebid. assert (bid' = bid) as -> by congruence.
    unfold burn_audited. rewrite rows_record_audited_burn, existsb_app. simpl.
    by rewrite Z.eqb_refl, orb_true_r.
  - left. split; [done|]. split; [done|].
    rewrite (unaudited_withdrawal_spec _ _ _ Ei), negb_true_iff in Hu.
    rewrite (unaudited_withdrawal_spec _ _ _ Ei), negb_true_iff.
    unfold withdrawal_audited in *. rewrite rows_record_audited_burn, existsb_app, Hu. simpl.
    rewrite orb_false_r. by apply Z.eqb_neq.
Qed.

Lemma burn_masked_audit config d d' b x :
  integrity d -> audit_step config d d' -> pending_burn config d' b x ->
  (exists y, y <> x /\ candidate_withdrawal d b y) -> exists y, y <> x /\ candidate_withdrawal d' b y.
Proof.
  intros Hd Hs Hp (y & Hne & Hc). exists y. split; [done|].
  pose proof (pending_burn_stored _ _ _ _ (pending_burn_audit _ _ _ _ _ Hs Hp)) as [Hb _].
  destruct (candidate_audit _ _ _ _ _ Hd Hs Hb Hc) as [|Ha]; [done|].
  destruct Hp as (sc & bid & wid & _ & _ & _ & Eb & _ & Ab & _). by rewrite (Ha _ Eb) in Ab.
Qed.

Lemma burn_settled_audit config d d' b :
  integrity d -> audit_step config d d' -> burn_settled config d b -> burn_settled config d' b.
Proof.
  intros Hd Hs Hb x Hp. eapply burn_masked_audit; [done..|]. by eapply Hb, pending_burn_audit.
Qed.

Lemma settled_audit config d d' :
  integrity d -> audit_step config d d' -> settled config d -> settled config d'.
Proof.
  intros Hd Hs [Hm Hb]. split; [intros m; by eapply mint_settled_audit|].
  intros b. by eapply burn_settled_audit.
Qed.

(** ** A match that is tried settles its mint, deposit, burn or withdrawal *)
Lemma pending_mint_outcome config d m x r :
  integrity d -> nonces_derived d -> pending_mint config d m x -> mint_outcome d config m r -> r = Ok x.
Proof.
  intros Hd Hn (sc & mid & did & Hsc & Hp) Hr.
  destruct (matched_pair_outcomes d config sc m x mid did Hd Hn Hp) as [_ Ho]. specialize (Ho Hsc).
  destruct Hp as (_ & _ & Em & _ & Am & _). unfold mint_outcome in Hr, Ho. rewrite Em, Am in Hr, Ho.
  destruct (deposit_for d m) as [y|]; [|done].
  destruct (get_audited_safe_config_by_safe_addr config (gsd_safe_addr y)); [|done].
  destruct (AuditedMint.verify_mint_tx_matches_deposit _ _ _); [congruence|congruence|done].
Qed.

Lemma pending_deposit_outcome config sc d m x r :
  integrity d -> nonces_derived d -> pending_mint config d m x ->
  get_audited_safe_config_by_safe_addr config (gsd_safe_addr x) = Some sc ->
  deposit_outcome d sc x r -> r = Ok m.
Proof.
  intros Hd Hn (sc' & mid & did & Hsc' & Hp) Hsc Hr. assert (sc' = sc) as -> by congruence.
  destruct (matched_pair_outcomes d config sc m x mid did Hd Hn Hp) as [Ho _].
  destruct Hp as (_ & _ & _ & Ex & _ & Ax & Ea & _).
  unfold deposit_outcome in Hr, Ho. rewrite Ex, Ea, Ax in Hr, Ho. simpl in Hr, Ho.
  destruct (mint_for d x) as [y|]; [|done].
  destruct (AuditedMint.verify_mint_tx_matches_deposit _ _ _); [congruence|congruence|done].
Qed.

Lemma pending_withdrawal_outcome config sc d b x r :
  integrity d -> pending_burn config d b x ->
  get_audited_safe_config_by_safe_addr config (gsw_safe_addr x) = Some sc ->
  withdrawal_outcome d sc x r -> r = Ok b.
Proof.
  intros Hd (sc' & bid & wid & Hsc' & Hp) Hsc Hr. assert (sc' = sc) as -> by congruence.
  destruct (burned_pair_outcomes d config sc b x bid wid Hd Hp) as [Ho _].
  destruct Hp as (_ & _ & _ & Ex & _ & Ax & Ea & _).
  unfold withdrawal_outcome in Hr, Ho. rewrite Ex, Ea, Ax in Hr, Ho. simpl in Hr, Ho.
  destruct (burn_for d x) as [y|]; [|done].
  destruct (AuditedBurn.verify_burn_tx_out_matches_withdrawal _ _ _); [congruence|congruence|done].
Qed.

Lemma pending_burn_outcome config d b x e :
  integrity d -> pending_burn config d b x -> burn_outcome d config b (Err e) ->
  exists y, y <> x /\ candidate_withdrawal d b y.
Proof.
  intros Hd (sc & bid & wid & Hsc & Hp) Hr.
  destruct Hp as (Hb & Hx & Eb & Ex & Ab & Ax & Hmatch).
  unfold burn_outcome in Hr. rewrite Eb, Ab in Hr. destruct Hr as [[_ Hn]|(y & Hy & Hr)].
  - destruct (Hn x). split; [done|]. destruct Hmatch as (_ & _ & Ek & _). split; [done|].
    by rewrite (unaudited_withdrawal_spec _ _ _ Ex), Ax.
  - exists y. split; [|done]. intros ->. rewrite Hsc in Hr.
    by rewrite (proj2 (verify_burn_ok _ _ _) Hmatch) in Hr.
Qed.

Lemma recorded_mint_settles config d mid did m x :
  mt_id m = Some mid \/ gsd_id x = Some did ->
  ~ pending_mint config (record_audited_mint d mid did) m x.
Proof.
  intros Hor (sc & mid' & did' & _ & _ & _ & Em & Ex & Am & Ax & _).
  unfold mint_audited, deposit_audited in Am, Ax.
  rewrite rows_record_audited_mint, existsb_app, orb_false_iff in Am, Ax. simpl in Am, Ax.
  destruct Hor as [E|E]; simplify_eq;
    [destruct Am as [_ Am]; by rewrite Z.eqb_refl in Am|destruct Ax as [_ Ax]; by rewrite Z.eqb_refl in Ax].
Qed.

Lemma recorded_burn_settles config d bid wid b x :
  bto_id b = Some bid \/ gsw_id x = Some wid ->
  ~ pending_burn config (record_audited_burn d bid wid) b x.
Proof.
  intros Hor (sc & bid' & wid' & _ & _ & _ & Eb & Ex & Ab & Ax & _).
  unfold burn_audited, withdrawal_audited in Ab, Ax.
  rewrite rows_record_audited_burn, existsb_app, orb_false_iff in Ab, Ax. simpl in Ab, Ax.
  destruct Hor as [E|E]; simplify_eq;
    [destruct Ab as [_ Ab]; by rewrite Z.eqb_refl in Ab|destruct Ax as [_ Ax]; by rewrite Z.eqb_refl in Ax].
Qed.
End pending.
