(* ===== verification/CompleteSteps.v ===== *)
(** * Every operation of the auditor settles what it stores

    Without faults: the synchronization of a block, the processing of a safe's
    transaction, a restart and a read all lead from a database in which nothing is
    pending to such a database. *)

From S2P Require Import Prelude Externals Concrete GnosisTypes Errors Schema Database.
From S2P Require Import CountersModel Blocks Mints Burns GnosisConfig GnosisRows AuditedMints.
From S2P Require Import AuditedBurns SyncBlock LedgerSpec LedgerSync SafeSync AuditInvariant Main.
From S2P Require Import Faults Handlers SyncLoop SafeSyncSpec Complete.

Section matching.
Context {X_chrono : Chrono} {X_sqlite : Sqlite} {L_sqlite : SqliteLaws}.
Context {X_hex : Hex} {L_hex : HexLaws} {X_mc : MobileCoin} {L_mc : MobileCoinLaws} {X_url : UrlLib}.
Context {X_hash : HashOrder} {L_hash : HashOrderLaws}.
Implicit Types (w : World) (d : Db) (config : GnosisSafeConfig).

(** ** Matching *)
Lemma match_mint_settles config m w :
  healthy w -> audit_inv config (w_db w) -> m ∈ rows (w_db w) ->
  wp (AuditedMint.try_match_mint_with_deposit m config)
    (fun r w' => audits config w r w' /\ mint_settled config (w_db w') m) w.
Proof.
  intros Hh Hi Hm. pose proof (ai_ready _ _ Hi) as (Hd & _ & Hk). pose proof (ai_nonces _ _ Hi) as Hn.
  apply wp_conj; [by apply match_mint_audits|]. apply wp_try_match_mint; [done..| | |].
  - by intros e w' [].
  - intros e w' Ho Hl x Hp. rewrite (leads_db _ _ _ Hl) in Hp.
    by pose proof (pending_mint_outcome config (w_db w) m x (Err e) Hd Hn Hp Ho).
  - intros x mid did w' _ _ Em _ Hl y. rewrite (leads_db _ _ _ Hl).
    apply recorded_mint_settles. by left.
Qed.

Lemma match_burn_settles config b w :
  healthy w -> audit_inv config (w_db w) -> b ∈ rows (w_db w) ->
  wp (AuditedBurn.try_match_burn_with_withdrawal b config)
    (fun r w' => audits config w r w' /\ burn_settled config (w_db w') b) w.
Proof.
  intros Hh Hi Hb. pose proof (ai_ready _ _ Hi) as (Hd & _ & Hk).
  apply wp_conj; [by apply match_burn_audits|]. apply wp_try_match_burn; [done..| | |].
  - by intros e w' [].
  - intros e w' Ho Hl x. rewrite (leads_db _ _ _ Hl). intros Hp.
    exact (pending_burn_outcome config (w_db w) b x e Hd Hp Ho).
  - intros x bid wid w' _ _ Eb _ Hl y. rewrite (leads_db _ _ _ Hl). intros Hp.
    exfalso. eapply recorded_burn_settles, Hp. by left.
Qed.

Lemma match_deposit_settles config sc x w :
  healthy w -> audit_inv config (w_db w) -> x ∈ rows (w_db w) -> sc ∈ gc_safes config ->
  get_audited_safe_config_by_safe_addr config (gsd_safe_addr x) = Some sc ->
  wp (AuditedMint.try_match_deposit_with_mint x sc)
    (fun r w' => audits config w r w' /\ forall m, ~ pending_mint config (w_db w') m x) w.
Proof.
  intros Hh Hi Hx Hin Hsc. pose proof (ai_ready _ _ Hi) as (Hd & _ & Hk).
  pose proof (ai_nonces _ _ Hi) as Hn.
  apply wp_conj; [by apply match_deposit_audits|]. apply wp_try_match_deposit; [done..| | |].
  - by intros e w' [].
  - intros e w' Ho Hl m Hp. rewrite (leads_db _ _ _ Hl) in Hp.
    by pose proof (pending_deposit_outcome config sc (w_db w) m x (Err e) Hd Hn Hp Hsc Ho).
  - intros m mid did w' _ _ _ Ex Hl y. rewrite (leads_db _ _ _ Hl).
    apply recorded_mint_settles. by right.
Qed.

Lemma match_withdrawal_settles config sc x w :
  healthy w -> audit_inv config (w_db w) -> x ∈ rows (w_db w) -> sc ∈ gc_safes config ->
  get_audited_safe_config_by_safe_addr config (gsw_safe_addr x) = Some sc ->
  wp (AuditedBurn.try_match_withdrawal_with_burn x sc)
    (fun r w' => audits config w r w' /\ forall b, ~ pending_burn config (w_db w') b x) w.
Proof.
  intros Hh Hi Hx Hin Hsc. pose proof (ai_ready _ _ Hi) as (Hd & _ & Hk).
  apply wp_conj; [by apply match_withdrawal_audits|]. apply wp_try_match_withdrawal; [done..| | |].
  - by intros e w' [].
  - intros e w' Ho Hl b Hp. rewrite (leads_db _ _ _ Hl) in Hp.
    by pose proof (pending_withdrawal_outcome config sc (w_db w) b x (Err e) Hd Hp Hsc Ho).
  - intros b bid wid w' _ _ _ Ex Hl y. rewrite (leads_db _ _ _ Hl).
    apply recorded_burn_settles. by right.
Qed.

(** ** Sequences of attempts *)
Lemma audit_steps_inv config d d' :
  rtc (audit_step config) d d' -> audit_inv config d -> audit_inv config d' /\ audit_frame d d'.
Proof.
  induction 1 as [d|d1 d2 d3 Hs _ IH]; intros Hi; [by split|].
  destruct IH as [H1 [E1 E2 E3 E4 E5 E6]]; [by eapply audit_step_inv|].
  apply audit_step_frame in Hs as [F1 F2 F3 F4 F5 F6].
  split; [done|]. split; try congruence; auto.
Qed.

Lemma pending_mint_steps config d d' m x :
  rtc (audit_step config) d d' -> pending_mint config d' m x -> pending_mint config d m x.
Proof.
  induction 1 as [d|d1 d2 d3 Hs _ IH]; [done|]. intros Hp. by eapply pending_mint_audit, IH.
Qed.

Lemma pending_burn_steps config d d' b x :
  rtc (audit_step config) d d' -> pending_burn config d' b x -> pending_burn config d b x.
Proof.
  induction 1 as [d|d1 d2 d3 Hs _ IH]; [done|]. intros Hp. by eapply pending_burn_audit, IH.
Qed.

Lemma burn_masked_steps config d d' b x :
  audit_inv config d -> rtc (audit_step config) d d' -> pending_burn config d' b x ->
  (exists y, y <> x /\ candidate_withdrawal d b y) -> exists y, y <> x /\ candidate_withdrawal d' b y.
Proof.
  intros Hi Hs. revert Hi. induction Hs as [d|d1 d2 d3 Hs Hss IH]; [done|]. intros Hi Hp Hy.
  apply IH; [by eapply audit_step_inv|done|]. eapply burn_masked_audit; [|done| |done].
  - apply (ai_ready _ _ Hi).
  - by eapply pending_burn_steps.
Qed.

(** Both loops of [audit_block_data] have this shape: [P] is what an attempt
    establishes of its mint or burn, and later attempts keep. *)
Lemma wp_audit_each config {A B} (f : A -> App B) (stored P : Db -> A -> Prop) xs Q w :
  (forall d d' x, audit_frame d d' -> stored d x -> stored d' x) ->
  (forall d d' x, integrity d -> audit_step config d d' -> P d x -> P d' x) ->
  (forall x w, healthy w -> audit_inv config (w_db w) -> stored (w_db w) x ->
     wp (f x) (fun r w' => audits config w r w' /\ P (w_db w') x) w) ->
  healthy w -> audit_inv config (w_db w) -> (forall x, x ∈ xs -> stored (w_db w) x) ->
  (forall l w', rtc (audit_step config) (w_db w) (w_db w') -> healthy w' ->
     (forall x, x ∈ xs -> P (w_db w') x) -> Q (Ok l) w') ->
  wp (for_each (fun x => attempt (f x)) xs : App (list (Res Error B))) Q w.
Proof.
  intros Hmono Hkeep Hf. revert Q w. induction xs as [|x xs IH]; intros Q w Hh Hi Hst HQ; simpl.
  { apply wp_ret, HQ; [apply rtc_refl|done|]. intros x Hx. by apply elem_of_nil in Hx. }
  apply wp_seq, wp_attempt. eapply wp_mono; [apply Hf; [done..|apply Hst; by left]|].
  intros r w1 ((Ha & Hh1 & Hp) & HP).
  pose proof (audit_step_inv _ _ _ Ha Hi) as Hi1. specialize (Hh1 Hh).
  assert (wp (for_each (fun x => attempt (f x)) xs : App (list (Res Error B)))
    (fun r w' => match r with
                 | Ok l => rtc (audit_step config) (w_db w1) (w_db w') /\ healthy w' /\
                           forall x, x ∈ xs -> P (w_db w') x
                 | _ => False end) w1) as Hrest.
  { apply IH; [done|done| |done]. intros y Hy. eapply Hmono; [by eapply audit_step_frame|].
    apply Hst. by right. }
  destruct r as [b|e|p]; [| |by destruct (Hp p)];
    (apply wp_seq; eapply wp_mono; [exact Hrest|]; intros [l|e'|p'] w' Hw'; [|done..];
     destruct Hw' as (Hs & Hh' & HPs); apply wp_ret, HQ; [by eapply rtc_l|done|];
     intros y [->|Hy]%elem_of_cons; [|by apply HPs]).
  all: clear - Hs Hi1 HP Hkeep; revert Hi1 HP;
    induction Hs as [d|d1 d2 d3 Hs _ IHs]; [done|]; intros Hi1 HP;
    apply IHs; [by eapply audit_step_inv|by eapply Hkeep; [apply (ai_ready _ _ Hi1)|..]].
Qed.
End matching.

(** ** One block *)
Section good.
Context {X_chrono : Chrono} {X_sqlite : Sqlite} {L_sqlite : SqliteLaws}.
Context {X_hex : Hex} {L_hex : HexLaws} {X_mc : MobileCoin} {L_mc : MobileCoinLaws} {X_url : UrlLib}.
Context {X_hash : HashOrder} {L_hash : HashOrderLaws} {X_json : SerdeJson} {X_ledger : LedgerDB}.
Context (config : GnosisSafeConfig).
Implicit Types (w : World) (d : Db).

(** No fault is pending, the invariant holds and nothing waits to be audited. *)
Definition good w : Prop := healthy w /\ audit_inv config (w_db w) /\ settled config (w_db w).

Lemma good_leads w w' : leads w (w_db w) w' -> good w -> good w'.
Proof. intros [Hd Hh] (H & Hi & Hs). split; [by apply Hh|]. by rewrite Hd. Qed.

Lemma good_consumes w w' : consumes w w' -> w_db w' = w_db w -> good w -> good w'.
Proof. intros Hc Hd (H & Hi & Hs). split; [by eapply consumes_healthy|]. by rewrite Hd. Qed.

(** A synchronized block whose mints and burns have all been tried. *)
Lemma synced_settled idx c ts d data d1 d2 :
  audit_inv config d -> settled config d -> synced idx c ts d data d1 ->
  rtc (audit_step config) d1 d2 ->
  (forall m, m ∈ sbd_mint_txs data -> mint_settled config d2 m) ->
  (forall b, b ∈ sbd_burn_tx_outs data -> burn_settled config d2 b) -> settled config d2.
Proof.
  intros Hi [Hm Hb] Hs Hss HPm HPb. pose proof (synced_inv _ _ _ _ _ _ _ Hs Hi) as Hi1.
  pose proof (synced_frame _ _ _ _ _ _ Hs) as (Rm & Rb & _ & Rx & Rw & Ram & Rab). split.
  - intros m x Hp. pose proof (pending_mint_steps _ _ _ _ _ Hss Hp) as Hp1.
    pose proof (pending_mint_stored _ _ _ _ Hp1) as [Hin Hx]. rewrite Rm in Hin. rewrite Rx in Hx.
    apply elem_of_app in Hin as [Hin|Hin]; [|by eapply HPm].
    eapply Hm, pending_mint_back, Hp1; [done..|]. by rewrite Ram.
  - intros b x Hp. pose proof (pending_burn_steps _ _ _ _ _ Hss Hp) as Hp1.
    pose proof (pending_burn_stored _ _ _ _ Hp1) as [Hin Hx]. rewrite Rb in Hin. rewrite Rw in Hx.
    apply elem_of_app in Hin as [Hin|Hin]; [|by eapply HPb].
    assert (pending_burn config d b x) as Hp0.
    { eapply pending_burn_back, Hp1; [done..|]. by rewrite Rab. }
    destruct (Hb b x Hp0) as (y & Hne & Hy & Ek & Hu).
    eapply burn_masked_steps; [exact Hi1|done..|]. exists y. split; [done|].
    split; [by rewrite Rw|]. split; [done|]. unfold GnosisSafeWithdrawal.unaudited in *. by rewrite Rab.
Qed.

Lemma wp_audit_block_settles data Q w :
  healthy w -> audit_inv config (w_db w) ->
  (forall m, m ∈ sbd_mint_txs data -> m ∈ rows (w_db w)) ->
  (forall b, b ∈ sbd_burn_tx_outs data -> b ∈ rows (w_db w)) ->
  (forall w', rtc (audit_step config) (w_db w) (w_db w') -> healthy w' ->
     (forall m, m ∈ sbd_mint_txs data -> mint_settled config (w_db w') m) ->
     (forall b, b ∈ sbd_burn_tx_outs data -> burn_settled config (w_db w') b) -> Q (Ok tt) w') ->
  wp (Main.audit_block_data data config) Q w.
Proof.
  intros Hh Hi Hm Hb HQ. unfold Main.audit_block_data.
  apply wp_seq, (wp_audit_each config _ (fun d m => m ∈ rows d) (mint_settled config));
    [by intros d d' m Hf; rewrite (af_mints _ _ Hf)|by intros; eapply mint_settled_audit|
     intros; by apply match_mint_settles|done..|].
  intros l w1 Hs1 Hh1 HP1. destruct (audit_steps_inv _ _ _ Hs1 Hi) as [Hi1 Hf1].
  apply wp_seq, (wp_audit_each config _ (fun d b => b ∈ rows d) (burn_settled config));
    [by intros d d' b Hf; rewrite (af_burns _ _ Hf)|by intros; eapply burn_settled_audit|
     intros; by apply match_burn_settles|done|done|intros b Hin; rewrite (af_burns _ _ Hf1); auto|].
  intros l' w2 Hs2 Hh2 HP2. apply wp_ret, HQ; [by etrans|done| |done].
  intros m Hin x Hp. eapply HP1, pending_mint_steps, Hp; [done|exact Hs2].
Qed.

Lemma wp_sync_and_audit_good idx c ts w :
  good w -> wp (Main.sync_and_audit (Some config) idx c ts) (fun _ w' => good w') w.
Proof.
  intros Hg. pose proof Hg as (Hh & Hi & Hset).
  eapply wp_mono; [apply wp_conj; [by apply wp_consumes, spends_sync_and_audit|]|].
  - apply (wp_conn_transaction _ (fun r w' => match r with
      | Ok _ => good w' | _ => w_db w' = w_db w end)); [by intros f w' []|].
    intros w1 Hl1. pose proof (leads_db _ _ _ Hl1) as Hd1.
    apply wp_seq, wp_sync_block_with_conn; rewrite ?Hd1; [apply Hi..|done|].
    intros data d1 w2 Hs Hl2. pose proof (leads_trans _ _ _ _ _ Hl1 Hl2) as Hl.
    pose proof (leads_db _ _ _ Hl) as Hd2. pose proof (synced_inv _ _ _ _ _ _ _ Hs Hi) as Hi2.
    pose proof (synced_frame _ _ _ _ _ _ Hs) as (Rm & Rb & _).
    apply wp_audit_block_settles; rewrite ?Hd2; [by apply Hl|done|..].
    + intros m Hm. rewrite Rm. apply elem_of_app. by right.
    + intros b Hb. rewrite Rb. apply elem_of_app. by right.
    + intros w3 Hs3 Hh3 HPm HPb. split; [done|].
      destruct (audit_steps_inv _ _ _ Hs3 Hi2) as [Hi3 _]. split; [done|].
      exact (synced_settled _ _ _ _ _ _ _ Hi Hset Hs Hs3 HPm HPb).
  - intros [a|e|p] w' [Hc Hr]; [done|by eapply good_consumes..].
Qed.

Lemma wp_sync_iteration_good watcher n w :
  good w -> wp (Main.sync_iteration (Some config) watcher n) (fun _ w' => good w') w.
Proof.
  intros Hg. apply wp_seq, wp_get_conn; [intros f w' _ Hl; by eapply good_leads|].
  intros w1 Hl1. pose proof (good_leads _ _ Hl1 Hg) as Hg1. apply wp_seq, wp_lift.
  destruct (from_ext LedgerDb _) as [len|e|p]; [|done..].
  apply wp_seq, (wp_query _ _ _ _ query_last_synced); [intros f w' _ Hl; by eapply good_leads|].
  intros r w2 Hl2 _. pose proof (good_leads _ _ Hl2 Hg1) as Hg2.
  destruct r as [o|e|p]; [|done..]. cbv zeta. case_match; [by apply wp_ret| |by apply wp_ret].
  apply wp_seq, wp_lift. destruct (from_ext LedgerDb _) as [[i c]|e|p]; [|done..].
  apply wp_seq. eapply wp_mono; [by apply wp_sync_and_audit_good|]. intros [a|e|p] w3 Hg3; [|done..].
  by apply wp_ret.
Qed.

(** ** A transaction of a safe *)

(** No two configured safes share an address. *)
Definition distinct_safes : Prop := forall sc sc', sc ∈ gc_safes config -> sc' ∈ gc_safes config ->
  EthAddr.eqb (sc_safe_addr sc) (sc_safe_addr sc') = true -> sc = sc'.
Context (Hdistinct : distinct_safes).

Lemma safe_found sc addr :
  sc ∈ gc_safes config -> EthAddr.eqb addr (sc_safe_addr sc) = true ->
  get_audited_safe_config_by_safe_addr config addr = Some sc.
Proof.
  intros Hsc Ha. unfold get_audited_safe_config_by_safe_addr.
  destruct (List.find _ _) as [sc'|] eqn:E.
  - apply find_Some_elem in E as [Hsc' Ea]. f_equal. apply Hdistinct; [done..|].
    unfold EthAddr.eqb in *. apply bool_decide_eq_true in Ha, Ea. apply bool_decide_eq_true. congruence.
  - apply (find_none _ _) with (x := sc) in E; [|by apply list_elem_of_In].
    unfold EthAddr.eqb in *. apply bool_decide_eq_true in Ha. apply bool_decide_eq_false in E. congruence.
Qed.

Lemma wp_insert_get_id_healthy {R} {T : Table R} {TL : TableLaws R} (r : R) Q w :
  healthy w ->
  (forall e w', leads w (w_db w) w' -> Q (Err e) w') ->
  (forall i w', insertable (w_db w) i r -> leads w (db_insert i r (w_db w)) w' -> Q (Ok i) w') ->
  wp (insert_get_id r) Q w.
Proof.
  intros Hh He Ho. apply wp_seq, wp_insert_into; [intros e w' _ _ Hl; by apply He|].
  intros i w' Hi Hl Hr. unfold wp, last_insert_rowid, statement.
  rewrite (proj2 Hl Hh : w_faults w' = []). simpl. rewrite Hr. by apply Ho.
Qed.

(** The pairs that wait after a deposit (a withdrawal) has been stored all contain
    it. *)
Lemma deposit_inserted_settled i (x : GnosisSafeDeposit) d d' :
  insertable d i x -> audit_inv config d -> audit_inv config (db_insert i x d) -> settled config d ->
  audit_step config (db_insert i x d) d' ->
  (forall m, ~ pending_mint config d' m (row_with_id i x)) -> settled config d'.
Proof.
  intros Hins Hi Hi1 [Hm Hb] Ha Hx. split.
  - intros m y Hp. pose proof (pending_mint_audit _ _ _ _ _ Ha Hp) as Hp1.
    pose proof (pending_mint_stored _ _ _ _ Hp1) as [Hin Hy]. rewrite rows_db_insert in Hy.
    apply elem_of_app in Hy as [Hy| ->%list_elem_of_singleton]; [|by eapply Hx].
    eapply Hm, pending_mint_back, Hp1; [exact Hin|done|done].
  - intros b. eapply burn_settled_audit; [apply (ai_ready _ _ Hi1)|exact Ha|exact (Hb b)].
Qed.

Lemma withdrawal_inserted_settled i (x : GnosisSafeWithdrawal) d d' :
  insertable d i x -> audit_inv config d -> audit_inv config (db_insert i x d) -> settled config d ->
  audit_step config (db_insert i x d) d' ->
  (forall b, ~ pending_burn config d' b (row_with_id i x)) -> settled config d'.
Proof.
  intros Hins Hi Hi1 [Hm Hb] Ha Hx. split.
  - intros m. eapply mint_settled_audit; [exact Ha|exact (Hm m)].
  - intros b y Hp. pose proof (pending_burn_audit _ _ _ _ _ Ha Hp) as Hp1.
    pose proof (pending_burn_stored _ _ _ _ Hp1) as [Hin Hy]. rewrite rows_db_insert in Hy.
    apply elem_of_app in Hy as [Hy| ->%list_elem_of_singleton]; [|by destruct (Hx b)].
    assert (pending_burn config d b y) as Hp0.
    { eapply pending_burn_back, Hp1; [exact Hin|done|done]. }
    destruct (Hb b y Hp0) as (z & Hne & Hz & Ek & Hu).
    eapply burn_masked_audit; [apply (ai_ready _ _ Hi1)|exact Ha|exact Hp|].
    exists z. split; [done|]. split; [|by split]. rewrite rows_db_insert. apply elem_of_app. by left.
Qed.

Lemma wp_deposit_good sc x w :
  good w -> sc ∈ gc_safes config -> gsd_id x = None ->
  EthAddr.eqb (gsd_safe_addr x) (sc_safe_addr sc) = true ->
  gsd_expected_mc_mint_tx_nonce_hex x =
    hex_encode (MintTxNonce.to_bytes (MintTxNonce.EthereumGnosisDeposit (gsd_eth_tx_hash x))) ->
  wp (x ← GnosisSafeDeposit.insert x;
      _ ← attempt (AuditedMint.try_match_deposit_with_mint x sc); mret tt : App unit)
    (fun _ w' => good w') w.
Proof.
  intros Hg Hsc Hid Ha Hn. pose proof Hg as (Hh & Hi & Hset).
  unfold GnosisSafeDeposit.insert. rewrite Hid.
  apply wp_seq, wp_seq, wp_exec, wp_insert_get_id_healthy; [done|intros e w' Hl; by eapply good_leads|].
  intros i w1 Hins [Hd1 Hh1]. apply wp_ret.
  assert (audit_inv config (db_insert i x (w_db w))) as Hi1.
  { eapply gnosis_step_inv, Hi. by apply gnosis_deposit. }
  apply wp_seq, wp_attempt. eapply wp_mono; [apply (match_deposit_settles config); rewrite ?Hd1|].
  - by apply Hh1.
  - done.
  - rewrite rows_db_insert. apply elem_of_app. right. by left.
  - done.
  - exact (safe_found _ _ Hsc Ha).
  - intros r w2 [(Has & Hh2 & Hp) Hx].
    assert (good w2) as Hg2.
    { rewrite Hd1 in Has. split; [by apply Hh2, Hh1|]. split; [by eapply audit_step_inv|].
      by eapply deposit_inserted_settled. }
    destruct r as [m|e|p]; [by apply wp_ret..|done].
Qed.

Lemma wp_withdrawal_good sc x w :
  good w -> sc ∈ gc_safes config -> gsw_id x = None ->
  EthAddr.eqb (gsw_safe_addr x) (sc_safe_addr sc) = true ->
  wp (x ← GnosisSafeWithdrawal.insert x;
      _ ← attempt (AuditedBurn.try_match_withdrawal_with_burn x sc); mret tt : App unit)
    (fun _ w' => good w') w.
Proof.
  intros Hg Hsc Hid Ha. pose proof Hg as (Hh & Hi & Hset).
  unfold GnosisSafeWithdrawal.insert. rewrite Hid.
  apply wp_seq, wp_seq, wp_exec, wp_insert_get_id_healthy; [done|intros e w' Hl; by eapply good_leads|].
  intros i w1 Hins [Hd1 Hh1]. apply wp_ret.
  assert (audit_inv config (db_insert i x (w_db w))) as Hi1.
  { eapply gnosis_step_inv, Hi. by apply gnosis_withdrawal. }
  apply wp_seq, wp_attempt. eapply wp_mono; [apply (match_withdrawal_settles config); rewrite ?Hd1|].
  - by apply Hh1.
  - done.
  - rewrite rows_db_insert. apply elem_of_app. right. by left.
  - done.
  - exact (safe_found _ _ Hsc Ha).
  - intros r w2 [(Has & Hh2 & Hp) Hx].
    assert (good w2) as Hg2.
    { rewrite Hd1 in Has. split; [by apply Hh2, Hh1|]. split; [by eapply audit_step_inv|].
      by eapply withdrawal_inserted_settled. }
    destruct r as [m|e|p]; [by apply wp_ret..|done].
Qed.

Lemma parse_deposit_safe sc tx transfer x :
  GnosisSync.parse_deposit sc tx transfer = Ok x -> gsd_safe_addr x = et_to transfer.
Proof.
  unfold GnosisSync.parse_deposit, ok_or, mbind, Res_bind, res_bind, unwrap.
  destruct (et_token_addr transfer) as [a|]; [|done].
  destruct (get_token_by_eth_contract_addr sc a) as [tok|]; [|done].
  destruct (et_value transfer) as [v|]; [|done].
  destruct (truncate_value v _ _); [|done..]. by intros [= <-].
Qed.

Lemma parse_withdrawal_safe sc tx x :
  GnosisSync.parse_withdrawal_with_pub_key_multi_sig_tx sc tx = Ok x -> gsw_safe_addr x = ms_safe tx.
Proof.
  unfold GnosisSync.parse_withdrawal_with_pub_key_multi_sig_tx, ok_or, mbind, Res_bind, res_bind,
    unwrap, from_ext.
  intros H. repeat (case_match; try done). by injection H as <-.
Qed.

(** An increment of a counter of the threads. *)
Lemma settled_bump v d : settled config d -> settled config (bump_db v d).
Proof. intros [Hm Hb]. split; [exact Hm|exact Hb]. Qed.

Lemma wp_inc_good v Q w :
  good w -> (forall w', good w' -> Q (Ok tt) w') -> wp (Counters.inc v) Q w.
Proof.
  intros (Hh & Hi & Hs) HQ. apply wp_inc.
  - intros e w' [Hn|Hn]; [done|]. by destruct Hn; apply (ai_ready _ _ Hi).
  - intros w' [Hd Hh']. apply HQ. split; [by apply Hh'|]. rewrite Hd.
    split; [by apply audit_inv_bump|by apply settled_bump].
Qed.

Lemma wp_transfer_good sc tx transfer w :
  good w -> sc ∈ gc_safes config ->
  wp (GnosisSync.process_transfer sc tx transfer) (fun _ w' => good w') w.
Proof.
  intros Hg Hsc. unfold GnosisSync.process_transfer.
  destruct (EthAddr.eqb _ _) eqn:Ea; [|by apply wp_ret].
  apply wp_seq, wp_attempt, wp_lift. destruct (GnosisSync.parse_deposit sc tx transfer) as [x|e|p] eqn:E.
  - apply wp_seq, wp_ret, wp_seq, wp_lift. simpl.
    pose proof (parse_deposit_ok _ _ _ _ E) as [Hid Hn].
    apply wp_deposit_good; [done..| |done]. by rewrite (parse_deposit_safe _ _ _ _ E).
  - apply wp_seq, wp_inc_good; [done|]. intros w1 Hg1. by apply wp_seq, wp_lift.
  - done.
Qed.

Lemma wp_multi_sig_good sc tx w :
  good w -> sc ∈ gc_safes config ->
  wp (GnosisSync.process_multi_sig_transaction sc tx) (fun _ w' => good w') w.
Proof.
  intros Hg Hsc. unfold GnosisSync.process_multi_sig_transaction.
  destruct (EthAddr.eqb _ _) eqn:Ea; [|by apply wp_ret]. simpl.
  apply wp_seq, wp_attempt, wp_lift.
  destruct (GnosisSync.parse_withdrawal_with_pub_key_multi_sig_tx sc tx) as [x|e|p] eqn:E; [| |done].
  - apply wp_withdrawal_good; [done..|by eapply parse_withdrawal_ok|].
    by rewrite (parse_withdrawal_safe _ _ _ E).
  - by apply wp_inc_good.
Qed.

Lemma wp_body_good sc tx w :
  good w -> sc ∈ gc_safes config ->
  wp (GnosisSync.process_transaction_body sc tx) (fun _ w' => good w') w.
Proof.
  intros Hg Hsc. unfold GnosisSync.process_transaction_body. apply wp_seq, wp_attempt.
  assert (wp (GnosisSafeTx.insert tx) (fun _ w' => good w') w) as Hins.
  { unfold GnosisSafeTx.insert. apply wp_seq, wp_lift.
    destruct (map_err GnosisErr (tx_hash tx)) as [h|e|p]; [|done..].
    apply wp_exec, wp_insert_into; [intros e w' _ _ Hl; by eapply good_leads|].
    intros i w' Hi [Hd Hh] _. destruct Hg as (H & Hinv & [Hm Hb]). split; [by apply Hh|]. rewrite Hd.
    split; [by eapply gnosis_step_inv, Hinv; apply gnosis_tx|split; [exact Hm|exact Hb]]. }
  eapply wp_mono; [exact Hins|].
  intros [[]|e|p] w1 Hg1; [|destruct e; try (by apply wp_throw); by apply wp_ret|done].
  apply wp_seq, wp_lift. destruct (map_err GnosisErr (decode tx)) as [[t|t|v]|e|p]; [..|done|done].
  - by apply wp_multi_sig_good.
  - apply wp_seq, wp_attempt. unfold GnosisSync.process_eth_transaction. apply wp_seq.
    eapply wp_mono; [apply (wp_for_each_inv good); [|exact Hg1]; intros x w' _ Hg'; by apply wp_transfer_good|].
    intros [l|e|p] w2 Hg2; [by apply wp_ret, wp_ret| |done].
    repeat case_match; by first [apply wp_ret|apply wp_throw].
  - by apply wp_ret.
Qed.

Lemma wp_process_transaction_good sc tx w :
  good w -> sc ∈ gc_safes config ->
  wp (GnosisSync.process_transaction sc tx) (fun _ w' => good w') w.
Proof.
  intros Hg Hsc. pose proof Hg as (Hh & _).
  eapply wp_mono; [apply wp_conj; [by apply wp_consumes, spends_process_transaction|]|].
  - apply (wp_process_transaction _ _ (fun r w' => match r with
      | Ok _ => good w' | _ => w_db w' = w_db w end)); [done|].
    intros w1 Hl1. pose proof (good_leads _ _ Hl1 Hg) as Hg1.
    eapply wp_mono; [by apply wp_body_good|]. by intros [a|e|p] w2 Hg2.
  - intros [a|e|p] w' [Hc Hr]; [done|by eapply good_consumes..].
Qed.
End good.
