(* ===== verification/CompleteProps.v ===== *)
(** * What matches is audited

    The running system without faults: the synchronization loop with the safes'
    configuration, the threads that follow the safes, restarts and reads interleave
    in any order. *)

From S2P Require Import Prelude Externals Concrete GnosisTypes Errors Schema Database.
From S2P Require Import CountersModel Blocks Mints Burns GnosisConfig GnosisRows AuditedMints.
From S2P Require Import AuditedBurns SyncBlock LedgerSpec LedgerSync MintVerdicts SafeSync.
From S2P Require Import AuditInvariant Main Faults Handlers SyncLoop SafeSyncSpec Scenario System.
From S2P Require Import Complete CompleteSteps.

Section complete.
Context {X_chrono : Chrono} {X_sqlite : Sqlite} {L_sqlite : SqliteLaws}.
Context {X_hex : Hex} {L_hex : HexLaws} {X_mc : MobileCoin} {L_mc : MobileCoinLaws} {X_url : UrlLib}.
Context {X_hash : HashOrder} {L_hash : HashOrderLaws} {X_json : SerdeJson} {X_ledger : LedgerDB}.
Implicit Types (w : World) (d : Db) (config : GnosisSafeConfig).

Inductive quiet_step config w : World -> Prop :=
| quiet_sync watcher n : quiet_step config w (Main.sync_iteration (Some config) watcher n w).2
| quiet_follow sc tx :
    sc ∈ gc_safes config -> quiet_step config w (GnosisSync.process_transaction sc tx w).2
| quiet_restart : quiet_step config w (ReserveAuditorDb.new_from_path (mret tt) w).2
| quiet_read {A} (m : App A) P : query m P -> quiet_step config w (m w).2
| quiet_environment w' :
    w_db w' = w_db w -> w_faults w' = w_faults w -> quiet_step config w w'.

Lemma quiet_step_good config w w' :
  distinct_safes config -> good config w -> quiet_step config w w' -> good config w'.
Proof.
  intros Hds Hg [watcher n|sc tx Hsc| |A m P Hq|w1 Ed Ef].
  - apply (wp_sync_iteration_good config watcher n w Hg).
  - exact (wp_process_transaction_good config Hds sc tx w Hg Hsc).
  - apply good_consumes with w; [apply (spends_consumes _ spends_restart)| |done].
    apply restart_db, (ai_ready _ _ (proj1 (proj2 Hg))).
  - destruct (Hq w) as [Hl _]. by eapply good_leads.
  - apply good_consumes with w; [by unfold consumes; rewrite Ef|done|done].
Qed.

Lemma initial_settled config : settled config initial_db.
Proof.
  split.
  - intros m x (sc & mid & did & _ & Hm & _). by apply elem_of_nil in Hm.
  - intros b x (sc & bid & wid & _ & Hb & _). by apply elem_of_nil in Hb.
Qed.

Lemma quiet_steps_good config w w' :
  distinct_safes config -> healthy w -> w_db w = initial_db -> rtc (quiet_step config) w w' ->
  good config w'.
Proof.
  intros Hds Hh Hw Hs.
  assert (good config w) as Hg.
  { split; [done|]. rewrite Hw. split; [apply initial_inv|apply initial_settled]. }
  clear Hh Hw. induction Hs as [w|w1 w2 w3 Hs _ IH]; [done|]. by apply IH; eapply quiet_step_good.
Qed.

(** The audit row of a mint and a deposit, of a burn and a withdrawal. *)
Definition mint_audited_with d (m : MintTx) (x : GnosisSafeDeposit) : Prop := exists a,
  a ∈ rows d /\ mt_id m = Some (am_mint_tx_id a) /\ gsd_id x = Some (am_gnosis_safe_deposit_id a).
Definition burn_audited_with d (b : BurnTxOut) (x : GnosisSafeWithdrawal) : Prop := exists a,
  a ∈ rows d /\ bto_id b = Some (ab_burn_tx_out_id a) /\
  gsw_id x = Some (ab_gnosis_safe_withdrawal_id a).

Lemma existsb_column {A} (f : A -> Z) l i : existsb (fun a => f a =? i) l = true -> exists a, a ∈ l /\ f a = i.
Proof. rewrite existsb_exists_elem. intros (a & Ha & E%Z.eqb_eq). eauto. Qed.

(** A mint can only be audited with the deposit that has its nonce. *)
Lemma audited_mint_partner config sc d m x :
  audit_inv config d -> settled config d -> m ∈ rows d -> x ∈ rows d ->
  get_audited_safe_config_by_safe_addr config (gsd_safe_addr x) = Some sc ->
  mint_matches sc m x -> mint_audited_with d m x.
Proof.
  intros Hi Hset Hm Hx Hsc Hmatch. pose proof (ai_ready _ _ Hi) as (Hd & _).
  pose proof (stored_has_id _ _ (ok_mint_txs _ Hd) Hm) as (mid & Em & _).
  pose proof (stored_has_id _ _ (ok_gnosis_safe_deposits _ Hd) Hx) as (did & Ex & _). simpl in Em, Ex.
  pose proof Hmatch as (_ & _ & Enonce & _).
  destruct (mint_audited d mid) eqn:Am; [|destruct (deposit_audited d did) eqn:Ax].
  - apply existsb_column in Am as (a & Ha & <-).
    destruct (ai_mints _ _ Hi a Ha) as (m' & x' & sc' & Hm' & Hx' & _ & Em' & Ex' & Hmatch').
    assert (m' = m) as -> by (eapply (stored_unique d), eq_trans, eq_sym, Em; [apply Hd|done..]).
    assert (x' = x) as ->; [|by exists a].
    destruct Hmatch' as (_ & _ & Enonce' & _).
    apply (deposit_nonce_unique d); [apply Hd|apply (ai_nonces _ _ Hi)|done..|congruence].
  - apply existsb_column in Ax as (a & Ha & <-).
    destruct (ai_mints _ _ Hi a Ha) as (m' & x' & sc' & Hm' & Hx' & _ & Em' & Ex' & Hmatch').
    assert (x' = x) as -> by (eapply (stored_unique d), eq_trans, eq_sym, Ex; [apply Hd|done..]).
    assert (m' = m) as ->; [|by exists a]. destruct Hmatch' as (_ & _ & Enonce' & _).
    apply rows_elem_of in Hm as [i Hmi], Hm' as [j Hmj].
    assert ((j, m') = (i, m)) as [= _ ->]; [|done].
    eapply (ok_unique _ (ok_mint_txs _ Hd)); [done..|]. simpl. rewrite Enonce', Enonce. apply String.eqb_refl.
  - destruct (settled_mints _ _ Hset m x). exists sc, mid, did. by split_and!.
Qed.

Lemma audited_burn_partner config sc d b x :
  audit_inv config d -> settled config d -> b ∈ rows d -> x ∈ rows d ->
  get_audited_safe_config_by_safe_addr config (gsw_safe_addr x) = Some sc ->
  burn_matches sc b x ->
  (forall y, y ∈ rows d -> gsw_mc_tx_out_public_key_hex y = bto_public_key_hex b -> y = x) ->
  burn_audited_with d b x.
Proof.
  intros Hi Hset Hb Hx Hsc Hmatch Huniq. pose proof (ai_ready _ _ Hi) as (Hd & _).
  pose proof (stored_has_id _ _ (ok_burn_tx_outs _ Hd) Hb) as (bid & Eb & _).
  pose proof (stored_has_id _ _ (ok_gnosis_safe_withdrawals _ Hd) Hx) as (wid & Ex & _). simpl in Eb, Ex.
  destruct (burn_audited d bid) eqn:Ab; [|destruct (withdrawal_audited d wid) eqn:Ax].
  - apply existsb_column in Ab as (a & Ha & <-).
    destruct (ai_burns _ _ Hi a Ha) as (b' & x' & sc' & Hb' & Hx' & _ & Eb' & Ex' & Hmatch').
    assert (b' = b) as -> by (eapply (stored_unique d), eq_trans, eq_sym, Eb; [apply Hd|done..]).
    assert (x' = x) as ->; [|by exists a].
    destruct Hmatch' as (_ & _ & Ekey & _). apply Huniq; [done|congruence].
  - apply existsb_column in Ax as (a & Ha & <-).
    destruct (ai_burns _ _ Hi a Ha) as (b' & x' & sc' & Hb' & Hx' & _ & Eb' & Ex' & Hmatch').
    assert (x' = x) as -> by (eapply (stored_unique d), eq_trans, eq_sym, Ex; [apply Hd|done..]).
    assert (b' = b) as ->; [|by exists a].
    destruct Hmatch as (_ & _ & Ekey & _), Hmatch' as (_ & _ & Ekey' & _).
    eapply burn_key_unique; [done..|congruence].
  - destruct (settled_burns _ _ Hset b x) as (y & Hne & Hy & Ek & _); [|by destruct Hne; apply Huniq].
    exists sc, bid, wid. by split_and!.
Qed.

(** C2: What matches is audited.  Start from a fresh database, with no two safes at
    one address, and let the synchronization loop, the threads of the safes,
    restarts and reads interleave in any order without faults: at every moment every
    stored mint and deposit of a configured safe that match (token, nonce, amount)
    are tied together by an audit row, and so are every stored burn and withdrawal
    that match, provided no other withdrawal names the burn. *)
Theorem audits_complete config w w' :
  distinct_safes config -> healthy w -> w_db w = initial_db -> rtc (quiet_step config) w w' ->
  let d := w_db w' in
  (forall m x sc, m ∈ rows d -> x ∈ rows d ->
     get_audited_safe_config_by_safe_addr config (gsd_safe_addr x) = Some sc ->
     mint_matches sc m x -> mint_audited_with d m x) /\
  (forall b x sc, b ∈ rows d -> x ∈ rows d ->
     get_audited_safe_config_by_safe_addr config (gsw_safe_addr x) = Some sc ->
     burn_matches sc b x ->
     (forall y, y ∈ rows d -> gsw_mc_tx_out_public_key_hex y = bto_public_key_hex b -> y = x) ->
     burn_audited_with d b x).
Proof.
  intros Hds Hh Hw Hs d. destruct (quiet_steps_good _ _ _ Hds Hh Hw Hs) as (_ & Hi & Hset). split.
  - intros m x sc. by apply audited_mint_partner.
  - intros b x sc. by apply audited_burn_partner.
Qed.
End complete.

Lemma final_world_quiet : rtc (quiet_step test_config) initial_world final_world.
Proof.
  assert (forall n w, quiet_step test_config w (sync_once n w)) as Hsync.
  { intros n w. apply (quiet_sync _ _ None). }
  assert (forall tx w, quiet_step test_config w (follow_once tx w)) as Hfollow.
  { intros tx w. apply quiet_follow. by left. }
  unfold final_world.
  eapply rtc_l; [apply (Hsync 0%nat)|]. eapply rtc_l; [apply (Hsync 1%nat)|].
  eapply rtc_l; [apply (Hfollow deposit_tx)|]. eapply rtc_l; [apply (Hsync 2%nat)|].
  eapply rtc_l; [apply (Hsync 3%nat)|]. eapply rtc_l; [apply (Hfollow withdrawal_tx)|].
  apply rtc_refl.
Qed.

Lemma test_distinct : distinct_safes test_config.
Proof. by intros sc sc' ->%list_elem_of_singleton ->%list_elem_of_singleton _. Qed.

(** A stored pair of the final world that matches. *)
Lemma final_pair : exists m x, m ∈ rows (w_db final_world) /\ x ∈ rows (w_db final_world) /\
  mint_matches test_safe m x.
Proof.
  destruct (quiet_steps_good test_config initial_world final_world test_distinct eq_refl eq_refl
    final_world_quiet) as (_ & Hi & _).
  assert (length (rows (R := AuditedMint) (w_db final_world)) = 1%nat) as Hl
    by (vm_compute; reflexivity).
  pose proof (ai_mints _ _ Hi) as Hs. unfold mint_audits_sound in Hs.
  destruct (rows (R := AuditedMint) (w_db final_world)) as [|a l]; [discriminate Hl|].
  destruct (Hs a) as (m & x & sc & Hm & Hx & Hsc & _ & _ & Hmatch); [by left|].
  apply list_elem_of_singleton in Hsc as ->. eauto.
Qed.

Lemma audits_complete_witness : exists m x,
  m ∈ rows (w_db final_world) /\ x ∈ rows (w_db final_world) /\ mint_matches test_safe m x /\
  mint_audited_with (w_db final_world) m x.
Proof.
  destruct final_pair as (m & x & Hm & Hx & Hmatch). exists m, x.
  split; [exact Hm|]. split; [exact Hx|]. split; [exact Hmatch|].
  refine (proj1 (audits_complete test_config initial_world final_world test_distinct eq_refl eq_refl
    final_world_quiet) m x test_safe Hm Hx _ Hmatch).
  apply (safe_found test_config test_distinct); [left|exact (proj1 Hmatch)].
Defined.
