(* ===== verification/Recovery.v ===== *)
(** * Recovery: a process that fails is started again

    An error of SQLite or of the ledger ends [cmd_scan_ledger] ([expect]), and
    whatever supervises the process starts it again.  A launch is struck by one of the
    pending faults or does what it does without any, so finitely many faults delay the
    audit by as many launches at most. *)

From S2P Require Import Prelude Externals Concrete GnosisTypes Errors Schema Database.
From S2P Require Import CountersModel Blocks Mints Burns GnosisConfig GnosisRows AuditedMints.
From S2P Require Import AuditedBurns SyncBlock LedgerSpec LedgerSync MintVerdicts SafeSync.
From S2P Require Import AuditInvariant Main Faults Handlers SyncLoop SafeSyncSpec Scenario System.

Section recovery.
Context {X_chrono : Chrono} {X_sqlite : Sqlite} {L_sqlite : SqliteLaws}.
Context {X_hex : Hex} {L_hex : HexLaws} {X_mc : MobileCoin} {L_mc : MobileCoinLaws} {X_url : UrlLib}.
Context {X_hash : HashOrder} {L_hash : HashOrderLaws} {X_ledger : LedgerDB}.
Context (config : GnosisSafeConfig) (oconfig : option GnosisSafeConfig) (watcher : option WatcherDB).
Context (poll_ms : Z) (fuel : nat) (blocks : list BlockContents).
Implicit Types (w : World) (rounds : list nat) (runs : list (list nat)).

(** One launch of the process, and a series of them. *)
Definition launch w rounds : option World :=
  snd <$> Main.cmd_scan_ledger fuel (mret tt) oconfig watcher poll_ms rounds w.
Fixpoint launches w runs : option World :=
  match runs with
  | [] => Some w
  | rounds :: runs' => w' ← launch w rounds; launches w' runs'
  end.

(** The faults that are still to strike. *)
Definition strikes (l : list (option Fault)) : nat := length (List.filter (fun f => bool_decide (is_Some f)) l).
Definition pending w : nat := strikes (w_faults w).

Lemma strikes_app l l' : strikes (l ++ l') = (strikes l + strikes l')%nat.
Proof. unfold strikes. by rewrite filter_app', length_app. Qed.
Lemma strikes_none l : strikes l = 0%nat -> all_pass l.
Proof.
  unfold strikes, all_pass. induction l as [|[f|] l IH]; simpl; [done|done|]. constructor; [done|auto].
Qed.

(** What one run leaves of the faults, and what it does when it is not struck. *)
Definition run_spends {E A} (run : World -> option (Res E A * World)) w : Prop :=
  match run w with
  | Some (r, w') => exists l, w_faults w = l ++ w_faults w' /\
      (all_pass l -> run (calm w) = Some (r, calm w'))
  | None => True
  end.

Lemma sync_loop_spends fl n w : run_spends (Main.sync_loop fl n oconfig watcher) w.
Proof.
  unfold run_spends. revert n w. induction fl as [|fl IH]; intros n w; simpl; [done|].
  destruct (spends_sync_iteration oconfig watcher n w) as (l & El & Hl).
  destruct (Main.sync_iteration oconfig watcher n w) as [[[]|e|p] w1]; simpl in *.
  - specialize (IH (S n) w1). destruct (Main.sync_loop fl (S n) oconfig watcher w1) as [[r w2]|]; [|done].
    destruct IH as (l' & El' & Hl'). exists (l ++ l').
    split; [by rewrite <- app_assoc, <- El'|]. intros [H1 H2]%Forall_app. by rewrite (Hl H1), (Hl' H2).
  - exists l. split; [done|]. intros H. by rewrite (Hl H).
  - exists l. split; [done|]. intros H. by rewrite (Hl H).
  - exists l. split; [done|]. intros H. by rewrite (Hl H).
Qed.

Lemma scan_rounds_spends rounds w :
  run_spends (Main.scan_rounds fuel oconfig watcher poll_ms rounds) w.
Proof.
  unfold run_spends. revert w. induction rounds as [|n rounds IH]; intros w; simpl; [by exists []|].
  pose proof (sync_loop_spends fuel n w) as H. unfold run_spends in H.
  destruct (Main.sync_loop fuel n oconfig watcher w) as [[[[]|e|p] w1]|]; [..|done].
  - destruct H as (l & El & Hl). specialize (IH (add_sleep poll_ms w1)).
    destruct (Main.scan_rounds _ _ _ _ rounds (add_sleep poll_ms w1)) as [[r w2]|]; [|done].
    destruct IH as (l' & El' & Hl'). simpl in El'. exists (l ++ l').
    split; [by rewrite <- app_assoc, <- El'|]. intros [H1 H2]%Forall_app. rewrite (Hl H1). exact (Hl' H2).
  - destruct H as (l & El & Hl). exists l. split; [done|]. intros H. by rewrite (Hl H).
  - destruct H as (l & El & Hl). exists l. split; [done|]. intros H. by rewrite (Hl H).
Qed.

Lemma launch_spends rounds w w' :
  launch w rounds = Some w' -> exists l, w_faults w = l ++ w_faults w' /\
    (all_pass l -> launch (calm w) rounds = Some (calm w')).
Proof.
  unfold launch, Main.cmd_scan_ledger. intros E.
  destruct (spends_expect (F := Error) "Could not open reserve auditor DB" _ spends_restart w) as (l & El & Hl).
  revert E El Hl. generalize (expect (F := Error) "Could not open reserve auditor DB"
    (ReserveAuditorDb.new_from_path (mret tt))) as open. intros open E El Hl.
  destruct (open w) as [[u|e|p] w1]; simpl in *.
  - pose proof (scan_rounds_spends rounds w1) as H. unfold run_spends in H.
    destruct (Main.scan_rounds _ _ _ _ rounds w1) as [[r w2]|]; [|done]. injection E as <-.
    destruct H as (l' & El' & Hl'). exists (l ++ l').
    split; [by rewrite <- app_assoc, <- El'|]. intros [H1 H2]%Forall_app. by rewrite (Hl H1), (Hl' H2).
  - injection E as <-. exists l. split; [done|]. intros H. by rewrite (Hl H).
  - injection E as <-. exists l. split; [done|]. intros H. by rewrite (Hl H).
Qed.

Context (Hoc : oconfig = None \/ oconfig = Some config) (Hserve : serves blocks)
  (Hlen : Z.of_nat (length blocks) < two63) (Hfuel : (length blocks < fuel)%nat).

Lemma at_block_db k w w' : w_db w' = w_db w -> at_block config blocks k w -> at_block config blocks k w'.
Proof. unfold at_block. by intros ->. Qed.

Lemma scan_rounds_ends rounds k w :
  at_block config blocks k w ->
  exists r w' k', Main.scan_rounds fuel oconfig watcher poll_ms rounds w = Some (r, w') /\
    (k <= k')%nat /\ at_block config blocks k' w'.
Proof.
  revert k w. induction rounds as [|n rounds IH]; intros k w Hat; simpl.
  { by exists (Ok tt), w, k. }
  destruct (sync_loop_ends config oconfig watcher blocks fuel k n w) as (r & w1 & k1 & E & Hk & Hat1 & _);
    [done..|lia|]. rewrite E.
  destruct r as [[]|e|p]; [|by exists (Panic "sync_loop failed"), w1, k1|by exists (Panic p), w1, k1].
  destruct (IH k1 (add_sleep poll_ms w1)) as (r & w2 & k2 & E2 & Hk2 & Hat2).
  { by eapply at_block_db, Hat1. }
  exists r, w2, k2. split_and!; [done|lia|done].
Qed.

(** Opening the database. *)
Definition opened w : World := (ReserveAuditorDb.new_from_path (mret tt) w).2.

Lemma launch_ends rounds k w :
  at_block config blocks k w -> exists w' k', launch w rounds = Some w' /\ (k <= k')%nat /\
    at_block config blocks k' w'.
Proof.
  intros Hat. pose proof (at_block_db k w (opened w)) as Hop.
  assert (at_block config blocks k (opened w)) as Hat'.
  { apply Hop; [|done]. apply restart_db. destruct Hat as (_ & Hi & _). apply (ai_ready _ _ Hi). }
  clear Hop. unfold launch, Main.cmd_scan_ledger, expect. unfold opened in *.
  destruct (ReserveAuditorDb.new_from_path (mret tt) w) as [[[]|e|p] w1]; simpl in *.
  - destruct (scan_rounds_ends rounds k w1 Hat') as (r & w2 & k2 & -> & ?). by exists w2, k2.
  - exists w1, k. by split_and!.
  - exists w1, k. by split_and!.
Qed.

(** ** Without faults *)
Context (Hall : serves_all blocks) (Hvalid : valid_ledger blocks).

Abbreviation caught_up := (at_block config blocks (length blocks)).

Lemma wp_open_healthy w :
  healthy w -> counters_ok (w_db w) ->
  wp (ReserveAuditorDb.new_from_path (mret tt))
    (fun r w' => r = Ok tt /\ healthy w' /\ w_db w' = w_db w) w.
Proof.
  intros Hh Hc. apply wp_seq, wp_get_conn; [done|]. intros w1 Hl1. pose proof (leads_db _ _ _ Hl1) as Hd1.
  apply wp_seq, wp_ret, wp_ensure_exists; [left; by rewrite Hd1|by intros e w' Hs; apply leads_sick in Hl1|].
  intros d w' Hl He _ _. split; [done|]. split; [by apply Hl, Hl1|].
  rewrite (leads_db _ _ _ Hl), He, Hd1; [done|by rewrite Hd1].
Qed.

Lemma scan_rounds_healthy rounds k w :
  rounds <> [] -> healthy w -> at_block config blocks k w ->
  exists w', Main.scan_rounds fuel oconfig watcher poll_ms rounds w = Some (Ok tt, w') /\ caught_up w'.
Proof.
  revert k w. induction rounds as [|n rounds IH]; intros k w Hne Hh Hat; [done|]. simpl.
  destruct (sync_loop_healthy config oconfig watcher blocks fuel k n w) as (w1 & -> & Hh1 & Hi1 & Hm1);
    [done..|lia|].
  assert (at_block config blocks (length blocks) (add_sleep poll_ms w1)) as Hat1.
  { split; [done|]. split; [exact Hi1|]. by rewrite firstn_all2 by lia. }
  destruct rounds as [|n' rounds]; [by exists (add_sleep poll_ms w1)|].
  by apply (IH (length blocks)).
Qed.

Lemma launch_healthy rounds k w :
  rounds <> [] -> healthy w -> at_block config blocks k w ->
  exists w', launch w rounds = Some w' /\ caught_up w'.
Proof.
  intros Hne Hh Hat. pose proof Hat as (_ & Hi & _).
  pose proof (wp_open_healthy w Hh (proj2 (proj2 (ai_ready _ _ Hi)))) as Hop.
  unfold launch, Main.cmd_scan_ledger, expect, wp in *.
  destruct (ReserveAuditorDb.new_from_path (mret tt) w) as [r w1]. simpl in Hop.
  destruct Hop as (-> & Hh1 & Hd1).
  destruct (scan_rounds_healthy rounds k w1) as (w2 & -> & Hc); [done|done|by eapply at_block_db|].
  by exists w2.
Qed.

(** A launch that is not struck catches up; one that is leaves fewer faults. *)
Lemma launch_step rounds k w :
  rounds <> [] -> at_block config blocks k w ->
  exists w' k', launch w rounds = Some w' /\ (k <= k')%nat /\ at_block config blocks k' w' /\
    (k' = length blocks \/ (pending w' < pending w)%nat).
Proof.
  intros Hne Hat. destruct (launch_ends rounds k w Hat) as (w1 & k1 & E & Hk & Hat1).
  destruct (launch_spends rounds w w1 E) as (l & El & Hl).
  destruct (decide (strikes l = 0%nat)) as [Hs%strikes_none|Hs].
  - destruct (launch_healthy rounds k (calm w)) as (w2 & E2 & Hc); [done|done|by eapply at_block_db, Hat|].
    rewrite (Hl Hs) in E2. injection E2 as <-. exists w1, (length blocks).
    split; [done|]. split; [apply Hat|]. split; [by eapply at_block_db, Hc|by left].
  - exists w1, k1. split_and!; [done..|]. right. unfold pending. rewrite El, strikes_app. lia.
Qed.

Lemma launches_catch_up runs k w :
  Forall (fun rounds => rounds <> []) runs -> at_block config blocks k w ->
  k = length blocks \/ (pending w < length runs)%nat ->
  exists w', launches w runs = Some w' /\ caught_up w'.
Proof.
  revert k w. induction runs as [|rounds runs IH]; intros k w Hne Hat Hor; simpl in *.
  { destruct Hor as [->|]; [by exists w|lia]. }
  apply Forall_cons in Hne as [Hne1 Hne].
  destruct (launch_step rounds k w Hne1 Hat) as (w1 & k1 & -> & Hk & Hat1 & Hor1). simpl.
  apply (IH k1); [done..|]. destruct Hat1 as [Hk1 _]. destruct Hor as [->|], Hor1; lia.
Qed.
End recovery.

Section eventually.
Context {X_chrono : Chrono} {X_sqlite : Sqlite} {L_sqlite : SqliteLaws}.
Context {X_hex : Hex} {L_hex : HexLaws} {X_mc : MobileCoin} {L_mc : MobileCoinLaws} {X_url : UrlLib}.
Context {X_hash : HashOrder} {L_hash : HashOrderLaws} {X_ledger : LedgerDB}.

(** C5: Failures only delay the audit.  Let the process be launched again whenever it
    ends, without safes or with those of one configuration, with faults of SQLite pending
    at any points, and let the ledger be valid and all of it readable: as soon as there
    have been more launches than faults, each long enough for one round, the database is
    the record of the whole ledger, the tables keep their invariant, and no launch was cut
    off by the bound on its iterations.  Statements that pass between the faults count for
    nothing. *)
Theorem scan_eventually_complete config oconfig watcher poll_ms fuel blocks runs k w :
  oconfig = None \/ oconfig = Some config -> serves_all blocks -> valid_ledger blocks ->
  (length blocks < fuel)%nat -> at_block config blocks k w ->
  Forall (fun rounds => rounds <> []) runs -> (pending w < length runs)%nat ->
  exists w', launches oconfig watcher poll_ms fuel w runs = Some w' /\
    mirrors blocks (w_db w') /\ audit_inv config (w_db w').
Proof.
  intros Hoc Hall Hv Hf Hat Hne Hlt.
  destruct (launches_catch_up config oconfig watcher poll_ms fuel blocks Hoc (proj1 Hall)
    (vl_length _ Hv) Hf Hall Hv runs k w) as (w' & E & _ & Hi & Hm); [done..|by right|].
  exists w'. rewrite firstn_all2 in Hm by lia. done.
Qed.
End eventually.

(** The fourth statement of the first launch fails; the second launch does it. *)
Lemma scan_eventually_complete_witness : exists w',
  launches (Some test_config) None 1000 5
    (set_faults [None; None; None; Some (OtherFault "disk I/O error")] initial_world)
    [[0%nat]; [7%nat; 9%nat]] = Some w' /\
  mirrors test_ledger (w_db w') /\ audit_inv test_config (w_db w').
Proof.
  apply (scan_eventually_complete test_config (Some test_config) None 1000 5 test_ledger
    [[0%nat]; [7%nat; 9%nat]] 0);
    [right; reflexivity|apply test_serves|apply test_valid_ledger|simpl; lia|apply initial_at_block|
     repeat constructor; discriminate|vm_compute; lia].
Defined.
