(* ===== verification/LedgerProps.v ===== *)
(** * Properties of the synchronization of blocks *)

From S2P Require Import Prelude Externals Concrete GnosisTypes Errors Schema Database.
From S2P Require Import CountersModel Blocks Mints Burns GnosisConfig GnosisRows AuditedMints.
From S2P Require Import AuditedBurns SyncBlock LedgerSpec LedgerSync MintVerdicts SafeSync.
From S2P Require Import AuditInvariant Main Handlers SyncLoop Scenario System.

Section ledger.
Context {X_chrono : Chrono} {X_sqlite : Sqlite} {L_sqlite : SqliteLaws}.
Context {X_hex : Hex} {X_mc : MobileCoin} {L_mc : MobileCoinLaws}.
Context {X_hash : HashOrder} {L_hash : HashOrderLaws}.
Implicit Types (w : World) (d : Db) (blocks : list BlockContents).

(** C10: [sync_block] refines the reference model, all or nothing: from the record of
    a list of blocks, success means that the block was the next one and leaves the
    record of that list with the block appended, returning the balances the
    reference model computes; failure leaves the database as it was; and it never
    panics.  Faults of SQLite are included. *)
Theorem sync_block_refines blocks idx c ts w :
  sync_ready (w_db w) -> typed_balances (w_db w) -> mirrors blocks (w_db w) ->
  Z.of_nat (length blocks) < two63 ->
  match ReserveAuditorDb.sync_block idx c ts w with
  | (Ok data, w') =>
      idx = Z.of_nat (length blocks) /\ mirrors (blocks ++ [c]) (w_db w') /\
      sbd_balance_map data = ledger_balances (blocks ++ [c])
  | (Err e, w') => w_db w' = w_db w
  | (Panic p, w') => False
  end.
Proof.
  intros Hr Ht Hm Hl.
  assert (wp (ReserveAuditorDb.sync_block idx c ts) (fun r w' => match r with
    | Ok data => idx = Z.of_nat (length blocks) /\ mirrors (blocks ++ [c]) (w_db w') /\
                 sbd_balance_map data = ledger_balances (blocks ++ [c])
    | Err e => w_db w' = w_db w
    | Panic p => False end) w) as H.
  { apply wp_sync_block; [done..|by intros e w' _ E|]. intros data d' w' Hs [-> _].
    by eapply synced_mirrors. }
  unfold wp in H. by destruct (ReserveAuditorDb.sync_block idx c ts w) as [[] ?].
Qed.

(** A valid block is never refused: without faults, the next block of a valid
    ledger is stored. *)
Theorem sync_block_succeeds blocks i c ts w :
  sync_ready (w_db w) -> typed_balances (w_db w) -> mirrors (take i blocks) (w_db w) ->
  valid_ledger blocks -> blocks !! i = Some c -> healthy w ->
  exists data w', ReserveAuditorDb.sync_block (Z.of_nat i) c ts w = (Ok data, w') /\ healthy w'.
Proof.
  intros Hr Ht Hm Hv Hi Hh.
  assert (wp (ReserveAuditorDb.sync_block (Z.of_nat i) c ts)
            (fun r w' => exists data, r = Ok data /\ healthy w') w) as (data & E & Hh').
  { apply wp_sync_block; [done..| |].
    - intros e w' [Hs|Hs] _; exfalso; [done|]. by apply Hs, valid_storable with blocks.
    - intros data d' w' _ [_ Hl]. exists data. auto. }
  destruct (ReserveAuditorDb.sync_block (Z.of_nat i) c ts w) as [r w'].
  simpl in *. subst r. by exists data, w'.
Qed.

(** A block with any index but the next one is refused with
    [UnexpectedBlockIndex], naming both indices, and nothing changes. *)
Theorem sync_block_wrong_index idx c ts w :
  counters_ok (w_db w) -> healthy w ->
  let expected := as_u64 (counter_value num_blocks_synced (w_db w)) in
  idx <> expected ->
  (ReserveAuditorDb.sync_block idx c ts w).1 = Err (UnexpectedBlockIndex idx expected) /\
  w_db (ReserveAuditorDb.sync_block idx c ts w).2 = w_db w.
Proof.
  intros [cs Hc] Hh expected Hne.
  change (wp (ReserveAuditorDb.sync_block idx c ts) (fun r w' =>
    r = Err (UnexpectedBlockIndex idx expected) /\ w_db w' = w_db w) w).
  apply wp_seq, wp_get_conn; [done|]. intros w1 Hl1. pose proof (leads_db _ _ _ Hl1) as Hd1.
  apply wp_transaction; [apply raises_sync_body|intros f w' Hs _; by apply leads_sick in Hl1|].
  intros w2 Hl2. pose proof (leads_trans _ _ _ _ _ Hl1 Hl2) as Hl.
  pose proof (leads_db _ _ _ Hl2) as Hd2. rewrite Hd1 in Hd2.
  apply wp_seq, (wp_query _ _ _ _ query_get); [intros f w' Hs _; by apply leads_sick in Hl|].
  rewrite Hd2. intros r w3 Hl3 (c' & -> & Hcc). rewrite (Hcc cs Hc), (get_counter _ _ Hc).
  fold expected. assert ((idx =? expected) = false) as E by by apply Z.eqb_neq.
  cbv zeta. rewrite E. apply wp_throw. split; [done|]. by rewrite Hd1.
Qed.

(** C11: Every mint is judged by the configurations of the blocks before its own: a
    stored mint names a configuration exactly if an active one (the most recent
    configuration transaction of the token, its signers, its own limit and the
    shared limit) allows it, that configuration is one of them, and the counter of
    unmatched mints grows by the number of the others. *)
Theorem mint_verdicts idx c ts w :
  sync_ready (w_db w) -> typed_balances (w_db w) ->
  match ReserveAuditorDb.sync_block idx c ts w with
  | (Ok data, w') =>
      Forall2 (fun tx m => match mt_mint_config_id m with
        | Some i => exists config, active_config (w_db w) idx tx config /\ mc_id config = Some i
        | None => forall config, ~ active_config (w_db w) idx tx config
        end) (bc_mint_txs c) (sbd_mint_txs data) /\
      counter_value num_mint_txs_without_matching_mint_config (w_db w')
      = counter_value num_mint_txs_without_matching_mint_config (w_db w)
        + Z.of_nat (length (List.filter flagged (sbd_mint_txs data)))
  | _ => True
  end.
Proof.
  intros Hr Ht.
  assert (wp (ReserveAuditorDb.sync_block idx c ts) (fun r w' => match r with
    | Ok data => Forall2 (fun tx m => exists o, lookup_spec (w_db w) idx tx o /\
             mt_mint_config_id m = (o ≫= MintConfig.id) /\ flagged m = bool_decide (o = None))
             (bc_mint_txs c) (sbd_mint_txs data) /\
        counter_value num_mint_txs_without_matching_mint_config (w_db w')
        = counter_value num_mint_txs_without_matching_mint_config (w_db w)
          + Z.of_nat (length (List.filter flagged (sbd_mint_txs data)))
    | _ => True end) w) as H.
  { apply wp_sync_block; [done..|]. intros data d' w' Hs [-> _].
    destruct Hs as [d1 d2 d3 d5 d'' ms bs ids E Hs1 Hs2 bal burns Hs3 bal' E5 Hi]. simpl.
    pose proof (config_steps_frame _ _ _ _ _ Hs1) as [F1 R1].
    pose proof (mint_steps_ready _ _ _ _ _ _ Hs2 (R1 Hr)) as Hr2.
    pose proof (burn_steps_ready _ _ _ _ _ Hs3 Hr2) as (_ & _ & K3).
    split; [eapply mint_steps_verdicts; [by eapply config_steps_within|apply Hr|by apply R1|done]|].
    transitivity (counter_value num_mint_txs_without_matching_mint_config
      (bump_db num_blocks_synced d3)).
    { apply inserts_db in Hi as [_ ->]. by subst d5. }
    rewrite counter_value_bump, (burn_steps_counter _ _ _ _ _ _ Hs3 Hr2),
      (mint_steps_flagged _ _ _ _ _ _ _ Hs2 (R1 Hr)) by done. simpl.
    rewrite F1. unfold counter_value. simpl. lia. }
  unfold wp in H. destruct (ReserveAuditorDb.sync_block idx c ts w) as [[data| |] w']; [|done..].
  destruct H as [H1 H2]. split; [|done]. eapply Forall2_impl; [exact H1|]. simpl.
  intros tx m (o & Hl & -> & _). destruct o as [config|]; simpl; [|done].
  destruct Hl as (t & Hl). pose proof (proj1 (proj2 (proj2 Hl))) as Hin.
  destruct Hr as (Hd & _). pose proof (stored_has_id _ _ (ok_mint_configs _ Hd) Hin) as (i & Ei & _).
  simpl in Ei. unfold MintConfig.id. rewrite Ei. exists config. split; [by exists t|done].
Qed.

(** C23: No block rewrites history: after a successful [sync_block] the balances of
    every earlier block, and the stored mints, burns and configuration
    transactions, are unchanged. *)
Theorem history_preserved blocks idx c ts w :
  sync_ready (w_db w) -> typed_balances (w_db w) -> mirrors blocks (w_db w) ->
  Z.of_nat (length blocks) < two63 ->
  match ReserveAuditorDb.sync_block idx c ts w with
  | (Ok data, w') =>
      grows (w_db w) (w_db w') /\
      (forall i, (i < length blocks)%nat ->
         balances_at (w_db w') (Z.of_nat i) = balances_at (w_db w) (Z.of_nat i)) /\
      rows (R := MintTx) (w_db w') = rows (w_db w) ++ sbd_mint_txs data /\
      rows (R := BurnTxOut) (w_db w') = rows (w_db w) ++ sbd_burn_tx_outs data
  | _ => True
  end.
Proof.
  intros Hr Ht Hm Hl.
  assert (wp (ReserveAuditorDb.sync_block idx c ts) (fun r w' => match r with
    | Ok data => synced idx c ts (w_db w) data (w_db w') | _ => True end) w) as H.
  { apply wp_sync_block; [done..|]. by intros data d' w' Hs [-> _]. }
  unfold wp in H. destruct (ReserveAuditorDb.sync_block idx c ts w) as [[data| |] w']; [|done..].
  simpl in H. pose proof (synced_sync_ready _ _ _ _ _ _ H Hr Ht) as ([Hg _] & _).
  pose proof (synced_mirrors _ _ _ _ _ _ _ H Hm Hr Hl) as (_ & Hm' & _).
  pose proof (synced_frame _ _ _ _ _ _ H) as (Rm & Rb & _).
  split_and!; [done| |done|done]. intros i Hi.
  rewrite (mir_balances _ _ Hm' i), (mir_balances _ _ Hm i) by (rewrite ?length_app; lia).
  by rewrite take_app_le by lia.
Qed.

(** The first start creates the one row of counters, all zero, and every later
    start leaves the database as it is. *)
Theorem new_from_path_idempotent w :
  healthy w -> (w_db w = empty_db -> w_db (ReserveAuditorDb.new_from_path (mret tt) w).2 = initial_db) /\
  (counters_ok (w_db w) -> w_db (ReserveAuditorDb.new_from_path (mret tt) w).2 = w_db w) /\
  (counters_ok (w_db w) \/ counters (w_db w) = [] ->
     (ReserveAuditorDb.new_from_path (mret tt) w).1 = Ok tt).
Proof.
  intros Hh.
  assert (counters_ok (w_db w) \/ counters (w_db w) = [] ->
    wp (ReserveAuditorDb.new_from_path (mret tt)) (fun r w' => r = Ok tt /\
      (counters_ok (w_db w) -> w_db w' = w_db w) /\
      (counters (w_db w) = [] -> w_db w' = table_set [(0, Counters_default)] (w_db w))) w) as H.
  { intros Hc. apply wp_seq, wp_get_conn; [done|].
    intros w1 Hl1. pose proof (leads_db _ _ _ Hl1) as Hd1. apply wp_seq, wp_ret, wp_ensure_exists.
    - by rewrite Hd1.
    - intros e w' Hs. by apply leads_sick in Hl1.
    - rewrite Hd1. by intros d w' [-> _] H1 _ H2. }
  split_and!.
  - intros E. destruct H as (_ & _ & H); [right; by rewrite E|]. rewrite H; by rewrite E.
  - intros Hc. destruct H as (_ & H & _); [by left|]. by apply H.
  - intros Hc. by destruct (H Hc).
Qed.
End ledger.

(** ** The books *)
Section books.
Context {X_chrono : Chrono} {X_sqlite : Sqlite} {L_sqlite : SqliteLaws}.
Context {X_hex : Hex} {L_hex : HexLaws} {X_mc : MobileCoin} {L_mc : MobileCoinLaws} {X_url : UrlLib}.
Context {X_hash : HashOrder} {L_hash : HashOrderLaws} {X_json : SerdeJson} {X_ledger : LedgerDB}.
Implicit Types (w : World) (config : GnosisSafeConfig) (blocks : list BlockContents).

(** C20: The books balance, at every moment of every run of the whole auditor: while
    no burn has been flagged as exceeding its balance and a token's mints add up to
    less than 2^64, the balance stored for the last synchronized block is the total
    minted less the total burned up to it. *)
Theorem balances_conserved config blocks w w' token :
  serves blocks -> Z.of_nat (length blocks) < two63 -> w_db w = initial_db ->
  rtc (system_step config) w w' ->
  counter_value num_burns_exceeding_balance (w_db w') = 0 ->
  ledger_total_minted token blocks < two64 ->
  let k := Z.to_nat (counter_value num_blocks_synced (w_db w')) in
  (0 < k)%nat ->
  balance_of (balances_at (w_db w') (Z.of_nat (k - 1))) token
  = ledger_total_minted token (take k blocks) - ledger_total_burned token (take k blocks).
Proof.
  intros Hserve Hl Hw Hs Hc Ht k Hk.
  assert (at_block config blocks 0 w) as Hat.
  { split; [lia|]. rewrite Hw. split; [apply initial_inv|apply initial_mirrors]. }
  destruct (system_steps_at_block _ _ _ _ _ Hserve Hl Hat Hs) as (j & _ & Hj & _ & Hm).
  assert (k = j) as ->.
  { unfold k. rewrite (mir_count _ _ Hm), length_take. lia. }
  rewrite (mir_balances _ _ Hm) by (rewrite length_take; lia).
  rewrite firstn_all2 by (rewrite length_take; lia).
  rewrite (mir_excess _ _ Hm) in Hc. unfold ledger_balances, ledger_total_minted, ledger_total_burned in *.
  rewrite ledger_balance_total; [done|done|done| |done].
  eapply Z.le_lt_trans, Ht. apply total_take.
Qed.
End books.

(** Block 2 on the record of blocks 0 and 1. *)
Lemma sync_block_refines_witness :
  exists data w', ReserveAuditorDb.sync_block 2 block_2 None (world_after 2) = (Ok data, w') /\
    mirrors (take 2 test_ledger ++ [block_2]) (w_db w') /\
    sbd_balance_map data = ledger_balances (take 2 test_ledger ++ [block_2]).
Proof.
  pose proof (sync_block_refines (take 2 test_ledger) 2 block_2 None (world_after 2)) as H.
  destruct (ReserveAuditorDb.sync_block 2 block_2 None (world_after 2)) as [r w'] eqn:E.
  assert (is_ok (fst (r, w')) = true) as Hr by (rewrite <- E; vm_compute; reflexivity).
  destruct r as [data|e|p]; [|discriminate Hr|discriminate Hr].
  destruct H as (_ & H1 & H2);
    [apply world_after_ready; lia|apply world_after_typed; lia|apply world_after_mirrors; lia|
     reflexivity|].
  exists data, w'. split; [reflexivity|]. split; [exact H1|exact H2].
Defined.

Lemma sync_block_succeeds_witness :
  exists data w', ReserveAuditorDb.sync_block 2 block_2 None (world_after 2) = (Ok data, w') /\
    healthy w'.
Proof.
  apply (sync_block_succeeds test_ledger 2 block_2 None (world_after 2));
    [apply world_after_ready; lia|apply world_after_typed; lia|apply world_after_mirrors; lia|
     apply test_valid_ledger|reflexivity|apply world_after_healthy; lia].
Defined.

Lemma sync_block_wrong_index_witness :
  (ReserveAuditorDb.sync_block 5 block_2 None (world_after 2)).1 = Err (UnexpectedBlockIndex 5 2) /\
  w_db (ReserveAuditorDb.sync_block 5 block_2 None (world_after 2)).2 = w_db (world_after 2).
Proof.
  apply (sync_block_wrong_index 5 block_2 None (world_after 2));
    [apply world_after_ready; lia|apply world_after_healthy; lia|vm_compute; discriminate].
Defined.

(** Block 3: its mint exceeds the limits. *)
Lemma mint_verdicts_witness :
  exists data w', ReserveAuditorDb.sync_block 3 block_3 None (world_after 3) = (Ok data, w') /\
    counter_value num_mint_txs_without_matching_mint_config (w_db w')
    = 0 + Z.of_nat (length (List.filter flagged (sbd_mint_txs data))) /\
    length (List.filter flagged (sbd_mint_txs data)) = 1%nat.
Proof.
  pose proof (mint_verdicts 3 block_3 None (world_after 3)) as H.
  destruct (ReserveAuditorDb.sync_block 3 block_3 None (world_after 3)) as [r w'] eqn:E.
  assert (match fst (r, w') with
          | Ok data => length (List.filter flagged (sbd_mint_txs data)) = 1%nat
          | _ => False end) as Hr by (rewrite <- E; vm_compute; reflexivity).
  destruct r as [data|e|p]; [|destruct Hr|destruct Hr].
  destruct H as (_ & H); [apply world_after_ready; lia|apply world_after_typed; lia|].
  exists data, w'. split; [reflexivity|]. split; [exact H|exact Hr].
Defined.

(** 50 minted, 20 burned. *)
Lemma balances_conserved_witness :
  balance_of (balances_at (w_db (world_after 3)) 2) 1
  = ledger_total_minted 1 (take 3 test_ledger) - ledger_total_burned 1 (take 3 test_ledger).
Proof.
  apply (balances_conserved test_config test_ledger initial_world (world_after 3) 1);
    [apply test_serves|reflexivity|reflexivity|apply world_after_reachable|
     vm_compute; reflexivity|vm_compute; reflexivity|vm_compute; lia].
Defined.

Lemma history_preserved_witness :
  exists data w', ReserveAuditorDb.sync_block 3 block_3 None (world_after 3) = (Ok data, w') /\
    balances_at (w_db w') 2 = balances_at (w_db (world_after 3)) 2.
Proof.
  pose proof (history_preserved (take 3 test_ledger) 3 block_3 None (world_after 3)) as H.
  destruct (ReserveAuditorDb.sync_block 3 block_3 None (world_after 3)) as [r w'] eqn:E.
  assert (is_ok (fst (r, w')) = true) as Hr by (rewrite <- E; vm_compute; reflexivity).
  destruct r as [data|e|p]; [|discriminate Hr|discriminate Hr].
  destruct H as (_ & H & _);
    [apply world_after_ready; lia|apply world_after_typed; lia|apply world_after_mirrors; lia|
     reflexivity|].
  exists data, w'. split; [reflexivity|]. apply (H 2%nat). simpl. lia.
Defined.

Lemma new_from_path_idempotent_witness :
  w_db (ReserveAuditorDb.new_from_path (mret tt) (world_of empty_db)).2 = initial_db.
Proof. apply (new_from_path_idempotent (world_of empty_db)); reflexivity. Defined.
