(* ===== verification/MatchProps.v ===== *)
(** * Properties of the matching handlers

    What [try_match_*] returns and what it does to the database, on every branch;
    and that the two sides of a pair find each other whichever arrives last. *)

From S2P Require Import Prelude Externals Concrete GnosisTypes Errors Schema Database.
From S2P Require Import CountersModel Blocks Mints Burns GnosisConfig GnosisRows AuditedMints.
From S2P Require Import AuditedBurns SyncBlock AuditInvariant Main SyncLoop Scenario.

Section matching.
Context {X_chrono : Chrono} {X_sqlite : Sqlite} {L_sqlite : SqliteLaws}.
Context {X_hex : Hex} {L_hex : HexLaws} {X_mc : MobileCoin} {X_url : UrlLib}.
Implicit Types (w : World) (d : Db) (config : GnosisSafeConfig) (sc : AuditedSafeConfig).

(** The result of a matching handler on a healthy world, whose failures are counted
    by [class] and whose successes [record] an audit row. *)
Definition handled {A} (P : Res Error A -> Prop) (class : Error -> CounterVar)
    (record : A -> Db -> Prop) (d : Db) (x : Res Error A * World) : Prop :=
  P x.1 /\ healthy x.2 /\
  match x.1 with
  | Ok a => record a (w_db x.2)
  | Err e => w_db x.2 = bump_db (class e) d
  | Panic _ => False
  end.

Lemma handled_err {A} (P : Res Error A -> Prop) class record e w w' :
  healthy w -> P (Err e) -> leads w (bump_db (class e) (w_db w)) w' ->
  handled P class record (w_db w) (Err e, w').
Proof. intros Hh HP [Hd Hl]. split_and!; [done|by apply Hl|done]. Qed.

Lemma handled_ok {A} (P : Res Error A -> Prop) class (record : A -> Db -> Prop) a d' w w' :
  healthy w -> P (Ok a) -> leads w d' w' -> record a d' -> handled P class record (w_db w) (Ok a, w').
Proof. intros Hh HP [Hd Hl] Hr. split_and!; [done|by apply Hl|]. simpl. by rewrite Hd. Qed.

Lemma handled_of_wp {A} (m : App A) P class record d w :
  wp m (fun r w' => handled P class record d (r, w')) w -> handled P class record d (m w).
Proof. unfold wp. by destruct (m w). Qed.

(** The rows a success records. *)
Definition mint_recorded d (x : GnosisSafeDeposit) (m : MintTx) d' : Prop :=
  exists mid did, mt_id m = Some mid /\ gsd_id x = Some did /\ d' = record_audited_mint d mid did.
Definition burn_recorded d (x : GnosisSafeWithdrawal) (b : BurnTxOut) d' : Prop :=
  exists bid wid, bto_id b = Some bid /\ gsw_id x = Some wid /\ d' = record_audited_burn d bid wid.

Lemma handle_deposit sc x w :
  integrity (w_db w) -> counters_ok (w_db w) -> x ∈ rows (w_db w) -> healthy w ->
  handled (deposit_outcome (w_db w) sc x) deposit_counter (mint_recorded (w_db w) x)
    (w_db w) (AuditedMint.try_match_deposit_with_mint x sc w).
Proof.
  intros Hd Hc Hx Hh.
  apply handled_of_wp, wp_try_match_deposit; [done..|by intros|by intros; apply handled_err|].
  intros m mid did w' Ho _ Em Ex Hl. eapply handled_ok; [done..|]. by exists mid, did.
Qed.

Lemma handle_mint config m w :
  integrity (w_db w) -> nonces_derived (w_db w) -> counters_ok (w_db w) -> m ∈ rows (w_db w) ->
  healthy w ->
  handled (mint_outcome (w_db w) config m) mint_counter (fun x => mint_recorded (w_db w) x m)
    (w_db w) (AuditedMint.try_match_mint_with_deposit m config w).
Proof.
  intros Hd Hn Hc Hm Hh.
  apply handled_of_wp, wp_try_match_mint; [done..|by intros|by intros; apply handled_err|].
  intros x mid did w' Ho _ Em Ex Hl. eapply handled_ok; [done..|]. by exists mid, did.
Qed.

Lemma handle_withdrawal sc x w :
  integrity (w_db w) -> counters_ok (w_db w) -> x ∈ rows (w_db w) -> healthy w ->
  handled (withdrawal_outcome (w_db w) sc x) withdrawal_counter (burn_recorded (w_db w) x)
    (w_db w) (AuditedBurn.try_match_withdrawal_with_burn x sc w).
Proof.
  intros Hd Hc Hx Hh.
  apply handled_of_wp, wp_try_match_withdrawal; [done..|by intros|by intros; apply handled_err|].
  intros b bid wid w' Ho _ Eb Ex Hl. eapply handled_ok; [done..|]. by exists bid, wid.
Qed.

Lemma handle_burn config b w :
  integrity (w_db w) -> counters_ok (w_db w) -> b ∈ rows (w_db w) -> healthy w ->
  handled (burn_outcome (w_db w) config b) burn_counter (fun x => burn_recorded (w_db w) x b)
    (w_db w) (AuditedBurn.try_match_burn_with_withdrawal b config w).
Proof.
  intros Hd Hc Hb Hh.
  apply handled_of_wp, wp_try_match_burn; [done..|by intros|by intros; apply handled_err|].
  intros x bid wid w' Ho _ Eb Ex Hl. eapply handled_ok; [done..|]. by exists bid, wid.
Qed.

(** The tables of outcomes are functions of the conditions up to the text of a
    message, so a known success is the only outcome. *)
Lemma deposit_outcome_det d sc x m r :
  deposit_outcome d sc x (Ok m) -> deposit_outcome d sc x r -> r = Ok m.
Proof.
  unfold deposit_outcome. destruct (gsd_id x); [|done].
  destruct (negb _); [by intros [? [=]]|]. destruct (deposit_audited _ _); [by intros [? [=]]|].
  destruct (mint_for _ _); [|done].
  destruct (AuditedMint.verify_mint_tx_matches_deposit _ _ _); [|done..]. congruence.
Qed.

Lemma mint_outcome_det d config m x r :
  mint_outcome d config m (Ok x) -> mint_outcome d config m r -> r = Ok x.
Proof.
  unfold mint_outcome. destruct (mt_id m); [|done].
  destruct (mint_audited _ _); [by intros [? [=]]|]. destruct (deposit_for _ _); [|done].
  destruct (get_audited_safe_config_by_safe_addr _ _); [|done].
  destruct (AuditedMint.verify_mint_tx_matches_deposit _ _ _); [|done..]. congruence.
Qed.

Lemma withdrawal_outcome_det d sc x b r :
  withdrawal_outcome d sc x (Ok b) -> withdrawal_outcome d sc x r -> r = Ok b.
Proof.
  unfold withdrawal_outcome. destruct (gsw_id x); [|done].
  destruct (negb _); [by intros [? [=]]|]. destruct (withdrawal_audited _ _); [by intros [? [=]]|].
  destruct (burn_for _ _); [|done].
  destruct (AuditedBurn.verify_burn_tx_out_matches_withdrawal _ _ _); [|done..]. congruence.
Qed.

(** A handler whose only outcome is a success. *)
Lemma handled_success {A} (P : Res Error A -> Prop) class record d x a :
  handled P class record d x -> (forall r, P r -> r = Ok a) -> x.1 = Ok a /\ record a (w_db x.2).
Proof. intros (HP & _ & Hr) Hu. rewrite (Hu _ HP) in Hr. by rewrite (Hu _ HP). Qed.

(** C13: A stored deposit is matched as its table of conditions says (unsaved, other
    safe, already audited, no mint with the nonce, a mint that does not match, a
    mint that does); success adds exactly the audit row of the pair, failure only
    increments the counter of its class. *)
Theorem match_deposit_outcomes sc x w :
  integrity (w_db w) -> counters_ok (w_db w) -> x ∈ rows (w_db w) -> healthy w ->
  let (r, w') := AuditedMint.try_match_deposit_with_mint x sc w in
  deposit_outcome (w_db w) sc x r /\ healthy w' /\
  match r with
  | Ok m => mint_recorded (w_db w) x m (w_db w')
  | Err e => w_db w' = bump_db (deposit_counter e) (w_db w)
  | Panic _ => False
  end.
Proof.
  intros Hd Hc Hx Hh. pose proof (handle_deposit sc x w Hd Hc Hx Hh) as H.
  by destruct (AuditedMint.try_match_deposit_with_mint x sc w).
Qed.

(** C26: A stored mint is matched as its table of conditions says (already audited, no
    deposit that waits for its nonce, a safe that is not audited, a deposit that
    does not match, one that does); success adds exactly the audit row of the pair,
    failure only increments the counter of its class. *)
Theorem match_mint_outcomes config m w :
  integrity (w_db w) -> nonces_derived (w_db w) -> counters_ok (w_db w) -> m ∈ rows (w_db w) ->
  healthy w ->
  let (r, w') := AuditedMint.try_match_mint_with_deposit m config w in
  mint_outcome (w_db w) config m r /\ healthy w' /\
  match r with
  | Ok x => mint_recorded (w_db w) x m (w_db w')
  | Err e => w_db w' = bump_db (mint_counter e) (w_db w)
  | Panic _ => False
  end.
Proof.
  intros Hd Hn Hc Hm Hh. pose proof (handle_mint config m w Hd Hn Hc Hm Hh) as H.
  by destruct (AuditedMint.try_match_mint_with_deposit m config w).
Qed.

(** C14: A stored withdrawal is matched as its table of conditions says; success adds
    exactly the audit row of the pair, failure only increments the counter of its
    class. *)
Theorem match_withdrawal_outcomes sc x w :
  integrity (w_db w) -> counters_ok (w_db w) -> x ∈ rows (w_db w) -> healthy w ->
  let (r, w') := AuditedBurn.try_match_withdrawal_with_burn x sc w in
  withdrawal_outcome (w_db w) sc x r /\ healthy w' /\
  match r with
  | Ok b => burn_recorded (w_db w) x b (w_db w')
  | Err e => w_db w' = bump_db (withdrawal_counter e) (w_db w)
  | Panic _ => False
  end.
Proof.
  intros Hd Hc Hx Hh. pose proof (handle_withdrawal sc x w Hd Hc Hx Hh) as H.
  by destruct (AuditedBurn.try_match_withdrawal_with_burn x sc w).
Qed.

(** C27: A stored burn is matched as its table of conditions says, with the withdrawal
    SQLite returns among those that name its key; success adds exactly the audit
    row of the pair, failure only increments the counter of its class. *)
Theorem match_burn_outcomes config b w :
  integrity (w_db w) -> counters_ok (w_db w) -> b ∈ rows (w_db w) -> healthy w ->
  let (r, w') := AuditedBurn.try_match_burn_with_withdrawal b config w in
  burn_outcome (w_db w) config b r /\ healthy w' /\
  match r with
  | Ok x => burn_recorded (w_db w) x b (w_db w')
  | Err e => w_db w' = bump_db (burn_counter e) (w_db w)
  | Panic _ => False
  end.
Proof.
  intros Hd Hc Hb Hh. pose proof (handle_burn config b w Hd Hc Hb Hh) as H.
  by destruct (AuditedBurn.try_match_burn_with_withdrawal b config w).
Qed.

(** C15: It does not matter which of the mint and the deposit arrives last: when both
    are stored, match and are not audited, matching from either side succeeds, and
    the two databases are the same. *)
Theorem mint_match_either_side config sc m x mid did w :
  integrity (w_db w) -> nonces_derived (w_db w) -> counters_ok (w_db w) -> healthy w ->
  matched_pair (w_db w) sc m x mid did ->
  get_audited_safe_config_by_safe_addr config (gsd_safe_addr x) = Some sc ->
  (AuditedMint.try_match_deposit_with_mint x sc w).1 = Ok m /\
  (AuditedMint.try_match_mint_with_deposit m config w).1 = Ok x /\
  w_db (AuditedMint.try_match_deposit_with_mint x sc w).2 = record_audited_mint (w_db w) mid did /\
  w_db (AuditedMint.try_match_mint_with_deposit m config w).2 = record_audited_mint (w_db w) mid did.
Proof.
  intros Hd Hn Hc Hh Hp Hsc. pose proof Hp as (Hm & Hx & Em & Ex & _).
  destruct (matched_pair_outcomes _ config _ _ _ _ _ Hd Hn Hp) as [Ho1 Ho2]. specialize (Ho2 Hsc).
  destruct (handled_success _ _ _ _ _ m (handle_deposit sc x w Hd Hc Hx Hh))
    as [-> (i & j & Ei & Ej & ->)]; [by intros r; apply deposit_outcome_det|].
  destruct (handled_success _ _ _ _ _ x (handle_mint config m w Hd Hn Hc Hm Hh))
    as [-> (i' & j' & Ei' & Ej' & ->)]; [by intros r; apply mint_outcome_det|].
  split_and!; congruence.
Qed.

(** C28: The same for a burn and its withdrawal, when no other unaudited withdrawal
    names the burn. *)
Theorem burn_match_either_side config sc b x bid wid w :
  integrity (w_db w) -> counters_ok (w_db w) -> healthy w ->
  burned_pair (w_db w) sc b x bid wid ->
  get_audited_safe_config_by_safe_addr config (gsw_safe_addr x) = Some sc ->
  (forall y, candidate_withdrawal (w_db w) b y -> y = x) ->
  (AuditedBurn.try_match_withdrawal_with_burn x sc w).1 = Ok b /\
  (AuditedBurn.try_match_burn_with_withdrawal b config w).1 = Ok x /\
  w_db (AuditedBurn.try_match_withdrawal_with_burn x sc w).2 = record_audited_burn (w_db w) bid wid /\
  w_db (AuditedBurn.try_match_burn_with_withdrawal b config w).2 = record_audited_burn (w_db w) bid wid.
Proof.
  intros Hd Hc Hh Hp Hsc Hu. pose proof Hp as (Hb & Hx & Eb & Ex & _).
  destruct (burned_pair_outcomes _ config _ _ _ _ _ Hd Hp) as [Ho1 Ho2].
  destruct (Ho2 Hsc) as [_ Ho]. specialize (Ho Hu).
  destruct (handled_success _ _ _ _ _ b (handle_withdrawal sc x w Hd Hc Hx Hh))
    as [-> (i & j & Ei & Ej & ->)]; [by intros r; apply withdrawal_outcome_det|].
  destruct (handled_success _ _ _ _ _ x (handle_burn config b w Hd Hc Hb Hh))
    as [-> (i' & j' & Ei' & Ej' & ->)]; [done|].
  split_and!; congruence.
Qed.
End matching.

(** ** The deposit and the withdrawal of the small safe *)
Section scenario_facts.

Lemma is_ok_tt {E} (r : Res E unit) : is_ok r = true -> r = Ok tt.
Proof. by destruct r as [[]| |]. Qed.

Lemma deposit_db_ready : sync_ready deposit_db.
Proof. apply (ai_ready _ _ deposit_db_inv). Qed.

Lemma withdrawal_db_ready : sync_ready withdrawal_db.
Proof. apply (ai_ready _ _ withdrawal_db_inv). Qed.

Lemma deposit_db_nonces : nonces_derived deposit_db.
Proof. apply (ai_nonces _ _ deposit_db_inv). Qed.

Lemma deposit_db_pair : matched_pair deposit_db test_safe mint_row deposit_row 1 1.
Proof.
  split_and!; [apply mint_row_stored|apply deposit_row_stored|vm_compute; reflexivity..|].
  apply verify_mint_ok, is_ok_tt. vm_compute. reflexivity.
Qed.

Lemma withdrawal_db_pair : burned_pair withdrawal_db test_safe burn_row withdrawal_row 1 1.
Proof.
  split_and!; [apply burn_row_stored|apply withdrawal_row_stored|vm_compute; reflexivity..|].
  apply verify_burn_ok, is_ok_tt. vm_compute. reflexivity.
Qed.

Lemma no_withdrawals d j (t : GnosisSafeTx) (y : GnosisSafeWithdrawal) :
  length (gnosis_safe_withdrawals d) = 0%nat -> y ∉ rows (db_insert j t d).
Proof.
  intros E%nil_length_inv. unfold rows. simpl. rewrite E. apply not_elem_of_nil.
Qed.

Lemma withdrawal_db_candidate y : candidate_withdrawal withdrawal_db burn_row y -> y = withdrawal_row.
Proof.
  intros (Hy & _ & _). unfold withdrawal_db in Hy. rewrite rows_db_insert in Hy.
  apply elem_of_app in Hy as [Hy| ->%list_elem_of_singleton]; [exfalso|done].
  eapply no_withdrawals; [|exact Hy]. apply no_safe_rows.
Qed.
End scenario_facts.

Lemma match_deposit_outcomes_witness : exists r w',
  AuditedMint.try_match_deposit_with_mint deposit_row test_safe (world_of deposit_db) = (r, w') /\
  is_ok r = true /\ deposit_outcome deposit_db test_safe deposit_row r.
Proof.
  pose proof (match_deposit_outcomes test_safe deposit_row (world_of deposit_db)) as H.
  destruct (AuditedMint.try_match_deposit_with_mint deposit_row test_safe (world_of deposit_db))
    as [r w'] eqn:E.
  exists r, w'. split; [reflexivity|]. split.
  - change (is_ok (fst (r, w')) = true). rewrite <- E. vm_compute. reflexivity.
  - apply H; [apply deposit_db_ready|apply deposit_db_ready|apply deposit_row_stored|reflexivity].
Defined.

Lemma match_mint_outcomes_witness : exists r w',
  AuditedMint.try_match_mint_with_deposit mint_row test_config (world_of deposit_db) = (r, w') /\
  is_ok r = true /\ mint_outcome deposit_db test_config mint_row r.
Proof.
  pose proof (match_mint_outcomes test_config mint_row (world_of deposit_db)) as H.
  destruct (AuditedMint.try_match_mint_with_deposit mint_row test_config (world_of deposit_db))
    as [r w'] eqn:E.
  exists r, w'. split; [reflexivity|]. split.
  - change (is_ok (fst (r, w')) = true). rewrite <- E. vm_compute. reflexivity.
  - apply H; [apply deposit_db_ready|apply deposit_db_nonces|apply deposit_db_ready|
      apply mint_row_stored|reflexivity].
Defined.

Lemma match_withdrawal_outcomes_witness : exists r w',
  AuditedBurn.try_match_withdrawal_with_burn withdrawal_row test_safe (world_of withdrawal_db) = (r, w') /\
  is_ok r = true /\ withdrawal_outcome withdrawal_db test_safe withdrawal_row r.
Proof.
  pose proof (match_withdrawal_outcomes test_safe withdrawal_row (world_of withdrawal_db)) as H.
  destruct (AuditedBurn.try_match_withdrawal_with_burn withdrawal_row test_safe (world_of withdrawal_db))
    as [r w'] eqn:E.
  exists r, w'. split; [reflexivity|]. split.
  - change (is_ok (fst (r, w')) = true). rewrite <- E. vm_compute. reflexivity.
  - apply H; [apply withdrawal_db_ready|apply withdrawal_db_ready|apply withdrawal_row_stored|
      reflexivity].
Defined.

Lemma match_burn_outcomes_witness : exists r w',
  AuditedBurn.try_match_burn_with_withdrawal burn_row test_config (world_of withdrawal_db) = (r, w') /\
  is_ok r = true /\ burn_outcome withdrawal_db test_config burn_row r.
Proof.
  pose proof (match_burn_outcomes test_config burn_row (world_of withdrawal_db)) as H.
  destruct (AuditedBurn.try_match_burn_with_withdrawal burn_row test_config (world_of withdrawal_db))
    as [r w'] eqn:E.
  exists r, w'. split; [reflexivity|]. split.
  - change (is_ok (fst (r, w')) = true). rewrite <- E. vm_compute. reflexivity.
  - apply H; [apply withdrawal_db_ready|apply withdrawal_db_ready|apply burn_row_stored|reflexivity].
Defined.

Lemma mint_match_either_side_witness :
  (AuditedMint.try_match_mint_with_deposit mint_row test_config (world_of deposit_db)).1
  = Ok deposit_row.
Proof.
  apply (mint_match_either_side test_config test_safe mint_row deposit_row 1 1 (world_of deposit_db));
    [apply deposit_db_ready|apply deposit_db_nonces|apply deposit_db_ready|reflexivity|
     apply deposit_db_pair|reflexivity].
Defined.

Lemma burn_match_either_side_witness :
  (AuditedBurn.try_match_burn_with_withdrawal burn_row test_config (world_of withdrawal_db)).1
  = Ok withdrawal_row.
Proof.
  apply (burn_match_either_side test_config test_safe burn_row withdrawal_row 1 1
    (world_of withdrawal_db));
    [apply withdrawal_db_ready|apply withdrawal_db_ready|reflexivity|
     apply withdrawal_db_pair|reflexivity|apply withdrawal_db_candidate].
Defined.
