(* ===== verification/Missed.v ===== *)
(** * A match that was missed is never made up for

    The result of looking for a counterpart is only logged, and only new mints, new
    burns, new deposits and new withdrawals look: a pair that is stored without
    having been matched (SQLite failed at that moment, or the auditor ran without
    the safes' configuration) stays unaudited whatever happens later. *)

From S2P Require Import Prelude Externals Concrete GnosisTypes Errors Schema Database.
From S2P Require Import CountersModel Blocks Mints Burns GnosisConfig GnosisRows AuditedMints.
From S2P Require Import AuditedBurns SyncBlock LedgerSpec LedgerSync MintVerdicts SafeSync.
From S2P Require Import AuditInvariant Main Faults Handlers SyncLoop SafeSyncSpec Scenario System.
From S2P Require Import Complete CompleteSteps MatchProps.

Section missed.
Context {X_chrono : Chrono} {X_sqlite : Sqlite} {L_sqlite : SqliteLaws}.
Context {X_hex : Hex} {L_hex : HexLaws} {X_mc : MobileCoin} {L_mc : MobileCoinLaws} {X_url : UrlLib}.
Context {X_hash : HashOrder} {L_hash : HashOrderLaws} {X_json : SerdeJson} {X_ledger : LedgerDB}.
Context (config : GnosisSafeConfig) (m : MintTx) (x : GnosisSafeDeposit).
Implicit Types (w : World) (d : Db).

Definition missed d : Prop := audit_inv config d /\ pending_mint config d m x.
Definition keeps_missed d d' : Prop := missed d -> missed d'.

#[export] Instance keeps_missed_preorder : PreOrder keeps_missed.
Proof. split; [by intros d H|]. intros d1 d2 d3 H1 H2 H. by apply H2, H1. Qed.

(** ** Steps that audit no mint *)
Lemma pending_grow d d' :
  (forall m, m ∈ rows (R := MintTx) d -> m ∈ rows (R := MintTx) d') ->
  (forall x, x ∈ rows (R := GnosisSafeDeposit) d -> x ∈ rows (R := GnosisSafeDeposit) d') ->
  rows (R := AuditedMint) d' = rows d -> pending_mint config d m x -> pending_mint config d' m x.
Proof.
  intros Hm Hx Ea (sc & mid & did & Hsc & Hmi & Hxi & Em & Ex & Am & Ax & Hmatch).
  exists sc, mid, did. split; [done|]. unfold matched_pair, mint_audited, deposit_audited in *.
  rewrite Ea. split_and!; auto.
Qed.

Lemma missed_gnosis d d' :
  gnosis_step config d d' -> rows (R := AuditedMint) d' = rows d -> keeps_missed d d'.
Proof.
  intros Hs Ea [Hi Hp]. split; [by eapply gnosis_step_inv|].
  destruct Hs as [d1 Hs|i r Hr|i r Hr Hn|i r Hr].
  - pose proof (audit_step_frame _ _ _ Hs) as [E1 E2 _ _ _ _].
    eapply pending_grow, Hp; [by rewrite E1|by rewrite E2|done].
  - by eapply pending_grow, Hp.
  - eapply pending_grow, Hp; [done| |done]. intros y Hy. rewrite rows_db_insert.
    apply elem_of_app. by left.
  - by eapply pending_grow, Hp.
Qed.

Lemma missed_bump v d : v ∉ ledger_counters -> keeps_missed d (bump_db v d).
Proof. intros Hv. apply missed_gnosis; [by apply gnosis_audit, audit_count|done]. Qed.

Lemma missed_synced idx c ts d data d' : synced idx c ts d data d' -> keeps_missed d d'.
Proof.
  intros Hs [Hi Hp]. split; [by eapply synced_inv|].
  pose proof (synced_frame _ _ _ _ _ _ Hs) as (Rm & _ & _ & Rx & _ & Ra & _).
  eapply pending_grow, Hp; [|by rewrite Rx|done]. intros m' Hm'. rewrite Rm. apply elem_of_app. by left.
Qed.

(** ** Steps that audit another mint *)
Lemma missed_record d sc m1 x1 mid did :
  sc ∈ gc_safes config -> matched_pair d sc m1 x1 mid did -> m1 <> m \/ x1 <> x ->
  keeps_missed d (record_audited_mint d mid did).
Proof.
  intros Hsc Hp1 Hne [Hi (sc' & mid' & did' & Hsc' & Hp)].
  split; [by eapply audit_inv_record_mint|]. exists sc', mid', did'. split; [done|].
  pose proof (ai_ready _ _ Hi) as (Hd & _).
  destruct Hp1 as (Hm1 & Hx1 & Em1 & Ex1 & _ & _ & _ & _ & En1 & _).
  destruct Hp as (Hm & Hx & Em & Ex & Am & Ax & Hmatch). pose proof Hmatch as (_ & _ & En & _).
  assert (m1 = m <-> x1 = x) as Hboth.
  { split; intros E.
    - subst m1. apply (deposit_nonce_unique d); [apply Hd|apply (ai_nonces _ _ Hi)|done..|congruence].
    - subst x1. apply rows_elem_of in Hm1 as [i Hi1], Hm as [j Hj].
      assert ((i, m1) = (j, m)) as [= _ ->]; [|done].
      eapply (ok_unique _ (ok_mint_txs _ Hd)); [done..|]. simpl. rewrite En1, En. apply String.eqb_refl. }
  assert (mid <> mid') as Hmid.
  { intros ->. assert (m1 = m); [|tauto]. by eapply (stored_unique d), eq_trans, eq_sym, Em; [apply Hd|..]. }
  assert (did <> did') as Hdid.
  { intros ->. assert (x1 = x); [|tauto]. by eapply (stored_unique d), eq_trans, eq_sym, Ex; [apply Hd|..]. }
  unfold matched_pair, mint_audited, deposit_audited in *. rewrite rows_record_audited_mint.
  rewrite !existsb_app, Am, Ax. simpl. rewrite !orb_false_r. split_and!; try done; by apply Z.eqb_neq.
Qed.

(** ** Matching something else *)
Lemma match_mint_missed m1 w :
  missed (w_db w) -> m1 ∈ rows (w_db w) -> m1 <> m ->
  wp (AuditedMint.try_match_mint_with_deposit m1 config)
    (fun r w' => audits config w r w' /\ missed (w_db w')) w.
Proof.
  intros Hmiss Hm Hne. pose proof Hmiss as [Hi _]. pose proof (ai_ready _ _ Hi) as (Hd & _ & Hk).
  apply wp_conj; [by apply match_mint_audits|]. apply wp_try_match_mint; [done|apply Hi|done..| | |].
  - intros e w' _ [-> |(e' & ->)]; [done|]. by apply missed_bump; [apply mint_counter_not_ledger|].
  - intros e w' _ [-> _]. by apply missed_bump; [apply mint_counter_not_ledger|].
  - intros y mid did w' Ho Hy Em Ex [-> _].
    destruct (mint_outcome_ok _ _ _ _ _ _ Ho Hy Hm Em Ex) as (sc & Hsc & Hp).
    eapply missed_record; [by apply find_Some_elem in Hsc as []|exact Hp|by left|done].
Qed.

Lemma match_deposit_missed sc x1 w :
  sc ∈ gc_safes config -> missed (w_db w) -> x1 ∈ rows (w_db w) -> x1 <> x ->
  wp (AuditedMint.try_match_deposit_with_mint x1 sc) (fun _ w' => missed (w_db w')) w.
Proof.
  intros Hsc Hmiss Hx Hne. pose proof Hmiss as [Hi _]. pose proof (ai_ready _ _ Hi) as (Hd & _ & Hk).
  apply wp_try_match_deposit; [done..| | |].
  - intros e w' _ [-> |(e' & ->)]; [done|]. by apply missed_bump; [apply deposit_counter_not_ledger|].
  - intros e w' _ [-> _]. by apply missed_bump; [apply deposit_counter_not_ledger|].
  - intros y mid did w' Ho Hy Em Ex [-> _].
    eapply missed_record; [exact Hsc|by apply deposit_outcome_ok|by right|done].
Qed.

Lemma missed_record_burn d sc b y bid wid :
  sc ∈ gc_safes config -> burned_pair d sc b y bid wid -> keeps_missed d (record_audited_burn d bid wid).
Proof. intros Hsc Hp. apply missed_gnosis; [by eapply gnosis_audit, audit_burn|done]. Qed.

Lemma match_burn_missed b w :
  missed (w_db w) -> b ∈ rows (w_db w) ->
  wp (AuditedBurn.try_match_burn_with_withdrawal b config)
    (fun r w' => audits config w r w' /\ missed (w_db w')) w.
Proof.
  intros Hmiss Hb. pose proof Hmiss as [Hi _]. pose proof (ai_ready _ _ Hi) as (Hd & _ & Hk).
  apply wp_conj; [by apply match_burn_audits|]. apply wp_try_match_burn; [done..| | |].
  - intros e w' _ [-> |(e' & ->)]; [done|]. by apply missed_bump; [apply burn_counter_not_ledger|].
  - intros e w' _ [-> _]. by apply missed_bump; [apply burn_counter_not_ledger|].
  - intros y bid wid w' Ho Hy Eb Ex [-> _].
    destruct (burn_outcome_ok _ _ _ _ _ _ Ho Hy Hb Eb Ex) as (sc & Hsc & Hp).
    eapply missed_record_burn; [by apply find_Some_elem in Hsc as []|exact Hp|done].
Qed.

Lemma match_withdrawal_missed sc y w :
  sc ∈ gc_safes config -> missed (w_db w) -> y ∈ rows (w_db w) ->
  wp (AuditedBurn.try_match_withdrawal_with_burn y sc) (fun _ w' => missed (w_db w')) w.
Proof.
  intros Hsc Hmiss Hy. pose proof Hmiss as [Hi _]. pose proof (ai_ready _ _ Hi) as (Hd & _ & Hk).
  apply wp_try_match_withdrawal; [done..| | |].
  - intros e w' _ [-> |(e' & ->)]; [done|]. by apply missed_bump; [apply withdrawal_counter_not_ledger|].
  - intros e w' _ [-> _]. by apply missed_bump; [apply withdrawal_counter_not_ledger|].
  - intros b bid wid w' Ho Hb Eb Ex [-> _].
    eapply missed_record_burn; [exact Hsc|by apply withdrawal_outcome_ok|done].
Qed.

(** ** One block *)
Lemma new_rows_differ d d' (news : list MintTx) :
  integrity d' -> rows (R := MintTx) d' = rows d ++ news -> m ∈ rows d -> forall m1, m1 ∈ news -> m1 <> m.
Proof.
  intros Hd E Hm m1 Hm1 ->. pose proof (rows_NoDup (R := MintTx) d' (ok_mint_txs _ Hd)) as Hn.
  rewrite E in Hn.
  apply NoDup_app in Hn as (_ & Hn & _). by eapply Hn.
Qed.

Lemma wp_audit_block_missed data w :
  missed (w_db w) ->
  (forall m1, m1 ∈ sbd_mint_txs data -> m1 ∈ rows (w_db w) /\ m1 <> m) ->
  (forall b, b ∈ sbd_burn_tx_outs data -> b ∈ rows (w_db w)) ->
  wp (Main.audit_block_data data config) (fun _ w' => missed (w_db w')) w.
Proof.
  intros Hmiss Hm Hb. unfold Main.audit_block_data.
  set (I := fun w' => missed (w_db w') /\ rows (R := MintTx) (w_db w') = rows (w_db w) /\
                      rows (R := BurnTxOut) (w_db w') = rows (w_db w)).
  assert (forall {A B} (f : A -> App B) xs w1,
    (forall y w, y ∈ xs -> I w -> wp (f y) (fun r w' => audits config w r w' /\ missed (w_db w')) w) ->
    I w1 -> wp (for_each (fun y => attempt (f y)) xs : App (list (Res Error B))) (fun _ w' => I w') w1) as Heach.
  { intros A B f xs w1 Hf. apply wp_for_each_inv. intros y w2 Hy HI. apply wp_attempt.
    eapply wp_mono; [by apply Hf|]. destruct HI as (_ & Rm & Rb).
    intros r w3 [(Ha & _ & _) Hmiss3]. apply audit_step_frame in Ha.
    assert (I w3); [|by destruct r].
    split; [done|]. by rewrite (af_mints _ _ Ha), (af_burns _ _ Ha). }
  apply wp_seq. eapply wp_mono; [apply Heach; [|by split]|].
  { intros m1 w1 Hm1 (H1 & Rm & _). destruct (Hm m1 Hm1). apply match_mint_missed; [done|by rewrite Rm|done]. }
  intros [l|e|p] w1 HI1; [|apply HI1..].
  apply wp_seq. eapply wp_mono; [apply Heach; [|exact HI1]|].
  { intros b w2 Hin (H2 & _ & Rb). apply match_burn_missed; [done|]. rewrite Rb. by apply Hb. }
  intros [l'|e|p] w2 HI2; [apply wp_ret|..]; apply HI2.
Qed.

Lemma wp_sync_and_audit_missed oconfig idx c ts w :
  oconfig = None \/ oconfig = Some config -> missed (w_db w) ->
  wp (Main.sync_and_audit oconfig idx c ts) (fun _ w' => missed (w_db w')) w.
Proof.
  intros Hoc Hmiss. pose proof Hmiss as [Hi Hp]. apply wp_conn_transaction.
  { by intros f w' _ [-> _]. }
  intros w1 Hl1. pose proof (leads_db _ _ _ Hl1) as Hd1.
  apply wp_seq, wp_sync_block_with_conn; rewrite ?Hd1; [apply Hi..|done|].
  intros data d1 w2 Hs [Hd2 _]. pose proof (missed_synced _ _ _ _ _ _ Hs Hmiss) as Hmiss1.
  pose proof (synced_frame _ _ _ _ _ _ Hs) as (Rm & Rb & _).
  destruct Hoc as [-> | ->]; [apply wp_ret; by rewrite Hd2|].
  eapply wp_mono; [apply wp_audit_block_missed; rewrite ?Hd2; [done|..]|by intros [a|e|p] w3 H3].
  - intros m1 Hm1. split; [rewrite Rm; apply elem_of_app; by right|].
    eapply new_rows_differ; [apply (ai_ready _ _ (proj1 Hmiss1))|exact Rm| |done].
    apply (pending_mint_stored _ _ _ _ Hp).
  - intros b Hb. rewrite Rb. apply elem_of_app. by right.
Qed.

Lemma wp_sync_iteration_missed oconfig watcher n w :
  oconfig = None \/ oconfig = Some config -> missed (w_db w) ->
  wp (Main.sync_iteration oconfig watcher n) (fun _ w' => missed (w_db w')) w.
Proof.
  intros Hoc Hmiss. apply wp_seq, wp_get_conn; [by intros f w' _ [-> _]|].
  intros w1 Hl1. pose proof (leads_db _ _ _ Hl1) as Hd1. apply wp_seq, wp_lift.
  destruct (from_ext LedgerDb _) as [len|e|p]; [|by rewrite Hd1..].
  apply wp_seq, (wp_query _ _ _ _ query_last_synced); [by rewrite Hd1; intros f w' _ [-> _]|].
  rewrite Hd1. intros r w2 [Hd2 _] _. destruct r as [o|e|p]; [|by rewrite Hd2..].
  cbv zeta. case_match; [apply wp_ret; by rewrite Hd2| |apply wp_ret; by rewrite Hd2].
  apply wp_seq, wp_lift. destruct (from_ext LedgerDb _) as [[i c]|e|p]; [|by rewrite Hd2..].
  apply wp_seq. eapply wp_mono; [apply wp_sync_and_audit_missed; [done|by rewrite Hd2]|].
  intros [a|e|p] w3 Hm3; [by apply wp_ret|done..].
Qed.

(** ** A transaction of a safe *)
Lemma missed_wp {E A} (f : M World E A) :
  (forall w, missed (w_db w) -> wp f (fun _ w' => missed (w_db w')) w) <-> db_respects keeps_missed f.
Proof. split; [intros H w Hi; by apply H|intros H w Hi; by apply H]. Qed.

#[local] Instance missed_safe_tx : InsertRel keeps_missed GnosisSafeTx.
Proof. intros d i r Hi. by apply missed_gnosis; [apply gnosis_tx|]. Qed.

#[local] Instance missed_invalid_ethereum :
  UpdateRel keeps_missed Counters (counter_bump num_invalid_ethereum_transactions).
Proof. intros d. apply (missed_bump num_invalid_ethereum_transactions). unfold ledger_counters. set_solver. Qed.

#[local] Instance missed_invalid_multi_sig :
  UpdateRel keeps_missed Counters (counter_bump num_invalid_multi_sig_transactions).
Proof. intros d. apply (missed_bump num_invalid_multi_sig_transactions). unfold ledger_counters. set_solver. Qed.

Lemma deposit_missed sc y :
  sc ∈ gc_safes config -> gsd_id y = None ->
  gsd_expected_mc_mint_tx_nonce_hex y =
    hex_encode (MintTxNonce.to_bytes (MintTxNonce.EthereumGnosisDeposit (gsd_eth_tx_hash y))) ->
  db_respects keeps_missed
    (y ← GnosisSafeDeposit.insert y;
     _ ← attempt (AuditedMint.try_match_deposit_with_mint y sc); mret tt : App unit).
Proof.
  intros Hsc Hid Hn. apply missed_wp. intros w Hmiss.
  assert (forall i, insertable (w_db w) i y -> missed (db_insert i y (w_db w))) as Hins'.
  { intros i Hins. revert Hmiss. by apply missed_gnosis; [apply gnosis_deposit|]. }
  apply wp_seq. eapply wp_mono; [by apply wp_insert_deposit_db|]. intros [z|e|p] w1 Hz.
  2-3: destruct Hz as [-> |(i & Hins & ->)]; auto.
  destruct Hz as (i & -> & Hins & Hdb). apply wp_seq, wp_attempt.
  eapply wp_mono; [apply (match_deposit_missed sc); [done|rewrite Hdb; auto|..]|].
  - rewrite Hdb, rows_db_insert. apply elem_of_app. right. by left.
  - intros E. destruct Hmiss as [Hi Hp]. apply pending_mint_stored in Hp as [_ [j Hj]%rows_elem_of].
    destruct (ai_ready _ _ Hi) as (Hd & _).
    pose proof (stored_id _ _ _ (ok_gnosis_safe_deposits _ Hd) Hj) as Ej. rewrite <- E in Ej.
    simpl in Ej. injection Ej as ->. apply (ins_fresh _ _ _ Hins). apply list_elem_of_fmap. by exists (j, x).
  - intros [a|e|p] w2 H2; [by apply wp_ret..|done].
Qed.

Lemma withdrawal_missed sc y :
  sc ∈ gc_safes config -> gsw_id y = None ->
  db_respects keeps_missed
    (y ← GnosisSafeWithdrawal.insert y;
     _ ← attempt (AuditedBurn.try_match_withdrawal_with_burn y sc); mret tt : App unit).
Proof.
  intros Hsc Hid. apply missed_wp. intros w Hmiss.
  assert (forall i, insertable (w_db w) i y -> missed (db_insert i y (w_db w))) as Hins'.
  { intros i Hins. revert Hmiss. by apply missed_gnosis; [apply gnosis_withdrawal|]. }
  apply wp_seq. eapply wp_mono; [by apply wp_insert_withdrawal_db|]. intros [z|e|p] w1 Hz.
  2-3: destruct Hz as [-> |(i & Hins & ->)]; auto.
  destruct Hz as (i & -> & Hins & Hdb). apply wp_seq, wp_attempt.
  eapply wp_mono; [apply (match_withdrawal_missed sc); [done|rewrite Hdb; auto|]|].
  - rewrite Hdb, rows_db_insert. apply elem_of_app. right. by left.
  - intros [a|e|p] w2 H2; [by apply wp_ret..|done].
Qed.

Lemma transfer_missed sc tx transfer :
  sc ∈ gc_safes config -> db_respects keeps_missed (GnosisSync.process_transfer sc tx transfer).
Proof.
  intros Hsc. unfold GnosisSync.process_transfer. destruct (EthAddr.eqb _ _); [|solve_respects].
  destruct (GnosisSync.parse_deposit sc tx transfer) as [y|e|p] eqn:E.
  - apply parse_deposit_ok in E as [Hid Hn]. exact (deposit_missed _ _ Hsc Hid Hn).
  - unfold attempt, lift, mbind, M_bind. simpl.
    pose proof (respects_inc keeps_missed num_invalid_ethereum_transactions) as Hinc.
    intros w. specialize (Hinc w). destruct (Counters.inc _ w) as [[]]; exact Hinc.
  - unfold attempt, lift, mbind, M_bind. simpl. intros w. simpl. reflexivity.
Qed.

Lemma multi_sig_missed sc tx :
  sc ∈ gc_safes config -> db_respects keeps_missed (GnosisSync.process_multi_sig_transaction sc tx).
Proof.
  intros Hsc. unfold GnosisSync.process_multi_sig_transaction.
  destruct (negb _); [solve_respects|].
  destruct (GnosisSync.parse_withdrawal_with_pub_key_multi_sig_tx sc tx) as [y|e|p] eqn:E.
  - apply parse_withdrawal_ok in E. exact (withdrawal_missed _ _ Hsc E).
  - exact (respects_inc keeps_missed num_invalid_multi_sig_transactions).
  - unfold attempt, lift, mbind, M_bind. intros w. simpl. reflexivity.
Qed.

Lemma transaction_missed sc tx :
  sc ∈ gc_safes config -> db_respects keeps_missed (GnosisSync.process_transaction sc tx).
Proof.
  intros Hsc.
  apply transaction_respects; [apply _..|by intros; apply transfer_missed|by intros; apply multi_sig_missed].
Qed.
End missed.

Section finality.
Context {X_chrono : Chrono} {X_sqlite : Sqlite} {L_sqlite : SqliteLaws}.
Context {X_hex : Hex} {L_hex : HexLaws} {X_mc : MobileCoin} {L_mc : MobileCoinLaws} {X_url : UrlLib}.
Context {X_hash : HashOrder} {L_hash : HashOrderLaws} {X_json : SerdeJson} {X_ledger : LedgerDB}.

(** C12: A match that was missed is never made up for: once a mint and a deposit that
    match are both stored and neither is audited, they stay so, whatever blocks are
    synchronized, transactions followed, restarts made or faults raised later.
    Matching is only tried when a mint or a deposit is new, and its failure is only
    logged. *)
Theorem missed_match_is_final config m x w w' :
  audit_inv config (w_db w) -> pending_mint config (w_db w) m x -> rtc (system_step config) w w' ->
  pending_mint config (w_db w') m x.
Proof.
  intros Hi Hp Hs. assert (missed config m x (w_db w)) as Hm by done. clear Hi Hp.
  assert (missed config m x (w_db w')) as [_ H]; [|exact H].
  induction Hs as [w|w1 w2 w3 Hs _ IH]; [done|]. apply IH. clear IH.
  destruct Hs as [oconfig watcher n Hoc|sc tx Hsc| |A f P Hq|w2 E].
  - by apply (wp_sync_iteration_missed config m x oconfig watcher n w1).
  - by apply (transaction_missed config m x sc tx Hsc w1).
  - rewrite restart_db; [done|]. apply (ai_ready _ _ (proj1 Hm)).
  - by rewrite (query_db _ _ _ Hq).
  - by rewrite E.
Qed.
End finality.

(** The deposit stored after the mint, but not matched: the next block and another
    poll do not match it either. *)
Lemma missed_match_is_final_witness :
  pending_mint test_config (w_db (follow_once deposit_tx (sync_once 3 (world_of deposit_db))))
    mint_row deposit_row.
Proof.
  apply (missed_match_is_final test_config mint_row deposit_row (world_of deposit_db)).
  - apply deposit_db_inv.
  - exists test_safe, 1, 1. split; [reflexivity|apply deposit_db_pair].
  - assert (forall n w, system_step test_config w (sync_once n w)) as Hsync.
    { intros n w. apply (system_sync _ _ (Some test_config)). by right. }
    assert (forall tx w, system_step test_config w (follow_once tx w)) as Hfollow.
    { intros tx w. apply system_follow. by left. }
    eapply rtc_l; [apply (Hsync 3%nat)|]. eapply rtc_l; [apply (Hfollow deposit_tx)|]. apply rtc_refl.
Defined.
