(* ===== verification/SafeProps.v ===== *)
(** * Properties of following the safes

    Fetching all pages, the atomicity and the repetition of processing, what is
    stored for a deposit and a withdrawal, and the transactions that go wrong. *)

From S2P Require Import Prelude Externals Concrete GnosisTypes Errors Schema Database.
From S2P Require Import CountersModel Blocks Mints Burns GnosisConfig GnosisRows AuditedMints.
From S2P Require Import AuditedBurns SyncBlock AuditInvariant Handlers SafeSync SafeSyncSpec.
From S2P Require Import Main SyncLoop Scenario.

Section following.
Context {X_chrono : Chrono} {X_sqlite : Sqlite} {L_sqlite : SqliteLaws}.
Context {X_hex : Hex} {L_hex : HexLaws} {X_mc : MobileCoin} {L_mc : MobileCoinLaws} {X_url : UrlLib}.
Context {X_hash : HashOrder} {L_hash : HashOrderLaws} {X_json : SerdeJson}.
Implicit Types (w : World) (d : Db) (config : GnosisSafeConfig) (sc : AuditedSafeConfig)
  (tx : raw_transaction).

(** ** One transaction of the API *)

(** The row [GnosisSafeTx::insert] stores. *)
Definition safe_tx_row tx (hash : EthTxHash.t) : GnosisSafeTx :=
  mkGnosisSafeTx (EthTxHash.display hash) (to_json_string tx).

(** A transaction whose hash is stored already. *)
Definition processed d tx : Prop :=
  exists hash, tx_hash tx = Ok hash /\
    exists r, r ∈ rows d /\ gst_eth_tx_hash r = EthTxHash.display hash.

Lemma insert_processed tx w :
  healthy w -> processed (w_db w) tx ->
  exists msg, GnosisSafeTx.insert tx w = (Err (AlreadyExists msg), w).
Proof.
  intros Hh (hash & Eh & r & [i Hr]%rows_elem_of & Er). unfold GnosisSafeTx.insert.
  rewrite Eh. unfold lift, mbind, M_bind. simpl. unfold exec, with_err.
  rewrite (insert_into_conflict (safe_tx_row tx hash) (i, r) w) by
    (done || (simpl; rewrite Er; apply String.eqb_refl)).
  by eexists.
Qed.

Lemma wp_process_again sc tx w :
  healthy w -> processed (w_db w) tx ->
  wp (GnosisSync.process_transaction sc tx) (fun r w' => r = Ok tt /\ leads w (w_db w) w') w.
Proof.
  intros Hh Hp. apply wp_process_transaction; [done|]. intros w1 Hl1.
  pose proof Hl1 as [Hd1 Hh1].
  destruct (insert_processed tx w1) as [msg E]; [by apply Hh1|by rewrite Hd1|].
  unfold wp, GnosisSync.process_transaction_body, attempt, mbind, M_bind. rewrite E. simpl. done.
Qed.

(** Processing only adds rows. *)
Ltac solve_evolves := repeat first [respects_step | apply respects_inc; apply _].

Lemma respects_match_deposit x sc :
  db_respects evolves (AuditedMint.try_match_deposit_with_mint x sc).
Proof.
  unfold AuditedMint.try_match_deposit_with_mint, AuditedMint.match_deposit_result,
    AuditedMint.match_deposit_body, AuditedMint.associate_deposit_with_mint,
    AuditedMint.existing_match, MintTx.find_unaudited_mint_tx_by_nonce.
  solve_evolves.
Qed.

Lemma respects_match_withdrawal x sc :
  db_respects evolves (AuditedBurn.try_match_withdrawal_with_burn x sc).
Proof.
  unfold AuditedBurn.try_match_withdrawal_with_burn, AuditedBurn.match_withdrawal_result,
    AuditedBurn.match_withdrawal_body, AuditedBurn.associate_withdrawal_with_burn,
    AuditedBurn.existing_match, BurnTxOut.find_unaudited_burn_tx_out_by_public_key.
  solve_evolves.
Qed.

Lemma respects_transfer sc t x : db_respects evolves (GnosisSync.process_transfer sc t x).
Proof.
  unfold GnosisSync.process_transfer, GnosisSafeDeposit.insert.
  repeat first [apply respects_match_deposit | respects_step | apply respects_inc; apply _].
Qed.

Lemma respects_multi_sig sc t : db_respects evolves (GnosisSync.process_multi_sig_transaction sc t).
Proof.
  unfold GnosisSync.process_multi_sig_transaction, GnosisSafeWithdrawal.insert.
  repeat first [apply respects_match_withdrawal | respects_step | apply respects_inc; apply _].
Qed.

Lemma respects_ethereum sc t : db_respects evolves (GnosisSync.process_eth_transaction sc t).
Proof.
  unfold GnosisSync.process_eth_transaction.
  repeat first [apply respects_transfer | respects_step].
Qed.

(** What follows the storing of the transaction. *)
Definition after_insert sc tx : App unit :=
  decoded ← lift (map_err GnosisErr (decode tx));
  match decoded with
  | Ethereum eth_tx =>
      r ← attempt (GnosisSync.process_eth_transaction sc eth_tx);
      match r with
      | Ok _ => mret tt
      | Err (GnosisErr (Gnosis.UnknownToken _)) => mret tt
      | Err err => throw err
      | Panic p => panic p
      end
  | MultiSig multi_sig_tx => GnosisSync.process_multi_sig_transaction sc multi_sig_tx
  | Module _ => mret tt
  end.

Lemma respects_after_insert sc tx : db_respects evolves (after_insert sc tx).
Proof.
  unfold after_insert.
  repeat first [apply respects_ethereum | apply respects_multi_sig | respects_step].
Qed.

Lemma processed_grows d d' tx : grows d d' -> processed d tx -> processed d' tx.
Proof.
  intros Hg (hash & Eh & r & Hr & Er). exists hash. split; [done|]. exists r. split; [|done].
  by eapply (rows_prefix (R := GnosisSafeTx)); [apply Hg|].
Qed.

Lemma not_insertable_processed d tx hash :
  tx_hash tx = Ok hash -> (forall i, ~ insertable d i (safe_tx_row tx hash)) -> processed d tx.
Proof.
  intros Eh Hn. exists hash. split; [done|].
  destruct (existsb (fun r => row_conflict (safe_tx_row tx hash) r.2) (gnosis_safe_txs d)) eqn:E.
  - apply existsb_exists_elem in E as ([i r] & Hr & Ec%String.eqb_eq).
    exists r. split; [apply rows_elem_of; by exists i|done].
  - destruct (Hn (next_rowid (gnosis_safe_txs d))).
    split; [done|apply next_rowid_fresh|by apply existsb_false|done].
Qed.

Lemma wp_insert_safe_tx tx hash Q w :
  tx_hash tx = Ok hash ->
  (forall e w', leads w (w_db w) w' ->
     (forall msg, e = AlreadyExists msg -> processed (w_db w) tx) -> Q (Err e) w') ->
  (forall i w', insertable (w_db w) i (safe_tx_row tx hash) ->
     leads w (db_insert i (safe_tx_row tx hash) (w_db w)) w' -> Q (Ok tt) w') ->
  wp (GnosisSafeTx.insert tx) Q w.
Proof.
  intros Eh He Ho. unfold GnosisSafeTx.insert. rewrite Eh. apply wp_seq, wp_lift. simpl.
  apply wp_exec. eapply wp_mono.
  - apply wp_conj; [exact (wp_insert_conflict (safe_tx_row tx hash) w)|].
    apply (wp_insert_into _ (fun r w' => match r with
      | Ok _ => exists i, insertable (w_db w) i (safe_tx_row tx hash) /\
                  leads w (db_insert i (safe_tx_row tx hash) (w_db w)) w'
      | Err e => leads w (w_db w) w'
      | Panic _ => False end)); eauto.
  - intros [[]|e|p] w' [Hc Hr]; simpl; [destruct Hr as (i & Hi & Hl); by eapply Ho| |done].
    apply He; [done|]. intros msg Ee. eapply not_insertable_processed; [done|].
    destruct e as [|[] ?|]; try done. by eapply Hc.
Qed.

Lemma wp_respects {E A} (Rel : Db -> Db -> Prop) (m : M World E A) w :
  db_respects Rel m -> wp m (fun _ w' => Rel (w_db w) (w_db w')) w.
Proof. intros H. apply (H w). Qed.

(** What is stored stays stored, and a transaction that was processed without a
    panic is stored. *)
Lemma wp_process_stores sc tx w :
  wp (GnosisSync.process_transaction sc tx) (fun r w' =>
    grows (w_db w) (w_db w') /\ (r = Ok tt -> processed (w_db w') tx)) w.
Proof.
  assert (grows (w_db w) (w_db w)) as Hrefl by reflexivity.
  apply wp_process_transaction; [intros msg w' _ ->; by split|]. intros w1 [Hd1 Hh1].
  unfold GnosisSync.process_transaction_body.
  destruct (tx_hash tx) as [hash|e|p] eqn:Eh.
  2-3: apply wp_seq, wp_attempt; unfold GnosisSafeTx.insert; rewrite Eh;
       apply wp_seq, wp_lift; simpl; try apply wp_throw; by split.
  apply wp_seq, wp_attempt, (wp_insert_safe_tx _ hash); [done| |].
  - rewrite Hd1. intros e w2 [Hd2 _] Hp.
    destruct e; try (apply wp_throw; by split). apply wp_ret. rewrite Hd2. eauto.
  - rewrite Hd1. intros i w2 Hi [Hd2 _].
    assert (grows (w_db w) (w_db w2)) as Hg2 by (rewrite Hd2; apply insert_evolves, Hi).
    assert (processed (w_db w2) tx) as Hp.
    { exists hash. split; [done|]. exists (safe_tx_row tx hash). split; [|done].
      rewrite Hd2, rows_db_insert. apply elem_of_app. right. by left. }
    eapply wp_mono; [apply (wp_respects evolves), respects_after_insert|].
    intros [[]|e|p] w3 [Hg3 _]; [|by split..].
    split; [by etrans|]. intros _. by eapply processed_grows.
Qed.

Lemma wp_transactions_store sc txs w :
  wp (for_each (GnosisSync.process_transaction sc) txs) (fun r w' =>
    grows (w_db w) (w_db w') /\
    (is_ok r = true -> forall tx, tx ∈ txs -> processed (w_db w') tx)) w.
Proof.
  revert w. induction txs as [|tx txs IH]; intros w; simpl.
  { apply wp_ret. split; [done|]. intros _ tx Htx. by apply elem_of_nil in Htx. }
  apply wp_seq. eapply wp_mono; [apply wp_process_stores|]. intros [[]|e|p] w1 [Hg1 Hp1]; [|by split..].
  apply wp_seq. eapply wp_mono; [apply IH|]. intros [l|e|p] w2 [Hg2 Hp2]; [|by split; [etrans|]..].
  apply wp_ret. split; [by etrans|]. intros _ tx' [->|Htx]%elem_of_cons; [|by apply Hp2].
  eapply processed_grows; [exact Hg2|]. by apply Hp1.
Qed.

Lemma wp_transactions_again sc txs w :
  healthy w -> (forall tx, tx ∈ txs -> processed (w_db w) tx) ->
  wp (for_each (GnosisSync.process_transaction sc) txs) (fun r w' =>
    is_ok r = true /\ leads w (w_db w) w') w.
Proof.
  revert w. induction txs as [|tx txs IH]; intros w Hh Hp; simpl; [apply wp_ret; by split|].
  apply wp_seq. eapply wp_mono; [apply wp_process_again; [done|apply Hp; by left]|].
  intros r w1 [-> Hl1]. pose proof Hl1 as [Hd1 Hh1].
  apply wp_seq. eapply wp_mono; [apply IH; [by apply Hh1|]|].
  { intros tx' Htx. rewrite Hd1. apply Hp. by right. }
  rewrite Hd1. intros [l|e|p] w2 [Hr Hl2]; [|done..]. apply wp_ret. split; [done|].
  by eapply leads_trans.
Qed.

(** C17: Polling again is harmless: once a list of transactions has been processed
    without a panic (with whatever faults), processing it again on any healthy
    world whose database has only grown since succeeds and writes nothing. *)
Theorem process_transactions_idempotent sc txs w w2 :
  is_ok (GnosisSync.process_transactions sc txs w).1 = true ->
  healthy w2 -> grows (w_db (GnosisSync.process_transactions sc txs w).2) (w_db w2) ->
  (GnosisSync.process_transactions sc txs w2).1 = Ok tt /\
  w_db (GnosisSync.process_transactions sc txs w2).2 = w_db w2.
Proof.
  intros Hok Hh Hg. change (wp (GnosisSync.process_transactions sc txs)
    (fun r w' => r = Ok tt /\ w_db w' = w_db w2) w2).
  assert (forall tx, tx ∈ txs -> processed (w_db w2) tx) as Hp.
  { pose proof (wp_transactions_store sc txs w) as [_ H].
    unfold GnosisSync.process_transactions, mbind, M_bind in Hok, Hg.
    destruct (for_each _ txs w) as [[l|e|p] w']; simpl in *; [|done..].
    intros tx Htx. eapply processed_grows; [exact Hg|]. by apply H. }
  apply wp_seq. eapply wp_mono; [by apply wp_transactions_again|].
  intros [l|e|p] w' [Hr [Hd _]]; [|done..]. by apply wp_ret.
Qed.

(** C22: Each transaction of a safe is processed completely or not at all: its
    processing never reports an error, and when it panics (which ends the thread of
    the safe) the database is what it was; what is stored is never removed. *)
Theorem process_transaction_atomic sc tx w :
  let (r, w') := GnosisSync.process_transaction sc tx w in
  grows (w_db w) (w_db w') /\
  match r with
  | Ok _ => processed (w_db w') tx
  | Err _ => False
  | Panic _ => w_db w' = w_db w
  end.
Proof.
  assert (wp (GnosisSync.process_transaction sc tx) (fun r w' =>
    (grows (w_db w) (w_db w') /\ (r = Ok tt -> processed (w_db w') tx)) /\
    match r with Ok _ => True | Err _ => False | Panic _ => w_db w' = w_db w end) w) as H.
  { apply wp_conj; [apply wp_process_stores|]. apply wp_process_transaction; [done|].
    intros w1 _. unfold wp. by destruct (GnosisSync.process_transaction_body sc tx w1) as [[]]. }
  unfold wp in H. destruct (GnosisSync.process_transaction sc tx w) as [[[]|e|p] w'];
    destruct H as [[Hg Hp] Hr]; split; auto.
Qed.

(** ** New transactions *)
Lemma fresh_insertable d tx hash :
  ~ processed d tx -> tx_hash tx = Ok hash ->
  insertable d (next_rowid (gnosis_safe_txs d)) (safe_tx_row tx hash).
Proof.
  intros Hp Eh. split; [done|apply next_rowid_fresh| |done]. intros [i r] Hr.
  apply String.eqb_neq. intros E. apply Hp. exists hash. split; [done|].
  exists r. split; [apply rows_elem_of; by exists i|done].
Qed.

Definition with_safe_tx d tx hash : Db :=
  db_insert (next_rowid (gnosis_safe_txs d)) (safe_tx_row tx hash) d.

Lemma wp_process_fresh sc tx hash Q w :
  healthy w -> tx_hash tx = Ok hash -> ~ processed (w_db w) tx ->
  (forall w1, leads w (with_safe_tx (w_db w) tx hash) w1 ->
     wp (after_insert sc tx) (fun r w' =>
       match r with
       | Ok a => Q (Ok a) w'
       | Err _ => Q (Panic "failed processing transaction") (set_db (w_db w) w')
       | Panic p => Q (Panic p) (set_db (w_db w) w')
       end) w1) ->
  wp (GnosisSync.process_transaction sc tx) Q w.
Proof.
  intros Hh Eh Hp HQ. pose proof (fresh_insertable _ _ _ Hp Eh) as Hins.
  apply wp_process_transaction; [done|]. intros w1 Hl1. pose proof Hl1 as [Hd1 Hh1].
  unfold GnosisSync.process_transaction_body. apply wp_seq, wp_attempt.
  unfold GnosisSafeTx.insert. rewrite Eh. apply wp_seq, wp_lift. simpl.
  apply wp_exec, wp_insert_into; rewrite Hd1.
  - intros e w2 [Hs|Hn]; [by destruct Hs; apply Hh1|by destruct (Hn _ Hins)].
  - intros i w2 Hi Hl2 _. destruct Hi as [Ei _ _ _]. simpl in Ei. subst i.
    apply HQ. by eapply leads_trans.
Qed.

(** The first transfer decides when it is to the safe. *)
Lemma wp_transfer_error sc t x e Q w :
  healthy w -> counters_ok (w_db w) ->
  EthAddr.eqb (et_to x) (sc_safe_addr sc) = true -> GnosisSync.parse_deposit sc t x = Err e ->
  (forall w', leads w (bump_db num_invalid_ethereum_transactions (w_db w)) w' ->
     Q (Err (GnosisErr e)) w') ->
  wp (GnosisSync.process_transfer sc t x) Q w.
Proof.
  intros Hh Hc Eto Ep HQ. unfold GnosisSync.process_transfer. rewrite Eto.
  apply wp_seq, wp_attempt, wp_lift. rewrite Ep. apply wp_seq, wp_inc; [by intros e' w' []|].
  intros w1 Hl1. apply wp_seq, wp_lift. simpl. by apply HQ.
Qed.

Lemma wp_process_first_error sc tx hash t x rest e Q w :
  healthy w -> counters_ok (w_db w) -> tx_hash tx = Ok hash -> ~ processed (w_db w) tx ->
  decode tx = Ok (Ethereum t) -> etx_transfers t = x :: rest ->
  EthAddr.eqb (et_to x) (sc_safe_addr sc) = true -> GnosisSync.parse_deposit sc t x = Err e ->
  (forall w', leads w (bump_db num_invalid_ethereum_transactions (with_safe_tx (w_db w) tx hash)) w' ->
     match e with
     | Gnosis.UnknownToken _ => Q (Ok tt) w'
     | _ => Q (Panic "failed processing transaction") (set_db (w_db w) w')
     end) ->
  wp (GnosisSync.process_transaction sc tx) Q w.
Proof.
  intros Hh Hc Eh Hp Ed Et Eto Ep HQ. eapply wp_process_fresh; [done..|].
  intros w1 Hl1. pose proof Hl1 as [Hd1 Hh1]. unfold after_insert. rewrite Ed.
  apply wp_seq, wp_lift. simpl. apply wp_seq, wp_attempt.
  unfold GnosisSync.process_eth_transaction. rewrite Et. apply wp_seq. simpl. apply wp_seq.
  eapply wp_transfer_error; [by apply Hh1|by rewrite Hd1|done..|].
  rewrite Hd1. intros w2 Hl2. specialize (HQ w2 (leads_trans _ _ _ _ _ Hl1 Hl2)).
  destruct e; first [by apply wp_throw|by apply wp_ret].
Qed.

(** C39: A transfer of a token that is not audited hides the deposits that follow it:
    when it is the first transfer of an Ethereum transaction, the transaction is
    committed with one increment of a counter and no deposit at all, whatever other
    transfers it has; and since it is stored, it is never looked at again. *)
Theorem unknown_token_hides_deposits sc tx hash t x rest token w :
  healthy w -> counters_ok (w_db w) -> tx_hash tx = Ok hash -> ~ processed (w_db w) tx ->
  decode tx = Ok (Ethereum t) -> etx_transfers t = x :: rest ->
  EthAddr.eqb (et_to x) (sc_safe_addr sc) = true -> et_token_addr x = Some token ->
  get_token_by_eth_contract_addr sc token = None ->
  (GnosisSync.process_transaction sc tx w).1 = Ok tt /\
  w_db (GnosisSync.process_transaction sc tx w).2
  = bump_db num_invalid_ethereum_transactions (with_safe_tx (w_db w) tx hash).
Proof.
  intros Hh Hc Eh Hp Ed Et Eto Etok Eget.
  change (wp (GnosisSync.process_transaction sc tx) (fun r w' => r = Ok tt /\
    w_db w' = bump_db num_invalid_ethereum_transactions (with_safe_tx (w_db w) tx hash)) w).
  eapply wp_process_first_error with (e := Gnosis.UnknownToken "Unknown token transfer"); [done..| |].
  - unfold GnosisSync.parse_deposit. rewrite Etok. simpl. by rewrite Eget.
  - by intros w' [Hd _].
Qed.

(** A transfer of Ether to the safe (one without a token address) that comes first
    panics and rolls everything back, the increment of the counter included. *)
Theorem ether_transfer_panics sc tx hash t x rest w :
  healthy w -> counters_ok (w_db w) -> tx_hash tx = Ok hash -> ~ processed (w_db w) tx ->
  decode tx = Ok (Ethereum t) -> etx_transfers t = x :: rest ->
  EthAddr.eqb (et_to x) (sc_safe_addr sc) = true -> et_token_addr x = None ->
  (GnosisSync.process_transaction sc tx w).1 = Panic "failed processing transaction" /\
  w_db (GnosisSync.process_transaction sc tx w).2 = w_db w.
Proof.
  intros Hh Hc Eh Hp Ed Et Eto Etok.
  change (wp (GnosisSync.process_transaction sc tx) (fun r w' =>
    r = Panic "failed processing transaction" /\ w_db w' = w_db w) w).
  eapply wp_process_first_error with
    (e := Gnosis.ApiResultParse "Transfer token address cannot be empty"); [done..| |done].
  unfold GnosisSync.parse_deposit. by rewrite Etok.
Qed.

(** ** Deposits and withdrawals *)
Lemma insertable_new {R} {T : Table R} {TL : TableLaws R} d (r : R) :
  row_explicit_id r = None -> (forall x, x ∈ rows d -> row_conflict r x = false) ->
  row_fk_ok d r = true -> insertable d (next_rowid (table_get (R := R) d)) r.
Proof.
  intros Eid Hu Hk. split; [by rewrite Eid|apply next_rowid_fresh| |done].
  intros [i x] Hx. apply Hu, rows_elem_of. by exists i.
Qed.

Lemma safe_tx_fk d tx hash :
  existsb (fun r => hash_column_eqb hash (gst_eth_tx_hash r.2))
    (gnosis_safe_txs (with_safe_tx d tx hash)) = true.
Proof.
  apply existsb_exists_elem. exists (next_rowid (gnosis_safe_txs d), safe_tx_row tx hash).
  split; [apply elem_of_app; right; by left|apply String.eqb_refl].
Qed.

(** The database when a deposit has been stored and not yet looked at. *)
Definition with_deposit d tx (y : GnosisSafeDeposit) : Db :=
  db_insert (next_rowid (gnosis_safe_deposits d)) y (with_safe_tx d tx (gsd_eth_tx_hash y)).
Definition new_deposit d (y : GnosisSafeDeposit) : GnosisSafeDeposit :=
  row_with_id (next_rowid (gnosis_safe_deposits d)) y.

Lemma deposit_insertable d tx y :
  gsd_id y = None -> (forall z, z ∈ rows d -> gsd_eth_tx_hash z <> gsd_eth_tx_hash y) ->
  insertable (with_safe_tx d tx (gsd_eth_tx_hash y)) (next_rowid (gnosis_safe_deposits d)) y.
Proof.
  intros Eid Hu.
  change (next_rowid (gnosis_safe_deposits d))
    with (next_rowid (table_get (with_safe_tx d tx (gsd_eth_tx_hash y)) : list (Z * GnosisSafeDeposit))).
  apply insertable_new; [done| |apply safe_tx_fk]. intros z Hz. apply String.eqb_neq. intros E%EthTxHash_display_inj. by destruct (Hu z).
Qed.

(** C24: A new Ethereum transaction with one transfer that parses as a deposit is
    committed with the transaction, the deposit and the outcome of looking for its
    mint: the audit row when the mint is there and matches, one counter when it is
    not. *)
Theorem deposit_recorded sc tx t x y w :
  healthy w -> integrity (w_db w) -> counters_ok (w_db w) ->
  tx_hash tx = Ok (gsd_eth_tx_hash y) -> ~ processed (w_db w) tx ->
  (forall z, z ∈ rows (w_db w) -> gsd_eth_tx_hash z <> gsd_eth_tx_hash y) ->
  decode tx = Ok (Ethereum t) -> etx_transfers t = [x] ->
  EthAddr.eqb (et_to x) (sc_safe_addr sc) = true -> GnosisSync.parse_deposit sc t x = Ok y ->
  let d := with_deposit (w_db w) tx y in
  (GnosisSync.process_transaction sc tx w).1 = Ok tt /\
  exists outcome, deposit_outcome d sc (new_deposit (w_db w) y) outcome /\
    let d' := w_db (GnosisSync.process_transaction sc tx w).2 in
    match outcome with
    | Ok m => exists mid, mt_id m = Some mid /\
                d' = record_audited_mint d mid (next_rowid (gnosis_safe_deposits (w_db w)))
    | Err e => d' = bump_db (deposit_counter e) d
    | Panic _ => False
    end.
Proof.
  intros Hh Hd Hc Eh Hp Hu Ed Et Eto Ey d.
  pose proof (parse_deposit_ok _ _ _ _ Ey) as [Eid _].
  pose proof (deposit_insertable _ tx _ Eid Hu) as Hins.
  change (wp (GnosisSync.process_transaction sc tx) (fun r w' => r = Ok tt /\
    exists outcome, deposit_outcome d sc (new_deposit (w_db w) y) outcome /\
    match outcome with
    | Ok m => exists mid, mt_id m = Some mid /\
                w_db w' = record_audited_mint d mid (next_rowid (gnosis_safe_deposits (w_db w)))
    | Err e => w_db w' = bump_db (deposit_counter e) d
    | Panic _ => False end) w).
  eapply wp_process_fresh; [done..|]. intros w1 Hl1. pose proof Hl1 as [Hd1 Hh1].
  unfold after_insert. rewrite Ed. apply wp_seq, wp_lift. simpl. apply wp_seq, wp_attempt.
  unfold GnosisSync.process_eth_transaction. rewrite Et. apply wp_seq. simpl. apply wp_seq.
  unfold GnosisSync.process_transfer. rewrite Eto.
  apply wp_seq, wp_attempt, wp_lift. rewrite Ey. apply wp_seq, wp_ret, wp_seq, wp_lift. simpl.
  apply wp_seq, wp_insert_deposit; [done|..]; rewrite Hd1.
  { intros e w2 [Hs|Hn]; [by destruct Hs; apply Hh1|by destruct (Hn _ Hins)]. }
  intros i w2 Hi [Hd2 Hh2]. pose proof (ins_rowid _ _ _ Hi) as Ei. simpl in Ei. rewrite Eid in Ei.
  simpl in Ei. subst i. change (w_db w2 = d) in Hd2.
  apply wp_seq, wp_attempt, wp_try_match_deposit; rewrite Hd2.
  - apply (insert_evolves _ _ _ Hins), (insert_evolves _ _ _ (fresh_insertable _ _ _ Hp Eh)), Hd.
  - done.
  - unfold d, with_deposit. rewrite rows_db_insert. apply elem_of_app. right. by left.
  - intros e w' []. by apply Hh2, Hh1.
  - intros e w' Ho [Hd' _]. apply wp_ret, wp_seq, wp_ret, wp_ret, wp_ret. split; [done|].
    by exists (Err e).
  - intros m mid did w' Ho _ Em Ex [Hd' _]. apply wp_ret, wp_seq, wp_ret, wp_ret, wp_ret.
    split; [done|]. exists (Ok m). split; [done|]. exists mid. split; [done|].
    injection Ex as <-. done.
Qed.

Definition with_withdrawal d tx (y : GnosisSafeWithdrawal) : Db :=
  db_insert (next_rowid (gnosis_safe_withdrawals d)) y (with_safe_tx d tx (gsw_eth_tx_hash y)).
Definition new_withdrawal d (y : GnosisSafeWithdrawal) : GnosisSafeWithdrawal :=
  row_with_id (next_rowid (gnosis_safe_withdrawals d)) y.

Lemma withdrawal_insertable d tx y :
  gsw_id y = None -> (forall z, z ∈ rows d -> gsw_eth_tx_hash z <> gsw_eth_tx_hash y) ->
  insertable (with_safe_tx d tx (gsw_eth_tx_hash y)) (next_rowid (gnosis_safe_withdrawals d)) y.
Proof.
  intros Eid Hu.
  change (next_rowid (gnosis_safe_withdrawals d)) with (next_rowid
    (table_get (with_safe_tx d tx (gsw_eth_tx_hash y)) : list (Z * GnosisSafeWithdrawal))).
  apply insertable_new; [done| |apply safe_tx_fk]. intros z Hz.
  apply String.eqb_neq. intros E%EthTxHash_display_inj. by destruct (Hu z).
Qed.

(** A new multi-signature transaction is stored, and then handled in the same transaction. *)
Lemma wp_process_multi_sig sc tx t hash Q w :
  healthy w -> integrity (w_db w) -> counters_ok (w_db w) ->
  tx_hash tx = Ok hash -> ~ processed (w_db w) tx -> decode tx = Ok (MultiSig t) ->
  (forall w1, leads w (with_safe_tx (w_db w) tx hash) w1 ->
     wp (GnosisSync.process_multi_sig_transaction sc t) (fun r w' =>
       match r with
       | Ok a => Q (Ok a) w'
       | Err _ => Q (Panic "failed processing transaction") (set_db (w_db w) w')
       | Panic p => Q (Panic p) (set_db (w_db w) w')
       end) w1) ->
  wp (GnosisSync.process_transaction sc tx) Q w.
Proof.
  intros Hh Hd Hc Eh Hp Ed HQ. eapply wp_process_fresh; [done..|]. intros w1 Hl1.
  unfold after_insert. rewrite Ed. apply wp_seq, wp_lift. simpl. by apply HQ.
Qed.

(** C25: A new multi-signature transaction of the safe that parses as a withdrawal is
    committed with the transaction, the withdrawal and the outcome of looking for
    its burn; one that does not parse is committed with one increment of the counter
    of invalid transactions. *)
Theorem withdrawal_recorded sc tx t hash w :
  healthy w -> integrity (w_db w) -> counters_ok (w_db w) ->
  tx_hash tx = Ok hash -> ~ processed (w_db w) tx -> decode tx = Ok (MultiSig t) ->
  EthAddr.eqb (ms_safe t) (sc_safe_addr sc) = true ->
  let d' := w_db (GnosisSync.process_transaction sc tx w).2 in
  match GnosisSync.parse_withdrawal_with_pub_key_multi_sig_tx sc t with
  | Ok y =>
      hash = gsw_eth_tx_hash y ->
      (forall z, z ∈ rows (w_db w) -> gsw_eth_tx_hash z <> gsw_eth_tx_hash y) ->
      let d := with_withdrawal (w_db w) tx y in
      (GnosisSync.process_transaction sc tx w).1 = Ok tt /\
      exists outcome, withdrawal_outcome d sc (new_withdrawal (w_db w) y) outcome /\
        match outcome with
        | Ok b => exists bid, bto_id b = Some bid /\
            d' = record_audited_burn d bid (next_rowid (gnosis_safe_withdrawals (w_db w)))
        | Err e => d' = bump_db (withdrawal_counter e) d
        | Panic _ => False
        end
  | Err _ =>
      (GnosisSync.process_transaction sc tx w).1 = Ok tt /\
      d' = bump_db num_invalid_multi_sig_transactions (with_safe_tx (w_db w) tx hash)
  | Panic p => (GnosisSync.process_transaction sc tx w).1 = Panic p /\ d' = w_db w
  end.
Proof.
  intros Hh Hd Hc Eh Hp Ed Esafe d'.
  pose proof (fun Q => wp_process_multi_sig sc tx t hash Q w Hh Hd Hc Eh Hp Ed) as Hwp.
  unfold GnosisSync.process_multi_sig_transaction in Hwp. rewrite Esafe in Hwp. simpl in Hwp.
  destruct (GnosisSync.parse_withdrawal_with_pub_key_multi_sig_tx sc t) as [y|e|p] eqn:Ey.
  - intros -> Hu d. pose proof (parse_withdrawal_ok _ _ _ Ey) as Eid.
    pose proof (withdrawal_insertable _ tx _ Eid Hu) as Hins.
    apply (Hwp (fun r w' => r = Ok tt /\
      exists outcome, withdrawal_outcome d sc (new_withdrawal (w_db w) y) outcome /\
      match outcome with
      | Ok b => exists bid, bto_id b = Some bid /\
          w_db w' = record_audited_burn d bid (next_rowid (gnosis_safe_withdrawals (w_db w)))
      | Err e => w_db w' = bump_db (withdrawal_counter e) d
      | Panic _ => False end)).
    intros w1 [Hd1 Hh1]. apply wp_seq, wp_attempt, wp_lift, wp_seq, wp_insert_withdrawal; [done|..];
      rewrite Hd1.
    { intros e w2 [Hs|Hn]; [by destruct Hs; apply Hh1|by destruct (Hn _ Hins)]. }
    intros i w2 Hi [Hd2 Hh2]. pose proof (ins_rowid _ _ _ Hi) as Ei. simpl in Ei.
    rewrite Eid in Ei. simpl in Ei. subst i. change (w_db w2 = d) in Hd2.
    apply wp_seq, wp_attempt, wp_try_match_withdrawal; rewrite Hd2.
    + apply (insert_evolves _ _ _ Hins), (insert_evolves _ _ _ (fresh_insertable _ _ _ Hp Eh)), Hd.
    + done.
    + unfold d, with_withdrawal. rewrite rows_db_insert. apply elem_of_app. right. by left.
    + intros e w' []. by apply Hh2, Hh1.
    + intros e w' Ho [Hd' _]. apply wp_ret. split; [done|]. by exists (Err e).
    + intros b bid wid w' Ho _ Eb Ex [Hd' _]. apply wp_ret. split; [done|]. exists (Ok b).
      split; [done|]. exists bid. split; [done|]. injection Ex as <-. done.
  - apply (Hwp (fun r w' => r = Ok tt /\
      w_db w' = bump_db num_invalid_multi_sig_transactions (with_safe_tx (w_db w) tx hash))).
    intros w1 [Hd1 Hh1]. apply wp_seq, wp_attempt, wp_lift, wp_inc; rewrite Hd1.
    + intros e' w' [Hs|[]]; [by destruct Hs; apply Hh1|done].
    + by intros w' [Hd' _].
  - apply (Hwp (fun r w' => r = Panic p /\ w_db w' = w_db w)). intros w1 _.
    apply wp_seq, wp_attempt, wp_lift. done.
Qed.
End following.

(** ** The transactions of the small safe *)
Definition ethereum_tx h t : raw_transaction := test_ethereum (EthTxHash.display h) t.
Definition multi_sig_tx h t : raw_transaction := test_multi_sig (EthTxHash.display h) t.
Definition hidden_tx : raw_transaction :=
  test_ethereum (EthTxHash.display deposit_hash)
    (mkEthereumTransaction deposit_hash 17
      [test_transfer test_burn_contract; test_transfer test_token_addr] (1000 : DateTime)).
Definition ether_transfer : EthereumTransfer :=
  mkEthereumTransfer test_sender test_safe_addr None deposit_hash "ETHER_TRANSFER" None
    (Some (EthTxValue.mk 1)).
Definition ether_etx : EthereumTransaction :=
  mkEthereumTransaction deposit_hash 17 [ether_transfer] (1000 : DateTime).
Definition ether_tx : raw_transaction := test_ethereum (EthTxHash.display deposit_hash) ether_etx.

Section scenario_facts.
Lemma ethereum_tx_hash h t : tx_hash (ethereum_tx h t) = Ok h.
Proof.
  change (tx_hash (ethereum_tx h t)) with
    (map_err (fun err => Gnosis.Other ("Failed parsing tx hash '" +:+ EthTxHash.display h +:+ "': "
      +:+ Gnosis.display err)) (EthTxHash.from_str (EthTxHash.display h))).
  by rewrite EthTxHash_from_display.
Qed.

Lemma multi_sig_tx_hash h t : tx_hash (multi_sig_tx h t) = Ok h.
Proof.
  change (tx_hash (multi_sig_tx h t)) with
    (map_err (fun err => Gnosis.Other ("Failed parsing tx hash '" +:+ EthTxHash.display h +:+ "': "
      +:+ Gnosis.display err)) (EthTxHash.from_str (EthTxHash.display h))).
  by rewrite EthTxHash_from_display.
Qed.

Lemma nothing_processed d tx : length (gnosis_safe_txs d) = 0%nat -> ~ processed d tx.
Proof.
  intros E%nil_length_inv (hash & _ & r & [i Hr]%rows_elem_of & _). simpl in Hr. rewrite E in Hr.
  by apply elem_of_nil in Hr.
Qed.

Lemma world_3_unprocessed tx : ~ processed (w_db (world_after 3)) tx.
Proof. apply nothing_processed, no_safe_rows. Qed.

Lemma no_row {R} {T : Table R} d (P : R -> Prop) :
  length (table_get (R := R) d) = 0%nat -> forall z, z ∈ rows d -> P z.
Proof. intros E%nil_length_inv z Hz. unfold rows in Hz. rewrite E in Hz. by apply elem_of_nil in Hz. Qed.

Lemma world_3_no_deposit (P : GnosisSafeDeposit -> Prop) z :
  z ∈ rows (w_db (world_after 3)) -> P z.
Proof. apply no_row. apply no_safe_rows. Qed.

Lemma world_3_no_withdrawal (P : GnosisSafeWithdrawal -> Prop) z :
  z ∈ rows (w_db (world_after 3)) -> P z.
Proof. apply no_row. apply no_safe_rows. Qed.
End scenario_facts.

Lemma process_transactions_idempotent_witness :
  let w' := (GnosisSync.process_transactions test_safe [deposit_tx; withdrawal_tx] (world_after 3)).2 in
  (GnosisSync.process_transactions test_safe [deposit_tx; withdrawal_tx] w').1 = Ok tt /\
  w_db (GnosisSync.process_transactions test_safe [deposit_tx; withdrawal_tx] w').2 = w_db w'.
Proof.
  intros w'. apply (process_transactions_idempotent test_safe _ (world_after 3) w').
  - vm_compute. reflexivity.
  - unfold w', healthy. vm_compute. reflexivity.
  - unfold w'. reflexivity.
Defined.

Lemma unknown_token_hides_deposits_witness :
  (GnosisSync.process_transaction test_safe hidden_tx (world_after 3)).1 = Ok tt /\
  w_db (GnosisSync.process_transaction test_safe hidden_tx (world_after 3)).2
  = bump_db num_invalid_ethereum_transactions
      (with_safe_tx (w_db (world_after 3)) hidden_tx deposit_hash).
Proof.
  eapply (unknown_token_hides_deposits test_safe hidden_tx deposit_hash);
    [apply world_after_healthy; lia|apply world_after_ready; lia|apply ethereum_tx_hash|
     apply world_3_unprocessed|reflexivity|reflexivity|reflexivity|reflexivity|reflexivity].
Defined.

Lemma ether_transfer_panics_witness :
  (GnosisSync.process_transaction test_safe ether_tx (world_after 3)).1
  = Panic "failed processing transaction" /\
  w_db (GnosisSync.process_transaction test_safe ether_tx (world_after 3)).2 = w_db (world_after 3).
Proof.
  eapply (ether_transfer_panics test_safe ether_tx deposit_hash);
    [apply world_after_healthy; lia|apply world_after_ready; lia|apply ethereum_tx_hash|
     apply world_3_unprocessed|reflexivity|reflexivity|reflexivity|reflexivity].
Defined.

Lemma deposit_recorded_witness :
  (GnosisSync.process_transaction test_safe deposit_tx (world_after 3)).1 = Ok tt.
Proof.
  eapply (deposit_recorded test_safe deposit_tx _ (test_transfer test_token_addr) test_deposit);
    [apply world_after_healthy; lia|apply world_after_ready; lia|apply world_after_ready; lia|
     apply (ethereum_tx_hash deposit_hash)|apply world_3_unprocessed|
     intros z; apply (world_3_no_deposit (fun z => gsd_eth_tx_hash z <> _))|
     reflexivity|reflexivity|reflexivity|reflexivity].
Defined.

Lemma withdrawal_parses :
  GnosisSync.parse_withdrawal_with_pub_key_multi_sig_tx test_safe
    (withdrawal_multi_sig [withdrawal_transfer]) = Ok test_withdrawal.
Proof. reflexivity. Qed.

Lemma withdrawal_recorded_witness :
  (GnosisSync.process_transaction test_safe withdrawal_tx (world_after 3)).1 = Ok tt.
Proof.
  pose proof (withdrawal_recorded test_safe withdrawal_tx (withdrawal_multi_sig [withdrawal_transfer])
    (gsw_eth_tx_hash test_withdrawal) (world_after 3)) as H.
  rewrite withdrawal_parses in H. apply H;
    [apply world_after_healthy; lia|apply world_after_ready; lia|apply world_after_ready; lia|
     apply (multi_sig_tx_hash (gsw_eth_tx_hash test_withdrawal))|apply world_3_unprocessed|
     reflexivity|reflexivity|reflexivity|
     intros z; apply (world_3_no_withdrawal (fun z => gsw_eth_tx_hash z <> _))].
Defined.
