(* ===== verification/ThreadProps.v ===== *)
(** * Properties of the threads that follow the safes

    The steps of a thread are the method [poll] cut at the points where other threads
    can come in between, and a thread that is told to stop does. *)

From S2P Require Import Prelude Externals Concrete GnosisTypes Errors Schema Database.
From S2P Require Import CountersModel Blocks Mints Burns GnosisConfig GnosisRows AuditedMints.
From S2P Require Import AuditedBurns SafeSync SafeThread AuditInvariant Handlers SafeSyncSpec.
From S2P Require Import Main SyncLoop Scenario SafeProps.
Import GnosisSyncThread.

Section thread.
Context {X_chrono : Chrono} {X_sqlite : Sqlite} {X_hex : Hex} {X_mc : MobileCoin} {X_url : UrlLib}.
Context {X_json : SerdeJson} {X_http : HttpClient} (fuel : nat) (poll_ms : Z).
Implicit Types (self : t) (w : World) (sync : Polling.GnosisSync).

(** The thread alone: the server's next request is the [n]-th. *)
Definition runs n (x y : t * World) : Prop := thread_step fuel n poll_ms x.1 x.2 = Some y.

(** Where a poll that ends in [r] leaves the thread. *)
Definition resting {A} sync (r : Res Error A) : Phase :=
  match r with
  | Ok _ => Sleeping sync
  | Err _ => Panicked "failed processing transaction"
  | Panic p => Panicked p
  end.

Lemma processing_runs n self sync txs w :
  let (r, w') := for_each (GnosisSync.process_transaction (Polling.audited_safe sync)) txs w in
  rtc (runs n) (set_phase (Processing sync txs) self, w) (set_phase (resting sync r) self, w').
Proof.
  revert w. induction txs as [|tx txs IH]; intros w; simpl; [by apply rtc_once|].
  unfold mbind, M_bind.
  destruct (GnosisSync.process_transaction (Polling.audited_safe sync) tx w) as [r w1] eqn:E.
  assert (forall p, (match r with Ok _ => Processing sync txs | r => resting sync r end) = p ->
    runs n (set_phase (Processing sync (tx :: txs)) self, w) (set_phase p self, w1)) as Hs.
  { intros p <-. unfold runs, thread_step. simpl. rewrite E. by destruct r. }
  destruct r as [[]|e|p]; [|by apply rtc_once, Hs..]. specialize (IH w1).
  destruct (for_each _ txs w1) as [[l|e|p] w2]; (eapply rtc_l; [by apply Hs|exact IH]).
Qed.

Lemma poll_runs n self sync w r w' :
  phase self = Fetching sync -> Polling.poll fuel n sync w = Some (r, w') ->
  rtc (runs n) (self, w) (set_phase (resting sync r) self, w').
Proof.
  intros Hp. assert (forall y, thread_step fuel n poll_ms self w = Some y -> runs n (self, w) y) as Hs by done.
  unfold thread_step in Hs. rewrite Hp in Hs. unfold Polling.poll.
  destruct (Polling.fetch fuel n sync) as [[txs|e|p]|]; [|intros [= <- <-]; by apply rtc_once, Hs..|done].
  intros [= E]. eapply rtc_l; [by apply Hs|]. pose proof (processing_runs n self sync txs w) as H.
  unfold GnosisSync.process_transactions, mbind, M_bind in E.
  destruct (for_each _ txs w) as [[l|e|p] w1]; injection E as <- <-; exact H.
Qed.

(** ** Stopping *)

(** The thread's steps, whatever other threads do to the database meanwhile. *)
Definition moves self self' : Prop := exists n w w', thread_step fuel n poll_ms self w = Some (self', w').
Definition fetching self : Prop := exists sync, phase self = Fetching sync.

(** The steps a stopping thread that is not fetching has left. *)
Definition steps_left (p : Phase) : nat :=
  match p with
  | Starting _ | Sleeping _ => 2
  | Checking _ => 1
  | Fetching _ => 0
  | Processing _ txs => 3 + length txs
  | Finished | Panicked _ => 0
  end.

Lemma moves_phase self self' :
  moves self self' -> exists p, self' = set_phase p self /\ forall p', phase (set_phase p' self) = p'.
Proof.
  intros (n & w & w' & E). unfold thread_step in E. repeat case_match; simplify_eq; eauto.
Qed.

Lemma moves_stopping self self' : moves self self' -> stop_requested self' = stop_requested self.
Proof. by intros (p & -> & _)%moves_phase. Qed.

Lemma stopping_step self self' :
  stop_requested self = true -> ~ fetching self -> moves self self' ->
  ~ fetching self' /\ (steps_left (phase self') < steps_left (phase self))%nat.
Proof.
  intros Hs Hf (n & w & w' & E). unfold fetching, thread_step in *. rewrite Hs in E.
  destruct (phase self) as [sc|sync|sync|sync [|tx txs]|sync| |m] eqn:Ep; simpl.
  3: by destruct Hf; eauto.
  all: repeat case_match; simplify_eq; simpl; split; try lia; by intros [? ?].
Qed.

Lemma stopping_acc self :
  stop_requested self = true -> ~ fetching self -> Acc (flip moves) self.
Proof.
  remember (steps_left (phase self)) as k eqn:Ek. revert self Ek.
  induction (lt_wf k) as [k _ IH]. intros self -> Hs Hf. constructor. intros self' Hm.
  destruct (stopping_step _ _ Hs Hf Hm) as [Hf' Hlt]. eapply IH; [exact Hlt|done|..|done].
  by rewrite (moves_stopping _ _ Hm).
Qed.

Lemma fetching_step self self' : fetching self -> moves self self' -> ~ fetching self'.
Proof.
  intros (sync & Ep) (n & w & w' & E). unfold thread_step in E. rewrite Ep in E.
  repeat case_match; simplify_eq; by intros [? ?].
Qed.

Lemma fetching_dec self : fetching self \/ ~ fetching self.
Proof. unfold fetching. destruct (phase self); eauto; right; by intros [? ?]. Qed.

Lemma stopping_ends self : stop_requested self = true -> Acc (flip moves) self.
Proof.
  intros Hs. destruct (fetching_dec self) as [Hf|Hf]; [|by apply stopping_acc].
  constructor. intros self' Hm. apply stopping_acc; [by rewrite (moves_stopping _ _ Hm)|].
  by eapply fetching_step.
Qed.

Lemma thread_progress self :
  (forall n sync, is_Some (Polling.fetch fuel n sync)) ->
  ended self \/ forall n w, is_Some (thread_step fuel n poll_ms self w).
Proof.
  intros Hfetch. unfold ended, thread_step.
  destruct (phase self) as [sc|sync|sync|sync [|tx txs]|sync| |m]; auto; right; intros n w.
  - destruct (Polling.new sc); eauto.
  - destruct (stop_requested self); eauto.
  - destruct (Hfetch n sync) as [[] ->]; eauto.
  - destruct (GnosisSync.process_transaction (Polling.audited_safe sync) tx w) as [[[]|e|p] w']; eauto.
Qed.

Lemma ended_join {E} self : ended self -> is_Some (join (E := E) self).
Proof. unfold ended, join. destruct (join_handle self), (phase self); simpl; eauto; done. Qed.

(** C19: A thread that is told to stop stops.  When every fetch comes to an end, then
    from the moment [stop_requested] is set the thread makes only finitely many more
    steps, whatever the database and the server show it; it can always make the
    next one until it has ended, it starts no further fetch except the one it has
    decided on already, and once it has ended [stop] no longer waits. *)
Theorem stop_ends_thread self :
  (forall n sync, is_Some (Polling.fetch fuel n sync)) -> stop_requested self = true ->
  Acc (flip moves) self /\
  forall self', rtc moves self self' ->
    (ended self' \/ forall n w, is_Some (thread_step fuel n poll_ms self' w)) /\
    (ended self' -> is_Some (join (E := Error) self')) /\
    (fetching self' -> self' = self).
Proof.
  intros Hfetch Hs. split; [by apply stopping_ends|]. intros self' Hr.
  split; [|split; [apply ended_join|]].
  - by apply thread_progress.
  - assert (stop_requested self' = true /\ (self' = self \/ ~ fetching self')) as [_ [|]]; [|done..].
    revert self' Hr. apply rtc_ind_r; [by auto|]. intros s1 s2 _ Hm [Hs1 _].
    rewrite (moves_stopping _ _ Hm). split; [done|right].
    destruct (fetching_dec s1) as [Hf|Hf]; [by eapply fetching_step|].
    by eapply stopping_step, Hm.
Qed.
End thread.

Section polling.
Context {X_chrono : Chrono} {X_sqlite : Sqlite} {L_sqlite : SqliteLaws}.
Context {X_hex : Hex} {L_hex : HexLaws} {X_mc : MobileCoin} {L_mc : MobileCoinLaws} {X_url : UrlLib}.
Context {X_hash : HashOrder} {L_hash : HashOrderLaws} {X_json : SerdeJson} {X_http : HttpClient}.

Lemma process_transaction_no_err sc tx w e w' : GnosisSync.process_transaction sc tx w <> (Err e, w').
Proof.
  unfold GnosisSync.process_transaction, mbind, M_bind, expect.
  destruct (get_conn w) as [[] ?]; [|congruence..]. by destruct (exclusive_transaction _ _) as [[] ?].
Qed.

Lemma for_each_no_err sc txs w e w' : for_each (GnosisSync.process_transaction sc) txs w <> (Err e, w').
Proof.
  revert w. induction txs as [|tx txs IH]; intros w; simpl; [done|]. unfold mbind, M_bind.
  destruct (GnosisSync.process_transaction sc tx w) as [[[]|e1|p] w1] eqn:E; [|by apply process_transaction_no_err in E|done].
  specialize (IH w1). by destruct (for_each _ txs w1) as [[] ?].
Qed.

(** C18: A poll, from the fetch on: the method [poll] as a whole and the steps of the
    thread with nothing in between end in the same phase and the same world; a poll
    never reports an error; nothing stored is lost; a failed fetch leaves the
    database as it was; and after a fetch and no panic every transaction of every
    page is stored. *)
Theorem poll_follows fuel poll_ms n self sync w r w' :
  phase self = Fetching sync -> Polling.poll fuel n sync w = Some (r, w') ->
  rtc (runs fuel poll_ms n) (self, w) (set_phase (resting sync r) self, w') /\
  (forall e, r <> Err e) /\ grows (w_db w) (w_db w') /\
  match Polling.fetch fuel n sync with
  | Some (Ok txs) => r = Ok tt -> forall tx, tx ∈ txs -> processed (w_db w') tx
  | _ => w_db w' = w_db w
  end.
Proof.
  intros Hp E. split; [by apply poll_runs|]. unfold Polling.poll in E.
  destruct (Polling.fetch fuel n sync) as [[txs|e|p]|]; [|by simplify_eq..|done].
  pose proof (wp_transactions_store (Polling.audited_safe sync) txs w) as H.
  unfold wp in H. unfold GnosisSync.process_transactions, mbind, M_bind in E.
  pose proof (for_each_no_err (Polling.audited_safe sync) txs w) as Herr.
  destruct (for_each _ txs w) as [[l|e|p] w1]; [|by edestruct Herr|]; injection E as <- <-;
    destruct H as [Hg Hs]; split_and!; try done. auto.
Qed.
End polling.

Definition test_sync : Polling.GnosisSync := Polling.mkGnosisSync ("http://safe/" : Url) test_safe.
Definition fetching_thread : t := mkThread false true (Fetching test_sync).

Lemma test_fetch_ends n sync : is_Some (Polling.fetch 2 n sync).
Proof.
  unfold Polling.fetch, GnosisSafeFetcher.get_all_transaction_data. simpl.
  unfold GnosisSafeFetcher.get_all_transaction_data_from_url. simpl.
  destruct (String.eqb _ _); simpl; by eexists.
Qed.

Lemma poll_follows_witness : exists w',
  Polling.poll 2 0 test_sync (world_after 3) = Some (Ok tt, w') /\
  processed (w_db w') deposit_tx /\ processed (w_db w') withdrawal_tx.
Proof.
  assert (option_map (fun x => is_ok x.1) (Polling.poll 2 0 test_sync (world_after 3)) = Some true) as Hok
    by (vm_compute; reflexivity).
  revert Hok. generalize (world_after 3) as w. intros w Hok.
  destruct (Polling.poll 2 0 test_sync w) as [[r w']|] eqn:E; [|discriminate Hok].
  destruct (poll_follows 2 0 0 fetching_thread test_sync w r w' eq_refl E) as (_ & _ & _ & H).
  destruct r as [[]|e|p]; [|discriminate Hok|discriminate Hok]. exists w'. split; [reflexivity|].
  change (Ok (E := Error) () = Ok () -> forall tx, tx ∈ [deposit_tx; withdrawal_tx] -> processed (w_db w') tx) in H.
  split; apply H; [reflexivity|left|reflexivity|right; left].
Defined.

(** Told to stop while it is about to fetch. *)
Lemma stop_ends_thread_witness :
  Acc (flip (moves 2 1000)) (request_stop fetching_thread).
Proof. apply (stop_ends_thread 2 1000); [apply test_fetch_ends|reflexivity]. Defined.
