(* ===== verification/Process.v ===== *)
(** * The process of [cmd_scan_ledger]

    The main loop, the threads that follow the safes, the reads of the gRPC service
    and whatever happens outside, interleaved.  When [sync_loop] fails, [expect]
    unwinds the main thread and drops the handles of the other threads one after
    the other; every drop waits for its thread.  The process ends only then, and
    only then can it be launched again. *)

From S2P Require Import Prelude Externals Concrete GnosisTypes Errors Schema Database.
From S2P Require Import CountersModel Blocks Mints Burns GnosisConfig GnosisRows AuditedMints.
From S2P Require Import AuditedBurns SyncBlock LedgerSpec LedgerSync SafeSync SafeThread.
From S2P Require Import AuditInvariant Main Faults Handlers SyncLoop SafeSyncSpec Scenario System.
From S2P Require Import Complete CompleteSteps CompleteProps SafeProps ThreadProps.
Import GnosisSyncThread.

Module Process.
Section operations.
Context {X_chrono : Chrono} {X_sqlite : Sqlite} {X_hex : Hex} {X_mc : MobileCoin} {X_url : UrlLib}
  {X_json : SerdeJson} {X_http : HttpClient} {X_hash : HashOrder} {X_ledger : LedgerDB}.
Context (fuel : nat) (poll_ms : Z) (oconfig : option GnosisSafeConfig) (watcher : option WatcherDB).
Context (env : World -> World -> Prop).   (* what happens outside *)

(** Where the main thread is: in [sync_loop], in the [sleep] after it, dropping the
    [i]-th handle, or gone. *)
Inductive MainPhase := Scanning | Waiting | Unwinding (i : nat) | Exited | Aborted.

Record process := mkProcess { main_phase : MainPhase; threads : list t; world : World }.

Definition alive (m : MainPhase) : Prop := match m with Exited | Aborted => False | _ => True end.

(** The process once the database is open. *)
Definition launched (w : World) : process :=
  mkProcess Scanning (match oconfig with Some config => start <$> gc_safes config | None => [] end) w.

Inductive process_step : process -> process -> Prop :=
| step_iteration n ts w more w' :
    Main.sync_iteration oconfig watcher n w = (Ok more, w') ->
    process_step (mkProcess Scanning ts w) (mkProcess (if more then Scanning else Waiting) ts w')
| step_fail n ts w r w' :
    Main.sync_iteration oconfig watcher n w = (r, w') -> is_ok r = false ->
    process_step (mkProcess Scanning ts w) (mkProcess (Unwinding 0) ts w')
| step_wait ts w : process_step (mkProcess Waiting ts w) (mkProcess Scanning ts (add_sleep poll_ms w))
| step_request i ts w th :
    ts !! i = Some th -> stop_requested th = false ->
    process_step (mkProcess (Unwinding i) ts w)
      (mkProcess (Unwinding i) (<[i := request_stop th]> ts) w)
| step_join i ts w th r th' :
    ts !! i = Some th -> stop_requested th = true -> join (E := Error) th = Some (r, th') ->
    process_step (mkProcess (Unwinding i) ts w)
      (mkProcess (if is_ok r then Unwinding (S i) else Aborted) (<[i := th']> ts) w)
| step_unwound ts w :
    process_step (mkProcess (Unwinding (length ts)) ts w) (mkProcess Exited ts w)
| step_thread i n m ts w th th' w' :
    alive m -> ts !! i = Some th -> thread_step fuel n poll_ms th w = Some (th', w') ->
    process_step (mkProcess m ts w) (mkProcess m (<[i := th']> ts) w')
| step_read {A} (q : App A) P m ts w :
    alive m -> query q P -> process_step (mkProcess m ts w) (mkProcess m ts (q w).2)
| step_environment m ts w w' :
    alive m -> env w w' -> process_step (mkProcess m ts w) (mkProcess m ts w').
End operations.
End Process.
Import Process.

Lemma join_phase `{X_chrono : Chrono, X_hex : Hex, X_url : UrlLib, X_json : SerdeJson}
    (r : Res Error unit) th th' : join th = Some (r, th') -> phase th' = phase th.
Proof. unfold join. intros E. by repeat case_match; simplify_eq. Qed.

Section refinement.
Context {X_chrono : Chrono} {X_sqlite : Sqlite} {X_hex : Hex} {X_mc : MobileCoin} {X_url : UrlLib}
  {X_json : SerdeJson} {X_http : HttpClient} {X_hash : HashOrder} {X_ledger : LedgerDB}.
Context (fuel : nat) (poll_ms : Z) (oconfig : option GnosisSafeConfig) (watcher : option WatcherDB).
Context (env : World -> World -> Prop) (config : GnosisSafeConfig).

(** A thread works for a safe of the configuration. *)
Definition follows_safe (th : t) : Prop :=
  match phase th with
  | Starting safe => safe ∈ gc_safes config
  | Checking sync | Fetching sync | Processing sync _ | Sleeping sync =>
      Polling.audited_safe sync ∈ gc_safes config
  | Finished | Panicked _ => True
  end.

(** ** Projection to the steps on the database *)
Context (R : World -> World -> Prop).
Context (R_sync : forall n w, R w (Main.sync_iteration oconfig watcher n w).2).
Context (R_follow : forall sc tx w,
  sc ∈ gc_safes config -> R w (GnosisSync.process_transaction sc tx w).2).
Context (R_read : forall A (m : App A) P w, query m P -> R w (m w).2).
Context (R_env : forall w w', env w w' -> R w w').
Context (R_outside : forall w w', w_db w' = w_db w -> w_faults w' = w_faults w -> R w w').

Lemma new_safe sc sync : Polling.new sc = Ok sync -> Polling.audited_safe sync = sc.
Proof.
  unfold Polling.new, mbind, Res_bind, res_bind. destruct (GnosisSafeFetcher.new _); [|done..].
  by intros [= <-].
Qed.

Lemma thread_step_projects n th w th' w' :
  follows_safe th -> thread_step fuel n poll_ms th w = Some (th', w') -> follows_safe th' /\ rtc R w w'.
Proof.
  unfold follows_safe, thread_step. intros Hth E.
  destruct (phase th) as [sc|sync|sync|sync [|tx txs]|sync| |m]; [..|done|done].
  - destruct (Polling.new sc) as [sync|e|p] eqn:En; injection E as <- <-; (split; [|apply rtc_refl]); simpl; [|done..].
    by rewrite (new_safe _ _ En).
  - destruct (stop_requested th); injection E as <- <-; (split; [done|apply rtc_refl]).
  - destruct (Polling.fetch fuel n sync) as [[l|e|p]|]; [injection E as <- <-..|done];
      (split; [done|]); [apply rtc_refl|by apply rtc_once, R_outside|apply rtc_refl].
  - injection E as <- <-. split; [done|apply rtc_refl].
  - pose proof (R_follow (Polling.audited_safe sync) tx w Hth) as HR.
    destruct (GnosisSync.process_transaction _ tx w) as [[[]|e|p] w1]; injection E as <- <-;
      (split; [done|by apply rtc_once]).
  - injection E as <- <-. split; [done|by apply rtc_once, R_outside].
Qed.

Lemma join_follows (r : Res Error unit) th th' : join th = Some (r, th') -> follows_safe th -> follows_safe th'.
Proof. intros E. unfold follows_safe. by rewrite (join_phase _ _ _ E). Qed.

Lemma process_step_projects p p' :
  Forall follows_safe (threads p) -> process_step fuel poll_ms oconfig watcher env p p' ->
  Forall follows_safe (threads p') /\ rtc R (world p) (world p').
Proof.
  intros Hts Hs. revert Hts. destruct Hs as [n ts w more w' E|n ts w r w' E _|ts w|i ts w th Hi _|i ts w th r th' Hi _ Ej|ts w
    |i n m ts w th th' w' _ Hi E|A q P m ts w _ Hq|m ts w w' _ He]; simpl; intros Hts.
  - split; [done|]. pose proof (R_sync n w) as HR. rewrite E in HR. by apply rtc_once.
  - split; [done|]. pose proof (R_sync n w) as HR. rewrite E in HR. by apply rtc_once.
  - split; [done|by apply rtc_once, R_outside].
  - split; [|apply rtc_refl]. apply Forall_insert; [done|]. by apply (Forall_lookup_1 _ _ _ _ Hts Hi).
  - split; [|apply rtc_refl]. apply Forall_insert; [done|].
    eapply join_follows; [done|]. by apply (Forall_lookup_1 _ _ _ _ Hts Hi).
  - split; [done|apply rtc_refl].
  - apply thread_step_projects in E as [Hth HR]; [|by apply (Forall_lookup_1 _ _ _ _ Hts Hi)].
    split; [by apply Forall_insert|done].
  - split; [done|]. by eapply rtc_once, R_read.
  - split; [done|]. by apply rtc_once, R_env.
Qed.

Lemma process_run_projects w p :
  oconfig = None \/ oconfig = Some config ->
  rtc (process_step fuel poll_ms oconfig watcher env) (launched oconfig w) p -> rtc R w (world p).
Proof.
  intros Hoc Hr.
  assert (forall p1 p2, rtc (process_step fuel poll_ms oconfig watcher env) p1 p2 ->
    Forall follows_safe (threads p1) -> rtc R (world p1) (world p2)) as H.
  { intros p1 p2 Hr'. induction Hr' as [q|q1 q2 q3 Hs _ IH]; intros Hts; [apply rtc_refl|].
    destruct (process_step_projects _ _ Hts Hs) as [Hts' HR]. etrans; [exact HR|by apply IH]. }
  apply (H _ _ Hr). destruct Hoc as [-> | ->]; simpl; [constructor|].
  apply Forall_fmap, Forall_forall. by intros sc Hsc.
Qed.
End refinement.

(** ** Shutting down *)
Section shutdown.
Context {X_chrono : Chrono} {X_sqlite : Sqlite} {X_hex : Hex} {X_mc : MobileCoin} {X_url : UrlLib}
  {X_json : SerdeJson} {X_http : HttpClient} {X_hash : HashOrder} {X_ledger : LedgerDB}.
Context (fuel : nat) (poll_ms : Z) (oconfig : option GnosisSafeConfig) (watcher : option WatcherDB).
Context (env : World -> World -> Prop).
Abbreviation steps := (rtc (process_step fuel poll_ms oconfig watcher env)).

Definition panicked (th : t) : Prop := exists msg, phase th = Panicked msg.

(** What the main thread has made sure of about the [j]-th thread. *)
Definition watched (m : MainPhase) (j : nat) (th : t) : Prop :=
  match m with
  | Scanning | Waiting => join_handle th = true
  | Unwinding i => if decide (j < i)%nat then ended th else join_handle th = true
  | Exited => ended th
  | Aborted => True
  end.
Record unwinds (p : process) : Prop := {
  unwinds_threads j th : threads p !! j = Some th -> watched (main_phase p) j th;
  unwinds_index i : main_phase p = Unwinding i -> (i <= length (threads p))%nat;
  unwinds_abort : main_phase p = Aborted -> exists j th, threads p !! j = Some th /\ panicked th;
}.

Lemma thread_step_handle n th w th' w' :
  thread_step fuel n poll_ms th w = Some (th', w') ->
  ~ ended th /\ join_handle th' = join_handle th /\ stop_requested th' = stop_requested th.
Proof.
  intros E. split.
  - unfold ended. intros He. unfold thread_step in E. by destruct (phase th).
  - destruct (moves_phase fuel poll_ms th th') as (ph & -> & _); [by exists n, w, w'|done].
Qed.

Lemma join_inv (r : Res Error unit) th th' :
  join th = Some (r, th') -> join_handle th = true ->
  ended th /\ (is_ok r = true \/ panicked th').
Proof.
  unfold join, ended, panicked. intros E Hj. rewrite Hj in E. simpl in E.
  destruct (phase th) eqn:Ep; [done..| |]; injection E as <- <-; simpl; eauto.
Qed.

Lemma watched_insert m (ts : list t) i th th' :
  (forall j u, ts !! j = Some u -> watched m j u) -> ts !! i = Some th -> watched m i th' ->
  forall j u, <[i := th']> ts !! j = Some u -> watched m j u.
Proof. intros Hw Hi Hth j u [(-> & <- & _)|[_ Hj]]%list_lookup_insert_Some; [done|by apply Hw]. Qed.

Lemma watched_step n m j th w th' w' :
  thread_step fuel n poll_ms th w = Some (th', w') -> watched m j th -> watched m j th'.
Proof.
  intros (Hne & Hh & _)%thread_step_handle. unfold watched.
  destruct m; [by rewrite Hh..| |done|done]. case_decide; [done|by rewrite Hh].
Qed.

Lemma step_unwinds p p' :
  unwinds p -> process_step fuel poll_ms oconfig watcher env p p' -> unwinds p'.
Proof.
  intros Hp Hs. revert Hp. destruct Hs as [n ts w more w' E|n ts w r w' E _|ts w|i ts w th Hi _
    |i ts w th r th' Hi _ Ej|ts w|i n m ts w th th' w' Hm Hi E|A q P m ts w _ Hq|m ts w w' _ He];
    intros [Hts Hix Hab]; simpl in *; try done.
  - destruct more; split; simpl; done.
  - split; simpl; [|intros i [= <-]; lia|done]. intros j th Hj. exact (Hts j th Hj).
  - split; simpl; [|intros j [= <-]; rewrite length_insert; by apply Hix|done].
    exact (watched_insert (Unwinding i) ts i th (request_stop th) Hts Hi (Hts i th Hi)).
  - pose proof (Hts i th Hi) as Hth. simpl in Hth. rewrite decide_False in Hth by lia.
    destruct (join_inv _ _ _ Ej Hth) as [He Hr]. pose proof (lookup_lt_Some _ _ _ Hi) as Hlt.
    destruct (is_ok r) eqn:Er; split; simpl; try done.
    + intros j u [(-> & <- & _)|[Hne Hj]]%list_lookup_insert_Some.
      * rewrite decide_True by lia. unfold ended. by rewrite (join_phase _ _ _ Ej).
      * specialize (Hts j u Hj). simpl in Hts. destruct (decide (j < i)%nat).
        { by rewrite decide_True by lia. } by rewrite decide_False by lia.
    + intros j [= <-]. rewrite length_insert. lia.
    + intros _. destruct Hr as [|Hr]; [done|]. exists i, th'.
      split; [by apply list_lookup_insert_eq|done].
  - split; simpl; [|done|done]. intros j th Hj. specialize (Hts j th Hj). simpl in Hts.
    apply lookup_lt_Some in Hj. by rewrite decide_True in Hts.
  - split; simpl.
    + exact (watched_insert m ts i th th' Hts Hi (watched_step n m i th w th' w' E (Hts i th Hi))).
    + intros j Ej. rewrite length_insert. by apply Hix.
    + intros ->. done.
Qed.

Lemma launched_unwinds w p : steps (launched oconfig w) p -> unwinds p.
Proof.
  intros Hs. assert (unwinds (launched oconfig w)) as H.
  { split; simpl; [|done|done]. intros j th Hj. destruct oconfig as [config|]; [|done].
    apply list_lookup_fmap_Some in Hj as (sc & -> & _). done. }
  revert H. induction Hs as [|p1 p2 p3 Hst _ IH]; intros H; [done|]. by eapply IH, step_unwinds.
Qed.

Context (Hfetch : forall n sync, is_Some (Polling.fetch fuel n sync)).

Lemma thread_finishes m (ts : list t) w i th :
  alive m -> stop_requested th = true -> ts !! i = Some th ->
  exists th' w', steps (mkProcess m ts w) (mkProcess m (<[i := th']> ts) w') /\
    ended th' /\ stop_requested th' = true.
Proof.
  intros Hm Hs. pose proof (stopping_ends fuel poll_ms th Hs) as Hacc. revert ts w Hs.
  induction Hacc as [th _ IH]; intros ts w Hs Hi.
  destruct (thread_progress fuel poll_ms th Hfetch) as [He|Hgo].
  { exists th, w. rewrite list_insert_id by done. split; [apply rtc_refl|done]. }
  destruct (Hgo 0%nat w) as [[th1 w1] E]. pose proof (thread_step_handle _ _ _ _ _ E) as (_ & _ & Hs1).
  destruct (IH th1) with (ts := <[i := th1]> ts) (w := w1) as (th2 & w2 & Hr & He & Hs2).
  - by exists 0%nat, w, w1.
  - by rewrite Hs1.
  - apply list_lookup_insert_eq. by eapply lookup_lt_Some.
  - exists th2, w2. rewrite list_insert_insert_eq in Hr. split; [|done].
    eapply rtc_l; [by eapply step_thread|exact Hr].
Qed.

Lemma unwinding_ends (ts : list t) w i :
  (i <= length ts)%nat ->
  exists p', steps (mkProcess (Unwinding i) ts w) p' /\ (main_phase p' = Exited \/ main_phase p' = Aborted).
Proof.
  remember (length ts - i)%nat as k eqn:Ek. revert ts w i Ek.
  induction k as [|k IH]; intros ts w i Ek Hi.
  { replace i with (length ts) by lia. eexists. split; [apply rtc_once, step_unwound|by left]. }
  destruct (lookup_lt_is_Some_2 ts i) as [th Hth]; [lia|].
  assert (exists ts1 th1 w1, steps (mkProcess (Unwinding i) ts w) (mkProcess (Unwinding i) ts1 w1) /\
    length ts1 = length ts /\ ts1 !! i = Some th1 /\ stop_requested th1 = true /\ ended th1)
    as (ts1 & th1 & w1 & Hr & Hl & Hth1 & Hs1 & He1).
  { assert (exists ts0 th0, steps (mkProcess (Unwinding i) ts w) (mkProcess (Unwinding i) ts0 w) /\
      length ts0 = length ts /\ ts0 !! i = Some th0 /\ stop_requested th0 = true)
      as (ts0 & th0 & Hr0 & Hl0 & Hth0 & Hs0).
    { destruct (stop_requested th) eqn:Es; [by exists ts, th|].
      exists (<[i := request_stop th]> ts), (request_stop th).
      split; [by apply rtc_once, step_request|]. rewrite length_insert.
      split; [done|]. split; [apply list_lookup_insert_eq; lia|done]. }
    destruct (thread_finishes (Unwinding i) ts0 w i th0) as (th1 & w1 & Hr1 & He1 & Hs1); [done..|].
    exists (<[i := th1]> ts0), th1, w1. rewrite length_insert.
    split; [by etrans|]. split; [done|]. split; [apply list_lookup_insert_eq; lia|done]. }
  destruct (ended_join (E := Error) th1 He1) as [[r th2] Ej].
  pose proof (step_join fuel poll_ms oconfig watcher env i ts1 w1 th1 r th2 Hth1 Hs1 Ej) as Hj.
  destruct (is_ok r).
  - destruct (IH (<[i := th2]> ts1) w1 (S i)) as (p' & Hp & Hm); [rewrite length_insert; lia..|].
    exists p'. split; [|done]. etrans; [exact Hr|]. by eapply rtc_l.
  - eexists. split; [by eapply rtc_r|]. by right.
Qed.
End shutdown.

(** ** Properties *)
Section properties.
Context {X_chrono : Chrono} {X_sqlite : Sqlite} {L_sqlite : SqliteLaws}.
Context {X_hex : Hex} {L_hex : HexLaws} {X_mc : MobileCoin} {L_mc : MobileCoinLaws} {X_url : UrlLib}.
Context {X_hash : HashOrder} {L_hash : HashOrderLaws} {X_json : SerdeJson} {X_http : HttpClient}
  {X_ledger : LedgerDB}.

Lemma process_system_steps config oconfig watcher fuel poll_ms env w p :
  oconfig = None \/ oconfig = Some config ->
  (forall w1 w2, env w1 w2 -> w_db w2 = w_db w1) ->
  rtc (process_step fuel poll_ms oconfig watcher env) (launched oconfig w) p ->
  rtc (system_step config) w (world p).
Proof.
  intros Hoc Henv Hs. eapply process_run_projects; [..|exact Hoc|exact Hs].
  - intros n w1. by apply system_sync.
  - intros sc tx w1. apply system_follow.
  - intros A m P w1. apply system_read.
  - intros w1 w2 He. by apply system_environment, Henv.
  - intros w1 w2 E _. by apply system_environment.
Qed.

Lemma process_quiet_steps config watcher fuel poll_ms env w p :
  (forall w1 w2, env w1 w2 -> w_db w2 = w_db w1 /\ w_faults w2 = w_faults w1) ->
  rtc (process_step fuel poll_ms (Some config) watcher env) (launched (Some config) w) p ->
  rtc (quiet_step config) w (world p).
Proof.
  intros Henv Hs. eapply process_run_projects; [..|by right|exact Hs].
  - intros n w1. apply quiet_sync.
  - intros sc tx w1. apply quiet_follow.
  - intros A m P w1. apply quiet_read.
  - intros w1 w2 [Hd Hf]%Henv. by apply quiet_environment.
  - apply quiet_environment.
Qed.

(** C7: When [sync_loop] fails, the process ends, and nothing of it is left over.
    While fetches come to an end, the main thread that drops the handles of the
    threads can always be brought to its end, whatever the threads are doing; when
    it exits every thread has ended, so a process launched next has the database to
    itself; and it aborts only if a thread had panicked. *)
Theorem process_shutdown oconfig watcher fuel poll_ms env w p :
  (forall n sync, is_Some (Polling.fetch fuel n sync)) ->
  rtc (process_step fuel poll_ms oconfig watcher env) (launched oconfig w) p ->
  (main_phase p = Exited -> Forall ended (threads p)) /\
  (main_phase p = Aborted -> exists th, th ∈ threads p /\ panicked th) /\
  (forall i, main_phase p = Unwinding i ->
     exists p', rtc (process_step fuel poll_ms oconfig watcher env) p p' /\
       (main_phase p' = Exited \/ main_phase p' = Aborted)).
Proof.
  intros Hfetch [Hts Hix Hab]%launched_unwinds. split_and!.
  - intros E. apply Forall_lookup. intros j th Hj. specialize (Hts j th Hj). by rewrite E in Hts.
  - intros (j & th & Hj & Hp)%Hab. exists th. split; [by eapply list_elem_of_lookup_2|done].
  - intros i E. destruct p as [m ts w1]. simpl in *. subst m. apply unwinding_ends; [done|auto].
Qed.

Lemma panicked_stays fuel poll_ms oconfig watcher env i th p p' :
  panicked th -> threads p !! i = Some th -> process_step fuel poll_ms oconfig watcher env p p' ->
  exists th', threads p' !! i = Some th' /\ phase th' = phase th.
Proof.
  intros [msg Hp] Hi Hs. revert Hi. destruct Hs as [n ts w more w' E|n ts w r w' E _|ts w|j ts w u Hj _
    |j ts w u r u' Hj _ Ej|ts w|j n m ts w u u' w' Hm Hj E|A q P m ts w _ Hq|m ts w w' _ He];
    simpl; intros Hi; eauto.
  - destruct (decide (j = i)) as [->|Hne]; [|rewrite list_lookup_insert_ne by done; eauto].
    rewrite Hi in Hj. injection Hj as <-. exists (request_stop th).
    split; [by eapply list_lookup_insert_eq, lookup_lt_Some|done].
  - destruct (decide (j = i)) as [->|Hne]; [|rewrite list_lookup_insert_ne by done; eauto].
    rewrite Hi in Hj. injection Hj as <-. exists u'.
    split; [by eapply list_lookup_insert_eq, lookup_lt_Some|by eapply join_phase].
  - destruct (decide (j = i)) as [->|Hne]; [|rewrite list_lookup_insert_ne by done; eauto].
    rewrite Hi in Hj. injection Hj as <-. unfold thread_step in E. by rewrite Hp in E.
Qed.

(** C40: A leading transfer of Ether (one without a token address) to a safe ends the
    following of that safe: its thread panics at the transaction, which is rolled
    back, its mark in the counters included, and whatever happens afterwards the
    thread of the safe never runs again in this process, which goes on without it. *)
Theorem ether_transfer_ends_following fuel poll_ms oconfig watcher env m ts w i th sync tx txs
    hash etx x rest :
  alive m -> ts !! i = Some th -> phase th = Processing sync (tx :: txs) ->
  healthy w -> counters_ok (w_db w) -> tx_hash tx = Ok hash -> ~ processed (w_db w) tx ->
  decode tx = Ok (Ethereum etx) -> etx_transfers etx = x :: rest ->
  EthAddr.eqb (et_to x) (sc_safe_addr (Polling.audited_safe sync)) = true -> et_token_addr x = None ->
  exists th' w', let p := mkProcess m (<[i := th']> ts) w' in
    process_step fuel poll_ms oconfig watcher env (mkProcess m ts w) p /\
    w_db w' = w_db w /\ panicked th' /\
    forall p', rtc (process_step fuel poll_ms oconfig watcher env) p p' ->
      exists th'', threads p' !! i = Some th'' /\ panicked th''.
Proof.
  intros Hm Hi Hp Hh Hc Eh Hnew Ed Et Eto Etok.
  destruct (ether_transfer_panics (Polling.audited_safe sync) tx hash etx x rest w) as [Er Edb]; [done..|].
  destruct (GnosisSync.process_transaction (Polling.audited_safe sync) tx w) as [r w'] eqn:E.
  simpl in *. subst r. set (th' := set_phase (Panicked "failed processing transaction") th).
  assert (panicked th') as Hp' by (by eexists).
  exists th', w'. split; [|split; [done|split; [done|]]].
  - apply step_thread with (n := 0%nat) (th := th); [done|done|]. unfold thread_step. by rewrite Hp, E.
  - assert (exists u, <[i := th']> ts !! i = Some u /\ panicked u) as H.
    { exists th'. split; [by eapply list_lookup_insert_eq, lookup_lt_Some|done]. }
    intros p' Hs. revert H. change (<[i := th']> ts) with (threads (mkProcess m (<[i := th']> ts) w')).
    induction Hs as [p|p1 p2 p3 Hst _ IH]; intros (u & Hu & Hpu); [by exists u|]. apply IH.
    destruct (panicked_stays _ _ _ _ _ _ _ _ _ Hpu Hu Hst) as (u' & Hu' & Eu).
    exists u'. split; [done|]. unfold panicked. by rewrite Eu.
Qed.
End properties.

(** ** Runs *)
Definition unlucky_world : World := set_faults [Some (OtherFault "disk I/O error")] initial_world.
Definition same_db (w w' : World) : Prop := w_db w' = w_db w.
Definition test_threads (phase : Phase) : list t := [mkThread false true phase].

(** The thread of the safe gets as far as having fetched. *)
Lemma fetched_run env w :
  rtc (process_step 2 1000 (Some test_config) None env) (launched (Some test_config) w)
    (mkProcess Scanning (test_threads (Processing test_sync [deposit_tx; withdrawal_tx])) w).
Proof.
  assert (forall ph ph', thread_step 2 0 1000 (mkThread false true ph) w = Some (mkThread false true ph', w) ->
    process_step 2 1000 (Some test_config) None env (mkProcess Scanning (test_threads ph) w)
      (mkProcess Scanning (test_threads ph') w)) as Hs.
  { intros ph ph' E. exact (step_thread 2 1000 (Some test_config) None env 0 0 Scanning (test_threads ph) w
      (mkThread false true ph) (mkThread false true ph') w I eq_refl E). }
  eapply rtc_l; [by apply (Hs (Starting test_safe) (Checking test_sync))|].
  eapply rtc_l; [by apply (Hs (Checking test_sync) (Fetching test_sync))|].
  by apply rtc_once, Hs.
Qed.

(** Then the synchronization loop meets a fault. *)
Lemma failed_run : exists w', rtc (process_step 2 1000 (Some test_config) None same_db)
  (launched (Some test_config) unlucky_world)
  (mkProcess (Unwinding 0) (test_threads (Processing test_sync [deposit_tx; withdrawal_tx])) w').
Proof.
  assert (is_ok (Main.sync_iteration (Some test_config) None 0 unlucky_world).1 = false) as Hf
    by (vm_compute; reflexivity).
  destruct (Main.sync_iteration (Some test_config) None 0 unlucky_world) as [r w'] eqn:E. simpl in Hf.
  exists w'. eapply rtc_r; [apply fetched_run|]. by eapply step_fail.
Qed.

Lemma process_shutdown_witness : exists p, main_phase p = Unwinding 0 /\
  exists p', rtc (process_step 2 1000 (Some test_config) None same_db) p p' /\
    (main_phase p' = Exited \/ main_phase p' = Aborted).
Proof.
  destruct failed_run as [w' Hr].
  exists (mkProcess (Unwinding 0) (test_threads (Processing test_sync [deposit_tx; withdrawal_tx])) w').
  split; [reflexivity|].
  destruct (process_shutdown (Some test_config) None 2 1000 same_db unlucky_world _ test_fetch_ends Hr)
    as (_ & _ & H). exact (H 0%nat eq_refl).
Defined.

Lemma ether_transfer_ends_following_witness : exists th' w',
  process_step 2 1000 (Some test_config) None same_db
    (mkProcess Scanning (test_threads (Processing test_sync [ether_tx])) (world_after 3))
    (mkProcess Scanning [th'] w') /\ panicked th'.
Proof.
  destruct (ether_transfer_ends_following 2 1000 (Some test_config) None same_db Scanning
    (test_threads (Processing test_sync [ether_tx])) (world_after 3) 0
    (mkThread false true (Processing test_sync [ether_tx])) test_sync ether_tx [] deposit_hash
    ether_etx ether_transfer [])
    as (th' & w' & H1 & _ & H2 & _);
    [exact I|reflexivity|reflexivity|apply world_after_healthy; lia|apply world_after_ready; lia|
     apply ethereum_tx_hash|apply world_3_unprocessed|reflexivity|reflexivity|reflexivity|reflexivity|].
  exists th', w'. split; [exact H1|exact H2].
Defined.
