(* ===== verification/SafeParse.v ===== *)
(** * Properties of reading the safe's API

    Exactly which multi-signature transactions are withdrawals and what is read
    from them, the pages of a fetch, and the truncation of token values. *)

From S2P Require Import Prelude Externals Concrete GnosisTypes Errors Schema GnosisConfig.
From S2P Require Import GnosisRows SafeSync Scenario.

Section parsing.
Context {X_chrono : Chrono} {X_hex : Hex} {X_url : UrlLib}.
Implicit Types (sc : AuditedSafeConfig) (t : MultiSigTransaction).

(** The call of [multiSend] a withdrawal consists of: a [transfer] of an audited
    token, then a call of the token's auxiliary burn contract whose data is the
    function signature, anything, and the 32-byte key of the burn. *)
Record multi_send sc t (to_token : EthAddr.t) (token : AuditedToken) (amount key : string) : Prop := {
  ms_shape : exists data parameter transfer aux inner other amount_parameter sig_rest,
    ms_data_decoded t = Some data /\ dd_method data = "multiSend" /\
    dd_parameters data = [parameter] /\ ddp_value_decoded parameter = Some [transfer; aux] /\
    vd_to transfer = to_token /\ vd_data_decoded transfer = Some inner /\
    dd_method inner = "transfer" /\ dd_parameters inner = [other; amount_parameter] /\
    ddp_value amount_parameter = amount /\
    EthAddr.eqb (vd_to aux) (tok_aux_burn_contract_addr token) = true /\
    vd_data aux = "0x" +:+ sig_rest /\
    exists mid last, length last = 32%nat /\ key = hex_encode last /\
      hex_decode sig_rest = inr (array_bytes (tok_aux_burn_function_sig token) ++ mid ++ last);
  ms_token : get_token_by_eth_contract_addr sc to_token = Some token;
}.

Lemma sig_split (sig bytes : list byte) :
  take (length sig) bytes = sig -> (length sig + 32 <= length bytes)%nat ->
  exists mid, bytes = sig ++ mid ++ drop (length bytes - 32) bytes /\
    length (drop (length bytes - 32) bytes) = 32%nat.
Proof.
  intros E Hl. exists (drop (length sig) (take (length bytes - 32) bytes)).
  split; [|rewrite length_drop; lia].
  rewrite <- (take_drop (length bytes - 32) bytes) at 1. rewrite app_assoc. f_equal.
  rewrite <- (take_drop (length sig) (take (length bytes - 32) bytes)) at 1. f_equal.
  by rewrite take_take, Nat.min_l, E by lia.
Qed.

Lemma bind_ok {E A B} (m : Res E A) (f : A -> Res E B) y :
  (m ≫= f) = Ok y -> exists a, m = Ok a /\ f a = Ok y.
Proof. destruct m as [a| |]; [|done..]. intros H. by exists a. Qed.

Lemma bind_ok_or {E A B} (e : E) (o : option A) (f : A -> Res E B) y :
  (ok_or e o ≫= f) = Ok y -> exists a, o = Some a /\ f a = Ok y.
Proof. destruct o as [a|]; [|done]. intros H. by exists a. Qed.

Lemma bind_unwrap {E A B} (o : option A) (f : A -> Res E B) y :
  (unwrap o ≫= f) = Ok y -> exists a, o = Some a /\ f a = Ok y.
Proof. destruct o as [a|]; [|done]. intros H. by exists a. Qed.

Lemma bind_from_ext {E A B} (k : string -> E) (o : ext A) (f : A -> Res E B) y :
  (from_ext k o ≫= f) = Ok y -> exists a, o = inr a /\ f a = Ok y.
Proof. destruct o as [|a]; [done|]. intros H. by exists a. Qed.

Lemma guard_ok {E A} (b : bool) (e : E) (m : Res E A) y :
  (if negb b then Err e else m) = Ok y -> b = true /\ m = Ok y.
Proof. by destruct b. Qed.

Lemma parse_withdrawal_shape sc t x :
  GnosisSync.parse_withdrawal_with_pub_key_multi_sig_tx sc t = Ok x ->
  exists to_token token amount key value transfer rest v cut,
    multi_send sc t to_token token amount key /\
    ms_transfer_data t = transfer :: rest /\ et_value transfer = Some value /\
    parse_u128 amount = Some v /\
    truncate_value (E := Gnosis.Error) (EthTxValue.mk v) (tok_decimals token)
      (sc_token_decimals_max sc) = Ok cut /\
    x = GnosisSafeWithdrawal.new None (ms_tx_hash t) (ms_execution_date t) value
          (ms_eth_block_number t) (ms_safe t) to_token (et_to transfer) cut key.
Proof.
  intros (data & D1 & H)%bind_ok_or. apply guard_ok in H as [D2%String.eqb_eq H].
  destruct (dd_parameters data) as [|p []] eqn:D3; [done| |done].
  apply bind_ok_or in H as (l & D4 & H). destruct l as [|tr [|aux []]]; [done..| |done].
  apply bind_ok_or in H as (token & Ht & H). apply bind_ok_or in H as (inner & D6 & H).
  apply guard_ok in H as [D7%String.eqb_eq H].
  destruct (dd_parameters inner) as [|other [|ap []]] eqn:D8; [done..| |done].
  destruct (ms_transfer_data t) as [|transfer rest] eqn:E1; [done|].
  apply bind_unwrap in H as (value & E2 & H). apply guard_ok in H as [D10 H].
  apply guard_ok in H as [D11%starts_with_slice H].
  apply bind_from_ext in H as (bytes & D12 & H).
  apply guard_ok in H as [Hsig%bool_decide_eq_true H]. cbv zeta in H.
  destruct (Nat.ltb_spec (length bytes)
    (length (array_bytes (tok_aux_burn_function_sig token)) + 32)) as [|Hlen]; [done|].
  apply bind_ok_or in H as (token' & Ht' & H). rewrite Ht in Ht'. injection Ht' as <-.
  apply bind_unwrap in H as (v & E3 & H). apply bind_ok in H as (cut & E4 & H).
  injection H as <-. destruct (sig_split _ _ Hsig Hlen) as (mid & Em & Hl).
  exists (vd_to tr), token, (ddp_value ap), (hex_encode (drop (length bytes - 32) bytes)), value,
    transfer, rest, v, cut. split_and!; try done. split; [|done].
  exists data, p, tr, aux, inner, other, ap, (slice_from 2 (vd_data aux)).
  split_and!; try done. exists mid, (drop (length bytes - 32) bytes).
  split_and!; [done|done|]. by rewrite <- Em.
Qed.

(** C16: The withdrawals are exactly the [multiSend]s of that shape whose first token
    transfer has a value, and whose amount is a [u128] that fits after truncation;
    the key, the amount, the recipient and the token are the ones in the
    transaction. *)
Theorem parse_withdrawal_iff sc t x :
  GnosisSync.parse_withdrawal_with_pub_key_multi_sig_tx sc t = Ok x <->
  exists to_token token amount key value transfer rest v cut,
    multi_send sc t to_token token amount key /\
    ms_transfer_data t = transfer :: rest /\ et_value transfer = Some value /\
    parse_u128 amount = Some v /\
    truncate_value (E := Gnosis.Error) (EthTxValue.mk v) (tok_decimals token)
      (sc_token_decimals_max sc) = Ok cut /\
    x = GnosisSafeWithdrawal.new None (ms_tx_hash t) (ms_execution_date t) value
          (ms_eth_block_number t) (ms_safe t) to_token (et_to transfer) cut key.
Proof.
  split.
  - apply parse_withdrawal_shape.
  - intros (to_token & token & amount & key & value & transfer & rest & v & cut & [Hs Ht] & E1 & E2 &
      E3 & E4 & ->).
    destruct Hs as (data & p & tr & aux & inner & other & ap & sr & D1 & D2 & D3 & D4 & D5 & D6 & D7 &
      D8 & D9 & D10 & D11 & mid & last & L & -> & D12).
    subst to_token amount.
    unfold GnosisSync.parse_withdrawal_with_pub_key_multi_sig_tx.
    rewrite D1. simpl. rewrite D2. simpl. rewrite D3, D4. simpl. rewrite Ht. simpl.
    rewrite D6. simpl. rewrite D7. simpl. rewrite D8, E1, E2. simpl. rewrite D10, D11. simpl.
    change (slice_from 0 ("" +:+ sr)) with sr. rewrite D12. simpl.
    rewrite bool_decide_eq_true_2 by by rewrite take_app_length. simpl.
    rewrite !length_app, L. destruct (Nat.ltb_spec
      (length (array_bytes (tok_aux_burn_function_sig token)) + (length mid + 32))
      (length (array_bytes (tok_aux_burn_function_sig token)) + 32)) as [|_]; [lia|].
    rewrite E3. simpl. rewrite E4. simpl. do 2 f_equal.
    rewrite app_assoc, drop_app_length'; [done|]. rewrite length_app. lia.
Qed.

(** The source means to refuse a withdrawal whose list of token transfers does not
    have exactly one element, but builds the error without returning it: on an empty
    list it panics, and the [rest] of the previous theorem is not looked at. *)
Theorem parse_withdrawal_no_transfer sc t to_token token amount key :
  multi_send sc t to_token token amount key -> ms_transfer_data t = [] ->
  GnosisSync.parse_withdrawal_with_pub_key_multi_sig_tx sc t
  = Panic "index out of bounds: the len is 0 but the index is 0".
Proof.
  intros [Hs Ht] E1.
  destruct Hs as (data & p & tr & aux & inner & other & ap & sr & D1 & D2 & D3 & D4 & D5 & D6 & D7 &
    D8 & _). subst to_token.
  unfold GnosisSync.parse_withdrawal_with_pub_key_multi_sig_tx.
  rewrite D1. simpl. rewrite D2. simpl. rewrite D3, D4. simpl. rewrite Ht. simpl.
  rewrite D6. simpl. rewrite D7. simpl. by rewrite D8, E1.
Qed.
End parsing.

(** ** Truncation of values *)

(** C30: [truncate_value] divides by ten to the power of the surplus decimals, rounding
    down, and panics exactly when the result does not fit in 64 bits, for every
    surplus whose power of ten fits in a [u128] (up to 38); a surplus of 128 or more
    panics on a division by zero (the power has wrapped to 0). *)
Theorem truncate_value_spec v token_decimals max_decimals :
  is_u128 v ->
  (token_decimals <= max_decimals ->
     truncate_value (E := Gnosis.Error) (EthTxValue.mk v) token_decimals max_decimals
     = if v <? two64 then Ok v else Panic "Failed to truncate EthTxValue token value to u64") /\
  (0 < token_decimals - max_decimals <= 38 ->
     truncate_value (E := Gnosis.Error) (EthTxValue.mk v) token_decimals max_decimals
     = let q := v / 10 ^ (token_decimals - max_decimals) in
       if q <? two64 then Ok q else Panic "Failed to truncate EthTxValue token value to u64") /\
  (128 <= token_decimals - max_decimals ->
     truncate_value (E := Gnosis.Error) (EthTxValue.mk v) token_decimals max_decimals
     = Panic "attempt to divide by zero").
Proof.
  intros Hv. unfold truncate_value. simpl. split_and!; intros Hd.
  - destruct (Z.ltb_spec max_decimals token_decimals); [lia|done].
  - destruct (Z.ltb_spec max_decimals token_decimals); [|lia].
    rewrite wrapping_pow10_small by lia.
    pose proof (Z.pow_pos_nonneg 10 (token_decimals - max_decimals)).
    destruct (Z.eqb_spec (10 ^ (token_decimals - max_decimals)) 0); [lia|done].
  - destruct (Z.ltb_spec max_decimals token_decimals); [|lia].
    by rewrite wrapping_pow10_large by lia.
Qed.

(** ** Fetching *)
Section fetching.
Context {X_chrono : Chrono} {X_hex : Hex} {X_url : UrlLib} {X_json : SerdeJson} {X_http : HttpClient}.

(** The pages a server gives from its [n]-th answer on, the last one without a
    further URL. *)
Inductive pages : nat -> Url -> list (list raw_transaction) -> Prop :=
| last_page n url r :
    GnosisSafeFetcher.get_all_transaction_data_from_url n url = Ok r -> atr_next r = None ->
    pages n url [atr_results r]
| more_pages n url r next rest :
    GnosisSafeFetcher.get_all_transaction_data_from_url n url = Ok r -> atr_next r = Some next ->
    pages (S n) next rest -> pages n url (atr_results r :: rest).

Lemma fetch_of_pages n url ps fuel :
  pages n url ps -> (length ps <= fuel)%nat ->
  GnosisSafeFetcher.fetch_pages fuel n url = Some (Ok (concat ps)).
Proof.
  intros Hps. revert fuel. induction Hps as [n url r E En|n url r next rest E En Hps IH];
    intros [|fuel] Hl; simpl in Hl; try lia; simpl; rewrite E, En.
  - by rewrite app_nil_r.
  - by rewrite IH by lia.
Qed.

Lemma pages_of_fetch fuel n url l :
  GnosisSafeFetcher.fetch_pages fuel n url = Some (Ok l) ->
  exists ps, pages n url ps /\ (length ps <= fuel)%nat /\ l = concat ps.
Proof.
  revert n url l. induction fuel as [|fuel IH]; intros n url l; simpl; [done|].
  destruct (GnosisSafeFetcher.get_all_transaction_data_from_url n url) as [r|e|p] eqn:E; [|done..].
  destruct (atr_next r) as [next|] eqn:En.
  - destruct (GnosisSafeFetcher.fetch_pages fuel (S n) next) as [[rest|e|p]|] eqn:Ef; [|done..].
    intros H. assert (l = atr_results r ++ rest) as -> by congruence. clear H. apply IH in Ef as (ps & Hps & Hl & ->).
    exists (atr_results r :: ps). split; [by eapply more_pages|]. split; [simpl; lia|done].
  - intros H. assert (l = atr_results r) as -> by congruence. exists [atr_results r].
    split; [by eapply last_page|]. split; [simpl; lia|simpl; by rewrite app_nil_r].
Qed.

(** C29: A fetch returns a list of transactions exactly if the server answers with a
    finite chain of pages, and then the concatenation of the pages in order; one
    iteration per page is enough, and a page that fails makes the whole fetch fail
    (a partial list is never returned). *)
Theorem fetch_pages_concat fuel n url l :
  GnosisSafeFetcher.fetch_pages fuel n url = Some (Ok l) <->
  exists ps, pages n url ps /\ (length ps <= fuel)%nat /\ l = concat ps.
Proof.
  split; [apply pages_of_fetch|]. intros (ps & Hps & Hl & ->). by apply fetch_of_pages.
Qed.
End fetching.

Lemma withdrawal_multi_send :
  exists key, multi_send test_safe (withdrawal_multi_sig []) test_token_addr test_token
    "20000000000000" key.
Proof.
  exists (hex_encode (replicate 32 x02)). split; [|reflexivity].
  eexists _, _, _, _, _, _, _, _. split_and!; try reflexivity.
  exists [], (replicate 32 x02). split_and!; reflexivity.
Qed.

Lemma parse_withdrawal_no_transfer_witness :
  GnosisSync.parse_withdrawal_with_pub_key_multi_sig_tx test_safe (withdrawal_multi_sig [])
  = Panic "index out of bounds: the len is 0 but the index is 0".
Proof.
  destruct withdrawal_multi_send as [key H].
  apply (parse_withdrawal_no_transfer test_safe _ _ _ _ key H). reflexivity.
Defined.

Lemma truncate_value_spec_witness :
  truncate_value (E := Gnosis.Error) (EthTxValue.mk 50000000000000) 18 6 = Ok 50.
Proof. apply (truncate_value_spec 50000000000000 18 6); unfold is_u128; lia. Defined.
