(* ===== verification/Convert.v ===== *)
(** * [src/convert]: the messages of the gRPC API

    The protobuf messages of [api/proto/reserve_auditor.proto] that the crate
    converts to or from, with one field per field of the message, and the
    conversions. *)

From S2P Require Import Prelude Externals Concrete GnosisTypes Errors Schema Database.
From S2P Require Import CountersModel Mints GnosisConfig GnosisRows.

(** [mc_api::external::CompressedRistretto] and its conversion from a key. *)
Class ExternalProto `{MobileCoin} := {
  ProtoCompressedRistretto : Type;
  proto_of_key : CompressedRistrettoPublic -> ProtoCompressedRistretto;
  proto_key_data : ProtoCompressedRistretto -> list byte;
}.
Class ExternalProtoLaws `{ExternalProto} : Prop := {
  proto_key_data_of_key k : proto_key_data (proto_of_key k) = compressed_as_bytes k;
}.

#[export] Instance concrete_external_proto : ExternalProto := {
  ProtoCompressedRistretto := array 32;
  proto_of_key k := k;
  proto_key_data k := array_bytes k;
}.
#[export] Instance concrete_external_proto_laws : ExternalProtoLaws.
Proof. by split. Qed.

(** ** Counters *)
Module ProtoCounters.
Record t := mk {
  num_blocks_synced : Z;
  num_burns_exceeding_balance : Z;
  num_mint_txs_without_matching_mint_config : Z;
  num_mismatching_mints_and_deposits : Z;
  num_mismatching_burns_and_withdrawals : Z;
  num_unknown_ethereum_token_deposits : Z;
  num_unknown_ethereum_token_withdrawals : Z;
  num_mints_to_unknown_safe : Z;
  num_burns_from_unknown_safe : Z;
  num_invalid_ethereum_transactions : Z;
  num_invalid_multi_sig_transactions : Z;
  num_unexpected_errors_matching_deposits_to_mints : Z;
  num_unexpected_errors_matching_mints_to_deposits : Z;
  num_unexpected_errors_matching_withdrawals_to_burns : Z;
  num_unexpected_errors_matching_burns_to_withdrawals : Z;
}.

(** [From<&Counters> for mc_reserve_auditor_api::Counters]. *)
Definition from_counters (src : Counters) : t := {|
  num_blocks_synced := counter_get CountersModel.num_blocks_synced src;
  num_burns_exceeding_balance := counter_get CountersModel.num_burns_exceeding_balance src;
  num_mint_txs_without_matching_mint_config :=
    counter_get CountersModel.num_mint_txs_without_matching_mint_config src;
  num_mismatching_mints_and_deposits :=
    counter_get CountersModel.num_mismatching_mints_and_deposits src;
  num_mismatching_burns_and_withdrawals :=
    counter_get CountersModel.num_mismatching_burns_and_withdrawals src;
  num_unknown_ethereum_token_deposits :=
    counter_get CountersModel.num_unknown_ethereum_token_deposits src;
  num_unknown_ethereum_token_withdrawals :=
    counter_get CountersModel.num_unknown_ethereum_token_withdrawals src;
  num_mints_to_unknown_safe := counter_get CountersModel.num_mints_to_unknown_safe src;
  num_burns_from_unknown_safe := counter_get CountersModel.num_burns_from_unknown_safe src;
  num_invalid_ethereum_transactions :=
    counter_get CountersModel.num_invalid_ethereum_transactions src;
  num_invalid_multi_sig_transactions :=
    counter_get CountersModel.num_invalid_multi_sig_transactions src;
  num_unexpected_errors_matching_deposits_to_mints :=
    counter_get CountersModel.num_unexpected_errors_matching_deposits_to_mints src;
  num_unexpected_errors_matching_mints_to_deposits :=
    counter_get CountersModel.num_unexpected_errors_matching_mints_to_deposits src;
  num_unexpected_errors_matching_withdrawals_to_burns :=
    counter_get CountersModel.num_unexpected_errors_matching_withdrawals_to_burns src;
  num_unexpected_errors_matching_burns_to_withdrawals :=
    counter_get CountersModel.num_unexpected_errors_matching_burns_to_withdrawals src;
|}.

(** The field that carries a counter. *)
Definition field (v : CounterVar) : t -> Z :=
  match v with
  | CountersModel.num_blocks_synced => num_blocks_synced
  | CountersModel.num_burns_exceeding_balance => num_burns_exceeding_balance
  | CountersModel.num_mint_txs_without_matching_mint_config =>
      num_mint_txs_without_matching_mint_config
  | CountersModel.num_mismatching_mints_and_deposits => num_mismatching_mints_and_deposits
  | CountersModel.num_mismatching_burns_and_withdrawals => num_mismatching_burns_and_withdrawals
  | CountersModel.num_unknown_ethereum_token_deposits => num_unknown_ethereum_token_deposits
  | CountersModel.num_unknown_ethereum_token_withdrawals =>
      num_unknown_ethereum_token_withdrawals
  | CountersModel.num_mints_to_unknown_safe => num_mints_to_unknown_safe
  | CountersModel.num_burns_from_unknown_safe => num_burns_from_unknown_safe
  | CountersModel.num_invalid_ethereum_transactions => num_invalid_ethereum_transactions
  | CountersModel.num_invalid_multi_sig_transactions => num_invalid_multi_sig_transactions
  | CountersModel.num_unexpected_errors_matching_deposits_to_mints =>
      num_unexpected_errors_matching_deposits_to_mints
  | CountersModel.num_unexpected_errors_matching_mints_to_deposits =>
      num_unexpected_errors_matching_mints_to_deposits
  | CountersModel.num_unexpected_errors_matching_withdrawals_to_burns =>
      num_unexpected_errors_matching_withdrawals_to_burns
  | CountersModel.num_unexpected_errors_matching_burns_to_withdrawals =>
      num_unexpected_errors_matching_burns_to_withdrawals
  end.
End ProtoCounters.

(** ** Safe transactions, deposits and withdrawals *)
Module ProtoGnosisSafeTx.
Record t := mk { eth_tx_hash : string; raw_tx_json : string }.

(** Both [From] implementations. *)
Definition from_db (src : GnosisSafeTx) : t := mk (gst_eth_tx_hash src) (gst_raw_tx_json src).
Definition to_db (src : t) : GnosisSafeTx := mkGnosisSafeTx (eth_tx_hash src) (raw_tx_json src).
End ProtoGnosisSafeTx.

(** [timestamp_nanos_opt().expect(..) as u64]. *)
Definition nanos_of `{Chrono} {E} (date : DateTime) : Res E Z :=
  match timestamp_nanos_opt date with
  | Some n => Ok (as_u64 n)
  | None => Panic "Invalid execution_date stored in database"
  end.

(** [match src.get_id() { 0 => None, id => Some(id) }]. *)
Definition id_of_proto (id : Z) : option Z := if id =? 0 then None else Some id.

Module ProtoGnosisSafeDeposit.
Record t := mk {
  id : Z;
  eth_tx_hash : string;
  eth_tx_value : string;
  eth_block_number : Z;
  safe_addr : string;
  token_addr : string;
  from_addr : string;
  amount : Z;
  expected_mc_mint_tx_nonce_hex : string;
  execution_date : Z;
}.

Section conversions.
Context {X_chrono : Chrono} {X_hex : Hex}.

(** [From<&DbGnosisSafeDeposit> for ProtoGnosisSafeDeposit]. *)
Definition from_db (src : GnosisSafeDeposit) : Res Error t :=
  execution_date ← nanos_of (GnosisSafeDeposit.execution_date src);
  Ok (mk (default 0 (GnosisSafeDeposit.id src))
    (EthTxHash.display (GnosisSafeDeposit.eth_tx_hash src))
    (EthTxValue.to_string (GnosisSafeDeposit.eth_tx_value src))
    (GnosisSafeDeposit.eth_block_number src)
    (EthAddr.display (GnosisSafeDeposit.safe_addr src))
    (EthAddr.display (GnosisSafeDeposit.token_addr src))
    (EthAddr.display (GnosisSafeDeposit.from_addr src))
    (GnosisSafeDeposit.amount src)
    (GnosisSafeDeposit.expected_mc_mint_tx_nonce_hex src)
    execution_date).

(** [TryFrom<&ProtoGnosisSafeDeposit> for DbGnosisSafeDeposit]. *)
Definition to_db (src : t) : Res Error GnosisSafeDeposit :=
  let date := timestamp_nanos (as_i64 (execution_date src)) in
  hash ← map_err GnosisErr (EthTxHash.from_str (eth_tx_hash src));
  value ← map_err GnosisErr (EthTxValue.from_str (eth_tx_value src));
  safe ← map_err GnosisErr (EthAddr.from_str (safe_addr src));
  token ← map_err GnosisErr (EthAddr.from_str (token_addr src));
  from ← map_err GnosisErr (EthAddr.from_str (from_addr src));
  Ok (GnosisSafeDeposit.new (id_of_proto (id src)) hash date value (eth_block_number src)
    safe token from (amount src)).
End conversions.
End ProtoGnosisSafeDeposit.

Module ProtoGnosisSafeWithdrawal.
Section message.
Context {X_mc : MobileCoin} {X_proto : ExternalProto}.
Record t := mk {
  id : Z;
  eth_tx_hash : string;
  eth_tx_value : string;
  eth_block_number : Z;
  safe_addr : string;
  token_addr : string;
  to_addr : string;
  amount : Z;
  mc_tx_out_pub_key : ProtoCompressedRistretto;
  execution_date : Z;
}.
End message.

Section conversions.
Context {X_chrono : Chrono} {X_hex : Hex} {X_mc : MobileCoin} {X_proto : ExternalProto}.

(** [TryFrom<&DbGnosisSafeWithdrawal> for ProtoGnosisSafeWithdrawal]. *)
Definition from_db (src : GnosisSafeWithdrawal) : Res Error t :=
  key ← GnosisSafeWithdrawal.mc_tx_out_public_key src;
  execution_date ← nanos_of (GnosisSafeWithdrawal.execution_date src);
  Ok (mk (default 0 (GnosisSafeWithdrawal.id src))
    (EthTxHash.display (GnosisSafeWithdrawal.eth_tx_hash src))
    (EthTxValue.to_string (GnosisSafeWithdrawal.eth_tx_value src))
    (GnosisSafeWithdrawal.eth_block_number src)
    (EthAddr.display (GnosisSafeWithdrawal.safe_addr src))
    (EthAddr.display (GnosisSafeWithdrawal.token_addr src))
    (EthAddr.display (GnosisSafeWithdrawal.to_addr src))
    (GnosisSafeWithdrawal.amount src)
    (proto_of_key key)
    execution_date).

(** [TryFrom<&ProtoGnosisSafeWithdrawal> for DbGnosisSafeWithdrawal]. *)
Definition to_db (src : t) : Res Error GnosisSafeWithdrawal :=
  let date := timestamp_nanos (as_i64 (execution_date src)) in
  hash ← map_err GnosisErr (EthTxHash.from_str (eth_tx_hash src));
  value ← map_err GnosisErr (EthTxValue.from_str (eth_tx_value src));
  safe ← map_err GnosisErr (EthAddr.from_str (safe_addr src));
  token ← map_err GnosisErr (EthAddr.from_str (token_addr src));
  to ← map_err GnosisErr (EthAddr.from_str (to_addr src));
  Ok (GnosisSafeWithdrawal.new (id_of_proto (id src)) hash date value (eth_block_number src)
    safe token to (amount src) (hex_encode (proto_key_data (mc_tx_out_pub_key src)))).
End conversions.
End ProtoGnosisSafeWithdrawal.
