(* ===== verification/Service.v ===== *)
(** * [src/service.rs]: the gRPC service

    The bodies of the three calls; what they send is in [Server], the sending is
    [grpcio]'s. *)

From S2P Require Import Prelude Externals Concrete GnosisTypes Errors Schema Database.
From S2P Require Import CountersModel Blocks Convert.

(** [grpcio::RpcStatus]: a code and a message. *)
Inductive RpcStatusCode := INTERNAL | NOT_FOUND.
Record RpcStatus := with_message { rpc_code : RpcStatusCode; rpc_details : string }.

Module ReserveAuditorService.
Section operations.
Context {X_chrono : Chrono} {X_sqlite : Sqlite} {X_hex : Hex}.

(** [|err| RpcStatus::with_message(RpcStatusCode::INTERNAL, err.to_string())]. *)
Definition internal (err : Error) : RpcStatus := with_message INTERNAL (Error_display err).

(** [get_block_audit_data_impl]; the response is the block index it carries. *)
Definition get_block_audit_data_impl (block_index : Z) : M World RpcStatus Z :=
  _ ← with_err internal get_conn;
  block_audit_data ← with_err (fun err => match err with
      | NotFound => with_message NOT_FOUND
          ("Block audit data not found for block index " +:+ pretty block_index)
      | err => internal err
      end) (BlockAuditData.get block_index);
  mret (BlockAuditData.block_index block_audit_data).

(** [get_last_block_audit_data_impl]. *)
Definition get_last_block_audit_data_impl : M World RpcStatus Z :=
  _ ← with_err internal get_conn;
  last ← with_err internal BlockAuditData.last_block_audit_data;
  block_audit_data ← lift (ok_or (with_message NOT_FOUND "No last synced block index") last);
  mret (BlockAuditData.block_index block_audit_data).

(** [get_counters_impl]. *)
Definition get_counters_impl : M World RpcStatus ProtoCounters.t :=
  counters ← with_err internal (_ ← get_conn; Counters.get);
  mret (ProtoCounters.from_counters counters).
End operations.
End ReserveAuditorService.
