(* ===== verification/Http.v ===== *)
(** * [src/http_api]: the HTTP API

    The methods of [ReserveAuditorHttpService] and the handlers of [routes.rs]; the routes
    they are mounted on and the headers of the answers are in [Server], JSON is serde's. *)

From S2P Require Import Prelude Externals Concrete GnosisTypes Errors Schema Database.
From S2P Require Import CountersModel Blocks Mints Burns GnosisConfig GnosisRows AuditedMints.
From S2P Require Import AuditedBurns.

(** ** [api_types.rs] *)
Section api_types.
Context {X_chrono : Chrono} {X_mc : MobileCoin} {X_url : UrlLib}.

Record TokenPrecision := mkTokenPrecision {
  tp_token_id : Z;
  tp_token_eth_addrs : list EthAddr.t;
  tp_token_precision : Z;
}.
Record TokenPrecisionResponse := mkTokenPrecisionResponse {
  tpr_max_precision : Z;
  tpr_token_base_precisions : list TokenPrecision;
}.
Record BlockAuditDataResponse := mkBlockAuditDataResponse {
  badr_block_index : Z;
  badr_balances : gmap Z Z;
}.
Record AuditedMintResponse := mkAuditedMintResponse {
  amr_audited : AuditedMint;
  amr_mint : MintTx;
  amr_deposit : GnosisSafeDeposit;
}.
Record UnauditedGnosisDepositResponse := mkUnauditedGnosisDepositResponse {
  ugdr_deposit : GnosisSafeDeposit;
}.
Record AuditedBurnResponse := mkAuditedBurnResponse {
  abr_audited : AuditedBurn;
  abr_burn : BurnTxOut;
  abr_withdrawal : GnosisSafeWithdrawal;
  abr_decoded_burn_memo_bytes : option (list byte);
}.
Record UnauditedBurnTxOutResponse := mkUnauditedBurnTxOutResponse {
  ubr_burn : BurnTxOut;
  ubr_decoded_burn_memo_bytes : option (list byte);
}.
Record TokenType := mkTokenType { tt_id : Z; tt_name : string }.
Record LedgerBalanceResponse := mkLedgerBalanceResponse {
  lbr_mint_balance : string;
  lbr_burn_balance : string;
  lbr_token_type : TokenType;
}.
Record HybridMintConfig := mkHybridMintConfig {
  hmc_id : Z;
  hmc_token_id : Z;
  hmc_signer_set : SignerSet;
  hmc_mint_limit : Z;
}.
Record MintWithConfig := mkMintWithConfig {
  mwc_mint_tx : MintTx;
  mwc_mint_config_tx : MintConfigTx;
  mwc_mint_config : HybridMintConfig;
  mwc_mint_tx_signers : list Ed25519Public;
}.
Record MintConfigTxWithConfig := mkMintConfigTxWithConfig {
  mctwc_mint_config_tx : MintConfigTx;
  mctwc_mint_configs : list HybridMintConfig;
}.
Record MintInfoResponse := mkMintInfoResponse {
  mir_mint_txs : list MintWithConfig;
  mir_mint_config_txs : list MintConfigTxWithConfig;
}.
Record BurnInfoResponse := mkBurnInfoResponse {
  bir_burn : BurnTxOut;
  bir_decoded_burn_memo_bytes : option (list byte);
}.

Record GnosisSafeConfigResponse := mkGnosisSafeConfigResponse { gscr_config : GnosisSafeConfig }.

(** [BlockAuditDataResponse::new]. *)
Definition BlockAuditDataResponse_new (block_audit_data : BlockAuditData) (balances : gmap Z Z)
  : BlockAuditDataResponse :=
  mkBlockAuditDataResponse (BlockAuditData.block_index block_audit_data) balances.
End api_types.

(** ** [service.rs] *)
Module ReserveAuditorHttpService.
Section operations.
Context {X_chrono : Chrono} {X_sqlite : Sqlite} {X_hex : Hex} {X_mc : MobileCoin} {X_url : UrlLib}.

(** [get_counters]. *)
Definition get_counters : App Counters := _ ← get_conn; Counters.get.

(** [self.gnosis_safe_config.safes[0]]. *)
Definition first_safe (config : GnosisSafeConfig) : Res Error AuditedSafeConfig :=
  match gc_safes config with
  | [] => Panic "index out of bounds: the len is 0 but the index is 0"
  | safe :: _ => Ok safe
  end.

(** [get_token_precisions]. *)
Definition get_token_precisions (config : GnosisSafeConfig) : Res Error TokenPrecisionResponse :=
  safe ← first_safe config;
  Ok (mkTokenPrecisionResponse (sc_token_decimals_max safe)
    ((fun token => mkTokenPrecision (tok_token_id token) (tok_eth_token_contract_addrs token)
                     (tok_decimals token)) <$> sc_tokens safe)).

(** [get_block_audit_data]. *)
Definition get_block_audit_data (block_index : Z) : App BlockAuditDataResponse :=
  _ ← get_conn;
  block_audit_data ← BlockAuditData.get block_index;
  balances ← BlockBalance.get_balances_for_block (BlockAuditData.block_index block_audit_data);
  mret (BlockAuditDataResponse_new block_audit_data balances).

(** [get_last_block_audit_data]. *)
Definition get_last_block_audit_data : App BlockAuditDataResponse :=
  _ ← get_conn;
  last ← BlockAuditData.last_block_audit_data;
  block_audit_data ← lift (ok_or NotFound last);
  balances ← BlockBalance.get_balances_for_block (BlockAuditData.block_index block_audit_data);
  mret (BlockAuditDataResponse_new block_audit_data balances).

(** [get_audited_mints]. *)
Definition get_audited_mints (offset limit : option Z) : App (list AuditedMintResponse) :=
  _ ← get_conn;
  query_result ← AuditedMint.list_with_mint_and_deposit offset limit;
  mret ((fun x => mkAuditedMintResponse x.1.1 x.1.2 x.2) <$> query_result).

(** [get_unaudited_gnosis_deposits]. *)
Definition get_unaudited_gnosis_deposits : App (list UnauditedGnosisDepositResponse) :=
  _ ← get_conn;
  query_result ← GnosisSafeDeposit.find_unaudited_deposits;
  mret (mkUnauditedGnosisDepositResponse <$> query_result).

(** [burn.burn_redemption_memo().map(..).ok()]. *)
Definition decoded_burn_memo_bytes (burn : BurnTxOut) : option (list byte) :=
  res_ok (BurnTxOut.burn_redemption_memo burn).

(** [get_audited_burns]. *)
Definition get_audited_burns (offset limit : option Z) : App (list AuditedBurnResponse) :=
  _ ← get_conn;
  query_result ← AuditedBurn.list_with_burn_and_withdrawal offset limit;
  mret ((fun x => mkAuditedBurnResponse x.1.1 x.1.2 x.2 (decoded_burn_memo_bytes x.1.2))
          <$> query_result).

(** [get_unaudited_burn_tx_outs]. *)
Definition get_unaudited_burn_tx_outs : App (list UnauditedBurnTxOutResponse) :=
  _ ← get_conn;
  query_result ← BurnTxOut.find_unaudited_burn_tx_outs;
  mret ((fun burn => mkUnauditedBurnTxOutResponse burn (decoded_burn_memo_bytes burn))
          <$> query_result).

(** [Iterator::sum] over [u128] with [overflow-checks = false]. *)
Definition sum_u128 (l : list Z) : Z := foldr (fun a s => (a + s) mod two128) 0 l.

(** [get_mint_total], [get_burn_total]. *)
Definition get_mint_total (token_id : Z) : App Z :=
  _ ← get_conn;
  query_result ← MintTx.get_mint_amounts token_id;
  mret (sum_u128 (snd <$> query_result)).
Definition get_burn_total (token_id : Z) : App Z :=
  _ ← get_conn;
  query_result ← BurnTxOut.get_burn_amounts token_id;
  mret (sum_u128 (snd <$> query_result)).

(** [get_token_symbol]. *)
Definition get_token_symbol (config : GnosisSafeConfig) (token_id : Z) : Res Error string :=
  safe ← first_safe config;
  Ok (match List.find (fun token => tok_token_id token =? token_id) (sc_tokens safe) with
      | Some token => tok_symbol token
      | None => "Unexpected Token"
      end).

(** [get_gnosis_safe_config]. *)
Definition get_gnosis_safe_config (config : GnosisSafeConfig) : Res Error GnosisSafeConfigResponse :=
  Ok (mkGnosisSafeConfigResponse config).

Definition hybrid (id : Z) (core_mint_config : CoreMintConfig) : HybridMintConfig :=
  mkHybridMintConfig id (core_mint_config_token_id core_mint_config)
    (core_mint_config_signer_set core_mint_config) (core_mint_config_mint_limit core_mint_config).

(** The two loops of [get_mint_info_by_block]. *)
Definition mint_config_tx_with_configs (mint_config_tx : MintConfigTx)
  : App (option MintConfigTxWithConfig) :=
  match MintConfigTx.id mint_config_tx with
  | None => mret None
  | Some id =>
      mint_configs ← MintConfig.get_by_mint_config_tx_id id;
      hybrid_mint_configs ← for_each (fun mint_config =>
        core_mint_config ← lift (MintConfig.decode mint_config);
        id ← lift (ok_or ObjectNotSaved (MintConfig.id mint_config));
        mret (hybrid id core_mint_config)) mint_configs;
      mret (Some (mkMintConfigTxWithConfig mint_config_tx hybrid_mint_configs))
  end.

Definition mint_with_config (mint_tx : MintTx) : App (option MintWithConfig) :=
  mint_tx_signers ← MintTx.get_signers mint_tx;
  match MintTx.mint_config_id mint_tx with
  | None => mret None
  | Some config_id =>
      found ← MintConfig.get_by_id config_id;
      match found with
      | None => mret None
      | Some mint_config =>
          core_mint_config ← lift (MintConfig.decode mint_config);
          found_tx ← MintConfigTx.get_by_id (MintConfig.mint_config_tx_id mint_config);
          match found_tx with
          | None => mret None
          | Some mint_config_tx =>
              mret (Some (mkMintWithConfig mint_tx mint_config_tx
                (hybrid config_id core_mint_config) mint_tx_signers))
          end
      end
  end.

(** [get_mint_info_by_block]. *)
Definition get_mint_info_by_block (block_index : Z) : App MintInfoResponse :=
  _ ← get_conn;
  mint_txs ← MintTx.get_mint_txs_by_block_index block_index;
  mint_config_txs ← MintConfigTx.get_by_block_index block_index;
  mint_config_txs_with_configs ← for_each mint_config_tx_with_configs mint_config_txs;
  mints_with_configs ← for_each mint_with_config mint_txs;
  mret (mkMintInfoResponse (omap (fun x => x) mints_with_configs)
          (omap (fun x => x) mint_config_txs_with_configs)).

(** [get_burns_by_block]. *)
Definition get_burns_by_block (block_index : Z) : App (list BurnInfoResponse) :=
  _ ← get_conn;
  burn_txs ← BurnTxOut.get_burn_txs_by_block block_index;
  mret ((fun burn => mkBurnInfoResponse burn (decoded_burn_memo_bytes burn)) <$> burn_txs).

(** [get_unaudited_withdrawals], [get_unaudited_mints]. *)
Definition get_unaudited_withdrawals : App (list GnosisSafeWithdrawal) :=
  _ ← get_conn; GnosisSafeWithdrawal.find_unaudited_withdrawals.
Definition get_unaudited_mints : App (list MintTx) :=
  _ ← get_conn; MintTx.find_unaudited_mint_txs.
End operations.
End ReserveAuditorHttpService.

(** ** [routes.rs] *)
Module Routes.
Section operations.
Context {X_chrono : Chrono} {X_sqlite : Sqlite} {X_hex : Hex} {X_mc : MobileCoin} {X_url : UrlLib}.

(** Every handler answers [Ok(Json(..))] or the displayed error. *)
Definition respond {A} (m : App A) : M World string A := with_err Error_display m.

Definition get_counters : M World string Counters := respond ReserveAuditorHttpService.get_counters.
Definition get_token_precisions (config : GnosisSafeConfig) : M World string TokenPrecisionResponse :=
  respond (lift (ReserveAuditorHttpService.get_token_precisions config)).
Definition get_block_audit_data (block_index : Z) : M World string BlockAuditDataResponse :=
  respond (ReserveAuditorHttpService.get_block_audit_data block_index).
Definition get_last_block_audit_data : M World string BlockAuditDataResponse :=
  respond ReserveAuditorHttpService.get_last_block_audit_data.
Definition get_audited_mints (offset limit : option Z) : M World string (list AuditedMintResponse) :=
  respond (ReserveAuditorHttpService.get_audited_mints offset limit).
Definition get_unaudited_gnosis_deposits : M World string (list UnauditedGnosisDepositResponse) :=
  respond ReserveAuditorHttpService.get_unaudited_gnosis_deposits.
Definition get_audited_burns (offset limit : option Z) : M World string (list AuditedBurnResponse) :=
  respond (ReserveAuditorHttpService.get_audited_burns offset limit).
Definition get_unaudited_burn_tx_outs : M World string (list UnauditedBurnTxOutResponse) :=
  respond ReserveAuditorHttpService.get_unaudited_burn_tx_outs.

(** [get_ledger_balance]: the token defaults to 0. *)
Definition get_ledger_balance (config : GnosisSafeConfig) (token_id : option Z)
  : M World string LedgerBalanceResponse :=
  let token_id_with_default := default 0 token_id in
  mint_total ← respond (ReserveAuditorHttpService.get_mint_total token_id_with_default);
  burn_total ← respond (ReserveAuditorHttpService.get_burn_total token_id_with_default);
  symbol ← respond (lift (ReserveAuditorHttpService.get_token_symbol config token_id_with_default));
  mret (mkLedgerBalanceResponse (pretty mint_total) (pretty burn_total)
          (mkTokenType token_id_with_default symbol)).

Definition get_gnosis_safe_config (config : GnosisSafeConfig) : M World string GnosisSafeConfigResponse :=
  respond (lift (ReserveAuditorHttpService.get_gnosis_safe_config config)).
Definition get_mint_info_for_block (block_index : Z) : M World string MintInfoResponse :=
  respond (ReserveAuditorHttpService.get_mint_info_by_block block_index).
Definition get_burns_for_block (block_index : Z) : M World string (list BurnInfoResponse) :=
  respond (ReserveAuditorHttpService.get_burns_by_block block_index).
Definition get_unaudited_withdrawals : M World string (list GnosisSafeWithdrawal) :=
  respond ReserveAuditorHttpService.get_unaudited_withdrawals.
Definition get_unaudited_mints : M World string (list MintTx) :=
  respond ReserveAuditorHttpService.get_unaudited_mints.
End operations.
End Routes.
