(* ===== verification/Server.v ===== *)
(** * The servers: [src/http_api/mod.rs], [fairings.rs] and [ReserveAuditorApi]

    Which handler answers a request, the headers of every response, and the three calls
    of the gRPC service.  Matching a request against the mounted routes and parsing its
    arguments is Rocket's and a parameter; so is the transport of both servers.

    Whatever a client asks, the database stays as it is: a request is one of the reads
    of the process, and everything shown of the process holds while clients ask. *)

From S2P Require Import Prelude Externals Concrete GnosisTypes Errors Schema Database.
From S2P Require Import CountersModel Blocks Mints Burns GnosisConfig GnosisRows AuditedMints.
From S2P Require Import AuditedBurns SyncBlock LedgerSpec LedgerSync SafeSync SafeThread.
From S2P Require Import AuditInvariant Main Faults Handlers SyncLoop SafeSyncSpec Scenario System.
From S2P Require Import Process Convert Service Http.
Import Process.Process.

(** ** Routes *)

(** The handlers of [routes.rs]. *)
Inductive Route :=
| r_index | r_get_counters | r_get_token_precisions | r_get_block_audit_data
| r_get_last_block_audit_data | r_get_audited_mints | r_get_unaudited_gnosis_deposits
| r_get_audited_burns | r_get_unaudited_burn_tx_outs | r_get_ledger_balance
| r_get_gnosis_safe_config | r_get_mint_info_for_block | r_get_burns_for_block
| r_get_unaudited_withdrawals | r_get_unaudited_mints.

#[export] Instance Route_eq_dec : EqDecision Route.
Proof. solve_decision. Defined.

(** The attribute [get] of each. *)
Definition route_uri (r : Route) : string :=
  match r with
  | r_index => "/"
  | r_get_counters => "/counters"
  | r_get_token_precisions => "/token_precisions"
  | r_get_block_audit_data => "/block_audit_data/<block_index>"
  | r_get_last_block_audit_data => "/last_block_audit_data"
  | r_get_audited_mints => "/audited_mints?<offset>&<limit>"
  | r_get_unaudited_gnosis_deposits => "/unaudited_gnosis_deposits"
  | r_get_audited_burns => "/audited_burns?<offset>&<limit>"
  | r_get_unaudited_burn_tx_outs => "/unaudited_burn_tx_outs"
  | r_get_ledger_balance => "/ledger_balance?<token_id>"
  | r_get_gnosis_safe_config => "/gnosis_safe_config"
  | r_get_mint_info_for_block => "/mint_info?<block_index>"
  | r_get_burns_for_block => "/burns?<block_index>"
  | r_get_unaudited_withdrawals => "/unaudited_withdrawals"
  | r_get_unaudited_mints => "/unaudited_mints"
  end.

(** What [start_http_server] mounts. *)
Definition mounted_routes : list Route :=
  [r_index; r_get_counters; r_get_token_precisions; r_get_block_audit_data;
   r_get_last_block_audit_data; r_get_audited_mints; r_get_unaudited_gnosis_deposits;
   r_get_audited_burns; r_get_unaudited_burn_tx_outs; r_get_ledger_balance;
   r_get_gnosis_safe_config; r_get_mint_info_for_block; r_get_burns_for_block;
   r_get_unaudited_withdrawals; r_get_unaudited_mints].

(** A handler and the arguments Rocket has parsed for it. *)
Inductive Call :=
| Index | GetCounters | GetTokenPrecisions | GetBlockAuditData (block_index : Z)
| GetLastBlockAuditData | GetAuditedMints (offset limit : option Z) | GetUnauditedGnosisDeposits
| GetAuditedBurns (offset limit : option Z) | GetUnauditedBurnTxOuts
| GetLedgerBalance (token_id : option Z) | GetGnosisSafeConfig
| GetMintInfoForBlock (block_index : Z) | GetBurnsForBlock (block_index : Z)
| GetUnauditedWithdrawals | GetUnauditedMints.

(** The route of a call. *)
Definition route_of (c : Call) : Route :=
  match c with
  | Index => r_index
  | GetCounters => r_get_counters
  | GetTokenPrecisions => r_get_token_precisions
  | GetBlockAuditData _ => r_get_block_audit_data
  | GetLastBlockAuditData => r_get_last_block_audit_data
  | GetAuditedMints _ _ => r_get_audited_mints
  | GetUnauditedGnosisDeposits => r_get_unaudited_gnosis_deposits
  | GetAuditedBurns _ _ => r_get_audited_burns
  | GetUnauditedBurnTxOuts => r_get_unaudited_burn_tx_outs
  | GetLedgerBalance _ => r_get_ledger_balance
  | GetGnosisSafeConfig => r_get_gnosis_safe_config
  | GetMintInfoForBlock _ => r_get_mint_info_for_block
  | GetBurnsForBlock _ => r_get_burns_for_block
  | GetUnauditedWithdrawals => r_get_unaudited_withdrawals
  | GetUnauditedMints => r_get_unaudited_mints
  end.

(** [rocket]: the call a request makes, given the mounted routes and their URIs. *)
Class Rocket := {
  Request : Type;
  dispatch : list (Route * string) -> Request -> option Call;
}.

(** ** Responses *)
Section responses.
Context {X_chrono : Chrono} {X_mc : MobileCoin} {X_url : UrlLib}.

(** What is sent as JSON, and the text of [index]. *)
Inductive Body :=
| Welcome (text : string)
| CountersBody (x : Counters)
| TokenPrecisionBody (x : TokenPrecisionResponse)
| BlockAuditDataBody (x : BlockAuditDataResponse)
| AuditedMintsBody (x : list AuditedMintResponse)
| UnauditedGnosisDepositsBody (x : list UnauditedGnosisDepositResponse)
| AuditedBurnsBody (x : list AuditedBurnResponse)
| UnauditedBurnTxOutsBody (x : list UnauditedBurnTxOutResponse)
| LedgerBalanceBody (x : LedgerBalanceResponse)
| GnosisSafeConfigBody (x : GnosisSafeConfigResponse)
| MintInfoBody (x : MintInfoResponse)
| BurnInfoBody (x : list BurnInfoResponse)
| WithdrawalsBody (x : list GnosisSafeWithdrawal)
| MintsBody (x : list MintTx).

(** [None]: no route took the request. *)
Record Response := mkResponse {
  result : option (Res string Body);
  headers_of : gmap string string;
}.

(** [Cors::on_response]. *)
Definition on_response (response : Response) : Response :=
  mkResponse (result response)
    (<["Access-Control-Allow-Credentials" := "true"]>
    (<["Access-Control-Allow-Headers" := "*"]>
    (<["Access-Control-Allow-Methods" := "POST, GET, PATCH, OPTIONS"]>
    (<["Access-Control-Allow-Origin" := "*"]> (headers_of response))))).
End responses.

Module Server.
Section operations.
Context {X_chrono : Chrono} {X_sqlite : Sqlite} {X_hex : Hex} {X_mc : MobileCoin} {X_url : UrlLib}.

(** [routes::index]. *)
Definition index : string := "Welcome to the reserve auditor".

Definition answer {A} (body : A -> Body) (m : M World string A) : M World string Body :=
  x ← m; mret (body x).

(** The handler of a call. *)
Definition handle (config : GnosisSafeConfig) (c : Call) : M World string Body :=
  match c with
  | Index => mret (Welcome index)
  | GetCounters => answer CountersBody Routes.get_counters
  | GetTokenPrecisions => answer TokenPrecisionBody (Routes.get_token_precisions config)
  | GetBlockAuditData i => answer BlockAuditDataBody (Routes.get_block_audit_data i)
  | GetLastBlockAuditData => answer BlockAuditDataBody Routes.get_last_block_audit_data
  | GetAuditedMints offset limit => answer AuditedMintsBody (Routes.get_audited_mints offset limit)
  | GetUnauditedGnosisDeposits =>
      answer UnauditedGnosisDepositsBody Routes.get_unaudited_gnosis_deposits
  | GetAuditedBurns offset limit => answer AuditedBurnsBody (Routes.get_audited_burns offset limit)
  | GetUnauditedBurnTxOuts => answer UnauditedBurnTxOutsBody Routes.get_unaudited_burn_tx_outs
  | GetLedgerBalance token_id =>
      answer LedgerBalanceBody (Routes.get_ledger_balance config token_id)
  | GetGnosisSafeConfig => answer GnosisSafeConfigBody (Routes.get_gnosis_safe_config config)
  | GetMintInfoForBlock i => answer MintInfoBody (Routes.get_mint_info_for_block i)
  | GetBurnsForBlock i => answer BurnInfoBody (Routes.get_burns_for_block i)
  | GetUnauditedWithdrawals => answer WithdrawalsBody Routes.get_unaudited_withdrawals
  | GetUnauditedMints => answer MintsBody Routes.get_unaudited_mints
  end.

Context {X_rocket : Rocket}.

(** A request to the server that [start_http_server] has launched; [rocket_headers] are
    those Rocket has set. *)
Definition serve (config : GnosisSafeConfig) (rocket_headers : gmap string string)
    (request : Request) (w : World) : Response * World :=
  match dispatch ((fun r => (r, route_uri r)) <$> mounted_routes) request with
  | None => (on_response (mkResponse None rocket_headers), w)
  | Some call =>
      let '(result, w') := handle config call w in
      (on_response (mkResponse (Some result) rocket_headers), w')
  end.

(** ** gRPC *)
Inductive GrpcCall :=
| GrpcGetBlockAuditData (block_index : Z) | GrpcGetLastBlockAuditData | GrpcGetCounters.
Inductive GrpcReply :=
| GrpcBlockAuditData (block_index : Z) | GrpcCounters (x : ProtoCounters.t).

(** [ReserveAuditorApi for ReserveAuditorService]: what [send_result] sends. *)
Definition grpc (c : GrpcCall) : M World RpcStatus GrpcReply :=
  match c with
  | GrpcGetBlockAuditData i =>
      x ← ReserveAuditorService.get_block_audit_data_impl i; mret (GrpcBlockAuditData x)
  | GrpcGetLastBlockAuditData =>
      x ← ReserveAuditorService.get_last_block_audit_data_impl; mret (GrpcBlockAuditData x)
  | GrpcGetCounters => x ← ReserveAuditorService.get_counters_impl; mret (GrpcCounters x)
  end.
End operations.
End Server.

(** ** Clients only read *)
Section reads.
Context {X_chrono : Chrono}.

(** [m] leaves the database as it is, whatever faults it meets, and without faults its
    result is a function of the database. *)
Definition reads {E A} (m : M World E A) : Prop := forall w,
  leads w (w_db w) (m w).2 /\
  forall w', healthy w -> healthy w' -> w_db w' = w_db w -> (m w').1 = (m w).1.

Lemma reads_pure {E A} (r : Res E A) : reads (lift r).
Proof. intros w. split; [apply leads_refl|done]. Qed.
Lemma reads_ret {E A} (a : A) : reads (mret a : M World E A).
Proof. apply (reads_pure (Ok a)). Qed.
Lemma reads_bind {E A B} (m : M World E A) (k : A -> M World E B) :
  reads m -> (forall a, reads (k a)) -> reads (m ≫= k).
Proof.
  intros Hm Hk w. destruct (Hm w) as [H1 E1]. unfold mbind, M_bind.
  split.
  - destruct (m w) as [[a|e|p] w1]; simpl in *; [|done..].
    destruct (Hk a w1) as [H2 _]. rewrite (leads_db _ _ _ H1) in H2. by eapply leads_trans.
  - intros w' Hh Hh' Hd. specialize (E1 w' Hh Hh' Hd). destruct (Hm w') as [H1' _].
    destruct (m w) as [[a|e|p] w1], (m w') as [[a'|e'|p'] w1']; simpl in *; simplify_eq; try done.
    apply (Hk a w1); [by apply H1|by apply H1'|].
    by rewrite (leads_db _ _ _ H1), (leads_db _ _ _ H1').
Qed.
Lemma reads_with_err {E F A} (f : E -> F) (m : M World E A) : reads m -> reads (with_err f m).
Proof.
  intros Hm w. destruct (Hm w) as [H E1]. unfold with_err. split; [by destruct (m w)|].
  intros w' Hh Hh' Hd. specialize (E1 w' Hh Hh' Hd). destruct (m w), (m w'). simpl in *. congruence.
Qed.
Lemma reads_for_each {E A B} (f : A -> M World E B) xs :
  (forall x, reads (f x)) -> reads (for_each f xs).
Proof.
  intros Hf. induction xs as [|x xs IH]; simpl; [apply reads_ret|].
  apply reads_bind; [done|]. intros y. apply reads_bind; [done|]. intros ys. apply reads_ret.
Qed.

Lemma reads_throw {E A} (e : E) : reads (throw e : M World E A).
Proof. apply (reads_pure (Err e)). Qed.
Lemma reads_panic {E A} p : reads (panic p : M World E A).
Proof. apply (reads_pure (Panic p)). Qed.
Lemma reads_attempt {E F A} (m : M World E A) : reads m -> reads (attempt m : M World F (Res E A)).
Proof.
  intros Hm w. destruct (Hm w) as [H E1]. unfold attempt. split; [by destruct (m w) as [[] ?]|].
  intros w' Hh Hh' Hd. specialize (E1 w' Hh Hh' Hd).
  destruct (m w) as [[] ?], (m w') as [[] ?]; simpl in *; congruence.
Qed.

Context {X_sqlite : Sqlite}.
(** A statement, from what it does with faults and what it answers without. *)
Lemma reads_statement {E A} (m : M World E A) (F : Db -> Res E A) :
  (forall w (Q : Res E A -> World -> Prop),
     (forall r w', ~ healthy w -> leads w (w_db w) w' -> Q r w') ->
     (forall w', leads w (w_db w) w' -> Q (F (w_db w)) w') -> wp m Q w) -> reads m.
Proof.
  intros Hm w. split; [by apply (Hm w (fun _ w' => leads w (w_db w) w'))|].
  assert (forall w, healthy w -> (m w).1 = F (w_db w)) as H.
  { intros w1 Hh. by apply (Hm w1 (fun r _ => r = F (w_db w1))). }
  intros w' Hh Hh' Hd. by rewrite !H, Hd.
Qed.
Lemma reads_get_conn : reads get_conn.
Proof. apply (reads_statement _ (fun _ => Ok tt)). intros w Q He Ho. apply wp_get_conn; eauto. Qed.
Lemma reads_load {A} (q : Db -> list A) : reads (load q).
Proof.
  apply (reads_statement _ (fun d => Ok (scan (q d)))). intros w Q He Ho. apply wp_load; eauto.
Qed.
Lemma reads_load_ordered {A} key (q : Db -> list A) : reads (load_ordered key q).
Proof.
  apply (reads_statement _ (fun d => Ok (order_by key (scan (q d))))). intros w Q He Ho.
  apply wp_load_ordered; eauto.
Qed.
Lemma reads_load_first {A} (q : Db -> list A) : reads (load_first q).
Proof. apply reads_bind; [apply reads_load|]. intros l. apply reads_pure. Qed.
Lemma reads_load_ordered_first {A} key (q : Db -> list A) : reads (load_ordered_first key q).
Proof. apply reads_bind; [apply reads_load_ordered|]. intros l. apply reads_pure. Qed.
Lemma reads_load_page {A} (key : A -> Z) (q : Db -> list A) offset limit :
  reads (exec (AuditedMint.load_page key q offset limit)).
Proof.
  apply reads_with_err. unfold AuditedMint.load_page.
  destruct offset, limit; [|intros w|..];
    [apply reads_bind; [apply reads_load_ordered|intros l; apply reads_ret]| |
     apply reads_bind; [apply reads_load_ordered|intros l; apply reads_ret]..].
  unfold statement, throw, lift. split.
  - destruct (w_faults w) as [|[f|] fs] eqn:E; simpl; [apply leads_refl|..];
      (split; [done|unfold healthy; by rewrite E]).
  - intros w' Hh Hh' _. unfold healthy in *. by rewrite Hh, Hh'.
Qed.
Lemma reads_optional {A} (m : Stmt A) : reads m -> reads (optional m).
Proof.
  intros Hm w. destruct (Hm w) as [H E1]. unfold optional. split; [by destruct (m w)|].
  intros w' Hh Hh' Hd. specialize (E1 w' Hh Hh' Hd). destruct (m w), (m w'). simpl in *. congruence.
Qed.

End reads.

Create HintDb reads.
#[export] Hint Resolve reads_ret reads_pure reads_throw reads_panic reads_get_conn reads_load
  reads_load_ordered reads_load_page reads_load_first reads_load_ordered_first : reads.

Ltac solve_reads :=
  repeat first
    [ solve [auto with reads]
    | apply reads_bind; [|intros]
    | apply reads_with_err
    | apply reads_attempt
    | apply reads_optional
    | apply reads_for_each; intros
    | case_match ].

Section handlers.
Context {X_chrono : Chrono} {X_sqlite : Sqlite} {X_hex : Hex} {X_mc : MobileCoin} {X_url : UrlLib}.

Lemma reads_counters : reads Counters.get.
Proof. unfold Counters.get. solve_reads.
Qed.
Lemma reads_audit_data i : reads (BlockAuditData.get i).
Proof. unfold BlockAuditData.get. solve_reads. Qed.
Lemma reads_last_audit_data : reads BlockAuditData.last_block_audit_data.
Proof. unfold BlockAuditData.last_block_audit_data. solve_reads. Qed.
Lemma reads_balances i : reads (BlockBalance.get_balances_for_block i).
Proof. unfold BlockBalance.get_balances_for_block. solve_reads. Qed.
Lemma reads_mint_config_by_id i : reads (MintConfig.get_by_id i).
Proof. unfold MintConfig.get_by_id. solve_reads. Qed.
#[local] Hint Resolve reads_counters reads_audit_data reads_last_audit_data reads_balances
  reads_mint_config_by_id : reads.

Lemma reads_signers m : reads (MintTx.get_signers m).
Proof. unfold MintTx.get_signers. solve_reads. Qed.
#[local] Hint Resolve reads_signers : reads.

Lemma reads_mint_info i : reads (ReserveAuditorHttpService.get_mint_info_by_block i).
Proof.
  unfold ReserveAuditorHttpService.get_mint_info_by_block, MintTx.get_mint_txs_by_block_index,
    MintConfigTx.get_by_block_index, ReserveAuditorHttpService.mint_config_tx_with_configs,
    ReserveAuditorHttpService.mint_with_config, MintConfig.get_by_mint_config_tx_id,
    MintConfigTx.get_by_id.
  solve_reads.
Qed.
#[local] Hint Resolve reads_mint_info : reads.

(** The lists. *)
Lemma reads_audited_mints offset limit : reads (ReserveAuditorHttpService.get_audited_mints offset limit).
Proof.
  unfold ReserveAuditorHttpService.get_audited_mints, AuditedMint.list_with_mint_and_deposit.
  solve_reads.
Qed.
Lemma reads_audited_burns offset limit : reads (ReserveAuditorHttpService.get_audited_burns offset limit).
Proof.
  unfold ReserveAuditorHttpService.get_audited_burns, AuditedBurn.list_with_burn_and_withdrawal.
  solve_reads.
Qed.
Lemma reads_unaudited_deposits : reads ReserveAuditorHttpService.get_unaudited_gnosis_deposits.
Proof.
  unfold ReserveAuditorHttpService.get_unaudited_gnosis_deposits,
    GnosisSafeDeposit.find_unaudited_deposits. solve_reads.
Qed.
Lemma reads_unaudited_burns : reads ReserveAuditorHttpService.get_unaudited_burn_tx_outs.
Proof.
  unfold ReserveAuditorHttpService.get_unaudited_burn_tx_outs, BurnTxOut.find_unaudited_burn_tx_outs.
  solve_reads.
Qed.
Lemma reads_unaudited_withdrawals : reads ReserveAuditorHttpService.get_unaudited_withdrawals.
Proof.
  unfold ReserveAuditorHttpService.get_unaudited_withdrawals,
    GnosisSafeWithdrawal.find_unaudited_withdrawals. solve_reads.
Qed.
Lemma reads_unaudited_mints : reads ReserveAuditorHttpService.get_unaudited_mints.
Proof.
  unfold ReserveAuditorHttpService.get_unaudited_mints, MintTx.find_unaudited_mint_txs. solve_reads.
Qed.
Lemma reads_burns i : reads (ReserveAuditorHttpService.get_burns_by_block i).
Proof.
  unfold ReserveAuditorHttpService.get_burns_by_block, BurnTxOut.get_burn_txs_by_block. solve_reads.
Qed.
Lemma reads_mint_total t : reads (ReserveAuditorHttpService.get_mint_total t).
Proof. unfold ReserveAuditorHttpService.get_mint_total, MintTx.get_mint_amounts. solve_reads. Qed.
Lemma reads_burn_total t : reads (ReserveAuditorHttpService.get_burn_total t).
Proof. unfold ReserveAuditorHttpService.get_burn_total, BurnTxOut.get_burn_amounts. solve_reads. Qed.
#[local] Hint Resolve reads_audited_mints reads_audited_burns reads_unaudited_deposits
  reads_unaudited_burns reads_unaudited_withdrawals reads_unaudited_mints reads_burns
  reads_mint_total reads_burn_total : reads.

Lemma reads_handle config c : reads (Server.handle config c).
Proof.
  destruct c; simpl; unfold Server.answer, Routes.get_counters, Routes.get_token_precisions,
    Routes.get_block_audit_data, Routes.get_last_block_audit_data, Routes.get_audited_mints,
    Routes.get_unaudited_gnosis_deposits, Routes.get_audited_burns, Routes.get_unaudited_burn_tx_outs,
    Routes.get_ledger_balance, Routes.get_gnosis_safe_config, Routes.get_mint_info_for_block,
    Routes.get_burns_for_block, Routes.get_unaudited_withdrawals, Routes.get_unaudited_mints,
    Routes.respond, ReserveAuditorHttpService.get_counters,
    ReserveAuditorHttpService.get_block_audit_data,
    ReserveAuditorHttpService.get_last_block_audit_data; solve_reads.
Qed.

Lemma reads_grpc c : reads (Server.grpc c).
Proof.
  destruct c; simpl; unfold ReserveAuditorService.get_block_audit_data_impl,
    ReserveAuditorService.get_last_block_audit_data_impl, ReserveAuditorService.get_counters_impl;
    solve_reads.
Qed.

Context {X_rocket : Rocket}.
Implicit Types (w : World) (config : GnosisSafeConfig).

Lemma serve_reads config headers request w :
  leads w (w_db w) (Server.serve config headers request w).2 /\
  forall w', healthy w -> healthy w' -> w_db w' = w_db w ->
    (Server.serve config headers request w').1 = (Server.serve config headers request w).1.
Proof.
  unfold Server.serve. destruct (dispatch _ _) as [c|]; [|split; [apply leads_refl|done]].
  destruct (reads_handle config c w) as [H E]. split; [by destruct (Server.handle config c w)|].
  intros w' Hh Hh' Hd. specialize (E w' Hh Hh' Hd).
  destruct (Server.handle config c w), (Server.handle config c w'). simpl in *. by subst.
Qed.

(** The four headers a browser looks for. *)
Definition cors_headers (m : gmap string string) : Prop :=
  m !! "Access-Control-Allow-Origin" = Some "*" /\
  m !! "Access-Control-Allow-Methods" = Some "POST, GET, PATCH, OPTIONS" /\
  m !! "Access-Control-Allow-Headers" = Some "*" /\
  m !! "Access-Control-Allow-Credentials" = Some "true".

Lemma serve_cors config headers request w :
  cors_headers (headers_of (Server.serve config headers request w).1).
Proof.
  unfold Server.serve.
  assert (forall r, cors_headers (headers_of (on_response r))) as H.
  { intros [r m]. unfold cors_headers, on_response. cbn [headers_of].
    repeat split; repeat (rewrite lookup_insert_ne by discriminate); apply lookup_insert_eq. }
  destruct (dispatch _ _); [destruct (Server.handle _ _ _)|]; apply H.
Qed.

Context {X_json : SerdeJson} {X_http : HttpClient} {X_hash : HashOrder} {X_ledger : LedgerDB}.

(** Reading is a step of the process. *)
Lemma read_step fuel poll_ms oconfig watcher env (f : World -> World) m ts w :
  (forall w, leads w (w_db w) (f w)) -> alive m ->
  process_step fuel poll_ms oconfig watcher env (mkProcess m ts w) (mkProcess m ts (f w)).
Proof.
  intros Hf Hm.
  apply (step_read _ _ _ _ _ (fun w => (Ok tt, f w) : Res Error unit * World) (fun _ _ => True));
    [done|]. intros w1. split; [apply Hf|by left].
Qed.

(** C32: Whatever is asked of the HTTP or the gRPC server, with whatever faults, the
    database stays as it is, and the process goes through one of its reads; without faults
    and while nothing else changes the database the answer is a function of it; and every response of the HTTP server, an
    error or a missing route included, lets a browser show it to any origin. *)
Theorem requests_read_only config headers request call w :
  let served := Server.serve config headers request in
  (w_db (served w).2 = w_db w /\ w_db (Server.grpc call w).2 = w_db w) /\
  (forall w', healthy w -> healthy w' -> w_db w' = w_db w ->
     (served w').1 = (served w).1 /\ (Server.grpc call w').1 = (Server.grpc call w).1) /\
  (forall fuel poll_ms oconfig watcher env m ts, alive m ->
     process_step fuel poll_ms oconfig watcher env (mkProcess m ts w) (mkProcess m ts (served w).2) /\
     process_step fuel poll_ms oconfig watcher env (mkProcess m ts w)
       (mkProcess m ts (Server.grpc call w).2)) /\
  cors_headers (headers_of (served w).1).
Proof.
  simpl. destruct (serve_reads config headers request w) as [Hs Es].
  destruct (reads_grpc call w) as [Hg Eg]. split; [|split; [|split]].
  - by rewrite (leads_db _ _ _ Hs), (leads_db _ _ _ Hg).
  - auto.
  - intros fuel poll_ms oconfig watcher env m ts Hm. split.
    + apply (read_step _ _ _ _ _ (fun w => (Server.serve config headers request w).2));
        [apply serve_reads|done].
    + apply (read_step _ _ _ _ _ (fun w => (Server.grpc call w).2)); [apply reads_grpc|done].
  - apply serve_cors.
Qed.
End handlers.

(** ** Witness *)

(** A server whose requests name their call. *)
#[local] Instance test_rocket : Rocket := { Request := option Call; dispatch _ request := request }.

Lemma requests_read_only_witness :
  let world' := add_sleep 5 initial_world in
  (Server.serve (X_rocket := test_rocket) test_config ∅ (Some GetCounters) world').1
    = (Server.serve (X_rocket := test_rocket) test_config ∅ (Some GetCounters) initial_world).1 /\
  process_step 2 1000 (Some test_config) None same_db
    (mkProcess Scanning [] initial_world)
    (mkProcess Scanning [] (Server.grpc Server.GrpcGetCounters initial_world).2).
Proof.
  destruct (requests_read_only (X_rocket := test_rocket) test_config ∅ (Some GetCounters) Server.GrpcGetCounters initial_world)
    as (_ & Hsame & Hstep & _).
  split.
  - apply Hsame; reflexivity.
  - apply Hstep. exact I.
Defined.
