(* ===== verification/Requests.v ===== *)
(** * Requests, statement by statement

    A request takes a connection of the pool and runs its statements in no transaction:
    between any two of them the rest of the auditor goes on.  A handler is therefore
    shown to be a program of statements, each of which is answered from the database of
    its own moment; that the programs are those of the handlers is part of their type. *)

From S2P Require Import Prelude Externals Concrete GnosisTypes Errors Schema Database.
From S2P Require Import CountersModel Blocks Mints Burns GnosisConfig GnosisRows AuditedMints.
From S2P Require Import AuditedBurns SyncBlock Main Faults Convert Service Http Server.

(** ** Programs of statements *)
Section programs.
Context {X_chrono : Chrono}.

(** A result, or a statement, what it answers from a database, and how the program
    continues with the answer. *)
Inductive Read (E A : Type) : Type :=
| Done (r : Res E A)
| Ask {X : Type} (answer : Db -> Res Diesel.Error X) (k : Res Diesel.Error X -> Read E A).
#[global] Arguments Done {E A} r.
#[global] Arguments Ask {E A X} answer k.

(** [k] after [p], whatever [p] results in. *)
Fixpoint continue {E A F B} (p : Read E A) (k : Res E A -> Read F B) : Read F B :=
  match p with
  | Done r => k r
  | Ask answer k' => Ask answer (fun x => continue (k' x) k)
  end.

Definition on_ok {E A B} (k : A -> Read E B) (r : Res E A) : Read E B :=
  match r with Ok a => k a | Err e => Done (Err e) | Panic p => Done (Panic p) end.

(** The value of a program whose statements are all answered from one database. *)
Fixpoint eval {E A} (p : Read E A) (d : Db) : Res E A :=
  match p with Done r => r | Ask answer k => eval (k (answer d)) d end.

(** The answers do not depend on the database; only those of one statement do. *)
Fixpoint fixed {E A} (p : Read E A) : Prop :=
  match p with
  | Done _ => True
  | Ask answer k => (forall d d', answer d = answer d') /\ forall r, fixed (k r)
  end.
Fixpoint once {E A} (p : Read E A) : Prop :=
  match p with
  | Done _ => True
  | Ask answer k =>
      ((forall d d', answer d = answer d') /\ forall r, once (k r)) \/ forall r, fixed (k r)
  end.

Lemma fixed_once {E A} (p : Read E A) : fixed p -> once p.
Proof. induction p as [r|X answer k IH]; [done|]. intros [H1 H2]. left. eauto. Qed.

Lemma fixed_continue {E A F B} (p : Read E A) (k : Res E A -> Read F B) :
  fixed p -> (forall r, fixed (k r)) -> fixed (continue p k).
Proof. induction p as [r|X answer k' IH]; simpl; [auto|]. intros [H1 H2] Hk. auto. Qed.

Lemma once_continue {E A F B} (p : Read E A) (k : Res E A -> Read F B) :
  once p -> (forall r, fixed (k r)) -> once (continue p k).
Proof.
  induction p as [r|X answer k' IH]; simpl; [by intros; apply fixed_once|].
  intros [[H1 H2]|H] Hk; [left; auto|right]. intros r. by apply fixed_continue.
Qed.

Lemma fixed_on_ok {E A B} (k : A -> Read E B) r : (forall a, fixed (k a)) -> fixed (on_ok k r).
Proof. intros H. by destruct r; simpl. Qed.
Lemma once_on_ok {E A B} (k : A -> Read E B) r : (forall a, once (k a)) -> once (on_ok k r).
Proof. intros H. by destruct r; simpl. Qed.

Lemma eval_continue {E A F B} (p : Read E A) (k : Res E A -> Read F B) d :
  eval (continue p k) d = eval (k (eval p d)) d.
Proof. by induction p as [r|X answer k' IH]; simpl. Qed.

End programs.

(** ** Beside a running system *)
Section served.
Context {X_chrono : Chrono} {S : Type} (step : S -> S -> Prop) (db : S -> Db).

(** Before every statement, and before the response, the system takes any steps.  No
    statement of the program fails by a fault. *)
Fixpoint served {E A} (p : Read E A) (s : S) (r : Res E A) (s' : S) : Prop :=
  match p with
  | Done r0 => r = r0 /\ rtc step s s'
  | Ask answer k => exists s1, rtc step s s1 /\ served (k (answer (db s1))) s1 r s'
  end.

Lemma served_steps {E A} (p : Read E A) s r s' : served p s r s' -> rtc step s s'.
Proof.
  revert s. induction p as [r0|X answer k IH]; intros s; simpl; [by intros [_ ?]|].
  intros (s1 & H1 & H2). etrans; [exact H1|by eapply IH].
Qed.

Lemma served_continue {E A F B} (p : Read E A) (k : Res E A -> Read F B) s r s' :
  served (continue p k) s r s' <-> exists r1 s1, served p s r1 s1 /\ served (k r1) s1 r s'.
Proof.
  revert s. induction p as [r0|X answer k' IH]; intros s; simpl.
  - split; [intros H; exists r0, s; split_and!; [done|apply rtc_refl|done]|].
    intros (r1 & s1 & [-> H1] & H2). destruct (k r0) as [r2|X answer k']; simpl in *.
    + destruct H2 as [-> H2]. split; [done|by etrans].
    + destruct H2 as (s2 & H2 & H3). exists s2. split; [by etrans|done].
  - split.
    + intros (s1 & H1 & (r2 & s2 & H2 & H3)%IH). exists r2, s2. eauto.
    + intros (r2 & s2 & (s1 & H1 & H2) & H3). exists s1. split; [done|]. apply IH. eauto.
Qed.

Lemma served_fixed {E A} (p : Read E A) s r s' d : fixed p -> served p s r s' -> r = eval p d.
Proof.
  revert s. induction p as [r0|X answer k IH]; intros s; simpl; [by intros _ [-> _]|].
  intros [H1 H2] (s1 & _ & H). rewrite (H1 _ d) in H. by eapply IH.
Qed.

Lemma served_earlier {E A} (p : Read E A) s0 s r s' : rtc step s0 s -> served p s r s' -> served p s0 r s'.
Proof.
  intros H0. destruct p as [r0|X answer k]; simpl; [intros [-> H]; split; [done|by etrans]|].
  intros (s1 & H1 & H2). exists s1. split; [by etrans|done].
Qed.

Lemma served_later {E A} (p : Read E A) s r s' s2 : served p s r s' -> rtc step s' s2 -> served p s r s2.
Proof.
  intros H H2. revert s H. induction p as [r0|X answer k IH]; intros s; simpl.
  - intros [-> H]. split; [done|by etrans].
  - intros (s1 & H1 & H). exists s1. split; [done|by apply IH].
Qed.

(** At one moment, if nothing happens meanwhile. *)
Lemma served_now {E A} (p : Read E A) s : served p s (eval p (db s)) s.
Proof.
  induction p as [r0|X answer k IH]; simpl; [by split|]. exists s. by split.
Qed.

(** A program with one statement that matters is answered from one moment. *)
Lemma served_once {E A} (p : Read E A) s r s' :
  once p -> served p s r s' -> exists m, rtc step s m /\ rtc step m s' /\ r = eval p (db m).
Proof.
  revert s. induction p as [r0|X answer k IH]; intros s; simpl.
  { intros _ [-> H]. exists s. split_and!; [apply rtc_refl|done..]. }
  intros [[H1 H2]|Hf] (s1 & Hs & H).
  - destruct (IH _ s1 (H2 _) H) as (m & Hm & Hm' & ->). exists m.
    split; [by etrans|]. split; [done|]. by rewrite (H1 (db s1) (db m)).
  - exists s1. split; [done|]. split; [by eapply served_steps|]. by apply served_fixed with s1 s'.
Qed.
End served.

(** ** The handlers as programs *)
Section reading.
Context {X_chrono : Chrono} {X_sqlite : Sqlite}.
Implicit Types (w : World).

(** The program run on its own. *)
Fixpoint run {E A} (p : Read E A) : M World E A :=
  match p with
  | Done r => lift r
  | Ask answer k => fun w =>
      let '(x, w') := statement (fun w => (answer (w_db w), w)) w in run (k x) w'
  end.

(** The program of statements that [m] is.  They agree in every world, whatever faults
    are pending: as every statement takes one entry of the list of faults, a program with
    two statements run as one, or one left out, would not agree. *)
Record Reading {E A} (m : M World E A) := mkReading {
  program : Read E A;
  program_runs : forall w, run program w = m w;
}.
Arguments mkReading {E A} m program program_runs.
#[global] Arguments program {E A m} _.
#[global] Arguments program_runs {E A m} _ _.

Lemma run_continue {E A F B} (p : Read E A) (k : Res E A -> Read F B) w :
  run (continue p k) w = let '(r, w') := run p w in run (k r) w'.
Proof.
  revert w. induction p as [r|X answer k' IH]; intros w; simpl; [done|].
  destruct (statement _ w) as [x w']. apply IH.
Qed.

Lemma run_healthy {E A} (p : Read E A) w : healthy w -> run p w = (eval p (w_db w), w).
Proof.
  intros Hh. induction p as [r|X answer k IH]; simpl; [done|]. unfold statement. by rewrite Hh.
Qed.

Definition reading_lift {E A} (r : Res E A) : Reading (lift r) := mkReading _ (Done r) (fun w => eq_refl).
Definition reading_ret {E A} (a : A) : Reading (mret a : M World E A) := reading_lift (Ok a).
Definition reading_throw {E A} (e : E) : Reading (throw e : M World E A) := reading_lift (Err e).
Definition reading_panic {E A} p : Reading (panic p : M World E A) := reading_lift (Panic p).

Definition reading_bind {E A B} {m : M World E A} {k : A -> M World E B}
    (Hm : Reading m) (Hk : forall a, Reading (k a)) : Reading (m ≫= k).
Proof.
  refine (mkReading _ (continue (program Hm) (on_ok (fun a => program (Hk a)))) _).
  abstract (intros w; rewrite run_continue, (program_runs Hm); unfold mbind, M_bind;
    destruct (m w) as [[a|e|p] w']; simpl; [apply program_runs|done..]).
Defined.

Definition reading_with_err {E F A} (f : E -> F) {m : M World E A} (Hm : Reading m) :
  Reading (with_err f m).
Proof.
  refine (mkReading _ (continue (program Hm) (fun r => Done (map_err f r))) _).
  abstract (intros w; rewrite run_continue, (program_runs Hm); unfold with_err; by destruct (m w)).
Defined.

Definition reading_attempt {E F A} {m : M World E A} (Hm : Reading m) :
  Reading (attempt m : M World F (Res E A)).
Proof.
  refine (mkReading _ (continue (program Hm) (fun r => Done match r with Panic p => Panic p | _ => Ok r end)) _).
  abstract (intros w; rewrite run_continue, (program_runs Hm); unfold attempt;
    by destruct (m w) as [[] ?]).
Defined.

Definition reading_optional {A} {m : Stmt A} (Hm : Reading m) : Reading (optional m).
Proof.
  refine (mkReading _ (continue (program Hm) (fun r => Done (Diesel.optional r))) _).
  abstract (intros w; rewrite run_continue, (program_runs Hm); unfold optional; by destruct (m w)).
Defined.

Definition reading_statement {A} (answer : Db -> Res Diesel.Error A) :
  Reading (statement (fun w => (answer (w_db w), w))).
Proof.
  refine (mkReading _ (Ask answer Done) _).
  abstract (intros w; simpl; by destruct (statement _ w)).
Defined.

Definition reading_get_conn : Reading get_conn :=
  reading_with_err _ (reading_statement (fun _ => Ok tt)).
Definition reading_load {A} (q : Db -> list A) : Reading (load q) :=
  reading_statement (fun d => Ok (scan (q d))).
Definition reading_load_ordered {A} key (q : Db -> list A) : Reading (load_ordered key q) :=
  reading_statement (fun d => Ok (order_by key (scan (q d)))).
Definition reading_load_first {A} (q : Db -> list A) : Reading (load_first q) :=
  reading_bind (reading_load q) (fun l => reading_lift (first l)).
Definition reading_load_page {A} (key : A -> Z) (q : Db -> list A) offset limit :
  Reading (AuditedMint.load_page key q offset limit) :=
  match offset, limit with
  | Some _, None => reading_statement (fun _ => Err _)
  | Some _, Some _ | None, _ => reading_bind (reading_load_ordered key q) (fun l => reading_ret _)
  end.

Fixpoint reading_for_each {E A B} (f : A -> M World E B) (Hf : forall x, Reading (f x)) xs :
  Reading (for_each f xs) :=
  match xs with
  | [] => reading_ret []
  | x :: xs' => reading_bind (Hf x) (fun y =>
      reading_bind (reading_for_each f Hf xs') (fun ys => reading_ret (y :: ys)))
  end.
End reading.

(** Calls that only read, beside a running system. *)
Section served_readings.
Context {X_chrono : Chrono} {X_sqlite : Sqlite}.
Context {S : Type} (step : S -> S -> Prop) (db : S -> Db).
Abbreviation served := (served step db).

Lemma served_bind {E A B} {m : M World E A} {k : A -> M World E B} (Hm : Reading m)
    (Hk : forall a, Reading (k a)) s r s' :
  served (program (reading_bind Hm Hk)) s r s' <-> exists r1 s1, served (program Hm) s r1 s1 /\
    served (on_ok (fun a => program (Hk a)) r1) s1 r s'.
Proof. apply served_continue. Qed.

Lemma served_with_err {E F A} (f : E -> F) {m : M World E A} (Hm : Reading m) s r s' :
  served (program (reading_with_err f Hm)) s r s' <->
  exists r1, served (program Hm) s r1 s' /\ r = map_err f r1.
Proof.
  split.
  - intros (r1 & s1 & H1 & -> & H2)%served_continue. exists r1. split; [by eapply served_later|done].
  - intros (r1 & H & ->). apply served_continue. exists r1, s'. split; [done|]. by split.
Qed.

(** The connection that a call starts with. *)
Lemma served_conn {A} {m : App A} (Hm : Reading m) s r s' :
  served (program (reading_bind reading_get_conn (fun _ => Hm))) s r s' -> served (program Hm) s r s'.
Proof.
  intros (r1 & s1 & (r2 & (s2 & H2 & -> & H3) & ->)%served_with_err & H1)%served_bind. simpl in H1.
  eapply served_earlier, H1. by etrans.
Qed.

(** What a call makes of the database of a moment. *)
Lemma served_query {A} {m : App A} (Hm : Reading m) s r s' :
  once (program Hm) -> served (program Hm) s r s' ->
  exists x, rtc step s x /\ rtc step x s' /\ forall P, query m P -> P (db x) r.
Proof.
  intros Ho (x & H1 & H2 & ->)%served_once; [|done]. exists x. split_and!; [done..|]. intros P Hq.
  pose proof (program_runs Hm (mkWorld (db x) 0 ∅ 0 0 [])) as E. rewrite run_healthy in E by done.
  destruct (Hq (mkWorld (db x) 0 ∅ 0 0 [])) as [_ HP]. unfold wp in HP. rewrite <- E in HP. simpl in HP.
  destruct HP as [HP|(f & [] & _)]; done.
Qed.
End served_readings.

(** What a call reads, from what the calls it makes read. *)
Ltac reading_step :=
  match goal with
  | |- Reading (mret _) => apply reading_ret
  | |- Reading (throw _) => apply reading_throw
  | |- Reading (panic _) => apply reading_panic
  | |- Reading (lift _) => apply reading_lift
  | |- Reading get_conn => apply reading_get_conn
  | |- Reading (load_first _) => apply reading_load_first
  | |- Reading (load _) => apply reading_load
  | |- Reading (load_ordered _ _) => apply reading_load_ordered
  | |- Reading (AuditedMint.load_page _ _ _ _) => apply reading_load_page
  | |- Reading (_ ≫= _) => apply reading_bind; [|intros ?]
  | |- Reading (exec _) => apply reading_with_err
  | |- Reading (with_err _ _) => apply reading_with_err
  | |- Reading (attempt _) => apply reading_attempt
  | |- Reading (optional _) => apply reading_optional
  | |- Reading (for_each _ _) => apply reading_for_each; intros ?
  | |- Reading (match ?x with _ => _ end) => destruct x
  end.
Ltac solve_reading := repeat reading_step.

Section handlers.
Context {X_chrono : Chrono} {X_sqlite : Sqlite} {X_hex : Hex} {X_mc : MobileCoin} {X_url : UrlLib}.
Implicit Types (config : GnosisSafeConfig).

Definition reading_audit_data i : Reading (BlockAuditData.get i).
Proof. unfold BlockAuditData.get. solve_reading. Defined.
Definition reading_last_synced : Reading BlockAuditData.last_synced_block_index.
Proof. unfold BlockAuditData.last_synced_block_index. solve_reading. Defined.
Definition reading_balances i : Reading (BlockBalance.get_balances_for_block i).
Proof. unfold BlockBalance.get_balances_for_block. solve_reading. Defined.

Definition reading_block i : Reading (ReserveAuditorHttpService.get_block_audit_data i) :=
  reading_bind reading_get_conn (fun _ =>
  reading_bind (reading_audit_data i) (fun block_audit_data =>
  reading_bind (reading_balances _) (fun balances => reading_ret _))).

Definition reading_last_audit_data : Reading BlockAuditData.last_block_audit_data.
Proof.
  unfold BlockAuditData.last_block_audit_data.
  refine (reading_bind reading_last_synced (fun i => _)). destruct i as [block_index|].
  - exact (reading_bind (reading_audit_data block_index) (fun r => reading_ret (Some r))).
  - exact (reading_ret None).
Defined.

Definition reading_last_block : Reading ReserveAuditorHttpService.get_last_block_audit_data :=
  reading_bind reading_get_conn (fun _ =>
  reading_bind reading_last_audit_data (fun last =>
  reading_bind (reading_lift (ok_or NotFound last)) (fun block_audit_data =>
  reading_bind (reading_balances _) (fun balances => reading_ret _)))).

Definition reading_mint_total t : Reading (ReserveAuditorHttpService.get_mint_total t).
Proof. unfold ReserveAuditorHttpService.get_mint_total, MintTx.get_mint_amounts. solve_reading. Defined.
Definition reading_burn_total t : Reading (ReserveAuditorHttpService.get_burn_total t).
Proof. unfold ReserveAuditorHttpService.get_burn_total, BurnTxOut.get_burn_amounts. solve_reading. Defined.

Definition reading_ledger_balance config t : Reading (Routes.get_ledger_balance config t) :=
  reading_bind (reading_with_err Error_display (reading_mint_total _)) (fun mint_total =>
  reading_bind (reading_with_err Error_display (reading_burn_total _)) (fun burn_total =>
  reading_bind (reading_with_err Error_display (reading_lift _)) (fun symbol => reading_ret _))).

Definition reading_counters : Reading ReserveAuditorHttpService.get_counters.
Proof.
  unfold ReserveAuditorHttpService.get_counters, Counters.get.
  apply reading_bind; [apply reading_get_conn|intros _].
  apply reading_bind; [apply reading_attempt, reading_load_first|intros [c|[] |p]]; solve_reading.
Defined.

Definition reading_mint_config_tx_with_configs t :
  Reading (ReserveAuditorHttpService.mint_config_tx_with_configs t).
Proof.
  unfold ReserveAuditorHttpService.mint_config_tx_with_configs, MintConfig.get_by_mint_config_tx_id.
  solve_reading.
Defined.
Definition reading_signers m : Reading (MintTx.get_signers m).
Proof. unfold MintTx.get_signers, MintConfig.get_by_id. solve_reading. Defined.
Definition reading_mint_with_config m : Reading (ReserveAuditorHttpService.mint_with_config m).
Proof.
  unfold ReserveAuditorHttpService.mint_with_config, MintConfig.get_by_id, MintConfigTx.get_by_id.
  apply reading_bind; [apply reading_signers|intros ?]. solve_reading.
Defined.
Definition reading_mint_info i : Reading (ReserveAuditorHttpService.get_mint_info_by_block i) :=
  reading_bind reading_get_conn (fun _ =>
  reading_bind (reading_with_err _ (reading_load_ordered _ _)) (fun mint_txs =>
  reading_bind (reading_with_err _ (reading_load_ordered _ _)) (fun mint_config_txs =>
  reading_bind (reading_for_each _ reading_mint_config_tx_with_configs _) (fun with_configs =>
  reading_bind (reading_for_each _ reading_mint_with_config _) (fun mints => reading_ret _))))).

Definition reading_audited_mints offset limit :
  Reading (ReserveAuditorHttpService.get_audited_mints offset limit) :=
  reading_bind reading_get_conn (fun _ =>
  reading_bind (reading_with_err _ (reading_load_page _ _ offset limit)) (fun l => reading_ret _)).
Definition reading_audited_burns offset limit :
  Reading (ReserveAuditorHttpService.get_audited_burns offset limit) :=
  reading_bind reading_get_conn (fun _ =>
  reading_bind (reading_with_err _ (reading_load_page _ _ offset limit)) (fun l => reading_ret _)).

(** A list that one query gives. *)
Definition reading_list {A B} (q : Db -> list A) (f : list A -> B) :
  Reading (_ ← get_conn; l ← exec (load q); mret (f l)) :=
  reading_bind reading_get_conn (fun _ =>
  reading_bind (reading_with_err _ (reading_load q)) (fun l => reading_ret _)).

Definition reading_answer {A} (body : A -> Body) {m : App A} (Hm : Reading m) :
  Reading (Server.answer body (Routes.respond m)) :=
  reading_bind (reading_with_err Error_display Hm) (fun x => reading_ret (body x)).

(** The statements of every handler. *)
Definition reading_handle config (c : Call) : Reading (Server.handle config c) :=
  match c with
  | Index => reading_ret _
  | GetCounters => reading_answer CountersBody reading_counters
  | GetTokenPrecisions => reading_answer TokenPrecisionBody (reading_lift _)
  | GetBlockAuditData i => reading_answer BlockAuditDataBody (reading_block i)
  | GetLastBlockAuditData => reading_answer BlockAuditDataBody reading_last_block
  | GetAuditedMints offset limit => reading_answer AuditedMintsBody (reading_audited_mints offset limit)
  | GetUnauditedGnosisDeposits => reading_answer UnauditedGnosisDepositsBody (reading_list _ _)
  | GetAuditedBurns offset limit => reading_answer AuditedBurnsBody (reading_audited_burns offset limit)
  | GetUnauditedBurnTxOuts => reading_answer UnauditedBurnTxOutsBody (reading_list _ _)
  | GetLedgerBalance t =>
      reading_bind (reading_ledger_balance config t) (fun x => reading_ret (LedgerBalanceBody x))
  | GetGnosisSafeConfig => reading_answer GnosisSafeConfigBody (reading_lift _)
  | GetMintInfoForBlock i => reading_answer MintInfoBody (reading_mint_info i)
  | GetBurnsForBlock i =>
      reading_answer BurnInfoBody (reading_bind reading_get_conn (fun _ =>
        reading_bind (reading_with_err _ (reading_load_ordered _ _)) (fun l => reading_ret _)))
  | GetUnauditedWithdrawals => reading_answer WithdrawalsBody
      (reading_bind reading_get_conn (fun _ => reading_with_err _ (reading_load _)))
  | GetUnauditedMints => reading_answer MintsBody
      (reading_bind reading_get_conn (fun _ => reading_with_err _ (reading_load _)))
  end.

(** A request. *)
Definition request config (c : Call) : Read string Body := program (reading_handle config c).

Lemma request_runs config c w : run (request config c) w = Server.handle config c w.
Proof. apply program_runs. Qed.

(** Answered at once, it is the handler on a database without faults. *)
Lemma request_eval config c w : healthy w -> (Server.handle config c w).1 = eval (request config c) (w_db w).
Proof. intros Hh. by rewrite <- request_runs, run_healthy. Qed.

(** The requests that one statement answers. *)
Definition single (c : Call) : bool :=
  match c with
  | GetBlockAuditData _ | GetLastBlockAuditData | GetLedgerBalance _ | GetMintInfoForBlock _ => false
  | _ => true
  end.

Lemma once_conn {A} {m : App A} (Hm : Reading m) :
  once (program Hm) -> once (program (reading_bind reading_get_conn (fun _ => Hm))).
Proof. intros H. left. split; [done|]. by intros [?|?|?]. Qed.

Lemma once_answer {A} (body : A -> Body) {m : App A} (Hm : Reading m) :
  once (program Hm) -> once (program (reading_answer body Hm)).
Proof.
  intros H. apply once_continue; [|by intros [?|?|?]]. by apply once_continue.
Qed.

(** The body and the error of a response. *)
Definition shown {A} (body : A -> Body) (r : Res Error A) : Res string Body :=
  match r with Ok x => Ok (body x) | Err e => Err (Error_display e) | Panic p => Panic p end.

Lemma answer_shown {A} (body : A -> Body) (m : App A) w :
  (Server.answer body (Routes.respond m) w).1 = shown body (m w).1.
Proof. unfold Server.answer, Routes.respond, with_err, mbind, M_bind. by destruct (m w) as [[?|?|?] ?]. Qed.

Lemma served_answer {S} (step : S -> S -> Prop) (db : S -> Db) {A} (body : A -> Body) {m : App A}
    (Hm : Reading m) s r s' :
  served step db (program (reading_answer body Hm)) s r s' ->
  exists r1, served step db (program Hm) s r1 s' /\ r = shown body r1.
Proof.
  intros (r1 & s1 & (r2 & H2 & ->)%served_with_err & H1)%served_bind. exists r2.
  destruct r2 as [x|e|p]; simpl in H1; destruct H1 as [-> H1]; (split; [by eapply served_later|done]).
Qed.

Lemma request_once config c : single c = true -> once (request config c).
Proof.
  destruct c as [| | |i| |offset limit| |offset limit| |t| |i|i| |]; try done; intros _;
    apply once_answer; try done; apply once_conn.
  - right. by intros [[]|[]|?].
  - apply once_continue; [|by intros [?|?|?]]. apply once_continue; [|done].
    destruct offset, limit; right; by intros [?|?|?].
  - right. by intros [?|?|?].
  - apply once_continue; [|by intros [?|?|?]]. apply once_continue; [|done].
    destruct offset, limit; right; by intros [?|?|?].
  - right. by intros [?|?|?].
  - right. by intros [?|?|?].
  - right. by intros [?|?|?].
  - right. by intros [?|?|?].
Qed.

(** Such a request is answered as by the handler, from the database of one moment. *)
Lemma single_answered {S} (step : S -> S -> Prop) (db : S -> Db) config c s r s' :
  single c = true -> served step db (request config c) s r s' ->
  exists m, rtc step s m /\ rtc step m s' /\
    forall w, healthy w -> w_db w = db m -> r = (Server.handle config c w).1.
Proof.
  intros Hc H. destruct (served_once step db _ s r s' (request_once config c Hc) H) as (m & H1 & H2 & ->).
  exists m. split_and!; [done..|]. intros w Hh Hd. by rewrite request_eval, Hd.
Qed.
End handlers.
