(* ===== verification/TypesProps.v ===== *)
(** * Properties of the data types, the counters and the transactions

    The round trips of hashes, values, addresses and mint nonces, also through
    their columns; the look-ups of tokens; what one increment of a counter does;
    how often a transaction is tried. *)

From S2P Require Import Prelude Externals Concrete GnosisTypes Errors Schema Database.
From S2P Require Import CountersModel GnosisConfig SyncBlock Scenario.

Section types.
Context {X_hex : Hex} {L_hex : HexLaws}.

(** C36: A mint nonce encodes its deposit hash without loss: encoding then decoding is
    the identity, the encoding is exactly 64 bytes, different deposits get different
    nonces, and every successfully decoded nonce agrees with its encoding on the 33
    meaningful bytes. *)
Theorem mint_tx_nonce_roundtrip h h' bytes n :
  MintTxNonce.try_from (MintTxNonce.to_bytes (MintTxNonce.EthereumGnosisDeposit h))
    = Ok (MintTxNonce.EthereumGnosisDeposit h) /\
  length (MintTxNonce.to_bytes n) = 64%nat /\
  (MintTxNonce.to_bytes (MintTxNonce.EthereumGnosisDeposit h)
     = MintTxNonce.to_bytes (MintTxNonce.EthereumGnosisDeposit h') -> h = h') /\
  (MintTxNonce.try_from bytes = Ok n -> take 33 (MintTxNonce.to_bytes n) = take 33 bytes).
Proof.
  split_and!; [apply nonce_try_from_to_bytes|apply to_bytes_length| |apply nonce_try_from_prefix].
  intros H. apply expected_nonce_hex_inj. by rewrite H.
Qed.

(** Parsed addresses are equal when their texts stand for the same bytes. *)
Lemma EthAddr_eqb_bytes s s' a a' :
  EthAddr.from_str s = Ok a -> EthAddr.from_str s' = Ok a' ->
  EthAddr.eqb a a' = true <-> hex_decode (slice_from 2 s) = hex_decode (slice_from 2 s').
Proof.
  intros (-> & Hp & l & Hl & _)%EthAddr_from_str_spec (-> & Hp' & l' & Hl' & _)%EthAddr_from_str_spec.
  apply starts_with_slice in Hp, Hp'. rewrite EthAddr_eqb_true, Hl, Hl'. simpl in *.
  rewrite Hp, Hp', !to_lowercase_app. rewrite <- (hex_encode_decode _ _ Hl), <- (hex_encode_decode _ _ Hl').
  split; [|by intros [= ->]]. intros [= E]. change (hex_encode l = hex_encode l') in E.
  pose proof (hex_decode_encode l) as H.
  rewrite E, hex_decode_encode in H. by injection H as ->.
Qed.

(** C38: Exactly the texts of a 0x prefix and 40 hexadecimal digits are addresses; an
    address keeps the capitalisation it came with; two addresses are equal exactly
    if they stand for the same 20 bytes, and the order and the hash agree with that
    equality. *)
Theorem EthAddr_from_str_iff s s' a b :
  (EthAddr.from_str s = Ok a <->
     a = EthAddr.mk s /\ starts_with "0x" s = true /\
     exists bytes, hex_decode (slice_from 2 s) = inr bytes /\ length bytes = EthAddr.LEN) /\
  (EthAddr.from_str s = Ok a -> EthAddr.display a = s /\ String.length s = 42%nat) /\
  (EthAddr.from_str s = Ok a -> EthAddr.from_str s' = Ok b ->
     (EthAddr.eqb a b = true <-> hex_decode (slice_from 2 s) = hex_decode (slice_from 2 s'))) /\
  (EthAddr.cmp a b = Eq <-> EthAddr.eqb a b = true) /\
  EthAddr.cmp b a = CompOpp (EthAddr.cmp a b) /\
  (EthAddr.eqb a b = true -> EthAddr.hash_text a = EthAddr.hash_text b).
Proof.
  split; [apply EthAddr_from_str_spec|]. split; [|split; [apply EthAddr_eqb_bytes|]].
  - intros H. split; [|by eapply EthAddr_from_str_length].
    by pose proof H as (-> & _)%EthAddr_from_str_spec.
  - split; [apply EthAddr_cmp_eq|]. split; [apply String.compare_antisym|]. by rewrite EthAddr_eqb_true.
Qed.

(** C37: The text columns give back exactly the values that were stored (hashes and
    [u128] values always, addresses when they were parsed), and two texts of one
    transaction hash differ only in capitalisation. *)
Theorem sql_text_roundtrip h v a s text h' :
  (SqlEthTxHash_from_sql (SqlEthTxHash_to_sql h) = Ok h) /\
  (is_u128 (EthTxValue.value v) -> SqlEthTxValue_from_sql (SqlEthTxValue_to_sql v) = Ok v) /\
  (EthAddr.from_str s = Ok a -> SqlEthAddr_from_sql (SqlEthAddr_to_sql a) = Ok a) /\
  (EthTxHash.from_str text = Ok h' -> EthTxHash.display h' = to_lowercase text).
Proof.
  unfold SqlEthTxHash_from_sql, SqlEthTxHash_to_sql, SqlEthTxValue_from_sql,
    SqlEthTxValue_to_sql, SqlEthAddr_from_sql, SqlEthAddr_to_sql.
  split_and!; [by rewrite EthTxHash_from_display|intros Hv; by rewrite EthTxValue_from_to|
    |apply EthTxHash_display_from].
  intros Ha. by rewrite (EthAddr_from_display _ _ Ha).
Qed.

(** The look-ups are by address up to capitalisation: they return the first
    configured token (safe) with the address, and nothing exactly if there is none. *)
Theorem config_lookups {X_url : UrlLib} (sc : AuditedSafeConfig) (config : GnosisSafeConfig) addr :
  match get_token_by_eth_contract_addr sc addr with
  | Some token => token ∈ sc_tokens sc /\
      exists a, a ∈ tok_eth_token_contract_addrs token /\
        to_lowercase (EthAddr.display addr) = to_lowercase (EthAddr.display a)
  | None => forall token a, token ∈ sc_tokens sc -> a ∈ tok_eth_token_contract_addrs token ->
      to_lowercase (EthAddr.display addr) <> to_lowercase (EthAddr.display a)
  end /\
  match get_audited_safe_config_by_safe_addr config addr with
  | Some safe => safe ∈ gc_safes config /\
      to_lowercase (EthAddr.display (sc_safe_addr safe)) = to_lowercase (EthAddr.display addr)
  | None => forall safe, safe ∈ gc_safes config ->
      to_lowercase (EthAddr.display (sc_safe_addr safe)) <> to_lowercase (EthAddr.display addr)
  end.
Proof.
  unfold get_token_by_eth_contract_addr, get_audited_safe_config_by_safe_addr. split.
  - destruct (List.find _ _) as [token|] eqn:E.
    + apply find_Some_elem in E as [Hin (a & Ha & Ea%EthAddr_eqb_true)%existsb_exists_elem].
      split; [done|]. by exists a.
    + intros token a Hin Ha Ee. apply EthAddr_eqb_true in Ee.
      apply list_elem_of_In, (List.find_none _ _ E) in Hin.
      pose proof (proj1 (existsb_false _ _) Hin a Ha). congruence.
  - destruct (List.find _ _) as [safe|] eqn:E.
    + apply find_Some_elem in E as [Hin Ea%EthAddr_eqb_true]. done.
    + intros safe Hin Ee. apply EthAddr_eqb_true in Ee.
      apply list_elem_of_In, (List.find_none _ _ E) in Hin. congruence.
Qed.
End types.

Section operations.
Context {X_chrono : Chrono} {X_sqlite : Sqlite} {L_sqlite : SqliteLaws} {X_hex : Hex}.
Implicit Types (w : World) (d : Db).

(** One increment adds one to its own counter and to no other, changes no other
    table, and leaves every gauge showing its counter. *)
Theorem counter_increment v w :
  healthy w -> counters_ok (w_db w) ->
  let (r, w') := Counters.inc v w in
  r = Ok tt /\ healthy w' /\ w_db w' = bump_db v (w_db w) /\
  (forall v', counter_value v' (w_db w')
     = counter_value v' (w_db w) + (if decide (v = v') then 1 else 0)) /\
  (forall v', w_gauges w' !! gauge_name v' = Some (counter_value v' (w_db w'))).
Proof.
  intros Hh Hc. pose proof Hc as [c Hrow]. rewrite (inc_healthy v c w) by done.
  split_and!; [done|done|done|intros v'; by apply counter_value_bump|].
  intros v'. rewrite publish_gauges. f_equal. change (w_db (publish _ _)) with (bump_db v (w_db w)).
  pose proof (counters_row_bump v _ _ Hrow) as [E _]. unfold counter_value. by rewrite E.
Qed.

(** ** Retries *)
Lemma conn_transaction_err {A} (f : App A) w :
  match conn_transaction f w with (Err _, w') => w_db w' = w_db w | _ => True end.
Proof.
  assert (wp (conn_transaction f) (fun r w' =>
    match r with Err _ => w_db w' = w_db w | _ => True end) w) as H.
  { apply wp_conn_transaction; [by intros g w' _ [Hd _]|].
    intros w1 _. unfold wp. by destruct (f w1) as [[]]. }
  unfold wp in H. by destruct (conn_transaction f w) as [[] ?].
Qed.

Lemma transaction_loop_last {A} (f : App A) remaining i w :
  i + Z.of_nat remaining = Z.of_nat NUM_RETRIES -> (0 < remaining)%nat ->
  exists w1, transaction_loop remaining i f w = conn_transaction f w1 /\ w_db w1 = w_db w.
Proof.
  revert i w. induction remaining as [|n IH]; intros i w Hi Hn; [lia|]. simpl.
  destruct (conn_transaction f w) as [[a|e|p] w1] eqn:E; [by exists w|  |by exists w].
  destruct (negb (should_retry e) || (i =? Z.of_nat NUM_RETRIES - 1)) eqn:Hr; [by exists w|].
  apply orb_false_iff in Hr as [_ Hr%Z.eqb_neq].
  destruct (IH (i + 1) (add_sleep (BASE_DELAY * 2 ^ i) w1)) as (w2 & E2 & Hd); [lia|lia|].
  exists w2. split; [done|]. rewrite Hd. simpl.
  pose proof (conn_transaction_err f w) as H. by rewrite E in H.
Qed.

(** C35: [transaction] ends with the result of an attempt made on the database it was
    called with, so it cannot reach its final panic; it sleeps only after attempts
    that failed with a retriable error, and gives up after the fifth one, having
    slept 10, 20, 40 and 80 milliseconds. *)
Theorem transaction_attempts {A} (f : App A) w e :
  (exists w1, transaction f w = conn_transaction f w1 /\ w_db w1 = w_db w) /\
  (healthy w ->
   (forall w1, healthy w1 -> (f w1).1 = Err e /\ healthy (f w1).2 /\
      w_slept_ms (f w1).2 = w_slept_ms w1) ->
   (transaction f w).1 = Err e /\ w_db (transaction f w).2 = w_db w /\
   w_slept_ms (transaction f w).2
   = w_slept_ms w + (if should_retry e then 10 + 20 + 40 + 80 else 0)).
Proof.
  split; [apply transaction_loop_last; [done|unfold NUM_RETRIES; lia]|]. intros Hh Hf.
  assert (forall w1, healthy w1 -> exists w2, conn_transaction f w1 = (Err e, w2) /\ healthy w2 /\
    w_db w2 = w_db w1 /\ w_slept_ms w2 = w_slept_ms w1) as Hstep.
  { intros w1 Hh1. rewrite conn_transaction_healthy by done.
    destruct (Hf w1 Hh1) as (E & Hh2 & Hs). destruct (f w1) as [r w2]. simpl in *. subst r.
    by exists (set_db (w_db w1) w2). }
  unfold transaction, NUM_RETRIES. simpl.
  destruct (Hstep w Hh) as (w1 & -> & H1 & D1 & S1).
  destruct (should_retry e) eqn:Hr; simpl; [|split_and!; [done|done|lia]].
  destruct (Hstep (add_sleep (BASE_DELAY * 2 ^ 0) w1) H1) as (w2 & -> & H2 & D2 & S2). rewrite Hr. simpl.
  destruct (Hstep (add_sleep (BASE_DELAY * 2 ^ (0 + 1)) w2) H2) as (w3 & -> & H3 & D3 & S3).
  rewrite Hr. simpl.
  destruct (Hstep (add_sleep (BASE_DELAY * 2 ^ (0 + 1 + 1)) w3) H3) as (w4 & -> & H4 & D4 & S4).
  rewrite Hr. simpl.
  destruct (Hstep (add_sleep (BASE_DELAY * 2 ^ (0 + 1 + 1 + 1)) w4) H4) as (w5 & -> & H5 & D5 & S5).
  rewrite Hr.
  simpl in *. unfold BASE_DELAY in *. simpl in *. split_and!; [done|congruence|lia].
Qed.
End operations.

Lemma mint_tx_nonce_roundtrip_witness :
  MintTxNonce.try_from (MintTxNonce.to_bytes (MintTxNonce.EthereumGnosisDeposit deposit_hash))
  = Ok (MintTxNonce.EthereumGnosisDeposit deposit_hash).
Proof.
  apply (mint_tx_nonce_roundtrip deposit_hash deposit_hash []
    (MintTxNonce.EthereumGnosisDeposit deposit_hash)).
Defined.

Lemma EthAddr_from_str_iff_witness :
  String.length "0xaa000000000000000000000000000000000000aa" = 42%nat.
Proof.
  apply (EthAddr_from_str_iff "0xaa000000000000000000000000000000000000aa" "" test_safe_addr test_safe_addr).
  vm_compute. reflexivity.
Defined.

Lemma sql_text_roundtrip_witness :
  SqlEthTxValue_from_sql (SqlEthTxValue_to_sql (EthTxValue.mk 50)) = Ok (EthTxValue.mk 50).
Proof.
  apply (sql_text_roundtrip deposit_hash (EthTxValue.mk 50) test_safe_addr "" "" deposit_hash).
  unfold is_u128. simpl. lia.
Defined.

Lemma counter_increment_witness :
  counter_value num_blocks_synced (w_db (Counters.inc num_blocks_synced (world_after 3)).2)
  = counter_value num_blocks_synced (w_db (world_after 3)) + 1.
Proof.
  pose proof (counter_increment num_blocks_synced (world_after 3)) as H.
  destruct (Counters.inc num_blocks_synced (world_after 3)) as [r w'].
  destruct H as (_ & _ & _ & H & _);
    [apply world_after_healthy; lia|apply world_after_ready; lia|].
  exact (H num_blocks_synced).
Defined.

Lemma transaction_attempts_witness :
  w_slept_ms (transaction (throw (R2d2Pool "timed out") : App unit) initial_world).2 = 0 + 150.
Proof.
  apply (transaction_attempts (throw (R2d2Pool "timed out") : App unit) initial_world
    (R2d2Pool "timed out")); [reflexivity|].
  intros w1 H. split; [reflexivity|]. split; [exact H|reflexivity].
Defined.
