(* ===== verification/ApiProps.v ===== *)
(** * Properties of the APIs

    What the gRPC and HTTP services answer, in terms of the database and, on the
    record of a ledger, in terms of the reference model. *)

From S2P Require Import Prelude Externals Concrete GnosisTypes Errors Schema Database.
From S2P Require Import CountersModel Blocks Mints Burns GnosisConfig GnosisRows AuditedMints.
From S2P Require Import AuditedBurns SyncBlock LedgerSpec LedgerSync AuditInvariant Main SyncLoop.
From S2P Require Import Convert Service Http Scenario MatchProps.

Section serving.
Context {X_chrono : Chrono} {X_sqlite : Sqlite} {L_sqlite : SqliteLaws} {X_hex : Hex}.
Context {X_mc : MobileCoin} {L_mc : MobileCoinLaws} {X_url : UrlLib}.
Implicit Types (w : World) (d : Db) (blocks : list BlockContents).

(** A request on a healthy world: a connection, then a query. *)
Lemma wp_conn_query {A} (m : App A) P Q w :
  healthy w -> query m P ->
  (forall r w', leads w (w_db w) w' -> P (w_db w) r -> Q r w') ->
  wp (_ ← get_conn; m) Q w.
Proof.
  intros Hh Hm HQ. apply wp_seq, wp_get_conn; [done|]. intros w1 Hl1. pose proof Hl1 as [Hd1 Hh1].
  apply (wp_query _ _ _ _ Hm); [intros f w' Hs; by destruct Hs; apply Hh1|].
  rewrite Hd1. intros r w2 Hl2 HP. apply HQ; [by eapply leads_trans|done].
Qed.

(** ** Counters *)

(** The gRPC message of the counters carries every counter in its own field, as an
    unsigned number. *)
Theorem counters_reply w :
  healthy w -> counters_ok (w_db w) ->
  exists reply w', ReserveAuditorService.get_counters_impl w = (Ok reply, w') /\ w_db w' = w_db w /\
    forall v, ProtoCounters.field v reply = as_u64 (counter_value v (w_db w)).
Proof.
  intros Hh [c Hc].
  assert (wp ReserveAuditorService.get_counters_impl (fun r w' => exists reply, r = Ok reply /\
    w_db w' = w_db w /\ forall v, ProtoCounters.field v reply = as_u64 (counter_value v (w_db w))) w)
    as (reply & E & Hd & Hf).
  { apply wp_seq, wp_with_err, (wp_conn_query _ _ _ _ Hh query_get).
    intros r w' [Hd _] (c' & -> & Hc'). specialize (Hc' c Hc) as ->. simpl. apply wp_ret.
    exists (ProtoCounters.from_counters c). split; [done|]. split; [done|].
    destruct Hc as [Hc _]. intros v. unfold counter_value. rewrite Hc. by destruct v. }
  destruct (ReserveAuditorService.get_counters_impl w) as [r w']. simpl in *. subst r. eauto.
Qed.

(** ** Audit data of blocks *)
Lemma indices_elem n j :
  j ∈ seqZ 0 (Z.of_nat n) <-> exists i, (i < n)%nat /\ j = Z.of_nat i.
Proof.
  rewrite elem_of_seqZ. split; [|intros (i & Hi & ->); lia].
  intros Hj. exists (Z.to_nat j). lia.
Qed.

Lemma query_get_block blocks i :
  query (BlockAuditData.get (Z.of_nat i)) (fun d r =>
    mirrors blocks d -> Z.of_nat (length blocks) < two63 -> Z.of_nat i < two63 ->
    r = if Nat.ltb i (length blocks) then Ok (mkBlockAuditData (Z.of_nat i)) else Err NotFound).
Proof.
  eapply query_mono; [apply query_load_first|]. simpl. intros d r -> Hm Hl Hi.
  assert (as_i64 (Z.of_nat i) = Z.of_nat i) as -> by (apply as_i64_small; unfold is_i64; lia).
  pose proof (mir_indices _ _ Hm) as Hs. unfold synced_indices in Hs.
  destruct (Nat.ltb_spec i (length blocks)) as [Hlt|Hge].
  - rewrite (scan_head_unique _ (mkBlockAuditData (Z.of_nat i))); [done| |].
    + apply elem_of_filter_bool. split; [|apply Z.eqb_refl].
      assert (Z.of_nat i ∈ audit_block_index <$> rows (R := BlockAuditData) d) as Hin.
      { rewrite Hs. apply indices_elem. by exists i. }
      apply list_elem_of_fmap in Hin as ([j] & Ej & Hj). simpl in Ej. by subst j.
    + intros [j] [_ Ej%Z.eqb_eq]%elem_of_filter_bool. simpl in Ej. by subst j.
  - assert (List.filter (fun r => audit_block_index r =? Z.of_nat i) (rows d) = []) as ->;
      [|by rewrite scan_nil].
    apply filter_none. intros [j] Hj. apply Z.eqb_neq. simpl. intros ->.
    assert (Z.of_nat i ∈ audit_block_index <$> rows (R := BlockAuditData) d) as Hin.
    { apply list_elem_of_fmap. exists (mkBlockAuditData (Z.of_nat i)). by split. }
    rewrite Hs in Hin. apply indices_elem in Hin as (k & Hk & Ek). lia.
Qed.

(** The balances after the first blocks, as the API answers them. *)
Definition block_answer blocks (i : nat) : Res Error BlockAuditDataResponse :=
  if Nat.ltb i (length blocks) then
    Ok (mkBlockAuditDataResponse (Z.of_nat i) (ledger_balances (take (S i) blocks)))
  else Err NotFound.

Lemma query_block_answer blocks i :
  query (block_audit_data ← BlockAuditData.get (Z.of_nat i);
         balances ← BlockBalance.get_balances_for_block (BlockAuditData.block_index block_audit_data);
         mret (BlockAuditDataResponse_new block_audit_data balances)) (fun d r =>
    mirrors blocks d -> integrity d -> typed_balances d -> Z.of_nat (length blocks) < two63 ->
    Z.of_nat i < two63 -> r = block_answer blocks i).
Proof.
  eapply query_mono; [apply query_bind; [apply (query_get_block blocks)|]|].
  { intros b. apply query_bind; [apply query_balances_at|intros bal; apply query_ret]. }
  simpl. intros d r (ra & Hra & Hr) Hm Hd Ht Hl Hi. specialize (Hra Hm Hl Hi).
  unfold block_answer. destruct (Nat.ltb_spec i (length blocks)) as [Hlt|Hge]; subst ra; [|done].
  destruct Hr as (rb & Hrb & Hr). unfold BlockAuditData.block_index in *. simpl in *.
  rewrite (as_u64_small (Z.of_nat i)) in Hrb by (unfold is_u64; lia).
  rewrite Hrb, (mir_balances _ _ Hm) in Hr by (done || apply Hd). subst r.
  unfold BlockAuditDataResponse_new, BlockAuditData.block_index. simpl.
  by rewrite as_u64_small by (unfold is_u64; lia).
Qed.

(** The last block, if there is one. *)
Definition last_answer blocks : Res Error BlockAuditDataResponse :=
  match length blocks with O => Err NotFound | S i => block_answer blocks i end.

Lemma last_block_served blocks w :
  healthy w -> mirrors blocks (w_db w) -> integrity (w_db w) -> typed_balances (w_db w) ->
  Z.of_nat (length blocks) < two63 ->
  (ReserveAuditorHttpService.get_last_block_audit_data w).1 = last_answer blocks.
Proof.
  intros Hh Hm Hd Ht Hl. change (wp ReserveAuditorHttpService.get_last_block_audit_data
    (fun r _ => r = last_answer blocks) w).
  unfold ReserveAuditorHttpService.get_last_block_audit_data, BlockAuditData.last_block_audit_data.
  apply wp_seq, wp_get_conn; [done|]. intros w1 [Hd1 Hh1]. rewrite <- Hd1 in *.
  apply wp_seq, wp_seq, (wp_query _ _ _ _ query_last_synced); [by intros f w' []; apply Hh1|].
  intros r w2 [Hd2 Hh2] Hr. rewrite (Hr blocks Hm Hl). rewrite <- Hd2 in *. unfold last_answer.
  destruct (length blocks) as [|i] eqn:E; [by apply wp_ret, wp_seq, wp_lift|].
  apply wp_seq, (wp_query _ _ _ _ (query_get_block blocks i)); [by intros f w' []; apply Hh2, Hh1|].
  intros r' w3 [Hd3 Hh3] Hr'. rewrite (Hr' Hm) by lia. rewrite E, (proj2 (Nat.ltb_lt _ _)) by lia.
  apply wp_ret, wp_seq, wp_lift. simpl. rewrite <- Hd3 in *.
  unfold BlockAuditData.block_index. simpl. rewrite as_u64_small by (unfold is_u64; lia).
  apply wp_seq, (wp_query _ _ _ _ (query_balances_at (Z.of_nat i))); [by intros f w' []; apply Hh3, Hh2, Hh1|].
  intros rb w4 _ Hrb. rewrite Hrb, (mir_balances _ _ Hm) by (lia || done || apply Hd).
  apply wp_ret. unfold block_answer, BlockAuditDataResponse_new, BlockAuditData.block_index. simpl.
  by rewrite E, (proj2 (Nat.ltb_lt _ _)), as_u64_small by (unfold is_u64; lia).
Qed.

(** What one block contributes to the entries of a table is found by its index. *)
Lemma ledger_entries_at f blocks i :
  (forall j c e, e ∈ f j c -> e.1.1.1 = as_i64 (Z.of_nat j)) ->
  Z.of_nat (length blocks) < two63 -> Z.of_nat i < two63 ->
  List.filter (fun e : entry => e.1.1.1 =? as_i64 (Z.of_nat i)) (ledger_entries f blocks)
  = match blocks !! i with Some c => f i c | None => [] end.
Proof.
  intros Hf Hl Hi. induction blocks as [|c blocks IH] using rev_ind; [done|].
  rewrite length_app in Hl. simpl in Hl.
  rewrite ledger_entries_snoc, filter_app', IH by lia.
  destruct (decide (i = length blocks)) as [->|Hne].
  - rewrite lookup_app_r, Nat.sub_diag, (lookup_ge_None_2 blocks) by lia. simpl.
    apply List.forallb_filter_id, List.forallb_forall. intros e He%list_elem_of_In.
    apply Z.eqb_eq. by eapply Hf.
  - assert (List.filter (fun e : entry => e.1.1.1 =? as_i64 (Z.of_nat i)) (f (length blocks) c) = [])
      as ->.
    { apply filter_none. intros e He. apply Z.eqb_neq. rewrite (Hf _ _ _ He).
      intros E%as_i64_inj; unfold is_u64; lia. }
    rewrite app_nil_r. destruct (Nat.ltb_spec i (length blocks)).
    + by rewrite lookup_app_l.
    + rewrite !lookup_ge_None_2; [done|rewrite length_app; simpl; lia|lia].
Qed.

Lemma block_burns_index j c e : e ∈ block_burns j c -> e.1.1.1 = as_i64 (Z.of_nat j).
Proof.
  unfold block_burns. intros (o & _ & Eo)%list_elem_of_omap.
  destruct (burn_amount o); [|done]. by injection Eo as <-.
Qed.

(** The burns of a block are those of the reference model, in the order of the ids. *)
Lemma burns_for_block_served blocks i w :
  healthy w -> mirrors blocks (w_db w) ->
  Z.of_nat (length blocks) < two63 -> Z.of_nat i < two63 ->
  exists bs, (ReserveAuditorHttpService.get_burns_by_block (Z.of_nat i) w).1
    = Ok ((fun b => mkBurnInfoResponse b (ReserveAuditorHttpService.decoded_burn_memo_bytes b)) <$> bs) /\
    burn_entry <$> bs ≡ₚ match blocks !! i with Some c => block_burns i c | None => [] end /\
    StronglySorted (key_le (fun b => default 0 (bto_id b))) bs.
Proof.
  intros Hh Hm Hl Hi.
  change (wp (ReserveAuditorHttpService.get_burns_by_block (Z.of_nat i)) (fun r _ => exists bs,
    r = Ok ((fun b => mkBurnInfoResponse b (ReserveAuditorHttpService.decoded_burn_memo_bytes b)) <$> bs) /\
    burn_entry <$> bs ≡ₚ match blocks !! i with Some c => block_burns i c | None => [] end /\
    StronglySorted (key_le (fun b => default 0 (bto_id b))) bs) w).
  eapply wp_conn_query; [done|apply query_bind; [apply query_load_ordered|intros l; apply query_ret]|].
  intros r w' _ (ra & -> & ->). eexists. split; [done|]. split; [|apply order_by_sorted].
  rewrite order_by_permutation, scan_permutation.
  rewrite <- (ledger_entries_at block_burns blocks i block_burns_index Hl Hi), <- (mir_burns _ _ Hm).
  by rewrite <- (filter_fmap burn_entry).
Qed.

(** On the record of a ledger the HTTP and the gRPC API answer a request for a block
    by its index and, for HTTP, the balances of the reference model after that block;
    a block not yet synchronized is reported as not found. The burns served for a
    block are the burns of that block of the ledger, by id, and none before the block
    is synchronized. *)
Theorem block_audit_data_served blocks i w :
  healthy w -> mirrors blocks (w_db w) -> integrity (w_db w) -> typed_balances (w_db w) ->
  Z.of_nat (length blocks) < two63 -> Z.of_nat i < two63 ->
  (ReserveAuditorHttpService.get_block_audit_data (Z.of_nat i) w).1 = block_answer blocks i /\
  ((ReserveAuditorService.get_block_audit_data_impl (Z.of_nat i) w).1
  = if Nat.ltb i (length blocks) then Ok (Z.of_nat i)
    else Err (with_message NOT_FOUND
           ("Block audit data not found for block index " +:+ pretty (Z.of_nat i)))) /\
  exists bs, (ReserveAuditorHttpService.get_burns_by_block (Z.of_nat i) w).1
    = Ok ((fun b => mkBurnInfoResponse b (ReserveAuditorHttpService.decoded_burn_memo_bytes b)) <$> bs) /\
    burn_entry <$> bs ≡ₚ match blocks !! i with Some c => block_burns i c | None => [] end /\
    StronglySorted (key_le (fun b => default 0 (bto_id b))) bs.
Proof.
  intros Hh Hm Hd Ht Hl Hi. split; [|split; [|by apply burns_for_block_served]].
  - change (wp (ReserveAuditorHttpService.get_block_audit_data (Z.of_nat i))
      (fun r _ => r = block_answer blocks i) w).
    eapply (wp_conn_query _ _ _ _ Hh (query_block_answer blocks i)). intros r w' _ Hr. by apply Hr.
  - change (wp (ReserveAuditorService.get_block_audit_data_impl (Z.of_nat i)) (fun r _ =>
      r = if Nat.ltb i (length blocks) then Ok (Z.of_nat i)
          else Err (with_message NOT_FOUND
           ("Block audit data not found for block index " +:+ pretty (Z.of_nat i)))) w).
    apply wp_seq, wp_with_err, wp_get_conn; [done|]. intros w1 [Hd1 Hh1]. simpl.
    apply wp_seq, wp_with_err, (wp_query _ _ _ _ (query_get_block blocks i)).
    { intros f w' Hs. by destruct Hs; apply Hh1. }
    rewrite Hd1. intros r w2 _ Hr. rewrite (Hr Hm Hl Hi).
    destruct (Nat.ltb i (length blocks)); simpl; [|done]. apply wp_ret.
    unfold BlockAuditData.block_index. simpl. by rewrite as_u64_small by (unfold is_u64; lia).
Qed.

(** ** Totals *)
Definition sum (l : list Z) : Z := foldr Z.add 0 l.

Lemma sum_permutation l k : l ≡ₚ k -> sum l = sum k.
Proof. unfold sum. induction 1; simpl; lia. Qed.

Lemma sum_u128_mod l : ReserveAuditorHttpService.sum_u128 l = sum l mod two128.
Proof.
  induction l as [|a l IH]; [done|]. unfold ReserveAuditorHttpService.sum_u128, sum in *. simpl.
  by rewrite IH, Zplus_mod_idemp_r.
Qed.

Definition entry_amount (e : entry) : Z * Z := (e.1.1.2, e.1.2).
Definition stored_amount (p : Z * Z) : Z * Z := (as_i64 p.1, as_i64 p.2).

Lemma block_mints_amounts i c : entry_amount <$> block_mints i c = stored_amount <$> mint_amounts c.
Proof. unfold block_mints, mint_amounts. by rewrite <- !list_fmap_compose. Qed.

Lemma block_burns_amounts i c : entry_amount <$> block_burns i c = stored_amount <$> burn_amounts c.
Proof.
  unfold block_burns, burn_amounts. induction (bc_outputs c) as [|o l IH]; [done|]. simpl.
  destruct (burn_amount o) as [q|]; simpl; [|exact IH]. f_equal. exact IH.
Qed.

Lemma ledger_entries_amounts f (g : BlockContents -> list (Z * Z)) blocks :
  (forall i c, entry_amount <$> f i c = stored_amount <$> g c) ->
  entry_amount <$> ledger_entries f blocks = stored_amount <$> (blocks ≫= g).
Proof.
  intros H. induction blocks as [|c blocks IH] using rev_ind; [done|].
  by rewrite ledger_entries_snoc, bind_app, !fmap_app, IH, H, bind_singleton.
Qed.

Lemma stored_total token l :
  is_u64 token -> Forall (fun p => is_u64 p.1 /\ is_u64 p.2) l ->
  sum (as_u64 <$> (snd <$> List.filter (fun p => p.1 =? as_i64 token) (stored_amount <$> l)))
  = total token l.
Proof.
  intros Ht. unfold sum. induction 1 as [|p l [H1 H2] _ IH]; [done|]. simpl.
  destruct (Z.eqb_spec (as_i64 p.1) (as_i64 token)) as [E|Hne]; simpl.
  - apply as_i64_inj in E; [|done..]. rewrite E, Z.eqb_refl, as_u64_as_i64 by done.
    f_equal. exact IH.
  - destruct (Z.eqb_spec p.1 token) as [E|]; [by rewrite E in Hne|]. exact IH.
Qed.

Lemma query_amounts_total {R} {T : Table R} (e : R -> entry) token :
  is_u64 token ->
  query (l ← exec (load (fun d => (fun m => entry_amount (e m)) <$>
           List.filter (fun m => (e m).1.1.2 =? as_i64 token) (rows d)));
         mret ((fun p => (as_u64 p.1, as_u64 p.2)) <$> l) : App (list (Z * Z)))
    (fun d r => exists l, r = Ok l /\ forall amounts,
       Forall (fun p => is_u64 p.1 /\ is_u64 p.2) amounts ->
       entry_amount <$> (e <$> rows (R := R) d) = stored_amount <$> amounts ->
       sum (snd <$> l) = total token amounts).
Proof.
  intros Ht. eapply query_mono; [apply query_bind; [apply query_load|intros l; apply query_ret]|].
  simpl. intros d r (ra & -> & ->). eexists. split; [done|]. intros amounts Ha E.
  rewrite <- (stored_total token) by done. rewrite <- E.
  assert ((fun m => entry_amount (e m)) <$> List.filter (fun m => (e m).1.1.2 =? as_i64 token) (rows d)
    = List.filter (fun p => p.1 =? as_i64 token) (entry_amount <$> (e <$> rows d))) as Hf.
  { rewrite <- (filter_fmap entry_amount), <- (filter_fmap e). by rewrite <- list_fmap_compose. }
  rewrite Hf. set (F := List.filter _ (entry_amount <$> _)).
  transitivity (sum (as_u64 <$> (snd <$> scan F))); [by rewrite <- !list_fmap_compose|].
  apply sum_permutation. by rewrite scan_permutation.
Qed.

Lemma query_mint_amounts token :
  is_u64 token -> query (MintTx.get_mint_amounts token) (fun d r => exists l, r = Ok l /\
    forall blocks, mirrors blocks d -> sum (snd <$> l) = ledger_total_minted token blocks).
Proof.
  intros Ht. eapply query_mono; [apply (query_amounts_total mint_entry token Ht)|].
  simpl. intros d r (l & -> & Hl). exists l. split; [done|]. intros blocks Hm. apply Hl.
  - apply Forall_bind, Forall_true. intros c. apply mint_amounts_u64.
  - rewrite (mir_mints _ _ Hm). apply ledger_entries_amounts, block_mints_amounts.
Qed.

Lemma query_burn_amounts token :
  is_u64 token -> query (BurnTxOut.get_burn_amounts token) (fun d r => exists l, r = Ok l /\
    forall blocks, mirrors blocks d -> sum (snd <$> l) = ledger_total_burned token blocks).
Proof.
  intros Ht. eapply query_mono; [apply (query_amounts_total burn_entry token Ht)|].
  simpl. intros d r (l & -> & Hl). exists l. split; [done|]. intros blocks Hm. apply Hl.
  - apply Forall_bind, Forall_true. intros c. apply burn_amounts_u64.
  - rewrite (mir_burns _ _ Hm). apply ledger_entries_amounts, block_burns_amounts.
Qed.

Lemma query_total (m : App (list (Z * Z))) (P : Db -> list (Z * Z) -> Prop) w Q :
  healthy w -> query m (fun d r => exists l, r = Ok l /\ P d l) ->
  (forall l w', leads w (w_db w) w' -> P (w_db w) l -> Q (Ok (sum (snd <$> l) mod two128)) w') ->
  wp (_ ← get_conn; query_result ← m;
      mret (ReserveAuditorHttpService.sum_u128 (snd <$> query_result))) Q w.
Proof.
  intros Hh Hm HQ. eapply wp_conn_query; [done|apply query_bind; [exact Hm|intros l; apply query_ret]|].
  simpl. intros r w' Hl (ra & (l & -> & HP) & ->). rewrite sum_u128_mod. by apply HQ.
Qed.

(** On the record of a ledger the balance the HTTP API reports for a token is the
    total minted and the total burned in the whole ledger, flagged mints and
    excessive burns included; without a token it reports token 0. *)
Theorem ledger_balance_totals blocks config token_id symbol w :
  healthy w -> mirrors blocks (w_db w) -> let token := default 0 token_id in is_u64 token ->
  ledger_total_minted token blocks < two128 -> ledger_total_burned token blocks < two128 ->
  ReserveAuditorHttpService.get_token_symbol config token = Ok symbol ->
  (Routes.get_ledger_balance config token_id w).1
  = Ok (mkLedgerBalanceResponse (pretty (ledger_total_minted token blocks))
          (pretty (ledger_total_burned token blocks)) (mkTokenType token symbol)).
Proof.
  intros Hh Hm token Ht Hmint Hburn Hs.
  assert (0 <= ledger_total_minted token blocks) as Hmint0.
  { apply total_nonneg, Forall_bind, Forall_true. intros c. eapply Forall_impl; [apply mint_amounts_u64|].
    unfold is_u64. simpl. lia. }
  assert (0 <= ledger_total_burned token blocks) as Hburn0.
  { apply total_nonneg, Forall_bind, Forall_true. intros c. eapply Forall_impl; [apply burn_amounts_u64|].
    unfold is_u64. simpl. lia. }
  change (wp (Routes.get_ledger_balance config token_id) (fun r _ =>
    r = Ok (mkLedgerBalanceResponse (pretty (ledger_total_minted token blocks))
          (pretty (ledger_total_burned token blocks)) (mkTokenType token symbol))) w).
  unfold Routes.get_ledger_balance, Routes.respond. fold token.
  apply wp_seq, wp_with_err. eapply query_total; [done|by apply query_mint_amounts|].
  simpl. intros l w1 [Hd1 Hh1] Hl. rewrite (Hl blocks) by done. rewrite Z.mod_small by lia.
  apply wp_seq, wp_with_err. eapply query_total; [by apply Hh1|by apply query_burn_amounts|].
  simpl. intros l' w2 [Hd2 Hh2] Hl'. rewrite (Hl' blocks) by by rewrite Hd1.
  rewrite Z.mod_small by lia. apply wp_seq, wp_with_err, wp_lift. rewrite Hs. by apply wp_ret.
Qed.

(** ** Lists *)

(** The rows of a table that no audit row names, in the order SQLite scans them. *)
Lemma unnamed_rows {A R} (e : A -> option Z) (f : R -> Z) (x : A) (xs : list A) (l : list R) :
  x ∈ scan (List.filter (fun x => negb (existsb (fun a => id_is (e x) (f a)) l)) xs) <->
  x ∈ xs /\ forall a, a ∈ l -> e x <> Some (f a).
Proof.
  rewrite elem_of_scan, elem_of_filter_bool, negb_true_iff, existsb_false.
  split; intros [Hx H]; (split; [done|]); intros a Ha; specialize (H a Ha).
  - intros E%id_is_true. congruence.
  - apply not_true_is_false. by rewrite id_is_true.
Qed.

Definition unaudited_mint d (m : MintTx) : Prop :=
  m ∈ rows d /\ forall a, a ∈ rows d -> mt_id m <> Some (am_mint_tx_id a).
Definition unaudited_deposit d (x : GnosisSafeDeposit) : Prop :=
  x ∈ rows d /\ forall a, a ∈ rows d -> gsd_id x <> Some (am_gnosis_safe_deposit_id a).
Definition unaudited_burn d (b : BurnTxOut) : Prop :=
  b ∈ rows d /\ forall a, a ∈ rows d -> bto_id b <> Some (ab_burn_tx_out_id a).
Definition unaudited_withdrawal d (x : GnosisSafeWithdrawal) : Prop :=
  x ∈ rows d /\ forall a, a ∈ rows d -> gsw_id x <> Some (ab_gnosis_safe_withdrawal_id a).

Lemma unaudited_mints_listed w :
  healthy w -> exists l, (ReserveAuditorHttpService.get_unaudited_mints w).1 = Ok l /\
    forall m, m ∈ l <-> unaudited_mint (w_db w) m.
Proof.
  intros Hh. change (wp ReserveAuditorHttpService.get_unaudited_mints (fun r _ => exists l,
    r = Ok l /\ forall m, m ∈ l <-> unaudited_mint (w_db w) m) w).
  eapply wp_conn_query; [done|apply query_load|]. intros r w' _ ->. eexists. split; [done|].
  intros m. apply unnamed_rows.
Qed.

Lemma unaudited_deposits_listed w :
  healthy w -> exists l, (ReserveAuditorHttpService.get_unaudited_gnosis_deposits w).1
      = Ok (mkUnauditedGnosisDepositResponse <$> l) /\
    forall x, x ∈ l <-> unaudited_deposit (w_db w) x.
Proof.
  intros Hh. change (wp ReserveAuditorHttpService.get_unaudited_gnosis_deposits (fun r _ => exists l,
    r = Ok (mkUnauditedGnosisDepositResponse <$> l) /\
    forall x, x ∈ l <-> unaudited_deposit (w_db w) x) w).
  eapply wp_conn_query; [done|apply query_bind; [apply query_load|intros l; apply query_ret]|].
  intros r w' _ (ra & -> & ->). eexists. split; [done|]. intros x. apply unnamed_rows.
Qed.

Lemma unaudited_burns_listed w :
  healthy w -> exists l, (ReserveAuditorHttpService.get_unaudited_burn_tx_outs w).1
      = Ok ((fun b => mkUnauditedBurnTxOutResponse b
               (ReserveAuditorHttpService.decoded_burn_memo_bytes b)) <$> l) /\
    forall b, b ∈ l <-> unaudited_burn (w_db w) b.
Proof.
  intros Hh. change (wp ReserveAuditorHttpService.get_unaudited_burn_tx_outs (fun r _ => exists l,
    r = Ok ((fun b => mkUnauditedBurnTxOutResponse b
               (ReserveAuditorHttpService.decoded_burn_memo_bytes b)) <$> l) /\
    forall b, b ∈ l <-> unaudited_burn (w_db w) b) w).
  eapply wp_conn_query; [done|apply query_bind; [apply query_load|intros l; apply query_ret]|].
  intros r w' _ (ra & -> & ->). eexists. split; [done|]. intros b. apply unnamed_rows.
Qed.

Lemma unaudited_withdrawals_listed w :
  healthy w -> exists l, (ReserveAuditorHttpService.get_unaudited_withdrawals w).1 = Ok l /\
    forall x, x ∈ l <-> unaudited_withdrawal (w_db w) x.
Proof.
  intros Hh. change (wp ReserveAuditorHttpService.get_unaudited_withdrawals (fun r _ => exists l,
    r = Ok l /\ forall x, x ∈ l <-> unaudited_withdrawal (w_db w) x) w).
  eapply wp_conn_query; [done|apply query_load|]. intros r w' _ ->. eexists. split; [done|].
  intros x. apply unnamed_rows.
Qed.

(** C33: The lists of unaudited mints, deposits, burns and withdrawals hold exactly the
    stored ones that no audit row names. *)
Theorem unaudited_lists w :
  healthy w ->
  let d := w_db w in
  (exists l, (ReserveAuditorHttpService.get_unaudited_mints w).1 = Ok l /\
     forall m, m ∈ l <-> m ∈ rows d /\ forall a, a ∈ rows d -> mt_id m <> Some (am_mint_tx_id a)) /\
  (exists l, (ReserveAuditorHttpService.get_unaudited_gnosis_deposits w).1
       = Ok (mkUnauditedGnosisDepositResponse <$> l) /\
     forall x, x ∈ l <-> x ∈ rows d /\
       forall a, a ∈ rows d -> gsd_id x <> Some (am_gnosis_safe_deposit_id a)) /\
  (exists l, (ReserveAuditorHttpService.get_unaudited_burn_tx_outs w).1
       = Ok ((fun b => mkUnauditedBurnTxOutResponse b
                (ReserveAuditorHttpService.decoded_burn_memo_bytes b)) <$> l) /\
     forall b, b ∈ l <-> b ∈ rows d /\
       forall a, a ∈ rows d -> bto_id b <> Some (ab_burn_tx_out_id a)) /\
  (exists l, (ReserveAuditorHttpService.get_unaudited_withdrawals w).1 = Ok l /\
     forall x, x ∈ l <-> x ∈ rows d /\
       forall a, a ∈ rows d -> gsw_id x <> Some (ab_gnosis_safe_withdrawal_id a)).
Proof.
  intros Hh d. split_and!; [by apply unaudited_mints_listed|by apply unaudited_deposits_listed|
    by apply unaudited_burns_listed|by apply unaudited_withdrawals_listed].
Qed.

(** A reference finds exactly one row. *)
Lemma filter_id_one {R} {T : Table R} {I : IdTable R} d i :
  table_ok (table_get (R := R) d) -> has_id (table_get (R := R) d) i = true ->
  exists r : R, List.filter (fun r => id_is (row_explicit_id r) i) (rows d) = [r] /\
    r ∈ rows d /\ row_explicit_id r = Some i.
Proof.
  intros Hok Hi. destruct (has_id_stored d i Hok Hi) as (r & Hr & Ei). exists r.
  split; [|done]. rewrite filter_find; [|by apply rows_NoDup|].
  - destruct (List.find _ _) as [s|] eqn:E.
    + apply find_Some_elem in E as [Hs Es%id_is_true]. f_equal. apply (stored_unique d); [done..|congruence].
    + apply list_elem_of_In, (List.find_none _ _ E) in Hr.
      by rewrite (proj2 (id_is_true _ _) Ei) in Hr.
  - intros x y Hx Hy Ex%id_is_true Ey%id_is_true. apply (stored_unique d); [done..|congruence].
Qed.

(** A join that finds exactly one partner of each kind keeps the rows it starts from. *)
Lemma joined_rows {A B C} (f : A -> list B) (g : A -> list C) (P : A * B * C -> Prop) l :
  (forall a, a ∈ l -> exists b c, f a = [b] /\ g a = [c] /\ P (a, b, c)) ->
  (fun x => x.1.1) <$> (a ← l; b ← f a; c ← g a; [(a, b, c)]) = l /\
  forall x, x ∈ (a ← l; b ← f a; c ← g a; [(a, b, c)]) -> P x.
Proof.
  intros H. induction l as [|a l IH]; [split; [done|]; by intros x Hx%elem_of_nil|].
  destruct IH as [IH1 IH2]; [intros b Hb; apply H; by right|].
  destruct (H a) as (b & c & Eb & Ec & Hp); [by left|]. rewrite bind_cons_list, Eb.
  simpl. rewrite Ec. simpl. split; [exact (f_equal (cons a) IH1)|].
  intros y [->|Hy]%elem_of_cons; [done|by apply IH2].
Qed.

(** The mint and the deposit, or the burn and the withdrawal, an audit row names. *)
Definition names_pair d (x : AuditedMint * MintTx * GnosisSafeDeposit) : Prop :=
  x.1.2 ∈ rows d /\ x.2 ∈ rows d /\ mt_id x.1.2 = Some (am_mint_tx_id x.1.1) /\
  gsd_id x.2 = Some (am_gnosis_safe_deposit_id x.1.1).
Definition names_burn_pair d (x : AuditedBurn * BurnTxOut * GnosisSafeWithdrawal) : Prop :=
  x.1.2 ∈ rows d /\ x.2 ∈ rows d /\ bto_id x.1.2 = Some (ab_burn_tx_out_id x.1.1) /\
  gsw_id x.2 = Some (ab_gnosis_safe_withdrawal_id x.1.1).

Lemma joined_audited_rows d :
  integrity d -> (fun x => x.1.1) <$> joined_audited_mints d = rows d /\
  forall x, x ∈ joined_audited_mints d -> names_pair d x.
Proof.
  intros Hd. apply (joined_rows
    (fun a => List.filter (fun m => id_is (mt_id m) (am_mint_tx_id a)) (rows (R := MintTx) d))
    (fun a => List.filter (fun x => id_is (gsd_id x) (am_gnosis_safe_deposit_id a))
       (rows (R := GnosisSafeDeposit) d))).
  intros a [j Hj]%rows_elem_of. pose proof (fk_audited_mints _ Hd _ Hj) as Hk.
  simpl in Hk. apply andb_true_iff in Hk as [Hm Hx].
  destruct (filter_id_one (R := MintTx) d _ (ok_mint_txs _ Hd) Hm) as (m & Em & Hm' & Im).
  destruct (filter_id_one (R := GnosisSafeDeposit) d _ (ok_gnosis_safe_deposits _ Hd) Hx)
    as (x & Ex & Hx' & Ix). by exists m, x.
Qed.

Lemma joined_audited_burn_rows d :
  integrity d -> (fun x => x.1.1) <$> joined_audited_burns d = rows d /\
  forall x, x ∈ joined_audited_burns d -> names_burn_pair d x.
Proof.
  intros Hd. apply (joined_rows
    (fun a => List.filter (fun b => id_is (bto_id b) (ab_burn_tx_out_id a)) (rows (R := BurnTxOut) d))
    (fun a => List.filter (fun x => id_is (gsw_id x) (ab_gnosis_safe_withdrawal_id a))
       (rows (R := GnosisSafeWithdrawal) d))).
  intros a [j Hj]%rows_elem_of. pose proof (fk_audited_burns _ Hd _ Hj) as Hk.
  simpl in Hk. apply andb_true_iff in Hk as [Hb Hx].
  destruct (filter_id_one (R := BurnTxOut) d _ (ok_burn_tx_outs _ Hd) Hb) as (b & Eb & Hb' & Ib).
  destruct (filter_id_one (R := GnosisSafeWithdrawal) d _ (ok_gnosis_safe_withdrawals _ Hd) Hx)
    as (x & Ex & Hx' & Ix). by exists b, x.
Qed.

(** The list that pages are cut from: every audit row once, by its id, with the pair
    it names. *)
Definition audit_list {A B C} (key : A * B * C -> Z) (names : A * B * C -> Prop) (stored : list A)
    (l : list (A * B * C)) : Prop :=
  ((fun x => x.1.1) <$> l) ≡ₚ stored /\ StronglySorted (key_le key) l /\ forall x, x ∈ l -> names x.

Lemma audit_list_ordered {A B C} (key : A * B * C -> Z) names (stored : list A) l :
  (fun x => x.1.1) <$> l = stored /\ (forall x, x ∈ l -> names x) ->
  audit_list key names stored (order_by key (scan l)).
Proof.
  intros [Hrows Hnames].
  assert (order_by key (scan l) ≡ₚ l) as Hp by by rewrite order_by_permutation, scan_permutation.
  split_and!; [by rewrite Hp, Hrows|apply order_by_sorted|].
  intros x Hx. apply Hnames. by rewrite <- Hp.
Qed.

(** What a page shows of a list: the slice that the offset and the limit select; an offset
    without a limit is an error of SQLite. *)
Definition page_answer {A B} (f : A -> B) (l : list A) (offset limit : option Z) : Res Error (list B) :=
  match offset, limit with
  | Some _, None => Err (DieselErr (Diesel.DatabaseError (Diesel.OtherKind "Unknown")
                           (syntax_error_message "OFFSET")))
  | _, _ => Ok (f <$> AuditedMint.sql_limit limit (AuditedMint.sql_offset offset l))
  end.

Lemma query_load_page {A} (key : A -> Z) (q : Db -> list A) offset limit :
  query (exec (AuditedMint.load_page key q offset limit)) (fun d r =>
    r = page_answer id (order_by key (scan (q d))) offset limit).
Proof.
  intros w. unfold AuditedMint.load_page, page_answer.
  assert (forall m : Stmt (list A), m = (l ← load_ordered key q;
      mret (AuditedMint.sql_limit limit (AuditedMint.sql_offset offset l))) ->
    wp (exec m) (fun r w' => leads w (w_db w) w' /\
      (r = Ok (id <$> AuditedMint.sql_limit limit (AuditedMint.sql_offset offset
                (order_by key (scan (q (w_db w)))))) \/
       exists f, ~ healthy w /\ r = Err (from_diesel (fault_error f)))) w) as H.
  { intros m ->. apply wp_exec, wp_seq, wp_load_ordered.
    - intros f w' Hs Hl. simpl. eauto.
    - intros w' Hl. apply wp_ret. rewrite list_fmap_id. eauto. }
  destruct offset, limit; [by apply H| |by apply H..].
  apply wp_exec. unfold wp, statement, throw, lift. destruct (w_faults w) as [|[f|] fs] eqn:E; simpl.
  - split; [apply leads_refl|by left].
  - split; [|right; exists f; split; [unfold healthy; congruence|done]].
    split; [done|]. unfold healthy. by rewrite E.
  - split; [|by left]. split; [done|]. unfold healthy. by rewrite E.
Qed.

(** A page answered through a list of responses. *)
Lemma query_page {A B} (key : A -> Z) (q : Db -> list A) (f : A -> B) offset limit :
  query (l ← exec (AuditedMint.load_page key q offset limit); mret (f <$> l)) (fun d r =>
    r = page_answer f (order_by key (scan (q d))) offset limit).
Proof.
  eapply query_mono; [apply query_bind; [apply query_load_page|intros l; apply query_ret]|].
  simpl. unfold page_answer. intros d r (ra & -> & Hr).
  destruct offset, limit; [| | |]; try (subst r; by rewrite list_fmap_id); done.
Qed.

Lemma audited_mints_pages w :
  healthy w -> integrity (w_db w) ->
  exists l, audit_list (fun x => default 0 (am_id x.1.1)) (names_pair (w_db w)) (rows (w_db w)) l /\
    forall offset limit, (ReserveAuditorHttpService.get_audited_mints offset limit w).1
      = page_answer (fun x => mkAuditedMintResponse x.1.1 x.1.2 x.2) l offset limit.
Proof.
  intros Hh Hd. exists (order_by (fun x => default 0 (am_id x.1.1)) (scan (joined_audited_mints (w_db w)))).
  split; [by apply audit_list_ordered, joined_audited_rows|]. intros offset limit.
  change (wp (ReserveAuditorHttpService.get_audited_mints offset limit) (fun r _ =>
    r = page_answer (fun x => mkAuditedMintResponse x.1.1 x.1.2 x.2)
      (order_by (fun x => default 0 (am_id x.1.1)) (scan (joined_audited_mints (w_db w))))
      offset limit) w).
  eapply wp_conn_query; [done|apply query_page|]. by intros r w' _ ->.
Qed.

Lemma audited_burns_pages w :
  healthy w -> integrity (w_db w) ->
  exists l, audit_list (fun x => default 0 (ab_id x.1.1)) (names_burn_pair (w_db w)) (rows (w_db w)) l /\
    forall offset limit, (ReserveAuditorHttpService.get_audited_burns offset limit w).1
      = page_answer (fun x => mkAuditedBurnResponse x.1.1 x.1.2 x.2
          (ReserveAuditorHttpService.decoded_burn_memo_bytes x.1.2)) l offset limit.
Proof.
  intros Hh Hd. exists (order_by (fun x => default 0 (ab_id x.1.1)) (scan (joined_audited_burns (w_db w)))).
  split; [by apply audit_list_ordered, joined_audited_burn_rows|]. intros offset limit.
  change (wp (ReserveAuditorHttpService.get_audited_burns offset limit) (fun r _ =>
    r = page_answer (fun x => mkAuditedBurnResponse x.1.1 x.1.2 x.2
          (ReserveAuditorHttpService.decoded_burn_memo_bytes x.1.2))
      (order_by (fun x => default 0 (ab_id x.1.1)) (scan (joined_audited_burns (w_db w))))
      offset limit) w).
  eapply wp_conn_query; [done|apply query_page|]. by intros r w' _ ->.
Qed.

(** C34: On a healthy database the audited mints are one list in the order of their ids,
    each once with the mint and the deposit it names, and a page is the slice of it that
    the offset and the limit select, a page without either the whole list; but a request
    with an offset and no limit is an error of SQLite, whose grammar has [OFFSET] only
    after [LIMIT].  Likewise the audited burns, each with its burn, the withdrawal and
    the decoded memo. *)
Theorem audited_pages w :
  healthy w -> integrity (w_db w) ->
  (exists l, audit_list (fun x => default 0 (am_id x.1.1)) (names_pair (w_db w)) (rows (w_db w)) l /\
    forall offset limit, (ReserveAuditorHttpService.get_audited_mints offset limit w).1
      = page_answer (fun x => mkAuditedMintResponse x.1.1 x.1.2 x.2) l offset limit) /\
  (exists l, audit_list (fun x => default 0 (ab_id x.1.1)) (names_burn_pair (w_db w)) (rows (w_db w)) l /\
    forall offset limit, (ReserveAuditorHttpService.get_audited_burns offset limit w).1
      = page_answer (fun x => mkAuditedBurnResponse x.1.1 x.1.2 x.2
          (ReserveAuditorHttpService.decoded_burn_memo_bytes x.1.2)) l offset limit).
Proof. intros Hh Hd. split; [by apply audited_mints_pages|by apply audited_burns_pages]. Qed.

(** ** Mint information *)
Definition fails {A} (m : App A) : Prop := forall w, is_ok (m w).1 = false.

Lemma fails_bind {A B} (m : App A) (k : A -> App B) : (forall a, fails (k a)) -> fails (m ≫= k).
Proof. intros Hk w. unfold mbind, M_bind. destruct (m w) as [[a|e|p] w1]; [apply Hk|done..]. Qed.

Lemma fails_bind_l {A B} (m : App A) (k : A -> App B) : fails m -> fails (m ≫= k).
Proof.
  intros Hm w. specialize (Hm w). unfold mbind, M_bind. by destruct (m w) as [[a|e|p] w1].
Qed.

Lemma fails_for_each {A B} (f : A -> App B) xs x : x ∈ xs -> fails (f x) -> fails (for_each f xs).
Proof.
  intros Hx Hf. induction Hx as [x xs|x y xs Hx IH]; simpl; [by apply fails_bind_l|].
  apply fails_bind. intros b. apply fails_bind_l, IH, Hf.
Qed.

(** The mint information of a block with a mint that no configuration allowed is
    never served: the signers of every mint are looked up before its configuration
    is tested for presence. *)
Theorem mint_info_flagged_block block_index m w :
  m ∈ rows (w_db w) -> mt_block_index m = as_i64 block_index -> flagged m = true ->
  is_ok (Routes.get_mint_info_for_block block_index w).1 = false.
Proof.
  intros Hm Hb Hf%bool_decide_eq_true.
  change (wp (Routes.get_mint_info_for_block block_index) (fun r _ => is_ok r = false) w).
  apply wp_with_err, wp_seq, wp_get_conn; [by intros|]. intros w1 [Hd1 _].
  apply wp_seq, wp_exec, wp_load_ordered; [by intros|]. rewrite Hd1. simpl. intros w2 _.
  assert (forall A (k : App A), fails k -> wp k (fun r _ => is_ok (map_err Error_display r) = false) w2)
    as Hfail.
  { intros A k Hk. specialize (Hk w2). unfold wp. by destruct (k w2) as [[] ?]. }
  apply Hfail. apply fails_bind. intros txs. apply fails_bind. intros configs. apply fails_bind_l.
  apply (fails_for_each _ _ m).
  - rewrite order_by_permutation, elem_of_scan. apply elem_of_filter_bool.
    split; [done|]. rewrite Hb. apply Z.eqb_refl.
  - unfold ReserveAuditorHttpService.mint_with_config, MintTx.get_signers.
    apply fails_bind_l, fails_bind. intros tx. rewrite Hf. by apply fails_bind_l.
Qed.
End serving.

(** ** Messages *)
Section messages.
Context {X_chrono : Chrono} {L_chrono : ChronoLaws} {X_hex : Hex} {L_hex : HexLaws}.
Context {X_mc : MobileCoin} {L_mc : MobileCoinLaws} {X_proto : ExternalProto} {L_proto : ExternalProtoLaws}.

(** Values as the columns and the parsers produce them; SQLite's rowids start at 1. *)
Definition stored_id (o : option Z) : Prop := o <> Some 0.
Definition parsed (a : EthAddr.t) : Prop := EthAddr.from_str (EthAddr.display a) = Ok a.

Lemma id_of_proto_stored o : stored_id o -> id_of_proto (default 0 o) = o.
Proof. destruct o as [[]|]; done. Qed.

Lemma nanos_round {E} n ns :
  nanos_of (E := E) (from_naive_utc n) = Ok ns -> naive_utc (timestamp_nanos (as_i64 ns)) = n.
Proof.
  unfold nanos_of. destruct (timestamp_nanos_opt _) as [k|] eqn:Ek; [|done]. intros [= <-].
  apply timestamp_nanos_round in Ek as [Hk Ek]. by rewrite as_i64_as_u64, Ek, naive_from_naive.
Qed.

(** A deposit survives its gRPC message: what [From] builds, [TryFrom] reads back
    as the same row, nonce and sub-second part of the date included. *)
Theorem deposit_message_roundtrip x message :
  stored_id (gsd_id x) -> is_u128 (EthTxValue.value (gsd_eth_tx_value x)) ->
  is_i64 (gsd_eth_block_number x) -> is_i64 (gsd_amount x) ->
  parsed (gsd_safe_addr x) -> parsed (gsd_token_addr x) -> parsed (gsd_from_addr x) ->
  gsd_expected_mc_mint_tx_nonce_hex x
  = hex_encode (MintTxNonce.to_bytes (MintTxNonce.EthereumGnosisDeposit (gsd_eth_tx_hash x))) ->
  ProtoGnosisSafeDeposit.from_db x = Ok message -> ProtoGnosisSafeDeposit.to_db message = Ok x.
Proof.
  intros Hid Hv Hb Ha Hs Ht Hf Hn H. unfold ProtoGnosisSafeDeposit.from_db in H.
  unfold GnosisSafeDeposit.execution_date, mbind, Res_bind, res_bind in H.
  destruct (nanos_of (from_naive_utc (gsd_execution_date x))) as [ns| |] eqn:En; [|done..].
  injection H as <-. unfold ProtoGnosisSafeDeposit.to_db. simpl.
  unfold GnosisSafeDeposit.eth_tx_hash, GnosisSafeDeposit.eth_tx_value, GnosisSafeDeposit.safe_addr,
    GnosisSafeDeposit.token_addr, GnosisSafeDeposit.from_addr, GnosisSafeDeposit.id,
    GnosisSafeDeposit.eth_block_number, GnosisSafeDeposit.amount.
  rewrite EthTxHash_from_display, EthTxValue_from_to, Hs, Ht, Hf by done. simpl. f_equal.
  unfold GnosisSafeDeposit.new. rewrite (nanos_round _ _ En), id_of_proto_stored by done.
  rewrite !as_i64_as_u64, <- Hn by done. by destruct x.
Qed.

(** A withdrawal whose key is in lower case (as the auditor writes it) survives its
    gRPC message. *)
Theorem withdrawal_message_roundtrip x message :
  stored_id (gsw_id x) -> is_u128 (EthTxValue.value (gsw_eth_tx_value x)) ->
  is_i64 (gsw_eth_block_number x) -> is_i64 (gsw_amount x) ->
  parsed (gsw_safe_addr x) -> parsed (gsw_token_addr x) -> parsed (gsw_to_addr x) ->
  to_lowercase (gsw_mc_tx_out_public_key_hex x) = gsw_mc_tx_out_public_key_hex x ->
  ProtoGnosisSafeWithdrawal.from_db x = Ok message -> ProtoGnosisSafeWithdrawal.to_db message = Ok x.
Proof.
  intros Hid Hv Hb Ha Hs Ht Hf Hk H. unfold ProtoGnosisSafeWithdrawal.from_db in H.
  unfold GnosisSafeWithdrawal.mc_tx_out_public_key, GnosisSafeWithdrawal.execution_date, from_ext,
    mbind, Res_bind, res_bind in H.
  destruct (hex_decode (gsw_mc_tx_out_public_key_hex x)) as [|bytes] eqn:Eb; [done|].
  destruct (compressed_try_from bytes) as [|key] eqn:Ek; [done|].
  destruct (nanos_of (from_naive_utc (gsw_execution_date x))) as [ns| |] eqn:En; [|done..].
  injection H as <-. unfold ProtoGnosisSafeWithdrawal.to_db. simpl.
  unfold GnosisSafeWithdrawal.eth_tx_hash, GnosisSafeWithdrawal.eth_tx_value,
    GnosisSafeWithdrawal.safe_addr, GnosisSafeWithdrawal.token_addr, GnosisSafeWithdrawal.to_addr,
    GnosisSafeWithdrawal.id, GnosisSafeWithdrawal.eth_block_number, GnosisSafeWithdrawal.amount.
  rewrite EthTxHash_from_display, EthTxValue_from_to, Hs, Ht, Hf by done. simpl. f_equal.
  unfold GnosisSafeWithdrawal.new. rewrite (nanos_round _ _ En), id_of_proto_stored by done.
  rewrite !as_i64_as_u64 by done.
  rewrite proto_key_data_of_key, (compressed_round_bytes _ _ Ek), (hex_encode_decode _ _ Eb), Hk.
  by destruct x.
Qed.
End messages.

(** ** On the record of the small ledger *)
Lemma counters_reply_witness :
  exists reply w', ReserveAuditorService.get_counters_impl (world_after 3) = (Ok reply, w') /\
    ProtoCounters.num_blocks_synced reply = as_u64 (counter_value num_blocks_synced (w_db (world_after 3))).
Proof.
  destruct (counters_reply (world_after 3)) as (reply & w' & E & _ & H);
    [apply world_after_healthy; lia|apply world_after_ready; lia|].
  exists reply, w'. split; [exact E|exact (H num_blocks_synced)].
Defined.

Lemma block_audit_data_served_witness :
  (ReserveAuditorHttpService.get_block_audit_data 2 (world_after 3)).1
  = block_answer (take 3 test_ledger) 2.
Proof.
  apply (block_audit_data_served (take 3 test_ledger) 2 (world_after 3));
    [apply world_after_healthy; lia|apply world_after_mirrors; lia|apply world_after_ready; lia|
     apply world_after_typed; lia|reflexivity|reflexivity].
Defined.

Lemma ledger_balance_totals_witness :
  (Routes.get_ledger_balance test_config (Some 1) (world_after 3)).1
  = Ok (mkLedgerBalanceResponse "50" "20" (mkTokenType 1 "tUSD")).
Proof.
  apply (ledger_balance_totals (take 3 test_ledger) test_config (Some 1) "tUSD" (world_after 3));
    [apply world_after_healthy; lia|apply world_after_mirrors; lia|unfold is_u64; simpl; lia|
     vm_compute; reflexivity|vm_compute; reflexivity|reflexivity].
Defined.

Lemma unaudited_lists_witness :
  exists l, (ReserveAuditorHttpService.get_unaudited_mints (world_after 3)).1 = Ok l /\
    forall m, m ∈ l <-> m ∈ rows (w_db (world_after 3)) /\
      forall a, a ∈ rows (w_db (world_after 3)) -> mt_id m <> Some (am_mint_tx_id a).
Proof. apply (unaudited_lists (world_after 3)). apply world_after_healthy. lia. Defined.

(** The deposit and the mint of the small safe, audited. *)
Lemma audited_db_integrity : integrity (record_audited_mint deposit_db 1 1).
Proof.
  assert (audit_inv test_config (record_audited_mint deposit_db 1 1)) as H; [|apply (ai_ready _ _ H)].
  eapply audit_step_inv; [|apply deposit_db_inv].
  eapply (audit_mint _ _ test_safe); [by left|apply deposit_db_pair].
Qed.

Lemma audited_pages_witness :
  exists l, ((fun x => x.1.1) <$> l) ≡ₚ rows (record_audited_mint deposit_db 1 1) /\
    (ReserveAuditorHttpService.get_audited_mints (Some 0) (Some 10)
       (world_of (record_audited_mint deposit_db 1 1))).1
    = Ok ((fun x => mkAuditedMintResponse x.1.1 x.1.2 x.2) <$>
            AuditedMint.sql_limit (Some 10) (AuditedMint.sql_offset (Some 0) l)).
Proof.
  destruct (audited_pages (world_of (record_audited_mint deposit_db 1 1)))
    as [(l & (H1 & _) & H2) _]; [reflexivity|apply audited_db_integrity|].
  exists l. split; [exact H1|exact (H2 (Some 0) (Some 10))].
Defined.

(** Block 3 has a mint over the limit. *)
Lemma mint_info_flagged_block_witness :
  is_ok (Routes.get_mint_info_for_block 3 (world_after 4)).1 = false.
Proof.
  destruct (List.find (fun m => flagged m && (mt_block_index m =? as_i64 3)) (rows (w_db (world_after 4))))
    as [m|] eqn:E.
  - apply find_Some_elem in E as [Hm H]. apply andb_true_iff in H as [Hf Hb].
    apply (mint_info_flagged_block 3 m (world_after 4) Hm); [apply Z.eqb_eq, Hb|exact Hf].
  - assert (match List.find (fun m => flagged m && (mt_block_index m =? as_i64 3))
      (rows (w_db (world_after 4))) with Some _ => true | None => false end = true) as H
      by (vm_compute; reflexivity).
    rewrite E in H. discriminate H.
Defined.

Lemma deposit_message_roundtrip_witness :
  exists message, ProtoGnosisSafeDeposit.from_db deposit_row = Ok message /\
    ProtoGnosisSafeDeposit.to_db message = Ok deposit_row.
Proof.
  destruct (ProtoGnosisSafeDeposit.from_db deposit_row) as [message|e|p] eqn:E.
  - exists message. split; [reflexivity|].
    apply (deposit_message_roundtrip deposit_row message);
      [discriminate|unfold is_u128; simpl; lia|unfold is_i64; vm_compute; split; [discriminate|reflexivity]|
       unfold is_i64; vm_compute; split; [discriminate|reflexivity]|
       vm_compute; reflexivity|vm_compute; reflexivity|vm_compute; reflexivity|reflexivity|exact E].
  - assert (is_ok (ProtoGnosisSafeDeposit.from_db deposit_row) = true) as H by (vm_compute; reflexivity).
    rewrite E in H. discriminate H.
  - assert (is_ok (ProtoGnosisSafeDeposit.from_db deposit_row) = true) as H by (vm_compute; reflexivity).
    rewrite E in H. discriminate H.
Defined.

Lemma withdrawal_message_roundtrip_witness :
  exists message, ProtoGnosisSafeWithdrawal.from_db withdrawal_row = Ok message /\
    ProtoGnosisSafeWithdrawal.to_db message = Ok withdrawal_row.
Proof.
  destruct (ProtoGnosisSafeWithdrawal.from_db withdrawal_row) as [message|e|p] eqn:E.
  - exists message. split; [reflexivity|].
    apply (withdrawal_message_roundtrip withdrawal_row message);
      [discriminate|unfold is_u128; simpl; lia|unfold is_i64; vm_compute; split; [discriminate|reflexivity]|
       unfold is_i64; vm_compute; split; [discriminate|reflexivity]|
       vm_compute; reflexivity|vm_compute; reflexivity|vm_compute; reflexivity|
       vm_compute; reflexivity|exact E].
  - assert (is_ok (ProtoGnosisSafeWithdrawal.from_db withdrawal_row) = true) as H
      by (vm_compute; reflexivity).
    rewrite E in H. discriminate H.
  - assert (is_ok (ProtoGnosisSafeWithdrawal.from_db withdrawal_row) = true) as H
      by (vm_compute; reflexivity).
    rewrite E in H. discriminate H.
Defined.
