(* ===== verification/MintInfo.v ===== *)
(** * The mint information served for a block

    [get_mint_info_by_block] decodes what was stored and verifies the signatures of
    the mints again.  That this succeeds on what the auditor has stored is an
    invariant of its own; it fails exactly for the blocks with a mint that no
    configuration allowed. *)

From S2P Require Import Prelude Externals Concrete GnosisTypes Errors Schema Database.
From S2P Require Import CountersModel Blocks Mints Burns GnosisConfig GnosisRows AuditedMints.
From S2P Require Import AuditedBurns SyncBlock LedgerSpec LedgerSync MintVerdicts SafeSync.
From S2P Require Import AuditInvariant Main Handlers SyncLoop SafeSyncSpec Scenario System Limits.
From S2P Require Import Http ApiProps.

Section signed.
Context {X_chrono : Chrono} {X_sqlite : Sqlite} {L_sqlite : SqliteLaws}.
Context {X_hex : Hex} {L_hex : HexLaws} {X_mc : MobileCoin} {L_mc : MobileCoinLaws} {X_url : UrlLib}.
Context {X_hash : HashOrder} {L_hash : HashOrderLaws} {X_json : SerdeJson} {X_ledger : LedgerDB}.
Implicit Types (d : Db) (m : MintTx) (c : MintConfig) (t : MintConfigTx) (w : World).

(** ** What is stored verifies *)

(** The stored mint decodes, and its signature verifies under the stored
    configuration. *)
Definition signed m c (core : CoreMintConfig) (signers : list Ed25519Public) : Prop :=
  exists tx, decode_mint_tx (mt_protobuf m) = inr tx /\
    decode_mint_config (mc_protobuf c) = inr core /\
    signer_set_verify (core_mint_config_signer_set core) (core_mint_tx_prefix_hash tx)
      (core_mint_tx_signature tx) = inr signers.

Definition mints_signed d : Prop := forall m c,
  m ∈ rows d -> config_of d m = Some c -> exists core signers, signed m c core signers.

Lemma synced_signed config k bc ts d data d' :
  audit_inv config d -> synced (Z.of_nat k) bc ts d data d' -> mints_signed d -> mints_signed d'.
Proof.
  intros Hi Hs Hsig m c Hm Hc. pose proof (synced_within _ _ _ _ _ _ Hs) as Hw.
  pose proof (synced_inv _ _ _ _ _ _ _ Hs Hi) as Hi'.
  pose proof (ai_ready _ _ Hi) as (Hd & _). pose proof (ai_ready _ _ Hi') as (Hd' & _).
  pose proof (synced_frame _ _ _ _ _ _ Hs) as (Rm & _).
  rewrite Rm in Hm. apply elem_of_app in Hm as [Hold|Hnew].
  - rewrite (config_of_within (Z.of_nat k) d d') in Hc by done. by apply Hsig.
  - destruct (synced_new _ _ _ _ _ _ _ Hs (ai_ready _ _ Hi) Hnew) as (tx & Hver & _ & Ep).
    destruct (named_active _ _ _ _ _ _ Hw Hd' Hver Hc) as (t & _ & _ & _ & _ & (core & signers & Ec & Es & _)).
    exists core, signers, tx. rewrite Ep, decode_encode_mint_tx. done.
Qed.

Lemma reachable_signed config blocks w w' :
  serves blocks -> Z.of_nat (length blocks) < two63 -> w_db w = initial_db ->
  rtc (system_step config) w w' ->
  mints_signed (w_db w') /\ exists k, at_block config blocks k w'.
Proof.
  intros Hserve Hl Hw Hs. eapply system_invariant; [done|done|..|done| |done].
  - intros k bc ts d data d' Hi Hm Hk Hsy. by eapply synced_signed.
  - intros d d' Hi Hst Hsig m c. destruct (gnosis_step_same_ledger _ _ _ Hst) as [_ _ _ E2 E1 _ _].
    { apply (ai_ready _ _ Hi). }
    unfold config_of, rows. simpl. rewrite E1, E2. apply Hsig.
  - intros m c Hm. by apply elem_of_nil in Hm.
Qed.

(** A mint that is not flagged has its configuration, which has its transaction. *)
Lemma unflagged_configured d m :
  integrity d -> m ∈ rows d -> flagged m = false -> exists c t, configured d m c t.
Proof.
  intros Hd Hm Hf%bool_decide_eq_false. destruct (mt_mint_config_id m) as [i|] eqn:Ei; [|done].
  assert (exists c, config_of d m = Some c) as [c Ec].
  { unfold config_of. rewrite Ei. pose proof Hm as [j Hj]%rows_elem_of.
    pose proof (fk_mint_txs _ Hd _ Hj) as Hk. simpl in Hk. rewrite Ei in Hk.
    destruct (has_id_stored (R := MintConfig) d _ (ok_mint_configs _ Hd) Hk) as (c & Hc & Ic).
    eapply find_elem; [exact Hc|]. by apply id_is_true. }
  assert (exists t, config_tx_of d c = Some t) as [t Et]; [|by exists c, t].
  unfold config_of in Ec. rewrite Ei in Ec. apply find_Some_elem in Ec as [[j Hj]%rows_elem_of _].
  pose proof (fk_mint_configs _ Hd _ Hj) as Hk. simpl in Hk.
  destruct (has_id_stored (R := MintConfigTx) d _ (ok_mint_config_txs _ Hd) Hk) as (t & Ht & It).
  eapply find_elem; [exact Ht|]. by apply id_is_true.
Qed.
End signed.

(** ** Serving it *)
Section served.
Context {X_chrono : Chrono} {X_sqlite : Sqlite} {L_sqlite : SqliteLaws} {X_hex : Hex}.
Context {X_mc : MobileCoin} {L_mc : MobileCoinLaws} {X_url : UrlLib}.
Implicit Types (d : Db) (m : MintTx) (c : MintConfig) (t : MintConfigTx) (w : World).
Import ReserveAuditorHttpService.

Lemma query_config_by_id i :
  query (MintConfig.get_by_id i) (fun d r => forall c, table_ok (mint_configs d) -> c ∈ rows d ->
    mc_id c = Some i -> r = Ok (Some c)).
Proof.
  eapply query_mono; [apply query_load_first_optional|]. simpl. intros d r -> c Hok Hc Hi.
  f_equal. apply scan_head_unique.
  - apply elem_of_filter_bool. split; [done|]. by apply id_is_true.
  - intros c' [Hc' Hi'%id_is_true]%elem_of_filter_bool. apply (stored_unique d); [done..|].
    simpl. congruence.
Qed.

Lemma query_config_tx_by_id i :
  query (MintConfigTx.get_by_id i) (fun d r => forall t, table_ok (mint_config_txs d) -> t ∈ rows d ->
    mct_id t = Some i -> r = Ok (Some t)).
Proof.
  eapply query_mono; [apply query_load_first_optional|]. simpl. intros d r -> t Hok Ht Hi.
  f_equal. apply scan_head_unique.
  - apply elem_of_filter_bool. split; [done|]. by apply id_is_true.
  - intros t' [Ht' Hi'%id_is_true]%elem_of_filter_bool. apply (stored_unique d); [done..|].
    simpl. congruence.
Qed.

(** A call on a healthy world whose answer depends on the database alone. *)
Definition answers {A} (m : App A) d (P : A -> Prop) : Prop :=
  forall w, healthy w -> w_db w = d ->
    wp m (fun r w' => (exists a, r = Ok a /\ P a) /\ leads w d w') w.

Lemma answers_bind {A B} (m : App A) (k : A -> App B) d P P' :
  answers m d P -> (forall a, P a -> answers (k a) d P') -> answers (m ≫= k) d P'.
Proof.
  intros Hm Hk w Hh Hw. apply wp_seq. eapply wp_mono; [by apply Hm|].
  intros r w1 [(a & -> & Ha) Hl]. eapply wp_mono; [apply (Hk a Ha w1)|].
  - by apply Hl.
  - apply (leads_db _ _ _ Hl).
  - intros r w2 [Hr Hl2]. split; [done|]. by eapply leads_trans.
Qed.

Lemma answers_ret {A} (a : A) d (P : A -> Prop) : P a -> answers (mret a) d P.
Proof. intros Ha w Hh Hw. apply wp_ret. split; [by exists a|]. split; [done|by intros]. Qed.

Lemma answers_lift {A} (r : Res Error A) a d (P : A -> Prop) : r = Ok a -> P a -> answers (lift r) d P.
Proof. intros -> Ha w Hh Hw. apply wp_lift. split; [by exists a|]. split; [done|by intros]. Qed.

Lemma answers_query {A} (m : App A) Q d (P : A -> Prop) :
  query m Q -> (forall r, Q d r -> exists a, r = Ok a /\ P a) -> answers m d P.
Proof.
  intros Hm HP w Hh Hw. apply (wp_query _ _ _ _ Hm); [by intros f w' []|].
  rewrite Hw. intros r w' Hl HQ. split; [by apply HP|done].
Qed.

Lemma answers_for_each {A B} (f : A -> App B) xs d (R : A -> B -> Prop) :
  (forall x, x ∈ xs -> answers (f x) d (R x)) -> answers (for_each f xs) d (Forall2 R xs).
Proof.
  induction xs as [|x xs IH]; intros Hf; simpl; [by apply answers_ret|].
  eapply answers_bind; [apply Hf; by left|]. intros y Hy.
  eapply answers_bind; [apply IH; intros z Hz; apply Hf; by right|]. intros ys Hys.
  apply answers_ret. by constructor.
Qed.

(** The entry served for a mint, and for a configuration transaction. *)
Definition describes_mint d m (x : MintWithConfig) : Prop := exists c t core signers i,
  configured d m c t /\ signed m c core signers /\ mt_mint_config_id m = Some i /\
  x = mkMintWithConfig m t (hybrid i core) signers.
Definition describes_config c (x : HybridMintConfig) : Prop := exists core i,
  decode_mint_config (mc_protobuf c) = inr core /\ mc_id c = Some i /\ x = hybrid i core.
Definition describes_config_tx d t (x : MintConfigTxWithConfig) : Prop := exists i cs hs,
  mct_id t = Some i /\ cs ≡ₚ List.filter (fun c => mc_mint_config_tx_id c =? i) (rows d) /\
  Forall2 describes_config cs hs /\ x = mkMintConfigTxWithConfig t hs.

Lemma configured_ids d m c t :
  configured d m c t -> exists i, mt_mint_config_id m = Some i /\ mc_id c = Some i /\ c ∈ rows d /\
    mct_id t = Some (mc_mint_config_tx_id c) /\ t ∈ rows d.
Proof.
  intros (_ & Ec & Et). unfold config_of in Ec. destruct (mt_mint_config_id m) as [i|]; [|done].
  apply find_Some_elem in Ec as [Hc Ic%id_is_true].
  unfold config_tx_of in Et. apply find_Some_elem in Et as [Ht It%id_is_true]. by exists i.
Qed.

Lemma answers_mint d m :
  integrity d -> mints_signed d -> m ∈ rows d -> flagged m = false ->
  answers (mint_with_config m) d (fun o => exists x, o = Some x /\ describes_mint d m x).
Proof.
  intros Hd Hsig Hm Hf. destruct (unflagged_configured d m Hd Hm Hf) as (c & t & Hcf).
  destruct (Hsig m c Hm (proj1 (proj2 Hcf))) as (core & signers & Hs).
  destruct (configured_ids _ _ _ _ Hcf) as (i & Ei & Ic & Hc & It & Ht).
  pose proof Hs as (tx & Etx & Ecore & Ever).
  assert (answers (MintConfig.get_by_id i) d (fun o => o = Some c)) as Hget.
  { eapply answers_query; [apply query_config_by_id|]. intros r Hr.
    exists (Some c). split; [|done]. apply Hr; [apply Hd|done..]. }
  assert (MintConfig.decode c = Ok core) as Edec by (unfold MintConfig.decode; by rewrite Ecore).
  unfold mint_with_config. eapply answers_bind with (P := fun s => s = signers).
  - unfold MintTx.get_signers. eapply answers_bind.
    { eapply answers_lift; [by unfold MintTx.decode; rewrite Etx|]. exact (eq_refl tx). }
    intros ? <-. rewrite Ei. eapply answers_bind; [by eapply (answers_lift _ i _ (eq i))|].
    intros ? <-. eapply answers_bind; [exact Hget|]. intros ? ->.
    eapply answers_bind; [by eapply (answers_lift _ c _ (eq c))|]. intros ? <-.
    eapply answers_bind; [by eapply (answers_lift _ core _ (eq core))|]. intros ? <-.
    eapply answers_lift; [|reflexivity]. by rewrite Ever.
  - intros ? ->. unfold MintTx.mint_config_id. rewrite Ei.
    eapply answers_bind; [exact Hget|]. intros ? ->.
    eapply answers_bind; [by eapply (answers_lift _ core _ (eq core))|]. intros ? <-.
    eapply (answers_bind _ _ _ (fun o => o = Some t)).
    + eapply answers_query; [apply query_config_tx_by_id|]. intros r Hr.
      exists (Some t). split; [|done]. apply Hr; [apply Hd|done..].
    + intros ? ->. apply answers_ret. eexists. split; [done|]. exists c, t, core, signers, i. done.
Qed.

Lemma answers_config_tx d t :
  integrity d -> configs_decode d -> t ∈ rows d ->
  answers (mint_config_tx_with_configs t) d
    (fun o => exists x, o = Some x /\ describes_config_tx d t x).
Proof.
  intros Hd Hdec Ht. destruct (stored_has_id _ _ (ok_mint_config_txs _ Hd) Ht) as (i & Ei & _). simpl in Ei.
  unfold mint_config_tx_with_configs, MintConfigTx.id. rewrite Ei.
  eapply (answers_bind _ _ _ (fun cs => cs ≡ₚ List.filter (fun c => mc_mint_config_tx_id c =? i) (rows d))).
  { eapply answers_query; [apply query_configs_of_tx|]. intros r (l & -> & Hl). by exists l. }
  intros cs Hcs. eapply answers_bind.
  - apply (answers_for_each _ _ _ describes_config). intros c Hc. rewrite Hcs in Hc.
    apply elem_of_filter_bool in Hc as [Hc _]. destruct (Hdec c Hc) as [core Ecore].
    destruct (stored_has_id _ _ (ok_mint_configs _ Hd) Hc) as (j & Ej & _). simpl in Ej.
    eapply answers_bind; [eapply (answers_lift _ core _ (eq core)); [by unfold MintConfig.decode; rewrite Ecore|done]|].
    intros ? <-. eapply answers_bind; [eapply (answers_lift _ j _ (eq j)); [by unfold MintConfig.id; rewrite Ej|done]|].
    intros ? <-. apply answers_ret. by exists core, j.
  - intros hs Hhs. apply answers_ret. eexists. split; [done|]. by exists i, cs, hs.
Qed.

Lemma Forall2_omap_some {A B} (R : A -> B -> Prop) xs ys :
  Forall2 (fun x o => exists y, o = Some y /\ R x y) xs ys -> Forall2 R xs (omap (fun o => o) ys).
Proof. induction 1 as [|x o xs ys (y & -> & Hy) _ IH]; simpl; by constructor. Qed.

(** The mints and the configuration transactions of a block, by id. *)
Definition mints_of_block d (idx : Z) : list MintTx :=
  order_by (fun m => default 0 (mt_id m))
    (scan (List.filter (fun m => mt_block_index m =? as_i64 idx) (rows d))).
Definition config_txs_of_block d (idx : Z) : list MintConfigTx :=
  order_by (fun t => default 0 (mct_id t))
    (scan (List.filter (fun t => mct_block_index t =? as_i64 idx) (rows d))).

Lemma elem_of_mints_of_block d idx m :
  m ∈ mints_of_block d idx <-> m ∈ rows d /\ mt_block_index m = as_i64 idx.
Proof.
  unfold mints_of_block. rewrite order_by_permutation, elem_of_scan, elem_of_filter_bool.
  by rewrite Z.eqb_eq.
Qed.

Lemma answers_mint_info d idx :
  integrity d -> mints_signed d -> configs_decode d -> existsb flagged (mints_of_block d idx) = false ->
  answers (get_mint_info_by_block idx) d (fun resp =>
    Forall2 (describes_mint d) (mints_of_block d idx) (mir_mint_txs resp) /\
    Forall2 (describes_config_tx d) (config_txs_of_block d idx) (mir_mint_config_txs resp)).
Proof.
  intros Hd Hsig Hdec Hf. unfold get_mint_info_by_block.
  eapply (answers_bind _ _ _ (fun _ => True)).
  { intros w Hh Hw. apply wp_get_conn; [by intros|]. intros w1 Hl.
    split; [by exists tt|]. by rewrite <- Hw. }
  intros _ _. eapply (answers_bind _ _ _ (eq (mints_of_block d idx))).
  { eapply answers_query; [apply query_load_ordered|]. intros r ->. by eexists. }
  intros ? <-. eapply (answers_bind _ _ _ (eq (config_txs_of_block d idx))).
  { eapply answers_query; [apply query_load_ordered|]. intros r ->. by eexists. }
  intros ? <-. eapply answers_bind.
  { apply (answers_for_each _ _ _ (fun t o => exists x, o = Some x /\ describes_config_tx d t x)).
    intros t Ht. apply answers_config_tx; [done..|]. unfold config_txs_of_block in Ht.
    rewrite order_by_permutation, elem_of_scan in Ht. by apply elem_of_filter_bool in Ht as []. }
  intros os Hos. eapply answers_bind.
  { apply (answers_for_each _ _ _ (fun m o => exists x, o = Some x /\ describes_mint d m x)).
    intros m Hm. apply answers_mint; [done..|by apply elem_of_mints_of_block in Hm as []|].
    by eapply existsb_false. }
  intros os' Hos'. apply answers_ret. simpl. split; by apply Forall2_omap_some.
Qed.
End served.

Section property.
Context {X_chrono : Chrono} {X_sqlite : Sqlite} {L_sqlite : SqliteLaws}.
Context {X_hex : Hex} {L_hex : HexLaws} {X_mc : MobileCoin} {L_mc : MobileCoinLaws} {X_url : UrlLib}.
Context {X_hash : HashOrder} {L_hash : HashOrderLaws} {X_json : SerdeJson} {X_ledger : LedgerDB}.

(** C31: The mint information of a block, at every reachable moment of the auditor and
    when SQLite does not fail, all statements taken at that moment: every mint of the block in the order of the ids, with
    its configuration, the transaction the configuration came with and the signers
    its signature verifies for, and every configuration transaction of the block with
    its configurations, each decoded; unless a mint of the block was allowed by no
    configuration, when the request always fails, since the signers of every mint are
    looked up before its configuration is tested for presence. *)
Theorem mint_info_served config blocks w w' idx :
  serves blocks -> Z.of_nat (length blocks) < two63 -> w_db w = initial_db ->
  rtc (system_step config) w w' -> healthy w' ->
  let d := w_db w' in
  if existsb flagged (mints_of_block d idx)
  then is_ok (Routes.get_mint_info_for_block idx w').1 = false
  else exists resp w'', Routes.get_mint_info_for_block idx w' = (Ok resp, w'') /\ w_db w'' = d /\
    Forall2 (describes_mint d) (mints_of_block d idx) (mir_mint_txs resp) /\
    Forall2 (describes_config_tx d) (config_txs_of_block d idx) (mir_mint_config_txs resp).
Proof.
  intros Hserve Hl Hw Hs Hh d.
  destruct (reachable_signed config blocks w w' Hserve Hl Hw Hs) as (Hsig & k & _ & Hi & _).
  pose proof (ai_ready _ _ Hi) as (Hd & Hdec & _).
  destruct (existsb flagged (mints_of_block d idx)) eqn:E.
  - apply existsb_exists_elem in E as (m & [Hm Hb]%elem_of_mints_of_block & Hf).
    by apply (mint_info_flagged_block idx m).
  - pose proof (answers_mint_info d idx Hd Hsig Hdec E w' Hh eq_refl) as H. unfold wp in H.
    unfold Routes.get_mint_info_for_block, Routes.respond, with_err.
    destruct (ReserveAuditorHttpService.get_mint_info_by_block idx w') as [r w''].
    simpl in H. destruct H as [(resp & -> & H1 & H2) Hl']. exists resp, w''. simpl.
    split; [done|]. split; [apply (leads_db _ _ _ Hl')|done].
Qed.
End property.

(** Block 2 has a mint that is allowed. *)
Lemma mint_info_served_witness :
  exists resp, (Routes.get_mint_info_for_block 2 (world_after 4)).1 = Ok resp /\
    length (mir_mint_txs resp) = length (mints_of_block (w_db (world_after 4)) 2).
Proof.
  pose proof (mint_info_served test_config test_ledger initial_world (world_after 4) 2) as H.
  assert (existsb flagged (mints_of_block (w_db (world_after 4)) 2) = false) as E
    by (vm_compute; reflexivity).
  cbv zeta in H. rewrite E in H. destruct H as (resp & w'' & E' & _ & H & _);
    [apply test_serves|reflexivity|reflexivity|apply world_after_reachable|
     apply world_after_healthy; lia|].
  exists resp. split; [rewrite E'; reflexivity|]. symmetry. exact (Forall2_length _ _ _ H).
Defined.
