(* ===== verification/Commands.v ===== *)
(** * The commands of [src/bin/main.rs] and the connections of [src/db/conn.rs]

    How each command starts and, for the two that serve or scan, what it then is; the
    settings of every connection of the pool. *)

From S2P Require Import Prelude Externals Concrete GnosisTypes Errors Schema Database.
From S2P Require Import CountersModel Blocks Mints Burns GnosisConfig GnosisRows AuditedMints.
From S2P Require Import AuditedBurns SyncBlock LedgerSpec LedgerSync SafeSync SafeThread.
From S2P Require Import AuditInvariant Main Faults Handlers SyncLoop SafeSyncSpec Scenario System.
From S2P Require Import Process Http ApiProps Server.
Import Process.Process.

(** ** Connections *)
Section connections.

(** [diesel::SqliteConnection] and its [batch_execute]. *)
Context {Connection QueryError : Type}.
Context (batch_execute : string -> M Connection QueryError unit).

Record ConnectionOptions := mkConnectionOptions {
  enable_wal : bool;
  busy_timeout : option Z;   (* in milliseconds *)
}.

Definition WAL_PRAGMAS : string :=
  "PRAGMA journal_mode = WAL; PRAGMA synchronous = NORMAL; PRAGMA wal_autocheckpoint = 1000; PRAGMA wal_checkpoint(TRUNCATE);".
Definition FOREIGN_KEYS_ON : string := "PRAGMA foreign_keys = ON;".

(** [ConnectionOptions::on_acquire]; comments and line breaks of the SQL left out. *)
Definition on_acquire (self : ConnectionOptions) : M Connection QueryError unit :=
  _ ← match busy_timeout self with
      | Some d => batch_execute ("PRAGMA busy_timeout = " +:+ pretty d +:+ ";")
      | None => mret tt
      end;
  _ ← (if enable_wal self then batch_execute WAL_PRAGMAS else mret tt);
  batch_execute FOREIGN_KEYS_ON.

(** The options of [ReserveAuditorDb::new_from_path]. *)
Definition pool_options : ConnectionOptions := mkConnectionOptions true (Some 30000).

#[local] Lemma M_bind_ok {S E A B} (m : M S E A) (k : A -> M S E B) s b s' :
  (m ≫= k) s = (Ok b, s') -> exists a s1, m s = (Ok a, s1) /\ k a s1 = (Ok b, s').
Proof. unfold mbind, M_bind. destruct (m s) as [[a|e|p] s1]; [by eauto|done..]. Qed.

(** A connection that the pool hands out enforces foreign keys, as the constraints of
    [Schema] suppose, if that is what the pragma does. *)
Lemma on_acquire_enforces (enforces : Connection -> Prop) self c c' :
  (forall c c', batch_execute FOREIGN_KEYS_ON c = (Ok tt, c') -> enforces c') ->
  on_acquire self c = (Ok tt, c') -> enforces c'.
Proof.
  intros Hfk (? & ? & _ & (? & ? & _ & H)%M_bind_ok)%M_bind_ok. by eapply Hfk.
Qed.
End connections.

(** ** Commands *)

(** What the commands open and start besides the database: the ledger (that of
    [LedgerDB]), the watcher, the gRPC server and the admin server, each an error or not;
    [serde_json::to_string] of the object with the audit data and the balances;
    [Ipv4Addr::from_str]. *)
Class CommandLibs `{Chrono} := {
  PathBuf : Type;
  path_to_string : PathBuf -> option string;
  ledger_open : PathBuf -> ext unit;
  watcher_open_ro : PathBuf -> ext WatcherDB;
  ReserveAuditorUri : Type;
  build_using_uri : ReserveAuditorUri -> ext unit;
  AdminUri : Type;
  hostname_get : ext (option string);
  admin_server_start : AdminUri -> string -> ext unit;
  audit_data_json : BlockAuditData -> gmap Z Z -> ext string;
  ipv4_from_str : string -> option string;
}.

Section data.
Context {X_chrono : Chrono} {X_url : UrlLib} {X_libs : CommandLibs}.

(** [Command]; the file of a configuration is given by what parsing it gives, and the
    poll interval in milliseconds. *)
Inductive Command :=
| ScanLedger (ledger_db : PathBuf) (watcher_db : option PathBuf) (reserve_auditor_db : PathBuf)
    (poll_interval : Z) (listen_uri : option ReserveAuditorUri)
    (admin_listen_uri : option AdminUri) (gnosis_safe_config : option GnosisSafeConfig)
| GetBlockAuditDataCommand (reserve_auditor_db : PathBuf) (block_index : option Z) (json : bool)
| StartHttpServer (reserve_auditor_db : PathBuf) (port : Z) (host : string)
    (gnosis_safe_config : option GnosisSafeConfig).

(** What a command is once it has started: the scanning process, with the gRPC servers
    that run beside it and the settings of its loop; the lines that were printed; or an
    HTTP server. *)
Inductive Started `{Hex} `{SerdeJson} :=
| Scans (api_server : option ReserveAuditorUri) (admin_server : option AdminUri)
    (watcher_db : option WatcherDB) (poll_interval : Z)
    (gnosis_safe_config : option GnosisSafeConfig) (p : process)
| Printed (lines : list string)
| Serves (address : string) (port : Z) (gnosis_safe_config : GnosisSafeConfig).
End data.

Module Commands.
Section operations.
Context {X_chrono : Chrono} {X_sqlite : Sqlite} {X_hex : Hex} {X_mc : MobileCoin} {X_url : UrlLib}
  {X_json : SerdeJson} {X_hash : HashOrder} {X_libs : CommandLibs}.
Context (migrations : App unit).

Definition open_db (reserve_auditor_db_path : PathBuf) : App unit :=
  _ ← lift (unwrap (path_to_string reserve_auditor_db_path));
  expect "Could not open reserve auditor DB" (ReserveAuditorDb.new_from_path migrations).

(** [map] of an option, with something that may fail. *)
Definition option_each {A B} (f : A -> App B) (o : option A) : App (option B) :=
  match o with Some a => b ← f a; mret (Some b) | None => mret None end.
Definition called {A} (r : ext A) : App A := lift (from_ext Other r).

Definition start_api_server (listen_uri : ReserveAuditorUri) : App ReserveAuditorUri :=
  _ ← expect "called `Result::unwrap()` on an `Err` value" (called (build_using_uri listen_uri));
  mret listen_uri.
Definition start_admin_server (admin_listen_uri : AdminUri) : App AdminUri :=
  hostname ← expect "failed getting local hostname" (called hostname_get);
  local_hostname ← match hostname with
                   | Some text => mret text
                   | None => panic "failed getting hostname as str"
                   end;
  _ ← expect "Failed starting admin grpc server"
        (called (admin_server_start admin_listen_uri local_hostname));
  mret admin_listen_uri.

(** [cmd_scan_ledger] up to its loop. *)
Definition cmd_scan_ledger (ledger_db_path : PathBuf) (watcher_db_path : option PathBuf)
    (reserve_auditor_db_path : PathBuf) (poll_interval : Z) (listen_uri : option ReserveAuditorUri)
    (admin_listen_uri : option AdminUri) (gnosis_safe_config : option GnosisSafeConfig)
  : App Started :=
  _ ← expect "Could not open ledger DB" (called (ledger_open ledger_db_path));
  watcher_db ← option_each
    (fun path => expect "Could not open watcher DB" (called (watcher_open_ro path))) watcher_db_path;
  _ ← open_db reserve_auditor_db_path;
  api_server ← option_each start_api_server listen_uri;
  admin_server ← option_each start_admin_server admin_listen_uri;
  w ← gets (fun w => w);
  mret (Scans api_server admin_server watcher_db poll_interval gnosis_safe_config
          (launched gnosis_safe_config w)).

(** The text of a block. *)
Definition block_lines (block_index : Z) (balance_map : gmap Z Z) : list string :=
  ("Block index: " +:+ pretty block_index)
    :: ((fun e => "Token " +:+ token_id_display e.1 +:+ ": " +:+ pretty e.2)
          <$> hash_iter balance_map).

(** The transaction of [cmd_get_block_audit_data]: the block and its text. *)
Definition print_block (block_index : Z) (json : bool) : App (list string) :=
  audit_data ← BlockAuditData.get block_index;
  balance_map ← BlockBalance.get_balances_for_block block_index;
  if json then
    line ← lift (from_ext (fun err => Other ("failed serializing json: " +:+ err))
                   (audit_data_json audit_data balance_map));
    mret [line]
  else mret (block_lines block_index balance_map).

Definition print_audit_data (block_index : option Z) (json : bool) : App (list string) :=
  last_synced_block_index ← BlockAuditData.last_synced_block_index;
  block_index ← lift (ok_or (Other "Failed figuring out the last block index")
    (match block_index with Some i => Some i | None => last_synced_block_index end));
  print_block block_index json.

(** [cmd_get_block_audit_data]: the lines it prints. *)
Definition cmd_get_block_audit_data (reserve_auditor_db_path : PathBuf) (block_index : option Z)
    (json : bool) : App (list string) :=
  _ ← open_db reserve_auditor_db_path;
  _ ← expect "Could not get db connection" get_conn;
  expect "db transaction failed" (transaction (print_audit_data block_index json)).

(** [cmd_start_http_server], [start_http_server]. *)
Definition cmd_start_http_server (reserve_auditor_db_path : PathBuf) (config : GnosisSafeConfig)
    (port : Z) (host : string) : App Started :=
  _ ← open_db reserve_auditor_db_path;
  address ← lift (unwrap (ipv4_from_str host));
  mret (Serves address port config).

(** [main]. *)
Definition main (c : Command) : App Started :=
  match c with
  | ScanLedger ledger_db watcher_db reserve_auditor_db poll_interval listen_uri admin_listen_uri
      gnosis_safe_config =>
      cmd_scan_ledger ledger_db watcher_db reserve_auditor_db poll_interval listen_uri
        admin_listen_uri gnosis_safe_config
  | GetBlockAuditDataCommand reserve_auditor_db block_index json =>
      lines ← cmd_get_block_audit_data reserve_auditor_db block_index json;
      mret (Printed lines)
  | StartHttpServer reserve_auditor_db port host gnosis_safe_config =>
      config ← match gnosis_safe_config with
               | Some config => mret config
               | None => panic "Failure to read gnosis safe config file."
               end;
      cmd_start_http_server reserve_auditor_db config port host
  end.
End operations.
End Commands.

(** ** What is printed of a block *)
Section printing.
Context {X_chrono : Chrono} {X_sqlite : Sqlite} {L_sqlite : SqliteLaws} {X_hex : Hex}.
Context {X_mc : MobileCoin} {L_mc : MobileCoinLaws} {X_url : UrlLib} {X_json : SerdeJson}.
Context {X_hash : HashOrder} {X_libs : CommandLibs}.
Implicit Types (w : World) (d : Db) (blocks : list BlockContents).
Import Commands.

(** The block asked for, or the last one. *)
Definition asked_block blocks (oi : option nat) : option nat :=
  match oi, length blocks with
  | Some i, _ => Some i
  | None, S m => Some m
  | None, O => None
  end.

(** What the reference model of the ledger has to be printed; nothing for a block that is
    not there. *)
Definition printed_answer blocks (oi : option nat) (json : bool) : option (list string) :=
  i ← asked_block blocks oi;
  if Nat.ltb i (length blocks) then
    let balances := ledger_balances (take (S i) blocks) in
    if json then
      match audit_data_json (mkBlockAuditData (Z.of_nat i)) balances with
      | inr line => Some [line]
      | inl _ => None
      end
    else Some (block_lines (Z.of_nat i) balances)
  else None.

Lemma raises_print oi json : never_retries (print_audit_data oi json).
Proof.
  unfold print_audit_data, print_block, BlockAuditData.last_synced_block_index, BlockAuditData.get.
  solve_raises.
Qed.

(** Audit data and balances of block [i], printed. *)
Lemma wp_print_block blocks i json w :
  healthy w -> mirrors blocks (w_db w) -> integrity (w_db w) -> typed_balances (w_db w) ->
  Z.of_nat (length blocks) < two63 -> Z.of_nat i < two63 ->
  wp (print_block (Z.of_nat i) json) (fun r _ =>
    match printed_answer blocks (Some i) json with
    | Some lines => r = Ok lines
    | None => exists e, r = Err e
    end) w.
Proof.
  intros Hh Hm Hd Ht Hl Hi. unfold print_block, printed_answer, asked_block. simpl.
  apply wp_seq, (wp_query _ _ _ _ (query_get_block blocks i)); [done|].
  intros r w1 [Hd1 Hh1] Hr. rewrite (Hr Hm Hl Hi).
  destruct (Nat.ltb_spec i (length blocks)) as [Hlt|Hge]; [|by eexists].
  apply wp_seq, (wp_query _ _ _ _ (query_balances_at (Z.of_nat i))).
  { intros f w' Hs. by destruct Hs; apply Hh1. }
  rewrite Hd1. intros rb w2 _ Hrb. rewrite Hrb, (mir_balances _ _ Hm) by (done || apply Hd).
  destruct json; [|by apply wp_ret].
  apply wp_seq, wp_lift. destruct (audit_data_json _ _); simpl; [by eexists|by apply wp_ret].
Qed.

Lemma printed_last blocks json :
  printed_answer blocks None json
  = match length blocks with O => None | S m => printed_answer blocks (Some m) json end.
Proof. unfold printed_answer, asked_block. by destruct (length blocks). Qed.

Lemma wp_print blocks oi json w :
  healthy w -> mirrors blocks (w_db w) -> integrity (w_db w) -> typed_balances (w_db w) ->
  Z.of_nat (length blocks) < two63 -> (forall i, oi = Some i -> Z.of_nat i < two63) ->
  wp (print_audit_data (Z.of_nat <$> oi) json) (fun r _ =>
    match printed_answer blocks oi json with
    | Some lines => r = Ok lines
    | None => exists e, r = Err e
    end) w.
Proof.
  intros Hh Hm Hd Ht Hl Hi. unfold print_audit_data.
  apply wp_seq, (wp_query _ _ _ _ query_last_synced); [done|].
  intros r w1 [Hd1 Hh1] Hr. rewrite (Hr blocks Hm Hl). apply wp_seq, wp_lift.
  rewrite <- Hd1 in *. destruct oi as [i|]; simpl.
  - apply wp_print_block; auto.
  - rewrite printed_last. destruct (length blocks) as [|m] eqn:E; simpl; [by eexists|].
    apply wp_print_block; auto; lia.
Qed.

(** On the record of a ledger the command prints the block that was asked for, or the
    last one, with the balances of the reference model after it, or that as JSON; it
    panics for a block that is not there. *)
Theorem block_audit_data_printed blocks path text oi json w :
  path_to_string path = Some text ->
  healthy w -> mirrors blocks (w_db w) -> integrity (w_db w) -> typed_balances (w_db w) ->
  counters_ok (w_db w) -> Z.of_nat (length blocks) < two63 ->
  (forall i, oi = Some i -> Z.of_nat i < two63) ->
  (main (mret tt) (GetBlockAuditDataCommand path (Z.of_nat <$> oi) json) w).1
  = match printed_answer blocks oi json with
    | Some lines => Ok (Printed lines)
    | None => Panic "db transaction failed"
    end.
Proof.
  intros Hp Hh Hm Hd Ht Hc Hl Hi.
  change (wp (main (mret tt) (GetBlockAuditDataCommand path (Z.of_nat <$> oi) json)) (fun r _ => r =
    match printed_answer blocks oi json with
    | Some lines => Ok (Printed lines)
    | None => Panic "db transaction failed"
    end) w).
  apply wp_seq, wp_seq. unfold open_db. rewrite Hp. apply wp_seq, wp_lift. simpl.
  apply wp_expect, wp_seq, wp_get_conn; [done|]. intros w1 [Hd1 Hh1].
  apply wp_seq, wp_ret, wp_ensure_exists; [left; by rewrite Hd1|by intros e w' []; apply Hh1|].
  intros d w2 [Hd2 Hh2] He _ _. rewrite Hd1 in He. rewrite (He Hc) in Hd2. clear d He.
  apply wp_seq, wp_expect, wp_get_conn; [by intros f w' []; apply Hh2, Hh1|]. intros w3 [Hd3 Hh3].
  apply wp_expect, wp_transaction; [apply raises_print|by intros f w' []; apply Hh3, Hh2, Hh1|].
  intros w4 [Hd4 Hh4]. rewrite Hd3, Hd2 in Hd4.
  eapply wp_mono; [apply (wp_print blocks oi json w4); rewrite ?Hd4; auto|].
  intros r w5 Hr. destruct (printed_answer blocks oi json); [subst r|destruct Hr as [e ->]; done].
  by apply wp_ret.
Qed.
End printing.

(** ** Starting to scan *)
Section starting.
Context {X_chrono : Chrono} {X_sqlite : Sqlite} {L_sqlite : SqliteLaws} {X_hex : Hex}.
Context {X_mc : MobileCoin} {X_url : UrlLib} {X_json : SerdeJson} {X_hash : HashOrder}.
Context {X_ledger : LedgerDB} {X_libs : CommandLibs}.
Context (ledger_path : PathBuf) (watcher_path : option PathBuf) (path : PathBuf) (poll_interval : Z).
Context (api : option ReserveAuditorUri) (admin : option AdminUri) (oconfig : option GnosisSafeConfig).
Import Commands.

Definition opens {A} (r : ext A) : bool := match r with inr _ => true | inl _ => false end.

(** The watcher that [path] opens. *)
Definition opened_watcher : option WatcherDB :=
  path ← watcher_path; match watcher_open_ro path with inr db => Some db | inl _ => None end.

(** Everything that has to be there before the database, and after it. *)
Definition before_database : bool :=
  opens (ledger_open ledger_path)
  && match watcher_path with Some path => opens (watcher_open_ro path) | None => true end
  && match path_to_string path with Some _ => true | None => false end.
Definition after_database : bool :=
  match api with Some uri => opens (build_using_uri uri) | None => true end
  && match admin with
     | Some uri =>
         match hostname_get with
         | inr (Some host) => opens (admin_server_start uri host)
         | _ => false
         end
     | None => true
     end.

Definition scan_command : Command :=
  ScanLedger ledger_path watcher_path path poll_interval api admin oconfig.

(** The start of the command around the opening of the database. *)
Lemma scan_command_runs migrations w :
  let opened := expect "Could not open reserve auditor DB" (ReserveAuditorDb.new_from_path migrations) in
  exists m m', main migrations scan_command w
  = if before_database then
      match opened w with
      | (Ok _, w') =>
          if after_database then
            (Ok (Scans api admin opened_watcher poll_interval oconfig (launched oconfig w')), w')
          else (Panic m', w')
      | (Err e, w') => (Err e, w')
      | (Panic p, w') => (Panic p, w')
      end
    else (Panic m, w).
Proof.
  simpl. unfold cmd_scan_ledger, before_database, after_database, opened_watcher, open_db, called,
    start_api_server, start_admin_server, option_each.
  generalize (expect (F := Error) "Could not open reserve auditor DB"
    (ReserveAuditorDb.new_from_path migrations)) as opened; intros opened.
  unfold mbind, M_bind, expect, lift, mret, M_ret. simpl.
  destruct (ledger_open _) as [e|[]]; simpl; [by eexists _, ""|].
  destruct watcher_path as [wpath|]; simpl;
    try (destruct (watcher_open_ro wpath) as [e|db]; simpl; [by eexists _, ""|]);
    (destruct (path_to_string path) as [text|]; simpl; [|by eexists _, ""]);
    (destruct (opened w) as [[[]|e|p] w1]; simpl; [|by exists "", ""..]);
    (destruct api as [uri|]; simpl;
      [destruct (build_using_uri uri) as [e|[]]; simpl; [by eexists "", _|]|]);
    (destruct admin as [auri|]; simpl; [|by exists "", ""]);
    (destruct hostname_get as [e|[host|]]; simpl; [by eexists "", _| |by eexists "", _]);
    (destruct (admin_server_start auri host) as [e|[]]; simpl;
      [by eexists "", _|by exists "", ""]).
Qed.

(** On a healthy database [scan-ledger] either starts, and then it is the process of
    [Process] with the gRPC servers, the watcher and the settings of the command line, or
    it panics before any thread of it exists; the database is as it was. *)
Theorem scan_ledger_starts w :
  healthy w -> counters_ok (w_db w) ->
  wp (main (mret tt) scan_command) (fun r w' =>
    w_db w' = w_db w /\
    if before_database && after_database then
      r = Ok (Scans api admin opened_watcher poll_interval oconfig (launched oconfig w'))
    else exists m, r = Panic m) w.
Proof.
  intros Hh Hc. destruct (scan_command_runs (mret tt) w) as (m & m' & E). unfold wp. rewrite E.
  destruct before_database; simpl; [|by eauto].
  assert (wp (expect (F := Error) "Could not open reserve auditor DB" (ReserveAuditorDb.new_from_path (mret tt)))
            (fun r w' => r = Ok tt /\ w_db w' = w_db w) w) as H.
  { apply wp_expect, wp_seq, wp_get_conn; [done|]. intros w1 [Hd1 Hh1].
    apply wp_seq, wp_ret, wp_ensure_exists; [left; by rewrite Hd1|by intros e w' []; apply Hh1|].
    intros d w2 [Hd2 _] He _ _. by rewrite Hd2, He, Hd1 by by rewrite Hd1. }
  unfold wp in H. destruct (expect _ _ w) as [r w1]. simpl in H. destruct H as [-> Hd].
  destruct after_database; eauto.
Qed.

(** [Main.cmd_scan_ledger], on which [Recovery] rests, is this start and the rounds. *)
Theorem scan_ledger_runs fuel migrations rounds w :
  before_database && after_database = true ->
  Main.cmd_scan_ledger fuel migrations oconfig opened_watcher poll_interval rounds w
  = match main migrations scan_command w with
    | (Ok (Scans _ _ watcher poll_ms config p), _) =>
        Main.scan_rounds fuel config watcher poll_ms rounds (world p)
    | (Ok _, _) => None
    | (Err e, w') => Some (Err e, w')
    | (Panic p, w') => Some (Panic p, w')
    end.
Proof.
  intros [Hb Ha]%andb_true_iff. destruct (scan_command_runs migrations w) as (m & m' & ->).
  rewrite Hb, Ha. unfold Main.cmd_scan_ledger. by destruct (expect _ _ w) as [[[]|e|p] w1].
Qed.
End starting.

(** ** Witness *)
#[local] Instance test_libs : CommandLibs := {
  PathBuf := string;
  path_to_string := Some;
  ledger_open _ := inr tt;
  watcher_open_ro _ := inr (fun _ => 0);
  ReserveAuditorUri := string;
  build_using_uri _ := inr tt;
  AdminUri := string;
  hostname_get := inr (Some "host");
  admin_server_start _ _ := inr tt;
  audit_data_json b _ := inr ("block " +:+ pretty (BlockAuditData.block_index b));
  ipv4_from_str := Some;
}.

Lemma block_audit_data_printed_witness :
  (Commands.main (mret tt) (GetBlockAuditDataCommand (X_libs := test_libs) "auditor.db" (Z.of_nat <$> None) false)
     (world_after 3)).1
  = match printed_answer (take 3 test_ledger) None false with
    | Some lines => Ok (Printed lines)
    | None => Panic "db transaction failed"
    end.
Proof.
  apply (block_audit_data_printed (X_libs := test_libs) (take 3 test_ledger) "auditor.db" "auditor.db" None false (world_after 3));
    [reflexivity|apply world_after_healthy; lia|apply world_after_mirrors; lia|
     apply world_after_ready; lia|apply world_after_typed; lia|apply world_after_ready; lia|
     reflexivity|discriminate].
Defined.

Lemma scan_ledger_starts_witness :
  let started := Commands.main (X_libs := test_libs) (mret tt)
    (scan_command "ledger" (Some "watcher") "auditor.db" 1000 (Some "listen") (Some "admin")
       (Some test_config)) (world_after 3) in
  w_db started.2 = w_db (world_after 3) /\
  started.1 = Ok (Scans (X_libs := test_libs) (Some "listen") (Some "admin") (Some (fun _ => 0)) 1000
                    (Some test_config) (launched (Some test_config) started.2)).
Proof.
  apply (scan_ledger_starts (X_libs := test_libs) "ledger" (Some "watcher") "auditor.db" 1000
    (Some "listen") (Some "admin") (Some test_config));
    [apply world_after_healthy; lia|apply world_after_ready; lia].
Defined.
