(* ===== verification/Lives.v ===== *)
(** * The lives of the auditor

    Commands are run on one database, one after another; the process of [scan-ledger]
    goes on until it ends or is killed, and other commands may be run beside it.  Not
    modelled: a second [scan-ledger] process that goes on while the first one runs (one
    that starts and ends beside it is). *)

From S2P Require Import Prelude Externals Concrete GnosisTypes Errors Schema Database.
From S2P Require Import CountersModel Blocks Mints Burns GnosisConfig GnosisRows AuditedMints.
From S2P Require Import AuditedBurns SyncBlock LedgerSpec LedgerSync SafeSync SafeThread.
From S2P Require Import AuditInvariant Main Faults Handlers SyncLoop SafeSyncSpec Scenario System.
From S2P Require Import Complete CompleteSteps CompleteProps SafeProps ThreadProps Process Server Commands.
Import Process.Process.

Section lives.
Context {X_chrono : Chrono} {X_sqlite : Sqlite} {L_sqlite : SqliteLaws}.
Context {X_hex : Hex} {L_hex : HexLaws} {X_mc : MobileCoin} {L_mc : MobileCoinLaws} {X_url : UrlLib}.
Context {X_hash : HashOrder} {L_hash : HashOrderLaws} {X_json : SerdeJson} {X_http : HttpClient}
  {X_ledger : LedgerDB} {X_libs : CommandLibs}.
Implicit Types (w : World) (d : Db) (config : GnosisSafeConfig) (blocks : list BlockContents).

Context (fuel : nat).                                (* pages of a fetch *)
Context (env : World -> World -> Prop).              (* what happens outside *)
Context (audits : option GnosisSafeConfig -> Prop).  (* the configurations it is run with *)

(** Nothing goes on, or a process of [scan-ledger] with its settings. *)
Inductive machine :=
| Off (w : World)
| Running (poll_ms : Z) (oconfig : option GnosisSafeConfig) (watcher : option WatcherDB) (p : process).

Definition now (s : machine) : World := match s with Off w => w | Running _ _ _ p => world p end.

Inductive live_step : machine -> machine -> Prop :=
| live_command command w : live_step (Off w) (Off (Commands.main (mret tt) command w).2)
| live_start command api admin watcher poll_ms oconfig p w w' :
    Commands.main (mret tt) command w = (Ok (Scans api admin watcher poll_ms oconfig p), w') ->
    audits oconfig -> live_step (Off w) (Running poll_ms oconfig watcher p)
| live_process poll_ms oconfig watcher p p' :
    process_step fuel poll_ms oconfig watcher env p p' ->
    live_step (Running poll_ms oconfig watcher p) (Running poll_ms oconfig watcher p')
| live_beside poll_ms oconfig watcher phase ts w command :
    live_step (Running poll_ms oconfig watcher (mkProcess phase ts w))
      (Running poll_ms oconfig watcher (mkProcess phase ts (Commands.main (mret tt) command w).2))
| live_end poll_ms oconfig watcher p : live_step (Running poll_ms oconfig watcher p) (Off (world p))
| live_outside w w' : env w w' -> live_step (Off w) (Off w').

(** ** Commands leave the record alone *)

(** [m] opens the database, or only reads it. *)
Definition keeps {A} (m : App A) : Prop :=
  forall w, counters_ok (w_db w) -> w_db (m w).2 = w_db w.

Lemma keeps_bind {A B} (m : App A) (k : A -> App B) :
  keeps m -> (forall a, keeps (k a)) -> keeps (m ≫= k).
Proof.
  intros Hm Hk w Hc. specialize (Hm w Hc). unfold mbind, M_bind.
  destruct (m w) as [[a|e|p] w1]; simpl in *; [|done..]. rewrite <- Hm in Hc.
  by rewrite (Hk a w1 Hc).
Qed.
Lemma keeps_same {A} (m : App A) : db_respects eq m -> keeps m.
Proof. intros H w _. symmetry. apply (H w). Qed.

Lemma keeps_open path : keeps (Commands.open_db (mret tt) path).
Proof.
  apply keeps_bind; [apply keeps_same; solve_respects|]. intros _ w Hc. unfold expect.
  pose proof (restart_db w Hc) as H.
  by destruct (ReserveAuditorDb.new_from_path _ w) as [[?|?|?] ?].
Qed.

#[local] Instance eq_on_db : PreOrder (on_db eq).
Proof. apply _. Qed.

Lemma keeps_print oi json : keeps (transaction (Commands.print_audit_data oi json)).
Proof.
  apply keeps_same. unfold Commands.print_audit_data, Commands.print_block,
    BlockAuditData.last_synced_block_index, BlockAuditData.get, BlockBalance.get_balances_for_block.
  solve_respects.
Qed.

Lemma keeps_expect {A} msg (m : App A) : keeps m -> keeps (expect msg m).
Proof. intros H w Hc. specialize (H w Hc). unfold expect. by destruct (m w) as [[?|?|?] ?]. Qed.

#[local] Ltac solve_keeps :=
  repeat first
    [ apply keeps_open | apply keeps_print
    | solve [apply keeps_same; solve_respects]
    | apply keeps_bind; [|intros ?] | apply keeps_expect | case_match ].

Lemma keeps_main command : keeps (Commands.main (mret tt) command).
Proof.
  destruct command; simpl; unfold Commands.cmd_scan_ledger, Commands.cmd_get_block_audit_data,
    Commands.cmd_start_http_server, Commands.option_each, Commands.start_api_server,
    Commands.start_admin_server, Commands.called; solve_keeps.
Qed.

(** Nor do they add faults. *)
Lemma consumes_main command : respects consumes (Commands.main (mret tt) command).
Proof.
  destruct command; simpl; unfold Commands.cmd_scan_ledger, Commands.cmd_get_block_audit_data,
    Commands.cmd_start_http_server, Commands.option_each, Commands.start_api_server,
    Commands.start_admin_server, Commands.called, Commands.open_db, Commands.print_audit_data,
    Commands.print_block, BlockAuditData.last_synced_block_index, BlockAuditData.get,
    BlockBalance.get_balances_for_block;
    repeat first
      [ solve [apply spends_consumes; solve_spends]
      | apply respects_bind; [apply _| |intros ?]
      | apply respects_gets, _ ].
Qed.

(** Only [scan-ledger] starts a process, the one of [Process]. *)
Lemma scans_launched command api admin watcher poll_ms oconfig p0 w w1 :
  Commands.main (mret tt) command w = (Ok (Scans api admin watcher poll_ms oconfig p0), w1) ->
  p0 = launched oconfig w1.
Proof.
  destruct command as [ledger_path watcher_path path poll api' admin' oc|path oi json|path port host oc].
  - destruct (scan_command_runs ledger_path watcher_path path poll api' admin' oc (mret tt) w)
      as (m & m' & E).
    unfold scan_command in E. rewrite E. destruct before_database; [|done].
    destruct (expect _ _ w) as [[[]|e|p] w2]; [|done..]. by destruct after_database; [intros [= <- <- <- <- <- <- <-]|].
  - simpl. unfold mbind, M_bind. by destruct (Commands.cmd_get_block_audit_data _ _ _ _ _) as [[?|?|?] ?].
  - simpl. unfold Commands.cmd_start_http_server, mbind, M_bind. destruct oc as [config|]; [|done]. simpl.
    destruct (Commands.open_db _ _ w) as [[[]|e|p] w2]; [|done..]. simpl.
    unfold lift. by destruct (unwrap _).
Qed.

(** ** Projection to the database *)

(** The process runs with a configuration it may be run with, for its safes. *)
Definition working config (s : machine) : Prop :=
  match s with
  | Off _ => True
  | Running _ oconfig _ p => audits oconfig /\ Forall (follows_safe config) (threads p)
  end.

Section projection.
Context (config : GnosisSafeConfig) (R : World -> World -> Prop) {R_preorder : PreOrder R}.
Context (Haudits : forall o, audits o -> o = None \/ o = Some config).
Context (R_sync : forall oconfig watcher n w,
  audits oconfig -> R w (Main.sync_iteration oconfig watcher n w).2).
Context (R_follow : forall sc tx w,
  sc ∈ gc_safes config -> R w (GnosisSync.process_transaction sc tx w).2).
Context (R_read : forall A (m : App A) P w, query m P -> R w (m w).2).
Context (R_command : forall command w, R w (Commands.main (mret tt) command w).2).
Context (R_env : forall w w', env w w' -> R w w').
Context (R_outside : forall w w', w_db w' = w_db w -> w_faults w' = w_faults w -> R w w').

Lemma rtc_preorder w w' : rtc R w w' -> R w w'.
Proof. induction 1; [reflexivity|by etrans]. Qed.

Lemma live_step_projects s s' :
  working config s -> live_step s s' -> working config s' /\ R (now s) (now s').
Proof.
  intros Hw Hs. destruct Hs as [command w|command api admin watcher poll oconfig p w w' E Ha
    |poll oconfig watcher p p' Hp|poll oconfig watcher phase ts w command|poll oconfig watcher p|w w' He];
    simpl in *.
  - split; [done|apply R_command].
  - pose proof (R_command command w) as H. rewrite E in H. apply scans_launched in E as ->.
    split; [|exact H]. split; [done|]. destruct (Haudits _ Ha) as [-> | ->]; simpl; [constructor|].
    apply Forall_fmap, Forall_forall. by intros sc Hsc.
  - destruct Hw as [Ha Hts].
    destruct (process_step_projects fuel poll oconfig watcher env config R
      (fun n w => R_sync oconfig watcher n w Ha) R_follow R_read R_env R_outside p p' Hts Hp) as [Hts' HR].
    split; [done|by apply rtc_preorder].
  - split; [done|apply R_command].
  - split; [done|reflexivity].
  - split; [done|by apply R_env].
Qed.

Lemma live_steps_project s s' :
  working config s -> rtc live_step s s' -> working config s' /\ R (now s) (now s').
Proof.
  intros Hw Hs. induction Hs as [s|s1 s2 s3 Hs _ IH]; [split; [done|reflexivity]|].
  destruct (live_step_projects _ _ Hw Hs) as [Hw2 HR]. destruct (IH Hw2) as [Hw3 HR'].
  split; [done|by etrans].
Qed.
End projection.

(** ** What lives leave behind *)

(** Every call only adds to the tables. *)
#[local] Ltac evolves_step := first [respects_step | apply respects_inc; apply _ | apply respects_get; apply _].

Lemma evolves_restart : db_respects evolves (ReserveAuditorDb.new_from_path (mret tt)).
Proof.
  unfold ReserveAuditorDb.new_from_path. repeat first [respects_step | apply respects_ensure_exists; apply _].
Qed.

Lemma evolves_lookup idx tx : db_respects evolves (ReserveAuditorDb.lookup_mint_config idx tx).
Proof.
  unfold ReserveAuditorDb.lookup_mint_config, MintConfigTx.most_recent_for_token,
    MintConfigTx.get_total_minted_before_block, MintConfig.get_by_mint_config_tx_id.
  assert (forall cs, db_respects evolves (ReserveAuditorDb.find_mint_config idx tx cs)) as Hf.
  { induction cs as [|c cs IH]; simpl; [solve_respects|].
    unfold MintConfig.get_total_minted_before_block. repeat first [apply IH | respects_step]. }
  repeat first [apply Hf | respects_step].
Qed.

Lemma evolves_sync_block idx c ts : db_respects evolves (ReserveAuditorDb.sync_block_with_conn idx c ts).
Proof.
  unfold ReserveAuditorDb.sync_block_with_conn, ReserveAuditorDb.sync_block_body,
    ReserveAuditorDb.process_mint, ReserveAuditorDb.process_burn,
    MintConfigTx.insert_from_core_mint_config_tx, MintConfigTx.insert, MintConfig.insert_from_core_mint_config,
    MintConfig.insert, MintTx.insert_from_core_mint_tx, MintTx.insert, BurnTxOut.insert,
    BlockAuditData.set, BlockBalance.set_balances_for_block, BlockBalance.get_balances_for_block.
  repeat first [apply evolves_lookup | evolves_step].
Qed.

Lemma evolves_sync_iteration oconfig watcher n : db_respects evolves (Main.sync_iteration oconfig watcher n).
Proof.
  unfold Main.sync_iteration, Main.sync_and_audit, Main.audit_block_data,
    AuditedMint.try_match_mint_with_deposit, AuditedMint.match_mint_result, AuditedMint.match_mint_body,
    AuditedMint.existing_match, AuditedMint.associate_deposit_with_mint,
    GnosisSafeDeposit.find_unaudited_deposit_by_nonce, AuditedBurn.try_match_burn_with_withdrawal,
    AuditedBurn.match_burn_result, AuditedBurn.match_burn_body, AuditedBurn.existing_match,
    AuditedBurn.associate_withdrawal_with_burn,
    GnosisSafeWithdrawal.find_unaudited_withdrawal_by_public_key, BlockAuditData.last_synced_block_index.
  repeat first [apply evolves_sync_block | evolves_step].
Qed.

Lemma evolves_follow sc tx : db_respects evolves (GnosisSync.process_transaction sc tx).
Proof.
  apply transaction_respects; [apply _..|intros; apply respects_transfer|intros; apply respects_multi_sig].
Qed.

Lemma evolves_main command : db_respects evolves (Commands.main (mret tt) command).
Proof.
  destruct command; simpl; unfold Commands.cmd_scan_ledger, Commands.cmd_get_block_audit_data,
    Commands.cmd_start_http_server, Commands.option_each, Commands.start_api_server,
    Commands.start_admin_server, Commands.called, Commands.open_db, Commands.print_audit_data,
    Commands.print_block, BlockAuditData.last_synced_block_index, BlockAuditData.get,
    BlockBalance.get_balances_for_block;
    repeat first
      [ apply evolves_restart | apply respects_expect; [apply _|] | respects_step ].
Qed.

Lemma lives_evolve config s s' :
  (forall o, audits o -> o = None \/ o = Some config) -> (forall w1 w2, env w1 w2 -> w_db w2 = w_db w1) ->
  working config s -> rtc live_step s s' -> evolves (w_db (now s)) (w_db (now s')).
Proof.
  intros Ha Henv Hw Hs. change (on_db evolves (now s) (now s')).
  assert (forall w w', w_db w' = w_db w -> on_db evolves w w') as Hsame.
  { intros w1 w2 E. unfold on_db. rewrite E. reflexivity. }
  eapply (live_steps_project config (on_db evolves)); [exact Ha|..|exact Hw|exact Hs].
  - intros o watcher n w _. apply evolves_sync_iteration.
  - intros sc tx w _. apply evolves_follow.
  - intros A m P w Hq. apply Hsame. by eapply query_db.
  - intros command w. apply evolves_main.
  - intros w1 w2 He. by apply Hsame, Henv.
  - intros w1 w2 E _. by apply Hsame.
Qed.

Lemma lives_working config s s' :
  (forall o, audits o -> o = None \/ o = Some config) -> working config s -> rtc live_step s s' ->
  working config s'.
Proof.
  intros Ha Hw Hs. assert (PreOrder (fun _ _ : World => True)) by (split; red; done).
  destruct (live_steps_project config (fun _ _ => True)) with (s := s) (s' := s'); auto.
Qed.

(** Whatever fails, the database stays the record of some first blocks, and of more. *)
Definition advances config blocks w w' : Prop := forall k,
  at_block config blocks k w -> exists k', (k <= k')%nat /\ at_block config blocks k' w'.

#[local] Instance advances_preorder config blocks : PreOrder (advances config blocks).
Proof.
  split; [intros w k Hk; by exists k|]. intros w1 w2 w3 H1 H2 k (k1 & Hk1 & Hat)%H1.
  destruct (H2 k1 Hat) as (k2 & Hk2 & Hat2). exists k2. split; [lia|done].
Qed.

Lemma lives_advance config blocks s s' :
  serves blocks -> Z.of_nat (length blocks) < two63 ->
  (forall o, audits o -> o = None \/ o = Some config) -> (forall w1 w2, env w1 w2 -> w_db w2 = w_db w1) ->
  working config s -> rtc live_step s s' -> advances config blocks (now s) (now s').
Proof.
  intros Hserve Hl Ha Henv Hw Hs.
  assert (forall w w', w_db w' = w_db w -> advances config blocks w w') as Hsame.
  { intros w1 w2 E k Hk. exists k. split; [done|]. unfold at_block. by rewrite E. }
  assert (forall w w', system_step config w w' -> advances config blocks w w') as Hstep.
  { intros w1 w2 Hst k Hk. by eapply system_step_at_block. }
  eapply (live_steps_project config (advances config blocks)); [exact Ha|..|exact Hw|exact Hs].
  - intros o watcher n w Ho. apply Hstep, system_sync, Ha, Ho.
  - intros sc tx w Hsc. by apply Hstep, system_follow.
  - intros A m P w Hq. by eapply Hstep, system_read.
  - intros command w k Hk. apply (Hsame w); [|done]. apply keeps_main, (ai_ready _ _ (proj1 (proj2 Hk))).
  - intros w1 w2 He. by apply Hsame, Henv.
  - intros w1 w2 E _. by apply Hsame.
Qed.

(** While nothing fails, what matches is audited. *)
Definition stays_good config w w' : Prop := good config w -> good config w'.
#[local] Instance stays_good_preorder config : PreOrder (stays_good config).
Proof. split; [intros w H; exact H|]. intros w1 w2 w3 H1 H2 H. by apply H2, H1. Qed.

Lemma lives_good config s s' :
  distinct_safes config -> (forall o, audits o -> o = Some config) ->
  (forall w1 w2, env w1 w2 -> w_db w2 = w_db w1 /\ w_faults w2 = w_faults w1) ->
  working config s -> rtc live_step s s' -> stays_good config (now s) (now s').
Proof.
  intros Hds Ha Henv Hw Hs.
  assert (forall w w', quiet_step config w w' -> stays_good config w w') as Hstep.
  { intros w1 w2 Hst Hg. by eapply quiet_step_good. }
  eapply (live_steps_project config (stays_good config)); [auto|..|exact Hw|exact Hs].
  - intros o watcher n w ->%Ha. apply Hstep, quiet_sync.
  - intros sc tx w Hsc. by apply Hstep, quiet_follow.
  - intros A m P w Hq. by eapply Hstep, quiet_read.
  - intros command w Hg. apply (good_consumes config w); [apply consumes_main| |done].
    apply keeps_main, (ai_ready _ _ (proj1 (proj2 Hg))).
  - intros w1 w2 [Hd Hf]%Henv. by apply Hstep, quiet_environment.
  - intros w1 w2 Hd Hf. by apply Hstep, quiet_environment.
Qed.
End lives.
