(* ===== verification/Answers.v ===== *)
(** * From the command line to the browser

    While the auditor lives one of the lives of [Lives], an HTTP server answers requests,
    statement by statement as in [Requests].  This file puts the parts together: what is
    answered, in terms of the ledger and of what really matches. *)

From S2P Require Import Prelude Externals Concrete GnosisTypes Errors Schema Database.
From S2P Require Import CountersModel Blocks Mints Burns GnosisConfig GnosisRows AuditedMints.
From S2P Require Import AuditedBurns SyncBlock LedgerSpec LedgerSync SafeSync SafeThread.
From S2P Require Import AuditInvariant Main Faults Handlers SyncLoop SafeSyncSpec Scenario System.
From S2P Require Import Complete CompleteSteps CompleteProps ThreadProps Process Http ApiProps Server.
From S2P Require Import Requests Commands Lives.
Import Process.Process.

(** ** Requests of several statements *)
Section several.
Context {X_chrono : Chrono} {X_sqlite : Sqlite} {L_sqlite : SqliteLaws}.
Context {X_hex : Hex} {X_mc : MobileCoin} {L_mc : MobileCoinLaws} {X_url : UrlLib}.
Context {S : Type} (step : S -> S -> Prop) (db : S -> Db).
Implicit Types (conf : GnosisSafeConfig).
Abbreviation served := (served step db).

(** The database is the record of some first blocks of a ledger, and of more and more. *)
Definition recorded (seen : list BlockContents) d : Prop :=
  mirrors seen d /\ integrity d /\ typed_balances d.
Context (blocks : list BlockContents) (at_block : nat -> S -> Prop).
Context (blocks_few : Z.of_nat (length blocks) < two63).
Context (at_recorded : forall k x, at_block k x -> (k <= length blocks)%nat /\ recorded (take k blocks) (db x)).
Context (at_steps : forall k x y, at_block k x -> rtc step x y -> exists k', (k <= k')%nat /\ at_block k' y).

Lemma at_length k x : at_block k x -> length (take k blocks) = k /\ (k <= length blocks)%nat.
Proof. intros [Hk _]%at_recorded. split; [by rewrite length_take_le|done]. Qed.

(** A call that one statement answers, on the record of that moment. *)
Lemma at_query {A} {m : App A} (Hm : Reading m) k s r s' :
  once (program Hm) -> at_block k s -> served (program Hm) s r s' ->
  exists x k1, rtc step s x /\ rtc step x s' /\ (k <= k1)%nat /\ at_block k1 x /\
    forall P, query m P -> P (db x) r.
Proof.
  intros Ho Hk (x & H1 & H2 & H)%served_query; [|done]. destruct (at_steps _ _ _ Hk H1) as (k1 & Hk1 & Hat).
  by exists x, k1.
Qed.

Lemma at_later {E A} (p : Read E A) k s r s' :
  at_block k s -> served p s r s' -> exists k', (k <= k')%nat /\ at_block k' s'.
Proof. intros Hk H%served_steps. by eapply at_steps. Qed.

Lemma balances_served i k s r s' :
  at_block k s -> (i < k)%nat -> served (program (reading_balances (Z.of_nat i))) s r s' ->
  r = Ok (ledger_balances (take (Datatypes.S i) blocks)).
Proof.
  intros Hk Hi (x & k1 & _ & _ & Hk1 & Hat & H)%(at_query _ k); [|by right; intros [?|?|?]|done].
  destruct (at_length _ _ Hat) as [E _]. apply at_recorded in Hat as (_ & Hm & Hd & Ht).
  rewrite (H _ (query_balances_at (Z.of_nat i))) by (done || apply Hd). rewrite (mir_balances _ _ Hm) by lia.
  by rewrite take_take, Nat.min_l by lia.
Qed.

Lemma audit_data_served i k s r s' :
  at_block k s -> Z.of_nat i < two63 -> served (program (reading_audit_data (Z.of_nat i))) s r s' ->
  exists x k1, rtc step s x /\ rtc step x s' /\ (k <= k1)%nat /\ at_block k1 x /\
    r = if Nat.ltb i k1 then Ok (mkBlockAuditData (Z.of_nat i)) else Err NotFound.
Proof.
  intros Hk Hi (x & k1 & H1 & H2 & Hk1 & Hat & H)%(at_query _ k); [|by right; intros [?|?|?]|done].
  exists x, k1. split_and!; [done..|]. destruct (at_length _ _ Hat) as [E Hl].
  apply at_recorded in Hat as (_ & Hm & _ & _).
  rewrite (H _ (query_get_block (take k1 blocks) i)) by (done || lia). by rewrite E.
Qed.

(** The balances of a block that has been found. *)
Lemma found_balances_served i k s r s' :
  let block_audit_data := mkBlockAuditData (Z.of_nat i) in
  at_block k s -> (i < k)%nat ->
  served (program (reading_bind (reading_balances (BlockAuditData.block_index block_audit_data))
    (fun balances => reading_ret (BlockAuditDataResponse_new block_audit_data balances)))) s r s' ->
  r = block_answer (take k blocks) i.
Proof.
  intros b Hk Hi (r1 & s1 & H1 & H2)%served_bind. destruct (at_length _ _ Hk) as [El Hl].
  assert (BlockAuditData.block_index b = Z.of_nat i) as E by (apply as_u64_small; unfold is_u64; lia).
  rewrite E in H1. rewrite (balances_served i k _ _ _ Hk Hi H1) in H2. destruct H2 as [-> _].
  unfold block_answer. rewrite El, (proj2 (Nat.ltb_lt _ _)) by done.
  unfold BlockAuditDataResponse_new. by rewrite E, take_take, Nat.min_l by lia.
Qed.

Lemma block_answer_later i k k' :
  (i < k)%nat -> (k <= k' <= length blocks)%nat ->
  block_answer (take k' blocks) i = block_answer (take k blocks) i.
Proof.
  intros Hi Hk. unfold block_answer. rewrite !length_take_le, !(proj2 (Nat.ltb_lt _ _)) by lia.
  by rewrite !take_take, !Nat.min_l by lia.
Qed.

Lemma block_served i k s r s' :
  at_block k s -> Z.of_nat i < two63 -> served (program (reading_block (Z.of_nat i))) s r s' ->
  exists x k1, rtc step s x /\ rtc step x s' /\ (k <= k1)%nat /\ at_block k1 x /\
    r = block_answer (take k1 blocks) i.
Proof.
  intros Hk Hi (r1 & s1 & H1 & H2)%served_conn%served_bind.
  destruct (audit_data_served i k s r1 s1 Hk Hi H1) as (x & k1 & Hx1 & Hx2 & Hk1 & Hat & ->).
  destruct (at_length _ _ Hat) as [El Hl]. exists x, k1.
  split; [done|]. split; [etrans; [exact Hx2|by eapply served_steps]|]. split_and!; [done..|].
  destruct (Nat.ltb_spec i k1) as [Hlt|Hge].
  - destruct (at_steps _ _ _ Hat Hx2) as (k2 & Hk2 & Hat2). pose proof (at_length _ _ Hat2) as [_ Hl2].
    rewrite <- (block_answer_later i k1 k2) by lia.
    by apply (found_balances_served i k2 s1 r s'); [|lia|].
  - destruct H2 as [-> _]. unfold block_answer. rewrite El. by destruct (Nat.ltb_spec i k1); [lia|].
Qed.

Lemma last_data_served k s r s' :
  at_block k s -> served (program reading_last_audit_data) s r s' ->
  exists x k1, rtc step s x /\ rtc step x s' /\ (k <= k1)%nat /\ at_block k1 x /\
    r = Ok (match k1 with O => None | Datatypes.S i => Some (mkBlockAuditData (Z.of_nat i)) end).
Proof.
  intros Hk (r1 & s1 & H1 & H2)%served_bind.
  apply (at_query _ k) in H1 as (x & k1 & Hx1 & Hx2 & Hk1 & Hat & Hr); [|by right; intros [[]|?|?]|done].
  destruct (at_length _ _ Hat) as [El Hl]. pose proof (at_recorded _ _ Hat) as (_ & Hm & _ & _).
  pose proof (Hr _ query_last_synced (take k1 blocks) Hm) as E. rewrite El in E. rewrite E in H2 by lia.
  exists x, k1. split; [done|]. split; [etrans; [exact Hx2|by eapply served_steps]|]. split_and!; [done..|].
  destruct k1 as [|i]; [by destruct H2 as [-> _]|].
  destruct (at_steps _ _ _ Hat Hx2) as (k2 & Hk2 & Hat2).
  change (served (program (reading_bind (reading_audit_data (Z.of_nat i))
    (fun r => reading_ret (Some r)))) s1 r s') in H2.
  apply served_bind in H2 as (r2 & s2 & H2 & H3).
  apply (audit_data_served i k2) in H2 as (x3 & k3 & _ & _ & Hk3 & _ & ->); [|done|lia].
  rewrite (proj2 (Nat.ltb_lt _ _)) in H3 by lia. by destruct H3 as [-> _].
Qed.

Lemma last_served k s r s' :
  at_block k s -> served (program reading_last_block) s r s' ->
  exists x k1, rtc step s x /\ rtc step x s' /\ (k <= k1)%nat /\ at_block k1 x /\
    r = last_answer (take k1 blocks).
Proof.
  intros Hk (r1 & s1 & H1 & H2)%served_conn%served_bind.
  destruct (last_data_served k s r1 s1 Hk H1) as (x & k1 & Hx1 & Hx2 & Hk1 & Hat & ->).
  destruct (at_length _ _ Hat) as [El Hl]. exists x, k1.
  split; [done|]. split; [etrans; [exact Hx2|by eapply served_steps]|]. split_and!; [done..|].
  unfold last_answer. rewrite El. destruct (at_steps _ _ _ Hat Hx2) as (k2 & Hk2 & Hat2).
  destruct (at_length _ _ Hat2) as [El2 Hl2]. destruct k1 as [|i]; [by destruct H2 as [-> _]|].
  rewrite <- (block_answer_later i (Datatypes.S i) k2) by lia.
  apply (found_balances_served i k2 s1 r s'); [done|lia|exact H2].
Qed.

(** The totals of a token are read on two connections: what was minted until one moment,
    and what was burned until a later one. *)
Lemma total_served {m : App (list (Z * Z))} (Hm : Reading m) (total : list BlockContents -> Z) k s r s' :
  query m (fun d r => exists l, r = Ok l /\ forall seen, mirrors seen d -> sum (snd <$> l) = total seen) ->
  once (program Hm) -> at_block k s -> (forall seen, 0 <= total seen) ->
  served (program (reading_bind reading_get_conn (fun _ => reading_bind Hm
    (fun l => reading_ret (ReserveAuditorHttpService.sum_u128 (snd <$> l)))))) s r s' ->
  exists x k1, rtc step s x /\ rtc step x s' /\ (k <= k1)%nat /\ at_block k1 x /\
    exists v, r = Ok v /\ (total (take k1 blocks) < two128 -> v = total (take k1 blocks)).
Proof.
  intros Hq Ho Hk Hpos (r1 & s1 & H1 & H2)%served_conn%served_bind.
  apply (at_query _ k) in H1 as (x & k1 & Hx1 & Hx2 & Hk1 & Hat & Hr); [|done..].
  destruct (Hr _ Hq) as (l & -> & Hl). destruct H2 as [-> H2]. exists x, k1.
  split_and!; [done|by etrans|done|done|]. eexists. split; [done|]. intros Hlt.
  rewrite sum_u128_mod, (Hl (take k1 blocks)).
  - by rewrite Z.mod_small by (specialize (Hpos (take k1 blocks)); lia).
  - apply (at_recorded _ _ Hat).
Qed.

Lemma minted_nonneg token seen : 0 <= ledger_total_minted token seen.
Proof.
  apply total_nonneg, Forall_bind, Forall_true. intros c. eapply Forall_impl; [apply mint_amounts_u64|].
  unfold is_u64. simpl. lia.
Qed.
Lemma burned_nonneg token seen : 0 <= ledger_total_burned token seen.
Proof.
  apply total_nonneg, Forall_bind, Forall_true. intros c. eapply Forall_impl; [apply burn_amounts_u64|].
  unfold is_u64. simpl. lia.
Qed.

(** The answer with the totals of a token. *)
Definition balance_answer token symbol (minted burned : list BlockContents) : LedgerBalanceResponse :=
  mkLedgerBalanceResponse (pretty (ledger_total_minted token minted))
    (pretty (ledger_total_burned token burned)) (mkTokenType token symbol).

Lemma balance_served conf token_id k s r s' :
  let token := default 0 token_id in
  at_block k s -> is_u64 token -> served (program (reading_ledger_balance conf token_id)) s r s' ->
  exists x x' k1 k2, rtc step s x /\ rtc step x x' /\ rtc step x' s' /\ (k1 <= k2)%nat /\
    at_block k1 x /\ at_block k2 x' /\ forall symbol,
      ReserveAuditorHttpService.get_token_symbol conf token = Ok symbol ->
      ledger_total_minted token (take k1 blocks) < two128 ->
      ledger_total_burned token (take k2 blocks) < two128 ->
      r = Ok (balance_answer token symbol (take k1 blocks) (take k2 blocks)).
Proof.
  intros token Hk Ht (r1 & s1 & (t1 & H1 & ->)%served_with_err & H)%served_bind.
  apply (total_served _ (ledger_total_minted token) k) in H1
    as (x & k1 & Hx1 & Hx2 & Hk1 & Hat1 & v1 & -> & Hv1);
    [|by apply query_mint_amounts|by right; intros [?|?|?]|done|apply minted_nonneg].
  destruct (at_steps _ _ _ Hat1 Hx2) as (k1' & Hk1' & Hs1).
  apply served_bind in H as (r2 & s2 & (t2 & H2 & ->)%served_with_err & H).
  apply (total_served _ (ledger_total_burned token) k1') in H2
    as (x' & k2 & Hx1' & Hx2' & Hk2 & Hat2 & v2 & -> & Hv2);
    [|by apply query_burn_amounts|by right; intros [?|?|?]|done|apply burned_nonneg].
  exists x, x', k1, k2. split; [done|]. split; [by etrans|].
  split; [etrans; [exact Hx2'|by eapply served_steps]|]. split; [lia|]. split_and!; [done..|].
  intros symbol Es Hm Hb. rewrite (Hv1 Hm), (Hv2 Hb) in H.
  apply served_bind in H as (r3 & s3 & (t3 & [-> H3] & ->)%served_with_err & H).
  fold token in H. rewrite Es in H. by destruct H as [-> _].
Qed.
End several.

(** ** What is true of the ledger *)
Section truth.
Context {X_chrono : Chrono} {X_sqlite : Sqlite} {L_sqlite : SqliteLaws}.
Context {X_hex : Hex} {L_hex : HexLaws} {X_mc : MobileCoin} {L_mc : MobileCoinLaws} {X_url : UrlLib}.
Implicit Types (w : World) (d : Db) (config conf : GnosisSafeConfig) (seen later : list BlockContents).

Lemma page_sublist {A} offset limit (l : list A) :
  AuditedMint.sql_limit limit (AuditedMint.sql_offset offset l) `sublist_of` l.
Proof.
  etrans; [|instantiate (1 := AuditedMint.sql_offset offset l)].
  - unfold AuditedMint.sql_limit. destruct limit; [|done]. case_match; [done|apply sublist_take].
  - unfold AuditedMint.sql_offset. destruct offset; [apply sublist_drop|done].
Qed.

(** A page of a list of audits names nothing twice. *)
Lemma page_distinct {A B C X} (id : X -> option Z) (proj : A * B * C -> X) (f : A -> Z)
    (stored : list A) (l page : list (A * B * C)) :
  page `sublist_of` l -> ((fun x => x.1.1) <$> l) ≡ₚ stored ->
  (forall x, x ∈ l -> id (proj x) = Some (f x.1.1)) -> NoDup (f <$> stored) -> NoDup (proj <$> page).
Proof.
  intros Hp Hs Hid Hn. apply (NoDup_fmap_1 id).
  assert (id <$> (proj <$> page) = Some <$> (f <$> ((fun x => x.1.1) <$> page))) as ->.
  { rewrite <- !list_fmap_compose. apply list_fmap_ext. intros i x Hx. simpl.
    apply Hid. eapply elem_of_submseteq; [by eapply list_elem_of_lookup_2|by apply sublist_submseteq]. }
  apply NoDup_fmap_2; [apply _|]. eapply sublist_NoDup; [|by apply fmap_sublist, fmap_sublist].
  by rewrite Hs.
Qed.

Lemma audit_page {A B C} (idB : B -> option Z) (idC : C -> option Z) (f g : A -> Z) key names
    (stored : list A) (l : list (A * B * C)) offset limit :
  audit_list key names stored l ->
  (forall x, names x -> idB x.1.2 = Some (f x.1.1) /\ idC x.2 = Some (g x.1.1)) ->
  NoDup (f <$> stored) -> NoDup (g <$> stored) ->
  let page := AuditedMint.sql_limit limit (AuditedMint.sql_offset offset l) in
  NoDup ((fun x => x.1.2) <$> page) /\ NoDup ((fun x => x.2) <$> page) /\
  forall x, x ∈ page -> names x /\ x.1.1 ∈ stored.
Proof.
  intros (Hrows & _ & Hnames) Hid Hf Hg page. split; [|split].
  - eapply (page_distinct idB (fun x => x.1.2) f); [apply page_sublist|exact Hrows| |done].
    intros x Hx. apply (Hid x), Hnames, Hx.
  - eapply (page_distinct idC (fun x => x.2) g); [apply page_sublist|exact Hrows| |done].
    intros x Hx. apply (Hid x), Hnames, Hx.
  - intros x Hx. assert (x ∈ l) as Hxl.
    { eapply elem_of_submseteq; [exact Hx|apply sublist_submseteq, page_sublist]. }
    split; [by apply Hnames|]. rewrite <- Hrows. by apply (list_elem_of_fmap_2 (fun x => x.1.1)).
Qed.

(** A page of audits: pairs that really match, none twice, their ledger side seen. *)
Record mint_page config seen d (l : list AuditedMintResponse) : Prop := {
  mp_mints : NoDup (amr_mint <$> l);
  mp_deposits : NoDup (amr_deposit <$> l);
  mp_pairs r : r ∈ l -> mint_entry (amr_mint r) ∈ ledger_entries block_mints seen /\
    amr_deposit r ∈ rows d /\
    exists sc, sc ∈ gc_safes config /\ mint_matches sc (amr_mint r) (amr_deposit r);
}.
Record burn_page config seen d (l : list AuditedBurnResponse) : Prop := {
  bp_burns : NoDup (abr_burn <$> l);
  bp_withdrawals : NoDup (abr_withdrawal <$> l);
  bp_pairs r : r ∈ l -> burn_entry (abr_burn r) ∈ ledger_entries block_burns seen /\
    abr_withdrawal r ∈ rows d /\
    exists sc, sc ∈ gc_safes config /\ burn_matches sc (abr_burn r) (abr_withdrawal r);
}.

(** An offset without a limit does not parse. *)
Definition offset_error : string := Error_display (DieselErr
  (Diesel.DatabaseError (Diesel.OtherKind "Unknown") (syntax_error_message "OFFSET"))).
Definition paged {A} (P : list A -> Prop) (body : list A -> Body) (offset limit : option Z)
    (r : Res string Body) : Prop :=
  match offset, limit with
  | Some _, None => r = Err offset_error
  | _, _ => exists l, r = Ok (body l) /\ P l
  end.

(** What a server with configuration [conf] answers a call when the auditor, with
    [config], has seen the blocks [seen] and its database is [d]; [later] is what it has
    seen when a second total is read. *)
Definition truthful config conf seen later d (c : Call) (r : Res string Body) : Prop :=
  match c with
  | GetCounters => exists x, r = Ok (CountersBody x) /\
      counter_get num_blocks_synced x = Z.of_nat (length seen)
  | GetBlockAuditData j => forall i, j = Z.of_nat i -> j < two63 ->
      r = shown BlockAuditDataBody (block_answer seen i)
  | GetLastBlockAuditData => r = shown BlockAuditDataBody (last_answer seen)
  | GetBurnsForBlock j => forall i, j = Z.of_nat i -> j < two63 ->
      exists bs, r = Ok (BurnInfoBody ((fun b =>
          mkBurnInfoResponse b (ReserveAuditorHttpService.decoded_burn_memo_bytes b)) <$> bs)) /\
        burn_entry <$> bs ≡ₚ match seen !! i with Some c => block_burns i c | None => [] end
  | GetLedgerBalance token_id => forall symbol, let token := default 0 token_id in
      is_u64 token -> ReserveAuditorHttpService.get_token_symbol conf token = Ok symbol ->
      ledger_total_minted token seen < two128 -> ledger_total_burned token later < two128 ->
      r = Ok (LedgerBalanceBody (balance_answer token symbol seen later))
  | GetAuditedMints offset limit => paged (mint_page config seen d) AuditedMintsBody offset limit r
  | GetAuditedBurns offset limit => paged (burn_page config seen d) AuditedBurnsBody offset limit r
  | _ => True
  end.

Lemma mint_page_true config seen d l offset limit :
  audit_inv config d -> mirrors seen d ->
  audit_list (fun x => default 0 (am_id x.1.1)) (names_pair d) (rows d) l ->
  mint_page config seen d ((fun x => mkAuditedMintResponse x.1.1 x.1.2 x.2) <$>
    AuditedMint.sql_limit limit (AuditedMint.sql_offset offset l)).
Proof.
  intros Hi Hm Hl. pose proof (ai_ready _ _ Hi) as (Hd & _ & _). destruct (ai_mints_once _ _ Hi) as [H1 H2].
  destruct (audit_page mt_id gsd_id am_mint_tx_id am_gnosis_safe_deposit_id _ _ _ l offset limit Hl) as (N1 & N2 & Hx);
    [by intros x (_ & _ & ?)|done|done|].
  split; [by rewrite <- list_fmap_compose..|].
  intros r (x & -> & [(Hb & Hc & Eb & Ec) Ha]%Hx)%list_elem_of_fmap. simpl.
  split; [rewrite <- (mir_mints _ _ Hm); by apply list_elem_of_fmap_2|]. split; [done|].
  destruct (ai_mints _ _ Hi _ Ha) as (b & c & sc & Hb' & Hc' & Hsc & Eb' & Ec' & Hmatch).
  exists sc. split; [done|].
  assert (b = x.1.2) as <- by (apply (stored_unique d); [apply Hd|done..|]; simpl; congruence).
  assert (c = x.2) as <- by (apply (stored_unique d); [apply Hd|done..|]; simpl; congruence).
  done.
Qed.

Lemma burn_page_true config seen d l offset limit :
  audit_inv config d -> mirrors seen d ->
  audit_list (fun x => default 0 (ab_id x.1.1)) (names_burn_pair d) (rows d) l ->
  burn_page config seen d ((fun x => mkAuditedBurnResponse x.1.1 x.1.2 x.2
      (ReserveAuditorHttpService.decoded_burn_memo_bytes x.1.2)) <$>
    AuditedMint.sql_limit limit (AuditedMint.sql_offset offset l)).
Proof.
  intros Hi Hm Hl. pose proof (ai_ready _ _ Hi) as (Hd & _ & _). destruct (ai_burns_once _ _ Hi) as [H1 H2].
  destruct (audit_page bto_id gsw_id ab_burn_tx_out_id ab_gnosis_safe_withdrawal_id _ _ _ l offset limit Hl) as (N1 & N2 & Hx);
    [by intros x (_ & _ & ?)|done|done|].
  split; [by rewrite <- list_fmap_compose..|].
  intros r (x & -> & [(Hb & Hc & Eb & Ec) Ha]%Hx)%list_elem_of_fmap. simpl.
  split; [rewrite <- (mir_burns _ _ Hm); by apply list_elem_of_fmap_2|]. split; [done|].
  destruct (ai_burns _ _ Hi _ Ha) as (b & c & sc & Hb' & Hc' & Hsc & Eb' & Ec' & Hmatch).
  exists sc. split; [done|].
  assert (b = x.1.2) as <- by (apply (stored_unique d); [apply Hd|done..|]; simpl; congruence).
  assert (c = x.2) as <- by (apply (stored_unique d); [apply Hd|done..|]; simpl; congruence).
  done.
Qed.

Lemma paged_answer {A B} (P : list B -> Prop) (body : list B -> Body) (f : A -> B) l offset limit :
  P (f <$> AuditedMint.sql_limit limit (AuditedMint.sql_offset offset l)) ->
  paged P body offset limit (shown body (page_answer f l offset limit)).
Proof. intros H. destruct offset, limit; [by eexists|done|by eexists..]. Qed.

Lemma counters_answered seen w :
  healthy w -> counters_ok (w_db w) -> mirrors seen (w_db w) -> Z.of_nat (length seen) < two63 ->
  exists x, (ReserveAuditorHttpService.get_counters w).1 = Ok x /\
    counter_get num_blocks_synced x = Z.of_nat (length seen).
Proof.
  intros Hh [c Hrow] Hm Hl. change (wp ReserveAuditorHttpService.get_counters (fun r _ => exists x,
    r = Ok x /\ counter_get num_blocks_synced x = Z.of_nat (length seen)) w).
  eapply wp_conn_query; [done|apply query_get|]. intros r w' _ (x & -> & Hx). exists x. split; [done|].
  rewrite (Hx c Hrow). pose proof (mir_count _ _ Hm) as E. unfold counter_value in E.
  rewrite (proj1 Hrow) in E. unfold counter_get. rewrite E. apply as_u64_small. unfold is_u64. lia.
Qed.

(** A request that one statement answers. *)
Lemma single_truthful config conf seen later w c :
  single c = true -> healthy w -> audit_inv config (w_db w) -> mirrors seen (w_db w) ->
  Z.of_nat (length seen) < two63 ->
  truthful config conf seen later (w_db w) c (Server.handle conf c w).1.
Proof.
  intros Hc Hh Hi Hm Hl. pose proof (ai_ready _ _ Hi) as (Hd & _ & Hcs).
  destruct c as [| | |i| |offset limit| |offset limit| |t| |i|i| |]; try done; simpl;
    unfold Routes.get_counters, Routes.get_audited_mints, Routes.get_audited_burns,
      Routes.get_burns_for_block; rewrite ?answer_shown.
  - destruct (counters_answered seen w) as (x & -> & Hx); [done..|]. by exists x.
  - destruct (audited_mints_pages w Hh Hd) as (l & Hlist & ->). apply paged_answer. by apply mint_page_true.
  - destruct (audited_burns_pages w Hh Hd) as (l & Hlist & ->). apply paged_answer. by apply burn_page_true.
  - intros j -> Hj. destruct (burns_for_block_served seen j w Hh Hm Hl Hj) as (bs & -> & Hbs & _). by exists bs.
Qed.
End truth.

(** ** Answers beside the auditor *)
Section lives.
Context {X_chrono : Chrono} {X_sqlite : Sqlite} {L_sqlite : SqliteLaws}.
Context {X_hex : Hex} {L_hex : HexLaws} {X_mc : MobileCoin} {L_mc : MobileCoinLaws} {X_url : UrlLib}.
Context {X_hash : HashOrder} {L_hash : HashOrderLaws} {X_json : SerdeJson} {X_http : HttpClient}
  {X_ledger : LedgerDB} {X_libs : CommandLibs}.
Implicit Types (w : World) (d : Db) (config conf : GnosisSafeConfig) (blocks : list BlockContents).
Context (fuel : nat) (env : World -> World -> Prop) (audits : option GnosisSafeConfig -> Prop).
Abbreviation lives := (rtc (live_step fuel env audits)).

Definition db_now (s : machine) : Db := w_db (now s).
(** A request that arrives when the auditor is at [s] and is answered by [s']. *)
Definition answered conf (c : Call) (s : machine) (r : Res string Body) (s' : machine) : Prop :=
  served (live_step fuel env audits) db_now (request conf c) s r s'.

(** Asked when nothing else happens, it is the handler's answer. *)
Lemma answered_now conf c s : answered conf c s (Server.handle conf c (calm (now s))).1 s.
Proof. rewrite request_eval by done. apply (served_now _ db_now). Qed.

Definition seen_blocks config blocks k (s : machine) : Prop :=
  working audits config s /\ at_block config blocks k (now s).

Section truthful.
Context config blocks (Hserve : serves blocks) (Hl : Z.of_nat (length blocks) < two63).
Context (Haudits : forall o, audits o -> o = None \/ o = Some config).
Context (Henv : forall w1 w2, env w1 w2 -> w_db w2 = w_db w1).

Lemma seen_steps k s s' : seen_blocks config blocks k s -> lives s s' ->
  exists k', (k <= k')%nat /\ seen_blocks config blocks k' s'.
Proof.
  intros [Hw Hk] Hs.
  destruct (lives_advance fuel env audits config blocks s s' Hserve Hl Haudits Henv Hw Hs k Hk) as (k' & Hkk & Hk').
  exists k'. split; [done|]. split; [|done].
  by eapply lives_working.
Qed.

Lemma seen_recorded k s : seen_blocks config blocks k s ->
  (k <= length blocks)%nat /\ recorded (take k blocks) (db_now s).
Proof.
  intros (_ & Hk & Hi & Hm). split; [done|]. split; [done|]. split; [apply (ai_ready _ _ Hi)|apply Hi].
Qed.

Lemma initially_seen w : w_db w = initial_db -> seen_blocks config blocks 0 (Off w).
Proof.
  intros Hw. split; [done|]. split; [lia|]. simpl. rewrite Hw. split; [apply initial_inv|apply initial_mirrors].
Qed.

Lemma single_answered_true conf k s s' c r :
  single c = true -> seen_blocks config blocks k s -> answered conf c s r s' ->
  exists m k', lives s m /\ lives m s' /\ (k <= k')%nat /\ seen_blocks config blocks k' m /\
    truthful config conf (take k' blocks) (take k' blocks) (db_now m) c r.
Proof.
  intros Hc Hk (m & H1 & H2 & Hr)%single_answered; [|done].
  destruct (seen_steps _ _ _ Hk H1) as (k' & Hk' & Hat). exists m, k'. split_and!; [done..|].
  rewrite (Hr (calm (now m))) by done. destruct Hat as (_ & Hkl & Hi & Hm).
  apply (single_truthful config conf _ _ (calm (now m))); [done..|]. rewrite length_take. lia.
Qed.

(** Whatever the request, what it answers is true of the blocks seen while it is served. *)
Lemma answered_true conf k s s' c r :
  seen_blocks config blocks k s -> answered conf c s r s' ->
  exists m m' k1 k2, lives s m /\ lives m m' /\ lives m' s' /\ (k1 <= k2)%nat /\
    seen_blocks config blocks k1 m /\ seen_blocks config blocks k2 m' /\
    truthful config conf (take k1 blocks) (take k2 blocks) (db_now m) c r.
Proof.
  intros Hk Hr. destruct (single c) eqn:Hc.
  { destruct (single_answered_true conf k s s' c r Hc Hk Hr) as (m & k1 & H1 & H2 & _ & Hat & Ht).
    exists m, m, k1, k1. by split_and!. }
  pose proof seen_recorded as Hrec. pose proof seen_steps as Hsteps.
  assert (answered conf c s r s' -> exists m m' k1 k2, lives s m /\ lives m m' /\ lives m' s' /\ (k1 <= k2)%nat /\
    seen_blocks config blocks k1 m /\ seen_blocks config blocks k2 m' /\ True) as Hany.
  { intros H%served_steps. destruct (seen_steps _ _ _ Hk H) as (k2 & Hk2 & Hat). by exists s, s', k, k2. }
  destruct c as [| | |j| |offset limit| |offset limit| |t| |j|j| |]; try done.
  - destruct (decide (0 <= j < two63)) as [Hj|Hj].
    + rewrite <- (Z2Nat.id j) in Hr, Hj |- * by lia. apply served_answer in Hr as (r1 & H1 & ->).
      apply (block_served _ _ blocks (seen_blocks config blocks) Hl Hrec Hsteps _ k) in H1
        as (m & k1 & Hm1 & Hm2 & _ & Hat & ->); [|done|lia].
      exists m, m, k1, k1. split_and!; [done..|]. by intros i <-%Nat2Z.inj _.
    + destruct (Hany Hr) as (m & m' & k1 & k2 & H1 & H2 & H3 & Hkk & Hat & Hat' & _).
      exists m, m', k1, k2. split_and!; [done..|]. intros i ->. lia.
  - apply served_answer in Hr as (r1 & H1 & ->).
    apply (last_served _ _ blocks (seen_blocks config blocks) Hl Hrec Hsteps k) in H1
      as (m & k1 & Hm1 & Hm2 & _ & Hat & ->); [|done].
    exists m, m, k1, k1. by split_and!.
  - destruct (decide (is_u64 (default 0 t))) as [Ht|Ht].
    + apply served_bind in Hr as (r1 & s1 & H1 & H2).
      apply (balance_served _ _ blocks (seen_blocks config blocks) Hrec Hsteps conf t k) in H1
        as (m & m' & k1 & k2 & Hm1 & Hm2 & Hm3 & Hkk & Hat & Hat' & H1); [|done..].
      exists m, m', k1, k2. split; [done|]. split; [done|].
      split; [etrans; [exact Hm3|by eapply served_steps]|]. split_and!; [done..|].
      intros symbol token _ Hs Hmt Hbt. rewrite (H1 symbol Hs Hmt Hbt) in H2. by destruct H2 as [-> _].
    + destruct (Hany Hr) as (m & m' & k1 & k2 & H1 & H2 & H3 & Hkk & Hat & Hat' & _).
      exists m, m', k1, k2. split_and!; [done..|]. by intros symbol token Ht'.
  - destruct (Hany Hr) as (m & m' & k1 & k2 & H1 & H2 & H3 & Hkk & Hat & Hat' & _).
    exists m, m', k1, k2. by split_and!.
Qed.
(** A block that has been served, and the last one. *)
Lemma block_answer_stays i k k' b :
  (k <= k' <= length blocks)%nat -> block_answer (take k blocks) i = Ok b ->
  block_answer (take k' blocks) i = Ok b.
Proof.
  intros Hk E. rewrite (block_answer_later blocks i k k'); [done| |done].
  unfold block_answer in E. rewrite length_take_le in E by lia. by destruct (Nat.ltb_spec i k).
Qed.

Lemma last_answer_index k b :
  (k <= length blocks)%nat -> last_answer (take k blocks) = Ok b ->
  badr_block_index b = Z.of_nat k - 1.
Proof.
  intros Hk E. unfold last_answer, block_answer in E. rewrite length_take_le in E by lia.
  destruct k as [|i]; [done|]. rewrite (proj2 (Nat.ltb_lt _ _)) in E by lia.
  injection E as <-. simpl. lia.
Qed.

Lemma last_answer_later k k' b :
  (k <= k' <= length blocks)%nat -> last_answer (take k blocks) = Ok b ->
  exists b', last_answer (take k' blocks) = Ok b'.
Proof.
  intros Hk E. unfold last_answer, block_answer in *. rewrite length_take_le in E |- * by lia.
  destruct k as [|i], k' as [|i']; [done|done|lia|]. rewrite (proj2 (Nat.ltb_lt i' _)) by lia. by eexists.
Qed.
End truthful.

(** C3: From the command line to the browser.  Run the program's commands on a new
    database as often and in whatever order, always with one configuration of safes or
    none and one process of [scan-ledger] at a time, let the process live as long as it
    may, with whatever faults of SQLite, the ledger, the safes' APIs and the servers, and
    ask an HTTP server whose own statements SQLite does not fail, while the auditor goes
    on between any two of these statements: what it answers is true of the blocks that
    are recorded at some moment of the request.  The counter of blocks, the balances and
    the burns of a block (of an index below 2^63) and of the last one are those of these
    blocks; the totals of a token with a symbol, below 2^128, are what was minted in them
    and burned in the ones recorded at that or a later moment of the request; and every
    pair shown as audited is a mint (a burn) of these blocks and a deposit (withdrawal)
    then stored that really match, none of them shown twice, while a page with an offset
    and no limit is an error. *)
Theorem answers_true_of_ledger config conf blocks w s s' c r :
  serves blocks -> Z.of_nat (length blocks) < two63 ->
  (forall o, audits o -> o = None \/ o = Some config) -> (forall w1 w2, env w1 w2 -> w_db w2 = w_db w1) ->
  w_db w = initial_db -> lives (Off w) s -> answered conf c s r s' ->
  exists m m' k k', lives s m /\ lives m m' /\ lives m' s' /\ (k <= k' <= length blocks)%nat /\
    mirrors (take k blocks) (db_now m) /\ mirrors (take k' blocks) (db_now m') /\
    truthful config conf (take k blocks) (take k' blocks) (db_now m) c r.
Proof.
  intros Hserve Hl Ha Henv Hw Hs Hr.
  destruct (seen_steps config blocks Hserve Hl Ha Henv 0 (Off w) s (initially_seen config blocks w Hw) Hs)
    as (k & _ & Hk).
  destruct (answered_true config blocks Hserve Hl Ha Henv conf k s s' c r Hk Hr)
    as (m & m' & k1 & k2 & H1 & H2 & H3 & Hkk & [_ Hat] & [_ Hat'] & Ht).
  exists m, m', k1, k2. split_and!; [done|done|done|done|apply Hat'|apply Hat|apply Hat'|done].
Qed.

(** C6: Answers do not go back.  In the lives of C3, once a client has been told the
    balances of a block, whoever asks for that block later, of whatever server and
    however the auditor has failed, been ended or been started again in between, is told
    the same; and the last block that is reported is never an earlier one than was
    reported before. *)
Theorem answers_never_go_back config conf conf' blocks w s s1 s2 s3 r :
  serves blocks -> Z.of_nat (length blocks) < two63 ->
  (forall o, audits o -> o = None \/ o = Some config) -> (forall w1 w2, env w1 w2 -> w_db w2 = w_db w1) ->
  w_db w = initial_db -> lives (Off w) s -> lives s1 s2 ->
  (forall i b, Z.of_nat i < two63 ->
     answered conf (GetBlockAuditData (Z.of_nat i)) s (Ok (BlockAuditDataBody b)) s1 ->
     answered conf' (GetBlockAuditData (Z.of_nat i)) s2 r s3 -> r = Ok (BlockAuditDataBody b)) /\
  (forall b, answered conf GetLastBlockAuditData s (Ok (BlockAuditDataBody b)) s1 ->
     answered conf' GetLastBlockAuditData s2 r s3 ->
     exists b', r = Ok (BlockAuditDataBody b') /\ badr_block_index b <= badr_block_index b').
Proof.
  intros Hserve Hl Ha Henv Hw Hs Hs12.
  pose proof (seen_steps config blocks Hserve Hl Ha Henv) as Hsteps.
  pose proof (seen_recorded config blocks) as Hrec.
  destruct (Hsteps 0%nat (Off w) s (initially_seen config blocks w Hw) Hs) as (k & _ & Hk).
  split.
  - intros i b Hi (r1 & H1 & E1)%served_answer (r2 & H2 & ->)%served_answer.
    apply (block_served _ _ blocks (seen_blocks config blocks) Hl Hrec Hsteps i k) in H1
      as (x & k1 & _ & Hx & _ & Hat & ->); [|done..].
    destruct (Hsteps _ _ _ Hat Hx) as (k2 & Hk2 & Hat2). destruct (Hsteps _ _ _ Hat2 Hs12) as (k3 & Hk3 & Hat3).
    apply (block_served _ _ blocks (seen_blocks config blocks) Hl Hrec Hsteps i k3) in H2
      as (x' & k4 & _ & _ & Hk4 & Hat4 & ->); [|done..]. apply Hrec in Hat4 as [Hl4 _].
    destruct (block_answer (take k1 blocks) i) as [b1| |] eqn:E; simplify_eq/=.
    by rewrite (block_answer_stays blocks i k1 k4 _ ltac:(lia) E).
  - intros b (r1 & H1 & E1)%served_answer (r2 & H2 & ->)%served_answer.
    apply (last_served _ _ blocks (seen_blocks config blocks) Hl Hrec Hsteps k) in H1
      as (x & k1 & _ & Hx & _ & Hat & ->); [|done].
    destruct (Hsteps _ _ _ Hat Hx) as (k2 & Hk2 & Hat2). destruct (Hsteps _ _ _ Hat2 Hs12) as (k3 & Hk3 & Hat3).
    apply (last_served _ _ blocks (seen_blocks config blocks) Hl Hrec Hsteps k3) in H2
      as (x' & k4 & _ & _ & Hk4 & Hat4 & ->); [|done]. apply Hrec in Hat4 as [Hl4 _].
    destruct (last_answer (take k1 blocks)) as [b1| |] eqn:E; simplify_eq/=.
    destruct (last_answer_later blocks k1 k4 b1 ltac:(lia) E) as [b' E']. exists b'. rewrite E'. split; [done|].
    rewrite (last_answer_index blocks k1 b1), (last_answer_index blocks k4 b') by (done || lia). lia.
Qed.

(** ** What is reported as unaudited *)

(** One client asks one thing after another. *)
Inductive session conf : machine -> list (Call * Res string Body) -> machine -> Prop :=
| session_end s s' : lives s s' -> session conf s [] s'
| session_ask s c r s1 qs s' :
    answered conf c s r s1 -> session conf s1 qs s' -> session conf s ((c, r) :: qs) s'.

Lemma session_lives conf s qs s' : session conf s qs s' -> lives s s'.
Proof. induction 1 as [|s c r s1 qs s' Hr%served_steps _ IH]; [done|by etrans]. Qed.

(** The moment a call is answered from. *)
Definition answered_at conf (c : Call) (r : Res string Body) (m : machine) : Prop :=
  forall w, healthy w -> w_db w = db_now m -> r = (Server.handle conf c w).1.

Lemma session_moment conf s qs s' c r :
  session conf s qs s' -> (c, r) ∈ qs -> single c = true ->
  exists m, lives s m /\ lives m s' /\ answered_at conf c r m.
Proof.
  induction 1 as [s s' _|s c1 r1 s1 qs s' Hr Hs IH]; [by intros ?%elem_of_nil|].
  intros [[= -> ->]|Hin]%elem_of_cons Hc.
  - apply single_answered in Hr as (m & H1 & H2 & Hm); [|done]. exists m.
    split; [done|]. split; [etrans; [exact H2|by eapply session_lives]|done].
  - destruct (IH Hin Hc) as (m & H1 & H2 & Hm). exists m. split; [|done]. etrans; [by eapply served_steps|done].
Qed.

Lemma session_moments conf s qs s' c1 r1 c2 r2 :
  session conf s qs s' -> (c1, r1) ∈ qs -> (c2, r2) ∈ qs -> single c1 = true -> single c2 = true ->
  exists m1 m2, lives s m1 /\ lives s m2 /\ lives m1 s' /\ lives m2 s' /\
    (lives m1 m2 \/ lives m2 m1) /\ answered_at conf c1 r1 m1 /\ answered_at conf c2 r2 m2.
Proof.
  intros Hs. induction Hs as [s s' _|s c r s1 qs s' Hr Hs IH]; [by intros ?%elem_of_nil|].
  intros H1 H2 Hc1 Hc2. pose proof (session_lives _ _ _ _ Hs) as Hend.
  pose proof (served_steps _ _ _ _ _ _ Hr) as Hstart.
  apply elem_of_cons in H1 as [[= -> ->]|H1]; apply elem_of_cons in H2 as [[= -> ->]|H2].
  - apply single_answered in Hr as (m & Hm1 & Hm2 & Hm); [|done]. exists m, m.
    split_and!; try done; [by etrans..|left; apply rtc_refl].
  - apply single_answered in Hr as (m & Hm1 & Hm2 & Hm); [|done].
    destruct (session_moment _ _ _ _ _ _ Hs H2 Hc2) as (m2 & Hm3 & Hm4 & Hm').
    exists m, m2. split_and!; try done; [by etrans..|left; by etrans].
  - apply single_answered in Hr as (m & Hm1 & Hm2 & Hm); [|done].
    destruct (session_moment _ _ _ _ _ _ Hs H1 Hc1) as (m1 & Hm3 & Hm4 & Hm').
    exists m1, m. split_and!; try done; [by etrans..|right; by etrans].
  - destruct (IH H1 H2 Hc1 Hc2) as (m1 & m2 & Hm1 & Hm2 & Hm3 & Hm4 & Hm5).
    exists m1, m2. split; [etrans; [exact Hstart|exact Hm1]|]. split; [etrans; [exact Hstart|exact Hm2]|done].
Qed.

Section unaudited.
Context config (Hds : distinct_safes config) (Haudits : forall o, audits o -> o = Some config).
Context (Henv : forall w1 w2, env w1 w2 -> w_db w2 = w_db w1 /\ w_faults w2 = w_faults w1).

(** Nothing has failed, and what matches is audited. *)
Definition good_life (s : machine) : Prop := working audits config s /\ good config (now s).

Lemma good_lives s s' : good_life s -> lives s s' -> good_life s'.
Proof.
  intros [Hw Hg] Hs. split; [eapply lives_working; [|done..]; auto|].
  by eapply (lives_good fuel env audits config s s').
Qed.

Lemma initially_good w : healthy w -> w_db w = initial_db -> good_life (Off w).
Proof.
  intros Hh Hw. split; [done|]. split; [done|]. simpl. rewrite Hw.
  split; [apply initial_inv|apply initial_settled].
Qed.

Lemma lives_grow s s' : good_life s -> lives s s' -> grows (db_now s) (db_now s').
Proof.
  intros [Hw _] Hs. eapply (lives_evolve fuel env audits config); [auto| |done..]. intros w1 w2 He. by apply Henv.
Qed.

(** Two lists asked for in either order are compared at the later moment. *)
Lemma unaudited_pair_mismatch m1 m2 m x sc :
  good_life m1 -> good_life m2 -> lives m1 m2 \/ lives m2 m1 ->
  unaudited_mint (db_now m1) m -> unaudited_deposit (db_now m2) x ->
  get_audited_safe_config_by_safe_addr config (gsd_safe_addr x) = Some sc -> ~ mint_matches sc m x.
Proof.
  intros H1 H2 Hor [Hm Hn] [Hx Hn'] Hsc Hmatch. destruct Hor as [Hs|Hs].
  - pose proof (lives_grow _ _ H1 Hs) as Hg. destruct H2 as (_ & _ & Hi & Hset). assert (m ∈ rows (db_now m2)) as Hm'
      by (eapply (rows_prefix (R := MintTx)); [apply Hg|done]).
    destruct (audited_mint_partner config sc _ m x Hi Hset Hm' Hx Hsc Hmatch) as (a & Ha & _ & E).
    by apply (Hn' a).
  - pose proof (lives_grow _ _ H2 Hs) as Hg. destruct H1 as (_ & _ & Hi & Hset). assert (x ∈ rows (db_now m1)) as Hx'
      by (eapply (rows_prefix (R := GnosisSafeDeposit)); [apply Hg|done]).
    destruct (audited_mint_partner config sc _ m x Hi Hset Hm Hx' Hsc Hmatch) as (a & Ha & E & _).
    by apply (Hn a).
Qed.

Lemma unaudited_burn_mismatch m1 m2 b x sc (named : GnosisSafeWithdrawal -> Prop) :
  good_life m1 -> good_life m2 -> lives m1 m2 \/ lives m2 m1 ->
  unaudited_burn (db_now m1) b -> unaudited_withdrawal (db_now m2) x ->
  get_audited_safe_config_by_safe_addr config (gsw_safe_addr x) = Some sc ->
  (forall y, y ∈ rows (db_now m1) \/ y ∈ rows (db_now m2) -> named y) ->
  (forall y, named y -> gsw_mc_tx_out_public_key_hex y = bto_public_key_hex b -> y = x) ->
  ~ burn_matches sc b x.
Proof.
  intros H1 H2 Hor [Hb Hn] [Hx Hn'] Hsc Hrows Huniq Hmatch. destruct Hor as [Hs|Hs].
  - pose proof (lives_grow _ _ H1 Hs) as Hg. destruct H2 as (_ & _ & Hi & Hset).
    assert (b ∈ rows (db_now m2)) as Hb' by (eapply (rows_prefix (R := BurnTxOut)); [apply Hg|done]).
    destruct (audited_burn_partner config sc _ b x Hi Hset Hb' Hx Hsc Hmatch) as (a & Ha & _ & E); [auto|].
    by apply (Hn' a).
  - pose proof (lives_grow _ _ H2 Hs) as Hg. destruct H1 as (_ & _ & Hi & Hset).
    assert (x ∈ rows (db_now m1)) as Hx' by (eapply (rows_prefix (R := GnosisSafeWithdrawal)); [apply Hg|done]).
    destruct (audited_burn_partner config sc _ b x Hi Hset Hb Hx' Hsc Hmatch) as (a & Ha & E & _); [auto|].
    by apply (Hn a).
Qed.
End unaudited.

(** C4: What is reported as unaudited does not match.  Let the commands be run with one
    configuration, no two of its safes at one address, and let nothing fail; at any
    moment of any life let a client ask an HTTP server for whatever it likes, one thing
    after another, while the auditor goes on.  Then no mint in a list of unaudited mints
    matches a deposit of a configured safe in a list of unaudited deposits, whichever was
    asked for first and however long before the other; and no burn in a list of unaudited
    burns matches a withdrawal from a configured safe in a list of unaudited withdrawals,
    provided that in the end no other withdrawal names the burn. *)
Theorem unaudited_answers_unmatched config conf w s qs s' :
  distinct_safes config -> (forall o, audits o -> o = Some config) ->
  (forall w1 w2, env w1 w2 -> w_db w2 = w_db w1 /\ w_faults w2 = w_faults w1) ->
  healthy w -> w_db w = initial_db -> lives (Off w) s -> session conf s qs s' ->
  (forall r r', (GetUnauditedMints, r) ∈ qs -> (GetUnauditedGnosisDeposits, r') ∈ qs ->
    exists mints deposits, r = Ok (MintsBody mints) /\ r' = Ok (UnauditedGnosisDepositsBody deposits) /\
      forall m x sc, m ∈ mints -> x ∈ deposits ->
        get_audited_safe_config_by_safe_addr config (gsd_safe_addr (ugdr_deposit x)) = Some sc ->
        ~ mint_matches sc m (ugdr_deposit x)) /\
  (forall r r', (GetUnauditedBurnTxOuts, r) ∈ qs -> (GetUnauditedWithdrawals, r') ∈ qs ->
    exists burns withdrawals, r = Ok (UnauditedBurnTxOutsBody burns) /\ r' = Ok (WithdrawalsBody withdrawals) /\
      forall b x sc, b ∈ burns -> x ∈ withdrawals ->
        get_audited_safe_config_by_safe_addr config (gsw_safe_addr x) = Some sc ->
        (forall y, y ∈ rows (db_now s') ->
           gsw_mc_tx_out_public_key_hex y = bto_public_key_hex (ubr_burn b) -> y = x) ->
        ~ burn_matches sc (ubr_burn b) x).
Proof.
  intros Hds Ha Henv Hh Hw Hs Hq. pose proof (initially_good config w Hh Hw) as Hg.
  eapply (good_lives config Hds Ha Henv) in Hg as Hg'; [|exact Hs].
  split; intros r r' H1 H2.
  - destruct (session_moments conf s qs s' _ r _ r' Hq H1 H2 eq_refl eq_refl)
      as (m1 & m2 & S1 & S2 & _ & _ & Hor & Hr & Hr').
    rewrite (Hr (calm (now m1)) eq_refl eq_refl), (Hr' (calm (now m2)) eq_refl eq_refl). cbn [Server.handle].
    unfold Routes.get_unaudited_mints, Routes.get_unaudited_gnosis_deposits. rewrite !answer_shown.
    destruct (unaudited_mints_listed (calm (now m1)) eq_refl) as (ms & -> & Hms).
    destruct (unaudited_deposits_listed (calm (now m2)) eq_refl) as (ds & -> & Hxs).
    eexists _, _. split_and!; [done..|]. intros m x sc Hm%Hms (y & -> & Hy%Hxs)%list_elem_of_fmap Hsc.
    by apply (unaudited_pair_mismatch config Ha Henv m1 m2); [eapply good_lives..| | | |].
  - destruct (session_moments conf s qs s' _ r _ r' Hq H1 H2 eq_refl eq_refl)
      as (m1 & m2 & S1 & S2 & E1 & E2 & Hor & Hr & Hr').
    rewrite (Hr (calm (now m1)) eq_refl eq_refl), (Hr' (calm (now m2)) eq_refl eq_refl). cbn [Server.handle].
    unfold Routes.get_unaudited_burn_tx_outs, Routes.get_unaudited_withdrawals. rewrite !answer_shown.
    destruct (unaudited_burns_listed (calm (now m1)) eq_refl) as (bs & -> & Hbs).
    destruct (unaudited_withdrawals_listed (calm (now m2)) eq_refl) as (ws & -> & Hws).
    eexists _, _. split_and!; [done..|]. intros b x sc (y & -> & Hy%Hbs)%list_elem_of_fmap Hx%Hws Hsc Huniq.
    pose proof (good_lives config Hds Ha Henv _ _ Hg' S1) as G1.
    pose proof (good_lives config Hds Ha Henv _ _ Hg' S2) as G2.
    apply (unaudited_burn_mismatch config Ha Henv m1 m2 _ _ _ (fun z => z ∈ rows (db_now s'))); [done..| |done].
    intros z [Hz|Hz].
    + by eapply (rows_prefix (R := GnosisSafeWithdrawal)); [apply (lives_grow config Ha Henv _ _ G1 E1)|].
    + by eapply (rows_prefix (R := GnosisSafeWithdrawal)); [apply (lives_grow config Ha Henv _ _ G2 E2)|].
Qed.
End lives.

(** ** Witnesses *)

(** The life of [final_world]: a process of [scan-ledger] that synchronizes the ledger of
    [Scenario] while its thread follows the safe. *)
Definition scan_test : Command (X_libs := test_libs) :=
  scan_command (X_libs := test_libs) "ledger" None "auditor.db" 1000 (Some "listen") None (Some test_config).
Definition test_audits (o : option GnosisSafeConfig) : Prop := o = Some test_config.
Definition test_env (w w' : World) : Prop := w_db w' = w_db w /\ w_faults w' = w_faults w.
Abbreviation test_step := (process_step 2 1000 (Some test_config) None test_env).

Lemma scan_test_starts :
  Commands.main (X_libs := test_libs) (mret tt) scan_test initial_world
  = (Ok (Scans (X_libs := test_libs) (Some "listen") None None 1000 (Some test_config)
           (launched (Some test_config) initial_world)), initial_world).
Proof. reflexivity. Qed.

Definition scans_on (r : Res Error bool) : bool := match r with Ok more => more | _ => false end.

Lemma scan_step n ts w :
  scans_on (Main.sync_iteration (Some test_config) None n w).1 = true ->
  test_step (mkProcess Scanning ts w) (mkProcess Scanning ts (sync_once n w)).
Proof.
  unfold sync_once. intros H.
  destruct (Main.sync_iteration (Some test_config) None n w) as [[more|e|p] w'] eqn:E; simpl in *; try done.
  subst more. exact (step_iteration _ _ _ _ _ n ts w true w' E).
Qed.

Lemma follow_step tx txs w :
  is_ok (GnosisSync.process_transaction test_safe tx w).1 = true ->
  test_step (mkProcess Scanning (test_threads (GnosisSyncThread.Processing test_sync (tx :: txs))) w)
    (mkProcess Scanning (test_threads (GnosisSyncThread.Processing test_sync txs)) (follow_once tx w)).
Proof.
  unfold follow_once. intros H.
  apply (step_thread 2 1000 (Some test_config) None test_env 0 0 Scanning
    (test_threads (GnosisSyncThread.Processing test_sync (tx :: txs))) w
    (GnosisSyncThread.mkThread false true (GnosisSyncThread.Processing test_sync (tx :: txs)))
    (GnosisSyncThread.mkThread false true (GnosisSyncThread.Processing test_sync txs))); [exact I|reflexivity|].
  simpl. destruct (GnosisSync.process_transaction test_safe tx w) as [[[]|e|p] w'] eqn:E; simpl in *;
    try discriminate H.
  unfold GnosisSyncThread.thread_step. simpl.
  change (Polling.audited_safe test_sync) with test_safe. rewrite E. reflexivity.
Qed.

Lemma final_run : rtc test_step (launched (Some test_config) initial_world)
  (mkProcess Scanning (test_threads (GnosisSyncThread.Processing test_sync [])) final_world).
Proof.
  etrans; [apply (fetched_run test_env initial_world)|].
  eapply rtc_l; [apply (scan_step 0); vm_compute; reflexivity|].
  eapply rtc_l; [apply (scan_step 1); vm_compute; reflexivity|].
  eapply rtc_l; [apply follow_step; vm_compute; reflexivity|].
  eapply rtc_l; [apply (scan_step 2); vm_compute; reflexivity|].
  eapply rtc_l; [apply (scan_step 3); vm_compute; reflexivity|].
  apply rtc_once, follow_step. vm_compute. reflexivity.
Qed.

(** The process in a life of the auditor. *)
Abbreviation test_lives := (rtc (live_step (X_libs := test_libs) 2 test_env test_audits)).
Definition running (p : process) : machine := Running 1000 (Some test_config) None p.

Lemma test_started : test_lives (Off initial_world) (running (launched (Some test_config) initial_world)).
Proof. eapply rtc_once, live_start; [exact scan_test_starts|reflexivity]. Qed.

Lemma test_runs p p' : rtc test_step p p' -> test_lives (running p) (running p').
Proof. induction 1; [apply rtc_refl|]. eapply rtc_l; [by apply live_process|done]. Qed.

(** The deposit and the withdrawal have been followed, the ledger is recorded. *)
Definition followed : machine :=
  running (mkProcess Scanning (test_threads (GnosisSyncThread.Processing test_sync [])) final_world).

Lemma test_final : test_lives (Off initial_world) followed.
Proof. etrans; [apply test_started|]. apply test_runs, final_run. Qed.

(** The process after some blocks. *)
Definition scanned (n : nat) : machine :=
  running (mkProcess Scanning (test_threads (GnosisSyncThread.Starting test_safe)) (world_after n)).
Lemma scanned_next n :
  scans_on (Main.sync_iteration (Some test_config) None n (world_after n)).1 = true ->
  test_lives (scanned n) (scanned (S n)).
Proof. intros H. by apply test_runs, rtc_once, scan_step. Qed.
Lemma scanned_2 : test_lives (Off initial_world) (scanned 2).
Proof.
  etrans; [apply test_started|]. etrans; [apply (scanned_next 0); vm_compute; reflexivity|].
  apply (scanned_next 1); vm_compute; reflexivity.
Qed.

(** What [get_ledger_balance] shows. *)
Definition balances_shown (r : Res string Body) : option (string * string) :=
  match r with Ok (LedgerBalanceBody b) => Some (lbr_mint_balance b, lbr_burn_balance b) | _ => None end.

(** The balance of token 1, the block with a mint and a burn recorded between its totals. *)
Lemma torn_request : exists r,
  answered (X_libs := test_libs) 2 test_env test_audits test_config (GetLedgerBalance (Some 1)) (scanned 2) r
    (scanned 3) /\ balances_shown r = Some ("0", "20").
Proof.
  eexists. split.
  - exists (scanned 2). split; [apply rtc_refl|]. exists (scanned 2). split; [apply rtc_refl|].
    exists (scanned 3). split; [apply (scanned_next 2); vm_compute; reflexivity|].
    exists (scanned 3). split; [apply rtc_refl|]. split; [reflexivity|apply rtc_refl].
  - vm_compute. reflexivity.
Qed.

(** The totals of one response need not be those of one moment: nothing minted and 20
    burned is true of no first blocks of the ledger. *)
Lemma ledger_balance_torn : exists r,
  answered (X_libs := test_libs) 2 test_env test_audits test_config (GetLedgerBalance (Some 1)) (scanned 2) r
    (scanned 3) /\
  forall k symbol, r <> Ok (LedgerBalanceBody
    (balance_answer 1 symbol (take k test_ledger) (take k test_ledger))).
Proof.
  destruct torn_request as (r & Hr & E). exists r. split; [exact Hr|]. intros k symbol ->. revert E.
  unfold balances_shown, balance_answer. cbn [lbr_mint_balance lbr_burn_balance].
  do 4 (destruct k as [|k]; [vm_compute; discriminate|]).
  rewrite take_ge by (simpl; lia). vm_compute. discriminate.
Qed.

Lemma answers_true_of_ledger_witness : exists r m m' k k',
  answered (X_libs := test_libs) 2 test_env test_audits test_config (GetLedgerBalance (Some 1)) (scanned 2) r
    (scanned 3) /\
  test_lives (scanned 2) m /\ test_lives m m' /\ test_lives m' (scanned 3) /\ (k <= k' <= 4)%nat /\
  mirrors (take k test_ledger) (db_now m) /\ mirrors (take k' test_ledger) (db_now m') /\
  truthful test_config test_config (take k test_ledger) (take k' test_ledger) (db_now m)
    (GetLedgerBalance (Some 1)) r.
Proof.
  destruct torn_request as (r & Hr & _). exists r.
  destruct (answers_true_of_ledger (X_libs := test_libs) 2 test_env test_audits test_config test_config
    test_ledger initial_world (scanned 2) (scanned 3) (GetLedgerBalance (Some 1)) r) as (m & m' & k & k' & H).
  - apply test_serves.
  - reflexivity.
  - intros o Ho. right. exact Ho.
  - intros w1 w2 H. apply H.
  - reflexivity.
  - exact scanned_2.
  - exact Hr.
  - exists m, m', k, k'. split; [exact Hr|exact H].
Defined.

(** A client asks for the unaudited mints and then for the unaudited deposits. *)
Lemma test_session : exists r r', session (X_libs := test_libs) 2 test_env test_audits test_config
  followed [(GetUnauditedMints, r); (GetUnauditedGnosisDeposits, r')] followed.
Proof.
  eexists _, _. apply session_ask with followed.
  - exists followed. split; [apply rtc_refl|]. exists followed. split; [apply rtc_refl|].
    split; [reflexivity|apply rtc_refl].
  - apply session_ask with followed; [|apply session_end, rtc_refl].
    exists followed. split; [apply rtc_refl|]. exists followed. split; [apply rtc_refl|].
    split; [reflexivity|apply rtc_refl].
Qed.

Lemma unaudited_answers_unmatched_witness : exists (r r' : Res string Body) mints deposits,
  r = Ok (MintsBody mints) /\ r' = Ok (UnauditedGnosisDepositsBody deposits) /\
  forall m x sc, m ∈ mints -> x ∈ deposits ->
    get_audited_safe_config_by_safe_addr test_config (gsd_safe_addr (ugdr_deposit x)) = Some sc ->
    ~ mint_matches sc m (ugdr_deposit x).
Proof.
  destruct test_session as (r & r' & Hq). exists r, r'.
  apply (proj1 (unaudited_answers_unmatched (X_libs := test_libs) 2 test_env test_audits test_config test_config
    initial_world followed [(GetUnauditedMints, r); (GetUnauditedGnosisDeposits, r')] followed test_distinct
    (fun o Ho => Ho) (fun w1 w2 H => H) eq_refl eq_refl test_final Hq) r r'); [left|right; left].
Defined.

(** The last block is asked for before and after a block is recorded. *)
Lemma last_asked n : (n < 4)%nat -> exists b, answered (X_libs := test_libs) 2 test_env test_audits test_config
  GetLastBlockAuditData (scanned (S n)) (Ok (BlockAuditDataBody b)) (scanned (S n)).
Proof.
  intros Hn. pose proof (answered_now (X_libs := test_libs) 2 test_env test_audits test_config
    GetLastBlockAuditData (scanned (S n))) as H.
  unfold Server.handle, Routes.get_last_block_audit_data in H. rewrite answer_shown in H.
  rewrite (last_block_served (take (S n) test_ledger)) in H.
  - unfold last_answer, block_answer in H. rewrite length_take_le in H by (simpl; lia).
    rewrite (proj2 (Nat.ltb_lt _ _)) in H by lia. by eexists.
  - done.
  - apply world_after_mirrors. lia.
  - apply world_after_ready. lia.
  - apply world_after_typed. lia.
  - rewrite length_take_le by (simpl; lia). lia.
Qed.

Lemma answers_never_go_back_witness : exists b b',
  answered (X_libs := test_libs) 2 test_env test_audits test_config GetLastBlockAuditData
    (scanned 2) (Ok (BlockAuditDataBody b)) (scanned 2) /\
  answered (X_libs := test_libs) 2 test_env test_audits test_config GetLastBlockAuditData
    (scanned 3) (Ok (BlockAuditDataBody b')) (scanned 3) /\ badr_block_index b <= badr_block_index b'.
Proof.
  destruct (last_asked 1) as [b Hb]; [lia|]. destruct (last_asked 2) as [b0 Hb0]; [lia|].
  destruct (answers_never_go_back (X_libs := test_libs) 2 test_env test_audits test_config test_config
    test_config test_ledger initial_world (scanned 2) (scanned 2) (scanned 3) (scanned 3)
    (Ok (BlockAuditDataBody b0))) as [_ H].
  - apply test_serves.
  - reflexivity.
  - intros o Ho. right. exact Ho.
  - intros w1 w2 H. apply H.
  - reflexivity.
  - exact scanned_2.
  - apply (scanned_next 2). vm_compute. reflexivity.
  - destruct (H b Hb Hb0) as (b' & E & Hle). exists b, b'. split; [exact Hb|]. split; [|exact Hle].
    rewrite <- E. exact Hb0.
Defined.
