(* ===== verification/TestUtils.v ===== *)
(** * [src/db/test_utils.rs]: the fixtures of the unit tests

    The unit tests of the crate are translated in [ModelTests], [MatchingTests],
    [SyncTests] and [ApiTests], and [Conformance] runs them on the model.  This file
    has what they share: a monad in which a test runs, [PartialEq], what the tests
    take from other crates ([TestHelpers]), and the definitions of [test_utils.rs].

    A test is a computation over the database and the environment (random numbers and
    the clock); a failing assertion panics, and a test passes if it returns. *)

From S2P Require Import Prelude Externals GnosisTypes Errors Schema Database CountersModel.
From S2P Require Import Mints Burns GnosisConfig GnosisRows SyncBlock.

(** ** [PartialEq] *)
Class PartialEq (A : Type) := partial_eq : A -> A -> bool.
Infix "==?" := partial_eq (at level 70, no associativity).

#[export] Instance Z_partial_eq : PartialEq Z := Z.eqb.
#[export] Instance nat_partial_eq : PartialEq nat := Nat.eqb.
#[export] Instance string_partial_eq : PartialEq string := String.eqb.
#[export] Instance byte_partial_eq : PartialEq byte := fun a b => bool_decide (a = b).
#[export] Instance balances_partial_eq : PartialEq (gmap Z Z) := fun m k => bool_decide (m = k).
#[export] Instance option_partial_eq {A} `{PartialEq A} : PartialEq (option A) := fun a b =>
  match a, b with
  | Some x, Some y => x ==? y
  | None, None => true
  | _, _ => false
  end.
#[export] Instance pair_partial_eq {A B} `{PartialEq A, PartialEq B} : PartialEq (A * B) :=
  fun a b => (a.1 ==? b.1) && (a.2 ==? b.2).
#[export] Instance list_partial_eq {A} `{PartialEq A} : PartialEq (list A) :=
  fix eq a b := match a, b with
  | [], [] => true
  | x :: a', y :: b' => (x ==? y) && eq a' b'
  | _, _ => false
  end.
#[export] Instance array_partial_eq {n} : PartialEq (array n) :=
  fun a b => array_bytes a ==? array_bytes b.
#[export] Instance EthAddr_partial_eq : PartialEq EthAddr.t := EthAddr.eqb.
#[export] Instance EthTxHash_partial_eq : PartialEq EthTxHash.t :=
  fun a b => EthTxHash.as_ref a ==? EthTxHash.as_ref b.
#[export] Instance EthTxValue_partial_eq : PartialEq EthTxValue.t :=
  fun a b => EthTxValue.value a ==? EthTxValue.value b.

(** [#[derive(PartialEq)]] of the row structs: field by field. *)
Section row_equality.
Context {X_chrono : Chrono} {E_time : PartialEq NaiveDateTime}.

#[export] Instance BlockAuditData_partial_eq : PartialEq BlockAuditData :=
  fun a b => audit_block_index a ==? audit_block_index b.
#[export] Instance MintConfigTx_partial_eq : PartialEq MintConfigTx := fun a b =>
  (mct_id a ==? mct_id b) && (mct_block_index a ==? mct_block_index b)
  && (mct_block_timestamp a ==? mct_block_timestamp b) && (mct_token_id a ==? mct_token_id b)
  && (mct_nonce_hex a ==? mct_nonce_hex b) && (mct_total_mint_limit a ==? mct_total_mint_limit b)
  && (mct_tombstone_block a ==? mct_tombstone_block b) && (mct_protobuf a ==? mct_protobuf b).
#[export] Instance MintConfig_partial_eq : PartialEq MintConfig := fun a b =>
  (mc_id a ==? mc_id b) && (mc_mint_config_tx_id a ==? mc_mint_config_tx_id b)
  && (mc_mint_limit a ==? mc_mint_limit b) && (mc_protobuf a ==? mc_protobuf b).
#[export] Instance MintTx_partial_eq : PartialEq MintTx := fun a b =>
  (mt_id a ==? mt_id b) && (mt_block_index a ==? mt_block_index b)
  && (mt_block_timestamp a ==? mt_block_timestamp b) && (mt_token_id a ==? mt_token_id b)
  && (mt_amount a ==? mt_amount b) && (mt_nonce_hex a ==? mt_nonce_hex b)
  && (mt_recipient_b58_addr a ==? mt_recipient_b58_addr b)
  && (mt_tombstone_block a ==? mt_tombstone_block b) && (mt_protobuf a ==? mt_protobuf b)
  && (mt_mint_config_id a ==? mt_mint_config_id b).
#[export] Instance BurnTxOut_partial_eq : PartialEq BurnTxOut := fun a b =>
  (bto_id a ==? bto_id b) && (bto_block_index a ==? bto_block_index b)
  && (bto_block_timestamp a ==? bto_block_timestamp b) && (bto_token_id a ==? bto_token_id b)
  && (bto_amount a ==? bto_amount b) && (bto_public_key_hex a ==? bto_public_key_hex b)
  && (bto_protobuf a ==? bto_protobuf b).
#[export] Instance GnosisSafeTx_partial_eq : PartialEq GnosisSafeTx := fun a b =>
  (gst_eth_tx_hash a ==? gst_eth_tx_hash b) && (gst_raw_tx_json a ==? gst_raw_tx_json b).
#[export] Instance GnosisSafeDeposit_partial_eq : PartialEq GnosisSafeDeposit := fun a b =>
  (gsd_id a ==? gsd_id b) && (gsd_eth_tx_hash a ==? gsd_eth_tx_hash b)
  && (gsd_execution_date a ==? gsd_execution_date b) && (gsd_eth_tx_value a ==? gsd_eth_tx_value b)
  && (gsd_eth_block_number a ==? gsd_eth_block_number b) && (gsd_safe_addr a ==? gsd_safe_addr b)
  && (gsd_token_addr a ==? gsd_token_addr b) && (gsd_from_addr a ==? gsd_from_addr b)
  && (gsd_amount a ==? gsd_amount b)
  && (gsd_expected_mc_mint_tx_nonce_hex a ==? gsd_expected_mc_mint_tx_nonce_hex b).
#[export] Instance GnosisSafeWithdrawal_partial_eq : PartialEq GnosisSafeWithdrawal := fun a b =>
  (gsw_id a ==? gsw_id b) && (gsw_eth_tx_hash a ==? gsw_eth_tx_hash b)
  && (gsw_execution_date a ==? gsw_execution_date b) && (gsw_eth_tx_value a ==? gsw_eth_tx_value b)
  && (gsw_eth_block_number a ==? gsw_eth_block_number b) && (gsw_safe_addr a ==? gsw_safe_addr b)
  && (gsw_token_addr a ==? gsw_token_addr b) && (gsw_to_addr a ==? gsw_to_addr b)
  && (gsw_amount a ==? gsw_amount b)
  && (gsw_mc_tx_out_public_key_hex a ==? gsw_mc_tx_out_public_key_hex b).
#[export] Instance Counters_partial_eq : PartialEq Counters := fun a b =>
  (c_id a ==? c_id b) && forallb (fun v => counter_column v a ==? counter_column v b) all_counters.

Context {X_url : UrlLib} {E_url : PartialEq Url}.
#[export] Instance AuditedToken_partial_eq : PartialEq AuditedToken := fun a b =>
  (tok_token_id a ==? tok_token_id b) && (tok_token_type a ==? tok_token_type b)
  && (tok_eth_token_contract_addrs a ==? tok_eth_token_contract_addrs b)
  && (tok_name a ==? tok_name b) && (tok_symbol a ==? tok_symbol b)
  && (tok_decimals a ==? tok_decimals b) && (tok_logo_uri a ==? tok_logo_uri b)
  && (tok_aux_burn_contract_addr a ==? tok_aux_burn_contract_addr b)
  && (tok_aux_burn_function_sig a ==? tok_aux_burn_function_sig b).
#[export] Instance AuditedSafeConfig_partial_eq : PartialEq AuditedSafeConfig := fun a b =>
  (sc_safe_addr a ==? sc_safe_addr b) && (sc_api_url a ==? sc_api_url b)
  && (sc_tokens a ==? sc_tokens b) && (sc_token_decimals_max a ==? sc_token_decimals_max b).
#[export] Instance GnosisSafeConfig_partial_eq : PartialEq GnosisSafeConfig := fun a b =>
  gc_safes a ==? gc_safes b.

Context {X_mc : MobileCoin}.
#[export] Instance SyncBlockData_partial_eq : PartialEq SyncBlockData := fun a b =>
  (sbd_block_audit a ==? sbd_block_audit b) && (sbd_balance_map a ==? sbd_balance_map b)
  && (sbd_mint_txs a ==? sbd_mint_txs b) && (sbd_burn_tx_outs a ==? sbd_burn_tx_outs b).
End row_equality.

(** ** What the tests take from other crates

    [Rng] is the environment a test draws from; [Signers] a vector of key pairs;
    [Ledger] the ledger database of [mc_ledger_db]. *)
Class TestHelpers `{Chrono, MobileCoin, UrlLib, SerdeJson} := {
  Rng : Type;
  get_seeded_rng : Rng;
  random_array : forall n, Rng -> array n * Rng;
  utc_now : Rng -> DateTime * Rng;
  parse_from_rfc3339 : string -> ext DateTime;
  url_parse : string -> ext Url;
  json_object : list (string * string) -> Value;
  (* mc_transaction_core_test_utils *)
  Signers : Type;
  create_mint_config_tx_and_signers : Z -> Rng -> (CoreMintConfigTx * Signers) * Rng;
  create_mint_tx : Z -> Signers -> Z -> Rng -> CoreMintTx * Rng;
  create_test_tx_out : Rng -> TxOut * Rng;
  (* mint_tx.prefix.nonce = .., mint_config_tx.prefix.total_mint_limit = .. *)
  with_nonce : list byte -> CoreMintTx -> CoreMintTx;
  with_total_mint_limit : Z -> CoreMintConfigTx -> CoreMintConfigTx;
  (* TxOut::new(.., Amount::new(value, token_id), &burn_address(), ..) *)
  tx_out_to_burn_address : Z -> Z -> Rng -> TxOut * Rng;
  (* the output of a transaction with a burn redemption memo *)
  build_burn_tx_out : list byte -> Z -> Z -> Rng -> TxOut * Rng;
  (* mc_ledger_db *)
  Ledger : Type;
  create_ledger : Ledger;
  initialize_ledger : nat -> Ledger -> Rng -> Ledger * Rng;
  ledger_block_data : Z -> Ledger -> ext (Z * BlockContents);
  add_block_contents_to_ledger : BlockContents -> Ledger -> Rng -> ext (Z * Ledger) * Rng;
  latest_block_index : Ledger -> ext Z;
  block_with_parent_index : Z -> BlockContents -> Z;
}.

(** ** Texts

    A text given by its lines without their indentation, its double quotes written as
    backquotes. *)
Fixpoint requote (s : string) : string :=
  match s with
  | EmptyString => EmptyString
  | String c s' =>
      String (if Ascii.eqb c (Ascii.ascii_of_nat 96) then Ascii.ascii_of_nat 34 else c) (requote s')
  end.
Definition text (lines : list string) : string :=
  requote (String.concat (String (Ascii.ascii_of_nat 10) EmptyString) lines).

(** ** Running a test *)
Section tests.
Context {X_chrono : Chrono} {X_sqlite : Sqlite} {X_hex : Hex} {X_mc : MobileCoin}.
Context {X_url : UrlLib} {X_json : SerdeJson} {X_hash : HashOrder} {X_test : TestHelpers}.

Definition TestState : Type := World * Rng.
Definition Test (A : Type) : Type := M TestState Error A.

#[global] Instance Test_ret : MRet Test := M_ret.
#[global] Instance Test_bind : MBind Test := M_bind.

(** [assert!]. *)
Definition assert {S E} (b : bool) : M S E unit := if b then mret tt else panic "assertion failed".
(** [assert_eq!]. *)
Definition assert_eq {S E A} `{PartialEq A} (x y : A) : M S E unit := assert (x ==? y).

(** [.unwrap()] on the result of a call, and on a value. *)
Definition unwrapped {S E F A} (m : M S E A) : M S F A :=
  expect "called `Result::unwrap()` on an `Err` value" m.
Definition unwrap_value {S E A} (o : option A) : M S E A := lift (unwrap o).

(** A call on the database: its value after [?] or [.unwrap()], or its result. *)
Definition try {E A} (m : M World E A) : M TestState E A :=
  fun s => let '(r, w) := m s.1 in (r, (w, s.2)).
Definition ok {E A} (m : M World E A) : Test A := unwrapped (try m).
Definition run {A} (m : App A) : Test (Res Error A) := attempt (try m).
(** A draw from the environment. *)
Definition draw {A} (f : Rng -> A * Rng) : Test A := fun s =>
  let '(a, rng) := f s.2 in (Ok a, (s.1, rng)).
(** A pure fallible call, unwrapped. *)
Definition pure {E A} (r : Res E A) : Test A := unwrapped (lift r).
Definition pure_ext {A} (r : ext A) : Test A := pure (from_ext Other r).

(** [matches!(call, Err(pattern))]. *)
Definition err_is {A} (pattern : Error -> bool) (r : Res Error A) : bool :=
  match r with Err e => pattern e | _ => false end.
Definition is_err {E A} (r : Res E A) : bool := match r with Err _ => true | _ => false end.
Definition assert_err {A} (pattern : Error -> bool) (m : App A) : Test unit :=
  r ← run m; assert (err_is pattern r).
Definition assert_fails {A} (m : App A) : Test unit := r ← run m; assert (is_err r).
(** [assert_eq!(call.unwrap(), expected)]. *)
Definition assert_ok {A} `{PartialEq A} (m : App A) (expected : A) : Test unit :=
  a ← ok m; assert_eq a expected.
(** [assert!(call.unwrap().is_none())], [assert_eq!(call.unwrap(), None)]. *)
Definition assert_none {A} (m : App (option A)) : Test unit :=
  o ← ok m; assert (match o with None => true | Some _ => false end).
(** [assert_eq!(call.unwrap().unwrap(), expected)]. *)
Definition assert_some {A} `{PartialEq A} (m : App (option A)) (expected : A) : Test unit :=
  o ← ok m; a ← unwrap_value o; assert_eq a expected.

Definition not_found (e : Error) : bool := match e with NotFound => true | _ => false end.
Definition already_exists (e : Error) : bool :=
  match e with AlreadyExists _ => true | _ => false end.
Definition object_not_saved (e : Error) : bool :=
  match e with ObjectNotSaved => true | _ => false end.
Definition deposit_and_mint_mismatch (e : Error) : bool :=
  match e with DepositAndMintMismatch _ => true | _ => false end.
Definition withdrawal_and_burn_mismatch (e : Error) : bool :=
  match e with WithdrawalAndBurnMismatch _ => true | _ => false end.
Definition ethereum_token_not_audited (e : Error) : bool :=
  match e with EthereumTokenNotAudited _ _ _ => true | _ => false end.
Definition gnosis_safe_not_audited (e : Error) : bool :=
  match e with GnosisSafeNotAudited _ => true | _ => false end.
Definition other (e : Error) : bool := match e with Other _ => true | _ => false end.
Definition unexpected_block_index (got expected : Z) (e : Error) : bool :=
  match e with UnexpectedBlockIndex i j => (i =? got) && (j =? expected) | _ => false end.

(** [assert_eq!(Counters::get(&conn).unwrap().$counter(), expected)]. *)
Definition assert_counter (v : CounterVar) (expected : Z) : Test unit :=
  c ← ok Counters.get; assert_eq (counter_get v c) expected.

(** ** [test_utils.rs] *)
Definition SAFE_ADDR : string := "0xeC018400FFe5Ad6E0B42Aa592Ee1CF6092972dEe".
Definition ETH_TOKEN_CONTRACT_ADDR : string := "0xD92E713d051C37EbB2561803a3b5FBAbc4962431".
Definition GNOSIS_SAFE_DEPOSIT_FROM_ADDR : string := "0xdc079a637a1417020916FfB8a39fF5a2801A0F07".
Definition GNOSIS_SAFE_WITHDRAWAL_TO_ADDR : string := "0xdc079a637a1417020916FfB8a39fF5a2801A0F07".
Definition AUX_BURN_CONTRACT_ADDR : string := "0x76BD419fBa96583d968b422D4f3CB2A70bf4CF40".
Definition AUX_BURN_FUNCTION_SIG : array 4 :=
  mk_array [xc7; x6f; x06; x35] (bool_decide_pack _ eq_refl).

Definition addr (s : string) : Test EthAddr.t := pure (EthAddr.from_str s).
Definition url (s : string) : Test Url := pure_ext (url_parse s).

Definition LOGO_URI : string :=
  "https://safe-transaction-assets.gnosis-safe.io/tokens/logos/0x50b347Ddbc73e45BD54683a57fcc28AA449Cf229.png".

(** One of the tokens of [test_gnosis_config]. *)
Definition test_token_one (token_id : Z) (token_addr burn_addr : string) : Test AuditedToken :=
  token_addr ← addr token_addr;
  burn_addr ← addr burn_addr;
  mret (mkAuditedToken token_id "ERC20" [token_addr] "TestTokenOne" "TTO" 9 LOGO_URI burn_addr
    AUX_BURN_FUNCTION_SIG).

Definition test_gnosis_config : Test GnosisSafeConfig :=
  safe_addr ← addr SAFE_ADDR;
  api_url ← url "https://safe-api.example.com";
  token1 ← test_token_one 1 ETH_TOKEN_CONTRACT_ADDR AUX_BURN_CONTRACT_ADDR;
  token2 ← test_token_one 2 "0x9306f1138deDa8202d9e3fb6B91eCa0bCc81E46F"
             "0xD05526a73bf45DaDf7f9A99dCCeAC23C2D43C6C7";
  token3 ← test_token_one 3 "0x40354413F6557ac05a0ddfCDbee922cD6309c88c"
             "0x86cA1e38F929d75EF67F618D965184Bb109C3833";
  token22 ← test_token_one 22 "0x9F026f1a54658d8aBbd18618a0F7d2927fe88090"
              "0x60b6a222ff9996e9d16632e7f9b2c8c76c305718";
  mret (mkGnosisSafeConfig
    [mkAuditedSafeConfig safe_addr api_url [token1; token2; token3; token22] 9]).

(** Equality of the [HashSet]s of two vectors. *)
Definition same_set {A} `{PartialEq A} (xs ys : list A) : bool :=
  forallb (fun x => existsb (partial_eq x) ys) xs && forallb (fun y => existsb (partial_eq y) xs) ys.

(** [xs[i]]. *)
Definition index {A} (xs : list A) (i : nat) : Test A :=
  match xs !! i with Some x => mret x | None => panic "index out of bounds" end.

(** [&test_gnosis_config().safes[0]]. *)
Definition test_safe_config : Test AuditedSafeConfig :=
  config ← test_gnosis_config; index (gc_safes config) 0.

(** [TestDbContext::get_db_instance], on a new file. *)
Definition get_db_instance : Test unit :=
  ok (ReserveAuditorDb.new_from_path (mret tt)).

(** The database of a test, and a connection to it. *)
Definition open_test_db : Test unit := _ ← get_db_instance; ok get_conn.

(** [append_and_sync]; the ledger it returns is the one it was lent. *)
Definition append_and_sync (block_contents : BlockContents) (ledger_db : Ledger)
  : Test (SyncBlockData * Z * Ledger) :=
  added ← draw (add_block_contents_to_ledger block_contents ledger_db);
  added ← lift (from_ext LedgerDb added);
  let '(block_index, ledger_db) := added in
  sync_block_data ← try (ReserveAuditorDb.sync_block block_index block_contents None);
  mret (sync_block_data, block_index, ledger_db).

(** [insert_gnosis_deposit]; the updated [deposit] is returned. *)
Definition insert_gnosis_deposit (deposit : GnosisSafeDeposit) : Test GnosisSafeDeposit :=
  let raw_tx :=
    json_object [("txHash", EthTxHash.display (GnosisSafeDeposit.eth_tx_hash deposit))] in
  _ ← ok (GnosisSafeTx.insert raw_tx);
  ok (GnosisSafeDeposit.insert deposit).

(** [insert_gnosis_withdrawal]; the updated [withdrawal] is returned. *)
Definition insert_gnosis_withdrawal (withdrawal : GnosisSafeWithdrawal)
  : Test GnosisSafeWithdrawal :=
  let raw_tx :=
    json_object [("txHash", EthTxHash.display (GnosisSafeWithdrawal.eth_tx_hash withdrawal))] in
  _ ← ok (GnosisSafeTx.insert raw_tx);
  ok (GnosisSafeWithdrawal.insert withdrawal).

(** [EthTxHash::from_random]. *)
Definition random_tx_hash : Test EthTxHash.t := draw (random_array EthTxHash.LEN).

Definition create_gnosis_safe_deposit (amount : Z) : Test GnosisSafeDeposit :=
  hash ← random_tx_hash;
  now ← draw utc_now;
  value ← pure (EthTxValue.from_str (pretty amount +:+ "000000000000"));
  safe_addr ← addr SAFE_ADDR;
  token_addr ← addr ETH_TOKEN_CONTRACT_ADDR;
  from_addr ← addr GNOSIS_SAFE_DEPOSIT_FROM_ADDR;
  mret (GnosisSafeDeposit.new None hash now value 1 safe_addr token_addr from_addr amount).

(** [mint_tx.prefix.nonce = hex::decode(nonce_hex).unwrap()]. *)
Definition set_nonce (nonce_hex : string) (mint_tx : CoreMintTx) : Test CoreMintTx :=
  nonce ← pure_ext (hex_decode nonce_hex); mret (with_nonce nonce mint_tx).

Definition insert_mint_tx_from_deposit (deposit : GnosisSafeDeposit) : Test MintTx :=
  config ← test_safe_config;
  token ← index (sc_tokens config) 0;
  let token_id := tok_token_id token in
  created ← draw (create_mint_config_tx_and_signers token_id);
  mint_tx ← draw (create_mint_tx token_id created.2 (GnosisSafeDeposit.amount deposit));
  mint_tx ← set_nonce (GnosisSafeDeposit.expected_mc_mint_tx_nonce_hex deposit) mint_tx;
  now ← draw utc_now;
  ok (MintTx.insert_from_core_mint_tx 0 (Some now) None mint_tx).

Definition create_burn_tx_out (token_id amount : Z) : Test BurnTxOut :=
  tx_out ← draw (build_burn_tx_out (replicate 64 x02) amount token_id);
  now ← draw utc_now;
  pure (BurnTxOut.from_core_tx_out 0 (Some now) tx_out).

Definition create_and_insert_burn_tx_out (token_id amount : Z) : Test BurnTxOut :=
  burn_tx_out ← create_burn_tx_out token_id amount;
  ok (BurnTxOut.insert burn_tx_out).

(** A withdrawal of the test safe. *)
Definition new_test_withdrawal (amount : Z) (public_key_hex : string) : Test GnosisSafeWithdrawal :=
  hash ← random_tx_hash;
  now ← draw utc_now;
  value ← pure (EthTxValue.from_str (pretty amount +:+ "000000000000"));
  safe_addr ← addr SAFE_ADDR;
  token_addr ← addr ETH_TOKEN_CONTRACT_ADDR;
  to_addr ← addr GNOSIS_SAFE_WITHDRAWAL_TO_ADDR;
  mret (GnosisSafeWithdrawal.new None hash now value 1 safe_addr token_addr to_addr amount
          public_key_hex).

Definition create_gnosis_safe_withdrawal (amount : Z) : Test GnosisSafeWithdrawal :=
  public_key ← draw (random_array 32);
  new_test_withdrawal amount (hex_encode (array_bytes public_key)).

Definition create_gnosis_safe_withdrawal_from_burn_tx_out (burn_tx_out : BurnTxOut)
  : Test GnosisSafeWithdrawal :=
  new_test_withdrawal (BurnTxOut.amount burn_tx_out) (BurnTxOut.public_key_hex burn_tx_out).

(** The state a test starts in: no database file, no pending fault. *)
Definition test_start : TestState := (mkWorld empty_db 0 ∅ 0 0 [], get_seeded_rng).

Definition passes (test : Test unit) : bool := is_ok (test test_start).1.

(** [#[should_panic(expected = "..")]]. *)
Definition panics_with (msg : string) (test : Test unit) : bool :=
  match (test test_start).1 with Panic p => String.eqb p msg | _ => false end.
End tests.
