(* ===== verification/ModelTests.v ===== *)
(** * The unit tests of [src/db/models] and of the data types

    [eth_data_types.rs], [gnosis/config.rs], [gnosis/utils.rs], [mint_tx_nonce.rs] and
    the row structs; the tests of [audited_mint.rs] and [audited_burn.rs] are in
    [MatchingTests]. *)

From S2P Require Import Prelude Externals GnosisTypes Errors Schema Database CountersModel.
From S2P Require Import Blocks Mints Burns GnosisConfig GnosisRows AuditedMints AuditedBurns.
From S2P Require Import SyncBlock TestUtils.

(** ** [gnosis/eth_data_types.rs], [gnosis/utils.rs], [gnosis/config.rs], [mint_tx_nonce.rs] *)
Module DataTypeTests.
Section tests.
Context {X_chrono : Chrono} {X_sqlite : Sqlite} {X_hex : Hex} {X_mc : MobileCoin}.
Context {X_url : UrlLib} {X_json : SerdeJson} {X_hash : HashOrder} {X_test : TestHelpers}.

Definition valid_eth_addr : Test unit :=
  a ← addr "0xA000000000000000000000000000000000001234";
  _ ← assert_eq a (EthAddr.mk "0xA000000000000000000000000000000000001234");
  a ← addr "0xABC0000000000000000000000000000000001234";
  assert_eq a (EthAddr.mk "0xabc0000000000000000000000000000000001234").

Definition invalid_eth_addr : Test unit :=
  _ ← assert (is_err (EthAddr.from_str "A000000000000000000000000000000000001234"));
  _ ← assert (is_err (EthAddr.from_str "0xz000000000000000000000000000000000001234"));
  _ ← assert (is_err (EthAddr.from_str "0xA0000000000000000000000000000000000001234"));
  assert (is_err (EthAddr.from_str "0xA00000000000000000000000000000000001234")).

Definition valid_eth_tx_value : Test unit :=
  v ← pure (EthTxValue.from_str "340282366920938463463374607431768211455");
  _ ← assert_eq v (EthTxValue.mk EthTxValue.MAX);
  v ← pure (EthTxValue.from_str "0");
  assert_eq v (EthTxValue.mk 0).

Definition invalid_eth_tx_value : Test unit :=
  _ ← assert (is_err (EthTxValue.from_str ""));
  assert (is_err (EthTxValue.from_str "-1")).

Definition truncate_value_works : Test unit :=
  let token_max_val := EthTxValue.mk 1000000000000000000000000000000 in
  let expected_truncated_value := 1000000000000000000 in
  let max_token_decimals := 9 in
  let token_original_precision := 21 in
  truncated_token_value ← lift (truncate_value token_max_val token_original_precision max_token_decimals);
  assert_eq expected_truncated_value truncated_token_value.

Definition truncate_value_foors_correctly : Test unit :=
  let token_max_val := EthTxValue.mk 1010020030040050060070080090100 in
  let expected_truncated_value := 1010020030040050060 in
  let max_token_decimals := 9 in
  let token_original_precision := 21 in
  truncated_token_value ← lift (truncate_value token_max_val token_original_precision max_token_decimals);
  assert_eq expected_truncated_value truncated_token_value.

Definition truncate_preserves_original_value : Test unit :=
  let token_max_val := EthTxValue.mk 1000000000000000000000000000000 in
  let expected_token_max_val := EthTxValue.mk 1000000000000000000000000000000 in
  let max_token_decimals := 9 in
  let token_original_precision := 21 in
  _ ← lift (truncate_value token_max_val token_original_precision max_token_decimals);
  assert_eq token_max_val expected_token_max_val.

(** [should_panic]: see [panics_with]. *)
Definition truncate_value_fails_correctly : Test unit :=
  let token_max_val := EthTxValue.mk 1000000000000000000000000000000 in
  let token_original_precision := 0 in
  let max_token_decimals := 9 in
  _ ← lift (truncate_value token_max_val token_original_precision max_token_decimals);
  mret tt.

Context {X_files : ConfigFiles} {E_url : PartialEq Url}.

(** The files that the tests of [config.rs] write are those of the instance. *)
Definition unsupported_extension : Test unit :=
  assert (match load_from_path "testing.poml" with
          | Err (Gnosis.UnrecognizedExtension _) => true
          | _ => false
          end).

Definition no_extension : Test unit :=
  assert (match load_from_path "testing" with Err Gnosis.PathExtension => true | _ => false end).

Definition INPUT_TOML : string := text [
  "[[safes]]";
  "safe_addr = `0x90213de428E9Ce4C77dD4943755Aa69cb2F803b7`";
  "api_url = `https://safe-api.example.com`";
  "token_decimals_max = 9";
  "[[safes.tokens]]";
  "token_id = 1";
  "token_type = `ERC20`";
  "name = `TestTokenOne`";
  "symbol = `TTO`";
  "decimals = 9";
  "logo_uri = `https://safe-transaction-assets.gnosis-safe.io/tokens/logos/0xd92e713d051c37ebb2561803a3b5fbabc4962431.png`";
  "eth_token_contract_addrs = [`0xd92e713d051c37ebb2561803a3b5fbabc4962431`]";
  "aux_burn_contract_addr = `0x76BD419fBa96583d968b422D4f3CB2A70bf4CF40`";
  "aux_burn_function_sig = [0xc7, 0x6f, 0x06, 0x35]";
  "[[safes.tokens]]";
  "token_id = 2";
  "token_type = `ERC20`";
  "name = `TestTokenTwo`";
  "symbol = `TTT`";
  "decimals = 9";
  "logo_uri = `https://safe-transaction-assets.gnosis-safe.io/tokens/logos/0x1111111111111111111111111111111111111111.png`";
  "eth_token_contract_addrs = [`0x1111111111111111111111111111111111111111`]";
  "aux_burn_contract_addr = `0x2222222222222222222222222222222222222222`";
  "aux_burn_function_sig = [0xaa, 0xbb, 0xcc, 0xdd]"
].

Definition INPUT_JSON : string := text [
  "{";
  "`safes`: [";
  "{";
  "`safe_addr`: `0x90213de428E9Ce4C77dD4943755Aa69cb2F803b7`,";
  "`api_url`: `https://safe-api.example.com`,";
  "`token_decimals_max`: 9,";
  "`tokens`: [";
  "{";
  "`token_id`: 1,";
  "`token_type`: `ERC20`,";
  "`name`: `TestTokenOne`,";
  "`symbol`: `TTO`,";
  "`decimals`: 9,";
  "`logo_uri`: `https://safe-transaction-assets.gnosis-safe.io/tokens/logos/0xd92e713d051c37ebb2561803a3b5fbabc4962431.png`,";
  "`eth_token_contract_addrs`: [`0xd92e713d051c37ebb2561803a3b5fbabc4962431`],";
  "`aux_burn_contract_addr`: `0x76BD419fBa96583d968b422D4f3CB2A70bf4CF40`,";
  "`aux_burn_function_sig`: [199, 111, 6, 53]";
  "},";
  "{";
  "`token_id`: 2,";
  "`token_type`: `ERC20`,";
  "`name`: `TestTokenTwo`,";
  "`symbol`: `TTT`,";
  "`decimals`: 9,";
  "`logo_uri`: `https://safe-transaction-assets.gnosis-safe.io/tokens/logos/0x1111111111111111111111111111111111111111.png`,";
  "`eth_token_contract_addrs`: [`0x1111111111111111111111111111111111111111`],";
  "`aux_burn_contract_addr`: `0x2222222222222222222222222222222222222222`,";
  "`aux_burn_function_sig`: [170, 187, 204, 221]";
  "}";
  "]";
  "}";
  "]";
  "}"
].

Definition expected_config : Test GnosisSafeConfig :=
  safe_addr ← addr "0x90213de428E9Ce4C77dD4943755Aa69cb2F803b7";
  api_url ← url "https://safe-api.example.com";
  token_addr1 ← addr "0xd92e713d051c37ebb2561803a3b5fbabc4962431";
  burn_addr1 ← addr "0x76BD419fBa96583d968b422D4f3CB2A70bf4CF40";
  token_addr2 ← addr "0x1111111111111111111111111111111111111111";
  burn_addr2 ← addr "0x2222222222222222222222222222222222222222";
  mret (mkGnosisSafeConfig [mkAuditedSafeConfig safe_addr api_url
    [mkAuditedToken 1 "ERC20" [token_addr1] "TestTokenOne" "TTO" 9
       "https://safe-transaction-assets.gnosis-safe.io/tokens/logos/0xd92e713d051c37ebb2561803a3b5fbabc4962431.png"
       burn_addr1 (mk_array [xc7; x6f; x06; x35] (bool_decide_pack _ eq_refl));
     mkAuditedToken 2 "ERC20" [token_addr2] "TestTokenTwo" "TTT" 9
       "https://safe-transaction-assets.gnosis-safe.io/tokens/logos/0x1111111111111111111111111111111111111111.png"
       burn_addr2 (mk_array [xaa; xbb; xcc; xdd] (bool_decide_pack _ eq_refl))] 9]).

Definition valid_config : Test unit :=
  cfg1 ← pure_ext (toml_from_str INPUT_TOML);
  cfg2 ← pure_ext (json_config_from_str INPUT_JSON);
  _ ← assert_eq cfg1 cfg2;
  expected ← expected_config;
  assert_eq cfg1 expected.

Definition configs_from_path : Test unit :=
  cfg1 ← pure (load_from_path "testing.toml");
  cfg2 ← pure (load_from_path "testing.json");
  assert_eq cfg1 cfg2.

Definition mint_tx_nonce_to_bytes_works : Test unit :=
  eth_tx_hash ← pure (EthTxHash.from_str
    "0x0e781edb7739aa88ad2ffb6a69aab46ff9e32dbd0f0c87e4006a176838b075d2");
  let nonce_bytes := MintTxNonce.to_bytes (MintTxNonce.EthereumGnosisDeposit eth_tx_hash) in
  _ ← assert_eq (take 1 nonce_bytes) MintTxNonce.ETHEREUM_GNOSIS_DEPOSIT_IDENTIFIER;
  _ ← assert_eq (take 32 (drop 1 nonce_bytes)) (EthTxHash.as_ref eth_tx_hash);
  assert_eq (drop 34 nonce_bytes) (replicate (64 - 34) x00).

Definition mint_tx_nonce_from_bytes_works : Test unit :=
  let NONCE_LENGTH := MintTxNonce.NONCE_LENGTH in
  _ ← assert (is_err (MintTxNonce.try_from (replicate (NONCE_LENGTH - 1) x00)));
  _ ← assert (is_err (MintTxNonce.try_from (replicate (NONCE_LENGTH + 1) x00)));
  _ ← assert (is_err (MintTxNonce.try_from (replicate NONCE_LENGTH x0a)));
  eth_tx_hash ← random_tx_hash;
  let bytes := replicate NONCE_LENGTH x00 in
  let bytes := MintTxNonce.copy_from_slice bytes 0 MintTxNonce.ETHEREUM_GNOSIS_DEPOSIT_IDENTIFIER in
  let bytes := MintTxNonce.copy_from_slice bytes MintTxNonce.IDENTIFIER_LEN
                 (EthTxHash.as_ref eth_tx_hash) in
  nonce ← pure (MintTxNonce.try_from bytes);
  _ ← assert_eq bytes (MintTxNonce.to_bytes nonce);
  let '(MintTxNonce.EthereumGnosisDeposit eth_tx_hash_2) := nonce in
  assert (eth_tx_hash ==? eth_tx_hash_2).
End tests.
End DataTypeTests.

(** ** [block_audit_data.rs], [block_balance.rs], [counters.rs] *)
Module BlockTests.
Section tests.
Context {X_chrono : Chrono} {X_sqlite : Sqlite} {X_hex : Hex} {X_mc : MobileCoin}.
Context {X_url : UrlLib} {X_json : SerdeJson} {X_hash : HashOrder} {X_test : TestHelpers}.

(** A call with a connection of its own. *)
Definition with_conn {A} (m : App A) : App A := _ ← get_conn; m.

Definition last_synced_block_index_works : Test unit :=
  _ ← get_db_instance;
  _ ← assert_ok (with_conn BlockAuditData.last_synced_block_index) None;
  _ ← ok (with_conn (BlockAuditData.set (mkBlockAuditData 5)));
  _ ← assert_ok (with_conn BlockAuditData.last_synced_block_index) (Some 5);
  _ ← ok (with_conn (BlockAuditData.set (mkBlockAuditData 3)));
  _ ← assert_ok (with_conn BlockAuditData.last_synced_block_index) (Some 5);
  _ ← ok (with_conn (BlockAuditData.set (mkBlockAuditData 6)));
  assert_ok (with_conn BlockAuditData.last_synced_block_index) (Some 6).

Definition block_balance_test : Test unit :=
  _ ← get_db_instance;
  _ ← ok (with_conn (BlockAuditData.set (BlockAuditData.new 0)));
  _ ← ok (with_conn (BlockAuditData.set (BlockAuditData.new 1)));
  balances ← ok (with_conn (BlockBalance.get_balances_for_block 0));
  _ ← assert_eq balances ∅;
  let expected_balances := collect_map [(1, 10); (2, 20); (3, two64 - 1 - 1)] in
  _ ← ok (with_conn (BlockBalance.set_balances_for_block 0 expected_balances));
  _ ← assert_ok (with_conn (BlockBalance.get_balances_for_block 0)) expected_balances;
  (* Try a tested transaction. *)
  _ ← ok (with_conn (transaction (
    let expected_balances2 :=
      collect_map [(1, 10); (2, 20); (two64 - 1 - 30, two64 - 1 - 123)] in
    _ ← unwrapped (BlockBalance.set_balances_for_block 1 expected_balances2);
    balances ← unwrapped (BlockBalance.get_balances_for_block 0);
    _ ← assert_eq balances expected_balances;
    balances ← unwrapped (BlockBalance.get_balances_for_block 1);
    assert_eq balances expected_balances2)));
  (* Test that transaction failure is rolled back as expected. *)
  ok (with_conn (transaction (
    let balances_with_dupe := collect_map [(10, 10); (20, 20); (1, 10)] in
    r ← attempt (BlockBalance.set_balances_for_block 0 balances_with_dupe);
    _ ← assert (is_err r);
    balances ← unwrapped (BlockBalance.get_balances_for_block 0);
    assert_eq balances expected_balances))).

Definition counters_sanity_test : Test unit :=
  _ ← open_test_db;
  _ ← assert_ok Counters.get Counters_default;
  _ ← ok Counters.ensure_exists;
  _ ← ok Counters.ensure_exists;
  _ ← ok Counters.ensure_exists;
  _ ← assert_counter num_blocks_synced 0;
  _ ← ok (Counters.inc num_blocks_synced);
  _ ← ok (Counters.inc num_blocks_synced);
  _ ← ok (Counters.inc num_blocks_synced);
  _ ← assert_counter num_blocks_synced 3;
  _ ← assert_counter num_burns_exceeding_balance 0;
  _ ← ok (Counters.inc num_burns_exceeding_balance);
  _ ← ok (Counters.inc num_burns_exceeding_balance);
  _ ← ok (Counters.inc num_burns_exceeding_balance);
  _ ← ok (Counters.inc num_burns_exceeding_balance);
  assert_counter num_burns_exceeding_balance 4.
End tests.
End BlockTests.

(** ** [mint_config.rs], [mint_config_tx.rs], [mint_tx.rs] *)
Module MintTests.
Section tests.
Context {X_chrono : Chrono} {X_sqlite : Sqlite} {X_hex : Hex} {X_mc : MobileCoin}.
Context {X_url : UrlLib} {X_json : SerdeJson} {X_hash : HashOrder} {X_test : TestHelpers}.
Context {E_time : PartialEq NaiveDateTime}.
Context {E_config : PartialEq CoreMintConfig} {E_config_tx : PartialEq CoreMintConfigTx}.

(** [MintConfigTx::most_recent_for_token(..).unwrap().unwrap()]. *)
Definition most_recent (block_index token_id : Z) : Test MintConfigTx :=
  o ← ok (MintConfigTx.most_recent_for_token block_index token_id); unwrap_value o.

(** [MintConfig::get_by_mint_config_tx_id(tx.id().unwrap(), &conn).unwrap()[0]]. *)
Definition first_config (tx : MintConfigTx) : Test MintConfig :=
  id ← unwrap_value (MintConfigTx.id tx);
  configs ← ok (MintConfig.get_by_mint_config_tx_id id);
  index configs 0.

Definition assert_mint_configs_match (mint_config_tx_id : Z) (expected : list CoreMintConfig)
    (actual : list MintConfig) : Test unit :=
  _ ← assert_eq (length expected) (length actual);
  decoded ← for_each (fun c => pure (MintConfig.decode c)) actual;
  _ ← assert (same_set expected decoded);
  _ ← for_each (fun mint_config =>
        decoded ← pure (MintConfig.decode mint_config);
        _ ← unwrap_value (mc_id mint_config);
        _ ← assert_eq (mc_mint_config_tx_id mint_config) mint_config_tx_id;
        assert_eq (MintConfig.mint_limit mint_config) (core_mint_config_mint_limit decoded)) actual;
  mret tt.

Definition get_by_mint_config_tx_id_works : Test unit :=
  let token_id1 := 1 in
  let token_id2 := 2 in
  _ ← open_test_db;
  mint_config_tx1 ← draw (create_mint_config_tx_and_signers token_id1);
  mint_config_tx2 ← draw (create_mint_config_tx_and_signers token_id2);
  _ ← ok (MintConfigTx.insert_from_core_mint_config_tx 5 None mint_config_tx1.1);
  _ ← ok (MintConfigTx.insert_from_core_mint_config_tx 5 None mint_config_tx2.1);
  sql_mint_config_tx1 ← most_recent 6 token_id1;
  sql_mint_config_tx2 ← most_recent 6 token_id2;
  id1 ← unwrap_value (MintConfigTx.id sql_mint_config_tx1);
  id2 ← unwrap_value (MintConfigTx.id sql_mint_config_tx2);
  mint_configs1 ← ok (MintConfig.get_by_mint_config_tx_id id1);
  mint_configs2 ← ok (MintConfig.get_by_mint_config_tx_id id2);
  _ ← assert_mint_configs_match id1 (core_mint_config_tx_configs mint_config_tx1.1) mint_configs1;
  _ ← assert_mint_configs_match id2 (core_mint_config_tx_configs mint_config_tx2.1) mint_configs2;
  _ ← assert_ok (MintConfig.get_by_mint_config_tx_id 0) [];
  assert_ok (MintConfig.get_by_mint_config_tx_id 10) [].

(** The five mints of the two tests of [get_total_minted_before_block]. *)
Definition insert_test_mints (signers1 signers2 signers3 : Signers) (id1 id2 id3 : option Z)
  : Test unit :=
  mint_tx1 ← draw (create_mint_tx 1 signers1 100);
  _ ← ok (MintTx.insert_from_core_mint_tx 3 None id1 mint_tx1);
  mint_tx2 ← draw (create_mint_tx 1 signers1 200);
  _ ← ok (MintTx.insert_from_core_mint_tx 6 None id1 mint_tx2);
  mint_tx3 ← draw (create_mint_tx 1 signers1 300);
  _ ← ok (MintTx.insert_from_core_mint_tx 8 None id1 mint_tx3);
  mint_tx4 ← draw (create_mint_tx 1 signers2 400);
  _ ← ok (MintTx.insert_from_core_mint_tx 11 None id2 mint_tx4);
  mint_tx5 ← draw (create_mint_tx 2 signers3 2000);
  _ ← ok (MintTx.insert_from_core_mint_tx 11 None id3 mint_tx5);
  mret tt.

(** Their assertions on the totals; [minted k i] is the total of the [k]-th before [i]. *)
Definition assert_test_totals (minted : nat -> Z -> App Z) (signers3 : Signers) (id3 : option Z)
  : Test unit :=
  _ ← assert_ok (minted 1%nat 6) 0;
  _ ← assert_ok (minted 1%nat 7) 200;
  _ ← assert_ok (minted 1%nat 8) 200;
  _ ← assert_ok (minted 1%nat 9) 500;
  _ ← assert_ok (minted 2%nat 11) 0;
  _ ← assert_ok (minted 2%nat 12) 400;
  _ ← assert_ok (minted 2%nat 120) 400;
  _ ← assert_ok (minted 3%nat 11) 0;
  _ ← assert_ok (minted 3%nat 12) 2000;
  _ ← assert_ok (minted 3%nat 120) 2000;
  mint_tx6 ← draw (create_mint_tx 2 signers3 3000);
  _ ← ok (MintTx.insert_from_core_mint_tx 12 None id3 mint_tx6);
  _ ← assert_ok (minted 3%nat 11) 0;
  _ ← assert_ok (minted 3%nat 12) 2000;
  _ ← assert_ok (minted 3%nat 13) 5000;
  assert_ok (minted 3%nat 14) 5000.

(** [mint_config.rs]. *)
Definition mint_config_get_total_minted_before_block_works : Test unit :=
  let token_id1 := 1 in
  let token_id2 := 2 in
  _ ← open_test_db;
  created1 ← draw (create_mint_config_tx_and_signers token_id1);
  created2 ← draw (create_mint_config_tx_and_signers token_id1);
  created3 ← draw (create_mint_config_tx_and_signers token_id2);
  _ ← ok (MintConfigTx.insert_from_core_mint_config_tx 5 None created1.1);
  _ ← ok (MintConfigTx.insert_from_core_mint_config_tx 10 None created2.1);
  _ ← ok (MintConfigTx.insert_from_core_mint_config_tx 7 None created3.1);
  sql_mint_config_tx1 ← most_recent 6 token_id1;
  sql_mint_config_tx2 ← most_recent 11 token_id1;
  sql_mint_config_tx3 ← most_recent 8 token_id2;
  mint_config1 ← first_config sql_mint_config_tx1;
  mint_config2 ← first_config sql_mint_config_tx2;
  mint_config3 ← first_config sql_mint_config_tx3;
  _ ← insert_test_mints created1.2 created2.2 created3.2
        (mc_id mint_config1) (mc_id mint_config2) (mc_id mint_config3);
  assert_test_totals (fun k => MintConfig.get_total_minted_before_block
      (match k with 1%nat => mint_config1 | 2%nat => mint_config2 | _ => mint_config3 end))
    created3.2 (mc_id mint_config3).

(** [mint_config_tx.rs]. *)
Definition assert_mint_config_tx_eq (sql_mint_config_tx : MintConfigTx)
    (orig_mint_config_tx : CoreMintConfigTx) : Test unit :=
  _ ← assert_eq (MintConfigTx.token_id sql_mint_config_tx)
        (core_mint_config_tx_token_id orig_mint_config_tx);
  _ ← assert_eq (mct_nonce_hex sql_mint_config_tx)
        (hex_encode (core_mint_config_tx_nonce orig_mint_config_tx));
  _ ← assert_eq (MintConfigTx.total_mint_limit sql_mint_config_tx)
        (core_mint_config_tx_total_mint_limit orig_mint_config_tx);
  _ ← assert_eq (MintConfigTx.tombstone_block sql_mint_config_tx)
        (core_mint_config_tx_tombstone_block orig_mint_config_tx);
  decoded ← pure (MintConfigTx.decode sql_mint_config_tx);
  assert_eq decoded orig_mint_config_tx.

(** The most recent transaction of a token is [orig], of block [at_block]. *)
Definition assert_most_recent (token_id at_block : Z) (orig : CoreMintConfigTx) (block_index : Z)
  : Test unit :=
  sql_mint_config_tx ← most_recent block_index token_id;
  _ ← assert_eq (mct_block_index sql_mint_config_tx) at_block;
  assert_mint_config_tx_eq sql_mint_config_tx orig.

Definition most_recent_for_token_works : Test unit :=
  let token_id1 := 1 in
  let token_id2 := 2 in
  let none token_id block_index :=
    assert_none (MintConfigTx.most_recent_for_token block_index token_id) in
  _ ← open_test_db;
  _ ← none token_id1 0;
  _ ← none token_id1 1;
  (* Store a mint config at block index 5. *)
  mint_config_tx1 ← draw (create_mint_config_tx_and_signers token_id1);
  _ ← ok (MintConfigTx.insert_from_core_mint_config_tx 5 None mint_config_tx1.1);
  _ ← for_each (fun i => _ ← none token_id1 i; none token_id2 i) (seqZ 0 6);
  _ ← for_each (fun i =>
        _ ← assert_most_recent token_id1 5 mint_config_tx1.1 i; none token_id2 i) (seqZ 6 4);
  (* One for the second token at block index 7. *)
  mint_config_tx2 ← draw (create_mint_config_tx_and_signers token_id2);
  _ ← ok (MintConfigTx.insert_from_core_mint_config_tx 7 None mint_config_tx2.1);
  _ ← for_each (fun i => _ ← none token_id1 i; none token_id2 i) (seqZ 0 6);
  _ ← for_each (fun i =>
        _ ← assert_most_recent token_id1 5 mint_config_tx1.1 i; none token_id2 i) (seqZ 6 2);
  _ ← for_each (fun i =>
        _ ← assert_most_recent token_id1 5 mint_config_tx1.1 i;
        assert_most_recent token_id2 7 mint_config_tx2.1 i) (seqZ 8 3);
  (* Another for the first token at block index 7. *)
  mint_config_tx3 ← draw (create_mint_config_tx_and_signers token_id1);
  _ ← ok (MintConfigTx.insert_from_core_mint_config_tx 7 None mint_config_tx3.1);
  _ ← for_each (fun i => _ ← none token_id1 i; none token_id2 i) (seqZ 0 6);
  _ ← for_each (fun i =>
        _ ← assert_most_recent token_id1 5 mint_config_tx1.1 i; none token_id2 i) (seqZ 6 2);
  _ ← for_each (fun i =>
        _ ← assert_most_recent token_id1 7 mint_config_tx3.1 i;
        assert_most_recent token_id2 7 mint_config_tx2.1 i) (seqZ 8 3);
  mret tt.

Definition mint_config_tx_insert_enforces_uniqueness : Test unit :=
  let token_id1 := 1 in
  let insert i tx := MintConfigTx.insert_from_core_mint_config_tx i None tx in
  _ ← open_test_db;
  mint_config_tx1 ← draw (create_mint_config_tx_and_signers token_id1);
  mint_config_tx2 ← draw (create_mint_config_tx_and_signers token_id1);
  _ ← ok (insert 5 mint_config_tx1.1);
  _ ← assert_fails (insert 5 mint_config_tx1.1);
  _ ← assert_fails (insert 5 mint_config_tx2.1);
  _ ← assert_fails (insert 6 mint_config_tx1.1);
  r ← run (insert 6 mint_config_tx2.1);
  assert (is_ok r).

Definition mint_config_tx_get_total_minted_before_block_works : Test unit :=
  let token_id1 := 1 in
  let token_id2 := 2 in
  let total tx i := MintConfigTx.get_total_minted_before_block tx i in
  _ ← open_test_db;
  created1 ← draw (create_mint_config_tx_and_signers token_id1);
  created2 ← draw (create_mint_config_tx_and_signers token_id1);
  created3 ← draw (create_mint_config_tx_and_signers token_id2);
  _ ← ok (MintConfigTx.insert_from_core_mint_config_tx 5 None created1.1);
  _ ← ok (MintConfigTx.insert_from_core_mint_config_tx 10 None created2.1);
  _ ← ok (MintConfigTx.insert_from_core_mint_config_tx 7 None created3.1);
  let same tx (created : CoreMintConfigTx) :=
    decoded ← pure (MintConfigTx.decode tx);
    _ ← assert_eq decoded created;
    unwrap_value (mct_id tx) in
  sql_mint_config_tx_1 ← most_recent 6 token_id1;
  id1 ← same sql_mint_config_tx_1 created1.1;
  sql_mint_config_tx_2 ← most_recent 11 token_id1;
  id2 ← same sql_mint_config_tx_2 created2.1;
  sql_mint_config_tx_3 ← most_recent 11 token_id2;
  id3 ← same sql_mint_config_tx_3 created3.1;
  _ ← assert (negb (id1 ==? id2));
  _ ← assert (negb (id2 ==? id3));
  (* Initially nothing has been minted at any point. *)
  _ ← for_each (fun i => for_each (fun tx => assert_ok (total tx i) 0)
        [sql_mint_config_tx_1; sql_mint_config_tx_2; sql_mint_config_tx_3]) (seqZ 0 20);
  mint_config1 ← first_config sql_mint_config_tx_1;
  mint_config2 ← first_config sql_mint_config_tx_2;
  mint_config3 ← first_config sql_mint_config_tx_3;
  _ ← insert_test_mints created1.2 created2.2 created3.2
        (MintConfig.id mint_config1) (MintConfig.id mint_config2) (MintConfig.id mint_config3);
  assert_test_totals (fun k => total
      (match k with
       | 1%nat => sql_mint_config_tx_1
       | 2%nat => sql_mint_config_tx_2
       | _ => sql_mint_config_tx_3
       end)) created3.2 (MintConfig.id mint_config3).

Definition test_get_config_txs_by_block : Test unit :=
  _ ← open_test_db;
  mint_config_tx1 ← draw (create_mint_config_tx_and_signers 1);
  mint_config_tx2 ← draw (create_mint_config_tx_and_signers 2);
  _ ← ok (MintConfigTx.insert_from_core_mint_config_tx 5 None mint_config_tx1.1);
  _ ← ok (MintConfigTx.insert_from_core_mint_config_tx 5 None mint_config_tx2.1);
  found_config_txs ← ok (MintConfigTx.get_by_block_index 5);
  _ ← assert_eq (length found_config_txs) 2%nat;
  no_config_txs ← ok (MintConfigTx.get_by_block_index 3);
  assert_eq (length no_config_txs) 0%nat.

(** [mint_tx.rs]. *)
Definition mint_tx_insert_enforces_uniqueness : Test unit :=
  let token_id1 := 1 in
  _ ← open_test_db;
  created ← draw (create_mint_config_tx_and_signers token_id1);
  mint_tx1 ← draw (create_mint_tx token_id1 created.2 100);
  _ ← ok (MintTx.insert_from_core_mint_tx 5 None None mint_tx1);
  assert_fails (MintTx.insert_from_core_mint_tx 5 None None mint_tx1).

Definition test_find_unaudited_mint_tx_by_nonce : Test unit :=
  let token_id1 := 1 in
  let find tx := MintTx.find_unaudited_mint_tx_by_nonce (hex_encode (core_mint_tx_nonce tx)) in
  _ ← open_test_db;
  deposit1 ← create_gnosis_safe_deposit 100;
  deposit2 ← create_gnosis_safe_deposit 200;
  created ← draw (create_mint_config_tx_and_signers token_id1);
  mint_tx1 ← draw (create_mint_tx token_id1 created.2 100);
  mint_tx2 ← draw (create_mint_tx token_id1 created.2 100);
  mint_tx1 ← set_nonce (GnosisSafeDeposit.expected_mc_mint_tx_nonce_hex deposit1) mint_tx1;
  mint_tx2 ← set_nonce (GnosisSafeDeposit.expected_mc_mint_tx_nonce_hex deposit2) mint_tx2;
  _ ← assert_none (find mint_tx1);
  _ ← assert_none (find mint_tx2);
  sql_mint_tx1 ← ok (MintTx.insert_from_core_mint_tx 5 None None mint_tx1);
  _ ← assert_some (find mint_tx1) sql_mint_tx1;
  _ ← assert_none (find mint_tx2);
  sql_mint_tx2 ← ok (MintTx.insert_from_core_mint_tx 5 None None mint_tx2);
  _ ← assert_some (find mint_tx1) sql_mint_tx1;
  _ ← assert_some (find mint_tx2) sql_mint_tx2;
  (* Mark the first mint as audited. *)
  deposit1 ← insert_gnosis_deposit deposit1;
  deposit_id1 ← unwrap_value (GnosisSafeDeposit.id deposit1);
  mint_id1 ← unwrap_value (MintTx.id sql_mint_tx1);
  _ ← ok (AuditedMint.associate_deposit_with_mint deposit_id1 mint_id1);
  _ ← assert_none (find mint_tx1);
  _ ← assert_some (find mint_tx2) sql_mint_tx2;
  (* Mark the second mint as audited. *)
  deposit2 ← insert_gnosis_deposit deposit2;
  deposit_id2 ← unwrap_value (GnosisSafeDeposit.id deposit2);
  mint_id2 ← unwrap_value (MintTx.id sql_mint_tx2);
  _ ← ok (AuditedMint.associate_deposit_with_mint deposit_id2 mint_id2);
  _ ← assert_none (find mint_tx1);
  assert_none (find mint_tx2).

Definition test_get_mint_amounts : Test unit :=
  _ ← open_test_db;
  _ ← for_each (fun i =>
        created ← draw (create_mint_config_tx_and_signers i);
        mint_tx ← draw (create_mint_tx i created.2 (i * 100));
        _ ← ok (MintTx.insert_from_core_mint_tx 5 None None mint_tx);
        mint_amounts ← ok (MintTx.get_mint_amounts i);
        _ ← assert_eq (length mint_amounts) 1%nat;
        first ← index mint_amounts 0;
        assert_eq first (i, i * 100)) (seqZ 0 10);
  mret tt.

Definition test_get_mints_by_block : Test unit :=
  let token_id1 := 1 in
  _ ← open_test_db;
  created ← draw (create_mint_config_tx_and_signers token_id1);
  mint_tx1 ← draw (create_mint_tx token_id1 created.2 100);
  mint_tx2 ← draw (create_mint_tx token_id1 created.2 100);
  should_be_found ← ok (MintTx.insert_from_core_mint_tx 5 None None mint_tx1);
  _ ← ok (MintTx.insert_from_core_mint_tx 2 None None mint_tx2);
  found ← ok (MintTx.get_mint_txs_by_block_index 5);
  _ ← assert_eq (length found) 1%nat;
  first ← index found 0;
  _ ← assert_eq (mt_id first) (mt_id should_be_found);
  none_found ← ok (MintTx.get_mint_txs_by_block_index 4);
  assert_eq (length none_found) 0%nat.
End tests.
End MintTests.

(** ** [burn_tx_out.rs] *)
Module BurnTests.
Section tests.
Context {X_chrono : Chrono} {X_sqlite : Sqlite} {X_hex : Hex} {X_mc : MobileCoin}.
Context {X_url : UrlLib} {X_json : SerdeJson} {X_hash : HashOrder} {X_test : TestHelpers}.
Context {E_time : PartialEq NaiveDateTime}.

Definition burn_tx_out_insert_enforces_uniqueness : Test unit :=
  _ ← open_test_db;
  burn_tx_out ← create_burn_tx_out 1 100;
  burn_tx_out ← ok (BurnTxOut.insert burn_tx_out);
  assert_fails (BurnTxOut.insert burn_tx_out).

Definition burn_redemption_memo_works : Test unit :=
  sql_burn_tx_out ← create_burn_tx_out 1 100;
  memo ← pure (BurnTxOut.burn_redemption_memo sql_burn_tx_out);
  assert_eq memo (replicate 64 x02).

Definition test_find_unaudited_burn_tx_out_by_public_key : Test unit :=
  let token_id1 := 1 in
  let find b := BurnTxOut.find_unaudited_burn_tx_out_by_public_key (BurnTxOut.public_key_hex b) in
  _ ← open_test_db;
  burn_tx_out1 ← create_burn_tx_out token_id1 100;
  burn_tx_out2 ← create_burn_tx_out token_id1 200;
  withdrawal1 ← create_gnosis_safe_withdrawal_from_burn_tx_out burn_tx_out1;
  withdrawal2 ← create_gnosis_safe_withdrawal_from_burn_tx_out burn_tx_out2;
  _ ← assert_none (find burn_tx_out1);
  _ ← assert_none (find burn_tx_out2);
  burn_tx_out1 ← ok (BurnTxOut.insert burn_tx_out1);
  _ ← assert_some (find burn_tx_out1) burn_tx_out1;
  _ ← assert_none (find burn_tx_out2);
  burn_tx_out2 ← ok (BurnTxOut.insert burn_tx_out2);
  _ ← assert_some (find burn_tx_out1) burn_tx_out1;
  _ ← assert_some (find burn_tx_out2) burn_tx_out2;
  (* Mark the first burn as audited. *)
  withdrawal1 ← insert_gnosis_withdrawal withdrawal1;
  withdrawal_id1 ← unwrap_value (GnosisSafeWithdrawal.id withdrawal1);
  burn_id1 ← unwrap_value (BurnTxOut.id burn_tx_out1);
  _ ← ok (AuditedBurn.associate_withdrawal_with_burn withdrawal_id1 burn_id1);
  _ ← assert_none (find burn_tx_out1);
  _ ← assert_some (find burn_tx_out2) burn_tx_out2;
  (* Mark the second burn as audited. *)
  withdrawal2 ← insert_gnosis_withdrawal withdrawal2;
  withdrawal_id2 ← unwrap_value (GnosisSafeWithdrawal.id withdrawal2);
  burn_id2 ← unwrap_value (BurnTxOut.id burn_tx_out2);
  _ ← ok (AuditedBurn.associate_withdrawal_with_burn withdrawal_id2 burn_id2);
  _ ← assert_none (find burn_tx_out1);
  assert_none (find burn_tx_out2).

Definition test_get_burn_amounts : Test unit :=
  _ ← open_test_db;
  _ ← for_each (fun i =>
        _ ← create_and_insert_burn_tx_out i (i * 100);
        burn_amounts ← ok (BurnTxOut.get_burn_amounts i);
        _ ← assert_eq (length burn_amounts) 1%nat;
        first ← index burn_amounts 0;
        assert_eq first (i, i * 100)) (seqZ 0 10);
  mret tt.

Definition test_get_burn_txs_by_block : Test unit :=
  _ ← open_test_db;
  _ ← for_each (fun i => create_and_insert_burn_tx_out i (i * 100)) (seqZ 0 3);
  burn_txs ← ok (BurnTxOut.get_burn_txs_by_block 0);
  _ ← assert_eq (length burn_txs) 3%nat;
  not_found ← ok (BurnTxOut.get_burn_txs_by_block 1);
  assert_eq (length not_found) 0%nat.
End tests.
End BurnTests.

(** ** [gnosis_safe_deposit.rs], [gnosis_safe_withdrawal.rs] *)
Module SafeRowTests.
Section tests.
Context {X_chrono : Chrono} {X_sqlite : Sqlite} {X_hex : Hex} {X_mc : MobileCoin}.
Context {X_url : UrlLib} {X_json : SerdeJson} {X_hash : HashOrder} {X_test : TestHelpers}.
Context {E_time : PartialEq NaiveDateTime}.

Definition test_find_unaudited_deposits_by_nonce : Test unit :=
  let token_id1 := 1 in
  let find := GnosisSafeDeposit.find_unaudited_deposit_by_nonce in
  _ ← open_test_db;
  deposit1 ← create_gnosis_safe_deposit 100;
  deposit2 ← create_gnosis_safe_deposit 200;
  let nonce1 := GnosisSafeDeposit.expected_mc_mint_tx_nonce_hex deposit1 in
  let nonce2 := GnosisSafeDeposit.expected_mc_mint_tx_nonce_hex deposit2 in
  created ← draw (create_mint_config_tx_and_signers token_id1);
  mint_tx1 ← draw (create_mint_tx token_id1 created.2 100);
  mint_tx2 ← draw (create_mint_tx token_id1 created.2 100);
  mint_tx1 ← set_nonce nonce1 mint_tx1;
  mint_tx2 ← set_nonce nonce2 mint_tx2;
  sql_mint_tx1 ← ok (MintTx.insert_from_core_mint_tx 0 None None mint_tx1);
  sql_mint_tx2 ← ok (MintTx.insert_from_core_mint_tx 0 None None mint_tx2);
  _ ← assert_none (find nonce1);
  _ ← assert_none (find nonce2);
  deposit1 ← insert_gnosis_deposit deposit1;
  _ ← assert_some (find nonce1) deposit1;
  _ ← assert_none (find nonce2);
  deposit2 ← insert_gnosis_deposit deposit2;
  _ ← assert_some (find nonce1) deposit1;
  _ ← assert_some (find nonce2) deposit2;
  (* Mark the first deposit as audited. *)
  deposit_id1 ← unwrap_value (GnosisSafeDeposit.id deposit1);
  mint_id1 ← unwrap_value (MintTx.id sql_mint_tx1);
  _ ← ok (AuditedMint.associate_deposit_with_mint deposit_id1 mint_id1);
  _ ← assert_none (find nonce1);
  _ ← assert_some (find nonce2) deposit2;
  (* Mark the second deposit as audited. *)
  deposit_id2 ← unwrap_value (GnosisSafeDeposit.id deposit2);
  mint_id2 ← unwrap_value (MintTx.id sql_mint_tx2);
  _ ← ok (AuditedMint.associate_deposit_with_mint deposit_id2 mint_id2);
  _ ← assert_none (find nonce1);
  assert_none (find nonce2).

(** Two burns and their withdrawals, not yet in the database. *)
Definition two_burns_and_withdrawals
  : Test (BurnTxOut * BurnTxOut * GnosisSafeWithdrawal * GnosisSafeWithdrawal) :=
  burn_tx_out1 ← create_and_insert_burn_tx_out 1 100;
  burn_tx_out2 ← create_and_insert_burn_tx_out 1 100;
  withdrawal1 ← create_gnosis_safe_withdrawal_from_burn_tx_out burn_tx_out1;
  withdrawal2 ← create_gnosis_safe_withdrawal_from_burn_tx_out burn_tx_out2;
  mret (burn_tx_out1, burn_tx_out2, withdrawal1, withdrawal2).

(** [AuditedBurn::associate_withdrawal_with_burn(w.id().unwrap(), b.id().unwrap(), &conn).unwrap()]. *)
Definition associate (withdrawal : GnosisSafeWithdrawal) (burn_tx_out : BurnTxOut) : Test unit :=
  withdrawal_id ← unwrap_value (GnosisSafeWithdrawal.id withdrawal);
  burn_id ← unwrap_value (BurnTxOut.id burn_tx_out);
  ok (AuditedBurn.associate_withdrawal_with_burn withdrawal_id burn_id).

Definition test_find_unaudited_withdrawal_by_public_key : Test unit :=
  let find b := GnosisSafeWithdrawal.find_unaudited_withdrawal_by_public_key
                  (BurnTxOut.public_key_hex b) in
  _ ← open_test_db;
  created ← two_burns_and_withdrawals;
  let '(burn_tx_out1, burn_tx_out2, withdrawal1, withdrawal2) := created in
  _ ← assert_none (find burn_tx_out1);
  _ ← assert_none (find burn_tx_out2);
  withdrawal1 ← insert_gnosis_withdrawal withdrawal1;
  _ ← assert_some (find burn_tx_out1) withdrawal1;
  _ ← assert_none (find burn_tx_out2);
  withdrawal2 ← insert_gnosis_withdrawal withdrawal2;
  _ ← assert_some (find burn_tx_out1) withdrawal1;
  _ ← assert_some (find burn_tx_out2) withdrawal2;
  _ ← associate withdrawal1 burn_tx_out1;
  _ ← assert_none (find burn_tx_out1);
  _ ← assert_some (find burn_tx_out2) withdrawal2;
  _ ← associate withdrawal2 burn_tx_out2;
  _ ← assert_none (find burn_tx_out1);
  assert_none (find burn_tx_out2).

Definition test_find_unaudited_withdrawals : Test unit :=
  let find := GnosisSafeWithdrawal.find_unaudited_withdrawals in
  _ ← open_test_db;
  created ← two_burns_and_withdrawals;
  let '(burn_tx_out1, burn_tx_out2, withdrawal1, withdrawal2) := created in
  _ ← assert_ok find [];
  withdrawal1 ← insert_gnosis_withdrawal withdrawal1;
  _ ← assert_ok find [withdrawal1];
  withdrawal2 ← insert_gnosis_withdrawal withdrawal2;
  _ ← assert_ok find [withdrawal1; withdrawal2];
  _ ← associate withdrawal1 burn_tx_out1;
  _ ← assert_ok find [withdrawal2];
  _ ← associate withdrawal2 burn_tx_out2;
  assert_ok find [].
End tests.
End SafeRowTests.
