(* ===== verification/MatchingTests.v ===== *)
(** * The unit tests of [audited_mint.rs] and [audited_burn.rs]

    The two directions of each matching have the same list of tests. *)

From S2P Require Import Prelude Externals GnosisTypes Errors Schema Database CountersModel.
From S2P Require Import Mints Burns GnosisConfig GnosisRows AuditedMints AuditedBurns.
From S2P Require Import SyncBlock TestUtils.

(** ** Changes to a configuration

    [config.safe_addr = ..], [config.tokens[0].token_id = ..],
    [config.tokens[0].eth_token_contract_addrs = ..] and the same on [config.safes[0]]. *)
Section config_changes.
Context {X_url : UrlLib}.

Definition with_safe_addr (safe_addr : EthAddr.t) (config : AuditedSafeConfig) : AuditedSafeConfig :=
  mkAuditedSafeConfig safe_addr (sc_api_url config) (sc_tokens config)
    (sc_token_decimals_max config).
Definition with_first_token (change : AuditedToken -> AuditedToken) (config : AuditedSafeConfig)
  : AuditedSafeConfig :=
  mkAuditedSafeConfig (sc_safe_addr config) (sc_api_url config)
    (alter change 0%nat (sc_tokens config)) (sc_token_decimals_max config).
Definition with_token_id (token_id : Z) : AuditedSafeConfig -> AuditedSafeConfig :=
  with_first_token (fun t => mkAuditedToken token_id (tok_token_type t)
    (tok_eth_token_contract_addrs t) (tok_name t) (tok_symbol t) (tok_decimals t)
    (tok_logo_uri t) (tok_aux_burn_contract_addr t) (tok_aux_burn_function_sig t)).
Definition with_token_addrs (addrs : list EthAddr.t) : AuditedSafeConfig -> AuditedSafeConfig :=
  with_first_token (fun t => mkAuditedToken (tok_token_id t) (tok_token_type t) addrs
    (tok_name t) (tok_symbol t) (tok_decimals t) (tok_logo_uri t)
    (tok_aux_burn_contract_addr t) (tok_aux_burn_function_sig t)).
Definition with_first_safe (change : AuditedSafeConfig -> AuditedSafeConfig)
    (config : GnosisSafeConfig) : GnosisSafeConfig :=
  mkGnosisSafeConfig (alter change 0%nat (gc_safes config)).

End config_changes.

Definition ZERO_ADDR : string := "0x0000000000000000000000000000000000000000".

(** ** [audited_mint.rs] *)
Module AuditedMintTests.
Section tests.
Context {X_chrono : Chrono} {X_sqlite : Sqlite} {X_hex : Hex} {X_mc : MobileCoin}.
Context {X_url : UrlLib} {X_json : SerdeJson} {X_hash : HashOrder} {X_test : TestHelpers}.
Context {E_time : PartialEq NaiveDateTime}.

Definition assert_audited_mints_table_is_empty : Test unit :=
  num_rows ← ok (exec (load (fun d => [Z.of_nat (length (audited_mints d))])));
  assert_eq num_rows [0].

(** The deposit and mint matching fails with the error of the [pattern], nothing is
    stored, and the counter [v] is 1. *)
Definition assert_not_matched {A} (pattern : Error -> bool) (m : App A) (v : CounterVar)
  : Test unit :=
  _ ← assert_err pattern m;
  _ ← assert_audited_mints_table_is_empty;
  assert_counter v 1.

Definition test_try_match_deposit_with_mint_happy_flow : Test unit :=
  config ← test_safe_config;
  let try_match deposit := AuditedMint.try_match_deposit_with_mint deposit config in
  _ ← open_test_db;
  deposit1 ← create_gnosis_safe_deposit 100;
  deposit2 ← create_gnosis_safe_deposit 200;
  deposit1 ← insert_gnosis_deposit deposit1;
  deposit2 ← insert_gnosis_deposit deposit2;
  (* Initially the database is empty. *)
  _ ← assert_err not_found (try_match deposit1);
  _ ← assert_err not_found (try_match deposit2);
  _ ← assert_audited_mints_table_is_empty;
  (* The first mint matches. *)
  sql_mint_tx1 ← insert_mint_tx_from_deposit deposit1;
  _ ← assert_ok (try_match deposit1) sql_mint_tx1;
  _ ← assert_err not_found (try_match deposit2);
  (* And so does the second. *)
  sql_mint_tx2 ← insert_mint_tx_from_deposit deposit2;
  _ ← assert_err already_exists (try_match deposit1);
  _ ← assert_ok (try_match deposit2) sql_mint_tx2;
  _ ← assert_err already_exists (try_match deposit2);
  assert_counter num_mismatching_mints_and_deposits 0.

(** A mint with the nonce of [deposit] and one unit more. *)
Definition mismatching_mint (token_id : Z) (deposit : GnosisSafeDeposit) : Test CoreMintTx :=
  created ← draw (create_mint_config_tx_and_signers token_id);
  mint_tx ← draw (create_mint_tx token_id created.2 (GnosisSafeDeposit.amount deposit + 1));
  set_nonce (GnosisSafeDeposit.expected_mc_mint_tx_nonce_hex deposit) mint_tx.

Definition test_try_match_deposit_with_mint_amount_mismatch : Test unit :=
  config ← test_safe_config;
  _ ← open_test_db;
  token ← index (sc_tokens config) 0;
  deposit ← create_gnosis_safe_deposit 100;
  deposit ← insert_gnosis_deposit deposit;
  mint_tx ← mismatching_mint (tok_token_id token) deposit;
  _ ← ok (MintTx.insert_from_core_mint_tx 0 None None mint_tx);
  assert_not_matched deposit_and_mint_mismatch
    (AuditedMint.try_match_deposit_with_mint deposit config) num_mismatching_mints_and_deposits.

Definition test_try_match_deposit_with_mint_unsaved_object : Test unit :=
  config ← test_safe_config;
  _ ← open_test_db;
  deposit ← create_gnosis_safe_deposit 100;
  assert_not_matched object_not_saved (AuditedMint.try_match_deposit_with_mint deposit config)
    num_unexpected_errors_matching_deposits_to_mints.

(** A stored deposit and its mint. *)
Definition stored_deposit_and_mint : Test (GnosisSafeDeposit * MintTx) :=
  deposit ← create_gnosis_safe_deposit 100;
  deposit ← insert_gnosis_deposit deposit;
  mint_tx ← insert_mint_tx_from_deposit deposit;
  mret (deposit, mint_tx).

(** The deposit of such a pair, under a changed configuration of its safe. *)
Definition deposit_mismatch (change : AuditedSafeConfig -> AuditedSafeConfig)
    (pattern : Error -> bool) (v : CounterVar) : Test unit :=
  config ← test_safe_config;
  _ ← open_test_db;
  stored ← stored_deposit_and_mint;
  assert_not_matched pattern
    (AuditedMint.try_match_deposit_with_mint stored.1 (change config)) v.

Definition test_try_match_deposit_with_mint_mismatched_safe_addr : Test unit :=
  zero ← addr ZERO_ADDR;
  deposit_mismatch (with_safe_addr zero) other num_unexpected_errors_matching_deposits_to_mints.

Definition test_try_match_deposit_with_mint_mismatched_token_id : Test unit :=
  deposit_mismatch (with_token_id 123) deposit_and_mint_mismatch
    num_mismatching_mints_and_deposits.

Definition test_try_match_deposit_with_mint_mismatched_token_addr : Test unit :=
  zero ← addr ZERO_ADDR;
  deposit_mismatch (with_token_addrs [zero]) ethereum_token_not_audited
    num_unknown_ethereum_token_deposits.

Definition test_try_match_mint_with_deposit_happy_flow : Test unit :=
  config ← test_gnosis_config;
  let try_match mint_tx := AuditedMint.try_match_mint_with_deposit mint_tx config in
  _ ← open_test_db;
  deposit1 ← create_gnosis_safe_deposit 100;
  deposit2 ← create_gnosis_safe_deposit 200;
  sql_mint_tx1 ← insert_mint_tx_from_deposit deposit1;
  sql_mint_tx2 ← insert_mint_tx_from_deposit deposit2;
  (* Initially the database is empty. *)
  _ ← assert_err not_found (try_match sql_mint_tx1);
  _ ← assert_err not_found (try_match sql_mint_tx2);
  _ ← assert_audited_mints_table_is_empty;
  (* The first deposit matches. *)
  deposit1 ← insert_gnosis_deposit deposit1;
  _ ← assert_ok (try_match sql_mint_tx1) deposit1;
  _ ← assert_err not_found (try_match sql_mint_tx2);
  (* And so does the second. *)
  deposit2 ← insert_gnosis_deposit deposit2;
  _ ← assert_err already_exists (try_match sql_mint_tx1);
  _ ← assert_ok (try_match sql_mint_tx2) deposit2;
  _ ← assert_err already_exists (try_match sql_mint_tx2);
  assert_counter num_mismatching_mints_and_deposits 0.

(** [config.safes[0].tokens[0].token_id]. *)
Definition first_token_id (config : GnosisSafeConfig) : Test Z :=
  safe ← index (gc_safes config) 0;
  token ← index (sc_tokens safe) 0;
  mret (tok_token_id token).

Definition test_try_match_mint_with_deposit_amount_mismatch : Test unit :=
  config ← test_gnosis_config;
  _ ← get_db_instance;
  token_id1 ← first_token_id config;
  _ ← ok get_conn;
  deposit ← create_gnosis_safe_deposit 100;
  deposit ← insert_gnosis_deposit deposit;
  mint_tx ← mismatching_mint token_id1 deposit;
  sql_mint_tx ← ok (MintTx.insert_from_core_mint_tx 0 None None mint_tx);
  assert_not_matched deposit_and_mint_mismatch
    (AuditedMint.try_match_mint_with_deposit sql_mint_tx config)
    num_mismatching_mints_and_deposits.

Definition test_try_match_mint_with_deposit_unsaved_object : Test unit :=
  config ← test_gnosis_config;
  _ ← get_db_instance;
  token_id1 ← first_token_id config;
  _ ← ok get_conn;
  created ← draw (create_mint_config_tx_and_signers token_id1);
  mint_tx ← draw (create_mint_tx token_id1 created.2 100);
  sql_mint_tx ← pure (MintTx.from_core_mint_tx 0 None None mint_tx);
  assert_not_matched object_not_saved
    (AuditedMint.try_match_mint_with_deposit sql_mint_tx config)
    num_unexpected_errors_matching_mints_to_deposits.

(** The mint of a stored pair, under a changed configuration of the first safe. *)
Definition mint_mismatch (change : AuditedSafeConfig -> AuditedSafeConfig)
    (pattern : Error -> bool) (v : CounterVar) : Test unit :=
  config ← test_gnosis_config;
  _ ← open_test_db;
  stored ← stored_deposit_and_mint;
  assert_not_matched pattern
    (AuditedMint.try_match_mint_with_deposit stored.2 (with_first_safe change config)) v.

Definition test_try_match_mint_with_deposit_mismatched_safe_addr : Test unit :=
  zero ← addr ZERO_ADDR;
  mint_mismatch (with_safe_addr zero) gnosis_safe_not_audited num_mints_to_unknown_safe.

Definition test_try_match_mint_with_deposit_mismatched_token_id : Test unit :=
  mint_mismatch (with_token_id 123) deposit_and_mint_mismatch num_mismatching_mints_and_deposits.

Definition test_try_match_mint_with_deposit_mismatched_token_addr : Test unit :=
  zero ← addr ZERO_ADDR;
  mint_mismatch (with_token_addrs [zero]) ethereum_token_not_audited
    num_unknown_ethereum_token_deposits.

Definition test_list_audited_mints : Test unit :=
  config ← test_gnosis_config;
  _ ← open_test_db;
  pairs ← for_each (fun _ =>
        deposit ← create_gnosis_safe_deposit 100;
        inserted ← insert_gnosis_deposit deposit;
        mint ← insert_mint_tx_from_deposit inserted;
        _ ← ok (AuditedMint.try_match_mint_with_deposit mint config);
        mret (deposit, mint)) (seqZ 0 10);
  all_audited_mints ← ok (AuditedMint.list_with_mint_and_deposit None None);
  _ ← assert_eq (length all_audited_mints) 10%nat;
  first ← index all_audited_mints 0;
  first_pair ← index pairs 0;
  _ ← assert_eq first.1.2 first_pair.2;
  _ ← assert_eq (GnosisSafeDeposit.eth_tx_hash first.2)
        (GnosisSafeDeposit.eth_tx_hash first_pair.1);
  paginated_mints ← ok (AuditedMint.list_with_mint_and_deposit (Some 4) (Some 3));
  _ ← assert_eq (length paginated_mints) 3%nat;
  row ← index paginated_mints 0;
  id ← unwrap_value (am_id row.1.1);
  _ ← assert_eq id 5;
  row ← index paginated_mints 2;
  id ← unwrap_value (am_id row.1.1);
  assert_eq id 7.
End tests.
End AuditedMintTests.

(** ** [audited_burn.rs] *)
Module AuditedBurnTests.
Section tests.
Context {X_chrono : Chrono} {X_sqlite : Sqlite} {X_hex : Hex} {X_mc : MobileCoin}.
Context {X_url : UrlLib} {X_json : SerdeJson} {X_hash : HashOrder} {X_test : TestHelpers}.
Context {E_time : PartialEq NaiveDateTime}.

Definition assert_audited_burns_table_is_empty : Test unit :=
  num_rows ← ok (exec (load (fun d => [Z.of_nat (length (audited_burns d))])));
  assert_eq num_rows [0].

Definition assert_not_matched {A} (pattern : Error -> bool) (m : App A) (v : CounterVar)
  : Test unit :=
  _ ← assert_err pattern m;
  _ ← assert_audited_burns_table_is_empty;
  assert_counter v 1.

(** [config.tokens[0].token_id], and the same of [config.safes[0]]. *)
Definition safe_token_id (config : AuditedSafeConfig) : Test Z :=
  token ← index (sc_tokens config) 0; mret (tok_token_id token).
Definition first_token_id (config : GnosisSafeConfig) : Test Z :=
  safe ← index (gc_safes config) 0; safe_token_id safe.

Definition test_try_match_withdrawal_with_burn_happy_flow : Test unit :=
  config ← test_safe_config;
  let try_match withdrawal := AuditedBurn.try_match_withdrawal_with_burn withdrawal config in
  _ ← open_test_db;
  token_id ← safe_token_id config;
  burn_tx_out1 ← create_burn_tx_out token_id 100;
  burn_tx_out2 ← create_burn_tx_out token_id 200;
  withdrawal1 ← create_gnosis_safe_withdrawal_from_burn_tx_out burn_tx_out1;
  withdrawal2 ← create_gnosis_safe_withdrawal_from_burn_tx_out burn_tx_out2;
  withdrawal1 ← insert_gnosis_withdrawal withdrawal1;
  withdrawal2 ← insert_gnosis_withdrawal withdrawal2;
  (* Initially the database is empty. *)
  _ ← assert_err not_found (try_match withdrawal1);
  _ ← assert_err not_found (try_match withdrawal1);
  _ ← assert_audited_burns_table_is_empty;
  (* The first burn matches. *)
  burn_tx_out1 ← ok (BurnTxOut.insert burn_tx_out1);
  _ ← assert_ok (try_match withdrawal1) burn_tx_out1;
  _ ← assert_err not_found (try_match withdrawal2);
  (* And so does the second. *)
  burn_tx_out2 ← ok (BurnTxOut.insert burn_tx_out2);
  _ ← assert_err already_exists (try_match withdrawal1);
  _ ← assert_ok (try_match withdrawal2) burn_tx_out2;
  _ ← assert_err already_exists (try_match withdrawal2);
  assert_counter num_mismatching_burns_and_withdrawals 0.

(** A withdrawal of [burn_tx_out] with one unit more. *)
Definition mismatching_withdrawal (burn_tx_out : BurnTxOut) : Test GnosisSafeWithdrawal :=
  hash ← random_tx_hash;
  now ← draw utc_now;
  safe_addr ← addr SAFE_ADDR;
  token_addr ← addr ETH_TOKEN_CONTRACT_ADDR;
  to_addr ← addr GNOSIS_SAFE_WITHDRAWAL_TO_ADDR;
  mret (GnosisSafeWithdrawal.new None hash now
          (EthTxValue.mk ((BurnTxOut.amount burn_tx_out + 1) * 1000000000000)) 1
          safe_addr token_addr to_addr (BurnTxOut.amount burn_tx_out + 1)
          (BurnTxOut.public_key_hex burn_tx_out)).

Definition test_try_match_withdrawal_with_burn_amount_mismatch : Test unit :=
  config ← test_safe_config;
  _ ← open_test_db;
  token_id ← safe_token_id config;
  burn_tx_out ← create_and_insert_burn_tx_out token_id 100;
  withdrawal ← mismatching_withdrawal burn_tx_out;
  withdrawal ← insert_gnosis_withdrawal withdrawal;
  assert_not_matched withdrawal_and_burn_mismatch
    (AuditedBurn.try_match_withdrawal_with_burn withdrawal config)
    num_mismatching_burns_and_withdrawals.

Definition test_try_match_withdrawal_with_burn_unsaved_object : Test unit :=
  config ← test_safe_config;
  _ ← open_test_db;
  withdrawal ← create_gnosis_safe_withdrawal 100;
  assert_not_matched object_not_saved
    (AuditedBurn.try_match_withdrawal_with_burn withdrawal config)
    num_unexpected_errors_matching_withdrawals_to_burns.

(** A stored burn and its stored withdrawal. *)
Definition stored_burn_and_withdrawal (token_id : Z) : Test (BurnTxOut * GnosisSafeWithdrawal) :=
  burn_tx_out ← create_and_insert_burn_tx_out token_id 100;
  withdrawal ← create_gnosis_safe_withdrawal_from_burn_tx_out burn_tx_out;
  withdrawal ← insert_gnosis_withdrawal withdrawal;
  mret (burn_tx_out, withdrawal).

(** The withdrawal of such a pair, under a changed configuration of its safe. *)
Definition withdrawal_mismatch (change : AuditedSafeConfig -> AuditedSafeConfig)
    (pattern : Error -> bool) (v : CounterVar) : Test unit :=
  config ← test_safe_config;
  _ ← open_test_db;
  token_id ← safe_token_id config;
  stored ← stored_burn_and_withdrawal token_id;
  assert_not_matched pattern
    (AuditedBurn.try_match_withdrawal_with_burn stored.2 (change config)) v.

Definition test_try_match_withdrawal_with_burn_mismatched_safe_addr : Test unit :=
  zero ← addr ZERO_ADDR;
  withdrawal_mismatch (with_safe_addr zero) other
    num_unexpected_errors_matching_withdrawals_to_burns.

Definition test_try_match_withdrawal_with_burn_mismatched_token_id : Test unit :=
  withdrawal_mismatch (with_token_id 123) withdrawal_and_burn_mismatch
    num_mismatching_burns_and_withdrawals.

Definition test_try_match_withdrawal_with_burn_mismatched_token_addr : Test unit :=
  zero ← addr ZERO_ADDR;
  withdrawal_mismatch (with_token_addrs [zero]) ethereum_token_not_audited
    num_unknown_ethereum_token_withdrawals.

Definition test_try_match_burn_with_withdrawal_happy_flow : Test unit :=
  config ← test_gnosis_config;
  let try_match burn_tx_out := AuditedBurn.try_match_burn_with_withdrawal burn_tx_out config in
  _ ← open_test_db;
  token_id ← first_token_id config;
  burn_tx_out1 ← create_and_insert_burn_tx_out token_id 100;
  burn_tx_out2 ← create_and_insert_burn_tx_out token_id 200;
  withdrawal1 ← create_gnosis_safe_withdrawal_from_burn_tx_out burn_tx_out1;
  withdrawal2 ← create_gnosis_safe_withdrawal_from_burn_tx_out burn_tx_out2;
  (* Initially the database is empty. *)
  _ ← assert_err not_found (try_match burn_tx_out1);
  _ ← assert_err not_found (try_match burn_tx_out2);
  _ ← assert_audited_burns_table_is_empty;
  (* The first withdrawal matches. *)
  withdrawal1 ← insert_gnosis_withdrawal withdrawal1;
  _ ← assert_ok (try_match burn_tx_out1) withdrawal1;
  _ ← assert_err not_found (try_match burn_tx_out2);
  (* And so does the second. *)
  withdrawal2 ← insert_gnosis_withdrawal withdrawal2;
  _ ← assert_err already_exists (try_match burn_tx_out1);
  _ ← assert_ok (try_match burn_tx_out2) withdrawal2;
  _ ← assert_err already_exists (try_match burn_tx_out2);
  assert_counter num_mismatching_burns_and_withdrawals 0.

Definition test_try_match_burn_with_withdrawal_amount_mismatch : Test unit :=
  config ← test_gnosis_config;
  _ ← open_test_db;
  token_id ← first_token_id config;
  burn_tx_out ← create_and_insert_burn_tx_out token_id 100;
  withdrawal ← mismatching_withdrawal burn_tx_out;
  _ ← insert_gnosis_withdrawal withdrawal;
  assert_not_matched withdrawal_and_burn_mismatch
    (AuditedBurn.try_match_burn_with_withdrawal burn_tx_out config)
    num_mismatching_burns_and_withdrawals.

Definition test_try_match_burn_with_withdrawal_unsaved_object : Test unit :=
  config ← test_gnosis_config;
  _ ← get_db_instance;
  token_id ← first_token_id config;
  _ ← ok get_conn;
  burn_tx_out ← create_burn_tx_out token_id 100;
  assert_not_matched object_not_saved
    (AuditedBurn.try_match_burn_with_withdrawal burn_tx_out config)
    num_unexpected_errors_matching_burns_to_withdrawals.

(** The burn of a stored pair, under a changed configuration of the first safe. *)
Definition burn_mismatch (change : AuditedSafeConfig -> AuditedSafeConfig)
    (pattern : Error -> bool) (v : CounterVar) : Test unit :=
  config ← test_gnosis_config;
  _ ← open_test_db;
  token_id ← first_token_id config;
  stored ← stored_burn_and_withdrawal token_id;
  assert_not_matched pattern
    (AuditedBurn.try_match_burn_with_withdrawal stored.1 (with_first_safe change config)) v.

Definition test_try_match_burn_with_withdrawal_mismatched_safe_addr : Test unit :=
  zero ← addr ZERO_ADDR;
  burn_mismatch (with_safe_addr zero) gnosis_safe_not_audited num_burns_from_unknown_safe.

Definition test_try_match_burn_with_withdrawal_mismatched_token_id : Test unit :=
  burn_mismatch (with_token_id 123) withdrawal_and_burn_mismatch
    num_mismatching_burns_and_withdrawals.

Definition test_try_match_burn_with_withdrawal_mismatched_token_addr : Test unit :=
  zero ← addr ZERO_ADDR;
  burn_mismatch (with_token_addrs [zero]) ethereum_token_not_audited
    num_unknown_ethereum_token_withdrawals.

Definition test_list_audited_burns : Test unit :=
  config ← test_safe_config;
  _ ← open_test_db;
  token_id ← safe_token_id config;
  pairs ← for_each (fun _ =>
        burn ← create_burn_tx_out token_id 100;
        inserted ← ok (BurnTxOut.insert burn);
        withdrawal ← create_gnosis_safe_withdrawal_from_burn_tx_out inserted;
        saved ← insert_gnosis_withdrawal withdrawal;
        _ ← ok (AuditedBurn.try_match_withdrawal_with_burn saved config);
        mret (burn, withdrawal)) (seqZ 0 10);
  all_audited_burns ← ok (AuditedBurn.list_with_burn_and_withdrawal None None);
  _ ← assert_eq (length all_audited_burns) 10%nat;
  first ← index all_audited_burns 0;
  first_pair ← index pairs 0;
  _ ← assert_eq (BurnTxOut.public_key_hex first.1.2) (BurnTxOut.public_key_hex first_pair.1);
  _ ← assert_eq (GnosisSafeWithdrawal.eth_tx_hash first.2)
        (GnosisSafeWithdrawal.eth_tx_hash first_pair.2);
  paginated_burns ← ok (AuditedBurn.list_with_burn_and_withdrawal (Some 4) (Some 3));
  _ ← assert_eq (length paginated_burns) 3%nat;
  row ← index paginated_burns 0;
  id ← unwrap_value (ab_id row.1.1);
  _ ← assert_eq id 5;
  row ← index paginated_burns 2;
  id ← unwrap_value (ab_id row.1.1);
  assert_eq id 7.
End tests.
End AuditedBurnTests.
