(* ===== verification/SyncTests.v ===== *)
(** * The unit tests of [src/db/mod.rs] and [src/gnosis/sync.rs]

    Synchronizing blocks of a test ledger, and processing the transactions of
    [data/test/all-transactions.json]. *)

From S2P Require Import Prelude Externals GnosisTypes Errors Schema Database CountersModel.
From S2P Require Import Blocks Mints Burns GnosisConfig GnosisRows AuditedMints AuditedBurns.
From S2P Require Import SyncBlock SafeSync TestUtils MatchingTests.

(** ** [db/mod.rs] *)
Module SyncBlockTests.
Section tests.
Context {X_chrono : Chrono} {X_sqlite : Sqlite} {X_hex : Hex} {X_mc : MobileCoin}.
Context {X_url : UrlLib} {X_json : SerdeJson} {X_hash : HashOrder} {X_test : TestHelpers}.
Context {E_time : PartialEq NaiveDateTime}.

(** A ledger with [INITIAL_NUM_BLOCKS] blocks that neither mint nor burn. *)
Definition INITIAL_NUM_BLOCKS : nat := 3.
Definition test_ledger : Test Ledger := draw (initialize_ledger INITIAL_NUM_BLOCKS create_ledger).

(** [sync_block] of a block of the ledger, now. *)
Definition sync_ledger_block (ledger_db : Ledger) (block_index : Z) : Test (App SyncBlockData) :=
  block_data ← pure_ext (ledger_block_data block_index ledger_db);
  now ← draw utc_now;
  mret (ReserveAuditorDb.sync_block block_data.1 block_data.2 (Some now)).

Definition sync_initial_blocks (ledger_db : Ledger) : Test (list SyncBlockData) :=
  for_each (fun i => sync ← sync_ledger_block ledger_db i; ok sync)
    (seqZ 0 (Z.of_nat INITIAL_NUM_BLOCKS)).

(** [append_and_sync(..).unwrap()], and the kinds of blocks the tests append. *)
Definition append (contents : BlockContents) (ledger_db : Ledger)
  : Test (SyncBlockData * Z * Ledger) := unwrapped (append_and_sync contents ledger_db).
Definition config_block (mint_config_txs : list CoreMintConfigTx) : BlockContents :=
  mkBlockContents mint_config_txs [] [].
(** A block of mints, with three outputs. *)
Definition mint_block (mint_txs : list CoreMintTx) : Test BlockContents :=
  outputs ← for_each (fun _ => draw create_test_tx_out) (seqZ 0 3);
  mret (mkBlockContents [] mint_txs outputs).

(** [BurnTxOut::without_id] on every burn. *)
Definition without_id (b : BurnTxOut) : BurnTxOut :=
  mkBurnTxOut None (bto_block_index b) (bto_block_timestamp b) (bto_token_id b) (bto_amount b)
    (bto_public_key_hex b) (bto_protobuf b).
Definition strip_ids (data : SyncBlockData) : SyncBlockData :=
  mkSyncBlockData (sbd_block_audit data) (sbd_balance_map data) (sbd_mint_txs data)
    (without_id <$> sbd_burn_tx_outs data).

(** [sync_block_data], its ids stripped off, has these balances, the stored mints of its
    block and these burns. *)
Definition assert_sync_data (sync_block_data : SyncBlockData) (block_index : Z)
    (balances : list (Z * Z)) (burns : list TxOut) : Test unit :=
  mint_txs ← ok (MintTx.get_mint_txs_by_block_index block_index);
  burn_tx_outs ← for_each (fun tx_out => pure (BurnTxOut.from_core_tx_out block_index None tx_out))
    burns;
  assert_eq (strip_ids sync_block_data)
    (mkSyncBlockData (BlockAuditData.new block_index) (collect_map balances) mint_txs burn_tx_outs).

(** The three counters the tests look at. *)
Definition assert_sync_counters (blocks_synced burns_exceeding_balance without_config : Z)
  : Test unit :=
  _ ← assert_counter num_blocks_synced blocks_synced;
  _ ← assert_counter num_burns_exceeding_balance burns_exceeding_balance;
  assert_counter num_mint_txs_without_matching_mint_config without_config.

Definition test_sync_block_happy_flow : Test unit :=
  let token_id1 := 1 in
  let token_id2 := 22 in
  let token_id3 := 3 in
  _ ← open_test_db;
  ledger_db ← test_ledger;
  synced ← sync_initial_blocks ledger_db;
  _ ← assert_eq synced ((fun i => mkSyncBlockData (BlockAuditData.new i) ∅ [] []) <$>
        seqZ 0 (Z.of_nat INITIAL_NUM_BLOCKS));
  (* A block with mint configurations. *)
  created1 ← draw (create_mint_config_tx_and_signers token_id1);
  created2 ← draw (create_mint_config_tx_and_signers token_id2);
  created3 ← draw (create_mint_config_tx_and_signers token_id3);
  appended ← append (config_block [created1.1; created2.1; created3.1]) ledger_db;
  let '(sync_block_data, block_index, ledger_db) := appended in
  _ ← assert_eq sync_block_data (mkSyncBlockData (BlockAuditData.new block_index) ∅ [] []);
  (* A block with a few mints. *)
  mint_tx1 ← draw (create_mint_tx token_id1 created1.2 1);
  mint_tx2 ← draw (create_mint_tx token_id2 created2.2 2);
  mint_tx3 ← draw (create_mint_tx token_id1 created1.2 100);
  block_contents ← mint_block [mint_tx1; mint_tx2; mint_tx3];
  appended ← append block_contents ledger_db;
  let '(sync_block_data, block_index, ledger_db) := appended in
  _ ← assert_sync_data sync_block_data block_index [(token_id1, 101); (token_id2, 2)] [];
  (* Two burns and an unrelated output. *)
  tx_out1 ← draw (tx_out_to_burn_address 50 token_id1);
  tx_out2 ← draw (tx_out_to_burn_address 10 token_id1);
  tx_out3 ← draw create_test_tx_out;
  appended ← append (mkBlockContents [] [] [tx_out1; tx_out2; tx_out3]) ledger_db;
  let '(sync_block_data, block_index, ledger_db) := appended in
  _ ← assert_sync_data sync_block_data block_index [(token_id1, 41); (token_id2, 2)]
        [tx_out1; tx_out2];
  (* A block that mixes burning and minting. *)
  mint_tx1 ← draw (create_mint_tx token_id1 created1.2 1000);
  mint_tx2 ← draw (create_mint_tx token_id2 created2.2 2000);
  mint_tx3 ← draw (create_mint_tx token_id3 created3.2 20000);
  tx_out1 ← draw (tx_out_to_burn_address 900 token_id1);
  tx_out2 ← draw (tx_out_to_burn_address 1000 token_id2);
  tx_out3 ← draw create_test_tx_out;
  appended ← append (mkBlockContents [] [mint_tx1; mint_tx2; mint_tx3] [tx_out1; tx_out2; tx_out3])
    ledger_db;
  let '(sync_block_data, block_index, ledger_db) := appended in
  _ ← assert_sync_data sync_block_data block_index
        [(token_id1, 141); (token_id2, 1002); (token_id3, 20000)] [tx_out1; tx_out2];
  assert_sync_counters (block_index + 1) 0 0.

(** The first block has been synced; then the [block_index]-th is refused. *)
Definition refused_after (synced : list Z) (block_index : Z) : Test unit :=
  _ ← get_db_instance;
  ledger_db ← test_ledger;
  _ ← for_each (fun i => sync ← sync_ledger_block ledger_db i; ok sync) synced;
  sync ← sync_ledger_block ledger_db block_index;
  assert_err (unexpected_block_index block_index (Z.of_nat (length synced))) sync.

Definition test_sync_block_refuses_skipping_a_block : Test unit := refused_after [0] 2.
Definition test_sync_block_refuses_same_block : Test unit := refused_after [0] 0.
Definition test_sync_block_refuses_going_backwards : Test unit :=
  refused_after (seqZ 0 (Z.of_nat INITIAL_NUM_BLOCKS)) 0.

Definition test_sync_block_increases_counter_on_over_burn : Test unit :=
  let token_id1 := 1 in
  let token_id2 := 22 in
  _ ← open_test_db;
  ledger_db ← test_ledger;
  _ ← sync_initial_blocks ledger_db;
  created1 ← draw (create_mint_config_tx_and_signers token_id1);
  created2 ← draw (create_mint_config_tx_and_signers token_id2);
  appended ← append (config_block [created1.1; created2.1]) ledger_db;
  let '(_, ledger_db) := appended in
  mint_tx1 ← draw (create_mint_tx token_id1 created1.2 1);
  mint_tx2 ← draw (create_mint_tx token_id2 created2.2 2);
  mint_tx3 ← draw (create_mint_tx token_id1 created1.2 100);
  block_contents ← mint_block [mint_tx1; mint_tx2; mint_tx3];
  appended ← append block_contents ledger_db;
  let '(sync_block_data, block_index, ledger_db) := appended in
  _ ← assert_sync_data sync_block_data block_index [(token_id1, 101); (token_id2, 2)] [];
  _ ← assert_counter num_burns_exceeding_balance 0;
  (* One of two burns exceeds its balance. *)
  tx_out1 ← draw (tx_out_to_burn_address 50000 token_id1);
  tx_out2 ← draw (tx_out_to_burn_address 2 token_id2);
  tx_out3 ← draw create_test_tx_out;
  appended ← append (mkBlockContents [] [] [tx_out1; tx_out2; tx_out3]) ledger_db;
  let '(sync_block_data, block_index, ledger_db) := appended in
  _ ← assert_sync_data sync_block_data block_index [(token_id1, 0); (token_id2, 0)]
        [tx_out1; tx_out2];
  _ ← assert_counter num_burns_exceeding_balance 1;
  (* Now both do. *)
  tx_out1 ← draw (tx_out_to_burn_address 50000 token_id1);
  tx_out2 ← draw (tx_out_to_burn_address 2 token_id2);
  tx_out3 ← draw create_test_tx_out;
  _ ← append (mkBlockContents [] [] [tx_out1; tx_out2; tx_out3]) ledger_db;
  assert_counter num_burns_exceeding_balance 3.

(** A block the ledger would not take, after its latest block. *)
Definition next_block_index (ledger_db : Ledger) (contents : BlockContents) : Test Z :=
  parent_block ← pure_ext (latest_block_index ledger_db);
  mret (block_with_parent_index parent_block contents).

(** It is synced in a transaction that is rolled back, and counts the mint. *)
Definition counted_and_rolled_back (mint_tx : CoreMintTx) (ledger_db : Ledger) : Test unit :=
  block_contents ← mint_block [mint_tx];
  block_index ← next_block_index ledger_db block_contents;
  now ← draw utc_now;
  _ ← run (transaction (A := unit) (
        _ ← unwrapped (ReserveAuditorDb.sync_block_with_conn block_index block_contents (Some now));
        counters ← unwrapped Counters.get;
        _ ← assert_eq (counter_get num_blocks_synced counters) (block_index + 1);
        _ ← assert_eq (counter_get num_burns_exceeding_balance counters) 0;
        _ ← assert_eq (counter_get num_mint_txs_without_matching_mint_config counters) 1;
        throw NotFound));
  mret tt.

Definition test_sync_block_counts_mint_txs_without_active_config : Test unit :=
  let token_id1 := 1 in
  let token_id2 := 22 in
  _ ← open_test_db;
  ledger_db ← test_ledger;
  _ ← sync_initial_blocks ledger_db;
  created1 ← draw (create_mint_config_tx_and_signers token_id1);
  created2 ← draw (create_mint_config_tx_and_signers token_id2);
  appended ← append (config_block [created1.1; created2.1]) ledger_db;
  let '(_, ledger_db) := appended in
  (* A mint with the signers of another token. *)
  mint_tx1 ← draw (create_mint_tx token_id1 created2.2 1);
  _ ← counted_and_rolled_back mint_tx1 ledger_db;
  (* A block that invalidates the previous configurations. *)
  created3 ← draw (create_mint_config_tx_and_signers token_id1);
  appended ← append (config_block [created3.1]) ledger_db;
  let '(_, ledger_db) := appended in
  (* A mint with the signers of one that is no longer valid. *)
  mint_tx2 ← draw (create_mint_tx token_id1 created1.2 1);
  _ ← counted_and_rolled_back mint_tx2 ledger_db;
  (* A mint that matches a valid configuration. *)
  mint_tx3 ← draw (create_mint_tx token_id1 created3.2 1);
  block_contents ← mint_block [mint_tx3];
  appended ← append block_contents ledger_db;
  let '(_, block_index, _) := appended in
  assert_sync_counters (block_index + 1) 0 0.

Definition test_sync_blocks_counts_mint_txs_exceeding_total_mint_limit : Test unit :=
  let token_id1 := 1 in
  _ ← open_test_db;
  ledger_db ← test_ledger;
  _ ← sync_initial_blocks ledger_db;
  created ← draw (create_mint_config_tx_and_signers token_id1);
  let mint_config_tx1 := with_total_mint_limit 2 created.1 in
  config ← index (core_mint_config_tx_configs mint_config_tx1) 0;
  let total_mint_limit := core_mint_config_tx_total_mint_limit mint_config_tx1 in
  _ ← assert (total_mint_limit <? core_mint_config_mint_limit config);
  appended ← append (config_block [mint_config_tx1]) ledger_db;
  let '(_, ledger_db) := appended in
  (* A block that mints the total limit. *)
  mint_tx1 ← draw (create_mint_tx token_id1 created.2 total_mint_limit);
  block_contents ← mint_block [mint_tx1];
  appended ← append block_contents ledger_db;
  let '(_, block_index, ledger_db) := appended in
  _ ← assert_sync_counters (block_index + 1) 0 0;
  (* Minting more is flagged. *)
  mint_tx1 ← draw (create_mint_tx token_id1 created.2 1);
  block_contents ← mint_block [mint_tx1];
  block_index ← next_block_index ledger_db block_contents;
  now ← draw utc_now;
  _ ← ok (ReserveAuditorDb.sync_block block_index block_contents (Some now));
  assert_sync_counters (block_index + 1) 0 1.
End tests.
End SyncBlockTests.

(** ** [gnosis/sync.rs] *)
Module GnosisSyncTests.
Section tests.
Context {X_chrono : Chrono} {X_sqlite : Sqlite} {X_hex : Hex} {X_mc : MobileCoin}.
Context {X_url : UrlLib} {X_json : SerdeJson} {X_hash : HashOrder} {X_test : TestHelpers}.
Context {E_time : PartialEq NaiveDateTime}.
(** [serde_json::from_str(ALL_TRANSACTIONS_JSON)]. *)
Variable all_transactions_response : ext AllTransactionsResponse.

Definition get_raw_transactions : Test (list raw_transaction) :=
  response ← pure_ext all_transactions_response; mret (atr_results response).

(** [DateTime::parse_from_rfc3339(..).unwrap().with_timezone(&Utc)]. *)
Definition date (s : string) : Test DateTime := pure_ext (parse_from_rfc3339 s).

(** The token of these tests; the source writes it out each time. *)
Definition test_token (decimals : Z) (token_addr burn_addr : string) (sig : array 4)
  : Test AuditedToken :=
  token_addr ← addr token_addr;
  burn_addr ← addr burn_addr;
  mret (mkAuditedToken 1 "ERC20" [token_addr] "TestToken" "TT" decimals LOGO_URI burn_addr sig).

Definition test_safe (safe_addr : string) (token_decimals_max : Z) (tokens : list AuditedToken)
  : Test AuditedSafeConfig :=
  safe_addr ← addr safe_addr;
  api_url ← url "http://unused:8545";
  mret (mkAuditedSafeConfig safe_addr api_url tokens token_decimals_max).

Definition expected_deposit (id : Z) (hash execution_date : string) (value block_number amount : Z)
  : Test GnosisSafeDeposit :=
  hash ← pure (EthTxHash.from_str hash);
  execution_date ← date execution_date;
  safe_addr ← addr SAFE_ADDR;
  token_addr ← addr ETH_TOKEN_CONTRACT_ADDR;
  from_addr ← addr GNOSIS_SAFE_DEPOSIT_FROM_ADDR;
  mret (GnosisSafeDeposit.new (Some id) hash execution_date (EthTxValue.mk value) block_number
          safe_addr token_addr from_addr amount).

Definition expected_withdrawal (id : Z) (hash execution_date : string)
    (value block_number amount : Z) : Test GnosisSafeWithdrawal :=
  hash ← pure (EthTxHash.from_str hash);
  execution_date ← date execution_date;
  safe_addr ← addr SAFE_ADDR;
  token_addr ← addr ETH_TOKEN_CONTRACT_ADDR;
  to_addr ← addr GNOSIS_SAFE_WITHDRAWAL_TO_ADDR;
  mret (GnosisSafeWithdrawal.new (Some id) hash execution_date (EthTxValue.mk value) block_number
          safe_addr token_addr to_addr amount
          "0102030405060708090a0b0c0d0e0f101112131415161718191a1b1c1d1e1f20").

(** The tables, in the order of [eth_block_number]. *)
Definition stored_deposits : App (list GnosisSafeDeposit) :=
  exec (load_ordered gsd_eth_block_number rows).
Definition stored_withdrawals : App (list GnosisSafeWithdrawal) :=
  exec (load_ordered gsw_eth_block_number rows).

Definition process_transactions_works : Test unit :=
  _ ← open_test_db;
  raw_transactions ← get_raw_transactions;
  token ← test_token 18 ETH_TOKEN_CONTRACT_ADDR AUX_BURN_CONTRACT_ADDR AUX_BURN_FUNCTION_SIG;
  audited_safe_config ← test_safe SAFE_ADDR 6 [token];
  expected_deposit1 ← expected_deposit 2
    "0xa202a4c37f0670557ceeb33f796fba0c187f699f5dd4d8add0eba1c3154b2fa7"
    "2022-06-09T23:59:07Z" 1000000000000000000 10824613 1000000;
  expected_deposit2 ← expected_deposit 1
    "0x4f3124c61c48aa7c7892f8fe426e0c0d8afae100fc0a9aa8e290e530a7632849"
    "2022-06-10T00:11:23Z" 10000000000000000000 10824662 10000000;
  mint_tx1 ← insert_mint_tx_from_deposit expected_deposit1;
  mint_tx2 ← insert_mint_tx_from_deposit expected_deposit2;
  (* An unrelated mint. *)
  created ← draw (create_mint_config_tx_and_signers 1);
  core_mint_tx3 ← draw (create_mint_tx 1 created.2 100);
  mint_tx3 ← ok (MintTx.insert_from_core_mint_tx 0 None None core_mint_tx3);
  (* Initially, none are audited. *)
  unaudited ← ok MintTx.find_unaudited_mint_txs;
  _ ← assert (same_set unaudited [mint_tx1; mint_tx2; mint_tx3]);
  _ ← ok (GnosisSync.process_transactions audited_safe_config raw_transactions);
  (* The expected deposits and withdrawals are found. *)
  _ ← assert_ok stored_deposits [expected_deposit1; expected_deposit2];
  withdrawals ← ok stored_withdrawals;
  expected_withdrawal1 ← expected_withdrawal 2
    "0x323b145662d2a64de0a55977089b7a89ed6003e341d5a68266a200dde83639d4"
    "2022-06-10T00:04:38Z" 500000000000000000 10824635 500000;
  expected_withdrawal2 ← expected_withdrawal 1
    "0x2f55d7b7620876c1dfc25419937a7fd2538489c1dd3adf6b438396a958d88e28"
    "2022-06-10T00:15:23Z" 2000000000000000000 10824678 2000000;
  _ ← assert_eq withdrawals [expected_withdrawal1; expected_withdrawal2];
  (* Only the third mint remains unaudited. *)
  assert_ok MintTx.find_unaudited_mint_txs [mint_tx3].

(** The second configuration of the test below: a token with an unknown contract, one with an
    unknown burn contract, and one with an unknown burn function. *)
Definition unknown_token_config : Test AuditedSafeConfig :=
  unknown_token ← test_token 9 ZERO_ADDR AUX_BURN_CONTRACT_ADDR AUX_BURN_FUNCTION_SIG;
  unknown_burn_addr ← test_token 9 ETH_TOKEN_CONTRACT_ADDR ZERO_ADDR AUX_BURN_FUNCTION_SIG;
  unknown_burn_sig ← test_token 9 ETH_TOKEN_CONTRACT_ADDR AUX_BURN_CONTRACT_ADDR
    (mk_array [xc7; x6f; x06; xff] (bool_decide_pack _ eq_refl));
  test_safe SAFE_ADDR 9 [unknown_token; unknown_burn_addr; unknown_burn_sig].

Definition process_transactions_ignores_unknown : Test unit :=
  _ ← open_test_db;
  raw_transactions ← get_raw_transactions;
  token ← test_token 9 ETH_TOKEN_CONTRACT_ADDR AUX_BURN_CONTRACT_ADDR AUX_BURN_FUNCTION_SIG;
  unknown_safe_audited_safe_config ← test_safe ZERO_ADDR 9 [token];
  unknown_token_audited_safe_config ← unknown_token_config;
  _ ← ok (GnosisSync.process_transactions unknown_safe_audited_safe_config raw_transactions);
  _ ← ok (GnosisSync.process_transactions unknown_token_audited_safe_config raw_transactions);
  _ ← assert_ok stored_deposits [];
  assert_ok stored_withdrawals [].
End tests.
End GnosisSyncTests.
