(* ===== verification/ApiTests.v ===== *)
(** * The unit tests of [src/convert], [src/service.rs] and [src/http_api/service.rs] *)

From S2P Require Import Prelude Externals GnosisTypes Errors Schema Database CountersModel.
From S2P Require Import Blocks Mints Burns GnosisConfig GnosisRows AuditedMints AuditedBurns.
From S2P Require Import SyncBlock Convert Service Http TestUtils SyncTests.

(** ** [convert] *)
Module ConvertTests.
Section tests.
Context {X_chrono : Chrono} {X_sqlite : Sqlite} {X_hex : Hex} {X_mc : MobileCoin}.
Context {X_url : UrlLib} {X_json : SerdeJson} {X_hash : HashOrder} {X_test : TestHelpers}.
Context {X_proto : ExternalProto} {E_time : PartialEq NaiveDateTime}.

Definition TEST_TX_HASH : string :=
  "0x0e781edb7739aa88ad2ffb6a69aab46ff9e32dbd0f0c87e4006a176838b075d2".

Definition test_convert_gnosis_safe_deposit : Test unit :=
  hash ← pure (EthTxHash.from_str TEST_TX_HASH);
  now ← draw utc_now;
  safe_addr ← addr SAFE_ADDR;
  token_addr ← addr ETH_TOKEN_CONTRACT_ADDR;
  from_addr ← addr GNOSIS_SAFE_DEPOSIT_FROM_ADDR;
  let source := GnosisSafeDeposit.new (Some 10) hash now (EthTxValue.mk 333000000000000) 123456
                  safe_addr token_addr from_addr 333 in
  external ← lift (ProtoGnosisSafeDeposit.from_db source);
  recovered ← pure (ProtoGnosisSafeDeposit.to_db external);
  assert_eq source recovered.

(** The JSON text [{"test": 10}]. *)
Definition quote : string := String (Ascii.ascii_of_nat 34) EmptyString.
Definition test_raw_tx_json : string := "{" +:+ quote +:+ "test" +:+ quote +:+ ": 10}".

Definition test_convert_gnosis_safe_tx : Test unit :=
  let source := mkGnosisSafeTx TEST_TX_HASH test_raw_tx_json in
  let external := ProtoGnosisSafeTx.from_db source in
  let recovered := ProtoGnosisSafeTx.to_db external in
  assert_eq source recovered.

Definition test_convert_gnosis_safe_withdrawal : Test unit :=
  hash ← pure (EthTxHash.from_str TEST_TX_HASH);
  now ← draw utc_now;
  safe_addr ← addr SAFE_ADDR;
  token_addr ← addr ETH_TOKEN_CONTRACT_ADDR;
  to_addr ← addr GNOSIS_SAFE_WITHDRAWAL_TO_ADDR;
  let source := GnosisSafeWithdrawal.new (Some 10) hash now (EthTxValue.mk 333000000000000) 123456
                  safe_addr token_addr to_addr 333
                  "1111111111111111111111111111111111111111111111111111111111111111" in
  external ← pure (ProtoGnosisSafeWithdrawal.from_db source);
  recovered ← pure (ProtoGnosisSafeWithdrawal.to_db external);
  assert_eq source recovered.
End tests.
End ConvertTests.

(** [get_test_db] of both services: a ledger of one block, then a block with mint
    configurations and one with mints. *)
Section test_db.
Context {X_chrono : Chrono} {X_sqlite : Sqlite} {X_hex : Hex} {X_mc : MobileCoin}.
Context {X_url : UrlLib} {X_json : SerdeJson} {X_hash : HashOrder} {X_test : TestHelpers}.

Definition get_test_db : Test unit :=
  let token_id1 := 1 in
  let token_id2 := 22 in
  _ ← get_db_instance;
  let num_initial_blocks := 1%nat in
  ledger_db ← draw (initialize_ledger num_initial_blocks create_ledger);
  _ ← for_each (fun block_index =>
        sync ← SyncBlockTests.sync_ledger_block ledger_db block_index;
        ok sync) (seqZ 0 (Z.of_nat num_initial_blocks));
  created1 ← draw (create_mint_config_tx_and_signers token_id1);
  created2 ← draw (create_mint_config_tx_and_signers token_id2);
  appended ← SyncBlockTests.append (SyncBlockTests.config_block [created1.1; created2.1]) ledger_db;
  let '(_, ledger_db) := appended in
  mint_tx1 ← draw (create_mint_tx token_id1 created1.2 1);
  mint_tx2 ← draw (create_mint_tx token_id2 created2.2 2);
  mint_tx3 ← draw (create_mint_tx token_id1 created1.2 100);
  block_contents ← SyncBlockTests.mint_block [mint_tx1; mint_tx2; mint_tx3];
  _ ← SyncBlockTests.append block_contents ledger_db;
  mret tt.
End test_db.

(** ** [service.rs]

    A call of the client is a call of the method behind it. *)
Module ServiceTests.
Import ReserveAuditorService.
Section tests.
Context {X_chrono : Chrono} {X_sqlite : Sqlite} {X_hex : Hex} {X_mc : MobileCoin}.
Context {X_url : UrlLib} {X_json : SerdeJson} {X_hash : HashOrder} {X_test : TestHelpers}.

Definition test_get_block_audit_data : Test unit :=
  _ ← get_test_db;
  block_index ← ok (get_block_audit_data_impl 2);
  assert_eq block_index 2.

Definition test_get_last_block_audit_data : Test unit :=
  _ ← get_test_db;
  block_index ← ok get_last_block_audit_data_impl;
  assert_eq block_index 2.

Definition test_get_counters : Test unit :=
  _ ← get_test_db;
  response ← ok get_counters_impl;
  let expected := ProtoCounters.mk 3 0 0 0 0 0 0 0 0 0 0 0 0 0 0 in
  assert (forallb (fun v => ProtoCounters.field v response ==? ProtoCounters.field v expected)
            all_counters).
End tests.
End ServiceTests.

(** ** [http_api/service.rs] *)
Module HttpServiceTests.
Import ReserveAuditorHttpService.
Section tests.
Context {X_chrono : Chrono} {X_sqlite : Sqlite} {X_hex : Hex} {X_mc : MobileCoin}.
Context {X_url : UrlLib} {X_json : SerdeJson} {X_hash : HashOrder} {X_test : TestHelpers}.
Context {E_time : PartialEq NaiveDateTime}.

Definition test_get_block_audit_data : Test unit :=
  _ ← get_test_db;
  _ ← test_gnosis_config;
  response ← ok (get_block_audit_data 2);
  _ ← assert_eq (badr_block_index response) 2;
  assert_eq (badr_balances response) (collect_map [(1, 101); (22, 2)]).

Definition test_get_last_block_audit_data : Test unit :=
  _ ← get_test_db;
  _ ← test_gnosis_config;
  response ← ok get_last_block_audit_data;
  _ ← assert_eq (badr_block_index response) 2;
  assert_eq (badr_balances response) (collect_map [(1, 101); (22, 2)]).

(** One of the deposits with their mints. *)
Definition deposit_and_mint : Test (GnosisSafeDeposit * MintTx) :=
  deposit ← create_gnosis_safe_deposit 100;
  inserted ← insert_gnosis_deposit deposit;
  mint ← insert_mint_tx_from_deposit inserted;
  mret (deposit, mint).

Definition test_get_mint_total : Test unit :=
  _ ← open_test_db;
  _ ← test_gnosis_config;
  deposited ← for_each (fun _ => _ ← deposit_and_mint; mret 100) (seqZ 0 10);
  mint_balance ← ok (get_mint_total 1);
  assert_eq mint_balance (foldr Z.add 0 deposited).

Definition test_get_burn_total : Test unit :=
  _ ← open_test_db;
  _ ← test_gnosis_config;
  burned ← for_each (fun _ => _ ← create_and_insert_burn_tx_out 1 100; mret 100) (seqZ 0 10);
  burn_balance ← ok (get_burn_total 1);
  assert_eq burn_balance (foldr Z.add 0 burned).

Definition test_get_counters : Test unit :=
  _ ← get_test_db;
  _ ← test_gnosis_config;
  response ← ok get_counters;
  assert_eq (counter_get num_blocks_synced response) 3.

(** Such a pair, matched. *)
Definition audited_deposit_and_mint (config : GnosisSafeConfig) : Test (GnosisSafeDeposit * MintTx) :=
  pair ← deposit_and_mint;
  _ ← ok (AuditedMint.try_match_mint_with_deposit pair.2 config);
  mret pair.

Definition test_get_audited_mints_service : Test unit :=
  config ← test_gnosis_config;
  _ ← open_test_db;
  pairs ← for_each (fun _ => audited_deposit_and_mint config) (seqZ 0 10);
  all_audited_mints ← ok (get_audited_mints None None);
  _ ← assert_eq (length all_audited_mints) 10%nat;
  first ← index all_audited_mints 0;
  first_pair ← index pairs 0;
  _ ← assert_eq (amr_mint first) first_pair.2;
  _ ← assert_eq (GnosisSafeDeposit.eth_tx_hash (amr_deposit first))
        (GnosisSafeDeposit.eth_tx_hash first_pair.1);
  paginated_mints ← ok (get_audited_mints (Some 4) (Some 3));
  _ ← assert_eq (length paginated_mints) 3%nat;
  row ← index paginated_mints 0;
  id ← unwrap_value (am_id (amr_audited row));
  _ ← assert_eq id 5;
  row ← index paginated_mints 2;
  id ← unwrap_value (am_id (amr_audited row));
  assert_eq id 7.

Definition test_get_unaudited_gnosis_deposits : Test unit :=
  config ← test_gnosis_config;
  _ ← open_test_db;
  _ ← for_each (fun _ => audited_deposit_and_mint config) (seqZ 0 5);
  _ ← for_each (fun _ =>
        deposit ← create_gnosis_safe_deposit 100; insert_gnosis_deposit deposit) (seqZ 0 5);
  all_unaudited_gnosis_deposits ← ok get_unaudited_gnosis_deposits;
  assert_eq (length all_unaudited_gnosis_deposits) 5%nat.

(** [config.safes[0]] and its first token's id. *)
Definition first_safe_and_token (config : GnosisSafeConfig) : Test (AuditedSafeConfig * Z) :=
  safe ← index (gc_safes config) 0;
  token ← index (sc_tokens safe) 0;
  mret (safe, tok_token_id token).

(** A burn and its withdrawal, matched. *)
Definition audited_burn_and_withdrawal (safe : AuditedSafeConfig) (token_id : Z)
  : Test (BurnTxOut * GnosisSafeWithdrawal) :=
  burn ← create_burn_tx_out token_id 100;
  burn ← ok (BurnTxOut.insert burn);
  withdrawal ← create_gnosis_safe_withdrawal_from_burn_tx_out burn;
  inserted ← insert_gnosis_withdrawal withdrawal;
  _ ← ok (AuditedBurn.try_match_withdrawal_with_burn inserted safe);
  mret (burn, withdrawal).

Definition test_get_audited_burns_service : Test unit :=
  config ← test_gnosis_config;
  _ ← open_test_db;
  first_safe ← first_safe_and_token config;
  let '(safe, token_id) := first_safe in
  pairs ← for_each (fun _ => audited_burn_and_withdrawal safe token_id) (seqZ 0 10);
  all_audited_burns ← ok (get_audited_burns None None);
  _ ← assert_eq (length all_audited_burns) 10%nat;
  first ← index all_audited_burns 0;
  first_pair ← index pairs 0;
  _ ← assert_eq (abr_burn first) first_pair.1;
  _ ← assert_eq (GnosisSafeWithdrawal.eth_tx_hash (abr_withdrawal first))
        (GnosisSafeWithdrawal.eth_tx_hash first_pair.2);
  paginated_burns ← ok (get_audited_burns (Some 4) (Some 3));
  _ ← assert_eq (length paginated_burns) 3%nat;
  row ← index paginated_burns 0;
  id ← unwrap_value (ab_id (abr_audited row));
  _ ← assert_eq id 5;
  row ← index paginated_burns 2;
  id ← unwrap_value (ab_id (abr_audited row));
  assert_eq id 7.

Definition test_get_unaudited_burn_tx_outs : Test unit :=
  config ← test_gnosis_config;
  _ ← open_test_db;
  first_safe ← first_safe_and_token config;
  let '(safe, token_id) := first_safe in
  _ ← for_each (fun _ => audited_burn_and_withdrawal safe token_id) (seqZ 0 5);
  _ ← for_each (fun _ =>
        burn ← create_burn_tx_out token_id 100; ok (BurnTxOut.insert burn)) (seqZ 0 5);
  all_unaudited_burns ← ok get_unaudited_burn_tx_outs;
  assert_eq (length all_unaudited_burns) 5%nat.

Definition test_get_mint_info_by_block : Test unit :=
  _ ← test_gnosis_config;
  _ ← open_test_db;
  let token_id1 := 1 in
  created ← draw (create_mint_config_tx_and_signers token_id1);
  config_tx_entity ← ok (MintConfigTx.insert_from_core_mint_config_tx 5 None created.1);
  mint_tx1 ← draw (create_mint_tx token_id1 created.2 100);
  mint_tx1_entity ← ok (MintTx.insert_from_core_mint_tx 5 None (Some 1) mint_tx1);
  mint_info ← ok (get_mint_info_by_block 5);
  (* The mint has been found. *)
  mint ← index (mir_mint_txs mint_info) 0;
  mint_id ← unwrap_value (MintTx.id (mwc_mint_tx mint));
  entity_id ← unwrap_value (MintTx.id mint_tx1_entity);
  _ ← assert_eq mint_id entity_id;
  (* The configuration of the block. *)
  config ← index (mir_mint_config_txs mint_info) 0;
  config_id ← unwrap_value (MintConfigTx.id (mctwc_mint_config_tx config));
  entity_id ← unwrap_value (MintConfigTx.id config_tx_entity);
  _ ← assert_eq config_id entity_id;
  (* The configuration of the mint. *)
  id ← unwrap_value (MintConfigTx.id (mwc_mint_config_tx mint));
  _ ← assert_eq id 1;
  _ ← assert_eq id config_id;
  (* Nothing is found for another block. *)
  not_found ← ok (get_mint_info_by_block 4);
  _ ← assert_eq (length (mir_mint_txs not_found)) 0%nat;
  _ ← assert_eq (length (mir_mint_config_txs not_found)) 0%nat;
  (* The signers of the mint. *)
  assert (match mwc_mint_tx_signers mint with [] => false | _ => true end).
End tests.
End HttpServiceTests.
