(* ===== verification/ConcreteJson.v ===== *)
(** * A concrete [SerdeJson]

    JSON values, a parser and a printer for them, dates, and the decoders that the
    attributes of [api_data_types.rs] ask serde to derive.  No theorem depends on them;
    [Conformance] runs the tests of [gnosis/sync.rs] on the text of
    [data/test/all-transactions.json] with them. *)

From Stdlib Require Import Ascii.
From S2P Require Import Prelude Externals Concrete GnosisTypes GnosisConfig SafeSync.

Module Json.

(** ** Values *)
#[warnings="-register-all"]
Inductive json :=
| JNull
| JBool (b : bool)
| JNumber (n : Z)
| JString (s : string)
| JArray (l : list json)
| JObject (l : list (string * json)).

(** The double quote. *)
Definition QUOTE : ascii := ascii_of_nat 34.
(** ** Parsing *)
Definition is_space (c : ascii) : bool :=
  existsb (Ascii.eqb c) [" "%char; ascii_of_nat 10; ascii_of_nat 13; ascii_of_nat 9].
Fixpoint skip_spaces (s : string) : string :=
  match s with String c s' => if is_space c then skip_spaces s' else s | EmptyString => s end.

(** The rest of a string literal after its opening quote. *)
Fixpoint parse_string (s : string) : option (string * string) :=
  match s with
  | EmptyString => None
  | String c s' =>
      if Ascii.eqb c QUOTE then Some (EmptyString, s')
      else if Ascii.eqb c "\" then
        match s' with
        | EmptyString => None
        | String e s'' =>
            if Ascii.eqb e QUOTE || Ascii.eqb e "\" then
              x ← parse_string s''; Some (String e x.1, x.2)
            else None
        end
      else x ← parse_string s'; Some (String c x.1, x.2)
  end.

Definition digit (c : ascii) : option Z :=
  let n := Z.of_N (Ascii.N_of_ascii c) in
  if (48 <=? n) && (n <=? 57) then Some (n - 48) else None.
Fixpoint parse_digits (acc : Z) (s : string) : Z * string :=
  match s with
  | EmptyString => (acc, s)
  | String c s' =>
      match digit c with Some d => parse_digits (10 * acc + d) s' | None => (acc, s) end
  end.

Definition expect_char (c : ascii) (s : string) : option string :=
  match skip_spaces s with String c' s' => if Ascii.eqb c c' then Some s' else None | _ => None end.

(** The rest of [s] after [prefix]. *)
Fixpoint after (prefix s : string) : option string :=
  match prefix, s with
  | EmptyString, _ => Some s
  | String c p, String c' s' => if Ascii.eqb c c' then after p s' else None
  | _, _ => None
  end.

(** Elements up to the [close] bracket, after the opening one; [comma] says that
    something precedes. *)
Fixpoint parse_list {A} (item : string -> option (A * string)) (close : ascii) (comma : bool)
    (fuel : nat) (s : string) : option (list A * string) :=
  match fuel with
  | O => None
  | S fuel' =>
      match expect_char close s with
      | Some s' => Some ([], s')
      | None =>
          s ← (if comma then expect_char "," s else Some s);
          x ← item s;
          xs ← parse_list item close true fuel' x.2;
          Some (x.1 :: xs.1, xs.2)
      end
  end.

Fixpoint parse_value (fuel : nat) (s : string) : option (json * string) :=
  match fuel with
  | O => None
  | S fuel' =>
      let member s :=
        s ← expect_char QUOTE s;
        k ← parse_string s;
        s ← expect_char ":" k.2;
        v ← parse_value fuel' s;
        Some ((k.1, v.1), v.2) in
      match skip_spaces s with
      | EmptyString => None
      | String c s' as s =>
          if Ascii.eqb c QUOTE then x ← parse_string s'; Some (JString x.1, x.2)
          else if Ascii.eqb c "[" then
            x ← parse_list (parse_value fuel') "]" false (String.length s') s';
            Some (JArray x.1, x.2)
          else if Ascii.eqb c "{" then
            x ← parse_list member "}" false (String.length s') s'; Some (JObject x.1, x.2)
          else match digit c with
          | Some d => let '(n, rest) := parse_digits d s' in Some (JNumber n, rest)
          | None =>
              match after "null" s, after "true" s, after "false" s with
              | Some rest, _, _ => Some (JNull, rest)
              | _, Some rest, _ => Some (JBool true, rest)
              | _, _, Some rest => Some (JBool false, rest)
              | _, _, _ => None
              end
          end
      end
  end.

(** The nesting that serde_json allows. *)
Definition RECURSION_LIMIT : nat := 128.

Definition parse_json (s : string) : ext json :=
  match parse_value RECURSION_LIMIT s with
  | Some (v, rest) =>
      match skip_spaces rest with EmptyString => inr v | _ => inl "trailing characters" end
  | None => inl "invalid JSON"
  end.

(** ** Printing *)
Fixpoint escape (s : string) : string :=
  match s with
  | EmptyString => EmptyString
  | String c s' =>
      if Ascii.eqb c QUOTE || Ascii.eqb c "\" then String "\" (String c (escape s'))
      else String c (escape s')
  end.
Definition quoted (s : string) : string := String QUOTE (escape s +:+ String QUOTE EmptyString).

Fixpoint print_json (v : json) : string :=
  match v with
  | JNull => "null"
  | JBool b => if b then "true" else "false"
  | JNumber n => pretty n
  | JString s => quoted s
  | JArray l => "[" +:+ String.concat "," (List.map print_json l) +:+ "]"
  | JObject l =>
      "{" +:+ String.concat "," (List.map (fun kv => quoted kv.1 +:+ ":" +:+ print_json kv.2) l)
        +:+ "}"
  end.

(** ** Members *)
Definition get (v : json) (k : string) : option json :=
  match v with
  | JObject l => snd <$> List.find (fun kv => String.eqb kv.1 k) l
  | _ => None
  end.
Definition without (v : json) (k : string) : json :=
  match v with
  | JObject l => JObject (List.filter (fun kv => negb (String.eqb kv.1 k)) l)
  | v => v
  end.

#[export] Instance ext_ret : MRet (sum string) := @inr string.
#[export] Instance ext_bind : MBind (sum string) := fun A B k m =>
  match m with inl e => inl e | inr a => k a end.

Fixpoint decode_all {A} (decode : json -> ext A) (l : list json) : ext (list A) :=
  match l with
  | [] => mret []
  | v :: l' => x ← decode v; xs ← decode_all decode l'; mret (x :: xs)
  end.

Definition required {A} (decode : json -> ext A) (k : string) (v : json) : ext A :=
  match get v k with Some x => decode x | None => inl ("missing field " +:+ k) end.
(** An [Option]: absent and [null] are [None]. *)
Definition optional {A} (decode : json -> ext A) (k : string) (v : json) : ext (option A) :=
  match get v k with
  | None | Some JNull => mret None
  | Some x => a ← decode x; mret (Some a)
  end.
Definition as_string (v : json) : ext string :=
  match v with JString s => mret s | _ => inl "expected a string" end.
Definition as_unsigned (bound : Z) (v : json) : ext Z :=
  match v with
  | JNumber n => if (0 <=? n) && (n <? bound) then mret n else inl "number out of range"
  | _ => inl "expected an unsigned integer"
  end.
Definition as_array {A} (decode : json -> ext A) (v : json) : ext (list A) :=
  match v with JArray l => decode_all decode l | _ => inl "expected a sequence" end.

(** [DeserializeFromStr], [display_fromstr]. *)
Definition from_string {A} (from_str : string -> Res Gnosis.Error A) (v : json) : ext A :=
  s ← as_string v;
  match from_str s with
  | Ok a => mret a
  | Err e => inl (Gnosis.display e)
  | Panic p => inl p
  end.

(** ** Dates: [YYYY-MM-DDTHH:MM:SSZ] as nanoseconds since 1970 *)
Definition days_from_civil (y m d : Z) : Z :=
  let y := if m <=? 2 then y - 1 else y in
  let era := y / 400 in
  let yoe := y mod 400 in
  let doy := (153 * ((m + 9) mod 12) + 2) / 5 + d - 1 in
  era * 146097 + (yoe * 365 + yoe / 4 - yoe / 100 + doy) - 719468.

Definition parse_date (s : string) : ext DateTime :=
  let number sep s := let '(n, rest) := parse_digits 0 s in rest ← after sep rest; Some (n, rest) in
  match (y ← number "-" s; mo ← number "-" y.2; d ← number "T" mo.2; h ← number ":" d.2;
         mi ← number ":" h.2; sec ← number "Z" mi.2;
         if String.eqb sec.2 "" then
           Some ((((days_from_civil y.1 mo.1 d.1 * 24 + h.1) * 60 + mi.1) * 60 + sec.1) * 1000000000)
         else None) with
  | Some n => inr n
  | None => inl "input contains invalid characters"
  end.
Definition as_date (v : json) : ext DateTime := s ← as_string v; parse_date s.

Example parse_date_epoch : parse_date "1970-01-02T00:00:01Z" = inr 86401000000000.
Proof. reflexivity. Qed.

(** ** The decoders of [api_data_types.rs] *)
Fixpoint data_decoded (fuel : nat) (v : json) : ext DataDecoded :=
  match fuel with
  | O => inl "recursion limit exceeded"
  | S fuel' =>
      let value_decoded v :=
        operation ← required (as_unsigned two64) "operation" v;
        to ← required (from_string EthAddr.from_str) "to" v;
        value ← required as_string "value" v;
        data ← required as_string "data" v;
        data_decoded ← optional (data_decoded fuel') "dataDecoded" v;
        mret (mkValueDecoded operation to value data data_decoded) in
      let parameter v :=
        name ← required as_string "name" v;
        value ← required as_string "value" v;
        value_decoded ← optional (as_array value_decoded) "valueDecoded" v;
        mret (mkDataDecodedParameter name value value_decoded) in
      method ← required as_string "method" v;
      parameters ← required (as_array parameter) "parameters" v;
      mret (mkDataDecoded method parameters)
  end.

Definition token_info (v : json) : ext TokenInfo :=
  decimals ← optional (as_unsigned (2 ^ 32)) "decimals" v;
  address ← required as_string "address" v;
  mret (mkTokenInfo decimals address).

Definition ethereum_transfer (v : json) : ext EthereumTransfer :=
  from ← required (from_string EthAddr.from_str) "from" v;
  to ← required (from_string EthAddr.from_str) "to" v;
  token_addr ← optional (from_string EthAddr.from_str) "tokenAddress" v;
  tx_hash ← required (from_string EthTxHash.from_str) "transactionHash" v;
  tx_type ← required as_string "type" v;
  token_info ← optional token_info "tokenInfo" v;
  value ← optional (from_string EthTxValue.from_str) "value" v;
  mret (mkEthereumTransfer from to token_addr tx_hash tx_type token_info value).

Definition multi_sig_transaction (v : json) : ext MultiSigTransaction :=
  safe ← required (from_string EthAddr.from_str) "safe" v;
  to ← required (from_string EthAddr.from_str) "to" v;
  value ← required (from_string EthTxValue.from_str) "value" v;
  data ← optional as_string "data" v;
  eth_block_number ← required (as_unsigned two64) "blockNumber" v;
  tx_hash ← required (from_string EthTxHash.from_str) "transactionHash" v;
  data_decoded ← optional (data_decoded RECURSION_LIMIT) "dataDecoded" v;
  transfer_data ← required (as_array ethereum_transfer) "transfers" v;
  execution_date ← required as_date "executionDate" v;
  mret (mkMultiSigTransaction safe to value data eth_block_number tx_hash data_decoded
          transfer_data execution_date).

Definition ethereum_transaction (v : json) : ext EthereumTransaction :=
  tx_hash ← required (from_string EthTxHash.from_str) "txHash" v;
  eth_block_number ← required (as_unsigned two64) "blockNumber" v;
  transfers ← required (as_array ethereum_transfer) "transfers" v;
  execution_date ← required as_date "executionDate" v;
  mret (mkEthereumTransaction tx_hash eth_block_number transfers execution_date).
(** ** The decoders of [config.rs] *)
Definition byte_array (n : nat) (v : json) : ext (array n) :=
  bytes ← as_array (as_unsigned 256) v;
  match array_try_from n ((fun z => default x00 (Byte.of_N (Z.to_N z))) <$> bytes) with
  | Some a => mret a
  | None => inl "invalid length"
  end.

Definition audited_token (v : json) : ext AuditedToken :=
  token_id ← required (as_unsigned two64) "token_id" v;
  token_type ← required as_string "token_type" v;
  addrs ← required (as_array (from_string EthAddr.from_str)) "eth_token_contract_addrs" v;
  name ← required as_string "name" v;
  symbol ← required as_string "symbol" v;
  decimals ← required (as_unsigned 256) "decimals" v;
  logo_uri ← required as_string "logo_uri" v;
  burn_addr ← required (from_string EthAddr.from_str) "aux_burn_contract_addr" v;
  burn_sig ← required (byte_array 4) "aux_burn_function_sig" v;
  mret (mkAuditedToken token_id token_type addrs name symbol decimals logo_uri burn_addr burn_sig).

Definition audited_safe_config (v : json) : ext AuditedSafeConfig :=
  safe_addr ← required (from_string EthAddr.from_str) "safe_addr" v;
  api_url ← required (as_string : json -> ext Url) "api_url" v;
  tokens ← required (as_array audited_token) "tokens" v;
  token_decimals_max ← required (as_unsigned 256) "token_decimals_max" v;
  mret (mkAuditedSafeConfig safe_addr api_url tokens token_decimals_max).

Definition gnosis_safe_config (v : json) : ext GnosisSafeConfig :=
  safes ← required (as_array audited_safe_config) "safes" v; mret (mkGnosisSafeConfig safes).
Definition gnosis_safe_config_from_str (s : string) : ext GnosisSafeConfig :=
  v ← parse_json s; gnosis_safe_config v.
End Json.

#[export] Instance concrete_json : SerdeJson := {
  Value := Json.json;
  json_from_str := Json.parse_json;
  json_to_string := Json.print_json;
  json_get := Json.get;
  json_as_str v := match v with Json.JString s => Some s | _ => None end;
  json_without := Json.without;
  json_multi_sig := Json.multi_sig_transaction;
  json_ethereum := Json.ethereum_transaction;
}.

Definition all_transactions (v : Json.json) : ext AllTransactionsResponse :=
  let url v := Json.as_string v in
  match Json.required (Json.as_unsigned two64) "count" v, Json.optional url "next" v,
        Json.optional url "previous" v, Json.required (Json.as_array inr) "results" v with
  | inr count, inr next, inr previous, inr results =>
      inr (mkAllTransactionsResponse count next previous results)
  | _, _, _, _ => inl "not a response"
  end.

(** ** TOML, as far as the configuration files use it

    Lines [key = value] and [[[table]]] headers; a value is a string, an unsigned
    integer or a list of these.  A file is read as the JSON value it stands for. *)
Module Toml.
Import Json.

Fixpoint parse_hex (acc : Z) (s : string) : Z * string :=
  match s with
  | EmptyString => (acc, s)
  | String c s' =>
      match hex_value c with Some d => parse_hex (16 * acc + Z.of_N d) s' | None => (acc, s) end
  end.

Definition parse_scalar (s : string) : option (json * string) :=
  match skip_spaces s with
  | EmptyString => None
  | String c s' as s =>
      if Ascii.eqb c QUOTE then x ← parse_string s'; Some (JString x.1, x.2)
      else match after "0x" s with
      | Some digits => let '(n, rest) := parse_hex 0 digits in Some (JNumber n, rest)
      | None =>
          _ ← digit c;
          let '(n, rest) := parse_digits 0 s in Some (JNumber n, rest)
      end
  end.

Definition parse_toml_value (s : string) : option (json * string) :=
  match expect_char "[" s with
  | Some s' =>
      x ← parse_list parse_scalar "]" false (String.length s') s'; Some (JArray x.1, x.2)
  | None => parse_scalar s
  end.

(** The text up to [stop], and what follows it. *)
Fixpoint until (stop : ascii) (s : string) : string * string :=
  match s with
  | EmptyString => (EmptyString, EmptyString)
  | String c s' =>
      if Ascii.eqb c stop then (EmptyString, s')
      else let '(a, rest) := until stop s' in (String c a, rest)
  end.

(** A member added to an object, an element to the list under a key, and a change of the
    last element of that list. *)
Definition members (v : json) : list (string * json) := match v with JObject l => l | _ => [] end.
Definition elements (v : option json) : list json := match v with Some (JArray l) => l | _ => [] end.
Definition set_member (k : string) (x v : json) : json := JObject (members (without v k) ++ [(k, x)]).
Definition add_element (k : string) (v : json) : json :=
  set_member k (JArray (elements (get v k) ++ [JObject []])) v.
Definition change_last (f : json -> json) (k : string) (v : json) : json :=
  let l := elements (get v k) in set_member k (JArray (alter f (length l - 1)%nat l)) v.

(** [path] leads to the table that members are added to. *)
Definition at_path (path : list string) (f : json -> json) : json -> json :=
  foldr (fun k f => change_last f k) f path.

Fixpoint parse_lines (fuel : nat) (path : list string) (s : string) (v : json) : option json :=
  match fuel with
  | O => None
  | S fuel' =>
      match skip_spaces s with
      | EmptyString => Some v
      | s =>
          match after "[[safes]]" s, after "[[safes.tokens]]" s with
          | Some rest, _ => parse_lines fuel' ["safes"] rest (add_element "safes" v)
          | _, Some rest =>
              parse_lines fuel' ["safes"; "tokens"] rest (at_path ["safes"] (add_element "tokens") v)
          | None, None =>
              let '(key, rest) := until " " s in
              rest ← expect_char "=" rest;
              x ← parse_toml_value rest;
              parse_lines fuel' path x.2 (at_path path (set_member key x.1) v)
          end
      end
  end.

Definition gnosis_safe_config_from_str (s : string) : ext GnosisSafeConfig :=
  match parse_lines (String.length s) [] s (JObject []) with
  | Some v => Json.gnosis_safe_config v
  | None => inl "invalid TOML"
  end.
End Toml.
