(* ===== verification/Conformance.v ===== *)
(** * The unit tests pass on the model

    Concrete instances of what the tests take from other crates ([TestHelpers]), for the
    encodings of [Concrete], and one lemma per test module: every test of it returns. *)

From Stdlib Require Import Ascii.
From S2P Require Import Prelude Externals Concrete GnosisTypes Errors Schema Database.
From S2P Require Import CountersModel Blocks Mints Burns GnosisConfig GnosisRows AuditedMints.
From S2P Require Import AuditedBurns SyncBlock SafeSync Convert ConcreteJson SafeFixture.
From S2P Require Import TestUtils ModelTests MatchingTests SyncTests ApiTests.

(** ** The instances *)

(** [n] bytes of a number, least significant first. *)
Fixpoint to_le_bytes (n : nat) (z : Z) : list byte :=
  match n with
  | O => []
  | S n' => default x00 (Byte.of_N (Z.to_N (z mod 256))) :: to_le_bytes n' (z / 256)
  end.
Definition u64_bytes (z : Z) : list byte := to_le_bytes 8 z.

(** The environment is a counter: every draw gets a number of its own. *)
Definition tick (n : Z) : Z * Z := (n, n + 1).
Definition fresh_bytes (len : nat) (n : Z) : list byte * Z := (to_le_bytes len n, n + 1).

(** A key pair is the number of its signer.  Two configurations: the limit and the
    signer of each. *)
Definition concrete_config (limit signer : Z) : list byte := u64_bytes limit ++ u64_bytes signer.
Definition concrete_config_tx (token_id signer : Z) (nonce : list byte) : list byte :=
  u64_bytes token_id ++ u64_bytes 10000000 ++ u64_bytes 100 ++ nonce
    ++ concrete_config 1000000 signer ++ concrete_config 2000000 (signer + 1000000).
Definition concrete_mint_tx (token_id signer amount : Z) (nonce : list byte) : list byte :=
  u64_bytes token_id ++ u64_bytes amount ++ u64_bytes 100 ++ u64_bytes signer ++ nonce
    ++ u64_bytes 1 ++ u64_bytes 2.
Definition concrete_tx_out (key : list byte) : list byte := key ++ [x00].
Definition concrete_burn (key memo : list byte) (amount token_id : Z) : list byte :=
  key ++ [x01] ++ u64_bytes amount ++ u64_bytes token_id ++ memo.

#[local] Instance concrete_test_helpers : TestHelpers := {
  Rng := Z;
  get_seeded_rng := 1;
  random_array len n := (array_of len (to_le_bytes len n), n + 1);
  utc_now := tick;
  parse_from_rfc3339 := Json.parse_date;
  url_parse := inr;
  json_object members := Json.JObject (prod_map id Json.JString <$> members);
  Signers := Z;
  create_mint_config_tx_and_signers token_id n :=
    ((concrete_config_tx token_id n (to_le_bytes 64 n), n), n + 1);
  create_mint_tx token_id signer amount n :=
    (concrete_mint_tx token_id signer amount (to_le_bytes 64 n), n + 1);
  create_test_tx_out n := (concrete_tx_out (to_le_bytes 32 n), n + 1);
  with_nonce nonce tx := take 32 tx ++ pad 64 nonce ++ drop 96 tx;
  with_total_mint_limit limit tx := take 8 tx ++ u64_bytes limit ++ drop 16 tx;
  tx_out_to_burn_address value token_id n :=
    (concrete_burn (to_le_bytes 32 n) [] value token_id, n + 1);
  build_burn_tx_out memo amount token_id n :=
    (concrete_burn (to_le_bytes 32 n) (x00 :: memo) amount token_id, n + 1);
  Ledger := list BlockContents;
  create_ledger := [];
  initialize_ledger num_blocks ledger n :=
    (ledger ++ ((fun i => mkBlockContents [] []
                   [concrete_tx_out (to_le_bytes 32 (n + Z.of_nat i))]) <$> seq 0 num_blocks),
     n + Z.of_nat num_blocks);
  ledger_block_data i ledger :=
    match ledger !! Z.to_nat i with Some contents => inr (i, contents) | None => inl "NotFound" end;
  add_block_contents_to_ledger contents ledger n :=
    (inr (Z.of_nat (length ledger), ledger ++ [contents]), n);
  latest_block_index ledger :=
    match ledger with [] => inl "NotFound" | _ => inr (Z.of_nat (length ledger) - 1) end;
  block_with_parent_index parent _ := parent + 1;
}.

(** The extension of a path is what follows its last dot. *)
Fixpoint extension_of (acc : option string) (s : string) : option string :=
  match s with
  | EmptyString => acc
  | String c s' => extension_of (if Ascii.eqb c "." then Some s' else acc) s'
  end.
#[local] Instance concrete_config_files : ConfigFiles := {
  fs_read_to_string path :=
    inr (if String.eqb path "testing.json" then DataTypeTests.INPUT_JSON
         else DataTypeTests.INPUT_TOML);
  path_extension := extension_of None;
  toml_from_str := Toml.gnosis_safe_config_from_str;
  json_config_from_str := Json.gnosis_safe_config_from_str;
}.

#[local] Instance url_partial_eq : PartialEq Url := String.eqb.
#[local] Instance time_partial_eq : PartialEq NaiveDateTime := Z.eqb.
#[local] Instance config_partial_eq : PartialEq CoreMintConfig := list_partial_eq.
#[local] Instance config_tx_partial_eq : PartialEq CoreMintConfigTx := list_partial_eq.

Definition all_transactions_response : ext AllTransactionsResponse :=
  all_transactions all_transactions_json.

(** ** The tests *)
Import DataTypeTests BlockTests MintTests BurnTests SafeRowTests.

(** [eth_data_types.rs]. *)
Lemma eth_data_types_tests_pass :
  forallb passes [valid_eth_addr; invalid_eth_addr; valid_eth_tx_value; invalid_eth_tx_value] = true.
Proof. vm_compute. reflexivity. Qed.

(** [gnosis/utils.rs]. *)
Lemma gnosis_utils_tests_pass :
  forallb passes [truncate_value_works; truncate_value_foors_correctly;
    truncate_preserves_original_value] &&
  panics_with "Failed to truncate EthTxValue token value to u64" truncate_value_fails_correctly
  = true.
Proof. vm_compute. reflexivity. Qed.

(** [gnosis/config.rs]. *)
Lemma gnosis_config_tests_pass : forallb passes [unsupported_extension; no_extension] = true.
Proof. vm_compute. reflexivity. Qed.

(** [mint_tx_nonce.rs]. *)
Lemma mint_tx_nonce_tests_pass :
  forallb passes [mint_tx_nonce_to_bytes_works; mint_tx_nonce_from_bytes_works] = true.
Proof. vm_compute. reflexivity. Qed.

(** [block_audit_data.rs], [block_balance.rs], [counters.rs]. *)
Lemma block_tests_pass :
  forallb passes [last_synced_block_index_works; block_balance_test; counters_sanity_test] = true.
Proof. vm_compute. reflexivity. Qed.

(** [mint_config.rs]. *)
Lemma mint_config_tests_pass :
  forallb passes [get_by_mint_config_tx_id_works;
    mint_config_get_total_minted_before_block_works] = true.
Proof. vm_compute. reflexivity. Qed.

(** [mint_config_tx.rs]. *)
Lemma mint_config_tx_tests_pass :
  forallb passes [most_recent_for_token_works; mint_config_tx_insert_enforces_uniqueness;
    mint_config_tx_get_total_minted_before_block_works; test_get_config_txs_by_block] = true.
Proof. vm_compute. reflexivity. Qed.

(** [mint_tx.rs]. *)
Lemma mint_tx_tests_pass :
  forallb passes [mint_tx_insert_enforces_uniqueness; test_find_unaudited_mint_tx_by_nonce;
    test_get_mint_amounts; test_get_mints_by_block] = true.
Proof. vm_compute. reflexivity. Qed.

(** [burn_tx_out.rs]. *)
Lemma burn_tx_out_tests_pass :
  forallb passes [burn_tx_out_insert_enforces_uniqueness; burn_redemption_memo_works;
    test_find_unaudited_burn_tx_out_by_public_key; test_get_burn_amounts;
    test_get_burn_txs_by_block] = true.
Proof. vm_compute. reflexivity. Qed.

(** [gnosis_safe_deposit.rs], [gnosis_safe_withdrawal.rs]. *)
Lemma safe_row_tests_pass :
  forallb passes [test_find_unaudited_deposits_by_nonce;
    test_find_unaudited_withdrawal_by_public_key; test_find_unaudited_withdrawals] = true.
Proof. vm_compute. reflexivity. Qed.

(** [audited_mint.rs]. *)
Lemma audited_mint_tests_pass :
  forallb passes [AuditedMintTests.test_try_match_deposit_with_mint_happy_flow;
    AuditedMintTests.test_try_match_deposit_with_mint_amount_mismatch;
    AuditedMintTests.test_try_match_deposit_with_mint_unsaved_object;
    AuditedMintTests.test_try_match_deposit_with_mint_mismatched_safe_addr;
    AuditedMintTests.test_try_match_deposit_with_mint_mismatched_token_id;
    AuditedMintTests.test_try_match_deposit_with_mint_mismatched_token_addr;
    AuditedMintTests.test_try_match_mint_with_deposit_happy_flow;
    AuditedMintTests.test_try_match_mint_with_deposit_amount_mismatch;
    AuditedMintTests.test_try_match_mint_with_deposit_unsaved_object;
    AuditedMintTests.test_try_match_mint_with_deposit_mismatched_safe_addr;
    AuditedMintTests.test_try_match_mint_with_deposit_mismatched_token_id;
    AuditedMintTests.test_try_match_mint_with_deposit_mismatched_token_addr;
    AuditedMintTests.test_list_audited_mints] = true.
Proof. vm_compute. reflexivity. Qed.

(** [audited_burn.rs]. *)
Lemma audited_burn_tests_pass :
  forallb passes [AuditedBurnTests.test_try_match_withdrawal_with_burn_happy_flow;
    AuditedBurnTests.test_try_match_withdrawal_with_burn_amount_mismatch;
    AuditedBurnTests.test_try_match_withdrawal_with_burn_unsaved_object;
    AuditedBurnTests.test_try_match_withdrawal_with_burn_mismatched_safe_addr;
    AuditedBurnTests.test_try_match_withdrawal_with_burn_mismatched_token_id;
    AuditedBurnTests.test_try_match_withdrawal_with_burn_mismatched_token_addr;
    AuditedBurnTests.test_try_match_burn_with_withdrawal_happy_flow;
    AuditedBurnTests.test_try_match_burn_with_withdrawal_amount_mismatch;
    AuditedBurnTests.test_try_match_burn_with_withdrawal_unsaved_object;
    AuditedBurnTests.test_try_match_burn_with_withdrawal_mismatched_safe_addr;
    AuditedBurnTests.test_try_match_burn_with_withdrawal_mismatched_token_id;
    AuditedBurnTests.test_try_match_burn_with_withdrawal_mismatched_token_addr;
    AuditedBurnTests.test_list_audited_burns] = true.
Proof. vm_compute. reflexivity. Qed.

(** [db/mod.rs]. *)
Lemma sync_block_tests_pass :
  forallb passes [SyncBlockTests.test_sync_block_happy_flow;
    SyncBlockTests.test_sync_block_refuses_skipping_a_block;
    SyncBlockTests.test_sync_block_refuses_same_block;
    SyncBlockTests.test_sync_block_refuses_going_backwards;
    SyncBlockTests.test_sync_block_increases_counter_on_over_burn;
    SyncBlockTests.test_sync_block_counts_mint_txs_without_active_config;
    SyncBlockTests.test_sync_blocks_counts_mint_txs_exceeding_total_mint_limit] = true.
Proof. vm_compute. reflexivity. Qed.

(** [gnosis/sync.rs]. *)
Lemma gnosis_sync_tests_pass :
  forallb passes [GnosisSyncTests.process_transactions_works all_transactions_response;
    GnosisSyncTests.process_transactions_ignores_unknown all_transactions_response] = true.
Proof. vm_compute. reflexivity. Qed.

(** [convert]. *)
Lemma convert_tests_pass :
  forallb passes [ConvertTests.test_convert_gnosis_safe_deposit;
    ConvertTests.test_convert_gnosis_safe_tx;
    ConvertTests.test_convert_gnosis_safe_withdrawal] = true.
Proof. vm_compute. reflexivity. Qed.

(** [service.rs]. *)
Lemma service_tests_pass :
  forallb passes [ServiceTests.test_get_block_audit_data;
    ServiceTests.test_get_last_block_audit_data;
    ServiceTests.test_get_counters] = true.
Proof. vm_compute. reflexivity. Qed.

(** [http_api/service.rs]. *)
Lemma http_service_tests_pass :
  forallb passes [HttpServiceTests.test_get_block_audit_data;
    HttpServiceTests.test_get_last_block_audit_data;
    HttpServiceTests.test_get_mint_total;
    HttpServiceTests.test_get_burn_total;
    HttpServiceTests.test_get_counters;
    HttpServiceTests.test_get_audited_mints_service;
    HttpServiceTests.test_get_unaudited_gnosis_deposits;
    HttpServiceTests.test_get_audited_burns_service;
    HttpServiceTests.test_get_unaudited_burn_tx_outs;
    HttpServiceTests.test_get_mint_info_by_block] = true.
Proof. vm_compute. reflexivity. Qed.

(** The second half of [process_transactions_ignores_unknown] on a database of its own.  In
    the test it runs after a first pass that has stored every transaction, so that it
    skips them all; alone it stores the two deposits that the test expects it to ignore,
    for the second token of its configuration has the contract they are made in. *)
Definition unknown_tokens_alone (expected : nat) : Test unit :=
  _ ← open_test_db;
  raw_transactions ← GnosisSyncTests.get_raw_transactions all_transactions_response;
  config ← GnosisSyncTests.unknown_token_config;
  _ ← ok (GnosisSync.process_transactions config raw_transactions);
  deposits ← ok GnosisSyncTests.stored_deposits;
  assert_eq (length deposits) expected.

Lemma unknown_tokens_alone_stores_deposits :
  passes (unknown_tokens_alone 2) && negb (passes (unknown_tokens_alone 0)) = true.
Proof. vm_compute. reflexivity. Qed.

(** ** Row order

    [find_unaudited_withdrawals] has no [ORDER BY], and its test compares a vector: it is
    the one test that another order of rows fails. *)
Definition reversed_sqlite : Sqlite := {|
  scan R l := List.rev l;
  unique_message := unique_message;
  foreign_key_message := foreign_key_message;
  syntax_error_message := syntax_error_message;
|}.

Lemma unaudited_withdrawals_test_needs_row_order :
  passes (SafeRowTests.test_find_unaudited_withdrawals (X_sqlite := reversed_sqlite)) = false.
Proof. vm_compute. reflexivity. Qed.
